(* ===== verification/_CoqProject ===== *)
-Q . S2P
Prelude.v
JsString.v
JsValue.v
Json.v
JsonFacts.v
Urls.v
Dates.v
Numbers.v
Fetcher.v
Session.v
Api.v
Router.v
Polling.v
Optimistic.v
FormInputs.v
DefaultConfigs.v
Profiles.v
RouteExtensions.v
RouteForms.v
RouteInputs.v
RoutesPage.v
Canvas.v
CanvasViews.v
L4Acl.v
L4Forms.v
L4Inputs.v
UpstreamForms.v
UpstreamService.v
UpstreamInputs.v
Previews.v
UpstreamsPage.v
ExtensionConfig.v
ConfigInputs.v
ProfileForm.v
CertificatesPage.v
L4Page.v
ExtensionsPage.v
SecuritySettings.v
DialogInputs.v
Notifications.v
AlertViews.v
SecurityDialogs.v
BackupSettings.v
Analytics.v
AnalyticsViews.v
Connections.v
ConnectionInputs.v
Dashboard.v
Shell.v
ListViews.v
ExtensionViews.v
UiKit.v
Views.v
LivePages.v
ListParts.v
Screens.v
ExtensionHub.v
BackupViews.v
ConnectionViews.v
