(* ===== verification/Prelude.v ===== *)
(** * Aurora API Gateway console: a verification development

    Aurora is an API gateway in three parts: a data plane (Rust and C under
    [crates/] and [adapters/]), a control plane (Go, under
    [control-plane/]) and an administration console (TypeScript and React,
    under [ui/src/]). This development models the logic of the console: what
    it keeps, what it sends to the control plane, how it reads answers back
    and what its editors do to the configuration they edit. Of the control
    plane it models the service that stores upstreams, which the round trip
    of the upstream editor goes through. Paths below are under
    [src/ui/src/], those of [UpstreamService] under
    [src/control-plane/internal/].

    ** How the program is put together

    Every page talks to the control plane through [lib/fetcher.ts] and the
    endpoint modules of [lib/api/]. List pages poll: they number their
    requests and use an answer only if no later request was made. Editor
    pages load an item into form state, let the user change it, check it and
    send a payload. Extension configurations and the assignment of
    extension profiles to routes are JSON texts that several editors parse,
    change and print again. React state is modelled by records; a handler
    is a function from the state and its arguments to the new state and the
    request it makes, split at each [await] into the part before the request
    and the part that receives its outcome, so that other events can come in
    between. The network, [localStorage], the clock and the answers of the
    control plane are arguments. Case mapping and collation, which depend on
    the Unicode tables of the engine, are the classes [CaseMapping]
    ([JsString]) and [Collation] ([RoutesPage]) that fix only documented
    behaviour, each with an instance.

    ** The files

    The language:
    - [Prelude]: tactics, lists as arrays, stable sorting, results of calls
      that may throw, the closure [star] of a step relation with its
      invariant principles.
    - [JsString], [JsValue]: strings as UTF-16 code units with the methods
      the console calls; values, objects with their property order, decimal
      numbers.
    - [Json], [JsonFacts]: [JSON.stringify] and [JSON.parse], and the round
      trip between them in the compact and the indented layout.
    - [Urls]: [URLSearchParams] and [encodeURIComponent] with the decoder
      they are inverse to.
    - [Dates], [Numbers]: time values with [toISOString], and [toFixed].

    The client:
    - [Fetcher]: [lib/fetcher.ts] and [hooks/useApi.ts].
    - [Session]: the login form, the guard of [layouts/ConsoleLayout.tsx],
      the stored side bar and theme.
    - [Api]: [lib/api/*.ts], a [Module] per endpoint file.
    - [Router]: the addresses of [main.tsx], their patterns and redirects,
      the links to them and the guard around them.

    Shared protocols, as type classes that the pages instantiate:
    - [Polling]: the numbered requests of the list pages ([ListPage]).
    - [Optimistic]: switches that change a row before the answer
      ([Toggleable]).
    - [FormInputs]: controlled inputs, each with the field it shows and the
      fields it writes ([FormInputs]).

    Components, one file each:
    - [DefaultConfigs], [Profiles]: the tables and functions of
      [pages/extensions/data/].
    - [RouteExtensions]: profiles in the [plugins_json] of a route.
    - [RouteForms], [RouteInputs], [RoutesPage], [Canvas],
      [CanvasViews]: [pages/routes/].
    - [L4Acl], [L4Forms], [L4Inputs], [L4Page]: [pages/l4/].
    - [UpstreamForms], [UpstreamInputs], [UpstreamsPage]:
      [pages/upstreams/]; [UpstreamService]: what the control plane does
      with an upstream, from the request ([transport/http/handler/upstream.go])
      through the checks and rewrites of [service/upstream_service.go] to
      the answer of [GetByID]; the URL and X.509 parsers of Go are the class
      [GoLibrary].
    - [Previews]: the summaries beside the inputs of the three editors, as
      instances of one interface ([Preview]).
    - [ExtensionConfig], [ConfigInputs], [ProfileForm], [ExtensionsPage]:
      [pages/extensions/], the dialog with its widgets and its profile
      manager; [ExtensionViews]: the icons, the tabs and header of the
      dialog, and the cards of the switches of a route.
    - [CertificatesPage]: [pages/certificates/].
    - [SecuritySettings], [Notifications], [BackupSettings]: the tabs of
      [pages/settings/] that talk to the control plane; [AlertViews] and
      [SecurityDialogs]: their sections and dialogs as machines with the
      requests in flight, and the view of the login form.
    - [DialogInputs]: the inputs of the certificate dialog and of the
      provider setup.
    - [Analytics], [AnalyticsViews], [Connections], [ConnectionInputs]:
      [pages/analytics/].
    - [Dashboard]: [pages/dashboard/].
    - [Shell]: the theme of the document, the side bar and the header, the
      tabs of the settings and the panels of the dashboard.
    - [ListViews]: the filter bars and rows of the routes, upstreams and
      extensions pages.
    - [Views]: the tables of services, certificates and rules, and the
      entries of [components/ConsoleSidebar.tsx].
    - [UiKit]: the widgets of [components/ui/] that keep a state or compute
      what they show.

    Compositions, which run the components above together:
    - [LivePages]: polling and optimistic switches of the routes and
      certificates pages with the control plane and the messages between
      them ([SwitchPage]).
    - [ListParts]: the cards above the lists ([StatPage]) and the dialogs
      that confirm a deletion ([DeletePage]), instantiated by each page.
    - [Screens]: what the list pages draw from all of this ([ListScreen]).
    - [ExtensionHub]: the extensions page with its dialog, the saves and
      switches under way and the timers.
    - [BackupViews], [ConnectionViews]: the tabs of backups and of the
      metrics connection with their requests and timers.

    A form is split in two files: [...Forms] has its state, loading,
    validation and payload, [...Inputs] its markup: one constructor per
    input or button, the condition under which it is offered and what its
    handler writes.

    ** What the theorems show

    - The client resolves and throws as documented on every outcome, sends
      JSON bodies and query strings that decode to what was passed, and
      carries the token of the session exactly while there is one
      ([settle_classifies], [json_request_faithful],
      [buildUrl_query_roundtrip], [login_opens_console]).
    - Signing in stores a session only when the control plane grants it, the
      second factor is bound to the login that asked for it, and the guard
      follows the session whatever order answers arrive in
      ([login_session_sound], [second_factor_bound], [guard_decides]); every
      address shows a page, every link lands on the page it names, and
      without a session every address shows the login page
      ([every_address_shows], [links_land], [guard_covers]).
    - Polling shows the newest answer and never goes back
      ([newest_response_shown], [responses_applied_in_order]), which the L4
      page uses to keep a deleted service away ([l4_delete_shown]).
    - Editors keep their invariants along every sequence of operations: ACL
      rules strictly ordered and refining an evaluation-order list
      ([acl_reachable_invariant], [acl_refines_policy]); the three copies of
      an extension configuration ([visual_copies_agree]); server pools and
      probes; one active authentication provider ([provider_always_active]).
    - Loading an item and saving it unchanged sends it back as it was
      ([route_edit_roundtrip], [l4_create_edit_roundtrip],
      [cert_edit_roundtrip], [provider_setup_roundtrip],
      [saved_config_reopens]); for upstreams this goes through the service
      of the control plane, which accepts what it stored and stores it again
      ([upstream_edit_roundtrip]); and forms send exactly when their guards hold, with payloads in bounds
      ([route_submit_guarded], [l4_submit_guarded], [cert_submit_guarded],
      [ssl_material_gated], [password_change_guarded]).
    - Choosing a profile for an extension on a route reads back, and leaves
      the other extensions alone ([select_profile_roundtrip],
      [select_profile_frame], [resolve_profiles_lookup]); the canvas, the
      table and the switches agree on what runs ([extension_views_agree],
      [pipeline_in_order], [dock_matches_pipeline]) and a profile dropped
      on a route runs there ([dropped_profile_runs], [dock_click_turns]).
    - Against the control plane: optimistic switches of different rows, in
      any number and with answers in any order, keep the list in step with
      the control plane and leave no trace when they are refused
      ([switches_settle], without polls and without a second click of a row
      under way, which the canvas does not prevent; [toggle_rolls_back]),
      and once the answers are in a poll repairs whatever lost answers,
      double clicks and other clients did, up to the 200 rows that the pages
      ask for ([page_catches_up]). The answer to the latest
      request decides the whole screen ([screens_follow_answers]), the
      ringed card counts the rows shown ([stat_cards_agree]), and a deletion
      is of the item that the dialog showed ([dialogs_keep_contract]).
    - Lists are filtered, ordered and counted as they
      are shown ([filteredRoutes_sorted], [ext_counts_match_filters]), and
      paged loading ends with the whole list ([load_pages_complete]).
    - Whatever is done with the inputs that a page offers, what is entered
      last is what is shown and sent, forms stay in the values the console
      supports, and configurations keep their declared types
      ([last_entry_shown], [typed_port_is_sent], [entered_key_is_sent],
      [typed_pair_is_sent], [inputs_stay_supported],
      [connection_stays_typed], [field_edit_roundtrip], [profile_reopens],
      [edit_replaces_profile]); the create page of routes names only
      upstreams that were listed ([created_route_targets_listed]) and its
      JSON badge tells the truth ([json_badge_truthful]).
    - Settings: a snapshot is restored only after it was selected and
      confirmed ([restore_confirmed]), a silence lasts as long as was
      chosen ([silence_window]), a loaded configuration saves as itself
      ([backup_config_roundtrip], [connection_save_roundtrip]) and requests
      that fail leave the rest usable ([overview_degrades],
      [backup_requests_settle]); sections and dialogs send one request at a
      time and are busy exactly while it is in flight
      ([alert_requests_single], [password_dialog_requests],
      [two_factor_dialog_requests], [login_view_consistent],
      [hub_saves_own], [connection_requests_sound]), and a message of
      success goes away ([success_banner_expires]).
    - Analytics and dashboard: the chart has exactly the points of the
      series ([chart_faithful], [stats_ordered]), queries and refreshes come
      to an end ([explorer_comes_to_rest], [refresh_completes]); a query is
      sent as it was entered and the legend switches its own line
      ([entered_query_is_sent], [legend_switches_lines]).
    - Tables agree with the editors and filters that work on the same data
      ([l4_row_matches_editor], [wildcard_rows_highlighted],
      [toggle_turns_mark]), bars offer and count what they show
      ([offered_host_shown], [pills_count_shown], [cards_count_rows],
      [load_decides_body]), and one entry of the side bar is marked
      ([one_nav_item]). The canvas draws every route once
      ([canvas_draws_once]), the switches count the cards they show
      ([switches_agree]) and every extension has an icon
      ([extension_icons_sound]).
    - What an editor previews is what it saves ([previews_read_payloads]).
    - The shell: the document carries the theme that is chosen
      ([document_follows_theme]), the side bar is the same whichever way it
      is controlled ([sidebar_controlled_agrees]), the settings show a tab
      they have ([settings_selects_valid]) and a confirmation goes away
      ([copied_clears]).
    - The kit: the side bar, its cookie and the width of the window agree
      ([sidebar_provider_consistent]), the carousel enables the directions
      its engine has ([carousel_buttons_agree], for every [Engine]), a
      tooltip shows its label once ([tooltip_label_once]) and a field each
      message once ([field_errors_distinct]).

    Some lemmas record behaviour that is probably not meant:
    [L4Acl.quick_add_exceeds_bound], [RouteExtensions.select_profile_shadowed],
    [RouteForms.edit_rewrites_zero_priority],
    [ExtensionConfig.json_tab_discards_edits],
    [ExtensionsPage.switch_discards_edits],
    [UpstreamService.edit_turns_dynamic_dns_on],
    [UpstreamService.external_sni_replaced],
    [ExtensionConfig.save_past_end_disagrees],
    [Fetcher.caller_abort_reported_as_timeout],
    [SecuritySettings.overlapping_toggles_disable_all],
    [BackupSettings.save_forgets_selected_file],
    [Notifications.saving_disconnected_disables],
    [Analytics.overlapping_queries], [Analytics.added_query_reuses_letter],
    [Dashboard.overtaken_refresh_never_ends],
    [ConfigInputs.rule_switch_first_click],
    [UpstreamInputs.enter_adds_unavailable_probe],
    [UpstreamInputs.grpc_keeps_http10], [RouteInputs.edit_badge_unchecked],
    [RouteInputs.badge_accepts_odd_space],
    [DialogInputs.Certificate.hidden_ca_is_sent],
    [ConnectionInputs.hidden_token_is_sent],
    [ProfileForm.reopened_summary_grows], [ProfileForm.summary_not_cleared],
    [Views.L4Table.odd_acl_text], [Views.RulesTable.unset_rule_first_click],
    [Canvas.switches_count_passthrough],
    [ListViews.RoutesBar.stale_host_filter],
    [ListViews.ExtensionBar.all_pill_misses], [Router.metrics_falls_back],
    [Shell.SideBar.search_box_inert], [Shell.SettingsTabs.logging_forgotten],
    [Shell.Panels.second_copy_cut_short],
    [Shell.Panels.cards_without_control_plane],
    [AlertViews.expire_sent_twice], [AlertViews.answer_closes_other_dialog],
    [SecurityDialogs.Password.timeout_closes_new_dialog],
    [SecurityDialogs.TwoFactor.recovery_codes_lost],
    [SecurityDialogs.LoginView.remember_inert],
    [AnalyticsViews.Builder.stale_aggregation],
    [AnalyticsViews.Chart.hidden_carries_over],
    [Previews.UpstreamPreview.blank_address_previewed],
    [Previews.UpstreamPreview.unused_ca_previewed],
    [Previews.UpstreamPreview.snippet_verifies_plain_http],
    [ExtensionViews.Icons.iconless_extensions],
    [ExtensionViews.Icons.observability_icons_shared],
    [ExtensionViews.Workspace.first_rule_unreachable],
    [ExtensionViews.Switches.deleted_profile_selected],
    [UiKit.ChartKit.formatted_label_lost],
    [UiKit.Carousel.reInit_listener_left],
    [LivePages.stale_list_reverts_switch],
    [LivePages.overlapping_refusals_disagree],
    [LivePages.canvas_refusals_disagree],
    [LivePages.update_carries_refused_switch],
    [ListParts.DeleteDialogs.old_failure_shown],
    [ListParts.DeleteDialogs.upstream_answer_closes_other],
    [Screens.odd_snis_crash],
    [Screens.UpstreamsScreen.failed_deletion_hides_table],
    [Screens.UpstreamsScreen.hidden_upstreams_unconfigured],
    [ExtensionHub.timer_closes_other_dialog],
    [ExtensionHub.refused_switches_disagree],
    [BackupViews.second_banner_cut_short],
    [ConnectionViews.overlapping_tests] and
    [ConnectionViews.failed_test_keeps_panel]. The theorems about the same
    functions carry the hypothesis that excludes them.

    ** Bounds and fuel

    Integers that the code keeps in range are [Z] with the checks of the
    source; no machine width matters, since JavaScript numbers of this size
    are exact. Numbers inside JSON are exact decimals: rounding to binary64
    is not modelled, which only differs from the engine for texts of more
    than fifteen significant digits. The values of a time series and their
    means are exact as well. Dates are integers of milliseconds, in the
    range that [Date] can hold where the text of a date is used. The parser
    of [Json] has fuel twice the length of its text plus one and never runs
    out, as the round-trip theorem shows on every printed value. The loading
    loop of
    [UpstreamsPage] has fuel for its number of requests:
    [load_pages_complete] and [load_pages_terminates] say how much is
    enough. Every other definition is structural.

    ** What is not modelled

    Styling and animation of the React components, and the labels and fixed
    texts around the inputs, which do not depend on any state; the clipboard
    itself and the QR code; the drawing of the chart and of the icons; the
    widgets under [components/ui] other than those of [UiKit], which add
    class names to elements of libraries and are not used by the pages;
    sections of fixed text ([DashboardNodesSummary], [DashboardStatusBanner],
    [LoginInfoCards]). The scheduling of React is modelled to the extent the
    code depends on it: handlers run to their next [await] and the state they
    set is what the next one sees. The data plane and, apart from the
    service of [UpstreamService], the control plane are other programs in
    other languages: what they answer is an argument here. Of that service
    the publication to the data planes and the database under the table of
    rows are left out. *)

From Stdlib Require Import ZArith NArith Lia Sorting.Sorted Sorting.Permutation.
From stdpp Require Export prelude.

Create HintDb aurora discriminated.
Create Rewrite HintDb aurora.

(** ** Tactics *)

(** Case analysis on the scrutinee of the innermost [if]/[match] of the goal
    or of a hypothesis, keeping the equation. *)
Ltac case_if :=
  match goal with
  | |- context [if ?b then _ else _] => destruct b eqn:?
  | H : context [if ?b then _ else _] |- _ => destruct b eqn:?
  end.

Ltac boolify :=
  repeat match goal with
  | H : (_ && _)%bool = true |- _ => apply andb_true_iff in H as [? ?]
  | H : (_ || _)%bool = false |- _ => apply orb_false_iff in H as [? ?]
  | H : negb _ = true |- _ => apply negb_true_iff in H
  | H : negb _ = false |- _ => apply negb_false_iff in H
  | H : (_ =? _)%Z = true |- _ => apply Z.eqb_eq in H
  | H : (_ =? _)%Z = false |- _ => apply Z.eqb_neq in H
  | H : (_ <? _)%Z = true |- _ => apply Z.ltb_lt in H
  | H : (_ <? _)%Z = false |- _ => apply Z.ltb_ge in H
  | H : (_ <=? _)%Z = true |- _ => apply Z.leb_le in H
  | H : (_ <=? _)%Z = false |- _ => apply Z.leb_gt in H
  | H : (_ =? _)%N = true |- _ => apply N.eqb_eq in H
  | H : (_ =? _)%N = false |- _ => apply N.eqb_neq in H
  | H : (_ <? _)%N = true |- _ => apply N.ltb_lt in H
  | H : (_ <? _)%N = false |- _ => apply N.ltb_ge in H
  | H : (_ <=? _)%N = true |- _ => apply N.leb_le in H
  | H : (_ <=? _)%N = false |- _ => apply N.leb_gt in H
  | H : bool_decide _ = true |- _ => apply bool_decide_eq_true in H
  | H : bool_decide _ = false |- _ => apply bool_decide_eq_false in H
  end.

(** ** Lists as JavaScript arrays *)

(** [xs.filter((_, i) => i !== index)] *)
Fixpoint remove_at {A} (i : nat) (l : list A) : list A :=
  match l, i with
  | [], _ => []
  | _ :: l', O => l'
  | x :: l', S i' => x :: remove_at i' l'
  end.

Lemma remove_at_sublist {A} i (l : list A) : remove_at i l `sublist_of` l.
Proof.
  revert i; induction l as [|x l IH]; intros [|i]; simpl.
  - constructor.
  - constructor.
  - by apply sublist_cons.
  - by apply sublist_skip.
Qed.

Lemma length_remove_at {A} i (l : list A) :
  i < length l -> length (remove_at i l) = length l - 1.
Proof.
  revert i; induction l as [|x l IH]; intros [|i] Hi; simpl in *; try lia.
  rewrite IH by lia. lia.
Qed.

Lemma NoDup_list_filter {B} (f : B -> bool) (l : list B) : NoDup l -> NoDup (List.filter f l).
Proof.
  induction 1 as [|x l Hx _ IH]; simpl; [constructor|]. destruct (f x); [|done].
  constructor; [|done]. rewrite list_elem_of_In, filter_In, <- list_elem_of_In. by intros [? _].
Qed.

Lemma filter_sublist {A} (f : A -> bool) (l : list A) : List.filter f l `sublist_of` l.
Proof.
  induction l as [|x l IH]; simpl; [constructor|].
  destruct (f x); [by apply sublist_skip|by apply sublist_cons].
Qed.

Lemma map_filter_nodup {A B} (f : A -> bool) (g : A -> B) (l : list A) :
  NoDup (map g l) -> NoDup (map g (List.filter f l)).
Proof.
  induction l as [|x l IH]; simpl; [done|]. rewrite NoDup_cons. intros [Hx Hd].
  destruct (f x); simpl; [|auto]. constructor; [|auto].
  rewrite list_elem_of_In, in_map_iff in *. intros (y & Hy & Hin). apply Hx. exists y.
  apply filter_In in Hin as [? _]. done.
Qed.

(** ** The stable sort of [Array.prototype.sort]

    A comparator that is a total preorder has exactly one stable sorted
    permutation, so the algorithm an engine uses does not matter; insertion
    from the right is stable. [le x y] stands for [compare(x, y) <= 0]. *)
Section StableSort.
Context {A : Type} (le : A -> A -> bool).

Fixpoint sort_insert (x : A) (l : list A) : list A :=
  match l with
  | [] => [x]
  | y :: l' => if le x y then x :: y :: l' else y :: sort_insert x l'
  end.

Fixpoint stable_sort (l : list A) : list A :=
  match l with
  | [] => []
  | x :: l' => sort_insert x (stable_sort l')
  end.

Lemma sort_insert_perm x l : sort_insert x l ≡ₚ x :: l.
Proof.
  induction l as [|y l IH]; simpl; [done|].
  case_if; [done|]. rewrite IH. apply Permutation_swap.
Qed.

Lemma stable_sort_perm l : stable_sort l ≡ₚ l.
Proof. induction l as [|x l IH]; simpl; [done|]. by rewrite sort_insert_perm, IH. Qed.

Lemma length_stable_sort l : length (stable_sort l) = length l.
Proof. apply Permutation_length, stable_sort_perm. Qed.

Definition sorted_by : list A -> Prop := StronglySorted (fun x y => le x y = true).

(** A comparator may be an order only on the elements that are sorted. *)
Section OnElements.
Context (P : A -> Prop).
Hypothesis le_total : forall x y, P x -> P y -> le x y = true \/ le y x = true.
Hypothesis le_trans : forall x y z, P x -> P y -> P z -> le x y = true -> le y z = true -> le x z = true.

Lemma sort_insert_sorted_on x l : P x -> Forall P l -> sorted_by l -> sorted_by (sort_insert x l).
Proof.
  intros Hx HP. induction 1 as [|y l Hl IH Hy]; simpl; [repeat constructor|].
  inversion HP as [|? ? Py Pl]; subst. case_if.
  - constructor; [by constructor|]. constructor; [done|].
    rewrite Forall_forall in *. eauto.
  - constructor; [by apply IH|]. rewrite sort_insert_perm. constructor; [|done].
    destruct (le_total x y); congruence.
Qed.

Lemma stable_sort_sorted_on l : Forall P l -> sorted_by (stable_sort l).
Proof.
  induction 1 as [|x l Hx Hl IH]; simpl; [constructor|].
  apply sort_insert_sorted_on; [done| |done]. by rewrite stable_sort_perm.
Qed.
End OnElements.

Lemma stable_sort_sorted :
  (forall x y, le x y = true \/ le y x = true) ->
  (forall x y z, le x y = true -> le y z = true -> le x z = true) ->
  forall l, sorted_by (stable_sort l).
Proof.
  intros Htot Htr l. apply (stable_sort_sorted_on (fun _ => True)); [auto|eauto|].
  by apply Forall_true.
Qed.

Lemma sort_insert_id x l : Forall (fun y => le x y = true) l -> sort_insert x l = x :: l.
Proof. destruct 1 as [|y l Hy _]; simpl; [done|]. by rewrite Hy. Qed.

Lemma stable_sort_id l : sorted_by l -> stable_sort l = l.
Proof.
  induction 1 as [|x l Hl IH Hx]; simpl; [done|]. rewrite IH. by apply sort_insert_id.
Qed.
End StableSort.

(** A strictly decreasing key makes the sorted permutation unique. *)
Lemma StronglySorted_perm_unique {A} (R : A -> A -> Prop) (l1 l2 : list A) :
  (forall x y, R x y -> R y x -> False) ->
  StronglySorted R l1 -> StronglySorted R l2 -> l1 ≡ₚ l2 -> l1 = l2.
Proof.
  intros Hasym H1; revert l2.
  induction H1 as [|x l1 Hl1 IH Hx]; intros l2 H2 Hp.
  - symmetry in Hp. by apply Permutation_nil_r in Hp.
  - destruct H2 as [|y l2 Hl2 Hy]; [by symmetry in Hp; apply Permutation_nil_cons in Hp|].
    assert (x = y) as ->.
    { assert (x ∈ y :: l2) as Hin by (rewrite <- Hp; left).
      assert (y ∈ x :: l1) as Hin' by (rewrite Hp; left).
      apply elem_of_cons in Hin as [->|Hin]; [done|].
      apply elem_of_cons in Hin' as [->|Hin']; [done|].
      rewrite Forall_forall in Hx, Hy. exfalso; eauto. }
    f_equal. apply IH; [done|]. by apply Permutation_cons_inv in Hp.
Qed.

Lemma StronglySorted_impl_in {A} (R S : A -> A -> Prop) (l : list A) :
  (forall x y, x ∈ l -> y ∈ l -> R x y -> S x y) ->
  StronglySorted R l -> StronglySorted S l.
Proof.
  intros H HR; induction HR as [|x l HR IH Hx]; constructor.
  - apply IH. intros; apply H; set_solver.
  - rewrite Forall_forall in Hx |- *. intros y Hy. apply H; set_solver.
Qed.

Lemma StronglySorted_sublist {A} (R : A -> A -> Prop) (l k : list A) :
  k `sublist_of` l -> StronglySorted R l -> StronglySorted R k.
Proof.
  induction 1 as [|x k l Hs IH|x k l Hs IH]; intros HR; inversion HR; subst; auto.
  constructor; [auto|]. rewrite Forall_forall in *. intros y Hy.
  match goal with H : forall _, _ -> R x _ |- _ => apply H end.
  by eapply elem_of_sublist.
Qed.

Lemma StronglySorted_map {A B} (f : A -> B) (R : B -> B -> Prop) (l : list A) :
  StronglySorted (fun x y => R (f x) (f y)) l <-> StronglySorted R (map f l).
Proof.
  induction l as [|x l IH]; simpl; [split; constructor|].
  split; inversion 1; subst; constructor; try (by apply IH); by apply Forall_map.
Qed.

(** ** Results of calls that may throw *)

Inductive result (E A : Type) :=
| Ok (a : A)
| Throw (e : E).
Arguments Ok {E A} a.
Arguments Throw {E A} e.

(** ** Reflexive transitive closure of a step relation *)
Section Star.
Context {S L : Type} (step : S -> L -> S -> Prop).

Inductive star : S -> list L -> S -> Prop :=
| star_nil s : star s [] s
| star_cons s l s' ls s'' : step s l s' -> star s' ls s'' -> star s (l :: ls) s''.

Lemma star_invariant (I : S -> Prop) s ls s' :
  (forall a l b, I a -> step a l b -> I b) -> I s -> star s ls s' -> I s'.
Proof. intros Hp Hi H; induction H; eauto. Qed.

(** An invariant over the events so far. *)
Lemma star_history (I : list L -> S -> Prop) s ls s' :
  (forall h a l b, I h a -> step a l b -> I (h ++ [l]) b) -> I [] s -> star s ls s' -> I ls s'.
Proof.
  intros Hp. enough (forall h, I h s -> star s ls s' -> I (h ++ ls) s') as Hs by (intros; by apply (Hs [])).
  intros h Hi H. revert h Hi. induction H as [s|s l s1 ls s2 Hstep Hstar IH]; intros h Hi; [by rewrite app_nil_r|].
  change (l :: ls) with ([l] ++ ls). rewrite app_assoc. eauto.
Qed.
End Star.
