(* ===== verification/JsString.v ===== *)
(** * JavaScript strings

    A JavaScript string is a sequence of UTF-16 code units; here a [list N].
    [js] reads a source literal (UTF-8, as this file is) into code units, so
    the console's Vietnamese messages keep their real length and content.
    The methods are those the console calls: [trim], [startsWith],
    [endsWith], [includes], [split], [join], [replace] with the regular
    expressions of the source, [slice] and the decimal printing of integers.
    [toLowerCase] depends on the Unicode tables of the engine: it is the
    class [CaseMapping], of which only the ASCII behaviour is fixed. *)

From Stdlib Require Import ZArith NArith Lia Ascii String.
From S2P Require Import Prelude.

Abbreviation jsstring := (list N).

(** ** Literals *)

Definition byte_codes (s : string) : list N := map N_of_ascii (list_ascii_of_string s).

(** UTF-8 to UTF-16: code points above U+FFFF become a surrogate pair. *)
Fixpoint utf16_of_utf8 (bs : list N) : jsstring :=
  match bs with
  | [] => []
  | b0 :: r0 =>
      if (b0 <? 128)%N then b0 :: utf16_of_utf8 r0 else
      match r0 with
      | [] => [65533%N]
      | b1 :: r1 =>
          if (b0 <? 224)%N then ((b0 - 192) * 64 + (b1 - 128))%N :: utf16_of_utf8 r1 else
          match r1 with
          | [] => [65533%N]
          | b2 :: r2 =>
              if (b0 <? 240)%N
              then ((b0 - 224) * 4096 + (b1 - 128) * 64 + (b2 - 128))%N :: utf16_of_utf8 r2
              else match r2 with
                   | [] => [65533%N]
                   | b3 :: r3 =>
                       let c := ((b0 - 240) * 262144 + (b1 - 128) * 4096
                                 + (b2 - 128) * 64 + (b3 - 128) - 65536)%N in
                       (55296 + c / 1024)%N :: (56320 + c mod 1024)%N :: utf16_of_utf8 r3
                   end
          end
      end
  end.

Definition js (s : string) : jsstring := utf16_of_utf8 (byte_codes s).
Arguments js s%_string_scope : simpl never.

Definition jeqb (s t : jsstring) : bool := bool_decide (s = t).

(** ** Character classes *)

(** WhiteSpace and LineTerminator of ECMA-262, which are both what [trim]
    removes and what [\s] matches. *)
Definition is_ws (c : N) : bool :=
  ((9 <=? c) && (c <=? 13) || (c =? 32) || (c =? 160) || (c =? 5760)
   || (8192 <=? c) && (c <=? 8202) || (c =? 8232) || (c =? 8233) || (c =? 8239)
   || (c =? 8287) || (c =? 12288) || (c =? 65279))%N.

Definition is_digit (c : N) : bool := ((48 <=? c) && (c <=? 57))%N.
Definition is_upper (c : N) : bool := ((65 <=? c) && (c <=? 90))%N.
Definition is_lower (c : N) : bool := ((97 <=? c) && (c <=? 122))%N.

(** The complement of the class in [/[^a-z0-9_-]/g]. *)
Definition is_profile_char (c : N) : bool :=
  is_lower c || is_digit c || (c =? 95)%N || (c =? 45)%N.

(** ** Methods *)

Fixpoint drop_while (p : N -> bool) (s : jsstring) : jsstring :=
  match s with
  | [] => []
  | c :: s' => if p c then drop_while p s' else s
  end.

Definition trimStart (s : jsstring) : jsstring := drop_while is_ws s.
Definition trimEnd (s : jsstring) : jsstring := reverse (drop_while is_ws (reverse s)).
Definition trim (s : jsstring) : jsstring := trimEnd (trimStart s).

Fixpoint startsWith (p s : jsstring) : bool :=
  match p, s with
  | [], _ => true
  | a :: p', b :: s' => (a =? b)%N && startsWith p' s'
  | _, [] => false
  end.

Definition endsWith (p s : jsstring) : bool := startsWith (reverse p) (reverse s).

(** [s.includes(q)], written with the receiver last. *)
Fixpoint includes (q s : jsstring) : bool :=
  startsWith q s || match s with [] => false | _ :: s' => includes q s' end.

(** [s.split(/[...]/)] for a one-character class [p]. *)
Fixpoint split_on (p : N -> bool) (s : jsstring) : list jsstring :=
  match s with
  | [] => [[]]
  | c :: s' =>
      if p c then [] :: split_on p s' else
      match split_on p s' with
      | [] => [[c]]
      | w :: ws => (c :: w) :: ws
      end
  end.

Fixpoint join (sep : jsstring) (l : list jsstring) : jsstring :=
  match l with
  | [] => []
  | [s] => s
  | s :: l' => s ++ sep ++ join sep l'
  end.

(** [s.replace(/\s+/g, r)]: each maximal run of white space becomes [r]. *)
Fixpoint replace_ws_runs (r : jsstring) (in_run : bool) (s : jsstring) : jsstring :=
  match s with
  | [] => []
  | c :: s' =>
      if is_ws c
      then (if in_run then [] else r) ++ replace_ws_runs r true s'
      else c :: replace_ws_runs r false s'
  end.

(** [s.replace(/[^...]/g, r)] for the one-character class [keep]. *)
Definition replace_class (keep : N -> bool) (r : N) (s : jsstring) : jsstring :=
  map (fun c => if keep c then c else r) s.

(** [s.replace(/^p/, "")] for a literal prefix. *)
Definition strip_prefix (p s : jsstring) : jsstring :=
  if startsWith p s then drop (List.length p) s else s.

(** [s.slice(0, n)] and [s.slice(-n)] *)
Definition slice_head (n : nat) (s : jsstring) : jsstring := take n s.
Definition slice_tail (n : nat) (s : jsstring) : jsstring := drop (List.length s - n) s.

(** [a || b] on strings: the empty string is the only falsy one. *)
Definition str_or (a b : jsstring) : jsstring := match a with [] => b | _ => a end.

Class CaseMapping := {
  toLowerCase : jsstring -> jsstring;
  toLowerCase_ascii s :
    Forall (fun c => (c < 128)%N) s ->
    toLowerCase s = map (fun c => if is_upper c then (c + 32)%N else c) s
}.

(** The mapping that leaves everything outside ASCII alone. *)
Definition ascii_lower (s : jsstring) : jsstring :=
  map (fun c => if is_upper c then (c + 32)%N else c) s.

#[export] Instance ascii_case_mapping : CaseMapping | 100 :=
  {| toLowerCase := ascii_lower; toLowerCase_ascii s _ := eq_refl |}.

(** ** Decimal digits *)

Fixpoint digits_aux (fuel : nat) (n : Z) (acc : jsstring) : jsstring :=
  match fuel with
  | O => acc
  | S f =>
      let acc' := (48 + Z.to_N (n mod 10))%N :: acc in
      if (n <? 10)%Z then acc' else digits_aux f (n / 10) acc'
  end.

(** The decimal digits of a natural number; [Z.log2] bounds their number. *)
Definition digits (n : Z) : jsstring := digits_aux (S (Z.to_nat (Z.log2 n))) n [].

Definition digits_val (ds : jsstring) : Z :=
  fold_left (fun a d => 10 * a + (Z.of_N d - 48))%Z ds 0%Z.

(** [String(n)] for an integer. *)
Definition int_string (n : Z) : jsstring :=
  if (n <? 0)%Z then 45%N :: digits (- n) else digits n.

(** ** Lemmas *)

Lemma jeqb_true s t : jeqb s t = true <-> s = t.
Proof. apply bool_decide_eq_true. Qed.
Lemma jeqb_false s t : jeqb s t = false <-> s <> t.
Proof. apply bool_decide_eq_false. Qed.
Lemma jeqb_refl s : jeqb s s = true.
Proof. by apply jeqb_true. Qed.
#[export] Hint Rewrite jeqb_refl : aurora.

(** Decide one string comparison of the goal. *)
Ltac case_jeqb :=
  match goal with
  | |- context [jeqb ?a ?b] =>
      let E := fresh "E" in destruct (jeqb a b) eqn:E;
      [apply jeqb_true in E | apply jeqb_false in E]
  end.

Lemma drop_while_idemp p s : drop_while p (drop_while p s) = drop_while p s.
Proof. induction s as [|c s IH]; simpl; [done|]. destruct (p c) eqn:E; [done|]. simpl. by rewrite E. Qed.

Lemma drop_while_nil p s : drop_while p s = [] <-> Forall (fun c => p c = true) s.
Proof.
  induction s as [|c s IH]; simpl; [split; constructor|].
  rewrite Forall_cons. destruct (p c); [rewrite IH; tauto|].
  split; [done|]. by intros [? _].
Qed.

Lemma drop_while_suffix p s : exists k, s = k ++ drop_while p s /\ Forall (fun c => p c = true) k.
Proof.
  induction s as [|c s [k [IH Hk]]]; simpl; [by exists []|].
  destruct (p c) eqn:E; [|by exists []].
  exists (c :: k). split; [simpl; by f_equal|by constructor].
Qed.

Lemma drop_while_id p c s : p c = false -> drop_while p (c :: s) = c :: s.
Proof. intros E. simpl. by rewrite E. Qed.

(** The first and last code units of a trimmed string are not white space. *)
Definition trimmed (s : jsstring) : Prop :=
  (forall c, head s = Some c -> is_ws c = false) /\ (forall c, last s = Some c -> is_ws c = false).

Lemma drop_while_trimmed p s c : head (drop_while p s) = Some c -> p c = false.
Proof.
  induction s as [|d s IH]; simpl; [done|].
  destruct (p d) eqn:E; [done|]. simpl. intros [= ->]. done.
Qed.

Lemma trim_trimmed s : trimmed (trim s).
Proof.
  unfold trim, trimEnd. split; intros c Hc.
  - destruct (drop_while_suffix is_ws (reverse (trimStart s))) as (k & Hk & Hws).
    apply (drop_while_trimmed is_ws s). fold (trimStart s).
    assert (trimStart s = reverse (drop_while is_ws (reverse (trimStart s))) ++ reverse k) as Heq.
    { rewrite <- reverse_app, <- Hk. by rewrite reverse_involutive. }
    rewrite Heq. destruct (reverse (drop_while _ _)); [done|]. done.
  - rewrite last_reverse in Hc. by apply drop_while_trimmed in Hc.
Qed.

Lemma trim_id s : trimmed s -> trim s = s.
Proof.
  intros [Hh Hl]. unfold trim, trimEnd, trimStart.
  destruct s as [|c s]; [done|].
  rewrite drop_while_id by (by apply Hh).
  destruct (reverse (c :: s)) as [|d r] eqn:E.
  - apply (f_equal reverse) in E. rewrite reverse_involutive in E. done.
  - rewrite drop_while_id; [by rewrite <- E, reverse_involutive|].
    apply Hl. rewrite <- (reverse_involutive (c :: s)), E.
    rewrite last_reverse. done.
Qed.

Lemma trim_idemp s : trim (trim s) = trim s.
Proof. apply trim_id, trim_trimmed. Qed.
#[export] Hint Rewrite trim_idemp : aurora.

Lemma trim_nil s : trim s = [] <-> Forall (fun c => is_ws c = true) s.
Proof.
  unfold trim, trimEnd. split.
  - intros H. apply (f_equal reverse) in H. rewrite reverse_involutive in H.
    apply drop_while_nil in H. rewrite Forall_reverse in H.
    unfold trimStart in H.
    destruct (drop_while_suffix is_ws s) as (k & -> & Hk).
    apply Forall_app; split; [done|]. unfold trimStart in *.
    by rewrite <- (drop_while_idemp is_ws), (proj2 (drop_while_nil is_ws _) H).
  - intros H. apply drop_while_nil in H. unfold trimStart. by rewrite H.
Qed.

Lemma replace_ws_runs_no_ws r b s :
  Forall (fun c => is_ws c = false) r ->
  Forall (fun c => is_ws c = false) (replace_ws_runs r b s).
Proof.
  intros Hr; revert b; induction s as [|c s IH]; intros b; simpl; [constructor|].
  destruct (is_ws c) eqn:E; [|by constructor].
  destruct b; [apply IH|]. apply Forall_app; auto.
Qed.

Lemma replace_ws_runs_id r b s :
  Forall (fun c => is_ws c = false) s -> replace_ws_runs r b s = s.
Proof. intros H; revert b; induction H as [|c s Hc _ IH]; intros b; simpl; [done|]. by rewrite Hc, IH. Qed.

Lemma replace_class_keeps keep r s :
  keep r = true -> Forall (fun c => keep c = true) (replace_class keep r s).
Proof. intros Hr. apply Forall_map, Forall_true. intros c. simpl. by destruct (keep c) eqn:E. Qed.

Lemma replace_class_id keep r s :
  Forall (fun c => keep c = true) s -> replace_class keep r s = s.
Proof. induction 1 as [|c s Hc _ IH]; [done|]. simpl. rewrite Hc. by f_equal. Qed.

Lemma length_replace_class keep r s : List.length (replace_class keep r s) = List.length s.
Proof. apply length_map. Qed.

Lemma startsWith_spec p s : startsWith p s = true <-> p `prefix_of` s.
Proof.
  revert s; induction p as [|a p IH]; intros s; simpl.
  - split; [intros _; apply prefix_nil|done].
  - destruct s as [|b s].
    + split; [done|]. intros H. by apply prefix_nil_not in H.
    + rewrite andb_true_iff, N.eqb_eq, IH. split.
      * intros [-> H]. by apply prefix_cons.
      * intros H. split; [by apply prefix_cons_inv_1 in H|by apply prefix_cons_inv_2 in H].
Qed.

(** [s.includes(q)] says that [q] occurs in [s]. *)
Lemma includes_spec q s : includes q s = true <-> exists a b, s = a ++ q ++ b.
Proof.
  induction s as [|c s IH]; simpl.
  - rewrite orb_false_r, startsWith_spec. split.
    + intros [b Hb]. exists [], b. done.
    + intros (a & b & Hab). symmetry in Hab. apply app_eq_nil in Hab as [_ Hab].
      apply app_eq_nil in Hab as [-> _]. done.
  - rewrite orb_true_iff, startsWith_spec, IH. split.
    + intros [[b Hb]|(a & b & ->)]; [by exists [], b|by exists (c :: a), b].
    + intros ([|x a] & b & H); simpl in H.
      * left. by exists b.
      * injection H as -> ->. right. by exists a, b.
Qed.

(** *** Digits *)

Lemma digits_val_app a b :
  digits_val (a ++ b) = (digits_val a * 10 ^ Z.of_nat (List.length b) + digits_val b)%Z.
Proof.
  unfold digits_val. rewrite fold_left_app.
  generalize (fold_left (fun a d => 10 * a + (Z.of_N d - 48))%Z a 0%Z). clear a.
  induction b as [|d b IH] using rev_ind; intros x; [simpl; lia|].
  rewrite !fold_left_app, length_app. simpl. rewrite IH.
  replace (Z.of_nat (List.length b + 1)) with (Z.succ (Z.of_nat (List.length b))) by lia.
  rewrite Z.pow_succ_r by lia. ring.
Qed.

Lemma digits_val_zeros n : digits_val (replicate n 48%N) = 0%Z.
Proof.
  induction n as [|n IH]; [done|].
  change (replicate (S n) 48%N) with ([48%N] ++ replicate n 48%N).
  rewrite digits_val_app, IH. done.
Qed.

Lemma digits_aux_spec fuel n acc :
  (0 <= n < 2 ^ Z.of_nat fuel)%Z -> (0 < fuel)%nat ->
  exists ds, digits_aux fuel n acc = ds ++ acc /\ digits_val ds = n
    /\ Forall (fun c => is_digit c = true) ds /\ ds <> []
    /\ (head ds = Some 48%N -> n = 0%Z).
Proof.
  revert n acc; induction fuel as [|f IH]; intros n acc Hn Hf; [lia|]. simpl.
  pose proof (Z.mod_pos_bound n 10 ltac:(lia)) as Hm.
  assert (is_digit (48 + Z.to_N (n mod 10)) = true) as Hd
    by (unfold is_digit; apply andb_true_iff; rewrite !N.leb_le; lia).
  destruct (n <? 10)%Z eqn:E; boolify.
  - exists [(48 + Z.to_N (n mod 10))%N].
    rewrite Z.mod_small by lia. repeat split; try done.
    + unfold digits_val; simpl. lia.
    + rewrite Z.mod_small in Hd by lia. by repeat constructor.
    + intros [= H]. lia.
  - assert (0 < f)%nat by (destruct f; [simpl in Hn; lia|lia]).
    assert (0 <= n / 10 < 2 ^ Z.of_nat f)%Z as Hb.
    { split; [by apply Z.div_pos; lia|]. apply Z.div_lt_upper_bound; [lia|].
      replace (Z.of_nat (S f)) with (Z.succ (Z.of_nat f)) in Hn by lia.
      rewrite Z.pow_succ_r in Hn by lia. pose proof (Z.pow_pos_nonneg 2 (Z.of_nat f)). lia. }
    destruct (IH (n / 10)%Z ((48 + Z.to_N (n mod 10))%N :: acc) Hb ltac:(done))
      as (ds & Hds & Hv & Hf' & Hne & Hh).
    exists (ds ++ [(48 + Z.to_N (n mod 10))%N]). repeat split.
    + rewrite Hds, <- app_assoc. done.
    + rewrite digits_val_app, Hv. unfold digits_val; simpl.
      pose proof (Z.div_mod n 10). lia.
    + apply Forall_app; split; [done|]. by repeat constructor.
    + by destruct ds.
    + destruct ds as [|d ds]; [done|]. simpl. intros [= ->].
      specialize (Hh eq_refl). assert (1 <= n / 10)%Z by (apply Z.div_le_lower_bound; lia). lia.
Qed.

Lemma digits_spec n : (0 <= n)%Z ->
  digits_val (digits n) = n /\ Forall (fun c => is_digit c = true) (digits n)
  /\ digits n <> [] /\ (head (digits n) = Some 48%N -> n = 0%Z).
Proof.
  intros Hn. unfold digits.
  destruct (digits_aux_spec (S (Z.to_nat (Z.log2 n))) n []) as (ds & -> & ?); [|lia|].
  - split; [done|]. replace (Z.of_nat (S (Z.to_nat (Z.log2 n)))) with (Z.succ (Z.log2 n))
      by (pose proof (Z.log2_nonneg n); lia).
    destruct (Z.eq_dec n 0%Z) as [->|]; [done|]. apply Z.log2_spec. lia.
  - by rewrite app_nil_r.
Qed.

Lemma digits_zero : digits 0 = [48%N].
Proof. done. Qed.

Lemma int_string_inj a b : int_string a = int_string b -> a = b.
Proof.
  assert (forall n, (0 <= n)%Z -> head (digits n) <> Some 45%N) as Hnd.
  { intros n Hn. destruct (digits_spec n Hn) as (_ & Hd & _ & _).
    destruct (digits n) as [|d ds]; [done|]. simpl. inversion Hd; subst. intros [= ->]. done. }
  unfold int_string. intros H.
  destruct (a <? 0)%Z eqn:Ea, (b <? 0)%Z eqn:Eb; boolify.
  - injection H as H. apply (f_equal digits_val) in H.
    rewrite (proj1 (digits_spec (- a) ltac:(lia))), (proj1 (digits_spec (- b) ltac:(lia))) in H. lia.
  - exfalso. apply (Hnd b ltac:(lia)). by rewrite <- H.
  - exfalso. apply (Hnd a ltac:(lia)). by rewrite H.
  - apply (f_equal digits_val) in H.
    by rewrite (proj1 (digits_spec a ltac:(lia))), (proj1 (digits_spec b ltac:(lia))) in H.
Qed.

(** ** [a || b] on strings *)

Lemma str_or_trim t d : trim d = d -> trim (str_or (trim t) d) = str_or (trim t) d.
Proof. intros Hd. destruct (trim t) as [|c u] eqn:E; simpl; [done|]. by rewrite <- E, trim_idemp. Qed.

Lemma str_or_ne a d : d <> [] -> str_or a d <> [].
Proof. by destruct a. Qed.

Lemma str_or_again a d : str_or (str_or a d) d = str_or a d.
Proof. destruct a; simpl; [by destruct d|done]. Qed.

(** ** Splitting *)

Lemma split_on_plain p s : Forall (fun c => p c = false) s -> split_on p s = [s].
Proof.
  induction 1 as [|c s Hc _ IH]; simpl; [done|]. by rewrite Hc, IH.
Qed.

Lemma split_on_cons p s c t :
  Forall (fun c => p c = false) s -> p c = true -> split_on p (s ++ c :: t) = s :: split_on p t.
Proof.
  intros Hs Hc. induction Hs as [|d s Hd _ IH]; simpl; [by rewrite Hc|]. by rewrite Hd, IH.
Qed.

Lemma split_on_nonempty p s : exists w ws, split_on p s = w :: ws.
Proof.
  induction s as [|c s (w & ws & IH)]; simpl; [eauto|]. destruct (p c); [eauto|]. rewrite IH. eauto.
Qed.
