(* ===== verification/JsValue.v ===== *)
(** * JavaScript values and objects

    The values that travel through the console's untyped code: what
    [JSON.parse] returns and [JSON.stringify] takes. An object is its list
    of own properties in enumeration order: array-index keys first, in
    ascending order, then the other keys in insertion order. [obj_put] is
    [o[k] = v], [obj_del] is [delete o[k]], [obj_assign] is the spread
    [{...a, ...b}]. Numbers are exact decimals [m * 10^e], with [NaN] and
    the infinities apart. *)

From Stdlib Require Import ZArith NArith Lia Sorting.Sorted String.
From S2P Require Import Prelude JsString.

(** ** Numbers *)

Inductive num :=
| NNaN
| NInf (neg : bool)
| NDec (m e : Z).

(** Canonical decimals: no trailing zero in the mantissa, one zero. *)
Definition num_canonical (n : num) : Prop :=
  match n with
  | NDec m e => (m = 0 /\ e = 0)%Z \/ (m mod 10 <> 0)%Z
  | _ => False
  end.

Fixpoint strip_zeros (fuel : nat) (m e : Z) : num :=
  match fuel with
  | O => NDec m e
  | S f =>
      if (m =? 0)%Z then NDec 0 0
      else if (m mod 10 =? 0)%Z then strip_zeros f (m / 10) (e + 1) else NDec m e
  end.

Definition num_make (m e : Z) : num := strip_zeros (S (Z.to_nat (Z.log2 (Z.abs m)))) m e.

Definition num_of_Z (n : Z) : num := num_make n 0.

(** [Number.isInteger], with the integer. *)
Definition num_to_Z (n : num) : option Z :=
  match n with
  | NDec m e => if (0 <=? e)%Z then Some (m * 10 ^ e)%Z else None
  | _ => None
  end.

(** A number is falsy when it is 0 or NaN. *)
Definition num_truthy (n : num) : bool :=
  match n with
  | NNaN => false
  | NInf _ => true
  | NDec m _ => negb (m =? 0)%Z
  end.

(** [Number::toString] of ECMA-262, radix 10: [k] significant digits [ds],
    decimal point after the first [n] of them. *)
Definition dec_string (m e : Z) : jsstring :=
  let ds := digits m in
  let k := Z.of_nat (length ds) in
  let n := (k + e)%Z in
  if ((k <=? n) && (n <=? 21))%Z then ds ++ replicate (Z.to_nat (n - k)) 48%N
  else if ((0 <? n) && (n <=? 21))%Z then
    take (Z.to_nat n) ds ++ [46%N] ++ drop (Z.to_nat n) ds
  else if ((-6 <? n) && (n <=? 0))%Z then
    [48%N; 46%N] ++ replicate (Z.to_nat (- n)) 48%N ++ ds
  else
    take 1 ds ++ (if (k =? 1)%Z then [] else [46%N] ++ drop 1 ds)
      ++ [101%N; (if (n - 1 <? 0)%Z then 45%N else 43%N)] ++ digits (Z.abs (n - 1)).

Definition num_string (n : num) : jsstring :=
  match n with
  | NNaN => js "NaN"
  | NInf neg => if neg then js "-Infinity" else js "Infinity"
  | NDec m e => if (m <? 0)%Z then 45%N :: dec_string (- m) e else dec_string m e
  end.

(** ** Values *)

Unset Elimination Schemes.
Inductive val :=
| VUndef
| VNull
| VBool (b : bool)
| VNum (n : num)
| VStr (s : jsstring)
| VArr (l : list val)
| VObj (o : list (jsstring * val)).
Set Elimination Schemes.

Lemma val_ind (P : val -> Prop) :
  P VUndef -> P VNull -> (forall b, P (VBool b)) -> (forall n, P (VNum n)) ->
  (forall s, P (VStr s)) -> (forall l, Forall P l -> P (VArr l)) ->
  (forall o, Forall (fun kv => P kv.2) o -> P (VObj o)) -> forall v, P v.
Proof.
  intros H1 H2 H3 H4 H5 H6 H7. fix IH 1. intros [| |b|n|s|l|o];
    [exact H1|exact H2|apply H3|apply H4|apply H5|apply H6|apply H7].
  - induction l as [|v l IHl]; constructor; [apply IH|apply IHl].
  - induction o as [|[k v] o IHo]; constructor; [apply IH|apply IHo].
Qed.

Abbreviation obj := (list (jsstring * val)).

(** Truthiness of [!!v]. *)
Definition truthy (v : val) : bool :=
  match v with
  | VUndef | VNull => false
  | VBool b => b
  | VNum n => num_truthy n
  | VStr s => negb (jeqb s [])
  | VArr _ | VObj _ => true
  end.

(** [a || b] and [a ?? b] *)
Definition val_or (a b : val) : val := if truthy a then a else b.
Definition val_nullish (a b : val) : val := match a with VUndef | VNull => b | _ => a end.

Definition VInt (n : Z) : val := VNum (num_of_Z n).
Definition vstr (s : string) : val := VStr (js s).

(** ** Objects *)

(** An array index: the canonical decimal of an integer below 2^32 - 1. *)
Definition array_index (k : jsstring) : option Z :=
  if forallb is_digit k && negb (jeqb k [])
     && (jeqb k [48%N] || negb (bool_decide (head k = Some 48%N)))
     && (digits_val k <? 4294967295)%Z
  then Some (digits_val k) else None.

(** [key_before k k']: a new key [k] is enumerated before the present [k']. *)
Definition key_before (k k' : jsstring) : bool :=
  match array_index k, array_index k' with
  | Some a, Some b => (a <? b)%Z
  | Some _, None => true
  | None, _ => false
  end.

Section Objects.
Context {A : Type}.
Implicit Types (o : list (jsstring * A)) (k : jsstring) (v : A).

Fixpoint obj_get k o : option A :=
  match o with
  | [] => None
  | (k', v) :: o' => if jeqb k k' then Some v else obj_get k o'
  end.

Fixpoint obj_put k v o : list (jsstring * A) :=
  match o with
  | [] => [(k, v)]
  | (k', v') :: o' =>
      if jeqb k k' then (k, v) :: o'
      else if key_before k k' then (k, v) :: (k', v') :: o'
      else (k', v') :: obj_put k v o'
  end.

Definition obj_del k o : list (jsstring * A) :=
  List.filter (fun kv => negb (jeqb k kv.1)) o.

Definition obj_assign o o' : list (jsstring * A) :=
  fold_left (fun a kv => obj_put kv.1 kv.2 a) o' o.

Definition obj_of_entries o : list (jsstring * A) := obj_assign [] o.

(** Own properties in enumeration order, each key once. *)
Definition obj_wf o : Prop :=
  StronglySorted (fun a b => a.1 <> b.1 /\ key_before b.1 a.1 = false) o.

Lemma obj_get_put_eq k v o : obj_get k (obj_put k v o) = Some v.
Proof.
  induction o as [|[k' v'] o IH]; simpl; [by rewrite jeqb_refl|].
  destruct (jeqb k k') eqn:E; simpl; [by rewrite jeqb_refl|].
  destruct (key_before k k'); simpl; [by rewrite jeqb_refl|]. by rewrite E.
Qed.

Lemma obj_get_put_ne k k' v o : k <> k' -> obj_get k' (obj_put k v o) = obj_get k' o.
Proof.
  intros Hne. assert (jeqb k' k = false) as Hk by (apply jeqb_false; congruence).
  induction o as [|[k2 v2] o IH]; simpl; [by rewrite Hk|].
  destruct (jeqb k k2) eqn:E.
  - apply jeqb_true in E as <-. simpl. by rewrite Hk.
  - destruct (key_before k k2); simpl; [by rewrite Hk|]. by rewrite IH.
Qed.

Lemma obj_get_del_eq k o : obj_get k (obj_del k o) = None.
Proof.
  induction o as [|[k' v'] o IH]; simpl; [done|].
  destruct (jeqb k k') eqn:E; simpl; [done|]. by rewrite E.
Qed.

Lemma obj_get_del_ne k k' o : k <> k' -> obj_get k' (obj_del k o) = obj_get k' o.
Proof.
  intros Hne. induction o as [|[k2 v2] o IH]; simpl; [done|].
  destruct (jeqb k k2) eqn:E; simpl; [|by rewrite IH].
  apply jeqb_true in E as <-. replace (jeqb k' k) with false; [done|].
  symmetry. apply jeqb_false. congruence.
Qed.

Lemma obj_assign_app o o1 o2 : obj_assign o (o1 ++ o2) = obj_assign (obj_assign o o1) o2.
Proof. apply fold_left_app. Qed.

Lemma obj_get_assign_notin k o o' :
  k ∉ o'.*1 -> obj_get k (obj_assign o o') = obj_get k o.
Proof.
  revert o; induction o' as [|[k' v'] o' IH]; intros o Hk; simpl in *; [done|].
  rewrite IH by set_solver. apply obj_get_put_ne. set_solver.
Qed.

Lemma key_before_trans a b c :
  key_before a b = true -> key_before c b = false -> key_before c a = false.
Proof.
  unfold key_before.
  destruct (array_index a), (array_index b), (array_index c); intros; boolify; try done;
    apply Z.ltb_ge; lia.
Qed.

Lemma key_before_asym a b : key_before a b = true -> key_before b a = false.
Proof.
  unfold key_before. destruct (array_index a), (array_index b); intros; boolify; try done.
  apply Z.ltb_ge. lia.
Qed.

Lemma obj_put_keys k v o : forall x, x ∈ obj_put k v o -> x = (k, v) \/ x ∈ o.
Proof.
  induction o as [|[k' v'] o IH]; simpl; intros x; [set_solver|].
  destruct (jeqb k k'); [set_solver|]. destruct (key_before k k'); set_solver.
Qed.

Lemma obj_put_wf k v o : obj_wf o -> obj_wf (obj_put k v o).
Proof.
  unfold obj_wf. induction 1 as [|[k' v'] o Ho IH Hk]; simpl; [repeat constructor|].
  destruct (jeqb k k') eqn:E; [|destruct (key_before k k') eqn:Eb].
  - apply jeqb_true in E as <-. by constructor.
  - constructor; [by constructor|]. apply jeqb_false in E.
    constructor; [split; [done|by apply key_before_asym]|].
    rewrite Forall_forall in *. intros [k2 v2] Hin. destruct (Hk _ Hin) as [Hne Hb]; simpl in *.
    split; [|by eapply key_before_trans].
    intros ->. destruct (Hk _ Hin). congruence.
  - apply jeqb_false in E. constructor; [done|].
    rewrite Forall_forall in *. intros x Hx.
    apply obj_put_keys in Hx as [->|Hx]; [|by apply Hk]. by split.
Qed.

Lemma obj_del_wf k o : obj_wf o -> obj_wf (obj_del k o).
Proof.
  unfold obj_wf, obj_del. induction 1 as [|x o Ho IH Hx]; simpl; [constructor|].
  destruct (negb _); [|done]. constructor; [done|].
  rewrite Forall_forall in *. intros y Hy. apply Hx.
  apply list_elem_of_In, filter_In in Hy as [Hy _]. by apply list_elem_of_In.
Qed.

Lemma obj_assign_wf o o' : obj_wf o -> obj_wf (obj_assign o o').
Proof.
  revert o; induction o' as [|kv o' IH]; intros o Ho; simpl; [done|].
  by apply IH, obj_put_wf.
Qed.

Lemma obj_of_entries_wf o : obj_wf (obj_of_entries o).
Proof. apply obj_assign_wf. constructor. Qed.

Lemma obj_put_snoc k v o :
  Forall (fun a => a.1 <> k /\ key_before k a.1 = false) o -> obj_put k v o = o ++ [(k, v)].
Proof.
  induction 1 as [|[k' v'] o [Hk Hb] _ IH]; simpl in *; [done|].
  rewrite (proj2 (jeqb_false _ _)) by congruence. by rewrite Hb, IH.
Qed.

Lemma obj_wf_snoc_inv o k v :
  obj_wf (o ++ [(k, v)]) ->
  obj_wf o /\ Forall (fun a => a.1 <> k /\ key_before k a.1 = false) o.
Proof.
  unfold obj_wf. induction o as [|x o IH]; simpl; inversion 1 as [|? ? Ho Hx]; subst.
  - split; constructor.
  - destruct (IH Ho) as [Hw Hf]. apply Forall_app in Hx as [Hx Hl].
    split; constructor; try done. by inversion Hl.
Qed.

(** Rebuilding a well-formed object from its entries gives it back. *)
Lemma obj_of_entries_id o : obj_wf o -> obj_of_entries o = o.
Proof.
  induction o as [|[k v] o IH] using rev_ind; [done|].
  intros [Hw Hf]%obj_wf_snoc_inv. unfold obj_of_entries in *.
  rewrite obj_assign_app, IH by done. simpl. by apply obj_put_snoc.
Qed.

Lemma obj_put_same k v o : obj_wf o -> obj_get k o = Some v -> obj_put k v o = o.
Proof.
  unfold obj_wf. induction 1 as [|[k' v'] o Ho IH Hk]; simpl; [done|].
  destruct (jeqb k k') eqn:E; [apply jeqb_true in E as ->; by intros [= ->]|].
  intros Hg. destruct (key_before k k') eqn:Eb; [|by rewrite IH].
  assert (exists v0, (k, v0) ∈ o) as [v0 Hin].
  { clear -Hg. induction o as [|[k2 v2] o IH]; simpl in *; [done|].
    destruct (jeqb k k2) eqn:E; [apply jeqb_true in E as ->; exists v2; by left|].
    destruct (IH Hg) as [v0 ?]. exists v0. by right. }
  rewrite Forall_forall in Hk. destruct (Hk _ Hin) as [_ Hb]. simpl in Hb. congruence.
Qed.

Lemma obj_assign_same o l :
  obj_wf o -> Forall (fun kv => obj_get kv.1 o = Some kv.2) l -> obj_assign o l = o.
Proof.
  intros Ho. induction 1 as [|[k v] l Hk _ IH]; simpl in *; [done|]. by rewrite obj_put_same.
Qed.

Lemma obj_get_assign_in o l k v :
  NoDup l.*1 -> (k, v) ∈ l -> obj_get k (obj_assign o l) = Some v.
Proof.
  revert o; induction l as [|[k' v'] l IH]; intros o; simpl; [set_solver|].
  intros Hd Hin. apply NoDup_cons in Hd. apply elem_of_cons in Hin as [Heq|Hin]; [|by apply IH; [apply Hd|]].
  injection Heq as -> ->. rewrite obj_get_assign_notin by apply Hd. apply obj_get_put_eq.
Qed.

Lemma obj_wf_get o k v : obj_wf o -> (k, v) ∈ o -> obj_get k o = Some v.
Proof.
  unfold obj_wf. induction 1 as [|[k' v'] o Ho IH Hk]; simpl; [set_solver|].
  intros [[= -> ->]|Hin]%elem_of_cons; [by rewrite jeqb_refl|].
  rewrite Forall_forall in Hk. destruct (Hk _ Hin) as [Hne _]. simpl in Hne.
  rewrite (proj2 (jeqb_false _ _)) by congruence. auto.
Qed.

Lemma obj_get_in k v o : obj_get k o = Some v -> (k, v) ∈ o.
Proof.
  induction o as [|[k' v'] o IH]; simpl; [done|].
  destruct (jeqb k k') eqn:E; [|set_solver].
  apply jeqb_true in E as ->. intros [= ->]. set_solver.
Qed.
End Objects.

#[export] Hint Resolve obj_put_wf obj_del_wf obj_assign_wf obj_of_entries_wf : aurora.

(** [o[k]] on an object value, [undefined] when absent. *)
Definition prop (k : jsstring) (o : obj) : val := default VUndef (obj_get k o).

(** [v?.k]: own properties only; [undefined] on everything but objects. *)
Definition opt_prop (k : jsstring) (v : val) : val :=
  match v with VObj o => prop k o | _ => VUndef end.

Lemma prop_put_eq k v o : prop k (obj_put k v o) = v.
Proof. unfold prop. by rewrite obj_get_put_eq. Qed.
Lemma prop_put_ne k k' v o : k <> k' -> prop k' (obj_put k v o) = prop k' o.
Proof. intros. unfold prop. by rewrite obj_get_put_ne. Qed.
Lemma prop_del_eq k (o : obj) : prop k (obj_del k o) = VUndef.
Proof. unfold prop. by rewrite obj_get_del_eq. Qed.
Lemma prop_del_ne k k' (o : obj) : k <> k' -> prop k' (obj_del k o) = prop k' o.
Proof. intros. unfold prop. by rewrite obj_get_del_ne. Qed.
#[export] Hint Rewrite prop_put_eq prop_del_eq : aurora.

(** ** Numbers: lemmas *)

Lemma strip_zeros_shift fuel m e j :
  (m mod 10 <> 0)%Z -> (0 <= j)%Z -> (j < Z.of_nat fuel)%Z ->
  strip_zeros fuel (m * 10 ^ j) (e - j) = NDec m e.
Proof.
  intros Hm. revert e j; induction fuel as [|f IH]; intros e j Hj Hf; [lia|]. simpl.
  assert (m <> 0)%Z by (intros ->; done).
  assert (0 < 10 ^ j)%Z by (apply Z.pow_pos_nonneg; lia).
  replace (m * 10 ^ j =? 0)%Z with false by (symmetry; apply Z.eqb_neq; nia).
  destruct (Z.eq_dec j 0%Z) as [->|Hj0].
  - rewrite Z.pow_0_r, Z.mul_1_r, Z.sub_0_r. by rewrite (proj2 (Z.eqb_neq _ _) Hm).
  - replace (m * 10 ^ j)%Z with (m * 10 ^ (j - 1) * 10)%Z.
    2:{ replace j with (Z.succ (j - 1)) at 2 by lia. rewrite Z.pow_succ_r by lia. ring. }
    rewrite Z.mod_mul, Z.div_mul by lia. simpl.
    replace (e - j + 1)%Z with (e - (j - 1))%Z by lia. apply IH; lia.
Qed.

Lemma num_make_shift m e j :
  num_canonical (NDec m e) -> (0 <= j)%Z -> num_make (m * 10 ^ j) (e - j) = NDec m e.
Proof.
  intros [[-> ->]|Hm] Hj; [done|]. apply strip_zeros_shift; [done|done|].
  assert (m <> 0)%Z by (intros ->; done).
  assert (j <= Z.log2 (Z.abs (m * 10 ^ j)))%Z; [|lia].
  apply Z.log2_le_pow2; [|].
  - rewrite Z.abs_mul, (Z.abs_eq (10 ^ j)) by (apply Z.pow_nonneg; lia).
    assert (0 < 10 ^ j)%Z by (apply Z.pow_pos_nonneg; lia). nia.
  - rewrite Z.abs_mul, (Z.abs_eq (10 ^ j)) by (apply Z.pow_nonneg; lia).
    assert (2 ^ j <= 10 ^ j)%Z by (apply Z.pow_le_mono_l; lia).
    assert (0 < 10 ^ j)%Z by (apply Z.pow_pos_nonneg; lia). nia.
Qed.

Lemma num_make_canonical m e : num_canonical (NDec m e) -> num_make m e = NDec m e.
Proof.
  intros H. pose proof (num_make_shift m e 0%Z H ltac:(lia)) as Hs.
  by rewrite Z.pow_0_r, Z.mul_1_r, Z.sub_0_r in Hs.
Qed.

Lemma strip_zeros_canonical fuel m e :
  m <> 0%Z -> (Z.abs m < 10 ^ Z.of_nat fuel)%Z -> num_canonical (strip_zeros fuel m e).
Proof.
  revert m e; induction fuel as [|f IH]; intros m e H0 Hm; [simpl in Hm; lia|]. simpl.
  destruct (m =? 0)%Z eqn:E0; [by left|]. destruct (m mod 10 =? 0)%Z eqn:E; boolify; [|by right].
  rewrite Nat2Z.inj_succ, Z.pow_succ_r in Hm by lia.
  assert (m = 10 * (m / 10))%Z by (pose proof (Z.div_mod m 10); lia). apply IH; lia.
Qed.

Lemma num_of_Z_canonical n : num_canonical (num_of_Z n).
Proof.
  destruct (Z.eq_dec n 0%Z) as [->|Hn]; [by left|]. apply strip_zeros_canonical; [done|].
  assert (Z.abs n < 2 ^ Z.succ (Z.log2 (Z.abs n)))%Z as H1.
  { apply Z.log2_spec. lia. }
  eapply Z.lt_le_trans; [exact H1|].
  replace (Z.of_nat (S (Z.to_nat (Z.log2 (Z.abs n))))) with (Z.succ (Z.log2 (Z.abs n)))
    by (pose proof (Z.log2_nonneg (Z.abs n)); lia).
  apply Z.pow_le_mono_l; lia.
Qed.

Lemma strip_zeros_value fuel m e :
  (0 <= e)%Z -> exists m' e', strip_zeros fuel m e = NDec m' e' /\ (0 <= e')%Z
    /\ (m' * 10 ^ e' = m * 10 ^ e)%Z.
Proof.
  revert m e; induction fuel as [|f IH]; intros m e He; simpl; [by exists m, e|].
  destruct (m =? 0)%Z eqn:E0; boolify; [subst; by exists 0%Z, 0%Z|].
  destruct (m mod 10 =? 0)%Z eqn:E; boolify; [|by exists m, e].
  destruct (IH (m / 10)%Z (e + 1)%Z ltac:(lia)) as (m' & e' & -> & He' & Hv).
  exists m', e'. repeat split; [done|]. rewrite Hv. rewrite Z.pow_add_r by lia.
  pose proof (Z.div_mod m 10). nia.
Qed.

Lemma num_to_of_Z n : num_to_Z (num_of_Z n) = Some n.
Proof.
  destruct (strip_zeros_value (S (Z.to_nat (Z.log2 (Z.abs n)))) n 0%Z ltac:(lia))
    as (m & e & H & He & Hv).
  unfold num_of_Z, num_make. rewrite H. unfold num_to_Z.
  rewrite (proj2 (Z.leb_le _ _) He). f_equal. rewrite Z.pow_0_r in Hv. lia.
Qed.

(** ** Literals: [{ k: v, ... }] and [[ 'a', 'b' ]] *)

Definition obj_lit (l : list (string * val)) : obj :=
  obj_of_entries (map (fun kv => (js kv.1, kv.2)) l).
Definition vobj (l : list (string * val)) : val := VObj (obj_lit l).
Definition vstrs (l : list string) : val := VArr (map vstr l).

(** A decimal literal [m * 10^e]. *)
Definition vdec (m e : Z) : val := VNum (num_make m e).

Arguments obj_lit l%_list_scope.
Arguments vstr s%_string_scope.

(** [String(v)] in a template literal. Arrays join their elements with a
    comma ([null] and [undefined] elements are empty). *)
Fixpoint to_string (v : val) : jsstring :=
  match v with
  | VUndef => js "undefined"
  | VNull => js "null"
  | VBool b => if b then js "true" else js "false"
  | VNum n => num_string n
  | VStr s => s
  | VArr l => join (js ",") (map (fun v => match v with VUndef | VNull => [] | _ => to_string v end) l)
  | VObj _ => js "[object Object]"
  end.

(** [Object.entries(v)] on an object or an array value. *)
Definition entries_of (v : val) : option obj :=
  match v with
  | VObj o => Some o
  | VArr l => Some (imap (fun i v => (int_string (Z.of_nat i), v)) l)
  | _ => None
  end.

(** [{ ...v }] *)
Definition spread (v : val) : obj :=
  match v with
  | VObj o => o
  | VArr _ => obj_of_entries (default [] (entries_of v))
  | VStr s => obj_of_entries (imap (fun i c => (int_string (Z.of_nat i), VStr [c])) s)
  | _ => []
  end.
