(* ===== verification/Json.v ===== *)
(** * JSON.stringify and JSON.parse

    The serialiser follows ECMA-262: property order, the escapes of
    [QuoteJSONString] (lone surrogates included), [undefined] members
    dropped, [undefined], [NaN] and the infinities printed as [null] in an
    array, and the [gap] layout of [JSON.stringify(v, null, 2)]. The parser
    accepts the JSON grammar; a duplicate key keeps the last value, as
    [JSON.parse] does. Its fuel is twice the length of the text plus one:
    a character is consumed at least at every second call, so it never runs out. Numbers are parsed to
    exact decimals: rounding to binary64 (texts of more than fifteen
    significant digits, exponents beyond the range) is not modelled. *)

From Stdlib Require Import ZArith NArith Lia String.
From S2P Require Import Prelude JsString JsValue.

(** ** Strings *)

Definition is_high (c : N) : bool := ((55296 <=? c) && (c <=? 56319))%N.
Definition is_low (c : N) : bool := ((56320 <=? c) && (c <=? 57343))%N.

Definition hex_digit (d : N) : N := if (d <? 10)%N then (48 + d)%N else (87 + d)%N.

Definition unicode_escape (c : N) : jsstring :=
  [92; 117; hex_digit (c / 4096); hex_digit (c / 256 mod 16);
   hex_digit (c / 16 mod 16); hex_digit (c mod 16)]%N.

Definition quote_unit (c : N) : jsstring :=
  if (c =? 34)%N then [92; 34]%N
  else if (c =? 92)%N then [92; 92]%N
  else if (c =? 8)%N then [92; 98]%N
  else if (c =? 9)%N then [92; 116]%N
  else if (c =? 10)%N then [92; 110]%N
  else if (c =? 12)%N then [92; 102]%N
  else if (c =? 13)%N then [92; 114]%N
  else if (c <? 32)%N then unicode_escape c
  else [c].

Fixpoint quote_body (s : jsstring) : jsstring :=
  match s with
  | [] => []
  | c :: s' =>
      if is_high c then
        match s' with
        | d :: s'' => if is_low d then c :: d :: quote_body s'' else unicode_escape c ++ quote_body s'
        | [] => unicode_escape c
        end
      else if is_low c then unicode_escape c ++ quote_body s'
      else quote_unit c ++ quote_body s'
  end.

Definition quote (s : jsstring) : jsstring := [34%N] ++ quote_body s ++ [34%N].

(** ** JSON.stringify *)

Definition newline (gap ind : jsstring) : jsstring := match gap with [] => [] | _ => 10%N :: ind end.
Definition colon (gap : jsstring) : jsstring := match gap with [] => [58%N] | _ => [58; 32]%N end.

Definition bracket (gap ind : jsstring) (o c : N) (parts : list jsstring) : jsstring :=
  match parts with
  | [] => [o; c]
  | _ => [o] ++ newline gap (ind ++ gap) ++ join (44%N :: newline gap (ind ++ gap)) parts
           ++ newline gap ind ++ [c]
  end.

Fixpoint ser (gap ind : jsstring) (v : val) : jsstring :=
  match v with
  | VUndef | VNull => js "null"
  | VBool b => if b then js "true" else js "false"
  | VNum (NDec _ _ as n) => num_string n
  | VNum _ => js "null"
  | VStr s => quote s
  | VArr l => bracket gap ind 91 93 (map (ser gap (ind ++ gap)) l)
  | VObj o =>
      bracket gap ind 123 125
        (flat_map (fun '(k, v) => match v with
                                  | VUndef => []
                                  | _ => [quote k ++ colon gap ++ ser gap (ind ++ gap) v]
                                  end) o)
  end.

(** [JSON.stringify(v)]; [None] is the [undefined] it returns on [undefined]. *)
Definition stringify (v : val) : option jsstring :=
  match v with VUndef => None | _ => Some (ser [] [] v) end.

(** [JSON.stringify(o)] and [JSON.stringify(o, null, 2)] on an object. *)
Definition stringify_obj (o : obj) : jsstring := ser [] [] (VObj o).
Definition stringify_obj2 (o : obj) : jsstring := ser [32; 32]%N [] (VObj o).

(** ** JSON.parse *)

Definition is_json_ws (c : N) : bool := ((c =? 32) || (c =? 9) || (c =? 10) || (c =? 13))%N.
Definition skip_ws : jsstring -> jsstring := drop_while is_json_ws.

Definition hex_value (c : N) : option N :=
  if is_digit c then Some (c - 48)%N
  else if ((97 <=? c) && (c <=? 102))%N then Some (c - 87)%N
  else if ((65 <=? c) && (c <=? 70))%N then Some (c - 55)%N
  else None.

Definition simple_escape (c : N) : option N :=
  if (c =? 34)%N then Some 34%N else if (c =? 92)%N then Some 92%N
  else if (c =? 47)%N then Some 47%N else if (c =? 98)%N then Some 8%N
  else if (c =? 102)%N then Some 12%N else if (c =? 110)%N then Some 10%N
  else if (c =? 114)%N then Some 13%N else if (c =? 116)%N then Some 9%N else None.

(** The characters of a string literal after its opening quote. *)
Fixpoint parse_str (s : jsstring) : option (jsstring * jsstring) :=
  match s with
  | [] => None
  | c :: s' =>
      if (c =? 34)%N then Some ([], s')
      else if (c <? 32)%N then None
      else if (c =? 92)%N then
        match s' with
        | [] => None
        | e :: s'' =>
            if (e =? 117)%N then
              match s'' with
              | h1 :: h2 :: h3 :: h4 :: r =>
                  match hex_value h1, hex_value h2, hex_value h3, hex_value h4, parse_str r with
                  | Some a, Some b, Some c', Some d, Some (t, r') =>
                      Some (((a * 16 + b) * 16 + c') * 16 + d :: t, r')%N
                  | _, _, _, _, _ => None
                  end
              | _ => None
              end
            else match simple_escape e, parse_str s'' with
                 | Some u, Some (t, r') => Some (u :: t, r')
                 | _, _ => None
                 end
        end
      else match parse_str s' with Some (t, r) => Some (c :: t, r) | None => None end
  end.

Fixpoint span_digits (s : jsstring) : jsstring * jsstring :=
  match s with
  | [] => ([], [])
  | c :: s' => if is_digit c then let '(d, r) := span_digits s' in (c :: d, r) else ([], s)
  end.

(** [expect c s]: the rest of [s] after an expected first character. *)
Definition expect (c : N) (s : jsstring) : option jsstring :=
  match s with d :: s' => if (c =? d)%N then Some s' else None | [] => None end.

Definition parse_frac (s : jsstring) : option (jsstring * jsstring) :=
  match expect 46 s with
  | Some s1 => let '(fp, r) := span_digits s1 in match fp with [] => None | _ => Some (fp, r) end
  | None => Some ([], s)
  end.

Definition parse_exp (s : jsstring) : option (Z * jsstring) :=
  match s with
  | c :: s1 =>
      if ((c =? 101) || (c =? 69))%N then
        let '(neg, s2) := match s1 with
                          | d :: s2 => if (d =? 45)%N then (true, s2)
                                       else if (d =? 43)%N then (false, s2) else (false, s1)
                          | [] => (false, s1)
                          end in
        let '(ep, r) := span_digits s2 in
        match ep with
        | [] => None
        | _ => Some (if neg then (- digits_val ep)%Z else digits_val ep, r)
        end
      else Some (0%Z, s)
  | [] => Some (0%Z, s)
  end.

Definition leading_zero (ip : jsstring) : bool :=
  match ip with c :: _ :: _ => (c =? 48)%N | _ => false end.

Definition parse_num (s : jsstring) : option (num * jsstring) :=
  let '(neg, s1) := match expect 45 s with Some s1 => (true, s1) | None => (false, s) end in
  let '(ip, s2) := span_digits s1 in
  if jeqb ip [] || leading_zero ip then None else
  match parse_frac s2 with
  | None => None
  | Some (fp, s3) =>
      match parse_exp s3 with
      | None => None
      | Some (ex, r) =>
          let m := digits_val (ip ++ fp) in
          Some (num_make (if neg then - m else m) (ex - Z.of_nat (length fp)), r)%Z
      end
  end.

Definition keyword (w : jsstring) (s : jsstring) : option jsstring :=
  if startsWith w s then Some (drop (length w) s) else None.

Fixpoint parse_value (f : nat) (s : jsstring) {struct f} : option (val * jsstring) :=
  match f with
  | O => None
  | S f' =>
      match skip_ws s with
      | [] => None
      | c :: s1 =>
          if (c =? 34)%N then match parse_str s1 with Some (t, r) => Some (VStr t, r) | None => None end
          else if (c =? 91)%N then
            match expect 93 (skip_ws s1) with
            | Some r => Some (VArr [], r)
            | None => parse_elems f' s1 []
            end
          else if (c =? 123)%N then
            match expect 125 (skip_ws s1) with
            | Some r => Some (VObj [], r)
            | None => parse_members f' s1 []
            end
          else match keyword (js "true") (c :: s1) with
               | Some r => Some (VBool true, r)
               | None =>
          match keyword (js "false") (c :: s1) with
          | Some r => Some (VBool false, r)
          | None =>
          match keyword (js "null") (c :: s1) with
          | Some r => Some (VNull, r)
          | None => match parse_num (c :: s1) with Some (n, r) => Some (VNum n, r) | None => None end
          end end end
      end
  end
with parse_elems (f : nat) (s : jsstring) (acc : list val) {struct f} : option (val * jsstring) :=
  match f with
  | O => None
  | S f' =>
      match parse_value f' s with
      | None => None
      | Some (v, r) =>
          match expect 44 (skip_ws r) with
          | Some r' => parse_elems f' r' (acc ++ [v])
          | None => match expect 93 (skip_ws r) with
                    | Some r' => Some (VArr (acc ++ [v]), r')
                    | None => None
                    end
          end
      end
  end
with parse_members (f : nat) (s : jsstring) (acc : obj) {struct f} : option (val * jsstring) :=
  match f with
  | O => None
  | S f' =>
      match expect 34 (skip_ws s) with
      | None => None
      | Some s1 =>
          match parse_str s1 with
          | None => None
          | Some (k, s2) =>
              match expect 58 (skip_ws s2) with
              | None => None
              | Some s3 =>
                  match parse_value f' s3 with
                  | None => None
                  | Some (v, r) =>
                      match expect 44 (skip_ws r) with
                      | Some r' => parse_members f' r' (acc ++ [(k, v)])
                      | None => match expect 125 (skip_ws r) with
                                | Some r' => Some (VObj (obj_of_entries (acc ++ [(k, v)])), r')
                                | None => None
                                end
                      end
                  end
              end
          end
      end
  end.

(** [JSON.parse(s)]; [None] is the [SyntaxError] it throws. *)
Definition parse (s : jsstring) : option val :=
  match parse_value (S (2 * length s)) s with
  | Some (v, r) => match skip_ws r with [] => Some v | _ => None end
  | None => None
  end.

(** ** Values that JSON can represent *)

Definition units_ok (s : jsstring) : Prop := Forall (fun c => (c < 65536)%N) s.

Fixpoint json_ok (v : val) : Prop :=
  match v with
  | VUndef => False
  | VNull | VBool _ => True
  | VNum n => num_canonical n
  | VStr s => units_ok s
  | VArr l => fold_right (fun v P => json_ok v /\ P) True l
  | VObj o => obj_wf o /\ fold_right (fun '(k, v) P => (units_ok k /\ json_ok v) /\ P) True o
  end.

Lemma fold_right_Forall {A} (P : A -> Prop) (l : list A) :
  fold_right (fun a Q => P a /\ Q) True l <-> Forall P l.
Proof. induction l as [|a l IH]; simpl; [split; constructor|]. by rewrite IH, Forall_cons. Qed.

Lemma json_ok_arr l : json_ok (VArr l) <-> Forall json_ok l.
Proof. apply fold_right_Forall. Qed.

Lemma json_ok_obj o :
  json_ok (VObj o) <-> obj_wf o /\ Forall (fun kv => units_ok kv.1 /\ json_ok kv.2) o.
Proof.
  rewrite <- fold_right_Forall. simpl.
  assert (fold_right (fun '(k, v) P => (units_ok k /\ json_ok v) /\ P) True o
          = fold_right (fun kv P => (units_ok kv.1 /\ json_ok kv.2) /\ P) True o) as ->; [|done].
  induction o as [|[k v] o IH]; simpl; [done|]. by rewrite IH.
Qed.

(** ** Round trip: strings *)

Lemma hex_value_digit d : (d < 16)%N -> hex_value (hex_digit d) = Some d.
Proof.
  intros Hd. unfold hex_digit, hex_value, is_digit.
  destruct (d <? 10)%N eqn:E; boolify.
  - rewrite (proj2 (N.leb_le _ _)), (proj2 (N.leb_le _ _)) by lia. simpl. f_equal. lia.
  - assert ((87 + d <=? 57)%N = false) as -> by (apply N.leb_gt; lia).
    rewrite andb_false_r.
    rewrite (proj2 (N.leb_le _ _)), (proj2 (N.leb_le _ _)) by lia. simpl. f_equal. lia.
Qed.

Lemma parse_str_unicode c s t r :
  (c < 65536)%N -> parse_str s = Some (t, r) ->
  parse_str (unicode_escape c ++ s) = Some (c :: t, r).
Proof.
  intros Hc Hs. unfold unicode_escape. cbn [app parse_str N.eqb Pos.eqb N.ltb N.compare Pos.compare Pos.compare_cont].
  rewrite !hex_value_digit, Hs.
  - do 3 f_equal.
    pose proof (N.div_mod c 16). pose proof (N.div_mod (c / 16) 16). pose proof (N.div_mod (c / 256) 16).
    rewrite N.Div0.div_div in *. change (16 * 16)%N with 256%N in *.
    change (256 * 16)%N with 4096%N in *. lia.
  - apply N.mod_lt. lia.
  - apply N.mod_lt. lia.
  - apply N.mod_lt. lia.
  - apply N.Div0.div_lt_upper_bound. lia.
Qed.

Lemma parse_str_plain c s t r :
  (32 <= c)%N -> c <> 34%N -> c <> 92%N -> parse_str s = Some (t, r) ->
  parse_str (c :: s) = Some (c :: t, r).
Proof.
  intros H1 H2 H3 Hs. simpl.
  rewrite (proj2 (N.eqb_neq _ _) H2), (proj2 (N.ltb_ge _ _) H1), (proj2 (N.eqb_neq _ _) H3).
  by rewrite Hs.
Qed.

Lemma parse_str_unit c s t r :
  (c < 65536)%N -> parse_str s = Some (t, r) ->
  parse_str (quote_unit c ++ s) = Some (c :: t, r).
Proof.
  intros Hc Hs. unfold quote_unit.
  repeat (match goal with |- context [if (c =? ?k)%N then _ else _] =>
            destruct (c =? k)%N eqn:?; boolify; [subst; simpl; by rewrite Hs|] end).
  destruct (c <? 32)%N eqn:?; boolify; [by apply parse_str_unicode|].
  by apply parse_str_plain.
Qed.

Lemma parse_quote_body s r :
  units_ok s -> parse_str (quote_body s ++ 34%N :: r) = Some (s, r).
Proof.
  induction s as [s IH] using (induction_ltof1 _ (@length N)); unfold ltof in IH.
  intros Hs. destruct s as [|c s]; [done|].
  inversion Hs as [|? ? Hc Hs']; subst. cbn [quote_body].
  assert (forall t, length t <= length s -> units_ok t -> parse_str (quote_body t ++ 34%N :: r) = Some (t, r))
    as IH' by (intros t Ht; apply IH; simpl; lia).
  destruct (is_high c) eqn:Eh.
  - destruct s as [|d s].
    + apply parse_str_unicode; [done|]. by apply (IH' []).
    + inversion Hs' as [|? ? Hd Hs'']; subst.
      destruct (is_low d) eqn:El.
      * unfold is_high, is_low in *; boolify. cbn [app].
        apply parse_str_plain; [lia..|]. apply parse_str_plain; [lia..|]. apply IH'; [simpl; lia|done].
      * rewrite <- app_assoc. apply parse_str_unicode; [done|]. by apply IH'.
  - destruct (is_low c); rewrite <- app_assoc.
    + apply parse_str_unicode; [done|]. by apply IH'.
    + apply parse_str_unit; [done|]. by apply IH'.
Qed.

(** ** Round trip: numbers *)

(** What may follow a number without being read as part of it. *)
Definition num_delim (r : jsstring) : Prop :=
  forall c, head r = Some c -> is_digit c = false /\ c <> 46%N /\ c <> 101%N /\ c <> 69%N.

Lemma span_digits_app ds r :
  Forall (fun c => is_digit c = true) ds -> (forall c, head r = Some c -> is_digit c = false) ->
  span_digits (ds ++ r) = (ds, r).
Proof.
  induction 1 as [|d ds Hd _ IH]; intros Hr; simpl.
  - destruct r as [|c r]; [done|]. simpl. by rewrite Hr.
  - rewrite Hd. by rewrite IH.
Qed.

Definition exp_text (x : option (bool * jsstring)) : jsstring :=
  match x with None => [] | Some (neg, ds) => [101%N; if neg then 45%N else 43%N] ++ ds end.
Definition exp_value (x : option (bool * jsstring)) : Z :=
  match x with None => 0 | Some (true, ds) => - digits_val ds | Some (false, ds) => digits_val ds end%Z.
Definition frac_text (fp : jsstring) : jsstring := match fp with [] => [] | _ => 46%N :: fp end.
Definition all_digits (ds : jsstring) : Prop := Forall (fun c => is_digit c = true) ds.

Lemma parse_exp_text x r :
  (forall neg ds, x = Some (neg, ds) -> all_digits ds /\ ds <> []) -> num_delim r ->
  parse_exp (exp_text x ++ r) = Some (exp_value x, r).
Proof.
  intros Hx Hr. destruct x as [[neg ds]|]; simpl.
  - destruct (Hx neg ds eq_refl) as [Hd Hne]. unfold parse_exp.
    destruct neg; simpl; rewrite (span_digits_app ds r Hd) by (intros c Hc; by apply Hr); by destruct ds.
  - destruct r as [|c r]; [done|]. destruct (Hr c eq_refl) as (_ & _ & H1 & H2).
    unfold parse_exp. by rewrite (proj2 (N.eqb_neq _ _) H1), (proj2 (N.eqb_neq _ _) H2).
Qed.

Lemma frac_head fp x r c :
  (forall d, head r = Some d -> is_digit d = false) ->
  head (frac_text fp ++ exp_text x ++ r) = Some c -> is_digit c = false.
Proof.
  intros Hr. destruct fp; simpl; [|by intros [= <-]].
  destruct x as [[neg ds]|]; simpl; [by intros [= <-]|]. apply Hr.
Qed.

Lemma parse_frac_text fp x r :
  all_digits fp -> num_delim r ->
  parse_frac (frac_text fp ++ exp_text x ++ r) = Some (fp, exp_text x ++ r).
Proof.
  intros Hf Hr. unfold parse_frac. destruct fp as [|d fp].
  - simpl. destruct x as [[neg ds]|]; [done|]. simpl.
    destruct r as [|c r]; [done|]. destruct (Hr c eq_refl) as (_ & H & _). simpl.
    destruct c as [|p]; [done|]. simpl. destruct (46 =? p)%positive eqn:E; [|done].
    apply Pos.eqb_eq in E as <-. done.
  - change (expect 46 (frac_text (d :: fp) ++ exp_text x ++ r))
      with (Some ((d :: fp) ++ exp_text x ++ r)).
    cbv beta iota. rewrite span_digits_app; [done|done|].
    intros c. destruct x as [[neg ds]|]; simpl; [by intros [= <-]|]. intros Hc. by apply Hr.
Qed.

Lemma parse_num_assemble (neg : bool) ip fp x r :
  all_digits ip -> ip <> [] -> (head ip = Some 48%N -> ip = [48%N]) -> all_digits fp ->
  (forall ng ds, x = Some (ng, ds) -> all_digits ds /\ ds <> []) -> num_delim r ->
  parse_num ((if neg then [45%N] else []) ++ ip ++ frac_text fp ++ exp_text x ++ r)
  = Some (num_make (if neg then - digits_val (ip ++ fp) else digits_val (ip ++ fp))
            (exp_value x - Z.of_nat (length fp)), r)%Z.
Proof.
  intros Hip Hne Hz Hfp Hx Hr. unfold parse_num.
  assert (expect 45 (ip ++ frac_text fp ++ exp_text x ++ r) = None) as He.
  { destruct ip as [|d ip]; [done|]. inversion Hip as [|? ? Hd]; subst. simpl.
    destruct d as [|p]; [done|]. destruct (45 =? p)%positive eqn:E; [|done].
    apply Pos.eqb_eq in E as <-. done. }
  replace (match expect 45 ((if neg then [45%N] else []) ++ ip ++ frac_text fp ++ exp_text x ++ r)
           with Some s1 => (true, s1)
           | None => (false, (if neg then [45%N] else []) ++ ip ++ frac_text fp ++ exp_text x ++ r) end)
    with (neg, ip ++ frac_text fp ++ exp_text x ++ r)
    by (destruct neg; [done|simpl; by rewrite He]).
  rewrite span_digits_app by (done || intros c; apply frac_head; intros d Hd; by apply Hr).
  assert (jeqb ip [] || leading_zero ip = false) as ->.
  { rewrite (proj2 (jeqb_false _ _) Hne). destruct ip as [|d [|d' ip]]; [done..|]. simpl.
    apply N.eqb_neq. intros ->. by specialize (Hz eq_refl). }
  by rewrite parse_frac_text, parse_exp_text.
Qed.

Lemma head_take {A} n (l : list A) : 0 < n -> head (take n l) = head l.
Proof. destruct n, l; done || lia. Qed.

(** The four layouts of [Number::toString] as integer, fraction, exponent. *)
Lemma dec_string_parts m e :
  (0 <= m)%Z -> num_canonical (NDec m e) ->
  exists ip fp x j, dec_string m e = ip ++ frac_text fp ++ exp_text x
    /\ all_digits ip /\ ip <> [] /\ (head ip = Some 48%N -> ip = [48%N]) /\ all_digits fp
    /\ (forall ng ds, x = Some (ng, ds) -> all_digits ds /\ ds <> [])
    /\ (0 <= j)%Z /\ digits_val (ip ++ fp) = (m * 10 ^ j)%Z
    /\ (exp_value x - Z.of_nat (length fp) = e - j)%Z.
Proof.
  intros Hm Hcan. destruct (digits_spec m Hm) as (Hval & Hdig & Hne & Hz).
  assert (m = 0%Z -> e = 0%Z) as Hm0 by (destruct Hcan as [[_ ->]|Hc]; [done|intros ->; done]).
  unfold dec_string.
  set (ds := digits m) in *. set (k := Z.of_nat (length ds)). set (n := (k + e)%Z).
  assert (1 <= k)%Z by (unfold k; destruct ds; [done|simpl; lia]).
  assert (head ds = Some 48%N -> ds = [48%N]) as Hz'.
  { intros Hh. unfold ds. rewrite (Hz Hh). apply digits_zero. }
  assert (all_digits (replicate (Z.to_nat (n - k)) 48%N)) as Hrz by (by apply Forall_replicate).
  destruct ((k <=? n) && (n <=? 21))%Z eqn:E1; [|destruct ((0 <? n) && (n <=? 21))%Z eqn:E2;
    [|destruct ((-6 <? n) && (n <=? 0))%Z eqn:E3]]; boolify.
  - exists (ds ++ replicate (Z.to_nat (n - k)) 48%N), [], None, e. simpl.
    rewrite !app_nil_r. repeat split; try done; try lia.
    + by apply Forall_app.
    + destruct ds; done.
    + intros Hh. assert (head ds = Some 48%N) as Hh' by (destruct ds; done).
      rewrite (Hz' Hh'). replace (n - k)%Z with 0%Z; [done|]. unfold n. rewrite Hm0; [lia|]. by apply Hz.
    + constructor.
    + rewrite digits_val_app, digits_val_zeros, Hval, length_replicate.
      replace (Z.of_nat (Z.to_nat (n - k))) with e by lia. lia.
  - assert (n < k)%Z by (apply andb_false_iff in E1 as [E1|E1]; boolify; lia).
    exists (take (Z.to_nat n) ds), (drop (Z.to_nat n) ds), None, 0%Z.
    assert (length (drop (Z.to_nat n) ds) = Z.to_nat (k - n)) as Hlen by (rewrite length_drop; lia).
    rewrite Z.pow_0_r, Z.mul_1_r. simpl. rewrite app_nil_r.
    repeat split; try done; try lia.
    + destruct (drop (Z.to_nat n) ds) eqn:Ed; [simpl in Hlen; lia|done].
    + by apply Forall_take.
    + intros Ht. apply (f_equal length) in Ht. rewrite length_take in Ht. simpl in Ht. lia.
    + intros Hh. rewrite head_take in Hh by lia.
      assert (length ds = 1) by (by rewrite (Hz' Hh)). lia.
    + by apply Forall_drop.
    + by rewrite take_drop.
  - exists [48%N], (replicate (Z.to_nat (- n)) 48%N ++ ds), None, 0%Z.
    rewrite Z.pow_0_r, Z.mul_1_r. simpl. rewrite app_nil_r.
    repeat split; try done; try lia.
    + destruct (replicate (Z.to_nat (- n)) 48%N ++ ds) eqn:Er; [|done].
      apply app_eq_nil in Er as [_ ->]. done.
    + by repeat constructor.
    + apply Forall_app; split; [by apply Forall_replicate|done].
    + change (48%N :: ?l) with ([48%N] ++ l).
      rewrite app_assoc, digits_val_app, Hval. change [48%N] with (replicate 1 48%N).
      rewrite <- replicate_add, digits_val_zeros. lia.
    + rewrite length_app, length_replicate. lia.
  - exists (take 1 ds), (drop 1 ds), (Some (bool_decide (n - 1 < 0)%Z, digits (Z.abs (n - 1)))), 0%Z.
    destruct (digits_spec (Z.abs (n - 1)) ltac:(lia)) as (Hv2 & Hd2 & Hne2 & _).
    rewrite Z.pow_0_r, Z.mul_1_r.
    repeat split; try lia.
    + f_equal. cbn [exp_text].
      assert ((if (n - 1 <? 0)%Z then 45%N else 43%N) = (if bool_decide (n - 1 < 0)%Z then 45%N else 43%N)) as ->.
      { case_bool_decide as Hd; [by rewrite (proj2 (Z.ltb_lt _ _) Hd)|].
        by rewrite (proj2 (Z.ltb_ge _ _)) by lia. }
      f_equal. destruct (k =? 1)%Z eqn:Ek; boolify.
      * by rewrite drop_ge by lia.
      * destruct ds as [|d [|d' ds']]; done || (unfold k in Ek; simpl in Ek; lia).
    + by apply Forall_take.
    + destruct ds; done.
    + intros Hh. assert (head ds = Some 48%N) as Hh' by (destruct ds; done). by rewrite (Hz' Hh').
    + by apply Forall_drop.
    + injection H0 as <- <-. done.
    + injection H0 as <- <-. done.
    + by rewrite take_drop.
    + rewrite length_drop. cbn [exp_value]. case_bool_decide; rewrite Hv2; lia.
Qed.

Lemma parse_num_string m e r :
  num_canonical (NDec m e) -> num_delim r ->
  parse_num (num_string (NDec m e) ++ r) = Some (NDec m e, r).
Proof.
  intros Hc Hr.
  assert (num_canonical (NDec (Z.abs m) e)) as Ha.
  { destruct Hc as [[-> ->]|Hc]; [by left|]. right. intros H. apply Hc.
    apply Z.mod_divide in H; [|lia]. apply Z.mod_divide; [lia|]. by apply Z.divide_abs_r. }
  destruct (dec_string_parts (Z.abs m) e ltac:(lia) Ha)
    as (ip & fp & x & j & Ht & H1 & H2 & H3 & H4 & H5 & Hj & Hv & Hx).
  pose proof (parse_num_assemble (m <? 0)%Z ip fp x r H1 H2 H3 H4 H5 Hr) as Hp.
  rewrite Hx, Hv in Hp. unfold num_string.
  destruct (m <? 0)%Z eqn:E; boolify.
  - rewrite Z.abs_neq in * by lia.
    replace (- (- m * 10 ^ j))%Z with (m * 10 ^ j)%Z in Hp by ring.
    rewrite num_make_shift in Hp by done. rewrite <- Hp, Ht. simpl. by rewrite <- !app_assoc.
  - rewrite Z.abs_eq in * by lia. rewrite num_make_shift in Hp by done.
    rewrite <- Hp, Ht. simpl. by rewrite <- !app_assoc.
Qed.
