(* ===== verification/JsonFacts.v ===== *)
(** * The JSON round trip

    [JSON.parse] gives back every value that [JSON.stringify] printed, in
    the compact and in the indented layout, and a printed value is always
    read without error. The proof follows the serialiser: each text is
    non-empty, does not start like white space or a closing bracket, and is
    consumed by the parser up to the delimiter that follows it. *)

From Stdlib Require Import ZArith NArith Lia String.
From S2P Require Import Prelude JsString JsValue Json.

(** The layouts: [gap] and indentation made of JSON white space. *)
Definition ws_only (s : jsstring) : Prop := Forall (fun c => is_json_ws c = true) s.

Lemma skip_ws_app w s : ws_only w -> skip_ws (w ++ s) = skip_ws s.
Proof. unfold skip_ws. induction 1 as [|c w Hc _ IH]; [done|]. cbn [app drop_while]. by rewrite Hc. Qed.

Lemma newline_ws gap ind : ws_only ind -> ws_only (newline gap ind).
Proof. destruct gap; [constructor|]. by constructor. Qed.

Lemma ws_app a b : ws_only a -> ws_only b -> ws_only (a ++ b).
Proof. intros. by apply Forall_app. Qed.

Lemma parse_value_ws f w s : ws_only w -> parse_value f (w ++ s) = parse_value f s.
Proof. intros Hw. destruct f; [done|]. simpl. by rewrite skip_ws_app. Qed.

Lemma parse_elems_ws f w s acc : ws_only w -> parse_elems f (w ++ s) acc = parse_elems f s acc.
Proof. intros Hw. destruct f; [done|]. simpl. by rewrite parse_value_ws. Qed.

Lemma parse_members_ws f w s acc : ws_only w -> parse_members f (w ++ s) acc = parse_members f s acc.
Proof. intros Hw. destruct f; [done|]. simpl. by rewrite skip_ws_app. Qed.

(** First characters of a printed value. *)
Definition value_start (c : N) : Prop := is_json_ws c = false /\ c <> 93%N /\ c <> 125%N.

Definition num_start (c : N) : Prop := is_digit c = true \/ c = 45%N.

Lemma dec_string_start m e :
  (0 <= m)%Z -> exists c t, dec_string m e = c :: t /\ is_digit c = true.
Proof.
  intros Hm. destruct (digits_spec m Hm) as (_ & Hd & Hne & _). unfold dec_string.
  destruct (digits m) as [|d ds]; [done|]. inversion Hd; subst.
  cbv zeta. set (k := Z.of_nat (length (d :: ds))).
  destruct ((k <=? k + e) && (k + e <=? 21))%Z; [simpl; eauto|].
  destruct ((0 <? k + e) && (k + e <=? 21))%Z eqn:E.
  - boolify. destruct (Z.to_nat (k + e)) eqn:En; [lia|]. simpl. eauto.
  - destruct ((-6 <? k + e) && (k + e <=? 0))%Z; simpl; eauto.
Qed.

Lemma num_string_start m e : exists c t, num_string (NDec m e) = c :: t /\ num_start c.
Proof.
  unfold num_string. destruct (m <? 0)%Z eqn:E; boolify.
  - exists 45%N. eexists. split; [done|by right].
  - destruct (dec_string_start m e E) as (c & t & -> & Hc). exists c, t. split; [done|by left].
Qed.

Lemma num_start_value c : num_start c -> value_start c.
Proof.
  unfold num_start, value_start, is_digit, is_json_ws. intros [H| ->]; [|done]. boolify.
  repeat split; [|lia..]. repeat (apply orb_false_iff; split); apply N.eqb_neq; lia.
Qed.

Lemma ser_start gap ind v : json_ok v -> exists c t, ser gap ind v = c :: t /\ value_start c.
Proof.
  intros Hv. destruct v as [| |[]|n|s|l|o]; simpl in *; try done; try (eexists _, _; by split).
  - destruct n; try done. destruct (num_string_start m e) as (c & t & -> & Hc).
    exists c, t. split; [done|]. by apply num_start_value.
  - unfold bracket. case_match; eexists _, _; by split.
  - unfold bracket. case_match; eexists _, _; by split.
Qed.

Lemma skip_ws_start c s : is_json_ws c = false -> skip_ws (c :: s) = c :: s.
Proof. apply drop_while_id. Qed.

Lemma expect_eq c s : expect c (c :: s) = Some s.
Proof. simpl. by rewrite N.eqb_refl. Qed.
Lemma expect_ne c d s : c <> d -> expect c (d :: s) = None.
Proof. intros. simpl. by rewrite (proj2 (N.eqb_neq _ _)). Qed.

(** What follows a value: the end, a separator or white space. *)
Definition after_value (r : jsstring) : Prop :=
  forall c, head r = Some c -> c = 44%N \/ c = 93%N \/ c = 125%N \/ is_json_ws c = true.

Lemma after_value_delim r : after_value r -> num_delim r.
Proof.
  intros H c Hc. destruct (H c Hc) as [->|[->|[->|Hw]]]; [done..|].
  unfold is_json_ws in Hw. unfold is_digit.
  repeat (apply orb_true_iff in Hw as [Hw|Hw]); apply N.eqb_eq in Hw as ->; done.
Qed.

Lemma after_value_newline gap ind c r :
  c = 44%N \/ c = 93%N \/ c = 125%N -> after_value (newline gap ind ++ c :: r).
Proof. intros Hc d. destruct gap; simpl; intros [= <-]; tauto. Qed.

(** The parser reads the printed [v] and stops at what follows it. *)
Definition reads (v : val) : Prop :=
  forall gap ind f r, ws_only gap -> ws_only ind -> json_ok v -> after_value r ->
    2 * length (ser gap ind v ++ r) < f -> parse_value f (ser gap ind v ++ r) = Some (v, r).

Lemma keyword_miss w c s : (forall d, head w = Some d -> d <> c) -> w <> [] -> keyword w (c :: s) = None.
Proof.
  intros H Hne. unfold keyword. destruct w as [|d w]; [done|]. simpl.
  by rewrite (proj2 (N.eqb_neq d c) (H d eq_refl)).
Qed.

Lemma parse_value_num f s c t :
  s = c :: t -> num_start c ->
  parse_value (S f) s = match parse_num s with Some (n, r) => Some (VNum n, r) | None => None end.
Proof.
  intros -> Hc. cbn [parse_value]. pose proof (num_start_value c Hc) as (Hw & _ & _).
  rewrite skip_ws_start by done.
  assert (c <> 34 /\ c <> 91 /\ c <> 123 /\ c <> 116 /\ c <> 102 /\ c <> 110)%N as (?&?&?&?&?&?).
  { destruct Hc as [Hc| ->]; [|done]. unfold is_digit in Hc. boolify. repeat split; lia. }
  rewrite !(proj2 (N.eqb_neq _ _)) by done.
  by rewrite !keyword_miss by (done || intros d [= <-]; done).
Qed.

Lemma reads_num n : reads (VNum n).
Proof.
  intros gap ind f r _ _ Hok Hr Hf. destruct n as [| |m e]; [done..|]. cbn [ser].
  destruct (num_string_start m e) as (c & t & Ht & Hc).
  destruct f as [|f]; [lia|].
  rewrite (parse_value_num f _ c (t ++ r)) by (done || by rewrite Ht).
  by rewrite parse_num_string by (done || by apply after_value_delim).
Qed.

Lemma reads_str s : reads (VStr s).
Proof.
  intros gap ind f r _ _ Hok Hr Hf. destruct f as [|f]; [lia|].
  cbn [ser]. unfold quote. cbn [app parse_value]. rewrite skip_ws_start by done.
  rewrite N.eqb_refl, <- app_assoc. cbn [app]. by rewrite parse_quote_body.
Qed.

(** Arithmetic on the lengths of concatenated texts. *)
Ltac solve_len := repeat (rewrite ?length_app, ?length_cons in * ); cbn [length] in *; lia.

(** The elements of a non-empty array, from the first to the bracket. *)
Lemma reads_elems gap ind ind' l : forall v acc f r,
  ws_only gap -> ws_only ind -> ws_only ind' ->
  Forall reads (v :: l) -> Forall json_ok (v :: l) ->
  S (2 * length (join (44%N :: newline gap ind') (map (ser gap ind') (v :: l))
                 ++ newline gap ind ++ 93%N :: r)) < f ->
  parse_elems f (join (44%N :: newline gap ind') (map (ser gap ind') (v :: l))
                 ++ newline gap ind ++ 93%N :: r) acc = Some (VArr (acc ++ v :: l), r).
Proof.
  induction l as [|v' l IH]; intros v acc f r Hg Hi Hi' Hrd Hok Hf;
    apply Forall_cons in Hrd as [Hv Hrd]; apply Forall_cons in Hok as [Hvok Hok];
    destruct f as [|f]; try lia.
  - cbn [map join] in *. cbn [parse_elems].
    rewrite (Hv gap ind' f); try done;
      [|apply after_value_newline; tauto|solve_len].
    rewrite skip_ws_app by (by apply newline_ws). rewrite skip_ws_start by done.
    by rewrite expect_ne, expect_eq.
  - change (join (44%N :: newline gap ind') (map (ser gap ind') (v :: v' :: l)))
      with (ser gap ind' v ++ (44%N :: newline gap ind')
            ++ join (44%N :: newline gap ind') (map (ser gap ind') (v' :: l))) in *.
    rewrite <- !app_assoc in *. cbn [app] in *. cbn [parse_elems].
    rewrite (Hv gap ind' f); try done.
    + rewrite skip_ws_start by done. rewrite expect_eq.
      rewrite parse_elems_ws by (by apply newline_ws).
      rewrite IH; [by rewrite <- app_assoc|done..|].
      solve_len.
    + intros c [= <-]; auto.
    + solve_len.
Qed.

Lemma reads_arr l : Forall reads l -> reads (VArr l).
Proof.
  intros Hl gap ind f r Hg Hi Hok Hr Hf. apply json_ok_arr in Hok.
  destruct f as [|f]; [lia|]. cbn [ser] in *.
  destruct l as [|v l]; [done|]. inversion Hok as [|? ? Hv Hok']; subst.
  change (bracket gap ind 91 93 (map (ser gap (ind ++ gap)) (v :: l)))
    with ([91%N] ++ newline gap (ind ++ gap)
          ++ join (44%N :: newline gap (ind ++ gap)) (map (ser gap (ind ++ gap)) (v :: l))
          ++ newline gap ind ++ [93%N]) in *.
  rewrite <- !app_assoc in *. cbn [app] in *. cbn [parse_value].
  assert (ws_only (newline gap (ind ++ gap))) by (by apply newline_ws, ws_app).
  rewrite skip_ws_start by done. rewrite skip_ws_app by done.
  cbn [N.eqb Pos.eqb].
  assert (exists c t, join (44%N :: newline gap (ind ++ gap)) (map (ser gap (ind ++ gap)) (v :: l))
                      ++ newline gap ind ++ 93%N :: r = c :: t /\ value_start c) as (c & t & Ht & Hc).
  { destruct (ser_start gap (ind ++ gap) v Hv) as (c & t & Hs & Hc).
    destruct l; cbn [map join]; rewrite Hs; eexists _, _; by split. }
  rewrite Ht. destruct Hc as (Hc1 & Hc2 & _). rewrite skip_ws_start by done.
  rewrite expect_ne by done. rewrite <- Ht. rewrite parse_elems_ws by done.
  rewrite reads_elems; [done|done..|by apply ws_app|done|done|].
  solve_len.
Qed.

(** The members of a non-empty object, from the first to the brace. *)
Definition member_text (gap ind : jsstring) (kv : jsstring * val) : jsstring :=
  quote kv.1 ++ colon gap ++ ser gap ind kv.2.

Definition member_ok (kv : jsstring * val) : Prop := units_ok kv.1 /\ json_ok kv.2.

Lemma ser_members gap ind o :
  Forall member_ok o ->
  flat_map (fun '(k, v) => match v with
                           | VUndef => []
                           | _ => [quote k ++ colon gap ++ ser gap ind v]
                           end) o = map (member_text gap ind) o.
Proof.
  induction 1 as [|[k v] o [_ Hv] _ IH]; [done|]. cbn [flat_map map]. rewrite IH.
  by destruct v.
Qed.

Lemma parse_members_step gap ind f k v rest acc :
  ws_only gap -> ws_only ind -> units_ok k -> json_ok v -> reads v -> after_value rest ->
  2 * length (member_text gap ind (k, v) ++ rest) < S f ->
  parse_members (S f) (member_text gap ind (k, v) ++ rest) acc =
  match expect 44 (skip_ws rest) with
  | Some r' => parse_members f r' (acc ++ [(k, v)])
  | None => match expect 125 (skip_ws rest) with
            | Some r' => Some (VObj (obj_of_entries (acc ++ [(k, v)])), r')
            | None => None
            end
  end.
Proof.
  intros Hg Hi Hk Hvok Hv Hr Hf. unfold member_text, quote in *. cbn [fst snd] in *.
  rewrite <- !app_assoc in *. cbn [app] in *. cbn [parse_members].
  rewrite skip_ws_start, expect_eq by done.
  rewrite parse_quote_body by done.
  assert (exists w, ws_only w /\ colon gap = 58%N :: w) as (w & Hw & Hc).
  { destruct gap; [by exists []|]. exists [32%N]. split; [by repeat constructor|done]. }
  rewrite Hc in *. cbn [app] in *.
  rewrite skip_ws_start, expect_eq by done. rewrite parse_value_ws by done.
  rewrite (Hv gap ind f); try done.
  solve_len.
Qed.

Lemma reads_members gap ind ind' o : forall kv acc f r,
  ws_only gap -> ws_only ind -> ws_only ind' ->
  Forall (fun kv => reads kv.2) (kv :: o) -> Forall member_ok (kv :: o) ->
  S (2 * length (join (44%N :: newline gap ind') (map (member_text gap ind') (kv :: o))
                 ++ newline gap ind ++ 125%N :: r)) < f ->
  parse_members f (join (44%N :: newline gap ind') (map (member_text gap ind') (kv :: o))
                   ++ newline gap ind ++ 125%N :: r) acc
  = Some (VObj (obj_of_entries (acc ++ kv :: o)), r).
Proof.
  induction o as [|kv' o IH]; intros [k v] acc f r Hg Hi Hi' Hrd Hok Hf;
    apply Forall_cons in Hrd as [Hv Hrd]; apply Forall_cons in Hok as [[Hk Hvok] Hok];
    destruct f as [|f]; try lia; cbn [fst snd] in *.
  - cbn [map join] in *. rewrite parse_members_step by (done || lia || apply after_value_newline; tauto).
    rewrite skip_ws_app by (by apply newline_ws). rewrite skip_ws_start by done.
    by rewrite expect_ne, expect_eq.
  - change (join (44%N :: newline gap ind') (map (member_text gap ind') ((k, v) :: kv' :: o)))
      with (member_text gap ind' (k, v) ++ (44%N :: newline gap ind')
            ++ join (44%N :: newline gap ind') (map (member_text gap ind') (kv' :: o))) in *.
    rewrite <- !app_assoc in *. cbn [app] in *.
    rewrite parse_members_step by (done || lia || intros c [= <-]; auto).
    rewrite skip_ws_start, expect_eq by done.
    rewrite parse_members_ws by (by apply newline_ws).
    rewrite IH; [by rewrite <- app_assoc|done..|].
    solve_len.
Qed.

Lemma reads_obj o : Forall (fun kv => reads kv.2) o -> reads (VObj o).
Proof.
  intros Ho gap ind f r Hg Hi [Hw Hok]%json_ok_obj Hr Hf.
  destruct f as [|f]; [lia|]. cbn [ser] in *. rewrite ser_members in * by done.
  destruct o as [|kv o]; [done|].
  change (bracket gap ind 123 125 (map (member_text gap (ind ++ gap)) (kv :: o)))
    with ([123%N] ++ newline gap (ind ++ gap)
          ++ join (44%N :: newline gap (ind ++ gap)) (map (member_text gap (ind ++ gap)) (kv :: o))
          ++ newline gap ind ++ [125%N]) in *.
  rewrite <- !app_assoc in *. cbn [app] in *. cbn [parse_value].
  assert (ws_only (newline gap (ind ++ gap))) by (by apply newline_ws, ws_app).
  rewrite skip_ws_start by done. rewrite skip_ws_app by done.
  cbn [N.eqb Pos.eqb].
  assert (exists t, join (44%N :: newline gap (ind ++ gap)) (map (member_text gap (ind ++ gap)) (kv :: o))
                    ++ newline gap ind ++ 125%N :: r = 34%N :: t) as (t & Ht).
  { destruct o; cbn [map join]; unfold member_text at 1; unfold quote; cbn [app]; eauto. }
  rewrite Ht. rewrite skip_ws_start, expect_ne by done. rewrite <- Ht.
  rewrite parse_members_ws by done.
  rewrite reads_members; [|done..|by apply ws_app|done|done|].
  - simpl. by rewrite obj_of_entries_id.
  - solve_len.
Qed.

Lemma reads_all v : reads v.
Proof.
  induction v as [| |[]|n|s|l IH|o IH] using val_ind;
    try (intros gap ind f r _ _ Hok _ Hf; simpl in Hok; done);
    try (intros gap ind [|f] r _ _ _ _ Hf; [lia|reflexivity]).
  - apply reads_num.
  - apply reads_str.
  - by apply reads_arr.
  - by apply reads_obj.
Qed.

Lemma parse_ser gap v : ws_only gap -> json_ok v -> parse (ser gap [] v) = Some v.
Proof.
  intros Hg Hv. unfold parse.
  pose proof (reads_all v gap [] (S (2 * length (ser gap [] v))) [] Hg ltac:(constructor) Hv) as H.
  rewrite app_nil_r in H. rewrite H; [done|done|lia].
Qed.

Lemma parse_stringify_obj o : json_ok (VObj o) -> parse (stringify_obj o) = Some (VObj o).
Proof. apply parse_ser. constructor. Qed.

Lemma parse_stringify_obj2 o : json_ok (VObj o) -> parse (stringify_obj2 o) = Some (VObj o).
Proof. apply parse_ser. by repeat constructor. Qed.

(** ** Parsed values are JSON values

    Hence printing a parsed value and parsing it again changes nothing. *)

Lemma units_ok_app a b : units_ok (a ++ b) <-> units_ok a /\ units_ok b.
Proof. apply Forall_app. Qed.

Lemma units_ok_suffix s r : r `suffix_of` s -> units_ok s -> units_ok r.
Proof. intros [k ->] H. by apply units_ok_app in H as [_ ?]. Qed.

Lemma skip_ws_suffix s : skip_ws s `suffix_of` s.
Proof. destruct (drop_while_suffix is_json_ws s) as (k & Hk & _). by exists k. Qed.

Lemma expect_suffix c s r : expect c s = Some r -> r `suffix_of` s.
Proof. destruct s as [|d s]; simpl; [done|]. case_if; [|done]. intros [= ->]. by exists [d]. Qed.

Lemma hex_value_lt c d : hex_value c = Some d -> (d < 16)%N.
Proof. unfold hex_value, is_digit. repeat case_if; intros [= <-]; boolify; lia. Qed.

Lemma simple_escape_lt c d : simple_escape c = Some d -> (d < 65536)%N.
Proof. unfold simple_escape. repeat case_if; intros [= <-]; lia. Qed.

Lemma parse_str_ok s t r : units_ok s -> parse_str s = Some (t, r) -> units_ok t /\ r `suffix_of` s.
Proof.
  revert t r; induction s as [s IH] using (induction_ltof1 _ (@length N)); unfold ltof in IH.
  intros t r Hs. destruct s as [|c s]; [done|]. inversion Hs as [|? ? Hc Hs']; subst. cbn [parse_str].
  assert (forall s1, s1 `suffix_of` s -> suffix s1 (c :: s) /\ units_ok s1 /\ length s1 < length (c :: s)) as Hsub.
  { intros s1 Hsuf. split; [by apply suffix_cons_r|]. split; [by eapply units_ok_suffix|].
    apply suffix_length in Hsuf. simpl. lia. }
  assert (forall s1 u t1 r1, s1 `suffix_of` s -> (u < 65536)%N -> parse_str s1 = Some (t1, r1) ->
            units_ok (u :: t1) /\ r1 `suffix_of` c :: s) as Hrec.
  { intros s1 u t1 r1 Hsuf Hu Hp. destruct (Hsub _ Hsuf) as (H1 & H2 & H3).
    destruct (IH _ H3 _ _ H2 Hp). split; [by constructor|by etrans]. }
  case_if; [intros [= <- <-]; split; [constructor|by exists [c]]|].
  case_if; [done|]. case_if.
  2:{ destruct (parse_str s) as [[t1 r1]|] eqn:E; [|done]. intros [= <- <-]. by eapply Hrec. }
  destruct s as [|e s]; [done|]. case_if.
  - destruct s as [|h1 [|h2 [|h3 [|h4 s]]]]; try done.
    destruct (hex_value h1) eqn:E1; [|done]. destruct (hex_value h2) eqn:E2; [|done].
    destruct (hex_value h3) eqn:E3; [|done]. destruct (hex_value h4) eqn:E4; [|done].
    destruct (parse_str s) as [[t1 r1]|] eqn:E; [|done]. intros [= <- <-].
    apply hex_value_lt in E1, E2, E3, E4. eapply Hrec; [|lia|exact E]. by exists [e; h1; h2; h3; h4].
  - destruct (simple_escape e) eqn:Ee; [|done]. destruct (parse_str s) as [[t1 r1]|] eqn:E; [|done].
    intros [= <- <-]. apply simple_escape_lt in Ee. eapply Hrec; [|done|exact E]. by exists [e].
Qed.

Lemma span_digits_suffix s ds r : span_digits s = (ds, r) -> r `suffix_of` s.
Proof.
  revert ds r; induction s as [|c s IH]; simpl; intros ds r; [by intros [= _ <-]|].
  destruct (is_digit c); [|by intros [= _ <-]].
  destruct (span_digits s) as [d r'] eqn:E. intros [= _ <-]. apply suffix_cons_r. by eapply IH.
Qed.

Lemma num_make_is_canonical m e : num_canonical (num_make m e).
Proof.
  unfold num_make. destruct (Z.eq_dec m 0%Z) as [->|Hm]; [by left|].
  apply strip_zeros_canonical; [done|].
  eapply Z.lt_le_trans; [apply Z.log2_spec; lia|].
  rewrite Nat2Z.inj_succ, Z2Nat.id by apply Z.log2_nonneg.
  apply Z.pow_le_mono_l. lia.
Qed.

Lemma parse_num_ok s n r : parse_num s = Some (n, r) -> num_canonical n /\ r `suffix_of` s.
Proof.
  unfold parse_num.
  destruct (match expect 45 s with Some s1 => (true, s1) | None => (false, s) end) as [neg s1] eqn:E1.
  assert (s1 `suffix_of` s) as H1.
  { destruct (expect 45 s) eqn:E; injection E1 as <- <-; [by eapply expect_suffix|done]. }
  destruct (span_digits s1) as [ip s2] eqn:E2. apply span_digits_suffix in E2.
  case_if; [done|]. destruct (parse_frac s2) as [[fp s3]|] eqn:E3; [|done].
  assert (s3 `suffix_of` s2) as H3.
  { unfold parse_frac in E3. destruct (expect 46 s2) as [s4|] eqn:E; [|by injection E3 as <- <-].
    apply expect_suffix in E. destruct (span_digits s4) as [d r'] eqn:Es. apply span_digits_suffix in Es.
    destruct d; [done|]. injection E3 as <- <-. by etrans. }
  destruct (parse_exp s3) as [[ex r']|] eqn:E4; [|done]. intros [= <- <-].
  split; [apply num_make_is_canonical|].
  assert (r' `suffix_of` s3) as H4; [|by repeat (etrans; [eassumption|])].
  unfold parse_exp in E4. destruct s3 as [|c s4]; [by injection E4 as <- <-|].
  case_if; [|by injection E4 as <- <-].
  destruct (match s4 with [] => _ | _ => _ end) as [ng s5] eqn:Es.
  assert (s5 `suffix_of` s4) as H5.
  { destruct s4 as [|d s4]; [by injection Es as <- <-|].
    destruct (d =? 45)%N; [|destruct (d =? 43)%N]; injection Es as <- <-; try done; by exists [d]. }
  destruct (span_digits s5) as [ep r2] eqn:Ed. apply span_digits_suffix in Ed.
  destruct ep; [done|]. injection E4 as <- <-. apply suffix_cons_r. by etrans.
Qed.

Lemma obj_assign_elem (o o' : obj) x : x ∈ obj_assign o o' -> x ∈ o \/ x ∈ o'.
Proof.
  revert o; induction o' as [|[k v] o' IH]; intros o; simpl; [by left|].
  intros [Hx|Hx]%IH; [|set_solver]. apply obj_put_keys in Hx as [->|Hx]; set_solver.
Qed.

Lemma keyword_suffix w s r : keyword w s = Some r -> r `suffix_of` s.
Proof. unfold keyword. case_if; [|done]. intros [= <-]. apply suffix_drop. Qed.

Lemma json_ok_of_entries o : Forall member_ok o -> json_ok (VObj (obj_of_entries o)).
Proof.
  intros Ho. apply json_ok_obj. split; [apply obj_of_entries_wf|].
  rewrite Forall_forall in *. intros x Hx. apply obj_assign_elem in Hx as [Hx|Hx]; [set_solver|].
  by apply Ho.
Qed.

(** What the three mutually recursive parsers guarantee of their results. *)
Definition parsed (s : jsstring) (res : option (val * jsstring)) : Prop :=
  forall v r, res = Some (v, r) -> json_ok v /\ r `suffix_of` s.

Lemma parsed_sub s s' res : s' `suffix_of` s -> parsed s' res -> parsed s res.
Proof. intros Hs H v r E. destruct (H v r E). split; [done|by etrans]. Qed.

Lemma parse_elems_ok f :
  (forall s, units_ok s -> parsed s (parse_value f s)) ->
  (forall s acc, units_ok s -> Forall json_ok acc -> parsed s (parse_elems f s acc)) ->
  forall s acc, units_ok s -> Forall json_ok acc -> parsed s (parse_elems (S f) s acc).
Proof.
  intros IHv IHe s acc Hs Hacc. cbn [parse_elems].
  destruct (parse_value f s) as [[v r]|] eqn:E; [|by intros ? ? ?].
  destruct (IHv s Hs v r E) as [Hv Hr].
  assert (Forall json_ok (acc ++ [v])) by (apply Forall_app; split; [done|by repeat constructor]).
  assert (skip_ws r `suffix_of` s) as Hr' by (etrans; [apply skip_ws_suffix|done]).
  destruct (expect 44 (skip_ws r)) as [r'|] eqn:E1.
  - apply expect_suffix in E1. assert (r' `suffix_of` s) by (by etrans).
    eapply parsed_sub; [done|]. apply IHe; [by eapply units_ok_suffix|done].
  - destruct (expect 93 (skip_ws r)) as [r'|] eqn:E2; [|by intros ? ? ?].
    apply expect_suffix in E2. intros v' r2 [= <- <-]. split; [by apply json_ok_arr|by etrans].
Qed.

Lemma parse_members_ok f :
  (forall s, units_ok s -> parsed s (parse_value f s)) ->
  (forall s acc, units_ok s -> Forall member_ok acc -> parsed s (parse_members f s acc)) ->
  forall s acc, units_ok s -> Forall member_ok acc -> parsed s (parse_members (S f) s acc).
Proof.
  intros IHv IHm s acc Hs Hacc. cbn [parse_members].
  destruct (expect 34 (skip_ws s)) as [s1|] eqn:E1; [|by intros ? ? ?]. apply expect_suffix in E1.
  assert (s1 `suffix_of` s) as H1 by (etrans; [done|apply skip_ws_suffix]).
  destruct (parse_str s1) as [[k s2]|] eqn:E2; [|by intros ? ? ?].
  apply parse_str_ok in E2 as [Hk H2]; [|by eapply units_ok_suffix].
  destruct (expect 58 (skip_ws s2)) as [s3|] eqn:E3; [|by intros ? ? ?]. apply expect_suffix in E3.
  assert (s3 `suffix_of` s) as H3 by (repeat (etrans; [eassumption || apply skip_ws_suffix|]); done).
  destruct (parse_value f s3) as [[v r]|] eqn:E; [|by intros ? ? ?].
  apply IHv in E as [Hv Hr]; [|by eapply units_ok_suffix].
  assert (Forall member_ok (acc ++ [(k, v)]))
    by (apply Forall_app; split; [done|]; repeat constructor; done).
  assert (skip_ws r `suffix_of` s) as Hr'
    by (etrans; [apply skip_ws_suffix|]; by etrans).
  destruct (expect 44 (skip_ws r)) as [r'|] eqn:E4.
  - apply expect_suffix in E4. assert (r' `suffix_of` s) by (by etrans).
    eapply parsed_sub; [done|]. apply IHm; [by eapply units_ok_suffix|done].
  - destruct (expect 125 (skip_ws r)) as [r'|] eqn:E5; [|by intros ? ? ?].
    apply expect_suffix in E5. intros v' r2 [= <- <-]. split; [by apply json_ok_of_entries|by etrans].
Qed.

Lemma parse_value_step f :
  (forall s acc, units_ok s -> Forall json_ok acc -> parsed s (parse_elems f s acc)) ->
  (forall s acc, units_ok s -> Forall member_ok acc -> parsed s (parse_members f s acc)) ->
  forall s, units_ok s -> parsed s (parse_value (S f) s).
Proof.
  intros IHe IHm s Hs. apply (parsed_sub _ (skip_ws s)); [apply skip_ws_suffix|].
  cbn [parse_value].
  assert (units_ok (skip_ws s)) as Hw by (eapply units_ok_suffix; [apply skip_ws_suffix|done]).
  destruct (skip_ws s) as [|c s1]; [by intros ? ? ?|]. inversion Hw as [|? ? Hc Hs1]; subst.
  assert (s1 `suffix_of` c :: s1) as Hsuf by (by exists [c]).
  assert (forall c' r, expect c' (skip_ws s1) = Some r -> r `suffix_of` c :: s1) as Hex.
  { intros c' r E%expect_suffix. etrans; [exact E|]. etrans; [apply skip_ws_suffix|done]. }
  case_if.
  { destruct (parse_str s1) as [[t r]|] eqn:E; [|by intros ? ? ?].
    apply parse_str_ok in E as [Ht Hr]; [|done]. intros v r' [= <- <-]. split; [done|by etrans]. }
  case_if.
  { destruct (expect 93 (skip_ws s1)) eqn:E; [intros v r' [= <- <-]; split; [done|by eapply Hex]|].
    eapply parsed_sub; [done|]. by apply IHe. }
  case_if.
  { destruct (expect 125 (skip_ws s1)) eqn:E.
    - intros v r' [= <- <-]. split; [|by eapply Hex]. split; [constructor|done].
    - eapply parsed_sub; [done|]. by apply IHm. }
  repeat match goal with |- context [keyword ?w ?x] =>
    destruct (keyword w x) eqn:?; [intros v r' [= <- <-]; split; [done|by eapply keyword_suffix]|] end.
  destruct (parse_num (c :: s1)) as [[n r]|] eqn:E; [|by intros ? ? ?].
  apply parse_num_ok in E as [Hn Hr]. by intros v r' [= <- <-].
Qed.

Lemma parsers_ok f :
  (forall s, units_ok s -> parsed s (parse_value f s)) /\
  (forall s acc, units_ok s -> Forall json_ok acc -> parsed s (parse_elems f s acc)) /\
  (forall s acc, units_ok s -> Forall member_ok acc -> parsed s (parse_members f s acc)).
Proof.
  induction f as [|f (IHv & IHe & IHm)]; [repeat split; intros; done|].
  split; [by apply parse_value_step|]. split; [by apply parse_elems_ok|by apply parse_members_ok].
Qed.

Lemma parse_ok s v : units_ok s -> parse s = Some v -> json_ok v.
Proof.
  unfold parse. intros Hs. destruct (parse_value _ s) as [[v' r]|] eqn:E; [|done].
  destruct (skip_ws r); [|done]. intros [= ->].
  by apply (proj1 (parsers_ok _) s Hs) in E as [? _].
Qed.

(** ** Deciding [json_ok] *)

Fixpoint obj_wfb {A} (o : list (jsstring * A)) : bool :=
  match o with
  | [] => true
  | (k, _) :: o' =>
      forallb (fun b => negb (jeqb k b.1) && negb (key_before b.1 k)) o' && obj_wfb o'
  end.

Lemma obj_wfb_sound {A} (o : list (jsstring * A)) : obj_wfb o = true -> obj_wf o.
Proof.
  unfold obj_wf. induction o as [|[k v] o IH]; cbn [obj_wfb]; intros H; constructor;
    apply andb_true_iff in H as [Hk Ho]; [auto|].
  rewrite forallb_forall in Hk. apply Forall_forall. intros b Hb%list_elem_of_In.
  specialize (Hk b Hb). apply andb_true_iff in Hk as [H1 H2].
  apply negb_true_iff in H1, H2. apply jeqb_false in H1. done.
Qed.

Definition units_okb (s : jsstring) : bool := forallb (fun c => (c <? 65536)%N) s.

Lemma units_okb_sound s : units_okb s = true -> units_ok s.
Proof.
  unfold units_okb. rewrite forallb_forall. intros H. apply Forall_forall.
  intros c Hc%list_elem_of_In. by apply N.ltb_lt, H.
Qed.

Definition num_canonicalb (n : num) : bool :=
  match n with
  | NDec m e => ((m =? 0) && (e =? 0) || negb (m mod 10 =? 0))%Z
  | _ => false
  end.

Lemma num_canonicalb_sound n : num_canonicalb n = true -> num_canonical n.
Proof.
  destruct n as [| |m e]; simpl; [done..|]. intros [H|H]%orb_true_iff; boolify; [by left|by right].
Qed.

Fixpoint json_okb (v : val) : bool :=
  match v with
  | VUndef => false
  | VNull | VBool _ => true
  | VNum n => num_canonicalb n
  | VStr s => units_okb s
  | VArr l => forallb json_okb l
  | VObj o => obj_wfb o && forallb (fun '(k, v) => units_okb k && json_okb v) o
  end.

Lemma json_okb_sound v : json_okb v = true -> json_ok v.
Proof.
  induction v as [| |b|n|s|l IH|o IH] using val_ind; intros H; try done.
  - by apply num_canonicalb_sound.
  - by apply units_okb_sound.
  - apply json_ok_arr. cbn [json_okb] in H. rewrite forallb_forall in H.
    rewrite Forall_forall in *. intros v Hv. apply IH; [done|]. by apply H, list_elem_of_In.
  - cbn [json_okb] in H. apply andb_true_iff in H as [Hw H].
    apply json_ok_obj. split; [by apply obj_wfb_sound|].
    rewrite forallb_forall in H. rewrite Forall_forall in *. intros [k v] Hv.
    specialize (H (k, v) ltac:(by apply list_elem_of_In)). cbn in H.
    apply andb_true_iff in H as [H1 H2]. split; [by apply units_okb_sound|]. by apply (IH (k, v)).
Qed.

(** Close [json_ok] of a closed value by evaluation. *)
Ltac json_ok_compute := apply json_okb_sound; vm_compute; reflexivity.

(** An object literal is representable when its keys and values are. *)
Lemma obj_lit_ok (l : list (string * val)) :
  Forall (fun kv => units_okb (js kv.1) = true /\ json_ok kv.2) l -> json_ok (vobj l).
Proof.
  intros Hl. apply json_ok_of_entries, Forall_map. eapply Forall_impl; [exact Hl|].
  intros [k v] [Hk Hv]. split; [by apply units_okb_sound|done].
Qed.

(** ** Parts of values that JSON can represent *)

Lemma digits_units n : (0 <= n)%Z -> units_ok (digits n).
Proof.
  intros Hn. destruct (digits_spec n Hn) as (_ & Hd & _). eapply Forall_impl; [exact Hd|].
  unfold is_digit. intros c Hc. boolify. lia.
Qed.

Lemma entries_of_members v o : json_ok v -> entries_of v = Some o -> Forall member_ok o.
Proof.
  destruct v; try done; intros Hv [= <-].
  - apply json_ok_arr in Hv. apply Forall_lookup. intros i [k x].
    rewrite list_lookup_imap. intros H. destruct (l !! i) as [y|] eqn:E; [|done].
    injection H as <- <-. split; [|by eapply Forall_lookup in Hv].
    unfold int_string. simpl. rewrite (proj2 (Z.ltb_ge _ _)) by lia. apply digits_units. lia.
  - by apply json_ok_obj in Hv as [_ ?].
Qed.

Lemma prop_json_ok k o : json_ok (VObj o) -> prop k o = VUndef \/ json_ok (prop k o).
Proof.
  intros [_ Ho]%json_ok_obj. unfold prop. destruct (obj_get k o) as [v|] eqn:E; [|by left].
  right. simpl. apply obj_get_in in E. rewrite Forall_forall in Ho. by apply (Ho (k, v)).
Qed.

Lemma obj_put_json_ok k v o :
  units_ok k -> json_ok v -> json_ok (VObj o) -> json_ok (VObj (obj_put k v o)).
Proof.
  intros Hk Hv [Hw Ho]%json_ok_obj. apply json_ok_obj. split; [by apply obj_put_wf|].
  rewrite Forall_forall in *. intros x [->|Hx]%obj_put_keys; [done|auto].
Qed.

Lemma obj_del_json_ok k o : json_ok (VObj o) -> json_ok (VObj (obj_del k o)).
Proof.
  intros [Hw Ho]%json_ok_obj. apply json_ok_obj. split; [by apply obj_del_wf|].
  rewrite Forall_forall in *. intros x Hx. apply Ho.
  apply list_elem_of_In, filter_In in Hx as [Hx _]. by apply list_elem_of_In.
Qed.

(** ** Printed text is made of code units *)

Lemma units_ok_take n s : units_ok s -> units_ok (take n s).
Proof. apply Forall_take. Qed.
Lemma units_ok_drop n s : units_ok s -> units_ok (drop n s).
Proof. apply Forall_drop. Qed.
Lemma units_ok_zeros n : units_ok (replicate n 48%N).
Proof. by apply Forall_replicate. Qed.
Lemma units_ok_cons c s : (c < 65536)%N -> units_ok s -> units_ok (c :: s).
Proof. by constructor. Qed.
Lemma units_ok_nil : units_ok [].
Proof. constructor. Qed.
Lemma units_ok_app_2 a b : units_ok a -> units_ok b -> units_ok (a ++ b).
Proof. intros. by apply units_ok_app. Qed.

Create HintDb units discriminated.
#[export] Hint Resolve units_ok_take units_ok_drop units_ok_zeros units_ok_cons units_ok_nil units_ok_app_2 : units.

Ltac solve_units := repeat first [assumption | apply units_ok_app_2 | apply units_ok_cons]; auto with units; try lia.

Lemma dec_string_units m e : (0 <= m)%Z -> units_ok (dec_string m e).
Proof.
  intros Hm. pose proof (digits_units m Hm) as Hd. unfold dec_string. cbv zeta.
  assert (forall z, units_ok (digits (Z.abs z))) as Ha by (intros; apply digits_units; lia).
  repeat case_if; solve_units.
Qed.

Lemma num_string_units m e : units_ok (num_string (NDec m e)).
Proof.
  simpl. destruct (m <? 0)%Z eqn:E; boolify; [apply units_ok_cons; [lia|]|]; apply dec_string_units; lia.
Qed.

Lemma hex_digit_unit d : (d < 16)%N -> (hex_digit d < 65536)%N.
Proof. intros. unfold hex_digit. case_if; lia. Qed.

Lemma unicode_escape_units c : (c < 65536)%N -> units_ok (unicode_escape c).
Proof.
  intros Hc. unfold unicode_escape.
  repeat (apply units_ok_cons; [first [lia|apply hex_digit_unit; first [apply N.mod_lt; lia|apply N.Div0.div_lt_upper_bound; lia]]|]).
  constructor.
Qed.

Lemma quote_unit_units c : (c < 65536)%N -> units_ok (quote_unit c).
Proof.
  intros Hc. unfold quote_unit. repeat case_if; try (solve_units; done).
  by apply unicode_escape_units.
Qed.

Lemma quote_body_units s : units_ok s -> units_ok (quote_body s).
Proof.
  remember (length s) as n eqn:Hn. revert s Hn.
  induction n as [n IH] using lt_wf_ind; intros [|c s] Hn Hs; [constructor|].
  inversion Hs as [|? ? Hc Hs']; subst. cbn [quote_body].
  assert (units_ok (quote_body s)) as Hq by (eapply (IH (length s)); [simpl; lia|done|done]).
  destruct (is_high c).
  - destruct s as [|d s]; [by apply unicode_escape_units|].
    destruct (is_low d); [|by apply units_ok_app_2; [apply unicode_escape_units|]].
    inversion Hs' as [|? ? Hd Hs'']; subst. do 2 (apply units_ok_cons; [done|]).
    eapply (IH (length s)); [simpl; lia|done|done].
  - destruct (is_low c); apply units_ok_app_2; auto using unicode_escape_units, quote_unit_units.
Qed.

Lemma quote_units s : units_ok s -> units_ok (quote s).
Proof. intros Hs. unfold quote. pose proof (quote_body_units s Hs). solve_units. Qed.

Lemma join_units sep l : units_ok sep -> Forall units_ok l -> units_ok (join sep l).
Proof.
  intros Hs. induction 1 as [|x l Hx Hl IH]; [constructor|]. destruct l as [|y l]; [done|].
  change (units_ok (x ++ sep ++ join sep (y :: l))). solve_units.
Qed.

Lemma newline_units gap ind : units_ok ind -> units_ok (newline gap ind).
Proof. intros Hi. unfold newline. destruct gap; [constructor|]. solve_units. Qed.

Lemma bracket_units gap ind o c l :
  units_ok gap -> units_ok ind -> (o < 65536)%N -> (c < 65536)%N -> Forall units_ok l ->
  units_ok (bracket gap ind o c l).
Proof.
  intros Hg Hi Ho Hc Hl. unfold bracket. pose proof (newline_units gap ind Hi).
  assert (units_ok (newline gap (ind ++ gap))) by (apply newline_units; solve_units).
  assert (units_ok (join (44%N :: newline gap (ind ++ gap)) l)) by (apply join_units; [solve_units|done]).
  destruct l as [|x l]; [solve_units|]. solve_units.
Qed.

Lemma ser_units v : json_ok v -> forall gap ind, units_ok gap -> units_ok ind -> units_ok (ser gap ind v).
Proof.
  induction v as [| |b|n|s|l IH|o IH] using val_ind; intros Hv gap ind Hg Hi; cbn [ser].
  - by apply units_okb_sound.
  - by apply units_okb_sound.
  - by destruct b; apply units_okb_sound.
  - destruct n; try (by apply units_okb_sound). apply num_string_units.
  - by apply quote_units.
  - apply json_ok_arr in Hv. apply bracket_units; try done. apply Forall_map.
    rewrite Forall_forall in *. intros v Hin. apply IH; auto. solve_units.
  - apply json_ok_obj in Hv as [_ Ho]. rewrite ser_members by done. apply bracket_units; try done.
    apply Forall_map. rewrite Forall_forall in *. intros [k v] Hin. destruct (Ho _ Hin) as [Hk Hv].
    cbn [fst snd] in *. unfold member_text. cbn [fst snd]. pose proof (quote_units k Hk).
    assert (units_ok (ser gap (ind ++ gap) v)) by (apply (IH (k, v)); auto; solve_units).
    assert (units_ok (colon gap)) by (destruct gap; by apply units_okb_sound). solve_units.
Qed.
