(* ===== verification/Urls.v ===== *)
(** * URL encoding

    The two encoders of the platform that the console uses: the
    [application/x-www-form-urlencoded] serializer behind
    [URLSearchParams.toString] and [encodeURIComponent]. Both work on the
    UTF-8 bytes of the UTF-16 string. The decoder is the one a server
    applies to a query, and the file proves that it inverts the encoder. *)

From Stdlib Require Import ZArith NArith Lia ZifyN String.
From S2P Require Import Prelude JsString JsValue Json JsonFacts.
Local Open Scope N_scope.

#[local] Ltac Zify.zify_post_hook ::= Z.div_mod_to_equations.

(** ** UTF-8 *)

(** The UTF-8 bytes of a code point below U+10000. *)
Definition utf8_unit (c : N) : list N :=
  if c <? 128 then [c]
  else if c <? 2048 then [192 + c / 64; 128 + c mod 64]
  else [224 + c / 4096; 128 + (c / 64) mod 64; 128 + c mod 64].

(** The UTF-8 bytes of a surrogate pair. *)
Definition utf8_pair (h l : N) : list N :=
  let c := (h - 55296) * 1024 + (l - 56320) + 65536 in
  [240 + c / 262144; 128 + (c / 4096) mod 64; 128 + (c / 64) mod 64; 128 + c mod 64].

(** A lone surrogate is replaced by U+FFFD. *)
Fixpoint utf8_of_utf16 (s : jsstring) : list N :=
  match s with
  | [] => []
  | c :: s' =>
      if is_high c then
        match s' with
        | d :: s'' => if is_low d then utf8_pair c d ++ utf8_of_utf16 s''
                      else utf8_unit 65533 ++ utf8_of_utf16 s'
        | [] => utf8_unit 65533
        end
      else if is_low c then utf8_unit 65533 ++ utf8_of_utf16 s'
      else utf8_unit c ++ utf8_of_utf16 s'
  end.

(** No lone surrogate. *)
Fixpoint well_formed (s : jsstring) : bool :=
  match s with
  | [] => true
  | c :: s' =>
      if is_high c then
        match s' with d :: s'' => is_low d && well_formed s'' | [] => false end
      else negb (is_low c) && (c <? 65536) && well_formed s'
  end.

(** ** Percent encoding *)

Definition is_alnum (c : N) : bool := is_digit c || is_upper c || is_lower c.

Definition upper_hex (d : N) : N := if d <? 10 then 48 + d else 55 + d.
Definition percent (b : N) : jsstring := [37; upper_hex (b / 16); upper_hex (b mod 16)].

(** The bytes the form serializer leaves alone: alphanumerics and [*-._]. *)
Definition form_safe (b : N) : bool :=
  is_alnum b || (b =? 42) || (b =? 45) || (b =? 46) || (b =? 95).

Definition form_byte (b : N) : jsstring :=
  if b =? 32 then [43] else if form_safe b then [b] else percent b.

Definition form_encode (s : jsstring) : jsstring := concat (map form_byte (utf8_of_utf16 s)).

(** [URLSearchParams.toString] of a list of name-value pairs. *)
Definition form_pair (kv : jsstring * jsstring) : jsstring :=
  form_encode kv.1 ++ [61] ++ form_encode kv.2.
Definition search_params_string (l : list (jsstring * jsstring)) : jsstring :=
  join [38] (map form_pair l).

(** [encodeURIComponent]: leaves alphanumerics and [-_.!~*'()] alone and
    throws a [URIError] on a lone surrogate. *)
Definition component_safe (b : N) : bool :=
  is_alnum b || (b =? 45) || (b =? 95) || (b =? 46) || (b =? 33) || (b =? 126)
  || (b =? 42) || (b =? 39) || (b =? 40) || (b =? 41).

Definition encodeURIComponent (s : jsstring) : option jsstring :=
  if well_formed s
  then Some (concat (map (fun b => if component_safe b then [b] else percent b) (utf8_of_utf16 s)))
  else None.

(** ** The decoder *)

Fixpoint unescape (plus : bool) (s : jsstring) : list N :=
  match s with
  | [] => []
  | c :: s' =>
      if plus && (c =? 43) then 32 :: unescape plus s'
      else if c =? 37 then
        match s' with
        | a :: b :: s'' =>
            match hex_value a, hex_value b with
            | Some x, Some y => x * 16 + y :: unescape plus s''
            | _, _ => c :: unescape plus s'
            end
        | _ => c :: unescape plus s'
        end
      else c :: unescape plus s'
  end.

Definition form_decode (s : jsstring) : jsstring := utf16_of_utf8 (unescape true s).
Definition component_decode (s : jsstring) : jsstring := utf16_of_utf8 (unescape false s).

(** The text before and after the first occurrence of a character. *)
Fixpoint cut (c : N) (s : jsstring) : jsstring * option jsstring :=
  match s with
  | [] => ([], None)
  | d :: s' =>
      if d =? c then ([], Some s')
      else let (a, b) := cut c s' in (d :: a, b)
  end.

Definition decode_pair (s : jsstring) : jsstring * jsstring :=
  let (k, v) := cut 61 s in (form_decode k, form_decode (default [] v)).

Definition parse_query (q : jsstring) : list (jsstring * jsstring) :=
  match q with
  | [] => []
  | _ => map decode_pair (split_on (N.eqb 38) q)
  end.

(** ** UTF-8 round trip *)

Lemma is_high_spec c : is_high c = true <-> 55296 <= c <= 56319.
Proof. unfold is_high. rewrite andb_true_iff, !N.leb_le. done. Qed.
Lemma is_low_spec c : is_low c = true <-> 56320 <= c <= 57343.
Proof. unfold is_low. rewrite andb_true_iff, !N.leb_le. done. Qed.

Lemma decode_unit c r :
  c < 65536 -> utf16_of_utf8 (utf8_unit c ++ r) = c :: utf16_of_utf8 r.
Proof.
  intros Hc. unfold utf8_unit. destruct (c <? 128) eqn:E1; [simpl; by rewrite E1|].
  destruct (c <? 2048) eqn:E2; boolify; cbn [utf16_of_utf8 app].
  - destruct (192 + c / 64 <? 128) eqn:E; boolify; [lia|]. clear E.
    destruct (192 + c / 64 <? 224) eqn:E; boolify; [|lia]. f_equal. lia.
  - destruct (224 + c / 4096 <? 128) eqn:E; boolify; [lia|]. clear E.
    destruct (224 + c / 4096 <? 224) eqn:E; boolify; [lia|]. clear E.
    destruct (224 + c / 4096 <? 240) eqn:E; boolify; [|lia]. f_equal. lia.
Qed.

Lemma decode_pair_units h l r :
  is_high h = true -> is_low l = true ->
  utf16_of_utf8 (utf8_pair h l ++ r) = h :: l :: utf16_of_utf8 r.
Proof.
  rewrite is_high_spec, is_low_spec. intros Hh Hl. unfold utf8_pair. cbn [utf16_of_utf8 app].
  set (c := (h - 55296) * 1024 + (l - 56320) + 65536).
  assert (65536 <= c < 1114112) as Hc by (unfold c; lia).
  destruct (240 + c / 262144 <? 128) eqn:E; boolify; [lia|]. clear E.
  destruct (240 + c / 262144 <? 224) eqn:E; boolify; [lia|]. clear E.
  destruct (240 + c / 262144 <? 240) eqn:E; boolify; [lia|]. clear E.
  replace ((240 + c / 262144 - 240) * 262144 + (128 + (c / 4096) mod 64 - 128) * 4096
           + (128 + (c / 64) mod 64 - 128) * 64 + (128 + c mod 64 - 128) - 65536)
    with (c - 65536) by lia.
  unfold c. do 2 f_equal; lia.
Qed.

Lemma utf8_roundtrip s : well_formed s = true -> utf16_of_utf8 (utf8_of_utf16 s) = s.
Proof.
  remember (List.length s) as n eqn:Hn. revert s Hn.
  induction n as [n IH] using lt_wf_ind; intros [|c s] Hn Hw; [done|].
  cbn [well_formed utf8_of_utf16] in Hw |- *. destruct (is_high c) eqn:Ec.
  - destruct s as [|d s]; [done|]. apply andb_true_iff in Hw as [Hd Hw]. rewrite Hd.
    rewrite decode_pair_units by done. do 2 f_equal.
    eapply (IH (List.length s)); [simpl in Hn; lia|done|done].
  - apply andb_true_iff in Hw as [Hw Hs]. boolify. rewrite H.
    rewrite decode_unit by done. f_equal.
    eapply (IH (List.length s)); [simpl in Hn; lia|done|done].
Qed.

(** Every encoded byte is a byte. *)
Lemma utf8_unit_bytes c : c < 65536 -> Forall (fun b => b < 256) (utf8_unit c).
Proof. intros. unfold utf8_unit. repeat case_if; boolify; repeat constructor; lia. Qed.

Lemma utf8_bytes s : well_formed s = true -> Forall (fun b => b < 256) (utf8_of_utf16 s).
Proof.
  remember (List.length s) as n eqn:Hn. revert s Hn.
  induction n as [n IH] using lt_wf_ind; intros [|c s] Hn Hw; [constructor|].
  cbn [well_formed utf8_of_utf16] in Hw |- *. destruct (is_high c) eqn:Ec.
  - destruct s as [|d s]; [done|]. apply andb_true_iff in Hw as [Hd Hw]. rewrite Hd.
    apply Forall_app. split; [|eapply (IH (List.length s)); [simpl in Hn; lia|done|done]].
    apply is_high_spec in Ec. apply is_low_spec in Hd. unfold utf8_pair. repeat constructor; lia.
  - apply andb_true_iff in Hw as [Hw Hs]. boolify. rewrite H.
    apply Forall_app. split; [by apply utf8_unit_bytes|].
    eapply (IH (List.length s)); [simpl in Hn; lia|done|done].
Qed.

(** ** Percent-encoding round trip *)

Lemma upper_hex_value d : d < 16 -> hex_value (upper_hex d) = Some d.
Proof.
  intros Hd. unfold hex_value, upper_hex, is_digit.
  destruct (d <? 10) eqn:E; boolify.
  - rewrite (proj2 (N.leb_le _ _)), (proj2 (N.leb_le _ _)) by lia. simpl. f_equal. lia.
  - rewrite (proj2 (N.leb_gt (55 + d) 57)), andb_false_r by lia.
    rewrite (proj2 (N.leb_gt 97 (55 + d))) by lia. simpl.
    rewrite (proj2 (N.leb_le _ _)), (proj2 (N.leb_le _ _)) by lia. simpl. f_equal. lia.
Qed.

Lemma unescape_percent plus b r : b < 256 -> unescape plus (percent b ++ r) = b :: unescape plus r.
Proof.
  intros Hb. unfold percent. cbn [app unescape].
  replace (plus && (37 =? 43)) with false by (by destruct plus). cbn [N.eqb Pos.eqb].
  rewrite !upper_hex_value by lia. f_equal. lia.
Qed.

Lemma alnum_not c d : is_alnum c = true -> is_alnum d = false -> c <> d.
Proof. congruence. Qed.

Lemma unescape_form_byte b r : b < 256 -> unescape true (form_byte b ++ r) = b :: unescape true r.
Proof.
  intros Hb. unfold form_byte. destruct (b =? 32) eqn:E32; boolify; [by subst|].
  destruct (form_safe b) eqn:Es; [|by apply unescape_percent].
  cbn [app unescape]. destruct (b =? 43) eqn:E43; boolify; [by subst|].
  destruct (b =? 37) eqn:E37; boolify; [by subst|done].
Qed.

Lemma unescape_form bs : Forall (fun b => b < 256) bs -> unescape true (concat (map form_byte bs)) = bs.
Proof.
  induction 1 as [|b bs Hb _ IH]; simpl; [done|]. by rewrite unescape_form_byte, IH.
Qed.

Lemma form_roundtrip s : well_formed s = true -> form_decode (form_encode s) = s.
Proof.
  intros Hs. unfold form_decode, form_encode.
  by rewrite unescape_form, utf8_roundtrip by auto using utf8_bytes.
Qed.

Lemma unescape_component bs :
  Forall (fun b => b < 256) bs ->
  unescape false (concat (map (fun b => if component_safe b then [b] else percent b) bs)) = bs.
Proof.
  induction 1 as [|b bs Hb _ IH]; simpl; [done|].
  destruct (component_safe b) eqn:Es; [|by rewrite unescape_percent, IH].
  cbn [app unescape andb]. destruct (b =? 37) eqn:E37; boolify; [by subst|]. by rewrite IH.
Qed.

Lemma component_roundtrip s t : encodeURIComponent s = Some t -> component_decode t = s.
Proof.
  unfold encodeURIComponent, component_decode. destruct (well_formed s) eqn:Hs; [|done].
  intros [= <-]. by rewrite unescape_component, utf8_roundtrip by auto using utf8_bytes.
Qed.

(** ** Encoded text holds no separator *)

Definition separator (c : N) : bool :=
  (c =? 38) || (c =? 61) || (c =? 63) || (c =? 47) || (c =? 35).

Lemma separator_percent b : b < 256 -> Forall (fun c => separator c = false) (percent b).
Proof.
  intros Hb. unfold percent, separator, upper_hex.
  repeat constructor; try done.
  all: case_if; boolify; repeat (apply orb_false_iff; split); apply N.eqb_neq; lia.
Qed.

Lemma form_byte_separator b : b < 256 -> Forall (fun c => separator c = false) (form_byte b).
Proof.
  intros Hb. unfold form_byte. destruct (b =? 32); [by repeat constructor|].
  destruct (form_safe b) eqn:Es; [|by apply separator_percent].
  constructor; [|constructor]. unfold separator.
  repeat (apply orb_false_iff; split); apply N.eqb_neq; intros ->; by vm_compute in Es.
Qed.

Lemma concat_Forall {A} (P : A -> Prop) (l : list (list A)) : Forall (Forall P) l -> Forall P (concat l).
Proof. induction 1; simpl; [constructor|]. apply Forall_app. auto. Qed.

Lemma form_encode_separator s :
  well_formed s = true -> Forall (fun c => separator c = false) (form_encode s).
Proof.
  intros Hs. apply concat_Forall, Forall_map. eapply Forall_impl; [by apply utf8_bytes|].
  intros b Hb. by apply form_byte_separator.
Qed.

Lemma component_separator s t :
  encodeURIComponent s = Some t -> Forall (fun c => separator c = false) t.
Proof.
  unfold encodeURIComponent. destruct (well_formed s) eqn:Hs; [|done]. intros [= <-].
  apply concat_Forall, Forall_map. eapply Forall_impl; [by apply utf8_bytes|].
  intros b Hb. simpl. destruct (component_safe b) eqn:Es; [|by apply separator_percent].
  constructor; [|constructor]. unfold separator.
  repeat (apply orb_false_iff; split); apply N.eqb_neq; intros ->; by vm_compute in Es.
Qed.

(** ** Query round trip *)

Lemma cut_app c a b :
  Forall (fun d => d <> c) a -> cut c (a ++ c :: b) = (a, Some b).
Proof.
  induction 1 as [|d a Hd _ IH]; simpl; [by rewrite N.eqb_refl|].
  rewrite (proj2 (N.eqb_neq d c)) by done. by rewrite IH.
Qed.

Lemma cut_none c a : Forall (fun d => d <> c) a -> cut c a = (a, None).
Proof.
  induction 1 as [|d a Hd _ IH]; simpl; [done|].
  rewrite (proj2 (N.eqb_neq d c)) by done. by rewrite IH.
Qed.

Lemma no_separator_ne c s :
  separator c = true -> Forall (fun d => separator d = false) s -> Forall (fun d => d <> c) s.
Proof. intros Hc Hs. eapply Forall_impl; [exact Hs|]. intros d Hd ->. simpl in Hd. congruence. Qed.

Lemma split_on_app p a c b :
  Forall (fun d => p d = false) a -> p c = true -> split_on p (a ++ c :: b) = a :: split_on p b.
Proof.
  intros Ha Hc. induction Ha as [|d a Hd _ IH]; simpl; [by rewrite Hc|]. by rewrite Hd, IH.
Qed.

Lemma split_on_none p a : Forall (fun d => p d = false) a -> split_on p a = [a].
Proof. induction 1 as [|d a Hd _ IH]; simpl; [done|]. by rewrite Hd, IH. Qed.

Definition pair_ok (kv : jsstring * jsstring) : Prop :=
  well_formed kv.1 = true /\ well_formed kv.2 = true.

Lemma decode_form_pair kv : pair_ok kv -> decode_pair (form_pair kv) = kv.
Proof.
  destruct kv as [k v]. intros [Hk Hv]. unfold decode_pair, form_pair. simpl in *.
  rewrite cut_app by (by eapply no_separator_ne, form_encode_separator).
  simpl. by rewrite !form_roundtrip.
Qed.

Lemma form_pair_amp kv : pair_ok kv -> Forall (fun d => (38 =? d) = false) (form_pair kv).
Proof.
  destruct kv as [k v]. intros [Hk Hv]. unfold form_pair. simpl in *.
  assert (forall s, well_formed s = true -> Forall (fun d => (38 =? d) = false) (form_encode s)) as H.
  { intros s Hs. eapply Forall_impl; [by apply (no_separator_ne 38), form_encode_separator|].
    intros d Hd. apply N.eqb_neq. simpl in Hd. congruence. }
  apply Forall_app. split; [auto|]. constructor; [done|auto].
Qed.

Lemma form_pair_nonempty kv : form_pair kv <> [].
Proof. unfold form_pair. by destruct (form_encode kv.1). Qed.

Lemma split_form_pairs l :
  Forall pair_ok l -> l <> [] -> split_on (N.eqb 38) (join [38] (map form_pair l)) = map form_pair l.
Proof.
  induction 1 as [|kv l Hkv Hl IH]; [done|]. intros _. destruct l as [|kv' l].
  - simpl. by apply split_on_none, form_pair_amp.
  - change (join [38] (map form_pair (kv :: kv' :: l)))
      with (form_pair kv ++ 38 :: join [38] (map form_pair (kv' :: l))).
    rewrite split_on_app by (done || by apply form_pair_amp). by rewrite IH.
Qed.

Lemma query_roundtrip l : Forall pair_ok l -> parse_query (search_params_string l) = l.
Proof.
  intros Hl. destruct l as [|kv l]; [done|].
  unfold parse_query, search_params_string.
  destruct (join [38] _) as [|c q] eqn:E.
  { destruct l; simpl in E; [by apply form_pair_nonempty in E|].
    by apply app_eq_nil in E as [E _]; apply form_pair_nonempty in E. }
  rewrite <- E, split_form_pairs by done. rewrite map_map.
  rewrite <- (map_id (kv :: l)) at 2. apply map_ext_in. intros x Hx.
  apply decode_form_pair. rewrite Forall_forall in Hl. by apply Hl, list_elem_of_In.
Qed.

Lemma search_params_nil l : search_params_string l = [] <-> l = [].
Proof.
  split; [|by intros ->]. destruct l as [|kv [|kv' l]]; [done| |];
    unfold search_params_string; simpl; intros E.
  - by apply form_pair_nonempty in E.
  - by apply app_eq_nil in E as [E _]; apply form_pair_nonempty in E.
Qed.
