(* ===== verification/Dates.v ===== *)
(** * Dates

    What the console uses of [Date]: time values in milliseconds since the
    epoch and [toISOString]. The calendar is the proleptic Gregorian one of
    ECMA-262, whose equations ([DayFromYear], [DaysInYear], the month table)
    are written out; [year_and_day] computes the year of a day number by
    division into centuries and four-year cycles and is proved to be the
    inverse of those equations. *)

From Stdlib Require Import ZArith NArith Lia String.
From S2P Require Import Prelude JsString.
Local Open Scope Z_scope.

(** ** The calendar of ECMA-262 *)

Definition msPerDay : Z := 86400000.

(** Days from the epoch to the first of January of a year. *)
Definition DayFromYear (y : Z) : Z :=
  365 * (y - 1970) + (y - 1969) / 4 - (y - 1901) / 100 + (y - 1601) / 400.

Definition leap (y : Z) : bool :=
  (y mod 4 =? 0) && (negb (y mod 100 =? 0) || (y mod 400 =? 0)).

Definition InLeapYear (y : Z) : Z := if leap y then 1 else 0.
Definition DaysInYear (y : Z) : Z := 365 + InLeapYear y.

(** The first day of each month (counted from 0) within the year. *)
Definition month_start (l m : Z) : Z :=
  match m with
  | 0 => 0 | 1 => 31 | 2 => 59 + l | 3 => 90 + l | 4 => 120 + l | 5 => 151 + l
  | 6 => 181 + l | 7 => 212 + l | 8 => 243 + l | 9 => 273 + l | 10 => 304 + l
  | 11 => 334 + l | _ => 365 + l
  end.

(** [MakeDay] for a month within 0..11. *)
Definition MakeDay (y m d : Z) : Z := DayFromYear y + month_start (InLeapYear y) m + d - 1.

(** ** The year of a day number *)

(** Days are counted from the first of January 2001, the start of a cycle of
    400 years with its leap years last. *)
Definition year_and_day (n : Z) : Z * Z :=
  let z := n - 11323 in
  let era := z / 146097 in
  let r0 := z mod 146097 in
  let c := Z.min (r0 / 36524) 3 in
  let r1 := r0 - 36524 * c in
  let q := r1 / 1461 in
  let r2 := r1 mod 1461 in
  let a := Z.min (r2 / 365) 3 in
  (2001 + 400 * era + 100 * c + 4 * q + a, r2 - 365 * a).

Fixpoint find_month (ms : list Z) (l doy : Z) : Z :=
  match ms with
  | [] => 0
  | m :: ms' => if month_start l m <=? doy then m else find_month ms' l doy
  end.

Definition month_of (l doy : Z) : Z := find_month [11; 10; 9; 8; 7; 6; 5; 4; 3; 2; 1] l doy.

(** Year, month (0..11) and day of the month (1..31) of a day number. *)
Definition civil (n : Z) : Z * Z * Z :=
  let '(y, doy) := year_and_day n in
  let m := month_of (InLeapYear y) doy in
  (y, m, doy - month_start (InLeapYear y) m + 1).

(** ** [Date.prototype.toISOString] *)

Definition pad (n : nat) (k : Z) : jsstring :=
  replicate (n - length (digits k)) 48%N ++ digits k.

(** Four digits for the years 0 to 9999, a sign and six digits otherwise. *)
Definition iso_year (y : Z) : jsstring :=
  if (0 <=? y) && (y <=? 9999) then pad 4 y
  else (if y <? 0 then 45%N else 43%N) :: pad 6 (Z.abs y).

Definition max_time : Z := 8640000000000000.

(** [None] is the [RangeError] of an invalid date. *)
Definition toISOString (t : Z) : option jsstring :=
  if Z.abs t <=? max_time then
    let '(y, m, d) := civil (t / msPerDay) in
    let s := t mod msPerDay in
    Some (iso_year y ++ 45%N :: pad 2 (m + 1) ++ 45%N :: pad 2 d ++ 84%N
          :: pad 2 (s / 3600000) ++ 58%N :: pad 2 (s / 60000 mod 60) ++ 58%N
          :: pad 2 (s / 1000 mod 60) ++ 46%N :: pad 3 (s mod 1000) ++ [90%N])
  else None.

(** ** Reading the format back *)

(** A field of [n] digits followed by the separator [sep]. *)
Definition read_field (n : nat) (sep : N) (s : jsstring) : option (Z * jsstring) :=
  let ds := take n s in
  match drop n s with
  | c :: rest =>
      if (c =? sep)%N && forallb is_digit ds && Nat.eqb (length ds) n
      then Some (digits_val ds, rest) else None
  | [] => None
  end.

Definition read_year (s : jsstring) : option (Z * jsstring) :=
  match s with
  | 45%N :: s' => '(y, r) ← read_field 6 45 s'; Some (- y, r)
  | 43%N :: s' => read_field 6 45 s'
  | _ => read_field 4 45 s
  end.

(** The date-time format of ECMA-262 with all its fields, in UTC. *)
Definition parse_iso (s : jsstring) : option Z :=
  '(y, s) ← read_year s;
  '(mo, s) ← read_field 2 45 s;
  '(d, s) ← read_field 2 84 s;
  '(h, s) ← read_field 2 58 s;
  '(mi, s) ← read_field 2 58 s;
  '(se, s) ← read_field 2 46 s;
  '(ms, s) ← read_field 3 90 s;
  match s with
  | [] => Some (MakeDay y (mo - 1) d * msPerDay + h * 3600000 + mi * 60000 + se * 1000 + ms)
  | _ :: _ => None
  end.

(** ** The calendar is right *)

Lemma DayFromYear_next y : DayFromYear (y + 1) = DayFromYear y + DaysInYear y.
Proof.
  unfold DayFromYear, DaysInYear, InLeapYear, leap.
  destruct (y mod 4 =? 0) eqn:E4, (y mod 100 =? 0) eqn:E100, (y mod 400 =? 0) eqn:E400; boolify; simpl;
    Z.to_euclidean_division_equations; lia.
Qed.

Lemma year_and_day_bounds n :
  let '(y, doy) := year_and_day n in
  DayFromYear y + doy = n /\ 0 <= doy < DaysInYear y.
Proof.
  unfold year_and_day.
  set (z := n - 11323). set (era := z / 146097). set (r0 := z mod 146097).
  set (c := Z.min (r0 / 36524) 3). set (r1 := r0 - 36524 * c).
  set (q := r1 / 1461). set (r2 := r1 mod 1461). set (a := Z.min (r2 / 365) 3).
  pose proof (Z.div_mod z 146097 ltac:(lia)) as Hz. fold era r0 in Hz.
  pose proof (Z.mod_pos_bound z 146097 ltac:(lia)) as Hr0. fold r0 in Hr0.
  assert (0 <= c <= 3 /\ 0 <= r1 < 36525 /\ (c < 3 -> r1 < 36524)) as (Hc & Hr1 & Hr1').
  { unfold r1, c. pose proof (Z.div_mod r0 36524 ltac:(lia)). pose proof (Z.mod_pos_bound r0 36524 ltac:(lia)). lia. }
  pose proof (Z.div_mod r1 1461 ltac:(lia)) as Hq. fold q r2 in Hq.
  pose proof (Z.mod_pos_bound r1 1461 ltac:(lia)) as Hr2. fold r2 in Hr2.
  assert (0 <= a <= 3 /\ 0 <= r2 - 365 * a /\ (a < 3 -> r2 - 365 * a < 365)) as (Ha & Hd0 & Hd1).
  { unfold a. pose proof (Z.div_mod r2 365 ltac:(lia)). pose proof (Z.mod_pos_bound r2 365 ltac:(lia)). lia. }
  assert (0 <= q <= 24) as Hqb by lia.
  set (y := 2001 + 400 * era + 100 * c + 4 * q + a).
  assert ((y - 1969) / 4 = 8 + 100 * era + 25 * c + q) as H4 by (unfold y; Z.to_euclidean_division_equations; lia).
  assert ((y - 1901) / 100 = 1 + 4 * era + c) as H100 by (unfold y; Z.to_euclidean_division_equations; lia).
  assert ((y - 1601) / 400 = 1 + era) as H400 by (unfold y; Z.to_euclidean_division_equations; lia).
  assert (DayFromYear y + (r2 - 365 * a) = n) as Hday.
  { unfold DayFromYear. rewrite H4, H100, H400. unfold y. clear H4 H100 H400. subst z. lia. }
  split; [done|]. split; [done|].
  unfold DaysInYear, InLeapYear, leap.
  destruct (decide (a = 3)) as [E3|E3]; [|assert (r2 - 365 * a < 365) by lia; case_if; lia].
  assert (y mod 4 = 0) as -> by (unfold y; rewrite E3; Z.to_euclidean_division_equations; lia).
  destruct (decide (q = 24)) as [E24|].
  - destruct (decide (c = 3)) as [Ec|].
    + assert (y mod 400 = 0) as -> by (unfold y; rewrite E3, E24, Ec; Z.to_euclidean_division_equations; lia).
      rewrite orb_true_r. simpl. lia.
    + assert (r2 - 365 * a < 365) by lia. case_if; lia.
  - assert (y mod 100 <> 0) as E100 by (unfold y; Z.to_euclidean_division_equations; lia).
    apply Z.eqb_neq in E100. rewrite E100. simpl. lia.
Qed.

(** Days of the month, for [civil]. *)
Lemma month_of_bounds l doy :
  0 <= l <= 1 -> 0 <= doy < 365 + l ->
  let m := month_of l doy in
  0 <= m <= 11 /\ month_start l m <= doy < month_start l (m + 1) /\ month_start l (m + 1) <= month_start l m + 31.
Proof.
  intros Hl Hd. cbv zeta. unfold month_of. cbn [find_month].
  repeat case_if; boolify;
    repeat match goal with
    | |- context [month_start l ?e] => let v := eval vm_compute in e in progress change e with v
    end; unfold month_start in *; lia.
Qed.

Lemma InLeapYear_bounds y : 0 <= InLeapYear y <= 1.
Proof. unfold InLeapYear. case_if; lia. Qed.

Lemma civil_spec n :
  let '(y, m, d) := civil n in
  MakeDay y m d = n /\ 0 <= m <= 11 /\ 1 <= d <= 31 /\
  month_start (InLeapYear y) m + d <= month_start (InLeapYear y) (m + 1).
Proof.
  unfold civil. pose proof (year_and_day_bounds n) as Hy. destruct (year_and_day n) as [y doy].
  destruct Hy as [Hy Hd]. pose proof (InLeapYear_bounds y) as Hl.
  destruct (month_of_bounds (InLeapYear y) doy Hl Hd) as (Hm & Hs & H31).
  unfold MakeDay. lia.
Qed.

(** ** Padded fields *)

Lemma digits_val_nonneg ds : Forall (fun c => is_digit c = true) ds -> 0 <= digits_val ds.
Proof.
  induction ds as [|d ds IH] using rev_ind; [done|]. intros [Hds Hd]%Forall_app.
  rewrite digits_val_app. specialize (IH Hds). apply Forall_cons in Hd as [Hd _].
  unfold is_digit in Hd. boolify. unfold digits_val at 2. simpl. lia.
Qed.

Lemma length_digits (n : nat) k : 0 <= k < 10 ^ Z.of_nat n -> (0 < n)%nat -> (length (digits k) <= n)%nat.
Proof.
  intros Hk Hn. destruct (digits_spec k ltac:(lia)) as (Hv & Hd & Hne & Hh).
  destruct (decide (k = 0)) as [->|Hk0]; [by rewrite digits_zero|].
  destruct (digits k) as [|d ds]; [done|]. apply Forall_cons in Hd as [Hd Hds].
  assert (d <> 48%N) as Hd0 by (intros ->; simpl in Hh; auto).
  change (d :: ds) with ([d] ++ ds) in Hv. rewrite digits_val_app in Hv.
  pose proof (digits_val_nonneg ds Hds). unfold is_digit in Hd. boolify.
  unfold digits_val at 1 in Hv. simpl in Hv.
  assert (10 ^ Z.of_nat (length ds) <= k) by nia.
  destruct (decide (length (d :: ds) <= n)%nat) as [|Hgt]; [done|]. simpl in *.
  assert (10 ^ Z.of_nat n <= 10 ^ Z.of_nat (length ds)) by (apply Z.pow_le_mono_r; lia). lia.
Qed.

Lemma pad_spec (n : nat) k : 0 <= k < 10 ^ Z.of_nat n -> (0 < n)%nat ->
  length (pad n k) = n /\ forallb is_digit (pad n k) = true /\ digits_val (pad n k) = k.
Proof.
  intros Hk Hn. pose proof (length_digits n k Hk Hn) as Hl.
  destruct (digits_spec k ltac:(lia)) as (Hv & Hd & _). unfold pad. split_and!.
  - rewrite length_app, length_replicate. lia.
  - rewrite forallb_app. apply andb_true_iff. split; apply forallb_forall; intros c Hc%list_elem_of_In.
    + by apply elem_of_replicate in Hc as [-> _].
    + rewrite Forall_forall in Hd. auto.
  - rewrite digits_val_app, digits_val_zeros, Hv. lia.
Qed.

Lemma read_field_pad (n : nat) sep k r : 0 <= k < 10 ^ Z.of_nat n -> (0 < n)%nat ->
  read_field n sep (pad n k ++ sep :: r) = Some (k, r).
Proof.
  intros Hk Hn. destruct (pad_spec n k Hk Hn) as (Hl & Hd & Hv). unfold read_field.
  rewrite take_app_length', drop_app_length' by done.
  by rewrite N.eqb_refl, Hd, Hl, Nat.eqb_refl, Hv.
Qed.

(** A padded field starts with a digit, so a sign is never mistaken. *)
Lemma pad_head (n : nat) k r : 0 <= k < 10 ^ Z.of_nat n -> (0 < n)%nat ->
  exists c t, pad n k ++ r = c :: t /\ is_digit c = true.
Proof.
  intros Hk Hn. destruct (pad_spec n k Hk Hn) as (Hl & Hd & _).
  destruct (pad n k) as [|c t]; [simpl in Hl; lia|]. simpl in Hd. boolify. by exists c, (t ++ r).
Qed.

Lemma read_year_iso y r : -999999 <= y <= 999999 -> read_year (iso_year y ++ 45%N :: r) = Some (y, r).
Proof.
  intros Hy. unfold iso_year. destruct ((0 <=? y) && (y <=? 9999)) eqn:E; boolify.
  - destruct (pad_head 4 y (45%N :: r) ltac:(simpl; lia) ltac:(lia)) as (c & t & Ht & Hc).
    pose proof (read_field_pad 4 45 y r ltac:(simpl; lia) ltac:(lia)) as Hr. rewrite Ht in *.
    rewrite <- Hr. unfold read_year. unfold is_digit in Hc. boolify.
    destruct c as [|p]; [lia|]. do 6 (try destruct p as [p|p|]); try done; lia.
  - destruct (y <? 0) eqn:E0; boolify; cbn [app read_year].
    + rewrite read_field_pad by (simpl; lia). simpl. f_equal. f_equal. lia.
    + rewrite read_field_pad by (simpl; lia). f_equal. f_equal. lia.
Qed.

(** ** The year stays within six digits for every time value *)

Lemma DayFromYear_bounds y : 365 * (y - 1970) - 500 - Z.abs y <= DayFromYear y <= 365 * (y - 1970) + 500 + Z.abs y.
Proof. unfold DayFromYear. Z.to_euclidean_division_equations; lia. Qed.

Lemma civil_year_bounds n : Z.abs n <= 100000000 ->
  let '(y, _, _) := civil n in -999999 <= y <= 999999.
Proof.
  intros Hn. unfold civil. pose proof (year_and_day_bounds n) as Hy. destruct (year_and_day n) as [y doy].
  destruct Hy as [Hy Hd]. pose proof (DayFromYear_bounds y). pose proof (InLeapYear_bounds y).
  unfold DaysInYear in Hd. lia.
Qed.

(** The text of a time value reads back as that time value. *)
Lemma parse_toISOString t s : toISOString t = Some s -> parse_iso s = Some t.
Proof.
  unfold toISOString, max_time. destruct (Z.abs t <=? 8640000000000000) eqn:Et; [|done]. boolify.
  assert (Z.abs (t / msPerDay) <= 100000000) as Hn by (unfold msPerDay; Z.to_euclidean_division_equations; lia).
  pose proof (civil_spec (t / msPerDay)) as Hc. pose proof (civil_year_bounds _ Hn) as Hyb.
  destruct (civil (t / msPerDay)) as [[y m] d]. destruct Hc as (Hday & Hm & Hd & _).
  pose proof (Z.mod_pos_bound t msPerDay ltac:(unfold msPerDay; lia)) as Hs.
  pose proof (Z.div_mod t msPerDay ltac:(unfold msPerDay; lia)) as Hdm.
  set (x := t mod msPerDay) in *. unfold msPerDay in Hs.
  pose proof (Z.mod_pos_bound (x / 60000) 60 ltac:(lia)). pose proof (Z.mod_pos_bound (x / 1000) 60 ltac:(lia)).
  pose proof (Z.mod_pos_bound x 1000 ltac:(lia)).
  assert (0 <= x / 3600000 < 24) by (Z.to_euclidean_division_equations; lia).
  intros E%(inj Some). subst s. unfold parse_iso. rewrite read_year_iso by done. cbn [mbind option_bind].
  do 6 (rewrite read_field_pad by (simpl; lia); cbn [mbind option_bind]).
  f_equal. replace (m + 1 - 1) with m by lia. rewrite Hday.
  clear Hday. rewrite Hdm at 2. Z.to_euclidean_division_equations; lia.
Qed.

(** Within a day of the epoch's range every time value has a text. *)
Lemma toISOString_defined t : Z.abs t <= max_time -> is_Some (toISOString t).
Proof.
  intros Ht. unfold toISOString. apply Z.leb_le in Ht. rewrite Ht.
  destruct (civil _) as [[y m] d]. eauto.
Qed.

(** The date part: the first ten code units, for the years of four digits. *)
Lemma toISOString_date t s : toISOString t = Some s -> 0 <= (civil (t / msPerDay)).1.1 <= 9999 ->
  let '(y, m, d) := civil (t / msPerDay) in
  slice_head 10 s = pad 4 y ++ 45%N :: pad 2 (m + 1) ++ 45%N :: pad 2 d.
Proof.
  unfold toISOString. case_if; [|done]. pose proof (civil_spec (t / msPerDay)) as Hc.
  destruct (civil (t / msPerDay)) as [[y m] d]. destruct Hc as (_ & Hm & Hd & _). simpl fst. intros E%(inj Some) Hy.
  subst s. unfold iso_year. replace ((0 <=? y) && (y <=? 9999)) with true
    by (symmetry; apply andb_true_iff; rewrite !Z.leb_le; lia).
  destruct (pad_spec 4 y ltac:(simpl; lia) ltac:(lia)) as (L4 & _).
  destruct (pad_spec 2 (m + 1) ltac:(simpl; lia) ltac:(lia)) as (L2 & _).
  destruct (pad_spec 2 d ltac:(simpl; lia) ltac:(lia)) as (L2' & _).
  unfold slice_head.
  match goal with |- take 10 (?a ++ ?b :: ?c ++ ?b :: ?d ++ ?r) = _ =>
    replace (a ++ b :: c ++ b :: d ++ r) with ((a ++ b :: c ++ b :: d) ++ r) by (by rewrite <- !app_assoc; simpl; rewrite <- !app_assoc) end.
  apply take_app_length'. rewrite length_app. simpl. rewrite length_app. simpl. lia.
Qed.

Lemma toISOString_example : toISOString 1709208123045 = Some (js "2024-02-29T12:02:03.045Z").
Proof. reflexivity. Qed.
Lemma toISOString_negative_year : toISOString (-62198755200001) = Some (js "-000002-12-31T23:59:59.999Z").
Proof. vm_compute. reflexivity. Qed.
