(* ===== verification/Numbers.v ===== *)
(** * Printing numbers with a fixed number of digits

    [Number.prototype.toFixed] on a quotient of integers: the integer [n]
    nearest to the value times ten to the number of digits, the larger of
    two equally near, with the decimal point put in. The console prints
    sizes, latencies and series this way. Quotients are exact here; binary64
    rounds them first, which changes the text only when the quotient is
    within that error of a tie. *)

From Stdlib Require Import ZArith NArith Lia String.
From S2P Require Import Prelude JsString JsValue Dates.
Local Open Scope Z_scope.

(** The nearest integer to [p / q], ties upwards, for [0 <= p], [0 < q]. *)
Definition round_half_up (p q : Z) : Z := (2 * p + q) / (2 * q).

(** The digits of [n] with a point before the last [f] of them. *)
Definition with_point (f : nat) (n : Z) : jsstring :=
  let ds := pad (S f) n in
  match f with
  | O => ds
  | S _ => take (length ds - f) ds ++ 46%N :: drop (length ds - f) ds
  end.

(** [(p / q).toFixed(f)] *)
Definition toFixed (f : nat) (p q : Z) : jsstring :=
  let n := round_half_up (Z.abs p * 10 ^ Z.of_nat f) q in
  if p <? 0 then 45%N :: with_point f n else with_point f n.

(** ** Lemmas *)

Lemma round_half_up_near p q : 0 < q -> 2 * Z.abs (round_half_up p q * q - p) <= q.
Proof.
  intros Hq. unfold round_half_up.
  pose proof (Z.div_mod (2 * p + q) (2 * q) ltac:(lia)). pose proof (Z.mod_pos_bound (2 * p + q) (2 * q) ltac:(lia)).
  nia.
Qed.

Lemma round_half_up_exact n q : 0 < q -> round_half_up (n * q) q = n.
Proof.
  intros Hq. unfold round_half_up. symmetry. apply (Z.div_unique _ _ _ q); lia.
Qed.

Lemma round_half_up_mono p p' q : 0 < q -> p <= p' -> round_half_up p q <= round_half_up p' q.
Proof. intros Hq Hp. unfold round_half_up. apply Z.div_le_mono; lia. Qed.

Lemma round_half_up_nonneg p q : 0 < q -> 0 <= p -> 0 <= round_half_up p q.
Proof. intros Hq Hp. unfold round_half_up. apply Z.div_pos; lia. Qed.

(** Reading the digits of the text back, without its sign and point. *)
Definition fixed_digits (s : jsstring) : Z := digits_val (List.filter is_digit s).

Lemma filter_digits (s : jsstring) : forallb is_digit s = true -> List.filter is_digit s = s.
Proof. induction s as [|c s IH]; simpl; [done|]. intros. boolify. rewrite H, IH by done. done. Qed.

Lemma pad_digits (n : nat) k : 0 <= k -> forallb is_digit (pad n k) = true /\ digits_val (pad n k) = k /\ (n <= length (pad n k))%nat.
Proof.
  intros Hk. destruct (digits_spec k Hk) as (Hv & Hd & _). unfold pad. split_and!.
  - rewrite forallb_app. apply andb_true_iff. split; apply forallb_forall; intros c Hc%list_elem_of_In.
    + by apply elem_of_replicate in Hc as [-> _].
    + rewrite Forall_forall in Hd. auto.
  - rewrite digits_val_app, digits_val_zeros, Hv. lia.
  - rewrite length_app, length_replicate. lia.
Qed.

Lemma with_point_digits f n : 0 <= n -> fixed_digits (with_point f n) = n.
Proof.
  intros Hn. destruct (pad_digits (S f) n Hn) as (Hd & Hv & _). unfold fixed_digits, with_point.
  destruct f as [|f]; [by rewrite filter_digits|].
  set (k := (length (pad (S (S f)) n) - S f)%nat).
  rewrite List.filter_app. simpl. rewrite <- List.filter_app, take_drop, filter_digits; done.
Qed.

(** The text is the value rounded to [f] digits. *)
Lemma toFixed_rounds f p q : 0 < q ->
  fixed_digits (toFixed f p q) = round_half_up (Z.abs p * 10 ^ Z.of_nat f) q /\
  2 * Z.abs (fixed_digits (toFixed f p q) * q - Z.abs p * 10 ^ Z.of_nat f) <= q.
Proof.
  intros Hq.
  assert (fixed_digits (toFixed f p q) = round_half_up (Z.abs p * 10 ^ Z.of_nat f) q) as ->.
  { unfold toFixed. assert (0 <= round_half_up (Z.abs p * 10 ^ Z.of_nat f) q) as Hn.
    { apply round_half_up_nonneg; [done|]. pose proof (Z.pow_nonneg 10 (Z.of_nat f)). lia. }
    case_if; [|by apply with_point_digits].
    change (fixed_digits (45%N :: with_point f (round_half_up (Z.abs p * 10 ^ Z.of_nat f) q)))
      with (fixed_digits (with_point f (round_half_up (Z.abs p * 10 ^ Z.of_nat f) q))).
    by apply with_point_digits. }
  split; [done|]. by apply round_half_up_near.
Qed.

Lemma toFixed_examples :
  toFixed 1 1536 1024 = js "1.5" /\ toFixed 1 51 1000 = js "0.1" /\ toFixed 2 (-5) 1000 = js "-0.01" /\
  toFixed 0 5 2 = js "3" /\ toFixed 1 0 1 = js "0.0".
Proof. repeat split. Qed.
