(* ===== verification/Fetcher.v ===== *)
(** * The HTTP client

    [lib/fetcher.ts] and [hooks/useApi.ts]: the session kept in
    [localStorage], the construction of the request (URL, headers, body) and
    the classification of every outcome of [fetch] as a value or an
    [ApiError]. The network is an argument: an outcome is what [fetch]
    settles with. The base URL of the build is the class [ApiEnv]. *)

From Stdlib Require Import ZArith NArith Lia String.
From stdpp Require Import gmap.
From S2P Require Import Prelude JsString JsValue Json JsonFacts Urls.

(** ** localStorage *)

(** A restricted browser makes reads or writes throw. *)
Record Storage := {
  items : gmap jsstring jsstring;
  readable : bool;
  writable : bool
}.

Definition set_items (st : Storage) (m : gmap jsstring jsstring) : Storage :=
  {| items := m; readable := readable st; writable := writable st |}.

Definition getItem (st : Storage) (k : jsstring) : result unit (option jsstring) :=
  if readable st then Ok (items st !! k) else Throw tt.
Definition setItem (st : Storage) (k v : jsstring) : result unit Storage :=
  if writable st then Ok (set_items st (<[k := v]> (items st))) else Throw tt.
Definition removeItem (st : Storage) (k : jsstring) : result unit Storage :=
  if writable st then Ok (set_items st (delete k (items st))) else Throw tt.

Definition TOKEN_STORAGE_KEY : jsstring := js "aurora_admin_token".
Definition USER_STORAGE_KEY : jsstring := js "aurora_admin_user".

Definition catch {E A} (r : result E A) (a : A) : A := match r with Ok x => x | Throw _ => a end.

Definition getAuthToken (st : Storage) : option jsstring := catch (getItem st TOKEN_STORAGE_KEY) None.
Definition setAuthToken (st : Storage) (token : jsstring) : Storage :=
  catch (setItem st TOKEN_STORAGE_KEY token) st.
Definition removeAuthToken (st : Storage) : Storage := catch (removeItem st TOKEN_STORAGE_KEY) st.

(** [raw ? JSON.parse(raw) : null]; a parse error is caught. *)
Definition getAuthUser (st : Storage) : val :=
  match getItem st USER_STORAGE_KEY with
  | Ok (Some raw) => match raw with [] => VNull | _ => default VNull (parse raw) end
  | _ => VNull
  end.

Definition setAuthUser (st : Storage) (user : val) : Storage :=
  catch (setItem st USER_STORAGE_KEY (default (js "undefined") (stringify user))) st.

(** ** URLs *)

Class ApiEnv := { API_BASE_URL : jsstring }.

Inductive param := PStr (s : jsstring) | PNum (n : num) | PBool (b : bool) | PUndef | PNull.

Definition param_string (p : param) : jsstring :=
  match p with
  | PStr s => s
  | PNum n => num_string n
  | PBool b => if b then js "true" else js "false"
  | PUndef => js "undefined"
  | PNull => js "null"
  end.

(** [value !== undefined && value !== null && value !== ""] *)
Definition param_kept (p : param) : bool :=
  match p with PUndef | PNull => false | PStr [] => false | _ => true end.

Definition kept_params (params : list (jsstring * param)) : list (jsstring * jsstring) :=
  map (fun kv => (kv.1, param_string kv.2)) (List.filter (fun kv => param_kept kv.2) params).

Section Client.
Context `{ApiEnv}.

Definition buildUrl (endpoint : jsstring) (params : option (list (jsstring * param))) : jsstring :=
  let cleanEndpoint := if startsWith (js "/") endpoint then endpoint else js "/" ++ endpoint in
  let url := API_BASE_URL ++ cleanEndpoint in
  match params with
  | None => url
  | Some params =>
      let queryString := search_params_string (kept_params params) in
      match queryString with
      | [] => url
      | _ => url ++ (if includes (js "?") url then js "&" else js "?") ++ queryString
      end
  end.

(** ** Requests *)

(** A body argument is a JavaScript value or one of the binary classes
    ([FormData], [Blob], [URLSearchParams]), which are passed through. *)
Inductive body_arg := BodyVal (v : val) | BodyBinary (b : nat).
Inductive body_init := NoBody | TextBody (s : jsstring) | BinaryBody (b : nat).

Record FetchOptions := {
  opt_method : jsstring;
  opt_params : option (list (jsstring * param));
  opt_body : body_arg;
  opt_token : option jsstring;
  opt_idempotencyKey : option jsstring;
  opt_timeoutMs : option Z;
  opt_headers : gmap jsstring jsstring;
  opt_credentials : option jsstring
}.

Record request := {
  req_url : jsstring;
  req_method : jsstring;
  req_headers : gmap jsstring jsstring;
  req_body : body_init;
  req_credentials : jsstring
}.

Definition add_header (k : jsstring) (v : option jsstring) (h : gmap jsstring jsstring) :
    gmap jsstring jsstring :=
  match v with Some (c :: s) => <[k := c :: s]> h | _ => h end.

(** A string or binary body goes as it is, any other value as JSON text. *)
Definition with_body (headers : gmap jsstring jsstring) (b : body_arg) : gmap jsstring jsstring * body_init :=
  match b with
  | BodyVal VUndef => (headers, NoBody)
  | BodyVal (VStr s) => (headers, TextBody s)
  | BodyBinary b => (headers, BinaryBody b)
  | BodyVal v => (<[js "Content-Type" := js "application/json"]> headers, TextBody (ser [] [] v))
  end.

(** The request that [fetcher] passes to [fetch]. *)
Definition build_request (st : Storage) (endpoint : jsstring) (o : FetchOptions) : request :=
  let authToken := match opt_token o with Some t => Some t | None => getAuthToken st end in
  let headers := opt_headers o ∪ {[ js "Accept" := js "application/json" ]} in
  let headers := add_header (js "Authorization")
                   (match authToken with Some (c :: t) => Some (js "Bearer " ++ c :: t) | _ => None end) headers in
  let headers := add_header (js "Idempotency-Key") (opt_idempotencyKey o) headers in
  let '(headers, body) := with_body headers (opt_body o) in
  {| req_url := buildUrl endpoint (opt_params o); req_method := opt_method o;
     req_headers := headers; req_body := body;
     req_credentials := default (js "same-origin") (opt_credentials o) |}.

(** ** Responses *)

Record response := {
  status : Z;
  statusText : jsstring;
  content_type : option jsstring;
  body_text : option jsstring   (* [None]: reading the body rejects *)
}.

(** What [fetch] settles with: a response, an [AbortError] (the timer or the
    caller's signal) or another rejection with its message. *)
Inductive abort_cause := TimedOut | CallerSignal.
Inductive network := Responded (r : response) | Aborted (c : abort_cause) | Rejected (message : jsstring).

Definition response_ok (r : response) : bool := ((200 <=? status r) && (status r <=? 299))%Z.

Record ApiError := {
  err_status : Z;
  err_statusText : jsstring;
  err_data : val;
  err_message : jsstring
}.

Definition http_message (st : Z) (text : jsstring) : jsstring :=
  js "HTTP " ++ int_string st ++ js ": " ++ text.

(** The constructor of [ApiError]; [message] is [undefined] when absent. *)
Definition new_ApiError (st : Z) (text : jsstring) (data message : val) : ApiError :=
  let m := val_or message
             (match data with
              | VStr s => VStr s
              | _ => val_or (opt_prop (js "message") data) (VStr (http_message st text))
              end) in
  {| err_status := st; err_statusText := text; err_data := data; err_message := to_string m |}.

Definition is_json (r : response) : bool :=
  includes (js "application/json") (default [] (content_type r)).

Definition response_data (r : response) : val :=
  if is_json r
  then match body_text r with Some t => default VNull (parse t) | None => VNull end
  else VStr (default [] (body_text r)).

Definition default_timeout : Z := 30000.

Definition timeout_error (timeoutMs : Z) : ApiError :=
  new_ApiError 408 (js "Request Timeout") VNull
    (VStr (js "Request timed out after " ++ int_string timeoutMs ++ js "ms")).

Definition network_error (message : jsstring) : ApiError :=
  new_ApiError 0 (js "Network Error") VNull (VStr (str_or message (js "Failed to fetch"))).

Definition settle (timeoutMs : Z) (n : network) : result ApiError val :=
  match n with
  | Responded r =>
      if (status r =? 204)%Z then Ok VNull else
      let data := response_data r in
      if response_ok r then Ok data
      else Throw (new_ApiError (status r) (statusText r) data
                    (match data with VStr s => VStr s | _ => opt_prop (js "message") data end))
  | Aborted _ => Throw (timeout_error timeoutMs)
  | Rejected m => Throw (network_error m)
  end.

(** [fetcher]: the request it sends and what it settles with. *)
Definition fetcher (st : Storage) (endpoint : jsstring) (o : FetchOptions) :
    request * (network -> result ApiError val) :=
  (build_request st endpoint o, settle (default default_timeout (opt_timeoutMs o))).

(** [logout]: the request, then the session is cleared whatever the outcome
    and the browser goes to the login page. *)
Definition logout (st : Storage) (n : network) : request * Storage * jsstring :=
  let st1 := removeAuthToken st in
  ({| req_url := buildUrl (js "/api/v1/auth/logout") None; req_method := js "POST";
      req_headers := ∅; req_body := NoBody; req_credentials := js "same-origin" |},
   catch (removeItem st1 USER_STORAGE_KEY) st1,
   js "/login").

(** ** The verbs of [api] *)

Definition options (method : jsstring) (params : option (list (jsstring * param))) (body : body_arg) :
    FetchOptions :=
  {| opt_method := method; opt_params := params; opt_body := body; opt_token := None;
     opt_idempotencyKey := None; opt_timeoutMs := None; opt_headers := ∅; opt_credentials := None |}.

Definition api_get (endpoint : jsstring) (params : option (list (jsstring * param))) : jsstring * FetchOptions :=
  (endpoint, options (js "GET") params (BodyVal VUndef)).
Definition api_post (endpoint : jsstring) (body : body_arg) : jsstring * FetchOptions :=
  (endpoint, options (js "POST") None body).
Definition api_put (endpoint : jsstring) (body : body_arg) : jsstring * FetchOptions :=
  (endpoint, options (js "PUT") None body).
Definition api_patch (endpoint : jsstring) (body : body_arg) : jsstring * FetchOptions :=
  (endpoint, options (js "PATCH") None body).
Definition api_delete (endpoint : jsstring) : jsstring * FetchOptions :=
  (endpoint, options (js "DELETE") None (BodyVal VUndef)).

End Client.

(** ** [useApi] *)

Module UseApi.

Record state := { data : option val; loading : bool; error : option ApiError }.

Inductive thrown := ThrownApi (e : ApiError) | ThrownOther (message : jsstring).

Definition initial (immediate : option bool) : state :=
  {| data := None; loading := default true immediate; error := None |}.

(** [execute] up to its [await]. *)
Definition execute_start (s : state) : state := {| data := data s; loading := true; error := None |}.

Definition as_ApiError (e : thrown) : ApiError :=
  match e with
  | ThrownApi e => e
  | ThrownOther m => new_ApiError 0 (js "Unknown Error") VNull (VStr m)
  end.

(** [execute] from its [await]: the state, and what the promise settles with. *)
Definition execute_finish (s : state) (r : result thrown val) : state * result ApiError val :=
  match r with
  | Ok v => ({| data := Some v; loading := false; error := error s |}, Ok v)
  | Throw e =>
      let apiErr := as_ApiError e in
      ({| data := data s; loading := false; error := Some apiErr |}, Throw apiErr)
  end.

Definition call (s : state) (r : result thrown val) : state := (execute_finish (execute_start s) r).1.

(** The most recent value of a history of outcomes, latest last. *)
Definition latest_value (rs : list (result thrown val)) : option val :=
  fold_left (fun d r => match r with Ok v => Some v | Throw _ => d end) rs None.

End UseApi.

(** ** Lemmas *)

Section ClientFacts.
Context `{ApiEnv}.

Lemma js_question_free s : Forall (fun c => c <> 63%N) s -> includes (js "?") s = false.
Proof.
  intros Hs. destruct (includes (js "?") s) eqn:E; [|done].
  apply includes_spec in E as (a & b & ->). apply Forall_app in Hs as [_ Hs].
  inversion Hs; subst. done.
Qed.

Definition clean_path (endpoint : jsstring) : jsstring :=
  if startsWith (js "/") endpoint then endpoint else js "/" ++ endpoint.

Lemma buildUrl_empty endpoint params :
  kept_params (default [] params) = [] -> buildUrl endpoint params = API_BASE_URL ++ clean_path endpoint.
Proof.
  intros Hk. unfold buildUrl, clean_path. destruct params as [params|]; [|done].
  simpl in Hk. by rewrite Hk.
Qed.

Lemma buildUrl_kept endpoint params :
  kept_params params <> [] ->
  buildUrl endpoint (Some params) =
  (API_BASE_URL ++ clean_path endpoint)
  ++ (if includes (js "?") (API_BASE_URL ++ clean_path endpoint) then js "&" else js "?")
  ++ search_params_string (kept_params params).
Proof.
  intros Hk. unfold buildUrl, clean_path.
  destruct (search_params_string (kept_params params)) eqn:E; [|done].
  by apply search_params_nil in E.
Qed.

(** The header fields do not interfere. *)
Lemma add_header_ne k k' v h : k <> k' -> add_header k v h !! k' = h !! k'.
Proof. intros. destruct v as [[|c s]|]; simpl; [done| |done]. by rewrite lookup_insert_ne. Qed.

Lemma add_header_eq k v h : add_header k v h !! k =
  match v with Some (c :: s) => Some (c :: s) | _ => h !! k end.
Proof. destruct v as [[|c s]|]; simpl; [done| |done]. by rewrite lookup_insert_eq. Qed.

Definition auth_header (t : option jsstring) (own : option jsstring) : option jsstring :=
  match t with Some (c :: t) => Some (js "Bearer " ++ c :: t) | _ => own end.

Lemma build_request_auth st endpoint o :
  req_headers (build_request st endpoint o) !! js "Authorization" =
  auth_header (match opt_token o with Some t => Some t | None => getAuthToken st end)
    (opt_headers o !! js "Authorization").
Proof.
  assert (forall h b, (with_body h b).1 !! js "Authorization" = h !! js "Authorization") as Hb.
  { intros h [[]|]; try done; simpl; by rewrite lookup_insert_ne by (by vm_compute). }
  unfold build_request. set (h0 := opt_headers o ∪ _).
  assert (h0 !! js "Authorization" = opt_headers o !! js "Authorization") as H0.
  { unfold h0. rewrite lookup_union_l; [done|]. by rewrite lookup_singleton_ne by (by vm_compute). }
  set (t := match opt_token o with Some t => Some t | None => getAuthToken st end).
  set (h1 := add_header (js "Idempotency-Key") _ _).
  assert (h1 !! js "Authorization" = auth_header t (opt_headers o !! js "Authorization")) as H1.
  { unfold h1. rewrite add_header_ne by (by vm_compute). rewrite add_header_eq, H0.
    destruct t as [[|c t']|]; try done. }
  specialize (Hb h1 (opt_body o)). destruct (with_body _ _) as [h b]. simpl in *. congruence.
Qed.

Lemma response_data_text r s : response_data r = VStr s -> is_json r = false -> body_text r = Some s \/ s = [].
Proof. unfold response_data. intros Hd Hj. rewrite Hj in Hd. destruct (body_text r); simpl in Hd; [left|right]; congruence. Qed.

Lemma truthy_val_or a b : truthy (val_or a b) = truthy a || truthy b.
Proof. unfold val_or. destruct (truthy a) eqn:E; [done|]. done. Qed.

Lemma http_message_nonempty st t : http_message st t <> [].
Proof. by vm_compute. Qed.
End ClientFacts.

(** ** Theorems *)

Section ClientTheorems.
Context `{ApiEnv}.

(** C38: the query that [buildUrl] appends says exactly what the caller
    passed: when neither the base nor the endpoint has a query of its own,
    the text after the first [?] decodes to the non-empty parameters in
    their order, whatever characters they hold, and without such a
    parameter no [?] is added. *)
Theorem buildUrl_query_roundtrip (endpoint : jsstring) (params : list (jsstring * param)) :
  Forall pair_ok (kept_params params) ->
  Forall (fun c => c <> 63%N) (API_BASE_URL ++ endpoint) ->
  exists rest, cut 63 (buildUrl endpoint (Some params)) = (API_BASE_URL ++ clean_path endpoint, rest)
    /\ parse_query (default [] rest) = kept_params params
    /\ (rest = None <-> kept_params params = []).
Proof.
  intros Hok Hq.
  assert (Forall (fun c => c <> 63%N) (API_BASE_URL ++ clean_path endpoint)) as Hq'.
  { unfold clean_path. destruct (startsWith (js "/") endpoint); [done|].
    apply Forall_app in Hq as [H1 H2]. apply Forall_app; split; [done|]. by constructor. }
  destruct (decide (kept_params params = [])) as [Hn|Hn].
  - exists None. rewrite buildUrl_empty by done. rewrite cut_none by done. by rewrite Hn.
  - exists (Some (search_params_string (kept_params params))). rewrite buildUrl_kept by done.
    rewrite js_question_free by done.
    change (js "?") with [63%N]. split; [by apply (cut_app 63)|].
    split; [by apply query_roundtrip|]. split; [done|by intros].
Qed.

(** C14: [fetcher] resolves exactly on a response that is 204 or of the 2xx
    class, with [null] or the decoded body, and otherwise throws an
    [ApiError] whose status is the response's status, 408 for an aborted
    request and 0 for any other rejection. *)
Theorem settle_classifies (timeoutMs : Z) (n : network) :
  match settle timeoutMs n, n with
  | Ok v, Responded r =>
      (status r = 204%Z /\ v = VNull) \/ ((200 <= status r <= 299)%Z /\ status r <> 204%Z /\ v = response_data r)
  | Throw e, Responded r => ~ (200 <= status r <= 299)%Z /\ err_status e = status r /\ err_data e = response_data r
  | Throw e, Aborted _ => err_status e = 408%Z
  | Throw e, Rejected _ => err_status e = 0%Z
  | Ok _, _ => False
  end.
Proof.
  destruct n as [r| |]; simpl; [|done|done].
  destruct (status r =? 204)%Z eqn:E; [left; by boolify|].
  destruct (response_ok r) eqn:Eo; unfold response_ok in Eo; boolify.
  - right. split; [lia|done].
  - simpl. split; [|done]. apply andb_false_iff in Eo as [Eo|Eo]; boolify; lia.
Qed.

(** The message of a failed response is the text of a text response, the
    [message] member of a JSON object when it is truthy, and otherwise
    the HTTP status line; an abort and a network failure have a non-empty
    message as well. Only a failed response with an empty text body gives
    an empty message. *)
Theorem settle_error_message (timeoutMs : Z) (n : network) (e : ApiError) :
  settle timeoutMs n = Throw e ->
  match n with
  | Responded r =>
      err_message e = match response_data r with
                      | VStr s => s
                      | d => to_string (val_or (opt_prop (js "message") d)
                                               (VStr (http_message (status r) (statusText r))))
                      end
  | _ => err_message e <> []
  end.
Proof.
  destruct n as [r| |m]; simpl; [| |].
  - repeat case_if; try done. intros [= <-]. simpl.
    destruct (response_data r) as [| | | |s|l|o]; simpl; try done.
    + by destruct s.
    + by unfold val_or; destruct (truthy (prop (js "message") o)) eqn:E; rewrite ?E.
  - intros [= <-]. done.
  - intros [= <-]. simpl. by destruct m.
Qed.

(** C26: a JSON body reaches the server as written: the request is declared
    as JSON, carries text that parses back to the value, and goes with the
    method of the options and the bearer token of the stored session. *)
Theorem json_request_faithful (st : Storage) (endpoint method : jsstring) (o : obj) (c : N) (token : jsstring) :
  json_ok (VObj o) -> getAuthToken st = Some (c :: token) ->
  let r := build_request st endpoint (options method None (BodyVal (VObj o))) in
  req_method r = method /\
  req_headers r !! js "Content-Type" = Some (js "application/json") /\
  req_headers r !! js "Authorization" = Some (js "Bearer " ++ c :: token) /\
  match req_body r with TextBody t => parse t = Some (VObj o) | _ => False end.
Proof.
  intros Ho Ht r. split; [done|]. split; [by unfold r; simpl; rewrite lookup_insert_eq|].
  split; [unfold r; rewrite build_request_auth; simpl; by rewrite Ht|].
  simpl. by apply parse_stringify_obj.
Qed.

(** The session survives a login and not a logout: with a usable store,
    the token and the user record written by a login are what the next
    request and page read, and after [logout], whatever the network does,
    neither is left and no request carries the stored token. *)
Theorem session_lifecycle (st : Storage) (token : jsstring) (user : val) (n : network) :
  readable st = true -> writable st = true -> json_ok user ->
  let st' := setAuthUser (setAuthToken st token) user in
  getAuthToken st' = Some token /\ getAuthUser st' = user /\
  let st'' := (logout st' n).1.2 in
  getAuthToken st'' = None /\ getAuthUser st'' = VNull /\
  forall endpoint o, opt_token o = None -> opt_headers o = ∅ ->
    req_headers (build_request st'' endpoint o) !! js "Authorization" = None.
Proof.
  intros Hr Hw Hu st' .
  assert (getItem st' TOKEN_STORAGE_KEY = Ok (Some token)) as H1.
  { unfold st', setAuthUser, setAuthToken, setItem. rewrite Hw. simpl. rewrite Hw. simpl.
    unfold getItem. simpl. rewrite Hr. by rewrite lookup_insert_ne, lookup_insert_eq by (by vm_compute). }
  assert (getItem st' USER_STORAGE_KEY = Ok (stringify user)) as H2.
  { unfold st', setAuthUser, setAuthToken, setItem. rewrite Hw. simpl. rewrite Hw. simpl.
    unfold getItem. simpl. rewrite Hr, lookup_insert_eq. f_equal. by destruct user. }
  assert (readable st' = true /\ writable st' = true) as [Hr' Hw'].
  { unfold st', setAuthUser, setAuthToken, setItem. rewrite Hw. simpl. by rewrite Hw. }
  split; [unfold getAuthToken; by rewrite H1|].
  split.
  { unfold getAuthUser. rewrite H2. destruct (ser_start [] [] user Hu) as (c & t & E & _).
    assert (stringify user = Some (ser [] [] user)) as -> by (by destruct user).
    rewrite E, <- E. by rewrite parse_ser by (done || constructor). }
  intros st''.
  assert (forall k, k = TOKEN_STORAGE_KEY \/ k = USER_STORAGE_KEY -> getItem st'' k = Ok None) as H3.
  { intros k Hk. unfold st'', logout, removeAuthToken, removeItem. simpl. rewrite Hw'. simpl. rewrite Hw'. simpl.
    unfold getItem. simpl. rewrite Hr'. f_equal. apply lookup_delete_None.
    destruct Hk as [->| ->]; [right; apply lookup_delete_eq|by left]. }
  assert (getAuthToken st'' = None) as Ht by (unfold getAuthToken; by rewrite H3 by auto).
  split; [done|]. split; [unfold getAuthUser; by rewrite H3 by auto|].
  intros endpoint o Ho Hh. rewrite build_request_auth, Ho, Ht, Hh. apply lookup_empty.
Qed.

(** Calls of a [useApi] hook that do not overlap leave it settled: not
    loading, with the most recent value, and with an error exactly when the
    last call failed. *)
Theorem useApi_settles (rs : list (result UseApi.thrown val)) (r : result UseApi.thrown val) (imm : option bool) :
  let s := fold_left UseApi.call (rs ++ [r]) (UseApi.initial imm) in
  UseApi.loading s = false /\ UseApi.data s = UseApi.latest_value (rs ++ [r]) /\
  UseApi.error s = match r with Ok _ => None | Throw e => Some (UseApi.as_ApiError e) end.
Proof.
  cbv zeta. unfold UseApi.latest_value. rewrite !fold_left_app. simpl.
  assert (forall rs s, UseApi.data (fold_left UseApi.call rs s) =
            fold_left (fun d r => match r with Ok v => Some v | Throw _ => d end) rs (UseApi.data s)) as Hd.
  { clear. induction rs as [|r rs IH]; intros s; simpl; [done|]. rewrite IH. by destruct r. }
  destruct r; simpl; rewrite ?Hd; done.
Qed.
End ClientTheorems.

(** ** Instances *)

#[local] Instance same_origin_env : ApiEnv := {| API_BASE_URL := [] |}.

Definition fresh_storage : Storage := {| items := ∅; readable := true; writable := true |}.

Definition example_params : list (jsstring * param) :=
  [(js "search", PStr (js "a&b=ç d")); (js "limit", PNum (num_of_Z 100)); (js "page", PUndef)].

Lemma buildUrl_query_roundtrip_witness :
  buildUrl (js "api/v1/routes") (Some example_params) = js "/api/v1/routes?search=a%26b%3D%C3%A7+d&limit=100" /\
  exists rest, cut 63 (buildUrl (js "api/v1/routes") (Some example_params))
      = (API_BASE_URL ++ clean_path (js "api/v1/routes"), rest)
    /\ parse_query (default [] rest) = kept_params example_params
    /\ (rest = None <-> kept_params example_params = []).
Proof.
  split; [reflexivity|].
  apply (buildUrl_query_roundtrip (js "api/v1/routes") example_params).
  - repeat constructor.
  - repeat constructor; discriminate.
Defined.

Definition not_found : response :=
  {| status := 404; statusText := js "Not Found"; content_type := Some (js "application/json");
     body_text := Some (stringify_obj [(js "message", vstr "no such route")]) |}.

Lemma settle_error_message_witness :
  exists e, settle 30000 (Responded not_found) = Throw e /\ err_message e = js "no such route".
Proof.
  eexists. split; [reflexivity|].
  exact (settle_error_message 30000 (Responded not_found) _ eq_refl).
Defined.

Definition logged_in : Storage := setAuthToken fresh_storage (js "t0k").

Lemma json_request_faithful_witness :
  let r := build_request logged_in (js "/api/v1/routes") (options (js "POST") None (BodyVal (VObj [(js "name", vstr "r")]))) in
  req_headers r !! js "Authorization" = Some (js "Bearer t0k").
Proof.
  apply (json_request_faithful logged_in (js "/api/v1/routes") (js "POST") [(js "name", vstr "r")] 116%N (js "0k")).
  - json_ok_compute.
  - reflexivity.
Defined.

Lemma session_lifecycle_witness :
  getAuthUser (setAuthUser (setAuthToken fresh_storage (js "t")) (VObj [(js "id", vstr "1")])) = VObj [(js "id", vstr "1")].
Proof.
  apply (session_lifecycle fresh_storage (js "t") (VObj [(js "id", vstr "1")]) (Aborted TimedOut));
    [reflexivity|reflexivity|json_ok_compute].
Defined.

(** A request cancelled by its caller is reported as a time-out. *)
Lemma caller_abort_reported_as_timeout (t : Z) : settle t (Aborted CallerSignal) = Throw (timeout_error t).
Proof. reflexivity. Qed.
