(* ===== verification/Session.v ===== *)
(** * Signing in and the console shell

    [pages/login/sections/LoginForm.tsx], the session guard and side bar of
    [layouts/ConsoleLayout.tsx] and [components/theme-provider.tsx] with the
    theme button of [components/ConsoleHeader.tsx]. The login form is a
    machine of two steps, credentials and second factor, around the session
    store of [Fetcher]; the guard decides on every navigation whether the
    console is shown; the shell keeps two preferences in the same store.
    What the control plane answers is an argument of the settling half of
    each handler. *)

From Stdlib Require Import ZArith NArith Lia String.
From stdpp Require Import gmap.
From S2P Require Import Prelude JsString JsValue Json JsonFacts Fetcher.
Local Open Scope string_scope.
Local Open Scope list_scope.

(** ** The login form *)

(** An error of the server is shown as it came, so [errorMessage] holds any
    value, and so does [twoFactorToken]. *)
Record LoginForm := {
  username : jsstring;
  password : jsstring;
  isLoading : bool;
  errorMessage : val;
  isSuccess : bool;
  requires2FA : bool;
  twoFactorToken : val;
  twoFactorCode : jsstring
}.

Definition initial_login : LoginForm :=
  {| username := []; password := []; isLoading := false; errorMessage := VStr []; isSuccess := false;
     requires2FA := false; twoFactorToken := VStr []; twoFactorCode := [] |}.

Definition set_pending (f : LoginForm) (loading : bool) (message : val) : LoginForm :=
  {| username := username f; password := password f; isLoading := loading; errorMessage := message;
     isSuccess := isSuccess f; requires2FA := requires2FA f; twoFactorToken := twoFactorToken f;
     twoFactorCode := twoFactorCode f |}.
Definition set_success (f : LoginForm) : LoginForm :=
  {| username := username f; password := password f; isLoading := false; errorMessage := errorMessage f;
     isSuccess := true; requires2FA := requires2FA f; twoFactorToken := twoFactorToken f;
     twoFactorCode := twoFactorCode f |}.
Definition set_second_factor (f : LoginForm) (on : bool) (token : val) (code : jsstring) : LoginForm :=
  {| username := username f; password := password f; isLoading := isLoading f; errorMessage := VStr [];
     isSuccess := isSuccess f; requires2FA := on; twoFactorToken := token; twoFactorCode := code |}.

Definition request_call := (jsstring * FetchOptions)%type.

(** [handleSubmit] up to its [await]. *)
Definition login_start (f : LoginForm) : LoginForm * option request_call :=
  if isLoading f then (f, None) else
  (set_pending f true (VStr []),
   Some (api_post (js "/api/v1/auth/login")
           (BodyVal (vobj [("username", VStr (trim (username f))); ("password", VStr (password f))])))).

(** What both handlers do with a response that should hold a token: the
    session is stored, or [Error('No token returned by server')] is thrown. *)
Definition accept_token (st : Storage) (data : val) : option Storage :=
  if truthy (opt_prop (js "token") data) then
    let st1 := setAuthToken st (to_string (opt_prop (js "token") data)) in
    Some (if truthy (opt_prop (js "user") data) then setAuthUser st1 (opt_prop (js "user") data) else st1)
  else None.

Definition no_token_message : jsstring := js "No token returned by server".

(** [err?.data?.error || err?.message || fallback] *)
Definition login_error (e : ApiError) (fallback : jsstring) : val :=
  val_or (opt_prop (js "error") (err_data e)) (val_or (VStr (err_message e)) (VStr fallback)).

(** The part shared by both handlers after the [await]. The third component
    is the page the browser goes to. *)
Definition finish_session (st : Storage) (f : LoginForm) (r : result ApiError val) (fallback : jsstring) :
    Storage * LoginForm * option jsstring :=
  match r with
  | Ok data =>
      match accept_token st data with
      | Some st' => (st', set_success f, Some (js "/dashboard"))
      | None => (st, set_pending f false (VStr no_token_message), None)
      end
  | Throw e => (st, set_pending f false (login_error e fallback), None)
  end.

Definition wants_2fa (data : val) : bool := truthy (opt_prop (js "requires_2fa") data).

(** [handleSubmit] from its [await]. *)
Definition login_finish (st : Storage) (f : LoginForm) (r : result ApiError val) :
    Storage * LoginForm * option jsstring :=
  match r with
  | Ok data =>
      if wants_2fa data
      then (st, set_pending (set_second_factor f true (opt_prop (js "two_factor_token") data) (twoFactorCode f))
                  false (VStr []), None)
      else finish_session st f r (js "Authentication failed. Please check your credentials.")
  | Throw _ => finish_session st f r (js "Authentication failed. Please check your credentials.")
  end.

(** [handleVerify2FA] *)
Definition verify_start (f : LoginForm) : LoginForm * option request_call :=
  if isLoading f then (f, None) else
  if jeqb (trim (twoFactorCode f)) []
  then (set_pending f (isLoading f) (vstr "Please enter the 2FA verification code."), None) else
  (set_pending f true (VStr []),
   Some (api_post (js "/api/v1/auth/2fa/login-verify")
           (BodyVal (vobj [("two_factor_token", twoFactorToken f); ("code", VStr (trim (twoFactorCode f)))])))).

Definition verify_finish (st : Storage) (f : LoginForm) (r : result ApiError val) :
    Storage * LoginForm * option jsstring :=
  finish_session st f r (js "Invalid two-factor verification code.").

Definition handleBackToCredentials (f : LoginForm) : LoginForm :=
  set_second_factor f false (VStr []) [].

Definition type_credentials (f : LoginForm) (u p c : jsstring) : LoginForm :=
  {| username := u; password := p; isLoading := isLoading f; errorMessage := errorMessage f;
     isSuccess := isSuccess f; requires2FA := requires2FA f; twoFactorToken := twoFactorToken f;
     twoFactorCode := c |}.

(** ** The login page as a machine *)

Inductive flight := Credentials | SecondFactor.

(** [flights] are the requests under way; nothing in the page records them. *)
Record login_page := LoginPage {
  form : LoginForm;
  store : Storage;
  flights : list flight
}.

Inductive login_event :=
| Typed
| Sent (k : flight) (c : option request_call)
| Back
| Answered (k : flight) (r : result ApiError val).

Definition send (k : flight) (p : login_page) (r : LoginForm * option request_call) : login_page :=
  {| form := r.1; store := store p; flights := match r.2 with Some _ => k :: flights p | None => flights p end |}.

(** One form is shown at a time, its button is disabled while a request is
    under way or after success, and the link back while one is under way. *)
Inductive login_step : login_page -> login_event -> login_page -> Prop :=
| StepType p u w c : login_step p Typed (LoginPage (type_credentials (form p) u w c) (store p) (flights p))
| StepLogin p :
    requires2FA (form p) = false -> isSuccess (form p) = false ->
    login_step p (Sent Credentials (login_start (form p)).2) (send Credentials p (login_start (form p)))
| StepVerify p :
    requires2FA (form p) = true -> isSuccess (form p) = false ->
    login_step p (Sent SecondFactor (verify_start (form p)).2) (send SecondFactor p (verify_start (form p)))
| StepBack p :
    requires2FA (form p) = true -> isLoading (form p) = false ->
    login_step p Back (LoginPage (handleBackToCredentials (form p)) (store p) (flights p))
| StepLoginAnswer p r l1 l2 :
    flights p = l1 ++ Credentials :: l2 ->
    login_step p (Answered Credentials r)
      (let '(st, f, _) := login_finish (store p) (form p) r in LoginPage f st (l1 ++ l2))
| StepVerifyAnswer p r l1 l2 :
    flights p = l1 ++ SecondFactor :: l2 ->
    login_step p (Answered SecondFactor r)
      (let '(st, f, _) := verify_finish (store p) (form p) r in LoginPage f st (l1 ++ l2)).

Definition open_login (st : Storage) : login_page := LoginPage initial_login st [].

(** ** The session guard of the console layout *)

Definition has_session (st : Storage) : bool :=
  match getAuthToken st with Some (_ :: _) => true | _ => truthy (getAuthUser st) end.

(** [visit] counts the runs of the effect; the [isMounted] flag of a run is
    true exactly for the last one. [checks] are the requests under way. *)
Record guard := {
  isAuthenticated : bool;
  visit : nat;
  checks : list nat
}.

Definition initial_guard : guard := {| isAuthenticated := true; visit := 0; checks := [] |}.

Definition me_call : request_call := api_get (js "/api/v1/auth/me") None.

(** The effect of a navigation: the clean-up of the last run and a new run. *)
Definition enter (st : Storage) (g : guard) : guard * option request_call :=
  let n := S (visit g) in
  if has_session st
  then ({| isAuthenticated := isAuthenticated g; visit := n; checks := n :: checks g |}, Some me_call)
  else ({| isAuthenticated := false; visit := n; checks := checks g |}, None).

Definition me_settled (n : nat) (r : result ApiError val) (g : guard) : guard :=
  {| isAuthenticated := if Nat.eqb n (visit g)
                        then match r with
                             | Ok _ => true
                             | Throw e => if (err_status e =? 401)%Z then false else isAuthenticated g
                             end
                        else isAuthenticated g;
     visit := visit g;
     checks := List.filter (fun m => negb (Nat.eqb m n)) (checks g) |}.

(** [checking] is never set. *)
Definition redirects (g : guard) : bool := negb (isAuthenticated g).

Inductive guard_event := Enter (st : Storage) | Checked (n : nat) (r : result ApiError val).

Inductive guard_step : guard -> guard_event -> guard -> Prop :=
| StepEnter g st : guard_step g (Enter st) (enter st g).1
| StepChecked g n r : n ∈ checks g -> guard_step g (Checked n r) (me_settled n r g).

(** ** Preferences of the shell *)

Definition SIDEBAR_KEY : jsstring := js "aurora_sidebar_collapsed".

Definition sidebar_initial (st : Storage) : bool :=
  match getItem st SIDEBAR_KEY with Ok (Some v) => jeqb v (js "true") | _ => false end.

Definition toggleSidebar (st : Storage) (collapsed : bool) : Storage * bool :=
  let next := negb collapsed in
  (catch (setItem st SIDEBAR_KEY (if next then js "true" else js "false")) st, next).

Inductive Theme := Dark | Light | System.
Definition theme_name (t : Theme) : jsstring :=
  match t with Dark => js "dark" | Light => js "light" | System => js "system" end.

Definition THEME_KEY : jsstring := js "aurora_theme".

Definition theme_initial (st : Storage) (defaultTheme : Theme) : Theme :=
  match getItem st THEME_KEY with
  | Ok (Some v) =>
      if jeqb v (js "dark") then Dark else if jeqb v (js "light") then Light else
      if jeqb v (js "system") then System else defaultTheme
  | _ => defaultTheme
  end.

Definition setTheme (st : Storage) (t : Theme) : Storage * Theme :=
  (catch (setItem st THEME_KEY (theme_name t)) st, t).

(** [applyTheme]: [system] follows the preference of the system. *)
Definition resolved_theme (prefers_dark : bool) (t : Theme) : Theme :=
  match t with System => if prefers_dark then Dark else Light | t => t end.

(** The button of the header. *)
Definition toggleTheme (st : Storage) (t : Theme) : Storage * Theme :=
  setTheme st (match t with Dark => Light | Light => System | System => Dark end).

(** ** Lemmas *)

Lemma getItem_set st k k' v :
  readable st = true -> writable st = true ->
  getItem (catch (setItem st k v) st) k' = if jeqb k k' then Ok (Some v) else getItem st k'.
Proof.
  intros Hr Hw. unfold setItem, getItem. rewrite Hw. simpl. rewrite Hr.
  destruct (jeqb k k') eqn:E.
  - apply jeqb_true in E as ->. by rewrite lookup_insert_eq.
  - apply jeqb_false in E. by rewrite lookup_insert_ne.
Qed.

Lemma getItem_remove st k k' :
  readable st = true -> writable st = true ->
  getItem (catch (removeItem st k) st) k' = if jeqb k k' then Ok None else getItem st k'.
Proof.
  intros Hr Hw. unfold removeItem, getItem. rewrite Hw. simpl. rewrite Hr.
  destruct (jeqb k k') eqn:E.
  - apply jeqb_true in E as ->. by rewrite lookup_delete_eq.
  - apply jeqb_false in E. by rewrite lookup_delete_ne.
Qed.

Lemma set_usable st k v :
  readable (catch (setItem st k v) st) = readable st /\ writable (catch (setItem st k v) st) = writable st.
Proof. unfold setItem. destruct (writable st) eqn:E; simpl; by rewrite ?E. Qed.

Lemma login_error_truthy e c s : truthy (login_error e (c :: s)) = true.
Proof.
  unfold login_error, val_or. destruct (truthy (opt_prop _ _)) eqn:E; [done|].
  by destruct (err_message e).
Qed.

(** The two ways a handler can end. *)
Lemma finish_session_cases st f r fallback :
  (exists data st', r = Ok data /\ accept_token st data = Some st' /\
     finish_session st f r fallback = (st', set_success f, Some (js "/dashboard"))) \/
  (exists m, finish_session st f r fallback = (st, set_pending f false m, None) /\
     (fallback <> [] -> truthy m = true)).
Proof.
  destruct r as [data|e]; cbn [finish_session].
  - destruct (accept_token st data) as [st'|] eqn:E; [left|right]; eauto 6.
  - right. eexists. split; [done|]. destruct fallback; [done|]. intros _. apply login_error_truthy.
Qed.

(** ** The invariant of the login page *)

(** A second-factor request, with the token of the answer that asked for it. *)
Definition verifies (data : val) (code : jsstring) : request_call :=
  api_post (js "/api/v1/auth/2fa/login-verify")
    (BodyVal (vobj [("two_factor_token", opt_prop (js "two_factor_token") data); ("code", VStr code)])).

Definition asked_2fa (h : list login_event) (data : val) : Prop :=
  Answered Credentials (Ok data) ∈ h /\ wants_2fa data = true.

Definition granted (st : Storage) (h : list login_event) (st' : Storage) : Prop :=
  exists k data, Answered k (Ok data) ∈ h /\ (k = Credentials -> wants_2fa data = false) /\
    accept_token st data = Some st'.

Record login_inv (st : Storage) (h : list login_event) (p : login_page) : Prop := {
  inv_flight : (flights p = [] /\ isLoading (form p) = false) \/
    (exists k, flights p = [k] /\ isLoading (form p) = true /\ isSuccess (form p) = false /\
       (requires2FA (form p) = true <-> k = SecondFactor));
  inv_2fa : requires2FA (form p) = true ->
    exists data, asked_2fa h data /\ twoFactorToken (form p) = opt_prop (js "two_factor_token") data;
  inv_store : isSuccess (form p) = false -> store p = st;
  inv_granted : isSuccess (form p) = true -> granted st h (store p);
  inv_sent : forall c, Sent SecondFactor (Some c) ∈ h ->
    exists data code, asked_2fa h data /\ code <> [] /\ c = verifies data code
}.

Lemma asked_mono h h' data : asked_2fa h data -> asked_2fa (h ++ h') data.
Proof. intros [H1 H2]. split; [set_solver|done]. Qed.
Lemma granted_mono st h h' st' : granted st h st' -> granted st (h ++ h') st'.
Proof. intros (k & d & H1 & H2). exists k, d. split; [set_solver|done]. Qed.

Definition sent_ok (h : list login_event) : Prop :=
  forall c, Sent SecondFactor (Some c) ∈ h ->
    exists data code, asked_2fa h data /\ code <> [] /\ c = verifies data code.

Lemma sent_ok_snoc h l :
  sent_ok h ->
  (forall c, l = Sent SecondFactor (Some c) ->
     exists data code, asked_2fa h data /\ code <> [] /\ c = verifies data code) ->
  sent_ok (h ++ [l]).
Proof.
  intros Hs Hl c [Hin|Hin]%elem_of_app.
  - destruct (Hs c Hin) as (d & code & H1 & H2). exists d, code. split; [by apply asked_mono|done].
  - apply list_elem_of_singleton in Hin. destruct (Hl c (eq_sym Hin)) as (d & code & H1 & H2).
    exists d, code. split; [by apply asked_mono|done].
Qed.

(** A step that keeps the second factor, the success and the store. *)
Lemma login_inv_keep st h l p f fl :
  login_inv st h p ->
  requires2FA f = requires2FA (form p) -> twoFactorToken f = twoFactorToken (form p) ->
  isSuccess f = isSuccess (form p) ->
  ((fl = [] /\ isLoading f = false) \/
   (exists k, fl = [k] /\ isLoading f = true /\ isSuccess f = false /\ (requires2FA f = true <-> k = SecondFactor))) ->
  sent_ok (h ++ [l]) ->
  login_inv st (h ++ [l]) (LoginPage f (store p) fl).
Proof.
  intros [F T S G Q] E1 E2 E3 HF HQ. constructor; simpl; try done.
  - rewrite E1, E2. intros H. destruct (T H) as (d & Hd & Ht). exists d. split; [by apply asked_mono|done].
  - by rewrite E3.
  - rewrite E3. intros H. by apply granted_mono, G.
Qed.

Lemma flights_answer p k l1 l2 st h :
  login_inv st h p -> flights p = l1 ++ k :: l2 ->
  l1 ++ l2 = [] /\ isSuccess (form p) = false /\ (requires2FA (form p) = true <-> k = SecondFactor).
Proof.
  intros [F _ _ _ _] E. destruct F as [[F _]|(k' & F & _ & Hs & Hk)]; rewrite E in F; [by destruct l1|].
  destruct l1 as [|x l1]; simpl in F; [|by destruct l1]. injection F as -> ->. done.
Qed.

(** The answer to a request, as both handlers treat it. *)
Lemma finish_inv st h p k r fallback :
  login_inv st h p -> isSuccess (form p) = false ->
  (k = Credentials -> match r with Ok data => wants_2fa data = false | Throw _ => True end) ->
  login_inv st (h ++ [Answered k r])
    (let '(st', f, _) := finish_session (store p) (form p) r fallback in LoginPage f st' []).
Proof.
  intros Hi Hs Hk.
  assert (sent_ok (h ++ [Answered k r])) as HQ by (apply sent_ok_snoc; [exact (inv_sent _ _ _ Hi)|done]).
  destruct (finish_session_cases (store p) (form p) r fallback) as [(data & st' & -> & Ha & ->)|(m & -> & _)].
  - constructor; simpl; [by left| |done| |done].
    + intros H. destruct (inv_2fa _ _ _ Hi H) as (d & Hd & Ht). exists d. split; [by apply asked_mono|done].
    + intros _. exists k, data. rewrite (inv_store _ _ _ Hi Hs) in Ha. split; [set_solver|done].
  - apply login_inv_keep; try done. by left.
Qed.

Lemma login_step_inv st h p l p' : login_inv st h p -> login_step p l p' -> login_inv st (h ++ [l]) p'.
Proof.
  intros Hi Hstep. pose proof (inv_sent _ _ _ Hi : sent_ok h) as HQ.
  destruct Hstep as [p u w c|p H2 Hs|p H2 Hs|p H2 Hl|p r l1 l2 E|p r l1 l2 E].
  - apply login_inv_keep; try done; [exact (inv_flight _ _ _ Hi)|by apply sent_ok_snoc].
  - unfold send, login_start. destruct (isLoading (form p)) eqn:El; simpl;
      apply login_inv_keep; try done; try (by apply sent_ok_snoc); [exact (inv_flight _ _ _ Hi)|].
    destruct (inv_flight _ _ _ Hi) as [[-> _]|(k & _ & H & _)]; [|congruence].
    right. exists Credentials. simpl. by rewrite H2.
  - destruct (inv_2fa _ _ _ Hi H2) as (d & Hd & Ht).
    unfold send, verify_start. destruct (isLoading (form p)) eqn:El; simpl;
      [apply login_inv_keep; try done; [exact (inv_flight _ _ _ Hi)|by apply sent_ok_snoc]|].
    destruct (inv_flight _ _ _ Hi) as [[Hf _]|(k & _ & H & _)]; [|congruence].
    destruct (jeqb _ _) eqn:Ec; simpl.
    + apply login_inv_keep; try done; [by left|by apply sent_ok_snoc].
    + apply login_inv_keep; try done.
      * right. exists SecondFactor. by rewrite Hf.
      * apply sent_ok_snoc; [done|]. intros c [= <-]. exists d, (trim (twoFactorCode (form p))).
        split; [done|]. split; [by apply jeqb_false|]. unfold verifies. by rewrite Ht.
  - constructor; simpl; [| done | apply (inv_store _ _ _ Hi) | intros H; by apply granted_mono, (inv_granted _ _ _ Hi)
                        | by apply sent_ok_snoc].
    destruct (inv_flight _ _ _ Hi) as [?|(k & _ & H & _)]; [by left|congruence].
  - destruct (flights_answer _ _ _ _ _ _ Hi E) as (-> & Hs & Hk).
    destruct r as [data|e]; [|by apply finish_inv].
    unfold login_finish. destruct (wants_2fa data) eqn:Ew; [|by apply finish_inv].
    constructor; simpl; [by left| |apply (inv_store _ _ _ Hi)|by rewrite Hs|by apply sent_ok_snoc].
    intros _. exists data. split; [split; [set_solver|done]|done].
  - destruct (flights_answer _ _ _ _ _ _ Hi E) as (-> & Hs & Hk).
    by apply finish_inv.
Qed.

Lemma open_login_inv st : login_inv st [] (open_login st).
Proof. constructor; simpl; [by left|done|done|done|]. intros c H. by apply elem_of_nil in H. Qed.

Lemma login_reachable st es p : star login_step (open_login st) es p -> login_inv st es p.
Proof. apply star_history; [intros; by eapply login_step_inv|apply open_login_inv]. Qed.

(** ** The guard *)

Definition is_check (e : guard_event) : Prop := match e with Checked _ _ => True | _ => False end.
Definition denies (n : nat) (e : guard_event) : bool :=
  match e with Checked m (Throw err) => Nat.eqb m n && (err_status err =? 401)%Z | _ => false end.

Definition guard_inv (g : guard) : Prop := NoDup (checks g) /\ Forall (fun n => n <= visit g) (checks g).

Lemma checks_filter n (l : list nat) x :
  x ∈ List.filter (fun m => negb (Nat.eqb m n)) l <-> x ∈ l /\ x <> n.
Proof. rewrite !list_elem_of_In, filter_In, negb_true_iff, Nat.eqb_neq. done. Qed.

Lemma guard_step_inv g e g' : guard_inv g -> guard_step g e g' -> guard_inv g'.
Proof.
  intros [Hn Hle] Hs. rewrite Forall_forall in Hle. destruct Hs as [g st|g n r Hin]; unfold guard_inv, enter.
  - assert (S (visit g) ∉ checks g) as Hf by (intros H; specialize (Hle _ H); lia).
    destruct (has_session st); simpl; rewrite Forall_forall; (split; [try done; by constructor|]); intros x Hx.
    + apply elem_of_cons in Hx as [->|Hx]; [done|]. specialize (Hle _ Hx). lia.
    + specialize (Hle _ Hx). lia.
  - simpl. split; [by apply NoDup_list_filter|]. rewrite Forall_forall.
    intros x [Hx _]%checks_filter. auto.
Qed.

(** The answers to the checks of one visit: only the one of that visit
    counts, and it comes once. *)
Lemma checks_decide g es g' :
  star guard_step g es g' -> Forall is_check es ->
  (visit g ∉ checks g -> isAuthenticated g' = isAuthenticated g /\ existsb (denies (visit g)) es = false) /\
  (isAuthenticated g = true -> isAuthenticated g' = negb (existsb (denies (visit g)) es)).
Proof.
  induction 1 as [g|g e g1 es g2 Hstep _ IH]; intros Hes; [done|].
  inversion Hes as [|? ? He Hes']; subst. destruct Hstep as [|g n r Hin]; [done|].
  destruct (IH Hes') as [IH1 IH2]. simpl in IH1, IH2.
  destruct (Nat.eqb n (visit g)) eqn:E.
  - apply Nat.eqb_eq in E as ->. split; [done|]. intros Ha.
    destruct IH1 as [H1 H2]; [rewrite checks_filter; by intros [_ ?]|].
    rewrite H1. simpl. rewrite H2, Nat.eqb_refl, orb_false_r. simpl. destruct r as [v|err]; [done|].
    by destruct (err_status err =? 401)%Z.
  - assert (denies (visit g) (Checked n r) = false) as Hd by (destruct r; simpl; by rewrite ?E).
    cbn [existsb]. rewrite Hd. split; [|done]. intros Hn. apply IH1. rewrite checks_filter. by intros [? _].
Qed.

(** ** Theorems *)

Section SessionTheorems.
Context `{ApiEnv}.

(** C8: a session is stored only when the control plane grants it: in every
    state the login page can reach, at most one request is under way and
    the form is marked as loading exactly then; the store is untouched
    until the page reports success, and then it holds the token and user of
    one answer, which was not an answer to the password that asked for a
    second factor. *)
Theorem login_session_sound (st : Storage) (es : list login_event) (p : login_page) :
  star login_step (open_login st) es p ->
  length (flights p) <= 1 /\ (isLoading (form p) = true <-> flights p <> []) /\
  (isSuccess (form p) = false -> store p = st) /\
  (isSuccess (form p) = true ->
   exists k data, Answered k (Ok data) ∈ es /\ (k = Credentials -> wants_2fa data = false) /\
     accept_token st data = Some (store p)).
Proof.
  intros Hs. apply login_reachable in Hs as [F _ HS HG _].
  destruct F as [[-> ->]|(k & -> & -> & _)]; simpl; (split; [lia|]); (split; [|done]); naive_solver.
Qed.

(** A second-factor request is bound to the login that asked for it:
    every one that is sent carries the token of an answer to a password
    that asked for a second factor, and a code that is not blank. *)
Theorem second_factor_bound (st : Storage) (es : list login_event) (p : login_page) (c : request_call) :
  star login_step (open_login st) es p -> Sent SecondFactor (Some c) ∈ es ->
  exists data code, Answered Credentials (Ok data) ∈ es /\ wants_2fa data = true /\ code <> [] /\
    c = api_post (js "/api/v1/auth/2fa/login-verify")
          (BodyVal (vobj [("two_factor_token", opt_prop (js "two_factor_token") data); ("code", VStr code)])).
Proof.
  intros Hs Hin. apply login_reachable in Hs. destruct (inv_sent _ _ _ Hs c Hin) as (d & code & [H1 H2] & H3 & H4).
  by exists d, code.
Qed.

(** The answer to a login always ends the request, and says how: the
    form shows success with a session, or the second-factor step, or a
    message that is not empty; and the browser leaves exactly on success. *)
Theorem login_answer_settles (st : Storage) (f : LoginForm) (r : result ApiError val) :
  let '(st', f', nav) := login_finish st f r in
  isLoading f' = false /\
  ((exists data, r = Ok data /\ accept_token st data = Some st' /\ isSuccess f' = true /\ nav = Some (js "/dashboard")) \/
   (exists data, r = Ok data /\ wants_2fa data = true /\ st' = st /\ requires2FA f' = true /\ nav = None) \/
   (st' = st /\ truthy (errorMessage f') = true /\ isSuccess f' = isSuccess f /\ nav = None)).
Proof.
  unfold login_finish.
  assert (forall fb, fb <> [] -> let '(st', f', nav) := finish_session st f r fb in
    isLoading f' = false /\
    ((exists data, r = Ok data /\ accept_token st data = Some st' /\ isSuccess f' = true /\ nav = Some (js "/dashboard")) \/
     (st' = st /\ truthy (errorMessage f') = true /\ isSuccess f' = isSuccess f /\ nav = None))) as Hf.
  { intros fb Hfb. destruct (finish_session_cases st f r fb) as [(data & st' & Hr & Ha & ->)|(m & -> & Hm)].
    - split; [reflexivity|]. left. exists data. split_and!; [done|done|reflexivity|reflexivity].
    - split; [reflexivity|]. right. split_and!; [reflexivity|by apply Hm|reflexivity|reflexivity]. }
  specialize (Hf (js "Authentication failed. Please check your credentials.")).
  destruct r as [data|e]; [destruct (wants_2fa data) eqn:Ew|].
  - split; [reflexivity|]. right; left. exists data. split_and!; [done|done|reflexivity|reflexivity|reflexivity].
  - destruct (finish_session _ _ _ _) as [[st' f'] nav]. destruct Hf as (H1 & [H2|H2]); [discriminate|..]; (split; [done|]); eauto.
  - destruct (finish_session _ _ _ _) as [[st' f'] nav]. destruct Hf as (H1 & [H2|H2]); [discriminate|..]; (split; [done|]); eauto.
Qed.

(** C12: the guard follows the session: after a navigation, whatever answers
    to this and to earlier checks arrive, the console leaves for the login
    page exactly when the store has no session or the check of this
    navigation was answered with 401. *)
Theorem guard_decides (g g' : guard) (past es : list guard_event) (st : Storage) :
  star guard_step initial_guard past g -> isAuthenticated g = true ->
  star guard_step (enter st g).1 es g' -> Forall is_check es ->
  redirects g' = negb (has_session st) || existsb (denies (S (visit g))) es.
Proof.
  intros Hp Ha Hs Hes.
  assert (guard_inv g) as [_ Hle].
  { apply (star_invariant _ guard_inv _ _ _ guard_step_inv) in Hp; [done|]. split; constructor. }
  destruct (checks_decide _ _ _ Hs Hes) as [H1 H2]. unfold redirects, enter in *.
  destruct (has_session st); simpl in *; [by rewrite (H2 Ha), negb_involutive|].
  destruct H1 as [-> _]; [|done]. intros Hin. rewrite Forall_forall in Hle. specialize (Hle _ Hin). lia.
Qed.

(** Signing in opens the console and signing out closes it: with a
    usable store, an answer with a token leads to the dashboard, the guard
    admits the visit, and its check carries the token; after [logout],
    whatever the network did, the next visit goes to the login page without
    a request. *)
Theorem login_opens_console (st : Storage) (f : LoginForm) (data : val) (c : N) (t : jsstring) (n : network) :
  readable st = true -> writable st = true -> opt_prop (js "token") data = VStr (c :: t) ->
  let '(st', f', nav) := verify_finish st f (Ok data) in
  isSuccess f' = true /\ nav = Some (js "/dashboard") /\
  redirects (enter st' initial_guard).1 = false /\ (enter st' initial_guard).2 = Some me_call /\
  req_headers (build_request st' me_call.1 me_call.2) !! js "Authorization" = Some (js "Bearer " ++ c :: t) /\
  redirects (enter (logout st' n).1.2 initial_guard).1 = true /\ (enter (logout st' n).1.2 initial_guard).2 = None.
Proof.
  intros Hr Hw Ht.
  set (st1 := setAuthToken st (c :: t)).
  assert (accept_token st data = Some (if truthy (opt_prop (js "user") data) then setAuthUser st1 (opt_prop (js "user") data) else st1)) as Ea.
  { unfold accept_token. rewrite Ht. done. }
  unfold verify_finish, finish_session. rewrite Ea.
  set (st' := if truthy _ then _ else _).
  assert (readable st' = true /\ writable st' = true /\ getItem st' TOKEN_STORAGE_KEY = Ok (Some (c :: t))) as (Hr' & Hw' & Hg).
  { assert (getItem st1 TOKEN_STORAGE_KEY = Ok (Some (c :: t))) as Hg1.
    { unfold st1, setAuthToken. by rewrite getItem_set, jeqb_refl. }
    destruct (set_usable st TOKEN_STORAGE_KEY (c :: t)) as [Hr1 Hw1].
    fold (setAuthToken st (c :: t)) in Hr1, Hw1. fold st1 in Hr1, Hw1. rewrite Hr in Hr1. rewrite Hw in Hw1.
    unfold st'. destruct (truthy _); [|done].
    unfold setAuthUser. destruct (set_usable st1 USER_STORAGE_KEY (default (js "undefined") (stringify (opt_prop (js "user") data)))) as [Hr2 Hw2].
    rewrite Hr2, Hw2. split; [done|]. split; [done|]. by rewrite getItem_set. }
  assert (getAuthToken st' = Some (c :: t)) as Hgt by (unfold getAuthToken; by rewrite Hg).
  assert (has_session st' = true) as Hs by (unfold has_session; by rewrite Hgt).
  split; [done|]. split; [done|]. unfold enter. rewrite Hs. split; [done|]. split; [done|].
  split; [rewrite build_request_auth; simpl; by rewrite Hgt|].
  assert (has_session (logout st' n).1.2 = false) as Hl; [|by rewrite Hl].
  assert (forall k, k = TOKEN_STORAGE_KEY \/ k = USER_STORAGE_KEY -> getItem (logout st' n).1.2 k = Ok None) as Hn.
  { intros k Hk. unfold logout. simpl.
    assert (readable (removeAuthToken st') = true /\ writable (removeAuthToken st') = true) as [Hr3 Hw3].
    { unfold removeAuthToken, removeItem. rewrite Hw'. simpl. by rewrite Hr', Hw'. }
    rewrite getItem_remove by done. destruct Hk as [->| ->]; [|by rewrite jeqb_refl].
    unfold removeAuthToken. by rewrite getItem_remove, jeqb_refl. }
  unfold has_session, getAuthToken, getAuthUser. by rewrite !Hn by auto.
Qed.
End SessionTheorems.

Lemma theme_named t d : (if jeqb (theme_name t) (js "dark") then Dark else if jeqb (theme_name t) (js "light") then Light else
      if jeqb (theme_name t) (js "system") then System else d) = t.
Proof. by destruct t. Qed.

(** The preferences of the shell survive a reload and do not disturb
    the session: after toggling the side bar or the theme in a usable
    store, a new page reads what is shown, whatever the default theme, and
    the token and user are as before. *)
Theorem preferences_persist (st : Storage) (collapsed : bool) (t d : Theme) :
  readable st = true -> writable st = true ->
  let '(st1, collapsed') := toggleSidebar st collapsed in
  let '(st2, t') := toggleTheme st1 t in
  sidebar_initial st2 = collapsed' /\ theme_initial st2 d = t' /\
  getAuthToken st2 = getAuthToken st /\ getAuthUser st2 = getAuthUser st.
Proof.
  intros Hr Hw. unfold toggleSidebar, toggleTheme, setTheme.
  destruct (set_usable st SIDEBAR_KEY (if negb collapsed then js "true" else js "false")) as [Hr1 Hw1].
  rewrite Hr in Hr1. rewrite Hw in Hw1. set (st1 := catch _ st) in *.
  assert (forall k v, getItem (catch (setItem st1 THEME_KEY v) st1) k =
    if jeqb THEME_KEY k then Ok (Some v) else
    if jeqb SIDEBAR_KEY k then Ok (Some (if negb collapsed then js "true" else js "false")) else getItem st k) as Hg.
  { intros k v. rewrite getItem_set by done. destruct (jeqb THEME_KEY k); [done|]. unfold st1. by rewrite getItem_set. }
  unfold sidebar_initial, theme_initial, getAuthToken, getAuthUser. rewrite !Hg. simpl.
  split; [by destruct collapsed|]. split; [by rewrite theme_named|done].
Qed.

(** ** Instances *)

Definition empty_store : Storage := {| items := ∅; readable := true; writable := true |}.

Definition challenge : val := vobj [("requires_2fa", VBool true); ("two_factor_token", vstr "tf-1")].
Definition grant : val := vobj [("token", vstr "t0k"); ("user", vobj [("name", vstr "ops")])].

Definition page_challenged : login_page :=
  let '(st, f, _) := login_finish empty_store (login_start (type_credentials initial_login (js "ops ") (js "pw") (js "123456"))).1
                       (Ok challenge) in LoginPage f st [].
Definition page_verifying : login_page :=
  LoginPage (verify_start (form page_challenged)).1 (store page_challenged) [SecondFactor].
Definition page_signed_in : login_page :=
  let '(st, f, _) := verify_finish (store page_verifying) (form page_verifying) (Ok grant) in LoginPage f st [].

Definition example_login : list login_event :=
  [Typed; Sent Credentials (Some (api_post (js "/api/v1/auth/login")
                              (BodyVal (vobj [("username", vstr "ops"); ("password", vstr "pw")]))));
   Answered Credentials (Ok challenge);
   Sent SecondFactor (Some (api_post (js "/api/v1/auth/2fa/login-verify")
                              (BodyVal (vobj [("two_factor_token", vstr "tf-1"); ("code", vstr "123456")]))));
   Answered SecondFactor (Ok grant)].

Lemma example_login_runs : star login_step (open_login empty_store) example_login page_signed_in.
Proof.
  eapply star_cons; [apply (StepType (open_login empty_store) (js "ops ") (js "pw") (js "123456"))|].
  eapply star_cons; [apply (StepLogin (LoginPage (type_credentials initial_login (js "ops ") (js "pw") (js "123456")) empty_store []));
                     reflexivity|].
  eapply star_cons; [apply (StepLoginAnswer _ (Ok challenge) [] []); reflexivity|].
  eapply star_cons; [apply (StepVerify page_challenged); reflexivity|].
  eapply star_cons; [apply (StepVerifyAnswer page_verifying (Ok grant) [] []); reflexivity|].
  apply star_nil.
Qed.

Lemma login_session_sound_witness :
  isSuccess (form page_signed_in) = true /\
  exists k data, Answered k (Ok data) ∈ example_login /\ (k = Credentials -> wants_2fa data = false) /\
    accept_token empty_store data = Some (store page_signed_in).
Proof.
  split; [reflexivity|].
  apply (login_session_sound empty_store example_login page_signed_in example_login_runs). reflexivity.
Defined.

Lemma second_factor_bound_witness :
  exists data code, Answered Credentials (Ok data) ∈ example_login /\ wants_2fa data = true /\ code <> [] /\
    api_post (js "/api/v1/auth/2fa/login-verify")
      (BodyVal (vobj [("two_factor_token", vstr "tf-1"); ("code", vstr "123456")]))
    = api_post (js "/api/v1/auth/2fa/login-verify")
        (BodyVal (vobj [("two_factor_token", opt_prop (js "two_factor_token") data); ("code", VStr code)])).
Proof.
  apply (second_factor_bound empty_store example_login page_signed_in _ example_login_runs).
  unfold example_login. do 3 apply list_elem_of_further. apply list_elem_of_here.
Defined.

Definition unauthorized : ApiError := new_ApiError 401 (js "Unauthorized") VNull VUndef.
Definition token_store : Storage := setAuthToken empty_store (js "t0k").

(** The answer to an earlier visit does not count. *)
Lemma guard_decides_witness :
  let g1 := (enter token_store initial_guard).1 in
  let g2 := (enter token_store g1).1 in
  redirects (me_settled 1 (Throw unauthorized) g2) = false /\
  redirects (me_settled 2 (Throw unauthorized) g2) = true.
Proof.
  assert (star guard_step initial_guard [Enter token_store] (enter token_store initial_guard).1) as Hp.
  { eapply star_cons; [apply StepEnter|apply star_nil]. }
  split.
  - rewrite (guard_decides _ _ _ [Checked 1 (Throw unauthorized)] token_store Hp); [reflexivity|reflexivity| |by repeat constructor].
    eapply star_cons; [apply StepChecked; by do 2 constructor|apply star_nil].
  - rewrite (guard_decides _ _ _ [Checked 2 (Throw unauthorized)] token_store Hp); [reflexivity|reflexivity| |by repeat constructor].
    eapply star_cons; [apply StepChecked; by constructor|apply star_nil].
Defined.

#[local] Instance session_env : ApiEnv := {| API_BASE_URL := [] |}.

Lemma login_opens_console_witness :
  redirects (enter (store page_signed_in) initial_guard).1 = false /\
  redirects (enter (logout (store page_signed_in) (Aborted TimedOut)).1.2 initial_guard).1 = true.
Proof.
  pose proof (login_opens_console empty_store (form page_verifying) grant 116%N (js "0k") (Aborted TimedOut)
                eq_refl eq_refl eq_refl) as Hp.
  change (verify_finish empty_store (form page_verifying) (Ok grant))
    with (store page_signed_in, form page_signed_in, Some (js "/dashboard")) in Hp.
  split; apply Hp.
Defined.

Lemma preferences_persist_witness :
  theme_initial (toggleTheme (toggleSidebar empty_store false).1 Light).1 Dark = System.
Proof. apply (preferences_persist empty_store false Light Dark eq_refl eq_refl). Defined.
