(* ===== verification/Api.v ===== *)
(** * The endpoint catalogue

    [lib/api/*.ts]: the typed records the console exchanges with the control
    plane and, for every API function, the request it makes (an endpoint and
    the options given to [fetcher]). An optional member that is absent is
    [undefined], which [JSON.stringify] drops. *)

From Stdlib Require Import ZArith NArith Lia String.
From stdpp Require Import gmap.
From S2P Require Import Prelude JsString JsValue Json JsonFacts Urls Fetcher.

Local Open Scope string_scope.
Local Open Scope list_scope.

Definition call : Type := jsstring * FetchOptions.

Definition opt_str (o : option jsstring) : val := match o with Some s => VStr s | None => VUndef end.
Definition opt_bool (o : option bool) : val := match o with Some b => VBool b | None => VUndef end.
Definition opt_int (o : option Z) : val := match o with Some n => VInt n | None => VUndef end.
Definition body (l : list (string * val)) : body_arg := BodyVal (vobj l).
Definition params : Type := option (list (jsstring * param)).

(** ** Routes *)

Module RoutesApi.

Record RouteItem := {
  id : jsstring;
  name : jsstring;
  host : jsstring;
  path : jsstring;
  upstream_name : jsstring;
  enabled : bool;
  strip_path : bool;
  websocket : bool;
  priority : Z;
  plugins_json : jsstring;
  description : jsstring;
  created_at : jsstring;
  updated_at : jsstring
}.

(** [CreateRoutePayload]; [UpdateRoutePayload] has the same members. *)
Record RoutePayload := {
  p_name : jsstring;
  p_host : jsstring;
  p_path : jsstring;
  p_upstream_name : jsstring;
  p_enabled : option bool;
  p_strip_path : option bool;
  p_websocket : option bool;
  p_priority : option Z;
  p_plugins_json : option jsstring;
  p_description : option jsstring
}.

Definition payload_body (p : RoutePayload) : body_arg :=
  body [("name", VStr (p_name p)); ("host", VStr (p_host p)); ("path", VStr (p_path p));
        ("upstream_name", VStr (p_upstream_name p)); ("enabled", opt_bool (p_enabled p));
        ("strip_path", opt_bool (p_strip_path p)); ("websocket", opt_bool (p_websocket p));
        ("priority", opt_int (p_priority p));
        ("plugins_json", opt_str (p_plugins_json p)); ("description", opt_str (p_description p))].

Definition base : jsstring := js "/api/v1/routes".
Definition routes_list (p : params) : call := api_get base p.
Definition routes_get (rid : jsstring) : call := api_get (base ++ js "/" ++ rid) None.
Definition routes_create (p : RoutePayload) : call := api_post base (payload_body p).
Definition routes_update (rid : jsstring) (p : RoutePayload) : call :=
  api_put (base ++ js "/" ++ rid) (payload_body p).
Definition routes_toggle (rid : jsstring) (on : bool) : call :=
  api_put (base ++ js "/" ++ rid ++ js "/status") (body [("enabled", VBool on)]).
Definition routes_delete (rid : jsstring) : call := api_delete (base ++ js "/" ++ rid).

End RoutesApi.

(** ** L4 services *)

Module L4Api.

Inductive target := TUpstream | TEndpoint.

Definition target_string (t : target) : jsstring :=
  match t with TUpstream => js "upstream" | TEndpoint => js "endpoint" end.

Record L4ServiceItem := {
  id : jsstring;
  name : jsstring;
  protocol : jsstring;
  listen_port : Z;
  forward_target_type : jsstring;
  upstream_name : jsstring;
  direct_endpoint : jsstring;
  acl_rules_json : jsstring;
  proxy_timeout : jsstring;
  proxy_connect_timeout : jsstring;
  enabled : bool;
  description : jsstring;
  created_at : jsstring;
  updated_at : jsstring
}.

(** [CreateL4ServicePayload]; [UpdateL4ServicePayload] has the same members. *)
Record L4Payload := {
  p_name : jsstring;
  p_protocol : jsstring;
  p_listen_port : Z;
  p_forward_target_type : option target;
  p_upstream_name : option jsstring;
  p_direct_endpoint : option jsstring;
  p_acl_rules_json : jsstring;
  p_proxy_timeout : option jsstring;
  p_proxy_connect_timeout : option jsstring;
  p_enabled : option bool;
  p_description : option jsstring
}.

Definition payload_body (p : L4Payload) : body_arg :=
  body [("name", VStr (p_name p)); ("protocol", VStr (p_protocol p));
        ("listen_port", VInt (p_listen_port p));
        ("forward_target_type", match p_forward_target_type p with Some t => VStr (target_string t) | None => VUndef end);
        ("upstream_name", opt_str (p_upstream_name p)); ("direct_endpoint", opt_str (p_direct_endpoint p));
        ("acl_rules_json", VStr (p_acl_rules_json p)); ("proxy_timeout", opt_str (p_proxy_timeout p));
        ("proxy_connect_timeout", opt_str (p_proxy_connect_timeout p));
        ("enabled", opt_bool (p_enabled p)); ("description", opt_str (p_description p))].

Definition base : jsstring := js "/api/v1/l4/services".
Definition l4_listServices (p : params) : call := api_get base p.
Definition l4_getService (sid : jsstring) : call := api_get (base ++ js "/" ++ sid) None.
Definition l4_createService (p : L4Payload) : call := api_post base (payload_body p).
Definition l4_updateService (sid : jsstring) (p : L4Payload) : call :=
  api_put (base ++ js "/" ++ sid) (payload_body p).
Definition l4_toggleService (sid : jsstring) (on : bool) : call :=
  api_put (base ++ js "/" ++ sid ++ js "/status") (body [("enabled", VBool on)]).
Definition l4_deleteService (sid : jsstring) : call := api_delete (base ++ js "/" ++ sid).

End L4Api.

(** ** Certificates *)

Module CertificatesApi.

Record CertificateItem := {
  id : jsstring;
  name : jsstring;
  snis_json : jsstring;
  cert_pem : jsstring;
  key_configured : bool;
  mtls_enabled : bool;
  client_ca_pem : jsstring;
  verify_depth : Z;
  enabled : bool;
  description : jsstring;
  created_at : jsstring;
  updated_at : jsstring
}.

(** [CreateCertificatePayload]; [UpdateCertificatePayload] has the same members. *)
Record CertificatePayload := {
  p_name : jsstring;
  p_snis : list jsstring;
  p_cert_pem : jsstring;
  p_key_pem : jsstring;
  p_mtls_enabled : option bool;
  p_client_ca_pem : option jsstring;
  p_verify_depth : option num;
  p_enabled : option bool;
  p_description : option jsstring
}.

Definition payload_body (p : CertificatePayload) : body_arg :=
  body [("name", VStr (p_name p)); ("snis", VArr (map VStr (p_snis p)));
        ("cert_pem", VStr (p_cert_pem p)); ("key_pem", VStr (p_key_pem p));
        ("mtls_enabled", opt_bool (p_mtls_enabled p)); ("client_ca_pem", opt_str (p_client_ca_pem p));
        ("verify_depth", match p_verify_depth p with Some n => VNum n | None => VUndef end);
        ("enabled", opt_bool (p_enabled p)); ("description", opt_str (p_description p))].

Definition base : jsstring := js "/api/v1/certificates".
Definition certificates_list (p : params) : call := api_get base p.
Definition certificates_get (cid : jsstring) : call := api_get (base ++ js "/" ++ cid) None.
Definition certificates_create (p : CertificatePayload) : call := api_post base (payload_body p).
Definition certificates_update (cid : jsstring) (p : CertificatePayload) : call :=
  api_put (base ++ js "/" ++ cid) (payload_body p).
Definition certificates_toggle (cid : jsstring) (on : bool) : call :=
  api_put (base ++ js "/" ++ cid ++ js "/status") (body [("enabled", VBool on)]).
Definition certificates_delete (cid : jsstring) : call := api_delete (base ++ js "/" ++ cid).

End CertificatesApi.

(** ** Extensions *)

Module ExtensionsApi.

Record ExtensionItem := {
  id : jsstring;
  name : jsstring;
  category : jsstring;
  description : jsstring;
  manifest_key : jsstring;
  manifest_version : Z;
  manifest_digest : jsstring;
  enabled : bool;
  config_json : jsstring;
  config_schema_json : jsstring;
  ui_schema_json : jsstring;
  supported : bool;
  is_builtin : bool;
  created_at : option jsstring;
  updated_at : option jsstring
}.

(** The argument of [updateConfig]: a text or a payload object. *)
Inductive config_payload :=
| ConfigText (s : jsstring)
| ConfigPayload (config_json : option jsstring) (config : option obj).

Definition base : jsstring := js "/api/v1/extensions".

(** [encodeURIComponent(id)] throws on a lone surrogate: no request then. *)
Definition ext_path (eid suffix : jsstring) : option jsstring :=
  match encodeURIComponent eid with
  | Some e => Some (base ++ js "/" ++ e ++ suffix)
  | None => None
  end.

Definition extensions_list (p : params) : call := api_get base p.
Definition extensions_getById (eid : jsstring) : option call :=
  path ← ext_path eid []; Some (api_get path None).
Definition extensions_updateStatus (eid : jsstring) (on : bool) : option call :=
  path ← ext_path eid (js "/status"); Some (api_put path (body [("enabled", VBool on)])).
Definition extensions_updateConfig (eid : jsstring) (p : config_payload) : option call :=
  path ← ext_path eid (js "/config");
  Some (api_put path
    (match p with
     | ConfigText s => body [("config_json", VStr s)]
     | ConfigPayload c o =>
         body [("config_json", opt_str c); ("config", match o with Some o => VObj o | None => VUndef end)]
     end)).

End ExtensionsApi.

(** ** Settings, status, alerts, analytics: the requests *)

Module OtherApis.

Definition security_base : jsstring := js "/api/v1/settings/security".
Definition security_getOverview : call := api_get security_base None.
Definition security_updateProvider (id : jsstring) (enabled : bool) (configJSON : jsstring) : call :=
  api_put (security_base ++ js "/auth-providers/" ++ id)
    (body [("enabled", VBool enabled); ("config_json", VStr configJSON)]).
Definition security_init2FA : call := api_post (security_base ++ js "/2fa/init") (body []).
Definition security_verify2FA (secret code : jsstring) : call :=
  api_post (security_base ++ js "/2fa/verify") (body [("secret", VStr secret); ("code", VStr code)]).
Definition security_disable2FA : call := api_post (security_base ++ js "/2fa/disable") (body []).
Definition security_changePassword (currentPassword newPassword : jsstring) : call :=
  api_post (security_base ++ js "/change-password")
    (body [("current_password", VStr currentPassword); ("new_password", VStr newPassword)]).

Definition backup_base : jsstring := js "/api/v1/settings/backup".
Definition backup_getOverview : call := api_get backup_base None.
Definition backup_updateConfig (cfg : obj) : call := api_put (backup_base ++ js "/config") (BodyVal (VObj cfg)).
Definition backup_triggerS3Backup : call := api_post (backup_base ++ js "/s3/upload") (body []).

(** The form data that holds the file is an opaque binary body. *)
Definition backup_restoreSnapshot (formData : nat) : call :=
  api_post (backup_base ++ js "/restore") (BodyBinary formData).
Definition backup_getDownloadUrl : jsstring := backup_base ++ js "/download".

Definition system_getInfo : call := api_get (js "/api/v1/system/info") None.
Definition status_getHealth : call := api_get (js "/healthz") None.
Definition status_getReady : call := api_get (js "/readyz") None.
Definition status_getStatus : call := api_get (js "/api/v1/status") None.

Definition alerts_base : jsstring := js "/api/v1/integrations/alerts".
Definition alerts_getOverview : call := api_get (alerts_base ++ js "/overview") None.
Definition alerts_getLiveRules : call := api_get (alerts_base ++ js "/rules") None.
Definition alerts_getFiringAlerts : call := api_get (alerts_base ++ js "/firing") None.
Definition alerts_getSilences : call := api_get (alerts_base ++ js "/silences") None.
Definition alerts_expireSilence (silenceId : jsstring) : option call :=
  e ← encodeURIComponent silenceId; Some (api_delete (alerts_base ++ js "/silences/" ++ e)).
Definition alerts_getConfig : call := api_get (alerts_base ++ js "/config") None.
Definition alerts_updateConfig (enabled : bool) (alertmanager_url prometheus_url : jsstring) : call :=
  api_put (alerts_base ++ js "/config")
    (body [("enabled", VBool enabled); ("alertmanager_url", VStr alertmanager_url);
           ("prometheus_url", VStr prometheus_url)]).

Record AlertmanagerMatcher := {
  m_name : jsstring;
  m_value : jsstring;
  m_isRegex : bool;
  m_isEqual : bool
}.

Record CreateSilencePayload := {
  s_starts_at : option jsstring;
  s_ends_at : jsstring;
  s_created_by : option jsstring;
  s_comment : jsstring;
  s_matchers : list AlertmanagerMatcher
}.

Definition matcher_val (m : AlertmanagerMatcher) : val :=
  vobj [("name", VStr (m_name m)); ("value", VStr (m_value m));
        ("isRegex", VBool (m_isRegex m)); ("isEqual", VBool (m_isEqual m))].

Definition alerts_createSilence (p : CreateSilencePayload) : call :=
  api_post (alerts_base ++ js "/silences")
    (body [("starts_at", opt_str (s_starts_at p)); ("ends_at", VStr (s_ends_at p));
           ("created_by", opt_str (s_created_by p)); ("comment", VStr (s_comment p));
           ("matchers", VArr (map matcher_val (s_matchers p)))]).

(** ** Cluster specification *)

Record ClusterSpecInfo := { releaseId : num; hash : jsstring; hasSpec : bool }.

Definition no_spec : ClusterSpecInfo := {| releaseId := num_of_Z 0; hash := []; hasSpec := false |}.

(** [parseInt(s, 10)] *)
Definition parseInt10 (s : jsstring) : num :=
  let s := trimStart s in
  let '(neg, s) := match s with
                   | 45%N :: s' => (true, s')
                   | 43%N :: s' => (false, s')
                   | _ => (false, s)
                   end in
  match span_digits s with
  | ([], _) => NNaN
  | (ds, _) => num_of_Z (if neg : bool then - digits_val ds else digits_val ds)
  end.

(** What [getClusterSpec] reads of the answer: [fetch] rejected, or the
    status class and the two headers. *)
Inductive spec_answer := SpecRejected | SpecAnswered (ok : bool) (hash_header release_header : option jsstring).

Definition getClusterSpec (a : spec_answer) : ClusterSpecInfo :=
  match a with
  | SpecAnswered true h r =>
      let hash := default [] h in
      {| releaseId := parseInt10 (str_or (default [] r) (js "0")); hash := hash;
         hasSpec := negb (jeqb hash []) |}
  | _ => no_spec
  end.

Definition getClusterSpec_headers (st : Storage) : gmap jsstring jsstring :=
  match getAuthToken st with
  | Some (c :: t) => {[ js "Authorization" := js "Bearer " ++ c :: t ]}
  | _ => ∅
  end.

End OtherApis.

(** ** Upstreams *)

Module UpstreamsApi.

Definition p (k : string) (o : obj) : val := prop (js k) o.

Definition normalized_ssl (o : obj) : val :=
  let ssl := p "internal_ssl" o in
  let at_ k := opt_prop (js k) ssl in
  if truthy ssl then
    vobj [("enabled", VBool (truthy (at_ "enabled"))); ("verifyCert", VBool (truthy (at_ "verifyCert")));
          ("sniHost", at_ "sniHost"); ("caCert", at_ "caCert"); ("mTLS", VBool (truthy (at_ "mTLS")));
          ("clientCertName", at_ "clientCertName"); ("clientCert", at_ "clientCert");
          ("clientKeyConfigured", VBool (truthy (at_ "clientKeyConfigured")))]
  else val_or (p "internalSsl" o) (vobj [("enabled", VBool false); ("verifyCert", VBool false)]).

Definition default_transport : val :=
  vobj [("httpVersion", vstr "HTTP/1.1"); ("enableWebSocket", VBool false);
        ("enableSse", VBool false); ("enableGrpc", VBool false)].

(** The members that [normalizeUpstream] writes over the spread item. *)
Definition normalized_members (o : obj) : obj :=
  [(js "id", VStr (to_string (p "id" o)));
   (js "name", p "name" o);
   (js "description", p "description" o);
   (js "type", val_or (p "architecture_type" o) (val_or (p "type" o) (vstr "Single Server")));
   (js "algorithm", val_or (p "algorithm" o) (vstr "round_robin"));
   (js "servers", val_or (p "servers" o) (VArr []));
   (js "externalFqdn", val_or (p "external_fqdn" o) (p "externalFqdn" o));
   (js "sniOverride", val_nullish (p "sni_override" o) (p "sniOverride" o));
   (js "dynamicDns", val_nullish (p "dynamic_dns" o) (p "dynamicDns" o));
   (js "internalSsl", normalized_ssl o);
   (js "probes", val_or (p "probes" o) (VArr []));
   (js "transport", val_or (p "transport" o) default_transport);
   (js "boundDomainsCount", val_nullish (val_nullish (p "bound_domains_count" o) (p "boundDomainsCount" o)) (VInt 0));
   (js "createdAt", val_or (p "created_at" o) (val_or (p "createdAt" o) (VStr [])));
   (js "updatedAt", val_or (p "updated_at" o) (val_or (p "updatedAt" o) (VStr [])))].

Definition normalizeUpstream (o : obj) : obj := obj_assign o (normalized_members o).

(** [ListUpstreamsResponse], whose items may be missing. *)
Record ListUpstreamsResponse := {
  res_items : option (list obj);
  res_total : Z;
  res_page : Z;
  res_limit : Z
}.

(** What [upstreamsApi.list] makes of the response. *)
Definition upstreams_list_result (res : ListUpstreamsResponse) : ListUpstreamsResponse :=
  {| res_items := Some (map normalizeUpstream (default [] (res_items res)));
     res_total := res_total res; res_page := res_page res; res_limit := res_limit res |}.

Definition base : jsstring := js "/api/v1/upstreams".
Definition upstreams_list (ps : params) : call := api_get base ps.
Definition upstreams_getById (uid : jsstring) : call := api_get (base ++ js "/" ++ uid) None.
Definition upstreams_create (payload : obj) : call := api_post base (BodyVal (VObj payload)).
Definition upstreams_update (uid : jsstring) (payload : obj) : call :=
  api_put (base ++ js "/" ++ uid) (BodyVal (VObj payload)).
Definition upstreams_delete (uid : jsstring) : call := api_delete (base ++ js "/" ++ uid).

End UpstreamsApi.

(** ** Lemmas *)

Import UpstreamsApi.

Lemma normalized_members_nodup o : NoDup (normalized_members o).*1.
Proof.
  change (normalized_members o).*1 with
    (map js ["id"; "name"; "description"; "type"; "algorithm"; "servers"; "externalFqdn"; "sniOverride";
             "dynamicDns"; "internalSsl"; "probes"; "transport"; "boundDomainsCount"; "createdAt"; "updatedAt"]).
  apply (bool_decide_unpack _). by vm_compute.
Qed.

Lemma normalized_get o k v : obj_get (js k) (normalized_members o) = Some v -> p k (normalizeUpstream o) = v.
Proof.
  intros Hin%obj_get_in. unfold p, prop, normalizeUpstream.
  by rewrite (obj_get_assign_in o _ _ _ (normalized_members_nodup o) Hin).
Qed.

Lemma normalized_other o k : js k ∉ (normalized_members o).*1 -> p k (normalizeUpstream o) = p k o.
Proof. intros Hk. unfold p, prop, normalizeUpstream. by rewrite obj_get_assign_notin. Qed.

(** The member of a normalized item under a written key. *)
Ltac normalized_at k :=
  erewrite (normalized_get _ k) by reflexivity.
Ltac kept_at k :=
  rewrite (normalized_other _ k) by (simpl; apply (bool_decide_unpack _); by vm_compute).

Lemma val_or_absorb a b : val_or a (val_or a b) = val_or a b.
Proof. unfold val_or. by destruct (truthy a). Qed.
Lemma val_or_idemp a b : val_or (val_or a b) b = val_or a b.
Proof. unfold val_or. destruct (truthy a) eqn:E; [by rewrite E|]. by destruct (truthy b). Qed.
Lemma val_nullish_absorb a b : val_nullish a (val_nullish a b) = val_nullish a b.
Proof. by destruct a. Qed.
Lemma val_nullish_absorb2 a b c :
  val_nullish (val_nullish a (val_nullish (val_nullish a b) c)) c = val_nullish (val_nullish a b) c.
Proof. by destruct a, b, c. Qed.
Lemma val_or_absorb2 a b c : val_or a (val_or (val_or a (val_or b c)) c) = val_or a (val_or b c).
Proof. unfold val_or. destruct (truthy a) eqn:E; [done|]. destruct (truthy b) eqn:E2; [by rewrite E2|]. by destruct (truthy c). Qed.

(** The members of a normalized item are those of the item it came from. *)
Lemma normalized_members_stable o : normalized_members (normalizeUpstream o) = normalized_members o.
Proof.
  unfold normalized_members at 1. unfold normalized_ssl.
  kept_at "architecture_type". kept_at "external_fqdn". kept_at "sni_override".
  kept_at "dynamic_dns". kept_at "internal_ssl". kept_at "bound_domains_count".
  kept_at "created_at". kept_at "updated_at".
  normalized_at "id". normalized_at "name". normalized_at "description". normalized_at "type".
  normalized_at "algorithm". normalized_at "servers". normalized_at "externalFqdn".
  normalized_at "sniOverride". normalized_at "dynamicDns". normalized_at "internalSsl".
  normalized_at "probes". normalized_at "transport". normalized_at "boundDomainsCount".
  normalized_at "createdAt". normalized_at "updatedAt".
  rewrite !val_or_idemp, !val_or_absorb, !val_or_absorb2, !val_nullish_absorb2, !val_nullish_absorb.
  unfold normalized_members, normalized_ssl. simpl.
  repeat f_equal.
  destruct (truthy (p "internal_ssl" o)); [done|]. by rewrite val_or_idemp.
Qed.

Lemma normalized_wf o : obj_wf o -> obj_wf (normalizeUpstream o).
Proof. apply obj_assign_wf. Qed.

Lemma truthy_or_default a d : truthy d = true -> truthy (val_or a d) = true.
Proof. intros Hd. unfold val_or. by destruct (truthy a) eqn:E. Qed.

(** ** Theorems *)

(** Normalizing an upstream twice is normalizing it once: the same
    members with the same values in the same order, so an item that
    already went through the list can be normalized again safely. *)
Theorem normalizeUpstream_idempotent (o : obj) :
  obj_wf o -> normalizeUpstream (normalizeUpstream o) = normalizeUpstream o.
Proof.
  intros Ho. unfold normalizeUpstream at 1. rewrite normalized_members_stable.
  apply obj_assign_same; [by apply normalized_wf|].
  apply Forall_forall. intros [k v] Hin. simpl.
  apply obj_get_assign_in; [apply normalized_members_nodup|done].
Qed.

(** A normalized upstream always has what the pages read without a
    check: a string id and truthy type, algorithm, servers, probes,
    transport and TLS settings; and the snake-case members of the control
    plane win over camel-case ones. *)
Theorem normalizeUpstream_complete (o : obj) :
  let u := normalizeUpstream o in
  (exists s, p "id" u = VStr s) /\
  Forall (fun k => truthy (p k u) = true) ["type"; "algorithm"; "servers"; "probes"; "transport"; "internalSsl"] /\
  (truthy (p "architecture_type" o) = true -> p "type" u = p "architecture_type" o) /\
  (truthy (p "external_fqdn" o) = true -> p "externalFqdn" u = p "external_fqdn" o) /\
  (truthy (p "created_at" o) = true -> p "createdAt" u = p "created_at" o).
Proof.
  intros u. unfold u. repeat split.
  - normalized_at "id". by eexists.
  - repeat apply Forall_cons_2; [..|constructor].
    + normalized_at "type". do 2 apply truthy_or_default. done.
    + normalized_at "algorithm". by apply truthy_or_default.
    + normalized_at "servers". by apply truthy_or_default.
    + normalized_at "probes". by apply truthy_or_default.
    + normalized_at "transport". by apply truthy_or_default.
    + normalized_at "internalSsl". unfold normalized_ssl.
      destruct (truthy (p "internal_ssl" o)); [done|by apply truthy_or_default].
  - intros E. normalized_at "type". unfold val_or. by rewrite E.
  - intros E. normalized_at "externalFqdn". unfold val_or. by rewrite E.
  - intros E. normalized_at "createdAt". unfold val_or. by rewrite E.
Qed.

(** An extension id is one path segment: whatever characters it holds,
    the status request goes to the extensions base, the encoded id and
    [/status], the encoded id holds no path, query or fragment separator,
    and it decodes to the id; so two ids never share an endpoint. *)
Theorem extension_path_safe (eid : jsstring) (on : bool) (path : jsstring) (o : FetchOptions) :
  ExtensionsApi.extensions_updateStatus eid on = Some (path, o) ->
  exists e, path = ExtensionsApi.base ++ js "/" ++ e ++ js "/status" /\
    Forall (fun c => separator c = false) e /\ component_decode e = eid.
Proof.
  unfold ExtensionsApi.extensions_updateStatus, ExtensionsApi.ext_path.
  destruct (encodeURIComponent eid) as [e|] eqn:E; simpl; [|done]. intros [= <- _].
  exists e. split; [done|]. split; [by eapply component_separator|by apply component_roundtrip].
Qed.

(** ** Instances *)

Definition upstream_example : obj :=
  obj_lit [("id", VInt 7); ("name", vstr "pool"); ("architecture_type", vstr "Cluster");
           ("internal_ssl", vobj [("enabled", VInt 1)]); ("created_at", vstr "2024-01-01")].

Lemma normalizeUpstream_idempotent_witness :
  normalizeUpstream (normalizeUpstream upstream_example) = normalizeUpstream upstream_example.
Proof. apply (normalizeUpstream_idempotent upstream_example). apply obj_wfb_sound. reflexivity. Defined.

Lemma normalizeUpstream_complete_witness :
  p "type" (normalizeUpstream upstream_example) = vstr "Cluster".
Proof.
  destruct (normalizeUpstream_complete upstream_example) as (_ & _ & H & _).
  apply H. reflexivity.
Defined.

Lemma extension_path_safe_witness :
  exists e, js "/api/v1/extensions/a%2Fb/status" = ExtensionsApi.base ++ js "/" ++ e ++ js "/status" /\
    Forall (fun c => separator c = false) e /\ component_decode e = js "a/b".
Proof. exact (extension_path_safe (js "a/b") true _ _ eq_refl). Defined.
