(* ===== verification/Router.v ===== *)
(** * The addresses of the console

    [main.tsx]: the table of routes, the redirects among them, the pages
    inside and outside the guarded layout, and the links that the pages
    offer. Choosing a route of the table is the work of React Router, which
    is the class [Router]: its three laws say that the chosen route fits the
    address, that a route is chosen when one fits, and that it is not less
    specific than another that fits. *)

From Stdlib Require Import ZArith NArith Lia String.
From S2P Require Import Prelude JsString JsValue Fetcher Api Session Urls.
Local Open Scope string_scope.
Local Open Scope list_scope.

(** ** Patterns *)

Inductive segment := Static (s : jsstring) | Param (name : jsstring).

#[export] Instance segment_eq_dec : EqDecision segment.
Proof. solve_decision. Defined.

(** A pattern with or without a final [*]. *)
Record pattern := { segs : list segment; splat : bool }.

Definition slash (c : N) : bool := (c =? 47)%N.

Definition words (s : jsstring) : list jsstring := List.filter (fun w => negb (jeqb w [])) (split_on slash s).

Definition segment_of (w : jsstring) : segment :=
  match w with 58%N :: name => Param name | _ => Static w end.

(** A path of the source: [:id] is a parameter, a last [*] the rest. *)
Definition pattern_of (s : string) : pattern :=
  let ws := words (js s) in
  let star w := jeqb w (js "*") in
  {| segs := map segment_of (List.filter (fun w => negb (star w)) ws); splat := existsb star ws |}.

(** The segments of an address: what follows the first slash, without the
    slashes at its end. *)
Fixpoint drop_trailing (l : list jsstring) : list jsstring :=
  match l with
  | [] => []
  | w :: l' => match drop_trailing l' with [] => if jeqb w [] then [] else [w] | r => w :: r end
  end.

Definition address (path : jsstring) : option (list jsstring) :=
  match split_on slash path with
  | [] :: ws => Some (drop_trailing ws)
  | _ => None
  end.

Definition params := list (jsstring * jsstring).

(** Letters of a static segment are compared without their case. *)
Fixpoint fit_segs (ps : list segment) (rest : bool) (ws : list jsstring) : option params :=
  match ps, ws with
  | [], [] => Some []
  | [], _ :: _ => if rest then Some [] else None
  | Static s :: ps', w :: ws' => if jeqb (ascii_lower s) (ascii_lower w) then fit_segs ps' rest ws' else None
  | Param n :: ps', w :: ws' =>
      match w with [] => None | _ => a ← fit_segs ps' rest ws'; Some ((n, w) :: a) end
  | _ :: _, [] => None
  end.

Definition fit (p : pattern) (path : jsstring) : option params := ws ← address path; fit_segs (segs p) (splat p) ws.

(** [q] is at least as specific as [p]: static before parameters before the
    rest, segment by segment. *)
Fixpoint at_least (q : list segment) (qrest : bool) (p : list segment) (prest : bool) : bool :=
  match q, p with
  | [], [] => negb qrest || prest
  | _ :: _, [] => prest
  | [], _ :: _ => false
  | x :: q', y :: p' =>
      match x, y with Param _, Static _ => false | _, _ => true end && at_least q' qrest p' prest
  end.

Definition more_specific (q p : pattern) : bool :=
  at_least (segs q) (splat q) (segs p) (splat p) && negb (at_least (segs p) (splat p) (segs q) (splat q)).

(** ** React Router *)

(** Percent signs are decoded before matching, and a query or a fragment is
    not part of the address: the laws are about addresses without them. *)
Definition plain_path (p : jsstring) : bool := forallb (fun c => negb ((c =? 37) || (c =? 63) || (c =? 35))%N) p.

Class Router := {
  matchRoutes : list pattern -> jsstring -> option (nat * params);
  match_fits ps path i a : plain_path path = true -> matchRoutes ps path = Some (i, a) ->
    exists p, ps !! i = Some p /\ fit p path = Some a;
  match_found ps path p a : plain_path path = true -> p ∈ ps -> fit p path = Some a -> matchRoutes ps path <> None;
  match_ranked ps path i a p q b : plain_path path = true ->
    matchRoutes ps path = Some (i, a) -> ps !! i = Some p -> q ∈ ps -> fit q path = Some b -> more_specific q p = false
}.

(** ** The table *)

Inductive page_id :=
| LoginPage | DashboardPage | RoutesPage | CreateRoutePage | EditRoutePage | CertificatesPage | UpstreamsPage
| CreateUpstreamPage | EditUpstreamPage | L4GatewayPage | CreateL4ServicePage | EditL4ServicePage | AnalyticsPage
| ExtensionsPage | SettingsPage.

#[export] Instance page_id_eq_dec : EqDecision page_id.
Proof. solve_decision. Defined.

Inductive element := Page (p : page_id) | Navigate (to : jsstring).

(** [guarded]: inside [<Route element={<ConsoleLayout />}>]. *)
Record route := { path : pattern; element_of : element; guarded : bool }.

Definition page_route (guarded : bool) (s : string) (p : page_id) : route :=
  {| path := pattern_of s; element_of := Page p; guarded := guarded |}.
Definition redirect (guarded : bool) (s to : string) : route :=
  {| path := pattern_of s; element_of := Navigate (js to); guarded := guarded |}.

Definition routes : list route :=
  [page_route false "/login" LoginPage;
   page_route true "/" DashboardPage;
   page_route true "/dashboard" DashboardPage;
   page_route true "/routes" RoutesPage;
   page_route true "/routes/create" CreateRoutePage;
   page_route true "/routes/add" CreateRoutePage;
   page_route true "/routes/:id/edit" EditRoutePage;
   page_route true "/routes/edit/:id" EditRoutePage;
   page_route true "/certificates" CertificatesPage;
   redirect true "/domains/*" "/routes";
   redirect true "/domains" "/routes";
   redirect true "/create-domain" "/routes";
   page_route true "/upstreams" UpstreamsPage;
   page_route true "/upstreams/create" CreateUpstreamPage;
   page_route true "/upstreams/add" CreateUpstreamPage;
   page_route true "/upstreams/:id/edit" EditUpstreamPage;
   page_route true "/upstreams/edit/:id" EditUpstreamPage;
   page_route true "/l4" L4GatewayPage;
   page_route true "/l4/create" CreateL4ServicePage;
   page_route true "/l4/add" CreateL4ServicePage;
   page_route true "/l4/:id/edit" EditL4ServicePage;
   page_route true "/l4/edit/:id" EditL4ServicePage;
   page_route true "/analytics" AnalyticsPage;
   page_route true "/telemetry" AnalyticsPage;
   redirect true "/nodes" "/dashboard";
   redirect true "/cluster-nodes" "/dashboard";
   page_route true "/extensions" ExtensionsPage;
   page_route true "/settings" SettingsPage;
   redirect false "*" "/dashboard"].

(** What is at an address after the redirects: the page, its parameters, the
    address in the bar and whether the layout guards it. *)
Record location := { at_page : page_id; at_params : params; at_path : jsstring; at_guarded : bool }.

Section Visit.
Context `{Router}.

Definition element_in (table : list route) (p : jsstring) : option (route * params) :=
  match matchRoutes (map path table) p with
  | Some (i, a) => r ← table !! i; Some (r, a)
  | None => None
  end.

Definition element_at : jsstring -> option (route * params) := element_in routes.

Fixpoint follow (fuel : nat) (p : jsstring) : option location :=
  match fuel with
  | O => None
  | S fuel' =>
      match element_at p with
      | None => None
      | Some (r, a) =>
          match element_of r with
          | Page g => Some {| at_page := g; at_params := a; at_path := p; at_guarded := guarded r |}
          | Navigate to => follow fuel' to
          end
      end
  end.

(** Two steps: no redirect leads to a redirect. *)
Definition visit (p : jsstring) : option location := follow 2 p.
End Visit.

(** ** An instance *)

(** The first route of the highest score. *)
Definition segment_score (x : segment) : Z := match x with Static _ => 11 | Param _ => 4 end.
Fixpoint segs_score (l : list segment) : Z :=
  match l with [] => 0 | x :: l' => segment_score x + segs_score l' end%Z.
Definition rest_score (rest : bool) : Z := if rest then (-1)%Z else 0%Z.
Definition score (p : pattern) : Z := (segs_score (segs p) + rest_score (splat p))%Z.

Fixpoint best (path : jsstring) (i : nat) (ps : list pattern) : option (nat * params * Z) :=
  match ps with
  | [] => None
  | p :: ps' =>
      match fit p path, best path (S i) ps' with
      | None, b => b
      | Some a, None => Some (i, a, score p)
      | Some a, Some (j, b, n) => if (score p <? n)%Z then Some (j, b, n) else Some (i, a, score p)
      end
  end.

Lemma segs_score_nonneg l : (0 <= segs_score l)%Z.
Proof. induction l as [|[] l IH]; cbn in *; lia. Qed.

Lemma at_least_score q qr p pr : at_least q qr p pr = true ->
  (segs_score p + rest_score pr <= segs_score q + rest_score qr)%Z /\
  ((segs_score p + rest_score pr)%Z = (segs_score q + rest_score qr)%Z -> at_least p pr q qr = true).
Proof.
  revert p. induction q as [|x q IH]; intros [|y p] H; cbn [at_least] in H; try discriminate H.
  - destruct qr, pr; cbn in *; try done; split; lia.
  - subst pr. pose proof (segs_score_nonneg q). cbn [segs_score]. destruct x, qr; cbn [segment_score rest_score]; split; lia.
  - apply andb_true_iff in H as [Hk H]. destruct (IH p H) as [H1 H2]. cbn [segs_score at_least].
    destruct x, y; cbn [segment_score andb] in *; try done; split; try lia; intros E; try (apply H2; lia); lia.
Qed.

Lemma more_specific_score q p : more_specific q p = true -> (score p < score q)%Z.
Proof.
  unfold more_specific, score. intros [H1 H2%negb_true_iff]%andb_true_iff. destruct (at_least_score _ _ _ _ H1) as [H3 H4].
  destruct (Z.eq_dec (segs_score (segs p) + rest_score (splat p))%Z (segs_score (segs q) + rest_score (splat q))%Z); [|lia].
  by rewrite H4 in H2.
Qed.

Lemma best_spec path i ps :
  match best path i ps with
  | Some (j, a, n) => i <= j /\ (exists p, ps !! (j - i) = Some p /\ fit p path = Some a /\ score p = n) /\
      forall q b, q ∈ ps -> fit q path = Some b -> (score q <= n)%Z
  | None => forall q, q ∈ ps -> fit q path = None
  end.
Proof.
  revert i. induction ps as [|p ps IH]; intros i; cbn [best]; [by intros q ?%elem_of_nil|]. specialize (IH (S i)).
  destruct (fit p path) as [a|] eqn:E, (best path (S i) ps) as [[[j b] n]|].
  - destruct IH as (Hj & (r & Hr & Hf & Hs) & Hmax). destruct (score p <? n)%Z eqn:El.
    + split; [lia|]. split.
      * exists r. split; [|done]. replace (j - i) with (S (j - S i)) by lia. done.
      * intros q c [->|Hq]%elem_of_cons Hc; [lia|by apply (Hmax q c)].
    + split; [lia|]. split; [exists p; by rewrite Nat.sub_diag|].
      intros q c [->|Hq]%elem_of_cons Hc; [lia|]. specialize (Hmax q c Hq Hc). lia.
  - split; [lia|]. split; [exists p; by rewrite Nat.sub_diag|].
    intros q c [->|Hq]%elem_of_cons Hc; [lia|]. by rewrite IH in Hc.
  - destruct IH as (Hj & (r & Hr & Hf & Hs) & Hmax). split; [lia|]. split.
    + exists r. split; [|done]. replace (j - i) with (S (j - S i)) by lia. done.
    + intros q c [->|Hq]%elem_of_cons Hc; [congruence|by apply (Hmax q c)].
  - intros q [->|Hq]%elem_of_cons; [done|by apply IH].
Qed.

Definition scored (ps : list pattern) (path : jsstring) : option (nat * params) := fst <$> best path 0 ps.

#[export] Instance scored_router : Router | 100.
Proof.
  refine {| matchRoutes := scored |}; unfold scored.
  - intros ps path i a _ H. pose proof (best_spec path 0 ps) as Hb. destruct (best path 0 ps) as [[[j b] n]|]; [|done].
    injection H as <- <-. destruct Hb as (_ & (p & Hp & Hf & _) & _). rewrite Nat.sub_0_r in Hp. by exists p.
  - intros ps path p a _ Hp Hf. pose proof (best_spec path 0 ps) as Hb. destruct (best path 0 ps) as [[[j b] n]|]; [done|].
    by rewrite Hb in Hf.
  - intros ps path i a p q b _ H Hp Hq Hf. pose proof (best_spec path 0 ps) as Hb.
    destruct (best path 0 ps) as [[[j c] n]|]; [|done]. injection H as <- <-.
    destruct Hb as (_ & (r & Hr & _ & Hs) & Hmax). rewrite Nat.sub_0_r in Hr. rewrite Hp in Hr. injection Hr as <-.
    destruct (more_specific q p) eqn:E; [|done]. apply more_specific_score in E. specialize (Hmax q b Hq Hf). lia.
Defined.

(** ** Lemmas *)

Section Facts.
Context `{Router} (table : list route).

Lemma element_at_fits p r a : plain_path p = true -> element_in table p = Some (r, a) ->
  r ∈ table /\ fit (path r) p = Some a /\
  forall r', r' ∈ table -> fit (path r') p <> None -> more_specific (path r') (path r) = false.
Proof.
  intros Hp. unfold element_in. destruct (matchRoutes _ p) as [[i b]|] eqn:E; [|done].
  destruct (table !! i) as [r0|] eqn:Ei; [|done]. intros [= <- <-].
  assert (map path table !! i = Some (path r0)) as Hm by (change (map path table) with (path <$> table); rewrite list_lookup_fmap, Ei; done).
  destruct (match_fits _ _ _ _ Hp E) as (q & Hq & Hf). rewrite Hm in Hq. injection Hq as <-.
  split; [by eapply list_elem_of_lookup_2|]. split; [done|]. intros r' Hr' Hf'.
  destruct (fit (path r') p) as [c|] eqn:Ec; [|done]. eapply (match_ranked _ p i b (path r0) (path r') c); try done.
  by apply list_elem_of_In, in_map, list_elem_of_In.
Qed.

Lemma element_at_found p r : plain_path p = true -> r ∈ table -> fit (path r) p <> None -> element_in table p <> None.
Proof.
  intros Hp Hr Hf. destruct (fit (path r) p) as [a|] eqn:E; [|done]. unfold element_in.
  destruct (matchRoutes (map path table) p) as [[i b]|] eqn:Em.
  - destruct (match_fits _ _ _ _ Hp Em) as (q & Hq & _). change (map path table) with (path <$> table) in Hq.
    rewrite list_lookup_fmap in Hq. destruct (table !! i); done.
  - exfalso. eapply match_found; [exact Hp| |exact E|exact Em]. by apply list_elem_of_In, in_map, list_elem_of_In.
Qed.

(** The routes that fit an address and are not less specific than another. *)
Definition candidates (p : jsstring) : list route :=
  let fitting := List.filter (fun r => match fit (path r) p with Some _ => true | None => false end) table in
  List.filter (fun r => negb (existsb (fun r' => more_specific (path r') (path r)) fitting)) fitting.

Lemma element_at_candidate p r a : plain_path p = true -> element_in table p = Some (r, a) -> r ∈ candidates p /\ fit (path r) p = Some a.
Proof.
  intros Hp He. destruct (element_at_fits p r a Hp He) as (Hr & Hf & Hb). split; [|done]. unfold candidates.
  apply list_elem_of_In, filter_In. rewrite filter_In, <- list_elem_of_In, Hf. split; [done|].
  apply negb_true_iff. destruct (existsb _ _) eqn:E; [|done]. apply existsb_exists in E as (r' & Hin & Hm).
  apply filter_In in Hin as [Hin Hf']. apply list_elem_of_In in Hin. rewrite (Hb r' Hin) in Hm; [done|].
  by destruct (fit (path r') p).
Qed.

(** An address with one candidate shows that route. *)
Lemma element_at_only p r : plain_path p = true -> candidates p = [r] -> exists a, element_in table p = Some (r, a) /\ fit (path r) p = Some a.
Proof.
  intros Hp Hc. assert (r ∈ candidates p) as Hr by (rewrite Hc; left).
  apply list_elem_of_In, filter_In in Hr as [Hr _]. apply filter_In in Hr as [Hr Hf].
  destruct (element_in table p) as [[r0 a]|] eqn:E.
  - destruct (element_at_candidate p r0 a Hp E) as [H1 H2]. rewrite Hc in H1. apply list_elem_of_singleton in H1 as ->. by exists a.
  - exfalso. apply (element_at_found p r Hp); [by apply list_elem_of_In| |done]. by destruct (fit (path r) p).
Qed.
End Facts.

(** What an address may fit when some of its segments are not known. *)
Fixpoint may_fit (ps : list segment) (rest : bool) (ws : list (option jsstring)) : bool :=
  match ps, ws with
  | [], [] => true
  | [], _ :: _ => rest
  | Static s :: ps', Some w :: ws' => jeqb (ascii_lower s) (ascii_lower w) && may_fit ps' rest ws'
  | _ :: ps', _ :: ws' => may_fit ps' rest ws'
  | _ :: _, [] => false
  end.

Definition known (w : jsstring) (k : option jsstring) : Prop := match k with Some v => w = v | None => True end.

Lemma fit_may ps rest ws ks : Forall2 known ws ks -> fit_segs ps rest ws <> None -> may_fit ps rest ks = true.
Proof.
  intros HF. revert ps. induction HF as [|w k ws ks Hk HF IH]; intros [|[s|n] ps]; cbn [fit_segs may_fit]; try done.
  - by destruct rest.
  - destruct k as [v|]; [cbn in Hk; subst v; destruct (jeqb _ _); [apply IH|done]|destruct (jeqb _ _); [apply IH|done]].
  - intros Hf. apply IH. destruct w; [done|]. by destruct (fit_segs ps rest ws).
Qed.

Definition may_candidates (ks : list (option jsstring)) : list route :=
  List.filter (fun r => may_fit (segs (path r)) (splat (path r)) ks) routes.

Lemma fitting_listed p ws ks r :
  address p = Some ws -> Forall2 known ws ks -> r ∈ routes -> fit (path r) p <> None -> r ∈ may_candidates ks.
Proof.
  intros Ha HF Hr Hf. apply list_elem_of_In, filter_In. split; [by apply list_elem_of_In|].
  eapply fit_may; [exact HF|]. unfold fit in Hf. rewrite Ha in Hf. exact Hf.
Qed.

Lemma address_slash s : exists ws, address (47%N :: s) = Some ws.
Proof.
  unfold address. cbn [split_on]. change (slash 47) with true. cbn iota beta. eauto.
Qed.

(** ** Every address *)

Definition star_route : route := redirect false "*" "/dashboard".

Lemma star_fits s : fit (path star_route) (47%N :: s) <> None.
Proof.
  destruct (address_slash s) as [ws Hw]. unfold fit. rewrite Hw. cbn [mbind option_bind].
  change (segs (path star_route)) with (@nil segment). change (splat (path star_route)) with true. by destruct ws.
Qed.

Definition single_page (l : list route) : bool :=
  match l with [r] => match element_of r with Page g => guarded r | Navigate _ => false end | _ => false end.

(** A redirect leads to an address that one page alone answers. *)
Definition redirect_ok (r : route) : bool :=
  match element_of r with Page _ => true | Navigate to => plain_path to && single_page (candidates routes to) end.

Lemma redirects_ok : forallb redirect_ok routes = true.
Proof. vm_compute. reflexivity. Qed.

Definition guard_ok (r : route) : bool :=
  match element_of r with Page LoginPage => negb (guarded r) | Page _ => guarded r | Navigate _ => true end.

Lemma guards_ok : forallb guard_ok routes = true.
Proof. vm_compute. reflexivity. Qed.

#[local] Opaque routes candidates pattern_of.

Definition is_login (g : page_id) : bool := match g with LoginPage => true | _ => false end.

Section Visits.
Context `{Router}.

Lemma page_at p r a g : plain_path p = true -> element_at p = Some (r, a) -> element_of r = Page g -> guarded r = negb (is_login g).
Proof.
  intros Hp He Hg. destruct (element_at_fits routes p r a Hp He) as (Hr & _). pose proof guards_ok as HG.
  rewrite forallb_forall in HG. specialize (HG r ltac:(by apply list_elem_of_In)). unfold guard_ok in HG. rewrite Hg in HG.
  destruct g; cbn; try exact HG. by destruct (guarded r).
Qed.

Lemma redirect_lands p r a to : plain_path p = true -> element_at p = Some (r, a) -> element_of r = Navigate to ->
  exists r' a' g, element_at to = Some (r', a') /\ element_of r' = Page g /\ guarded r' = true.
Proof.
  intros Hp He Hn. destruct (element_at_fits routes p r a Hp He) as (Hr & _). pose proof redirects_ok as HR.
  rewrite forallb_forall in HR. specialize (HR r ltac:(by apply list_elem_of_In)). unfold redirect_ok in HR. rewrite Hn in HR.
  apply andb_true_iff in HR as [Ht HR]. unfold single_page in HR.
  destruct (candidates routes to) as [|r' [|]] eqn:E; try discriminate HR.
  destruct (element_at_only routes to r' Ht E) as (a' & Ha & _). destruct (element_of r') as [g|] eqn:Eg; [|discriminate HR].
  exists r', a', g. done.
Qed.

Lemma visit_shape (s : jsstring) :
  plain_path (47%N :: s) = true ->
  exists l, visit (47%N :: s) = Some l /\ at_guarded l = negb (is_login (at_page l)) /\
    (at_path l <> 47%N :: s -> at_guarded l = true).
Proof.
  intros Hp. unfold visit. cbn [follow].
  destruct (element_at (47%N :: s)) as [[r a]|] eqn:He.
  - destruct (element_of r) as [g|to] eqn:Hg.
    + eexists. split; [done|]. cbn. split; [by eapply page_at|done].
    + destruct (redirect_lands _ r a to Hp He Hg) as (r' & a' & g & He' & Hg' & Hgd). rewrite He', Hg'.
      eexists. split; [done|]. cbn. split; [|done].
      pose proof redirects_ok as HR. rewrite forallb_forall in HR.
      destruct (element_at_fits routes _ r a Hp He) as (Hr & _). specialize (HR r ltac:(by apply list_elem_of_In)).
      unfold redirect_ok in HR. rewrite Hg in HR. apply andb_true_iff in HR as [Ht _]. by eapply page_at.
  - exfalso. apply (element_at_found routes (47%N :: s) star_route Hp); [|apply star_fits|exact He].
    apply list_elem_of_lookup. exists 28. vm_compute. reflexivity.
Qed.

(** Every address shows a page. Whatever is typed after the host, the
    redirects end after at most one step, on a page; the login page is the
    only one outside the guarded layout, and a redirect never leads to it. *)
Theorem every_address_shows (s : jsstring) :
  plain_path (47%N :: s) = true ->
  exists l, visit (47%N :: s) = Some l /\ at_guarded l = negb (is_login (at_page l)) /\
    (at_path l <> 47%N :: s -> at_guarded l = true).
Proof. apply visit_shape. Qed.

(** ** Links *)

(** An address that one page alone answers shows it. *)
Lemma visit_only p r g : plain_path p = true -> candidates routes p = [r] -> element_of r = Page g ->
  exists a, visit p = Some {| at_page := g; at_params := a; at_path := p; at_guarded := guarded r |}.
Proof.
  intros Hp Hc Hg. destruct (element_at_only routes p r Hp Hc) as (a & Ha & _). exists a. unfold visit. cbn [follow].
  change (element_at p) with (element_in routes p). by rewrite Ha, Hg.
Qed.
End Visits.

(** The links and calls of [navigate] with a fixed address, with the pages
    that they mean. *)
Definition links : list (jsstring * page_id) :=
  map (fun l => (js l.1, l.2))
    [("/dashboard", DashboardPage); ("/routes", RoutesPage); ("/certificates", CertificatesPage); ("/upstreams", UpstreamsPage);
     ("/l4", L4GatewayPage); ("/analytics", AnalyticsPage); ("/extensions", ExtensionsPage); ("/settings", SettingsPage);
     ("/routes/create", CreateRoutePage); ("/upstreams/create", CreateUpstreamPage); ("/l4/create", CreateL4ServicePage);
     ("/login", LoginPage)].

(** [navigate(`/routes/${r.id}/edit`)] and its like. *)
Definition edit_link (base id : jsstring) : jsstring := 47%N :: base ++ 47%N :: id ++ js "/edit".

Definition editors : list (jsstring * page_id) :=
  [(js "routes", EditRoutePage); (js "upstreams", EditUpstreamPage); (js "l4", EditL4ServicePage)].

(** The address of a link is answered by its page alone. *)
Definition link_ok (l : jsstring * page_id) : bool :=
  plain_path l.1
  && match candidates routes l.1 with
     | [r] => match element_of r with Page g => bool_decide (g = l.2) | Navigate _ => false end
     | _ => false
     end.

Lemma links_ok : forallb link_ok links = true.
Proof. vm_compute. reflexivity. Qed.

Lemma drop_trailing_id l w : w <> [] -> drop_trailing (l ++ [w]) = l ++ [w].
Proof.
  intros Hw. induction l as [|v l IH]; cbn [app drop_trailing].
  - apply jeqb_false in Hw. by rewrite Hw.
  - rewrite IH. by destruct l.
Qed.

(** An id as the control plane makes them: a segment of an address. *)
Definition segment_id (id : jsstring) : Prop :=
  id <> [] /\ Forall (fun c => slash c = false) id /\ plain_path id = true /\ ascii_lower id <> js "edit".

Lemma no_slash_base b g : (b, g) ∈ editors -> Forall (fun c => slash c = false) b /\ plain_path b = true.
Proof.
  intros Hb. assert (forallb (fun e => forallb (fun c => negb (slash c)) e.1 && plain_path e.1) editors = true) as HE by (vm_compute; reflexivity).
  rewrite forallb_forall in HE. specialize (HE (b, g) ltac:(by apply list_elem_of_In)). cbn [fst] in HE.
  apply andb_true_iff in HE as [HE ?]. split; [|done]. rewrite forallb_forall in HE. apply List.Forall_forall.
  intros c Hc. apply negb_true_iff, HE, Hc.
Qed.

Lemma edit_link_address b g id : (b, g) ∈ editors -> segment_id id -> address (edit_link b id) = Some [b; id; js "edit"].
Proof.
  intros Hb (Hn & Hs & _). destruct (no_slash_base b g Hb) as [Hsb _]. unfold edit_link, address. cbn [split_on].
  change (slash 47) with true. cbn iota beta.
  rewrite split_on_cons by done. change (js "/edit") with (47%N :: js "edit"). rewrite split_on_cons by done.
  replace (split_on slash (js "edit")) with [js "edit"] by (vm_compute; reflexivity).
  exact (f_equal Some (drop_trailing_id [b; id] (js "edit") ltac:(vm_compute; discriminate))).
Qed.

Lemma plain_app a b : plain_path (a ++ b) = plain_path a && plain_path b.
Proof. apply forallb_app. Qed.

Lemma edit_link_plain b g id : (b, g) ∈ editors -> segment_id id -> plain_path (edit_link b id) = true.
Proof.
  intros Hb (_ & _ & Hp & _). destruct (no_slash_base b g Hb) as [_ Hpb]. unfold edit_link.
  change (47%N :: b ++ 47%N :: id ++ js "/edit") with ([47%N] ++ b ++ [47%N] ++ id ++ js "/edit").
  rewrite !plain_app, Hpb, Hp. vm_compute. reflexivity.
Qed.

(** The routes that an edit link may fit: the one with the parameter in the
    middle, the one with it at the end, and the fallback. *)
Definition editor_ok (e : jsstring * page_id) : bool :=
  match may_candidates [Some e.1; None; Some (js "edit")] with
  | [r1; r2; r3] =>
      bool_decide (segs (path r1) = [Static e.1; Param (js "id"); Static (js "edit")]) && negb (splat (path r1))
      && match element_of r1 with Page g => bool_decide (g = e.2) | Navigate _ => false end
      && bool_decide (segs (path r2) = [Static e.1; Static (js "edit"); Param (js "id")])
      && more_specific (path r1) (path r3)
      && existsb (fun r => bool_decide (segs (path r) = segs (path r1)) && negb (splat (path r))) routes
  | _ => false
  end.

Lemma editors_ok : forallb editor_ok editors = true.
Proof. vm_compute. reflexivity. Qed.

Section LinkTheorems.
Context `{Router}.

Lemma edit_link_element b g id : (b, g) ∈ editors -> segment_id id ->
  exists r, element_at (edit_link b id) = Some (r, [(js "id", id)]) /\ element_of r = Page g.
Proof.
  intros Hb Hid. pose proof (edit_link_address b g id Hb Hid) as Ha. pose proof (edit_link_plain b g id Hb Hid) as Hp.
  pose proof editors_ok as HE. rewrite forallb_forall in HE. specialize (HE (b, g) ltac:(by apply list_elem_of_In)).
  unfold editor_ok in HE. cbn [fst snd] in HE. destruct (may_candidates _) as [|r1 [|r2 [|r3 [|]]]] eqn:EM; try discriminate HE.
  rewrite !andb_true_iff, !bool_decide_eq_true, negb_true_iff in HE. destruct HE as [[[[[H1 H2] H3] H4] H5] _].
  destruct (element_of r1) as [g'|] eqn:E1; [|discriminate H3]. apply bool_decide_eq_true in H3 as ->.
  destruct Hid as (Hne & _ & _ & Hed).
  assert (fit (path r1) (edit_link b id) = Some [(js "id", id)]) as Hf1.
  { unfold fit. rewrite Ha. cbn [mbind option_bind]. rewrite H1, H2. cbn [fit_segs]. rewrite !jeqb_refl. by destruct id. }
  assert (r1 ∈ routes) as Hr1.
  { assert (r1 ∈ may_candidates [Some b; None; Some (js "edit")]) as Hin by (rewrite EM; left).
    apply list_elem_of_In, filter_In in Hin as [Hin _]. by apply list_elem_of_In. }
  destruct (element_at (edit_link b id)) as [[r a]|] eqn:He.
  2:{ exfalso. apply (element_at_found routes _ r1 Hp Hr1); [by rewrite Hf1|done]. }
  destruct (element_at_fits routes _ r a Hp He) as (Hr & Hf & Hbest).
  assert (r ∈ may_candidates [Some b; None; Some (js "edit")]) as Hm.
  { eapply fitting_listed; [exact Ha| |exact Hr|by rewrite Hf]. by repeat constructor. }
  rewrite EM in Hm. apply elem_of_cons in Hm as [->|Hm].
  { rewrite Hf1 in Hf. injection Hf as <-. exists r1. by split. }
  apply elem_of_cons in Hm as [->|Hm].
  - exfalso. unfold fit in Hf. rewrite Ha in Hf. cbn [mbind option_bind] in Hf. rewrite H4 in Hf. cbn [fit_segs] in Hf.
    rewrite jeqb_refl in Hf. destruct (jeqb (ascii_lower (js "edit")) (ascii_lower id)) eqn:E; [|discriminate Hf].
    apply jeqb_true in E. by rewrite <- E in Hed.
  - exfalso. apply list_elem_of_singleton in Hm as ->. rewrite (Hbest r1 Hr1) in H5; [done|by rewrite Hf1].
Qed.

Lemma link_shown l : l ∈ links -> exists loc, visit l.1 = Some loc /\ at_page loc = l.2 /\ at_path loc = l.1.
Proof.
  intros Hl. pose proof links_ok as HL. rewrite forallb_forall in HL. specialize (HL l ltac:(by apply list_elem_of_In)).
  unfold link_ok in HL. apply andb_true_iff in HL as [Hp HL]. destruct (candidates routes l.1) as [|r [|]] eqn:E; try discriminate HL.
  destruct (element_of r) as [g|] eqn:Eg; [|discriminate HL]. apply bool_decide_eq_true in HL as <-.
  destruct (visit_only l.1 r g Hp E Eg) as [a Ha]. eexists. split; [exact Ha|done].
Qed.

Lemma login_shown : exists loc, visit (js "/login") = Some loc /\ at_page loc = LoginPage /\ at_path loc = js "/login".
Proof. apply (link_shown (js "/login", LoginPage)). unfold links. cbn [map]. set_solver. Qed.

(** Links lead where they say. Every fixed link of the console shows its
    page without a redirect, and the edit link of an item, whose id is one
    segment of an address, opens the editor of its kind with that id. *)
Theorem links_land :
  (forall l, l ∈ links -> exists loc, visit l.1 = Some loc /\ at_page loc = l.2 /\ at_path loc = l.1) /\
  (forall b g id, (b, g) ∈ editors -> segment_id id ->
     exists loc, visit (edit_link b id) = Some loc /\ at_page loc = g /\ at_params loc = [(js "id", id)]).
Proof.
  split; [exact link_shown|].
  intros b g id Hb Hid. destruct (edit_link_element b g id Hb Hid) as (r & He & Hg). eexists. split.
    + unfold visit. cbn [follow]. rewrite He, Hg. reflexivity.
    + done.
Qed.

(** ** The guard *)

(** What is drawn at an address once the effect of the layout has run: the
    layout sends to the login page when it takes the session for absent. *)
Definition screen (p : jsstring) (g : guard) : option location :=
  l ← visit p;
  if at_guarded l && redirects g then visit (js "/login") else Some l.

(** C13: the guard covers the console, at addresses without percent escapes,
    query or fragment. Without a session every address shows the login page; with one, as long as the session was not refused, every
    address shows its page. *)
Theorem guard_covers (st : Storage) (g : guard) (s : jsstring) :
  plain_path (47%N :: s) = true ->
  let g' := (enter st g).1 in
  exists l, visit (47%N :: s) = Some l /\
    (has_session st = false -> exists loc, screen (47%N :: s) g' = Some loc /\ at_page loc = LoginPage) /\
    (has_session st = true -> isAuthenticated g = true -> screen (47%N :: s) g' = Some l).
Proof.
  intros Hp g'. unfold screen, g', enter. destruct (visit_shape s Hp) as (l & Hl & Hgd & _).
  exists l. split; [done|]. rewrite Hl. cbn [mbind option_bind]. split.
  - intros ->. cbn [fst redirects isAuthenticated]. unfold redirects. cbn [isAuthenticated negb]. rewrite andb_true_r, Hgd.
    destruct (is_login (at_page l)) eqn:El; cbn [negb].
    + exists l. split; [done|]. by destruct (at_page l).
    + destruct login_shown as (loc & Hv & Hg & _). by exists loc.
  - intros -> Ha. cbn [fst]. unfold redirects. cbn [isAuthenticated]. by rewrite Ha, andb_false_r.
Qed.
End LinkTheorems.

(** ** Addresses that the console names and does not have *)

(** The side bar has [/metrics] for another name of the analytics page, and
    the table has no such route. *)
Lemma metrics_falls_back `{Router} : exists loc, visit (js "/metrics") = Some loc /\ at_page loc = DashboardPage.
Proof.
  destruct (element_at_only routes (js "/metrics") star_route) as (a & Ha & _); [vm_compute; reflexivity..|].
  destruct (element_at_only routes (js "/dashboard") (page_route true "/dashboard" DashboardPage)) as (b & Hb & _); [vm_compute; reflexivity..|].
  unfold visit. cbn [follow]. unfold element_at. rewrite Ha. change (element_of star_route) with (Navigate (js "/dashboard")). cbn iota.
  rewrite Hb. eexists. split; [reflexivity|done].
Qed.

(** ** Instances *)

Lemma every_address_shows_witness : exists l, visit (js "/no/such/page") = Some l /\ at_guarded l = negb (is_login (at_page l)).
Proof.
  destruct (every_address_shows (js "no/such/page")) as (l & H1 & H2 & _); [vm_compute; reflexivity|]. exists l. split; [exact H1|exact H2].
Defined.

Lemma guard_covers_witness : exists loc, screen (js "/settings") (enter empty_store initial_guard).1 = Some loc /\ at_page loc = LoginPage.
Proof.
  destruct (guard_covers empty_store initial_guard (js "settings")) as (l & _ & H & _); [vm_compute; reflexivity|].
  apply H. vm_compute. reflexivity.
Defined.

Lemma links_land_witness : exists loc, visit (edit_link (js "routes") (js "r-1")) = Some loc /\ at_page loc = EditRoutePage.
Proof.
  destruct (proj2 links_land (js "routes") EditRoutePage (js "r-1")) as (loc & H1 & H2 & _).
  - unfold editors. set_solver.
  - split; [discriminate|]. split; [by repeat constructor|]. split; [reflexivity|]. vm_compute. discriminate.
  - exists loc. split; [exact H1|exact H2].
Defined.
