(* ===== verification/Polling.v ===== *)
(** * List pages that poll

    The routes, certificates, L4 and upstream pages reload their list every
    few seconds and after each change, so several requests can be in flight
    at once. Each request takes a number from [requestSequence] and its
    response is used only if no later request was made; leaving the page
    takes a number too. This file states that protocol over what a page
    sets ([ListPage]), as a step relation in which responses arrive in any
    order, and proves what it guarantees for every page. *)

From Stdlib Require Import ZArith NArith Lia String Sorting.Sorted.
From S2P Require Import Prelude JsString.

(** The state the protocol writes. *)
Record view (A : Type) := View {
  items : list A;
  loading : bool;
  isRefreshing : bool;
  error : option jsstring
}.
Arguments View {A}.
Arguments items {A}.
Arguments loading {A}.
Arguments isRefreshing {A}.
Arguments error {A}.

Definition initial_view {A} : view A :=
  {| items := []; loading := true; isRefreshing := false; error := None |}.

Definition set_view_items {A} (v : view A) (l : list A) : view A :=
  {| items := l; loading := loading v; isRefreshing := isRefreshing v; error := error v |}.
Definition set_view_error {A} (v : view A) (m : option jsstring) : view A :=
  {| items := items v; loading := loading v; isRefreshing := isRefreshing v; error := m |}.

(** What a page does at each point of its fetch function: before the
    [await], with the data, with an error message (possibly empty), and in
    [finally]. *)
Class ListPage (A : Type) := {
  on_start : bool -> view A -> view A;
  on_data : list A -> view A -> view A;
  on_error : jsstring -> view A -> view A;
  on_finally : view A -> view A;
  on_start_items b v : items (on_start b v) = items v;
  on_data_items l v : items (on_data l v) = l;
  on_error_items m v : items (on_error m v) = items v;
  on_error_shows m v : exists c s, error (on_finally (on_error m v)) = Some (c :: s);
  on_finally_items v : items (on_finally v) = items v;
  on_finally_loading v : loading (on_finally v) = false
}.

Section Protocol.
Context {A : Type} `{ListPage A}.

(** [sequence] is the ref; [pending] holds the numbers of the requests in
    flight and [applied] those whose data was shown, latest first. The
    program has no such lists: they record its history. *)
Record page := {
  shown : view A;
  sequence : nat;
  pending : list nat;
  applied : list nat
}.

Inductive event :=
| Start (showSpin : bool)
| Settle (n : nat) (r : result jsstring (list A))
| Leave
| Edit (f : list A -> list A).

(** The fetch function up to its [await]. *)
Definition fetch_start (showSpin : bool) (s : page) : page :=
  let n := S (sequence s) in
  {| shown := on_start showSpin (shown s); sequence := n; pending := n :: pending s; applied := applied s |}.

(** ... and from it, for the request number [n]. *)
Definition fetch_settle (n : nat) (r : result jsstring (list A)) (s : page) : page :=
  let current := Nat.eqb n (sequence s) in
  {| shown := if current
              then on_finally (match r with Ok l => on_data l (shown s) | Throw m => on_error m (shown s) end)
              else shown s;
     sequence := sequence s;
     pending := List.filter (fun m => negb (Nat.eqb m n)) (pending s);
     applied := match r with
                | Ok _ => if current then n :: applied s else applied s
                | Throw _ => applied s
                end |}.

(** The clean-up of the effect. *)
Definition leave (s : page) : page :=
  {| shown := shown s; sequence := S (sequence s); pending := pending s; applied := applied s |}.

(** A change of the list made by the page itself. *)
Definition edit (f : list A -> list A) (s : page) : page :=
  {| shown := set_view_items (shown s) (f (items (shown s))); sequence := sequence s;
     pending := pending s; applied := applied s |}.

Definition initial_page : page := {| shown := initial_view; sequence := 0; pending := []; applied := [] |}.

(** A response belongs to a request in flight; they settle in any order. *)
Inductive page_step : page -> event -> page -> Prop :=
| StepStart s b : page_step s (Start b) (fetch_start b s)
| StepSettle s n r : n ∈ pending s -> page_step s (Settle n r) (fetch_settle n r s)
| StepLeave s : page_step s Leave (leave s)
| StepEdit s f : page_step s (Edit f) (edit f s).

(** ** Invariant *)

Definition page_inv (s : page) : Prop :=
  NoDup (pending s) /\ Forall (fun n => n <= sequence s) (pending s) /\
  StronglySorted (fun a b => b < a) (applied s) /\
  Forall (fun a => a <= sequence s /\ a ∉ pending s) (applied s).

Lemma initial_page_inv : page_inv initial_page.
Proof. repeat split; constructor. Qed.

Lemma pending_filter n (l : list nat) x :
  x ∈ List.filter (fun m => negb (Nat.eqb m n)) l <-> x ∈ l /\ x <> n.
Proof.
  rewrite !list_elem_of_In, filter_In, negb_true_iff, Nat.eqb_neq. done.
Qed.

Lemma page_step_inv s e s' : page_inv s -> page_step s e s' -> page_inv s'.
Proof.
  intros (Hnd & Hle & Hs & Ha) Hstep. rewrite !Forall_forall in Hle.
  destruct Hstep as [s b|s n r Hn|s|s f]; unfold page_inv; simpl; rewrite ?Forall_forall in *.
  - split_and!; [| |done|].
    + constructor; [|done]. intros Hin. specialize (Hle _ Hin). lia.
    + intros x [->|Hx]%elem_of_cons; [lia|]. specialize (Hle _ Hx). lia.
    + intros a Hin. destruct (Ha _ Hin) as [H1 H2]. split; [lia|].
      intros [->|Hx]%elem_of_cons; [lia|done].
  - assert (Forall (fun a => a <= sequence s /\ a ∉ List.filter (fun m => negb (Nat.eqb m n)) (pending s)) (applied s)) as Ha'.
    { rewrite Forall_forall. intros a Hin. destruct (Ha _ Hin) as [H1 H2]. split; [done|].
      rewrite pending_filter. by intros [? _]. }
    split_and!; [by apply NoDup_list_filter|intros x [Hx _]%pending_filter; auto|..];
      destruct r as [l|m]; try done; try (by rewrite Forall_forall in Ha');
      destruct (Nat.eqb n (sequence s)) eqn:E; try done; try (by rewrite Forall_forall in Ha');
      apply Nat.eqb_eq in E as ->.
    + constructor; [done|]. rewrite Forall_forall. intros a Hin. destruct (Ha _ Hin) as [H1 H2].
      assert (a <> sequence s) by (by intros ->). lia.
    + intros a [->|Hin]%elem_of_cons; [|by rewrite Forall_forall in Ha'; apply Ha'].
      split; [done|]. rewrite pending_filter. by intros [_ ?].
  - split_and!; try done; [intros x Hx; specialize (Hle _ Hx); lia|].
    intros a Hin. destruct (Ha _ Hin). split; [lia|done].
  - split_and!; try done.
Qed.

(** ** Settling only *)

Definition is_settle (e : event) : Prop := match e with Settle _ _ => True | _ => False end.

(** Without the latest request among the arrivals nothing is shown. *)
Lemma stale_settles s es s' :
  star page_step s es s' -> Forall is_settle es -> sequence s ∉ pending s ->
  shown s' = shown s /\ sequence s' = sequence s /\ sequence s' ∉ pending s'.
Proof.
  induction 1 as [s|s e s1 es s2 Hstep _ IH]; intros Hes Hn; [done|].
  inversion Hes as [|? ? He Hes']; subst.
  destruct Hstep as [|s n r Hin| |]; try done.
  destruct (decide (n = sequence s)) as [->|Hne]; [done|].
  assert (Nat.eqb n (sequence s) = false) as E by (by apply Nat.eqb_neq).
  assert (sequence (fetch_settle n r s) ∉ pending (fetch_settle n r s)) as Hn'.
  { simpl. rewrite pending_filter. by intros [? _]. }
  destruct (IH Hes' Hn') as (H1 & H2 & H3). split; [|split; [by rewrite H2|done]].
  rewrite H1. simpl. by rewrite E.
Qed.

(** A number settles only if it is in flight. *)
Lemma settle_was_pending s es s' n r :
  star page_step s es s' -> Forall is_settle es -> Settle n r ∈ es -> n ∈ pending s.
Proof.
  induction 1 as [s|s e s1 es s2 Hstep _ IH]; intros Hes Hin; [by apply elem_of_nil in Hin|].
  inversion Hes as [|? ? He Hes']; subst. destruct Hstep as [|s k q Hk| |]; try done.
  apply elem_of_cons in Hin as [[= E1 E2]|Hin]; [by subst|].
  specialize (IH Hes' Hin). simpl in IH. by apply pending_filter in IH as [? _].
Qed.

(** What the answer to a request makes of the view. *)
Definition settled_view (r : result jsstring (list A)) (v : view A) : view A :=
  on_finally (match r with Ok l => on_data l v | Throw m => on_error m v end).

Lemma latest_outcome s es s' r :
  star page_step s es s' -> Forall is_settle es -> Settle (sequence s) r ∈ es ->
  shown s' = settled_view r (shown s).
Proof.
  induction 1 as [s|s e s1 es s2 Hstep Hstar IH]; intros Hes Hin; [by apply elem_of_nil in Hin|].
  inversion Hes as [|? ? He Hes']; subst. destruct Hstep as [|s m q Hm| |]; try done.
  destruct (decide (m = sequence s)) as [->|Hne].
  - assert (sequence (fetch_settle (sequence s) q s) ∉ pending (fetch_settle (sequence s) q s)) as Hn'.
    { simpl. rewrite pending_filter. by intros [_ ?]. }
    destruct (stale_settles _ _ _ Hstar Hes' Hn') as (H1 & _ & _).
    assert (q = r) as ->.
    { apply elem_of_cons in Hin as [[= ->]|Hin]; [done|].
      by apply (settle_was_pending _ _ _ _ _ Hstar Hes') in Hin. }
    rewrite H1. simpl. by rewrite Nat.eqb_refl.
  - apply elem_of_cons in Hin as [[= E1 E2]|Hin]; [by subst|].
    rewrite (IH Hes' Hin). simpl. by rewrite (proj2 (Nat.eqb_neq _ _) Hne).
Qed.

Lemma latest_settles s es s' n l :
  star page_step s es s' -> Forall is_settle es -> n = sequence s ->
  Settle n (Ok l) ∈ es ->
  items (shown s') = l /\ loading (shown s') = false.
Proof.
  intros Hs Hes -> Hin. rewrite (latest_outcome _ _ _ _ Hs Hes Hin). unfold settled_view.
  by rewrite on_finally_items, on_finally_loading, on_data_items.
Qed.
End Protocol.

(** ** The pages *)

(** [fetchRoutes], [fetchCertificates] and [fetchData]: only a manual
    refresh shows the spinner, and new data clears the error. *)
Definition polled_start {A} (showSpin : bool) (v : view A) : view A :=
  {| items := items v; loading := loading v; isRefreshing := if showSpin then true else isRefreshing v; error := error v |}.
Definition polled_data {A} (l : list A) (v : view A) : view A :=
  {| items := l; loading := loading v; isRefreshing := isRefreshing v; error := None |}.
Definition polled_finally {A} (v : view A) : view A :=
  {| items := items v; loading := false; isRefreshing := false; error := error v |}.

(** [fetchUpstreams]: every load shows as loading and clears the error. *)
Definition reload_start {A} (showSpin : bool) (v : view A) : view A :=
  {| items := items v; loading := true; isRefreshing := isRefreshing v; error := None |}.
Definition reload_data {A} (l : list A) (v : view A) : view A := set_view_items v l.
Definition reload_finally {A} (v : view A) : view A :=
  {| items := items v; loading := false; isRefreshing := isRefreshing v; error := error v |}.

Definition fetch_error {A} (fallback : jsstring) (m : jsstring) (v : view A) : view A :=
  set_view_error v (Some (str_or m fallback)).

Lemma str_or_shows (m : jsstring) (c : N) (fallback : jsstring) :
  exists c' s, Some (str_or m (c :: fallback)) = Some (c' :: s).
Proof. destruct m; eauto. Qed.

(** The fallback message of a page is not empty. *)
Definition polled_page {A} (c : N) (fallback : jsstring) : ListPage A :=
  {| on_start := polled_start; on_data := polled_data; on_error := fetch_error (c :: fallback);
     on_finally := polled_finally;
     on_start_items _ _ := eq_refl; on_data_items _ _ := eq_refl; on_error_items _ _ := eq_refl;
     on_error_shows m _ := str_or_shows m c fallback;
     on_finally_items _ := eq_refl; on_finally_loading _ := eq_refl |}.

Definition reloaded_page {A} (c : N) (fallback : jsstring) : ListPage A :=
  {| on_start := reload_start; on_data := reload_data; on_error := fetch_error (c :: fallback);
     on_finally := reload_finally;
     on_start_items _ _ := eq_refl; on_data_items _ _ := eq_refl; on_error_items _ _ := eq_refl;
     on_error_shows m _ := str_or_shows m c fallback;
     on_finally_items _ := eq_refl; on_finally_loading _ := eq_refl |}.

(** ** Theorems *)

Section Guarantees.
Context {A : Type} `{ListPage A}.

(** C1: the newest answer is what is shown. After a page in any state makes a request,
    in whatever order the responses in flight arrive, before or after it and
    however many of them there are, once this request's data has arrived
    the list is that data and the page is no longer loading. *)
Theorem newest_response_shown (s s' : page) (es : list event) (showSpin : bool) (l : list A) :
  star page_step (fetch_start showSpin s) es s' -> Forall is_settle es ->
  Settle (S (sequence s)) (Ok l) ∈ es ->
  items (shown s') = l /\ loading (shown s') = false.
Proof.
  intros Hes Hse Hin. by eapply (latest_settles _ _ _ (S (sequence s))).
Qed.

(** An old answer never replaces a newer one: along every execution,
    with any interleaving of requests, responses, edits and departures,
    the numbers of the responses that were shown strictly increase. *)
Theorem responses_applied_in_order (s : page) (es : list event) :
  star page_step initial_page es s ->
  StronglySorted (fun a b => b < a) (applied s) /\ Forall (fun a => a <= sequence s) (applied s).
Proof.
  intros Hes. eapply (star_invariant page_step page_inv) in Hes as (_ & _ & Hs & Ha);
    [|apply page_step_inv|apply initial_page_inv].
  split; [done|]. eapply Forall_impl; [exact Ha|]. by intros a [? _].
Qed.

(** A page that was left is not written: whatever responses arrive
    after the clean-up of the effect, nothing of the view changes. *)
Theorem left_page_frozen (s s' : page) (past es : list event) :
  star page_step initial_page past s ->
  star page_step (leave s) es s' -> Forall is_settle es -> shown s' = shown s.
Proof.
  intros Hpast Hes Hse.
  eapply (star_invariant page_step page_inv) in Hpast as (_ & Hle & _ & _);
    [|apply page_step_inv|apply initial_page_inv].
  destruct (stale_settles _ _ _ Hes Hse) as (H1 & _ & _); [|done].
  simpl. intros Hin. rewrite Forall_forall in Hle. specialize (Hle _ Hin). lia.
Qed.
End Guarantees.

(** ** Instances *)

Section Example.
#[local] Instance example_page : ListPage nat := polled_page 69 (js "rror").

(** Two requests; the second answers first, the first answers late. *)
Definition overtaken : list event := [Settle 2 (Ok [20]); Settle 1 (Ok [10])].

Lemma newest_response_shown_witness :
  exists s', star page_step (fetch_start true (fetch_start false initial_page)) overtaken s' /\
    items (shown s') = [20] /\ loading (shown s') = false.
Proof.
  set (s := fetch_start false initial_page).
  assert (star page_step (fetch_start true s) overtaken
            (fetch_settle 1 (Ok [10]) (fetch_settle 2 (Ok [20]) (fetch_start true s)))) as Hs.
  { unfold overtaken. eapply star_cons; [apply StepSettle; by vm_compute; left|].
    eapply star_cons; [apply StepSettle|apply star_nil]. vm_compute. left. }
  eexists. split; [exact Hs|].
  apply (newest_response_shown s _ overtaken true [20]).
  - exact Hs.
  - repeat constructor.
  - left.
Defined.

Lemma responses_applied_in_order_witness :
  applied (fetch_settle 1 (Ok [10]) (fetch_start false initial_page)) = [1] /\
  StronglySorted (fun a b => b < a) (applied (fetch_settle 1 (Ok [10]) (fetch_start false initial_page))).
Proof.
  split; [reflexivity|].
  apply (responses_applied_in_order _ [Start false; Settle 1 (Ok [10])]).
  eapply star_cons; [apply StepStart|]. eapply star_cons; [apply StepSettle|apply star_nil]. left.
Defined.

Lemma left_page_frozen_witness :
  shown (fetch_settle 1 (Ok [10]) (leave (fetch_start false initial_page)))
  = shown (fetch_start false initial_page).
Proof.
  apply (left_page_frozen _ _ [Start false] [Settle 1 (Ok [10])]).
  - eapply star_cons; [apply StepStart|apply star_nil].
  - eapply star_cons; [apply StepSettle|apply star_nil]. left.
  - repeat constructor.
Defined.
End Example.
