(* ===== verification/Optimistic.v ===== *)
(** * Optimistic switches

    The routes, certificates and extensions pages change the [enabled] flag
    of a row before the control plane has answered, mark the row as
    toggling, and put the old flag back when the request fails. What they
    need of a row is the class [Toggleable]; the pages instantiate it. *)

From Stdlib Require Import Lia.
From stdpp Require Import gmap.
From S2P Require Import Prelude JsString.

Class Toggleable (A : Type) := {
  item_id : A -> jsstring;
  item_enabled : A -> bool;
  with_enabled : bool -> A -> A;
  with_enabled_id b x : item_id (with_enabled b x) = item_id x;
  with_enabled_on b x : item_enabled (with_enabled b x) = b;
  with_enabled_twice b c x : with_enabled b (with_enabled c x) = with_enabled b x;
  with_enabled_same x : with_enabled (item_enabled x) x = x
}.

Section Rows.
Context {A : Type} `{Toggleable A}.

(** [prev.map((r) => (r.id === id ? f(r) : r))] *)
Definition update_id (i : jsstring) (f : A -> A) (l : list A) : list A :=
  map (fun r => if jeqb (item_id r) i then f r else r) l.

(** [{ ...r, enabled }] on the row of that id. *)
Definition switch_rows (i : jsstring) (b : bool) : list A -> list A := update_id i (with_enabled b).

Lemma switch_rows_cons i b x l :
  switch_rows i b (x :: l) = (if jeqb (item_id x) i then with_enabled b x else x) :: switch_rows i b l.
Proof. done. Qed.

Lemma update_id_id i f l : Forall (fun r => item_id r = i -> f r = r) l -> update_id i f l = l.
Proof.
  induction 1 as [|r l Hr _ IH]; simpl; [done|]. rewrite IH.
  destruct (jeqb _ _) eqn:E; [|done]. apply jeqb_true in E. by rewrite Hr.
Qed.

Lemma update_id_compose i f g l :
  (forall r, item_id (g r) = item_id r) ->
  update_id i f (update_id i g l) = update_id i (fun r => f (g r)) l.
Proof.
  intros Hg. unfold update_id. rewrite map_map. apply map_ext. intros r.
  destruct (jeqb (item_id r) i) eqn:E; [by rewrite Hg, E|by rewrite E].
Qed.

Lemma update_id_ids i f l : (forall r, item_id (f r) = item_id r) -> map item_id (update_id i f l) = map item_id l.
Proof.
  intros Hf. unfold update_id. rewrite map_map. apply map_ext. intros r. by destruct (jeqb _ _).
Qed.

(** Switching back is the identity when the row had the other state. *)
Lemma switch_rows_back i b l :
  Forall (fun r => item_id r = i -> item_enabled r = negb b) l ->
  switch_rows i (negb b) (switch_rows i b l) = l.
Proof.
  intros Hl. unfold switch_rows. rewrite update_id_compose by apply with_enabled_id. apply update_id_id.
  eapply Forall_impl; [exact Hl|]. intros r Hr Hi. simpl in Hr. rewrite with_enabled_twice, <- (Hr Hi).
  apply with_enabled_same.
Qed.

(** A switch changes the rows of that id and no other. *)
Lemma switch_rows_frame i b l r :
  r ∈ switch_rows i b l -> if jeqb (item_id r) i then item_enabled r = b else r ∈ l.
Proof.
  intros Hr. apply list_elem_of_In, in_map_iff in Hr as (r0 & Hr & Hin).
  destruct (jeqb (item_id r0) i) eqn:E; subst r; rewrite ?with_enabled_id, E;
    [apply with_enabled_on|by apply list_elem_of_In].
Qed.
End Rows.

(** The marks [togglingIds]: set before the request, deleted in [finally]. *)
Definition mark (i : jsstring) (s : gset jsstring) : gset jsstring := {[ i ]} ∪ s.
Definition unmark (i : jsstring) (s : gset jsstring) : gset jsstring := s ∖ {[ i ]}.

Lemma mark_unmark i s : i ∉ s -> unmark i (mark i s) = s.
Proof. unfold mark, unmark. set_solver. Qed.
