(* ===== verification/FormInputs.v ===== *)
(** * Inputs of a form

    The editor pages are forms of controlled inputs: every input shows a
    field of the state and its handler writes that field, sometimes others
    with it (switching mutual TLS on also switches verification on). This
    file states what the pages promise about their inputs as the class
    [FormInputs] and proves, for every form, that what was entered last is
    what is shown until another input writes the field. The pages are the
    instances, in [RouteInputs], [L4Inputs], [UpstreamInputs] and
    [DialogInputs]. *)

From Stdlib Require Import ZArith NArith Lia.
From S2P Require Import Prelude JsString JsValue Json Api.
Import OtherApis.

(** A state [S], the entries [E] a user can make and the fields [F] shown. *)
Class FormInputs (S E F : Type) := {
  enter : S -> E -> S;
  target : E -> F;
  also : E -> list F;
  field_value : S -> F -> val;
  kept_value : S -> E -> val;
  offered : S -> E -> bool;
  enter_target s e : field_value (enter s e) (target e) = kept_value s e;
  enter_other s e f : f <> target e -> f ∉ also e -> field_value (enter s e) f = field_value s f
}.

Section Forms.
Context {S E F : Type} `{FormInputs S E F}.

Definition enter_all (s : S) (es : list E) : S := fold_left enter es s.

(** An entry that does not write the field. *)
Definition spares (f : F) (e : E) : Prop := f <> target e /\ f ∉ also e.

Lemma spared_field s es f : Forall (spares f) es -> field_value (enter_all s es) f = field_value s f.
Proof.
  intros Hes. revert s. induction Hes as [|e es [H1 H2] _ IH]; intros s; [done|].
  cbn. change (fold_left enter es (enter s e)) with (enter_all (enter s e) es). rewrite IH. by apply enter_other.
Qed.

(** The last entry is what is shown. In every form, whatever was entered
    before, and whatever is entered in inputs that do not write the field
    after it, a field shows what its input kept of the last entry. *)
Theorem last_entry_shown (s : S) (before after : list E) (e : E) :
  Forall (spares (target e)) after ->
  field_value (enter_all s (before ++ e :: after)) (target e) = kept_value (enter_all s before) e.
Proof.
  intros Hafter. unfold enter_all. rewrite fold_left_app. cbn [fold_left].
  change (fold_left enter after ?x) with (enter_all x after). rewrite spared_field by done. apply enter_target.
Qed.

(** What the user can really do: only the entries that are offered. *)
Inductive offered_step : S -> E -> S -> Prop :=
| OfferedEntry s e : offered s e = true -> offered_step s e (enter s e).

(** An invariant that every offered entry keeps. *)
Lemma offered_invariant (I : S -> Prop) s es s' :
  (forall t e, I t -> offered t e = true -> I (enter t e)) -> I s -> star offered_step s es s' -> I s'.
Proof. intros Hp. apply star_invariant. intros a e b Ha Hs. destruct Hs. by apply Hp. Qed.
End Forms.

(** [parseInt(text, 10) || d] *)
Definition parse_or (d : Z) (t : jsstring) : Z :=
  match num_to_Z (parseInt10 t) with
  | Some n => if (n =? 0)%Z then d else n
  | None => d
  end.

Lemma parse_or_nonzero d t : d <> 0%Z -> parse_or d t <> 0%Z.
Proof. unfold parse_or. destruct (num_to_Z _) as [n|]; [|done]. destruct (n =? 0)%Z eqn:E; boolify; done. Qed.

(** Field values as the inputs show them. *)
Definition text_value (t : jsstring) : val := VStr t.
Definition tick_value (b : bool) : val := VBool b.

(** The text of a positive number is read as that number. *)
Lemma parse_or_digits d n : (0 < n)%Z -> parse_or d (int_string n) = n.
Proof.
  intros Hn. unfold parse_or, int_string. rewrite (proj2 (Z.ltb_ge n 0)) by lia.
  destruct (digits_spec n ltac:(lia)) as (Hv & Hd & Hne & _).
  assert (parseInt10 (digits n) = num_of_Z n) as ->.
  { unfold parseInt10, trimStart. destruct (digits n) as [|c ds] eqn:E; [done|].
    pose proof Hd as Hd'. apply Forall_cons in Hd' as [Hc _].
    assert (is_ws c = false) as Hws.
    { unfold is_digit in Hc. unfold is_ws. boolify.
      rewrite !orb_false_iff, !andb_false_iff, !N.eqb_neq, !N.leb_gt. lia. }
    rewrite drop_while_id by done.
    assert (match c with 45%N => (true, ds) | 43%N => (false, ds) | _ => (false, c :: ds) end = (false, c :: ds)) as ->.
    { unfold is_digit in Hc. boolify. destruct c as [|p]; [done|]. do 6 (try destruct p as [p|p|]); try done; lia. }
    pose proof (span_digits_app (c :: ds) [] Hd ltac:(done)) as Hs. rewrite app_nil_r in Hs. by rewrite Hs, Hv. }
  rewrite num_to_of_Z. by rewrite (proj2 (Z.eqb_neq n 0)) by lia.
Qed.
