(* ===== verification/Profiles.v ===== *)
(** * Extension profiles

    [pages/extensions/data/extensionProfiles.ts]: the catalogue of data-plane
    extensions with their built-in profiles, the normalisation of extension
    keys, and [resolveExtensionProfiles], which merges the built-in profiles
    with the custom ones of an extension's configuration. *)

From Stdlib Require Import ZArith String.
From S2P Require Import Prelude JsString JsValue Json JsonFacts.
Local Open Scope string_scope.
Local Open Scope Z_scope.

(** ** Data *)

Record ExtensionProfileOption := {
  id : jsstring;
  label : jsstring;
  summary : jsstring;
  builtin : bool;
  params : obj
}.

Inductive field_kind := FieldNumber | FieldText | FieldSelect.

Record ProfileFieldSchema := {
  field_key : jsstring;
  field_label : jsstring;
  field_type : field_kind;
  defaultValue : val;
  options : option (list (jsstring * jsstring))
}.

Inductive ext_category := Performance | Security | Traffic.

Record DataplaneExtensionMeta := {
  key : jsstring;
  meta_label : jsstring;
  shortLabel : jsstring;
  category : ext_category;
  description : jsstring;
  defaultProfiles : list ExtensionProfileOption;
  profileFields : list ProfileFieldSchema
}.

(** ** The catalogue *)

Definition meta_response_cache : DataplaneExtensionMeta := {|
  key := js "response-cache";
  meta_label := js "Response Cache (Zero-Copy SHM)";
  shortLabel := js "Cache";
  category := Performance;
  description := js "Lưu cache RAM đa biến thể (Identity, Zstd, Brotli, Gzip)";
  defaultProfiles := [
    {| id := js "standard"; label := js "Standard Cache (300s)";
       summary := js "TTL 300s — Cân bằng tốc độ và độ mới dữ liệu";
       builtin := true;
       params := obj_lit [("ttl_secs", VInt 300)] |};
    {| id := js "short_ttl"; label := js "Micro-Cache (30s)";
       summary := js "TTL 30s — Chống đột biến tải cho API thay đổi thường xuyên";
       builtin := true;
       params := obj_lit [("ttl_secs", VInt 30)] |};
    {| id := js "medium_ttl"; label := js "Medium Cache (120s)";
       summary := js "TTL 120s — Phù hợp danh mục sản phẩm / feed công khai";
       builtin := true;
       params := obj_lit [("ttl_secs", VInt 120)] |};
    {| id := js "long_static"; label := js "Immutable / Static (3600s)";
       summary := js "TTL 3600s (1 giờ) — Tài nguyên tĩnh hoặc dữ liệu ít biến동";
       builtin := true;
       params := obj_lit [("ttl_secs", VInt 3600)] |}];
  profileFields := [
    {| field_key := js "ttl_secs"; field_label := js "TTL (Seconds)"; field_type := FieldNumber;
       defaultValue := VInt 300; options := None |}]
|}.

Definition meta_response_compression : DataplaneExtensionMeta := {|
  key := js "response-compression";
  meta_label := js "Response Compression (Zstd / Br / Gzip)";
  shortLabel := js "Compress";
  category := Performance;
  description := js "Đàm phán Accept-Encoding và nén phản hồi tự động";
  defaultProfiles := [
    {| id := js "balanced"; label := js "Balanced (Zstd -> Br -> Gzip, >= 1KB)";
       summary := js "Min 1024B — Ưu tiên Zstd/Brotli cân bằng CPU & băng thông";
       builtin := true;
       params := obj_lit [
          ("min_length", VInt 1024);
          ("prefer_algorithms", vstrs ["zstd"; "br"; "gzip"])] |};
    {| id := js "fast_zstd"; label := js "Fast Zstd Priority (>= 256B)";
       summary := js "Min 256B — Nén siêu tốc độ trễ thấp với Zstd & Gzip";
       builtin := true;
       params := obj_lit [
          ("min_length", VInt 256);
          ("prefer_algorithms", vstrs ["zstd"; "gzip"])] |};
    {| id := js "max_ratio"; label := js "Max Compression Ratio (>= 512B)";
       summary := js "Min 512B — Ưu tiên Brotli tiết kiệm tối đa băng thông";
       builtin := true;
       params := obj_lit [
          ("min_length", VInt 512);
          ("prefer_algorithms", vstrs ["br"; "zstd"; "gzip"])] |};
    {| id := js "large_payloads"; label := js "Large Payloads Only (>= 4KB)";
       summary := js "Min 4096B — Chỉ nén các phản hồi JSON/HTML lớn";
       builtin := true;
       params := obj_lit [
          ("min_length", VInt 4096);
          ("prefer_algorithms", vstrs ["zstd"; "br"; "gzip"])] |}];
  profileFields := [
    {| field_key := js "min_length"; field_label := js "Min Payload Size (Bytes)"; field_type := FieldNumber;
       defaultValue := VInt 1024; options := None |}]
|}.

Definition meta_rate_limit : DataplaneExtensionMeta := {|
  key := js "rate-limit";
  meta_label := js "Rate Limiting (Token / Sliding Window)";
  shortLabel := js "RateLimit";
  category := Traffic;
  description := js "Giới hạn tần suất request chống DDoS / lạm dụng API";
  defaultProfiles := [
    {| id := js "standard"; label := js "Standard API (100 req/s, burst 200)";
       summary := js "100 req/s mỗi IP (Burst 200) — Mặc định cho REST API";
       builtin := true;
       params := obj_lit [
          ("rate", VInt 100);
          ("period_secs", VInt 1);
          ("burst", VInt 200);
          ("limit_by", vstr "client_ip");
          ("action_on_exceeded", vstr "throttle")] |};
    {| id := js "strict"; label := js "Strict Auth/Write (10 req/s, burst 20)";
       summary := js "10 req/s mỗi IP (Burst 20) — Bảo vệ Login / Checkout / Mutation";
       builtin := true;
       params := obj_lit [
          ("rate", VInt 10);
          ("period_secs", VInt 1);
          ("burst", VInt 20);
          ("limit_by", vstr "client_ip");
          ("action_on_exceeded", vstr "throttle")] |};
    {| id := js "high_throughput"; label := js "High Throughput (1000 req/s, burst 2000)";
       summary := js "1000 req/s mỗi IP — Dành cho luồng dữ liệu tần suất cao";
       builtin := true;
       params := obj_lit [
          ("rate", VInt 1000);
          ("period_secs", VInt 1);
          ("burst", VInt 2000);
          ("limit_by", vstr "client_ip");
          ("action_on_exceeded", vstr "throttle")] |};
    {| id := js "burst_tolerant"; label := js "Burst Tolerant (250 req/s, burst 1000)";
       summary := js "250 req/s (Burst 1000) — Cho phép tải trang SPA nhiều request song song";
       builtin := true;
       params := obj_lit [
          ("rate", VInt 250);
          ("period_secs", VInt 1);
          ("burst", VInt 1000);
          ("limit_by", vstr "client_ip");
          ("action_on_exceeded", vstr "throttle")] |}];
  profileFields := [
    {| field_key := js "rate"; field_label := js "Rate (Requests / Period)"; field_type := FieldNumber;
       defaultValue := VInt 100; options := None |};
    {| field_key := js "period_secs"; field_label := js "Period (Seconds)"; field_type := FieldNumber;
       defaultValue := VInt 1; options := None |};
    {| field_key := js "burst"; field_label := js "Burst Capacity"; field_type := FieldNumber;
       defaultValue := VInt 200; options := None |};
    {| field_key := js "action_on_exceeded"; field_label := js "Action on Exceeded"; field_type := FieldSelect;
       defaultValue := vstr "throttle"; options := Some [(js "Throttle (429)", js "throttle"); (js "Block (403)", js "block"); (js "Audit Only", js "audit")] |}]
|}.

Definition meta_jwt_authentication : DataplaneExtensionMeta := {|
  key := js "jwt-authentication";
  meta_label := js "JWT Authentication (RS256 / JWKS)";
  shortLabel := js "JWT";
  category := Security;
  description := js "Xác thực chữ ký Bearer Token tại biên FFI";
  defaultProfiles := [
    {| id := js "default"; label := js "Default JWT Policy";
       summary := js "Xác thực Bearer JWT theo cấu hình Origin/Public Key mặc định";
       builtin := true;
       params := obj_lit [] |};
    {| id := js "strict"; label := js "Strict Token Verification";
       summary := js "Bắt buộc xác thực đầy đủ thời hạn và chữ ký RS256";
       builtin := true;
       params := obj_lit [("strict", VBool true)] |}];
  profileFields := [
    {| field_key := js "header_name"; field_label := js "Token Header Name"; field_type := FieldText;
       defaultValue := vstr "Authorization"; options := None |}]
|}.

Definition meta_ip_restriction : DataplaneExtensionMeta := {|
  key := js "ip-restriction";
  meta_label := js "IP Restriction (CIDR ACL)";
  shortLabel := js "IP-ACL";
  category := Security;
  description := js "Kiểm soát danh sách IP Whitelist / Blacklist bằng Radix Trie";
  defaultProfiles := [
    {| id := js "default"; label := js "Default IP ACL Policy";
       summary := js "Áp dụng danh sách Whitelist / Blacklist chung của Extension";
       builtin := true;
       params := obj_lit [] |};
    {| id := js "internal_only"; label := js "Internal / Private Networks Only";
       summary := js "Chỉ cho phép mạng nội bộ RFC1918 (10.0.0.0/8, 172.16.0.0/12, 192.168.0.0/16)";
       builtin := true;
       params := obj_lit [
          ("action", vstr "allow");
          ("networks", vstrs ["10.0.0.0/8"; "172.16.0.0/12"; "192.168.0.0/16"; "127.0.0.1/32"])] |}];
  profileFields := [
    {| field_key := js "action"; field_label := js "Action"; field_type := FieldSelect;
       defaultValue := vstr "allow"; options := Some [(js "Allow Networks", js "allow"); (js "Deny Networks", js "deny")] |}]
|}.

Definition meta_connection_limit : DataplaneExtensionMeta := {|
  key := js "connection-limit";
  meta_label := js "Connection Limit (Concurrent Guard)";
  shortLabel := js "ConnLimit";
  category := Traffic;
  description := js "Giới hạn số kết nối đồng thời trên mỗi Client IP";
  defaultProfiles := [
    {| id := js "standard"; label := js "Standard (100 Max Connections / IP)";
       summary := js "Tối đa 100 kết nối đồng thời mỗi IP";
       builtin := true;
       params := obj_lit [
          ("max_connections", VInt 100);
          ("limit_by", vstr "client_ip");
          ("action_on_exceeded", vstr "throttle")] |};
    {| id := js "strict"; label := js "Strict (20 Max Connections / IP)";
       summary := js "Tối đa 20 kết nối đồng thời mỗi IP — Chống giữ kết nối Slowloris";
       builtin := true;
       params := obj_lit [
          ("max_connections", VInt 20);
          ("limit_by", vstr "client_ip");
          ("action_on_exceeded", vstr "throttle")] |};
    {| id := js "high_concurrency"; label := js "High Concurrency (500 Max Connections / IP)";
       summary := js "Tối đa 500 kết nối đồng thời mỗi IP — Dành cho B2B / NAT Gateway";
       builtin := true;
       params := obj_lit [
          ("max_connections", VInt 500);
          ("limit_by", vstr "client_ip");
          ("action_on_exceeded", vstr "throttle")] |}];
  profileFields := [
    {| field_key := js "max_connections"; field_label := js "Max Concurrent Connections"; field_type := FieldNumber;
       defaultValue := VInt 100; options := None |}]
|}.

Definition meta_resource_limit : DataplaneExtensionMeta := {|
  key := js "resource-limit";
  meta_label := js "Resource Limit (Payload & Overload Guard)";
  shortLabel := js "ResLimit";
  category := Security;
  description := js "Bảo vệ kích thước body, header và chống quá tải tài nguyên";
  defaultProfiles := [
    {| id := js "standard"; label := js "Standard Resource Protection";
       summary := js "Giới hạn kích thước Payload và Header tiêu chuẩn";
       builtin := true;
       params := obj_lit [] |};
    {| id := js "strict"; label := js "Strict Small Payload Guard";
       summary := js "Giới hạn chặt kích thước Request cho các API JSON nhỏ";
       builtin := true;
       params := obj_lit [("strict", VBool true)] |}];
  profileFields := []
|}.

Definition meta_traffic_shaper : DataplaneExtensionMeta := {|
  key := js "traffic-shaper";
  meta_label := js "Traffic Shaper (QoS Bandwidth)";
  shortLabel := js "Shaper";
  category := Traffic;
  description := js "Điều tiết băng thông và độ ưu tiên luồng dữ liệu";
  defaultProfiles := [
    {| id := js "standard"; label := js "Standard QoS Shaping";
       summary := js "Điều tiết luồng dữ liệu theo cấu hình QoS mặc định";
       builtin := true;
       params := obj_lit [] |};
    {| id := js "priority"; label := js "High Priority Fast-Lane";
       summary := js "Ưu tiên băng thông cho luồng API quan trọng";
       builtin := true;
       params := obj_lit [("priority", vstr "high")] |}];
  profileFields := []
|}.

(** [DATAPLANE_EXTENSION_CATALOG] *)
Definition DATAPLANE_EXTENSION_CATALOG : list DataplaneExtensionMeta :=
  [meta_response_cache;
   meta_response_compression;
   meta_rate_limit;
   meta_jwt_authentication;
   meta_ip_restriction;
   meta_connection_limit;
   meta_resource_limit;
   meta_traffic_shaper].

Close Scope string_scope.

(** ** Keys *)

(** [normalizeExtensionKey(rawKey)] *)
Definition normalizeExtensionKey (rawKey : jsstring) : jsstring :=
  let clean := strip_prefix (js "builtin/") (trim rawKey) in
  if jeqb clean (js "engine-jwt-rs256") || jeqb clean (js "jwt") then js "jwt-authentication"
  else if jeqb clean (js "compression-gzip") then js "response-compression"
  else clean.

(** [findDataplaneExtensionMeta(rawKey)] *)
Definition findDataplaneExtensionMeta (rawKey : jsstring) : option DataplaneExtensionMeta :=
  let clean := normalizeExtensionKey rawKey in
  List.find (fun item => jeqb (key item) clean) DATAPLANE_EXTENSION_CATALOG.

(** ** Resolution *)

(** The argument [configJsonOrObj?: string | Record<string, any>]. *)
Inductive config_arg :=
| CfgMissing
| CfgText (s : jsstring)
| CfgObj (o : obj).

Definition default_profile : ExtensionProfileOption := {|
  id := js "default";
  label := js "Default Profile";
  summary := js "Sử dụng cấu hình mặc định của Extension";
  builtin := true;
  params := []
|}.

Definition builtin_profiles (rawKey : jsstring) : list ExtensionProfileOption :=
  match findDataplaneExtensionMeta rawKey with
  | Some meta => defaultProfiles meta
  | None => [default_profile]
  end.

(** The variable [parsed]; [VNull] when there is no configuration or the
    text does not parse. *)
Definition parsed_config (c : config_arg) : val :=
  match c with
  | CfgText s => if negb (jeqb (trim s) []) then default VNull (parse s) else VNull
  | CfgObj o => VObj o
  | CfgMissing => VNull
  end.

(** A value of [typeof "object"] other than [null], as its own properties.
    An array has no named member that the code below reads. *)
Definition as_record (v : val) : option obj :=
  match v with VObj o => Some o | VArr _ => entries_of v | _ => None end.

Definition is_undef (v : val) : bool := match v with VUndef => true | _ => false end.

Definition custom_label (profId : jsstring) (valObj : obj) : jsstring :=
  match prop (js "label") valObj with
  | VStr s => if negb (jeqb (trim s) []) then trim s else profId ++ js " (Custom)"
  | _ => profId ++ js " (Custom)"
  end.

Definition summary_parts (valObj : obj) : list jsstring :=
  let part k (f : val -> jsstring) :=
    let v := prop k valObj in if is_undef v then [] else [f v] in
  let base :=
    part (js "ttl_secs") (fun v => js "TTL " ++ to_string v ++ js "s")
    ++ part (js "rate") (fun v => to_string v ++ js " req/"
                       ++ to_string (val_nullish (prop (js "period_secs") valObj) (VInt 1)) ++ js "s")
    ++ part (js "burst") (fun v => js "burst " ++ to_string v)
    ++ part (js "min_length") (fun v => js "min " ++ to_string v ++ js "B")
    ++ part (js "max_connections") (fun v => js "max " ++ to_string v ++ js " conn") in
  match prop (js "summary") valObj with
  | VStr (c :: s) => (c :: s) :: base
  | _ => base
  end.

Definition custom_option (profId : jsstring) (valObj : obj) : ExtensionProfileOption := {|
  id := profId;
  label := custom_label profId valObj;
  summary := match summary_parts valObj with
             | [] => js "Custom Extension Profile"
             | parts => join (js " · ") parts
             end;
  builtin := false;
  params := valObj
|}.

(** [merged[existingIdx] = option] when the id is present, else a push. *)
Fixpoint merge_option (opt : ExtensionProfileOption) (l : list ExtensionProfileOption) :
    list ExtensionProfileOption :=
  match l with
  | [] => [opt]
  | p :: l' => if jeqb (id p) (id opt) then opt :: l' else p :: merge_option opt l'
  end.

Definition merge_entry (merged : list ExtensionProfileOption) (kv : jsstring * val) :
    list ExtensionProfileOption :=
  if jeqb (trim kv.1) [] then merged else
  match as_record kv.2 with
  | None => merged
  | Some valObj => merge_option (custom_option kv.1 valObj) merged
  end.

(** [resolveExtensionProfiles(rawKey, configJsonOrObj)] *)
Definition resolveExtensionProfiles (rawKey : jsstring) (c : config_arg) :
    list ExtensionProfileOption :=
  let builtins := builtin_profiles rawKey in
  match parsed_config c with
  | VObj o =>
      match entries_of (prop (js "profiles") o) with
      | None => builtins
      | Some profiles => fold_left merge_entry profiles builtins
      end
  | _ => builtins
  end.

(** ** Looking profiles up *)

(** [profiles.find((p) => p.id === pid)] *)
Definition find_profile (pid : jsstring) (l : list ExtensionProfileOption) :
    option ExtensionProfileOption :=
  List.find (fun p => jeqb (id p) pid) l.

Lemma find_merge_option pid opt l :
  find_profile pid (merge_option opt l) =
  if jeqb (id opt) pid then Some opt else find_profile pid l.
Proof.
  unfold find_profile. induction l as [|p l IH]; [done|].
  cbn [merge_option]. destruct (jeqb (id p) (id opt)) eqn:E; cbn [List.find].
  - apply jeqb_true in E. rewrite E. by destruct (jeqb (id opt) pid).
  - rewrite IH. destruct (jeqb (id p) pid) eqn:E1, (jeqb (id opt) pid) eqn:E2; try done.
    apply jeqb_true in E1, E2. apply jeqb_false in E. congruence.
Qed.

Lemma merge_option_ids opt l :
  map id (merge_option opt l) = map id l \/
  (id opt ∉ map id l /\ map id (merge_option opt l) = (map id l ++ [id opt])%list).
Proof.
  induction l as [|p l IH]; simpl; [right; by split; [apply not_elem_of_nil|]|].
  destruct (jeqb (id p) (id opt)) eqn:E.
  - apply jeqb_true in E. left. simpl. by rewrite E.
  - apply jeqb_false in E. destruct IH as [IH|[Hn IH]]; simpl; rewrite IH; [by left|].
    right. split; [|done]. apply not_elem_of_cons. split; [congruence|done].
Qed.

Definition ids_extend (l l' : list ExtensionProfileOption) : Prop :=
  map id l `prefix_of` map id l' /\ (NoDup (map id l) -> NoDup (map id l')).

Lemma merge_option_extend opt l : ids_extend l (merge_option opt l).
Proof.
  destruct (merge_option_ids opt l) as [H|[Hn H]]; unfold ids_extend; rewrite H; [done|].
  split; [by eexists|]. intros Hd. apply NoDup_app. repeat split; [done| |apply NoDup_singleton].
  set_solver.
Qed.

Lemma merge_entries_extend ps l : ids_extend l (fold_left merge_entry ps l).
Proof.
  revert l; induction ps as [|kv ps IH]; intros l; simpl; [done|].
  assert (ids_extend l (merge_entry l kv)) as [H1 H2].
  { unfold merge_entry. case_if; [done|]. destruct (as_record kv.2); [|done].
    apply merge_option_extend. }
  destruct (IH (merge_entry l kv)) as [H3 H4]. split; [by etrans|auto].
Qed.

(** The custom profile an entry of [config.profiles] stands for. *)
Definition custom_of (profiles : obj) (pid : jsstring) : option ExtensionProfileOption :=
  if jeqb (trim pid) [] then None
  else custom_option pid <$> (obj_get pid profiles ≫= as_record).

Lemma find_merge_entry pid l k v :
  find_profile pid (merge_entry l (k, v)) =
  if jeqb k pid
  then match custom_of [(k, v)] k with Some p => Some p | None => find_profile pid l end
  else find_profile pid l.
Proof.
  unfold merge_entry, custom_of. simpl. rewrite jeqb_refl. simpl.
  destruct (jeqb (trim k) []); [by destruct (jeqb k pid)|].
  destruct (as_record v); simpl; [|by destruct (jeqb k pid)].
  by rewrite find_merge_option.
Qed.

Lemma find_merge_entries pid ps l :
  obj_wf ps ->
  find_profile pid (fold_left merge_entry ps l) =
  match custom_of ps pid with Some p => Some p | None => find_profile pid l end.
Proof.
  intros Hw; revert l. unfold obj_wf in Hw.
  induction Hw as [|[k v] ps Hw IH Hk]; intros l; cbn [fold_left].
  { unfold custom_of. simpl. by destruct (jeqb _ []). }
  rewrite IH, find_merge_entry. unfold custom_of. simpl. rewrite jeqb_refl.
  destruct (jeqb k pid) eqn:E.
  - apply jeqb_true in E as <-. rewrite jeqb_refl.
    destruct (obj_get k ps) as [v'|] eqn:Eg; [|by destruct (jeqb (trim k) [])].
    apply obj_get_in in Eg. rewrite Forall_forall in Hk.
    by destruct (Hk _ Eg) as [Hne _].
  - apply jeqb_false in E. rewrite (proj2 (jeqb_false pid k)) by congruence. done.
Qed.

(** ** Theorems *)

(** Key normalisation reaches every catalogue entry, under its own key and
    under the [builtin/] form of the control plane, and the three legacy
    names of the source reach the extension that replaced them. *)
Theorem catalogue_reachable :
  Forall (fun m => findDataplaneExtensionMeta (key m) = Some m /\
                   findDataplaneExtensionMeta (js "builtin/" ++ key m) = Some m)
    DATAPLANE_EXTENSION_CATALOG /\
  Forall (fun k => findDataplaneExtensionMeta k = Some meta_jwt_authentication)
    [js "jwt"; js "engine-jwt-rs256"; js "builtin/jwt"; js " builtin/engine-jwt-rs256 "] /\
  findDataplaneExtensionMeta (js "compression-gzip") = Some meta_response_compression.
Proof. split; [|split]; [repeat constructor; vm_compute; reflexivity..|reflexivity]. Qed.

(** C36: resolving the profiles of an extension implements an override map:
    a profile id gives the custom profile when [config.profiles] holds an
    object under that id (and the id is not blank), and otherwise the
    built-in profile of that id. *)
Theorem resolve_profiles_lookup (rawKey pid : jsstring) (o profiles : obj) :
  prop (js "profiles") o = VObj profiles -> obj_wf profiles ->
  find_profile pid (resolveExtensionProfiles rawKey (CfgObj o)) =
  match custom_of profiles pid with
  | Some p => Some p
  | None => find_profile pid (builtin_profiles rawKey)
  end.
Proof.
  intros Hp Hw. unfold resolveExtensionProfiles, parsed_config. rewrite Hp. simpl.
  by apply find_merge_entries.
Qed.

(** Whatever the configuration is (absent, malformed text, wrong types),
    the resolved list keeps the built-in ids first and in order, and never
    contains an id twice. *)
Theorem resolve_profiles_ids (rawKey : jsstring) (c : config_arg) :
  map id (builtin_profiles rawKey) `prefix_of` map id (resolveExtensionProfiles rawKey c) /\
  NoDup (map id (resolveExtensionProfiles rawKey c)).
Proof.
  assert (NoDup (map id (builtin_profiles rawKey))) as Hb.
  { unfold builtin_profiles. destruct (findDataplaneExtensionMeta rawKey) as [m|] eqn:E;
      [|apply NoDup_singleton].
    apply find_some in E as [Hin _].
    assert (Forall (fun m => NoDup (map id (defaultProfiles m))) DATAPLANE_EXTENSION_CATALOG) as HF.
    { repeat constructor; by apply (bool_decide_unpack _); vm_compute. }
    rewrite Forall_forall in HF. by apply HF, list_elem_of_In. }
  unfold resolveExtensionProfiles.
  destruct (parsed_config c) as [| | | | | |o]; try done.
  destruct (entries_of _) as [ps|]; [|done].
  destruct (merge_entries_extend ps (builtin_profiles rawKey)). auto.
Qed.

Definition custom_profiles_example : obj :=
  obj_lit [("strict"%string, vobj [("rate"%string, VInt 5); ("label"%string, vstr "Tight")]);
           ("  "%string, vobj []); ("broken"%string, vstr "x")].

Lemma resolve_profiles_lookup_witness :
  prop (js "profiles") [(js "profiles", VObj custom_profiles_example)]
    = VObj custom_profiles_example /\
  option_map label (find_profile (js "strict")
    (resolveExtensionProfiles (js "rate-limit")
       (CfgObj [(js "profiles", VObj custom_profiles_example)]))) = Some (js "Tight").
Proof.
  split; [reflexivity|].
  rewrite (resolve_profiles_lookup _ _ _ custom_profiles_example).
  - vm_compute. reflexivity.
  - reflexivity.
  - apply obj_wfb_sound. vm_compute. reflexivity.
Defined.
