(* ===== verification/RouteExtensions.v ===== *)
(** * Extension profiles on a route

    [pages/routes/sections/RouteExtensionSwitches.tsx], the profile handlers
    of [RouteVisualCanvas.tsx] and the badges of [RouteTable.tsx]: a route
    stores in [plugins_json], as JSON text, which profile each extension
    uses. The state is that text; every handler parses it, changes the
    object and prints it again. *)

From Stdlib Require Import ZArith NArith Lia String.
From S2P Require Import Prelude JsString JsValue Json JsonFacts Profiles.

(** ** Reading *)

Definition as_plain_object (v : option val) : obj :=
  match v with Some (VObj o) => o | _ => [] end.

(** [parsePluginsObj(raw)] of the switches: [JSON.parse(raw || '{}')]. *)
Definition parsePluginsObj (raw : jsstring) : obj :=
  as_plain_object (parse (str_or raw (js "{}"))).

(** [parsePluginsObj(raw)] of the canvas. *)
Definition parsePluginsObj_canvas (raw : jsstring) : obj :=
  if jeqb (trim raw) [] then [] else as_plain_object (parse raw).

Definition is_off_word (s : jsstring) : bool :=
  jeqb s (js "off") || jeqb s (js "disabled") || jeqb s (js "none").

(** [getRouteExtensionSelectedProfile(obj, extKey, defaultProfileId)] *)
Definition getRouteExtensionSelectedProfile (o : obj) (extKey defaultProfileId : jsstring) : jsstring :=
  match prop extKey o with
  | VUndef | VNull | VBool false => js "off"
  | VBool true => defaultProfileId
  | VStr s =>
      let clean := trim s in
      if jeqb clean [] || is_off_word clean then js "off" else clean
  | VObj e =>
      match prop (js "enabled") e with
      | VBool false => js "off"
      | _ =>
          match prop (js "profile") e with
          | VStr p =>
              if jeqb (trim p) [] then defaultProfileId
              else if is_off_word (trim p) then js "off" else trim p
          | _ => defaultProfileId
          end
      end
  | VArr _ | VNum _ => js "off"
  end.

(** ** The live configurations: [liveConfigsByExt] *)

Record listed_extension := { le_id : jsstring; le_name : jsstring; le_config_json : jsstring }.

(** The loop of the [useEffect] that fills the map. *)
Definition live_configs (exts : list listed_extension) : list (jsstring * jsstring) :=
  fold_left
    (fun m ext =>
       let cleanKey := normalizeExtensionKey (str_or (le_id ext) (le_name ext)) in
       if negb (jeqb cleanKey []) && negb (jeqb (le_config_json ext) [])
       then obj_put cleanKey (le_config_json ext) m else m)
    exts [].

(** The canvas fills its map with the same loop. *)
Definition canvas_live_configs : list listed_extension -> list (jsstring * jsstring) := live_configs.

Definition live_config (live : list (jsstring * jsstring)) (extKey : jsstring) : config_arg :=
  match obj_get extKey live with Some s => CfgText s | None => CfgMissing end.

(** ** Writing *)

Definition off_entry : obj := [(js "enabled", VBool false); (js "profile", vstr "off")].

(** The loop over [Object.entries(chosen.params)]. *)
Definition copy_params (entry ps : obj) : obj :=
  fold_left (fun e kv => if jeqb kv.1 (js "label") || jeqb kv.1 (js "summary") then e
                         else obj_put kv.1 kv.2 e) ps entry.

Definition profile_entry (live : list (jsstring * jsstring)) (extKey profileId : jsstring) : obj :=
  let entry := [(js "enabled", VBool true); (js "profile", VStr profileId)] in
  match find_profile profileId (resolveExtensionProfiles extKey (live_config live extKey)) with
  | Some chosen => copy_params entry (params chosen)
  | None => entry
  end.

(** The object both handlers print: [{ ...obj, _mode: 'explicit' }] without
    [_profile], with the entry of [extKey] replaced. *)
Definition select_obj (live : list (jsstring * jsstring)) (o : obj) (extKey profileId : jsstring) : obj :=
  let next := obj_del (js "_profile") (obj_put (js "_mode") (vstr "explicit") o) in
  obj_put extKey
    (VObj (if jeqb profileId (js "off") then off_entry else profile_entry live extKey profileId)) next.

(** [handleSelectProfile]: the text given to [onChange]. *)
Definition handleSelectProfile (live : list (jsstring * jsstring)) (pluginsJson extKey profileId : jsstring) : jsstring :=
  stringify_obj2 (select_obj live (parsePluginsObj pluginsJson) extKey profileId).

(** [assignProfileToRoute]: the text given to [onUpdateRoutePlugins]. *)
Definition assignProfileToRoute (live : list (jsstring * jsstring)) (pluginsJson extKey profileId : jsstring) : jsstring :=
  stringify_obj (select_obj live (parsePluginsObj_canvas pluginsJson) extKey profileId).

Definition passthrough_obj : obj :=
  [(js "_mode", vstr "explicit"); (js "_profile", vstr "passthrough")].

Definition handleSetAllOff : jsstring := stringify_obj2 passthrough_obj.
Definition setRoutePassthrough : jsstring := stringify_obj passthrough_obj.
Definition handleResetInherit : jsstring := js "{}".

(** [activeCount] *)
Definition first_profile (m : DataplaneExtensionMeta) : jsstring :=
  match defaultProfiles m with p :: _ => str_or (id p) (js "default") | [] => js "default" end.

Definition activeCount (pluginsJson : jsstring) : nat :=
  length (List.filter
    (fun m => negb (jeqb (getRouteExtensionSelectedProfile (parsePluginsObj pluginsJson) (key m) (first_profile m))
                      (js "off")))
    DATAPLANE_EXTENSION_CATALOG).

(** ** The drag and drop payload of the canvas *)

Definition handleDragStart (extKey profileId : jsstring) : jsstring :=
  stringify_obj [(js "extKey", VStr extKey); (js "profileId", VStr profileId)].

(** What [handleDropOnRoute] extracts from the payload: the pair it assigns,
    or nothing. The destructuring of [null] throws and is caught. *)
Definition handleDropOnRoute (raw : jsstring) : option (val * val) :=
  if jeqb raw [] then None else
  match parse raw with
  | None | Some VNull => None
  | Some v =>
      let e := opt_prop (js "extKey") v in
      let p := opt_prop (js "profileId") v in
      if truthy e && truthy p then Some (e, p) else None
  end.

(** ** The badges of the route table *)

Inductive badges :=
| NoBadges
| InheritGlobal
| Passthrough
| Active (l : list (jsstring * jsstring)).

Definition active_badges (o : obj) : list (jsstring * jsstring) :=
  flat_map (fun m =>
    let profId := getRouteExtensionSelectedProfile o (key m) (js "default") in
    if jeqb profId (js "off") then [] else [(key m, shortLabel m ++ js ": " ++ profId)])
    DATAPLANE_EXTENSION_CATALOG.

Definition is_passthrough (v : val) : bool :=
  match v with VStr s => jeqb s (js "passthrough") || jeqb s (js "raw") | _ => false end.

(** [renderRouteExtensionBadges(pluginsJson)] *)
Definition renderRouteExtensionBadges (pluginsJson : jsstring) : badges :=
  if jeqb (trim pluginsJson) [] || jeqb (trim pluginsJson) (js "{}") then InheritGlobal else
  match parse pluginsJson with
  | Some (VObj o) =>
      if is_passthrough (prop (js "_profile") o) then Passthrough
      else match active_badges o with [] => Passthrough | l => Active l end
  | _ => NoBadges
  end.

(** ** Everything printed is JSON *)

Definition params_ok (p : ExtensionProfileOption) : Prop := Forall member_ok (params p).

Lemma catalogue_params_json :
  forallb (fun m => forallb (fun p => json_okb (VObj (params p))) (defaultProfiles m))
    DATAPLANE_EXTENSION_CATALOG = true.
Proof. vm_compute. reflexivity. Qed.

Lemma builtin_params_ok rawKey : Forall params_ok (builtin_profiles rawKey).
Proof.
  unfold builtin_profiles. destruct (findDataplaneExtensionMeta rawKey) as [m|] eqn:E.
  - apply find_some in E as [Hin _]. pose proof catalogue_params_json as HF.
    rewrite forallb_forall in HF. specialize (HF m Hin). rewrite forallb_forall in HF.
    apply Forall_forall. intros p Hp%list_elem_of_In.
    by apply HF, json_okb_sound, json_ok_obj in Hp as [_ ?].
  - apply Forall_singleton. constructor.
Qed.

Lemma merge_option_forall P opt l : P opt -> Forall P l -> Forall P (merge_option opt l).
Proof.
  intros Ho. induction 1 as [|p l Hp Hl IH]; simpl; [by repeat constructor|].
  destruct (jeqb _ _); by constructor.
Qed.

Lemma merge_entries_params ps l :
  Forall member_ok ps -> Forall params_ok l -> Forall params_ok (fold_left merge_entry ps l).
Proof.
  intros Hps; revert l; induction Hps as [|[k v] ps [_ Hv] _ IH]; intros l Hl; simpl; [done|].
  apply IH. unfold merge_entry. case_if; [done|]. simpl.
  destruct (as_record v) as [o|] eqn:E; [|done]. apply merge_option_forall; [|done].
  unfold params_ok; simpl. destruct v; try done; by eapply entries_of_members.
Qed.

(** The texts of the live configurations come from JSON responses. *)
Definition live_ok (live : list (jsstring * jsstring)) : Prop := Forall (fun kv => units_ok kv.2) live.

Lemma resolve_params_ok extKey live :
  live_ok live -> Forall params_ok (resolveExtensionProfiles extKey (live_config live extKey)).
Proof.
  intros Hl. unfold resolveExtensionProfiles, live_config.
  destruct (obj_get extKey live) as [s|] eqn:E; [|apply builtin_params_ok].
  apply obj_get_in in E. unfold live_ok in Hl. rewrite Forall_forall in Hl. specialize (Hl _ E).
  unfold parsed_config. destruct (negb _); [|apply builtin_params_ok].
  destruct (parse s) as [v|] eqn:Ep; simpl; [|apply builtin_params_ok].
  apply parse_ok in Ep; [|done]. destruct v; try apply builtin_params_ok.
  destruct (entries_of _) as [ps|] eqn:Ee; [|apply builtin_params_ok].
  apply merge_entries_params; [|apply builtin_params_ok].
  destruct (prop_json_ok (js "profiles") o Ep) as [Hu|Hok]; [by rewrite Hu in Ee|].
  by eapply entries_of_members.
Qed.

Lemma copy_params_json_ok ps e :
  Forall member_ok ps -> json_ok (VObj e) -> json_ok (VObj (copy_params e ps)).
Proof.
  intros Hps; revert e; induction Hps as [|[k v] ps [Hk Hv] _ IH]; intros e He; [done|].
  unfold copy_params in *. cbn [fold_left fst snd]. apply IH.
  case_if; [done|]. by apply obj_put_json_ok.
Qed.

Lemma profile_entry_json_ok live extKey pid :
  live_ok live -> units_ok pid -> json_ok (VObj (profile_entry live extKey pid)).
Proof.
  intros Hl Hp. unfold profile_entry.
  assert (json_ok (VObj [(js "enabled", VBool true); (js "profile", VStr pid)])) as Hb.
  { apply json_ok_obj. split; [apply obj_wfb_sound; vm_compute; reflexivity|].
    repeat constructor; try done; by apply units_okb_sound. }
  destruct (find_profile _ _) as [p|] eqn:E; [|done].
  apply find_some in E as [Hin _]. apply copy_params_json_ok; [|done].
  pose proof (resolve_params_ok extKey live Hl) as HF. rewrite Forall_forall in HF.
  by apply HF, list_elem_of_In.
Qed.

Lemma select_obj_json_ok live o extKey pid :
  live_ok live -> units_ok extKey -> units_ok pid -> json_ok (VObj o) ->
  json_ok (VObj (select_obj live o extKey pid)).
Proof.
  intros Hl He Hp Ho. apply obj_put_json_ok; [done| |].
  - destruct (jeqb pid (js "off")); [json_ok_compute|by apply profile_entry_json_ok].
  - apply obj_del_json_ok, obj_put_json_ok; [by apply units_okb_sound|json_ok_compute|done].
Qed.

Lemma as_plain_object_ok s : units_ok s -> json_ok (VObj (as_plain_object (parse s))).
Proof.
  intros Hs. destruct (parse s) as [[]|] eqn:E; simpl; try (split; [constructor|done]).
  by apply (parse_ok s (VObj o)).
Qed.

Lemma parsePluginsObj_ok raw : units_ok raw -> json_ok (VObj (parsePluginsObj raw)).
Proof. intros H. apply as_plain_object_ok. destruct raw; [by apply units_okb_sound|done]. Qed.

Lemma parsePluginsObj_canvas_ok raw : units_ok raw -> json_ok (VObj (parsePluginsObj_canvas raw)).
Proof.
  intros H. unfold parsePluginsObj_canvas. case_if; [split; [constructor|done]|by apply as_plain_object_ok].
Qed.

(** ** Reading back what was written *)

Lemma parsePluginsObj_printed gap o :
  ws_only gap -> json_ok (VObj o) -> parsePluginsObj (ser gap [] (VObj o)) = o.
Proof.
  intros Hg Ho. unfold parsePluginsObj.
  destruct (ser_start gap [] (VObj o) Ho) as (c & t & Hs & _). rewrite Hs. cbn [str_or].
  rewrite <- Hs. by rewrite parse_ser.
Qed.

Lemma parsePluginsObj_select live raw extKey pid :
  live_ok live -> units_ok raw -> units_ok extKey -> units_ok pid ->
  parsePluginsObj (handleSelectProfile live raw extKey pid)
  = select_obj live (parsePluginsObj raw) extKey pid.
Proof.
  intros. apply parsePluginsObj_printed; [by repeat constructor|].
  by apply select_obj_json_ok, parsePluginsObj_ok.
Qed.

Lemma parsePluginsObj_assign live raw extKey pid :
  live_ok live -> units_ok raw -> units_ok extKey -> units_ok pid ->
  parsePluginsObj (assignProfileToRoute live raw extKey pid)
  = select_obj live (parsePluginsObj_canvas raw) extKey pid.
Proof.
  intros. apply parsePluginsObj_printed; [constructor|].
  by apply select_obj_json_ok, parsePluginsObj_canvas_ok.
Qed.

(** A profile id that the reader does not take for a way to say "off". *)
Definition plain_profile_id (pid : jsstring) : Prop :=
  trimmed pid /\ pid <> [] /\ is_off_word pid = false.

(** The profile's parameters do not redefine the entry's own two fields. *)
Definition params_neutral (p : ExtensionProfileOption) : Prop :=
  js "enabled" ∉ (params p).*1 /\ js "profile" ∉ (params p).*1.

Lemma copy_params_prop k ps e : k ∉ ps.*1 -> prop k (copy_params e ps) = prop k e.
Proof.
  revert e; induction ps as [|[k' v'] ps IH]; intros e Hk; [done|].
  unfold copy_params in *. cbn [fold_left fst snd]. rewrite IH by set_solver.
  destruct (jeqb k' (js "label") || jeqb k' (js "summary")); [done|].
  apply prop_put_ne. set_solver.
Qed.

Lemma profile_entry_fields live extKey pid :
  (forall p, find_profile pid (resolveExtensionProfiles extKey (live_config live extKey)) = Some p ->
             params_neutral p) ->
  prop (js "enabled") (profile_entry live extKey pid) = VBool true /\
  prop (js "profile") (profile_entry live extKey pid) = VStr pid.
Proof.
  intros Hn. unfold profile_entry. destruct (find_profile _ _) as [p|]; [|done].
  destruct (Hn p eq_refl) as [H1 H2]. by rewrite !copy_params_prop.
Qed.

Lemma select_obj_other live o extKey pid k d :
  k <> extKey -> k <> js "_mode" -> k <> js "_profile" ->
  getRouteExtensionSelectedProfile (select_obj live o extKey pid) k d
  = getRouteExtensionSelectedProfile o k d.
Proof.
  intros H1 H2 H3. unfold getRouteExtensionSelectedProfile, select_obj.
  by rewrite prop_put_ne, prop_del_ne, prop_put_ne by congruence.
Qed.

Lemma select_obj_selected live o extKey pid d :
  plain_profile_id pid ->
  (forall p, find_profile pid (resolveExtensionProfiles extKey (live_config live extKey)) = Some p ->
             params_neutral p) ->
  getRouteExtensionSelectedProfile (select_obj live o extKey pid) extKey d = pid.
Proof.
  intros (Ht & Hne & Hoff) Hn. unfold getRouteExtensionSelectedProfile, select_obj.
  rewrite prop_put_eq. unfold is_off_word in Hoff.
  apply orb_false_iff in Hoff as [[H1 H2]%orb_false_iff H3]. rewrite H1.
  destruct (profile_entry_fields live extKey pid Hn) as [-> ->].
  rewrite trim_id by done. rewrite (proj2 (jeqb_false _ _) Hne).
  unfold is_off_word. by rewrite H1, H2, H3.
Qed.

(** ** Theorems *)

(** C9: choosing a profile for an extension on a route, in the switches or on
    the canvas, writes a [plugins_json] text from which the console reads
    back exactly that profile, whatever text the route had before. The
    profile id must be trimmed, not empty and not a way to say "off", and
    its parameters must not define [enabled] or [profile] themselves
    ([select_profile_shadowed] is a profile that does). *)
Theorem select_profile_roundtrip (live : list (jsstring * jsstring)) (raw extKey pid d : jsstring) :
  live_ok live -> units_ok raw -> units_ok extKey -> units_ok pid ->
  plain_profile_id pid ->
  (forall p, find_profile pid (resolveExtensionProfiles extKey (live_config live extKey)) = Some p ->
             params_neutral p) ->
  getRouteExtensionSelectedProfile (parsePluginsObj (handleSelectProfile live raw extKey pid)) extKey d = pid /\
  getRouteExtensionSelectedProfile (parsePluginsObj (assignProfileToRoute live raw extKey pid)) extKey d = pid.
Proof.
  intros Hl Hr He Hp Hplain Hn.
  rewrite parsePluginsObj_select, parsePluginsObj_assign by done.
  split; by apply select_obj_selected.
Qed.

(** Choosing a profile for one extension does not change what any other
    extension of the route reads. *)
Theorem select_profile_frame (live : list (jsstring * jsstring)) (raw extKey pid k d : jsstring) :
  live_ok live -> units_ok raw -> units_ok extKey -> units_ok pid ->
  k <> extKey -> k <> js "_mode" -> k <> js "_profile" ->
  getRouteExtensionSelectedProfile (parsePluginsObj (handleSelectProfile live raw extKey pid)) k d
  = getRouteExtensionSelectedProfile (parsePluginsObj raw) k d.
Proof. intros. rewrite parsePluginsObj_select by done. by apply select_obj_other. Qed.

(** "Off", "all off" and "passthrough" read back as off: after choosing
    [off] the extension reads [off]; after either passthrough button no
    extension is active and the table shows the passthrough badge. *)
Theorem off_reads_off (live : list (jsstring * jsstring)) (raw extKey d : jsstring) :
  live_ok live -> units_ok raw -> units_ok extKey ->
  getRouteExtensionSelectedProfile (parsePluginsObj (handleSelectProfile live raw extKey (js "off"))) extKey d
    = js "off" /\
  activeCount handleSetAllOff = 0 /\ activeCount setRoutePassthrough = 0 /\
  renderRouteExtensionBadges handleSetAllOff = Passthrough.
Proof.
  intros Hl Hr He. split; [|vm_compute; done].
  rewrite parsePluginsObj_select by (done || by apply units_okb_sound).
  unfold getRouteExtensionSelectedProfile, select_obj. by rewrite prop_put_eq.
Qed.

(** The drag and drop payload survives the transfer: a drop assigns the
    extension and profile that the drag started with, unless one is empty. *)
Theorem drag_drop_roundtrip (extKey pid : jsstring) :
  units_ok extKey -> units_ok pid ->
  handleDropOnRoute (handleDragStart extKey pid) =
  if jeqb extKey [] || jeqb pid [] then None else Some (VStr extKey, VStr pid).
Proof.
  intros He Hp. unfold handleDropOnRoute, handleDragStart.
  assert (json_ok (VObj [(js "extKey", VStr extKey); (js "profileId", VStr pid)])) as Hok.
  { apply json_ok_obj. split; [apply obj_wfb_sound; vm_compute; reflexivity|].
    repeat constructor; try done; by apply units_okb_sound. }
  rewrite parse_stringify_obj by done. simpl.
  by destruct (jeqb extKey []), (jeqb pid []).
Qed.

(** ** Instances *)

Lemma strict_params_neutral p :
  find_profile (js "strict") (resolveExtensionProfiles (js "rate-limit") (live_config [] (js "rate-limit"))) = Some p ->
  params_neutral p.
Proof.
  intros H. vm_compute in H. injection H as <-.
  split; apply (bool_decide_unpack _); vm_compute; reflexivity.
Qed.

Lemma select_profile_roundtrip_witness :
  getRouteExtensionSelectedProfile
    (parsePluginsObj (handleSelectProfile [] (js "{}") (js "rate-limit") (js "strict")))
    (js "rate-limit") (js "standard") = js "strict" /\
  getRouteExtensionSelectedProfile
    (parsePluginsObj (assignProfileToRoute [] (js "{}") (js "rate-limit") (js "strict")))
    (js "rate-limit") (js "standard") = js "strict".
Proof.
  apply (select_profile_roundtrip [] (js "{}") (js "rate-limit") (js "strict") (js "standard")).
  - constructor.
  - apply units_okb_sound; reflexivity.
  - apply units_okb_sound; reflexivity.
  - apply units_okb_sound; reflexivity.
  - split; [split; intros c [= <-]; reflexivity|split; [discriminate|reflexivity]].
  - apply strict_params_neutral.
Defined.

Lemma select_profile_frame_witness :
  getRouteExtensionSelectedProfile
    (parsePluginsObj (handleSelectProfile [] (js "{}") (js "rate-limit") (js "strict")))
    (js "response-cache") (js "standard") = js "off".
Proof.
  rewrite (select_profile_frame [] (js "{}") (js "rate-limit") (js "strict") (js "response-cache") (js "standard")).
  - reflexivity.
  - constructor.
  - apply units_okb_sound; reflexivity.
  - apply units_okb_sound; reflexivity.
  - apply units_okb_sound; reflexivity.
  - discriminate.
  - discriminate.
  - discriminate.
Defined.

Lemma off_reads_off_witness :
  getRouteExtensionSelectedProfile
    (parsePluginsObj (handleSelectProfile [] (js "not json") (js "rate-limit") (js "off")))
    (js "rate-limit") (js "standard") = js "off".
Proof.
  apply (off_reads_off [] (js "not json") (js "rate-limit") (js "standard")).
  - constructor.
  - apply units_okb_sound; reflexivity.
  - apply units_okb_sound; reflexivity.
Defined.

Lemma drag_drop_roundtrip_witness :
  handleDropOnRoute (handleDragStart (js "rate-limit") (js "strict"))
  = Some (VStr (js "rate-limit"), VStr (js "strict")).
Proof.
  rewrite drag_drop_roundtrip; [reflexivity|apply units_okb_sound; reflexivity..].
Defined.

(** The parameters of a custom profile are copied after the entry's own
    fields: one that carries [enabled: false] is assigned and reads as off. *)
Definition shadowing_live : list (jsstring * jsstring) :=
  [(js "rate-limit",
    stringify_obj [(js "profiles", VObj [(js "quiet", VObj [(js "enabled", VBool false); (js "rate", VInt 5)])])])].

Lemma select_profile_shadowed :
  getRouteExtensionSelectedProfile
    (parsePluginsObj (handleSelectProfile shadowing_live (js "{}") (js "rate-limit") (js "quiet")))
    (js "rate-limit") (js "standard") = js "off".
Proof. vm_compute. reflexivity. Qed.
