(* ===== verification/RouteForms.v ===== *)
(** * The route forms

    [pages/routes/create/page.tsx], [pages/routes/edit/page.tsx] and
    [pages/routes/sections/RouteModal.tsx] with [pages/routes/types.ts]: the
    form state, loading the upstream choices and the route under edit, the
    JSON editor of the extension assignments, and submission. *)

From Stdlib Require Import ZArith NArith Lia String.
From S2P Require Import Prelude JsString JsValue Json JsonFacts Urls Fetcher Api.
Import RoutesApi.
Local Open Scope string_scope.
Local Open Scope list_scope.

(** ** State *)

(** The inputs write [parseInt(...) || 0], so the priority is an integer. *)
Record RouteFormState := {
  r_name : jsstring;
  r_host : jsstring;
  r_path : jsstring;
  r_upstream_name : jsstring;
  r_enabled : bool;
  r_strip_path : bool;
  r_websocket : bool;
  r_priority : Z;
  r_plugins_json : jsstring;
  r_description : jsstring
}.

Definition DEFAULT_ROUTE_FORM : RouteFormState :=
  {| r_name := []; r_host := []; r_path := js "/"; r_upstream_name := []; r_enabled := true;
     r_strip_path := false; r_websocket := false; r_priority := 10; r_plugins_json := js "{}";
     r_description := [] |}.

Record RouteForm := {
  formData : RouteFormState;
  originalRoute : option RouteItem;
  upstreams : list jsstring;
  loading : bool;
  submitting : bool;
  error : option jsstring;
  showAdvanced : bool;
  jsonError : option jsstring
}.

Definition create_initial : RouteForm :=
  {| formData := DEFAULT_ROUTE_FORM; originalRoute := None; upstreams := []; loading := true;
     submitting := false; error := None; showAdvanced := false; jsonError := None |}.
Definition edit_initial : RouteForm := create_initial.

Definition set_formData (s : RouteForm) (f : RouteFormState) : RouteForm :=
  {| formData := f; originalRoute := originalRoute s; upstreams := upstreams s; loading := loading s;
     submitting := submitting s; error := error s; showAdvanced := showAdvanced s; jsonError := jsonError s |}.
Definition set_jsonError (s : RouteForm) (e : option jsstring) : RouteForm :=
  {| formData := formData s; originalRoute := originalRoute s; upstreams := upstreams s; loading := loading s;
     submitting := submitting s; error := error s; showAdvanced := showAdvanced s; jsonError := e |}.
Definition set_error (s : RouteForm) (e : option jsstring) : RouteForm :=
  {| formData := formData s; originalRoute := originalRoute s; upstreams := upstreams s; loading := loading s;
     submitting := submitting s; error := e; showAdvanced := showAdvanced s; jsonError := jsonError s |}.
Definition set_submitting (s : RouteForm) (b : bool) : RouteForm :=
  {| formData := formData s; originalRoute := originalRoute s; upstreams := upstreams s; loading := loading s;
     submitting := b; error := error s; showAdvanced := showAdvanced s; jsonError := jsonError s |}.
Definition set_loading (s : RouteForm) (b : bool) : RouteForm :=
  {| formData := formData s; originalRoute := originalRoute s; upstreams := upstreams s; loading := b;
     submitting := submitting s; error := error s; showAdvanced := showAdvanced s; jsonError := jsonError s |}.
Definition set_upstreams (s : RouteForm) (l : list jsstring) : RouteForm :=
  {| formData := formData s; originalRoute := originalRoute s; upstreams := l; loading := loading s;
     submitting := submitting s; error := error s; showAdvanced := showAdvanced s; jsonError := jsonError s |}.

Definition with_upstream (f : RouteFormState) (u : jsstring) : RouteFormState :=
  {| r_name := r_name f; r_host := r_host f; r_path := r_path f; r_upstream_name := u; r_enabled := r_enabled f;
     r_strip_path := r_strip_path f; r_websocket := r_websocket f; r_priority := r_priority f;
     r_plugins_json := r_plugins_json f; r_description := r_description f |}.
Definition with_plugins (f : RouteFormState) (j : jsstring) : RouteFormState :=
  {| r_name := r_name f; r_host := r_host f; r_path := r_path f; r_upstream_name := r_upstream_name f;
     r_enabled := r_enabled f; r_strip_path := r_strip_path f; r_websocket := r_websocket f;
     r_priority := r_priority f; r_plugins_json := j; r_description := r_description f |}.

(** ** Loading *)

(** The create page: [opened] is the form when the effect ran, which the
    guard of the default choice reads. *)
Definition upstreams_loaded (opened : RouteFormState) (s : RouteForm)
    (res : result ApiError (option (list jsstring))) : RouteForm :=
  set_loading
    (match res with
     | Ok items =>
         let names := default [] items in
         let s1 := set_upstreams s names in
         match names with
         | u :: _ => if jeqb (r_upstream_name opened) []
                     then set_formData s1 (with_upstream (formData s1) u) else s1
         | [] => s1
         end
     | Throw _ => s
     end) false.

(** [routesApi.get(id)] with its fallback to the list. *)
Definition find_route (id : jsstring) (l : list RouteItem) : option RouteItem :=
  List.find (fun r => jeqb (RoutesApi.id r) id) l.

Definition get_or_find (id : jsstring) (got : result ApiError RouteItem)
    (listed : result ApiError (option (list RouteItem))) : result jsstring RouteItem :=
  match got with
  | Ok r => Ok r
  | Throw _ =>
      match listed with
      | Throw e => Throw (err_message e)
      | Ok items =>
          match find_route id (default [] items) with
          | Some r => Ok r
          | None => Throw (js "Route with ID " ++ [34%N] ++ id ++ [34%N] ++ js " not found.")
          end
      end
  end.

Definition form_of_route (r : RouteItem) : RouteFormState :=
  {| r_name := name r; r_host := host r; r_path := path r; r_upstream_name := upstream_name r;
     r_enabled := enabled r; r_strip_path := strip_path r; r_websocket := websocket r;
     r_priority := priority r; r_plugins_json := str_or (plugins_json r) (js "{}");
     r_description := str_or (description r) [] |}.

(** [p && p.trim() !== '{}' && p.trim() !== ''] *)
Definition has_plugins (p : jsstring) : bool :=
  negb (jeqb p []) && negb (jeqb (trim p) (js "{}")) && negb (jeqb (trim p) []).

(** The edit page waits for both; either failure shows an error. *)
Definition edit_loaded (s : RouteForm) (route : result jsstring RouteItem)
    (ups : result ApiError (option (list jsstring))) : RouteForm :=
  match route, ups with
  | Ok r, Ok items =>
      {| formData := form_of_route r; originalRoute := Some r; upstreams := default [] items; loading := false;
         submitting := submitting s; error := error s;
         showAdvanced := if has_plugins (plugins_json r) then true else showAdvanced s;
         jsonError := jsonError s |}
  | Throw m, _ => set_loading (set_error s (Some (str_or m (js "Failed to load route details.")))) false
  | _, Throw e => set_loading (set_error s (Some (str_or (err_message e) (js "Failed to load route details.")))) false
  end.

(** ** The JSON editor *)

Section JsonEditor.
(** The engine's message for a text that does not parse. *)
Variable syntax_message : jsstring -> jsstring.

Definition handlePluginsJsonChange (s : RouteForm) (v : jsstring) : RouteForm :=
  let s1 := set_formData s (with_plugins (formData s) v) in
  if jeqb (trim v) [] || jeqb (trim v) (js "{}") then set_jsonError s1 None
  else match parse v with
       | Some _ => set_jsonError s1 None
       | None => set_jsonError s1 (Some (str_or (syntax_message v) (js "Invalid JSON syntax")))
       end.
End JsonEditor.

Definition format_json (text : jsstring) : option jsstring :=
  option_map (ser [32; 32]%N []) (parse (str_or text (js "{}"))).

Definition handleFormatJson (s : RouteForm) : RouteForm :=
  match format_json (r_plugins_json (formData s)) with
  | Some t => set_jsonError (set_formData s (with_plugins (formData s) t)) None
  | None => s
  end.

(** The edit page has the same two handlers. *)
Definition edit_handlePluginsJsonChange : (jsstring -> jsstring) -> RouteForm -> jsstring -> RouteForm :=
  handlePluginsJsonChange.
Definition edit_handleFormatJson : RouteForm -> RouteForm := handleFormatJson.

(** ** Submission *)

(** What follows a settled submission: nothing, a navigation, or the
    [onSuccess] and [onClose] callbacks of a dialog. *)
Inductive effect := Stay | Navigate (url : jsstring) | NotifyAndClose.

Section Submit.
Context `{CaseMapping}.

(** The guards shared by the pages and the modal; the result holds the
    normalized name, host, path and upstream. *)
Definition check_fields (f : RouteFormState) : result jsstring (jsstring * jsstring * jsstring * jsstring) :=
  let name := trim (r_name f) in
  let host := toLowerCase (trim (r_host f)) in
  let path := trim (r_path f) in
  let upstream := trim (r_upstream_name f) in
  if jeqb name [] then Throw (js "Route Name is required.") else
  if jeqb host [] then Throw (js "Host / Domain is required.") else
  if jeqb path [] || negb (startsWith (js "/") path)
  then Throw (js "Path must start with " ++ [34; 47; 34]%N ++ js " (e.g. / or /api/v1).") else
  if jeqb upstream [] then Throw (js "Target Upstream is required.") else
  Ok (name, host, path, upstream).

(** [plugins_json && plugins_json.trim() !== ''] and it does not parse. *)
Definition plugins_invalid (p : jsstring) : bool :=
  negb (jeqb p []) && negb (jeqb (trim p) []) && match parse p with Some _ => false | None => true end.

(** [Number(priority) || d] *)
Definition priority_or (p d : Z) : Z := if (p =? 0)%Z then d else p.

Definition page_payload (invalid_message : jsstring) (f : RouteFormState) : result jsstring RoutePayload :=
  match check_fields f with
  | Throw m => Throw m
  | Ok (n, h, p, u) =>
      if plugins_invalid (r_plugins_json f) then Throw invalid_message else
      Ok {| p_name := n; p_host := h; p_path := p; p_upstream_name := u; p_enabled := Some (r_enabled f);
            p_strip_path := Some (r_strip_path f); p_websocket := Some (r_websocket f);
            p_priority := Some (priority_or (r_priority f) 10);
            p_plugins_json := Some (str_or (trim (r_plugins_json f)) (js "{}"));
            p_description := Some (trim (r_description f)) |}
  end.

(** The modal checks no JSON, keeps a zero priority and does not trim. *)
Definition modal_payload (f : RouteFormState) : result jsstring RoutePayload :=
  match check_fields f with
  | Throw m => Throw m
  | Ok (n, h, p, u) =>
      Ok {| p_name := n; p_host := h; p_path := p; p_upstream_name := u; p_enabled := Some (r_enabled f);
            p_strip_path := Some (r_strip_path f); p_websocket := Some (r_websocket f);
            p_priority := Some (priority_or (r_priority f) 0);
            p_plugins_json := Some (str_or (r_plugins_json f) (js "{}"));
            p_description := Some (r_description f) |}
  end.

Definition submit_start (payload : RouteFormState -> result jsstring RoutePayload)
    (request : RoutePayload -> call) (s : RouteForm) : RouteForm * option call :=
  match payload (formData s) with
  | Throw m => (set_error s (Some m), None)
  | Ok p => (set_submitting (set_error s None) true, Some (request p))
  end.

Definition submit_finish (fallback : jsstring) (target : effect) (s : RouteForm)
    (r : result ApiError val) : RouteForm * effect :=
  match r with
  | Ok _ => (set_submitting s false, target)
  | Throw e => (set_submitting (set_error s (Some (str_or (err_message e) fallback))) false, Stay)
  end.

Definition create_invalid : jsstring :=
  js "Plugins JSON is invalid. Please fix JSON syntax or format it properly.".
Definition edit_invalid : jsstring := js "Plugins JSON is invalid. Please fix JSON syntax.".

Definition create_handleSubmit : RouteForm -> RouteForm * option call :=
  submit_start (page_payload create_invalid) routes_create.
Definition create_submitted : RouteForm -> result ApiError val -> RouteForm * effect :=
  submit_finish (js "Failed to create route on server.") (Navigate (js "/routes")).

Definition edit_handleSubmit (rid : jsstring) (s : RouteForm) : RouteForm * option call :=
  match rid with [] => (s, None) | _ => submit_start (page_payload edit_invalid) (routes_update rid) s end.
Definition edit_submitted : RouteForm -> result ApiError val -> RouteForm * effect :=
  submit_finish (js "Failed to update route.") (Navigate (js "/routes")).

Definition modal_handleSubmit (editing : option RouteItem) : RouteForm -> RouteForm * option call :=
  submit_start modal_payload
    (match editing with Some r => routes_update (RoutesApi.id r) | None => routes_create end).

Definition modal_submitted : RouteForm -> result ApiError val -> RouteForm * effect :=
  submit_finish (js "Failed to save route. Please check inputs.") NotifyAndClose.
End Submit.

(** The modal's effect when it opens. *)
Definition modal_open (s : RouteForm) (editing : option RouteItem) : RouteForm :=
  let s1 := set_loading (set_error s None) true in
  match editing with
  | Some r =>
      {| formData := form_of_route r; originalRoute := originalRoute s1; upstreams := upstreams s1;
         loading := loading s1; submitting := submitting s1; error := error s1;
         showAdvanced := negb (jeqb (plugins_json r) []) && negb (jeqb (plugins_json r) (js "{}"));
         jsonError := jsonError s1 |}
  | None =>
      {| formData := DEFAULT_ROUTE_FORM; originalRoute := originalRoute s1; upstreams := upstreams s1;
         loading := loading s1; submitting := submitting s1; error := error s1; showAdvanced := false;
         jsonError := jsonError s1 |}
  end.

(** ** Lemmas *)

Section Facts.
Context `{CaseMapping}.

(** What the guards of the pages ask for. *)
Definition route_submittable (f : RouteFormState) : Prop :=
  trim (r_name f) <> [] /\ toLowerCase (trim (r_host f)) <> [] /\
  startsWith (js "/") (trim (r_path f)) = true /\ trim (r_upstream_name f) <> [] /\
  (trim (r_plugins_json f) = [] \/ exists v, parse (r_plugins_json f) = Some v).

(** The one payload a page can send for a form. *)
Definition payload_of (f : RouteFormState) : RoutePayload :=
  {| p_name := trim (r_name f); p_host := toLowerCase (trim (r_host f)); p_path := trim (r_path f);
     p_upstream_name := trim (r_upstream_name f); p_enabled := Some (r_enabled f);
     p_strip_path := Some (r_strip_path f); p_websocket := Some (r_websocket f);
     p_priority := Some (priority_or (r_priority f) 10);
     p_plugins_json := Some (str_or (trim (r_plugins_json f)) (js "{}"));
     p_description := Some (trim (r_description f)) |}.

Lemma plugins_invalid_spec p :
  plugins_invalid p = false <-> trim p = [] \/ exists v, parse p = Some v.
Proof.
  unfold plugins_invalid. split.
  - rewrite !andb_false_iff, !negb_false_iff, !jeqb_true. intros [[->|Ht]|Hp]; [by left|by left|].
    right. destruct (parse p) as [v|]; [by exists v|done].
  - intros [Ht|[v Hv]]; [rewrite Ht|rewrite Hv]; by destruct (jeqb p []), (jeqb (trim p) []).
Qed.

Lemma check_fields_spec f :
  check_fields f =
  Ok (trim (r_name f), toLowerCase (trim (r_host f)), trim (r_path f), trim (r_upstream_name f)) <->
  trim (r_name f) <> [] /\ toLowerCase (trim (r_host f)) <> [] /\
  startsWith (js "/") (trim (r_path f)) = true /\ trim (r_upstream_name f) <> [].
Proof.
  unfold check_fields. rewrite <- !jeqb_false.
  destruct (jeqb (trim (r_name f)) []), (jeqb (toLowerCase (trim (r_host f))) []),
    (trim (r_path f)) as [|c p], (jeqb (trim (r_upstream_name f)) []);
    try (split; [done|naive_solver]);
    destruct (startsWith (js "/") (c :: p)); split; naive_solver.
Qed.

Lemma check_fields_value f x :
  check_fields f = Ok x ->
  x = (trim (r_name f), toLowerCase (trim (r_host f)), trim (r_path f), trim (r_upstream_name f)).
Proof. unfold check_fields. repeat case_if; try done. by intros [= <-]. Qed.

Lemma page_payload_ok m f p : page_payload m f = Ok p <-> route_submittable f /\ p = payload_of f.
Proof.
  unfold page_payload, route_submittable. rewrite <- plugins_invalid_spec. split.
  - destruct (check_fields f) as [x|] eqn:E; [|done].
    pose proof (check_fields_value f x E) as Hx. subst x. apply check_fields_spec in E.
    destruct (plugins_invalid _); [done|]. intros [= <-]. naive_solver.
  - intros [(H1 & H2 & H3 & H4 & H5) ->].
    rewrite (proj2 (check_fields_spec f)) by done. by rewrite H5.
Qed.

End Facts.

(** ** Theorems *)

Section FormTheorems.
Context `{CaseMapping}.

(** C25: the create page sends a request exactly when the trimmed name,
    lower-cased host and upstream are not empty, the trimmed path starts
    with a slash and the extension assignments are blank or valid JSON;
    otherwise only the banner is set. The request carries the trimmed name,
    path, upstream and description, the trimmed and lower-cased host, the
    switches as they are, 10 for a priority of zero, and an empty object for
    blank assignments, which are trimmed otherwise; so it has an absolute
    path, a non-zero priority and non-empty JSON. *)
Theorem route_submit_guarded (s : RouteForm) :
  let f := formData s in
  ((exists c, (create_handleSubmit s).2 = Some c) <-> route_submittable f) /\
  match page_payload create_invalid f with
  | Throw m => create_handleSubmit s = (set_error s (Some m), None)
  | Ok p =>
      create_handleSubmit s = (set_submitting (set_error s None) true, Some (routes_create p)) /\
      (p_name p = trim (r_name f) /\ p_host p = toLowerCase (trim (r_host f)) /\ p_path p = trim (r_path f) /\
       p_upstream_name p = trim (r_upstream_name f) /\ p_enabled p = Some (r_enabled f) /\
       p_strip_path p = Some (r_strip_path f) /\ p_websocket p = Some (r_websocket f) /\
       p_priority p = Some (if (r_priority f =? 0)%Z then 10%Z else r_priority f) /\
       p_plugins_json p = Some (if bool_decide (trim (r_plugins_json f) = []) then js "{}" else trim (r_plugins_json f)) /\
       p_description p = Some (trim (r_description f))) /\
      p_name p <> [] /\ p_host p <> [] /\ p_upstream_name p <> [] /\
      head (p_path p) = Some 47%N /\ p_priority p <> Some 0%Z /\ p_plugins_json p <> Some []
  end.
Proof.
  cbv zeta. unfold create_handleSubmit, submit_start. split.
  - destruct (page_payload create_invalid (formData s)) as [p|m] eqn:E; simpl.
    + apply page_payload_ok in E as [Hs _]. naive_solver.
    + split; [by intros [? [=]]|]. intros Hs.
      assert (page_payload create_invalid (formData s) = Ok (payload_of (formData s))) by (by apply page_payload_ok).
      congruence.
  - destruct (page_payload create_invalid (formData s)) as [p|m] eqn:E; [|done].
    apply page_payload_ok in E as [(H1 & H2 & H3 & H4 & _) ->]. simpl. split_and!; try done.
    + by destruct (trim (r_plugins_json (formData s))).
    + apply startsWith_spec in H3 as [t Ht]. by rewrite Ht.
    + unfold priority_or. destruct (_ =? 0)%Z eqn:E; [done|]. apply Z.eqb_neq in E. congruence.
    + intros [= E]. revert E. by apply str_or_ne.
Qed.

(** A route whose fields are as the forms write them. *)
Definition canonical_route (r : RouteItem) : Prop :=
  trimmed (name r) /\ trimmed (host r) /\ toLowerCase (host r) = host r /\ trimmed (path r) /\
  trimmed (upstream_name r) /\ trimmed (plugins_json r) /\ trimmed (description r) /\
  name r <> [] /\ host r <> [] /\ startsWith (js "/") (path r) = true /\ upstream_name r <> [] /\
  plugins_json r <> [] /\ (exists v, parse (plugins_json r) = Some v).

(** The update that leaves a route as it is. *)
Definition unchanged_payload (r : RouteItem) : RoutePayload :=
  {| p_name := name r; p_host := host r; p_path := path r; p_upstream_name := upstream_name r;
     p_enabled := Some (enabled r); p_strip_path := Some (strip_path r); p_websocket := Some (websocket r);
     p_priority := Some (priority r); p_plugins_json := Some (plugins_json r);
     p_description := Some (description r) |}.

Lemma form_of_canonical r :
  canonical_route r -> route_submittable (form_of_route r) /\
  payload_of (form_of_route r) =
  {| p_name := name r; p_host := host r; p_path := path r; p_upstream_name := upstream_name r;
     p_enabled := Some (enabled r); p_strip_path := Some (strip_path r); p_websocket := Some (websocket r);
     p_priority := Some (priority_or (priority r) 10); p_plugins_json := Some (plugins_json r);
     p_description := Some (description r) |}.
Proof.
  intros (Hn & Hh & Hl & Hp & Hu & Hj & Hd & Nn & Nh & Np & Nu & Nj & Hv).
  unfold route_submittable, payload_of, form_of_route. simpl.
  assert (str_or (plugins_json r) (js "{}") = plugins_json r) as -> by (by destruct (plugins_json r)).
  assert (str_or (description r) [] = description r) as -> by (by destruct (description r)).
  rewrite !trim_id, Hl by done. split; [naive_solver|].
  by destruct (plugins_json r).
Qed.

(** Opening a route in the edit page and saving it unchanged sends its
    own values back, when its priority is not zero; and the page accepts
    every route in the form the console writes. *)
Theorem route_edit_roundtrip (s : RouteForm) (r : RouteItem) (ups : option (list jsstring)) :
  canonical_route r -> RoutesApi.id r <> [] -> priority r <> 0%Z ->
  (edit_handleSubmit (RoutesApi.id r) (edit_loaded s (Ok r) (Ok ups))).2
  = Some (routes_update (RoutesApi.id r) (unchanged_payload r)).
Proof.
  intros Hc Hid Hp. destruct (form_of_canonical r Hc) as [Hs Hpay].
  unfold edit_handleSubmit, submit_start. destruct (RoutesApi.id r) as [|c i] eqn:E; [done|].
  cbn [formData edit_loaded]. rewrite (proj2 (page_payload_ok edit_invalid _ _) (conj Hs eq_refl)). simpl.
  rewrite Hpay. unfold priority_or, unchanged_payload.
  by rewrite (proj2 (Z.eqb_neq (priority r) 0)).
Qed.

(** A zero priority, which the input accepts and the modal stores, is saved
    as ten by the edit page. *)
Lemma edit_rewrites_zero_priority (s : RouteForm) (r : RouteItem) (ups : option (list jsstring)) :
  canonical_route r -> RoutesApi.id r <> [] -> priority r = 0%Z ->
  exists p, (edit_handleSubmit (RoutesApi.id r) (edit_loaded s (Ok r) (Ok ups))).2
            = Some (routes_update (RoutesApi.id r) p) /\ p_priority p = Some 10%Z.
Proof.
  intros Hc Hid Hp. destruct (form_of_canonical r Hc) as [Hs Hpay].
  unfold edit_handleSubmit, submit_start. destruct (RoutesApi.id r) as [|c i] eqn:E; [done|].
  cbn [formData edit_loaded]. rewrite (proj2 (page_payload_ok edit_invalid _ _) (conj Hs eq_refl)). simpl.
  eexists. split; [done|]. rewrite Hpay. simpl. by rewrite Hp.
Qed.

(** Formatting the JSON editor keeps the value and settles: the text
    that replaces the old one parses to the same value, formatting it again
    changes nothing, and an invalid text is left as it is. *)
Theorem handleFormatJson_idempotent (s : RouteForm) :
  units_ok (r_plugins_json (formData s)) ->
  let s' := handleFormatJson s in
  parse (str_or (r_plugins_json (formData s')) (js "{}")) = parse (str_or (r_plugins_json (formData s)) (js "{}")) /\
  r_plugins_json (formData (handleFormatJson s')) = r_plugins_json (formData s') /\
  (parse (str_or (r_plugins_json (formData s)) (js "{}")) = None -> s' = s).
Proof.
  intros Hu s'. unfold s', handleFormatJson, format_json.
  set (text := str_or (r_plugins_json (formData s)) (js "{}")).
  assert (units_ok text) as Ht.
  { unfold text. destruct (r_plugins_json (formData s)); [by apply units_okb_sound|done]. }
  destruct (parse text) as [v|] eqn:E; simpl.
  - assert (json_ok v) as Hv by (by eapply parse_ok).
    destruct (ser_start [32; 32]%N [] v Hv) as (c & t & Es & _).
    assert (forall d, str_or (ser [32; 32]%N [] v) d = ser [32; 32]%N [] v) as Hor by (intros; by rewrite Es).
    rewrite !Hor, parse_ser by (done || by repeat constructor). simpl. done.
  - fold text. rewrite E. done.
Qed.

Lemma get_or_find_sound (rid : jsstring) (got : result ApiError RouteItem)
    (listed : result ApiError (option (list RouteItem))) (r : RouteItem) :
  get_or_find rid got listed = Ok r ->
  got = Ok r \/ (exists items, listed = Ok (Some items) /\ r ∈ items /\ RoutesApi.id r = rid).
Proof.
  unfold get_or_find. destruct got as [r'|e]; [intros [= ->]; by left|].
  destruct listed as [[items|]|e1]; try done.
  destruct (find_route rid (default [] (Some items))) as [r'|] eqn:E; [|done]. intros [= ->].
  right. exists items. split; [done|]. apply List.find_some in E as [Hin Hid].
  split; [by apply list_elem_of_In|by apply jeqb_true].
Qed.

(** Loading the edit page always ends: it stops loading and shows either
    the requested route (from its own endpoint or found by id in the list)
    or an error message. *)
Theorem edit_load_settles (s : RouteForm) (rid : jsstring) (got : result ApiError RouteItem)
    (listed : result ApiError (option (list RouteItem))) (ups : result ApiError (option (list jsstring))) :
  let s' := edit_loaded s (get_or_find rid got listed) ups in
  loading s' = false /\
  ((exists r, originalRoute s' = Some r /\ formData s' = form_of_route r /\
      (got = Ok r \/ (exists items, listed = Ok (Some items) /\ r ∈ items /\ RoutesApi.id r = rid))) \/
   (exists m, error s' = Some m /\ m <> [] /\ formData s' = formData s)).
Proof.
  pose proof (get_or_find_sound rid got listed) as Hr.
  destruct (get_or_find rid got listed) as [r|m], ups as [us|e]; cbv zeta; (split; [done|]).
  - left. exists r. split_and!; [done|done|by apply Hr].
  - right. eexists. split; [done|]. split; [by apply str_or_ne|done].
  - right. eexists. split; [done|]. split; [by apply str_or_ne|done].
  - right. eexists. split; [done|]. split; [by apply str_or_ne|done].
Qed.
End FormTheorems.

(** ** Instances *)

Definition api_route (prio : Z) : RouteItem :=
  {| RoutesApi.id := js "r1"; name := js "api"; host := js "a.example"; path := js "/v1"; upstream_name := js "pool";
     enabled := true; strip_path := false; websocket := false; priority := prio; plugins_json := js "{}";
     description := []; created_at := []; updated_at := [] |}.

Lemma api_route_canonical prio : canonical_route (api_route prio).
Proof.
  unfold canonical_route. cbn [name host path upstream_name plugins_json description api_route].
  assert (forall s, jeqb (trim s) s = true -> trimmed s) as Ht.
  { intros s E. apply jeqb_true in E. rewrite <- E. apply trim_trimmed. }
  split_and!; try (apply Ht; reflexivity); try done. eexists. reflexivity.
Qed.

Lemma route_edit_roundtrip_witness :
  (edit_handleSubmit (js "r1") (edit_loaded edit_initial (Ok (api_route 5)) (Ok None))).2
  = Some (routes_update (js "r1") (unchanged_payload (api_route 5))).
Proof.
  apply (route_edit_roundtrip edit_initial (api_route 5) None (api_route_canonical 5)); discriminate.
Defined.

Definition messy_form : RouteForm :=
  set_formData create_initial (with_plugins DEFAULT_ROUTE_FORM ([32%N] ++ stringify_obj [(js "a", VInt 1)])).

Lemma handleFormatJson_idempotent_witness :
  r_plugins_json (formData (handleFormatJson (handleFormatJson messy_form)))
  = r_plugins_json (formData (handleFormatJson messy_form)).
Proof.
  apply (handleFormatJson_idempotent messy_form). apply units_okb_sound. reflexivity.
Defined.
