(* ===== verification/RouteInputs.v ===== *)
(** * The inputs of the route forms

    The markup of [pages/routes/create/page.tsx],
    [pages/routes/edit/page.tsx] and
    [pages/routes/sections/RouteModal.tsx]: the inputs of the three forms,
    with the switches of [RouteExtensions] and the JSON editor that share
    one text, and the card that shows where a request goes. The create page
    is then a machine of offered inputs, the arrival of the upstream list
    and submissions. *)

From Stdlib Require Import ZArith NArith Lia String.
From S2P Require Import Prelude JsString JsValue Json JsonFacts Urls Fetcher Api Profiles RouteExtensions RouteForms FormInputs.
Import RoutesApi.
Local Open Scope string_scope.
Local Open Scope list_scope.

Inductive form_page := CreatePage | EditPage | Modal.

(** Entries of a user. The switches of the pages are buttons that negate
    what they find, those of the modal are check boxes. *)
Inductive route_entry :=
| InName (t : jsstring)
| InHost (t : jsstring)
| InPath (t : jsstring)
| InQuickPath (t : jsstring)
| InUpstream (t : jsstring)
| InEnabled (ticked : bool)
| InStripPath (ticked : bool)
| InWebsocket (ticked : bool)
| InPriority (t : jsstring)
| InDescription (t : jsstring)
| InPlugins (t : jsstring)
| InProfile (live : list (jsstring * jsstring)) (ext pid : jsstring)
| InAllOff
| InInherit
| InFormat
| InAdvanced.

Inductive route_field :=
| FName | FHost | FPath | FUpstream | FEnabled | FStripPath | FWebsocket | FPriority | FDescription | FPlugins
| FAdvanced | FJsonError.

#[global] Instance route_field_eq_dec : EqDecision route_field.
Proof. solve_decision. Defined.

Definition quick_paths : list jsstring := [js "/"; js "/api"; js "/api/v1"; js "/auth"].

Section Page.
Context (syntax_message : jsstring -> jsstring) (pg : form_page).

Definition switched (old ticked : bool) : bool := match pg with Modal => ticked | _ => negb old end.

(** The inputs that write one member of [formData]. *)
Definition plain_enter (f : RouteFormState) (e : route_entry) : RouteFormState :=
  {| r_name := match e with InName t => t | _ => r_name f end;
     r_host := match e with InHost t => t | _ => r_host f end;
     r_path := match e with InPath t | InQuickPath t => t | _ => r_path f end;
     r_upstream_name := match e with InUpstream t => t | _ => r_upstream_name f end;
     r_enabled := match e with InEnabled b => switched (r_enabled f) b | _ => r_enabled f end;
     r_strip_path := match e with InStripPath b => switched (r_strip_path f) b | _ => r_strip_path f end;
     r_websocket := match e with InWebsocket b => switched (r_websocket f) b | _ => r_websocket f end;
     r_priority := match e with InPriority t => parse_or 0 t | _ => r_priority f end;
     r_plugins_json := r_plugins_json f;
     r_description := match e with InDescription t => t | _ => r_description f end |}.

(** The [onChange] of the switches and of the text area: the pages check
    the text as it comes, the modal only stores it. *)
Definition write_plugins (s : RouteForm) (t : jsstring) : RouteForm :=
  match pg with
  | Modal => set_formData s (with_plugins (formData s) t)
  | _ => handlePluginsJsonChange syntax_message s t
  end.

Definition set_showAdvanced (s : RouteForm) (b : bool) : RouteForm :=
  {| formData := formData s; originalRoute := originalRoute s; upstreams := upstreams s; loading := loading s;
     submitting := submitting s; error := error s; showAdvanced := b; jsonError := jsonError s |}.

Definition route_enter (s : RouteForm) (e : route_entry) : RouteForm :=
  match e with
  | InPlugins t => write_plugins s t
  | InProfile live ext pid => write_plugins s (handleSelectProfile live (r_plugins_json (formData s)) ext pid)
  | InAllOff => write_plugins s handleSetAllOff
  | InInherit => write_plugins s handleResetInherit
  | InFormat => handleFormatJson s
  | InAdvanced => set_showAdvanced s (negb (showAdvanced s))
  | _ => set_formData s (plain_enter (formData s) e)
  end.

(** Texts are sequences of 16-bit units. *)
Definition entry_units (e : route_entry) : bool :=
  match e with
  | InPlugins t => units_okb t
  | InProfile live ext pid => forallb (fun kv => units_okb kv.2) live && units_okb ext && units_okb pid
  | _ => true
  end.

(** The select lists the loaded upstreams. *)
Definition upstream_offered (s : RouteForm) (e : route_entry) : bool :=
  match e with
  | InUpstream t =>
      match pg with CreatePage => negb (loading s) | _ => true end && existsb (jeqb t) (upstreams s)
  | _ => true
  end.

(** The JSON editor appears on demand, and only the pages format. *)
Definition editor_offered (s : RouteForm) (e : route_entry) : bool :=
  match e with
  | InPlugins _ => showAdvanced s
  | InFormat => match pg with Modal => false | _ => showAdvanced s end
  | _ => true
  end.

(** The edit page shows nothing until it has loaded. *)
Definition route_offered (s : RouteForm) (e : route_entry) : bool :=
  entry_units e && match pg with EditPage => negb (loading s) | _ => true end &&
  match e with
  | InQuickPath t => match pg with Modal => false | _ => existsb (jeqb t) quick_paths end
  | _ => upstream_offered s e && editor_offered s e
  end.

Definition route_target (e : route_entry) : route_field :=
  match e with
  | InName _ => FName | InHost _ => FHost | InPath _ | InQuickPath _ => FPath | InUpstream _ => FUpstream
  | InEnabled _ => FEnabled | InStripPath _ => FStripPath | InWebsocket _ => FWebsocket
  | InPriority _ => FPriority | InDescription _ => FDescription
  | InPlugins _ | InProfile _ _ _ | InAllOff | InInherit | InFormat => FPlugins
  | InAdvanced => FAdvanced
  end.

Definition route_also (e : route_entry) : list route_field :=
  match route_target e with FPlugins => [FJsonError] | _ => [] end.

Definition route_value (s : RouteForm) (f : route_field) : val :=
  let d := formData s in
  match f with
  | FName => VStr (r_name d) | FHost => VStr (r_host d) | FPath => VStr (r_path d) | FUpstream => VStr (r_upstream_name d)
  | FEnabled => VBool (r_enabled d) | FStripPath => VBool (r_strip_path d) | FWebsocket => VBool (r_websocket d)
  | FPriority => VInt (r_priority d) | FDescription => VStr (r_description d) | FPlugins => VStr (r_plugins_json d)
  | FAdvanced => VBool (showAdvanced s)
  | FJsonError => match jsonError s with Some m => VStr m | None => VNull end
  end.

Definition route_kept (s : RouteForm) (e : route_entry) : val :=
  let d := formData s in
  match e with
  | InName t | InHost t | InPath t | InQuickPath t | InUpstream t | InDescription t | InPlugins t => VStr t
  | InEnabled b => VBool (switched (r_enabled d) b)
  | InStripPath b => VBool (switched (r_strip_path d) b)
  | InWebsocket b => VBool (switched (r_websocket d) b)
  | InPriority t => VInt (parse_or 0 t)
  | InProfile live ext pid => VStr (handleSelectProfile live (r_plugins_json d) ext pid)
  | InAllOff => VStr handleSetAllOff
  | InInherit => VStr handleResetInherit
  | InFormat => VStr (match format_json (r_plugins_json d) with Some t => t | None => r_plugins_json d end)
  | InAdvanced => VBool (negb (showAdvanced s))
  end.

(** What writing the text leaves alone. *)
Lemma write_plugins_frame s t :
  formData (write_plugins s t) = with_plugins (formData s) t /\
  showAdvanced (write_plugins s t) = showAdvanced s /\ upstreams (write_plugins s t) = upstreams s /\
  loading (write_plugins s t) = loading s.
Proof.
  unfold write_plugins, handlePluginsJsonChange. destruct pg; try done; destruct (jeqb _ _ || _); try done;
    by destruct (parse t).
Qed.

Lemma format_frame s :
  formData (handleFormatJson s) =
    with_plugins (formData s) (match format_json (r_plugins_json (formData s)) with
                               | Some t => t | None => r_plugins_json (formData s) end) /\
  showAdvanced (handleFormatJson s) = showAdvanced s /\ upstreams (handleFormatJson s) = upstreams s /\
  loading (handleFormatJson s) = loading s.
Proof. unfold handleFormatJson. destruct (format_json _); [done|]. by destruct s as [[]]. Qed.

Definition route_inputs : FormInputs RouteForm route_entry route_field.
Proof.
  refine {| enter := route_enter; FormInputs.target := route_target; also := route_also; field_value := route_value;
            kept_value := route_kept; offered := route_offered |}.
  - intros s e. destruct e; try reflexivity; cbn [route_target route_value route_kept route_enter];
      first [rewrite (proj1 (write_plugins_frame s _)); reflexivity | rewrite (proj1 (format_frame s)); reflexivity].
  - intros s e f Hf Ha. unfold route_also in Ha. destruct e; cbn [route_target route_enter] in *;
      try (destruct f; first [reflexivity | by destruct Hf]);
      (assert (f <> FJsonError) by (intros ->; apply Ha; set_solver));
      destruct f; cbn [route_value];
      first [rewrite (proj1 (write_plugins_frame s _)); reflexivity
            | rewrite (proj1 (proj2 (write_plugins_frame s _))); reflexivity
            | rewrite (proj1 (format_frame s)); reflexivity
            | rewrite (proj1 (proj2 (format_frame s))); reflexivity | done].
Defined.
End Page.

(** The card of the pages that shows the way of a request. *)
Record dataflow := { flow_active : bool; flow_host : jsstring; flow_path : jsstring; flow_policies : list jsstring; flow_upstream : jsstring }.

Definition route_dataflow (f : RouteFormState) : dataflow :=
  {| flow_active := r_enabled f; flow_host := str_or (r_host f) (js "*"); flow_path := str_or (r_path f) (js "/");
     flow_policies := (if r_strip_path f then [js "Strip Prefix"] else []) ++
                      (if r_websocket f then [js "WebSocket WS"] else []) ++
                      (if negb (r_strip_path f) && negb (r_websocket f) then [js "Standard Pass-through"] else []);
     flow_upstream := str_or (r_upstream_name f) (js "Select Upstream...") |}.

(** ** The create page as a machine *)

Section Create.
Context `{CaseMapping} (syntax_message : jsstring -> jsstring).

(** The list of upstreams arrives once, a submission is answered once, and
    the buttons are disabled while one is under way. *)
Inductive create_event :=
| Entered (e : route_entry)
| Loaded (r : result ApiError (option (list jsstring)))
| Submitted
| Answered (r : result ApiError val).

Inductive create_step : RouteForm -> create_event -> RouteForm -> Prop :=
| StepEnter s e : route_offered CreatePage s e = true ->
    create_step s (Entered e) (route_enter syntax_message CreatePage s e)
| StepLoaded s r : loading s = true -> create_step s (Loaded r) (upstreams_loaded DEFAULT_ROUTE_FORM s r)
| StepSubmit s : submitting s = false -> create_step s Submitted (create_handleSubmit s).1
| StepAnswer s r : submitting s = true -> create_step s (Answered r) (create_submitted s r).1.

(** The badge of the editor says what the check of the submission finds,
    except that white space which JSON does not know may surround an empty
    object. *)
Definition badge_truthful (s : RouteForm) : Prop :=
  let p := r_plugins_json (formData s) in
  jsonError s = None <-> plugins_invalid p = false \/ trim p = js "{}".

Definition upstream_listed (s : RouteForm) : Prop :=
  (loading s = true -> upstreams s = []) /\
  (r_upstream_name (formData s) = [] \/ r_upstream_name (formData s) ∈ upstreams s).

Definition create_inv (s : RouteForm) : Prop :=
  units_ok (r_plugins_json (formData s)) /\ badge_truthful s /\ upstream_listed s.

Lemma checked_badge s t : badge_truthful (handlePluginsJsonChange syntax_message s t).
Proof.
  unfold badge_truthful, handlePluginsJsonChange, plugins_invalid.
  destruct (jeqb (trim t) []) eqn:E1; cbn [orb].
  - cbn [set_jsonError set_formData with_plugins formData r_plugins_json jsonError].
    rewrite E1, andb_false_r. naive_solver.
  - destruct (jeqb (trim t) (js "{}")) eqn:E2.
    { apply jeqb_true in E2. split; [by right|done]. }
    apply jeqb_false in E2.
    assert (jeqb t [] = false) as Et by (apply jeqb_false; intros ->; by apply jeqb_false in E1).
    destruct (parse t) as [v|] eqn:Ep; cbn [set_jsonError set_formData with_plugins formData r_plugins_json jsonError];
      rewrite Et, E1, Ep; naive_solver.
Qed.

Lemma format_badge s : units_ok (r_plugins_json (formData s)) -> badge_truthful s ->
  badge_truthful (handleFormatJson s) /\ units_ok (r_plugins_json (formData (handleFormatJson s))).
Proof.
  intros Hu Hb. unfold handleFormatJson, format_json.
  destruct (parse (str_or (r_plugins_json (formData s)) (js "{}"))) as [v|] eqn:E; cbn [option_map]; [|done].
  assert (json_ok v) as Hv.
  { eapply parse_ok, E. destruct (r_plugins_json (formData s)); [by apply units_okb_sound|done]. }
  split; [|by apply ser_units; [|apply units_okb_sound..]].
  unfold badge_truthful. cbn [set_jsonError set_formData with_plugins formData r_plugins_json jsonError].
  split; [|done]. intros _. left. apply plugins_invalid_spec. right. exists v.
  by apply parse_ser; [by repeat constructor|].
Qed.

Lemma select_units live raw ext pid :
  live_ok live -> units_ok raw -> units_ok ext -> units_ok pid -> units_ok (handleSelectProfile live raw ext pid).
Proof.
  intros. unfold handleSelectProfile, stringify_obj2. apply ser_units; [|by apply units_okb_sound..].
  by apply select_obj_json_ok, parsePluginsObj_ok.
Qed.

Lemma written_inv s t : create_inv s -> units_ok t -> create_inv (handlePluginsJsonChange syntax_message s t).
Proof.
  intros (_ & _ & Hl) Ht.
  destruct (write_plugins_frame syntax_message CreatePage s t) as (H1 & _ & H3 & H4). cbn [write_plugins] in *.
  split_and!; [by rewrite H1|apply checked_badge|]. unfold upstream_listed. by rewrite H1, H3, H4.
Qed.

Lemma enter_inv s e : create_inv s -> route_offered CreatePage s e = true ->
  create_inv (route_enter syntax_message CreatePage s e).
Proof.
  intros Hi Ho. pose proof Hi as (Hu & Hb & Hl).
  unfold route_offered in Ho. rewrite !andb_true_iff in Ho. destruct Ho as [[He _] Ho].
  destruct e; cbn [route_enter write_plugins entry_units] in *; try exact Hi; try (by apply written_inv).
  - (* the select *)
    split_and!; [exact Hu|exact Hb|]. unfold upstream_listed in *. cbn. apply andb_true_iff in Ho as [[_ Hin]%andb_true_iff _].
    split; [apply Hl|]. right. apply existsb_exists in Hin as (x & Hx & ->%jeqb_true). by apply list_elem_of_In.
  - apply written_inv; [done|]. by apply units_okb_sound.
  - rewrite !andb_true_iff in He. destruct He as [[Hlive Hext] Hpid]. apply written_inv; [done|].
    apply select_units; try done; try by apply units_okb_sound.
    apply Forall_forall. intros kv Hkv. rewrite forallb_forall in Hlive. apply units_okb_sound, Hlive. by apply list_elem_of_In.
  - apply written_inv; [done|]. by apply units_okb_sound.
  - apply written_inv; [done|]. by apply units_okb_sound.
  - destruct (format_badge s Hu Hb) as [H1 H2]. destruct (format_frame s) as (F1 & _ & F3 & F4).
    split_and!; [done|done|]. unfold upstream_listed. by rewrite F1, F3, F4.
Qed.

Lemma create_step_inv s e s' : create_inv s -> create_step s e s' -> create_inv s'.
Proof.
  intros Hi Hs. destruct Hs as [s e Ho|s r Hld|s Hsub|s r Hsub]; [by apply enter_inv|..]; destruct Hi as (Hu & Hb & Hl & Hn).
  - unfold upstreams_loaded. destruct r as [[[|u us]|]|err]; cbn;
      (split_and!; [exact Hu|exact Hb|]); (split; [done|]); cbn; try (rewrite (Hl Hld) in Hn; by destruct Hn as [?|?%elem_of_nil]; [left|]).
    right. set_solver.
  - unfold create_handleSubmit, submit_start. destruct (page_payload _ _); by split_and!.
  - unfold create_submitted, submit_finish. destruct r; by split_and!.
Qed.

Lemma create_reachable es s : star create_step create_initial es s -> create_inv s.
Proof.
  apply star_invariant; [intros ? ? ?; apply create_step_inv|].
  split_and!; [by apply units_okb_sound|by split; [left|]|]. by split; [|left].
Qed.

(** The badge of the JSON editor can be trusted. Along every run of the
    create page, the editor is marked valid exactly when the submission
    finds the extension assignments valid, or they are an empty object with
    other white space around it; while it is marked invalid nothing is
    sent. *)
Theorem json_badge_truthful (es : list create_event) (s : RouteForm) :
  star create_step create_initial es s ->
  (jsonError s = None <->
   plugins_invalid (r_plugins_json (formData s)) = false \/ trim (r_plugins_json (formData s)) = js "{}") /\
  (jsonError s <> None -> (create_handleSubmit s).2 = None).
Proof.
  intros (_ & Hb & _)%create_reachable. split; [exact Hb|]. intros He.
  unfold create_handleSubmit, submit_start. destruct (page_payload _ _) as [p|] eqn:E; [|done].
  apply page_payload_ok in E as [(_ & _ & _ & _ & Hp) _]. apply plugins_invalid_spec in Hp.
  destruct He. apply Hb. by left.
Qed.

(** What is in the list of upstreams was there before, or has just come. *)
Lemma create_step_upstreams s e s' u : create_step s e s' -> u ∈ upstreams s' ->
  u ∈ upstreams s \/ exists l, e = Loaded (Ok (Some l)) /\ u ∈ l.
Proof.
  intros Hs. destruct Hs as [s e Ho|s r Hld|s Hsub|s r Hsub].
  - replace (upstreams (route_enter syntax_message CreatePage s e)) with (upstreams s); [by left|].
    symmetry. destruct e; cbn [route_enter];
      first [done | exact (proj1 (proj2 (proj2 (write_plugins_frame syntax_message CreatePage s _))))
            | exact (proj1 (proj2 (proj2 (format_frame s))))].
  - unfold upstreams_loaded. destruct r as [[[|u0 us]|]|err]; cbn; intros Hu; [by apply elem_of_nil in Hu|eauto|by apply elem_of_nil in Hu|by left].
  - unfold create_handleSubmit, submit_start. destruct (page_payload _ _); by left.
  - unfold create_submitted, submit_finish. destruct r; by left.
Qed.

Lemma run_upstreams s es s' u : star create_step s es s' -> u ∈ upstreams s' ->
  u ∈ upstreams s \/ exists l, Loaded (Ok (Some l)) ∈ es /\ u ∈ l.
Proof.
  induction 1 as [s|s e s1 es s2 Hstep _ IH]; [by left|]. intros [Hu|(l & Hl & Hu)]%IH.
  - apply (create_step_upstreams _ _ _ u Hstep) in Hu as [Hu|(l & -> & Hu)]; [by left|].
    right. exists l. split; [left|done].
  - right. exists l. split; [by right|done].
Qed.

Lemma submitted_upstream es s c : star create_step create_initial es s -> (create_handleSubmit s).2 = Some c ->
  exists p l u, c = routes_create p /\ Loaded (Ok (Some l)) ∈ es /\ u ∈ l /\ p_upstream_name p = trim u.
Proof.
  intros Hs. pose proof (run_upstreams _ _ _ (r_upstream_name (formData s)) Hs) as Hr.
  apply create_reachable in Hs as (_ & _ & Hl & Hn).
  unfold create_handleSubmit, submit_start. destruct (page_payload _ _) as [p|] eqn:E; [|done]. intros Hc%(inj Some). subst c.
  apply page_payload_ok in E as [(_ & _ & _ & Hu & _) ->].
  destruct Hn as [Hn|Hn]; [by rewrite Hn in Hu|].
  destruct (Hr Hn) as [Hin|(l & Hin & Hu')]; [by apply elem_of_nil in Hin|]. by eexists _, l, _.
Qed.

(** C17: a route goes to an upstream that exists. Along every run of the
    create page, what it submits names, without the white space around it,
    one of the upstreams in the answer of the control plane to the request
    for the list that came in this run; before the list has come, and when
    it could not be loaded or was empty, nothing is sent. *)
Theorem created_route_targets_listed (es : list create_event) (s : RouteForm) :
  star create_step create_initial es s ->
  (forall c, (create_handleSubmit s).2 = Some c ->
     exists p l u, c = routes_create p /\ Loaded (Ok (Some l)) ∈ es /\ u ∈ l /\ p_upstream_name p = trim u) /\
  ((forall u l, Loaded (Ok (Some (u :: l))) ∉ es) -> (create_handleSubmit s).2 = None).
Proof.
  intros Hs. split; [intros c; by apply submitted_upstream|]. intros Hno.
  destruct (create_handleSubmit s).2 as [c|] eqn:E; [|done].
  destruct (submitted_upstream es s c Hs E) as (p & [|u0 l] & u & _ & Hin & Hu & _); [by apply elem_of_nil in Hu|].
  by destruct (Hno u0 l).
Qed.
End Create.

(** A no-break space is white space to [trim] and not to [JSON.parse]: the
    editor is marked valid and the submission refuses the text. *)
Lemma badge_accepts_odd_space (m : jsstring -> jsstring) (s : RouteForm) :
  let s' := handlePluginsJsonChange m s (160%N :: js "{}") in
  jsonError s' = None /\ plugins_invalid (r_plugins_json (formData s')) = true.
Proof. split; reflexivity. Qed.

(** The edit page checks only what is typed: a stored text that does not
    parse is opened with the badge that says it is valid. *)
Lemma edit_badge_unchecked (r : RouteItem) (ups : option (list jsstring)) :
  plugins_invalid (plugins_json r) = true ->
  let s := edit_loaded edit_initial (Ok r) (Ok ups) in
  jsonError s = None /\ plugins_invalid (r_plugins_json (formData s)) = true.
Proof.
  intros Hi. split; [done|]. cbn [edit_loaded formData form_of_route r_plugins_json].
  destruct (plugins_json r); [done|exact Hi].
Qed.

(** ** Instances *)

Definition create_run : list create_event :=
  [Entered InAdvanced; Entered (InPlugins (js "{a")); Loaded (Ok (Some [js "pool-a"; js "pool-b"]));
   Entered (InUpstream (js "pool-b")); Entered (InName (js "users")); Entered (InHost (js "api.local"));
   Entered (InProfile [] (js "cors") (js "off"))].

Fixpoint run_events `{CaseMapping} (m : jsstring -> jsstring) (s : RouteForm) (es : list create_event) : RouteForm :=
  match es with
  | [] => s
  | Entered e :: es => run_events m (route_enter m CreatePage s e) es
  | Loaded r :: es => run_events m (upstreams_loaded DEFAULT_ROUTE_FORM s r) es
  | Submitted :: es => run_events m (create_handleSubmit s).1 es
  | Answered r :: es => run_events m (create_submitted s r).1 es
  end.

Lemma create_run_steps n :
  star (create_step (fun _ => js "Unexpected token")) create_initial (take n create_run)
    (run_events (fun _ => js "Unexpected token") create_initial (take n create_run)).
Proof.
  do 8 (destruct n as [|n]; [cbn [take create_run run_events];
    repeat (eapply star_cons; [first [by apply StepEnter | by apply StepLoaded]|]); apply star_nil|]).
  cbn [take create_run run_events]. repeat (eapply star_cons; [first [by apply StepEnter | by apply StepLoaded]|]); apply star_nil.
Qed.

Lemma json_badge_truthful_witness :
  let s := run_events (fun _ => js "Unexpected token") create_initial (take 2 create_run) in
  jsonError s = Some (js "Unexpected token") /\ (create_handleSubmit s).2 = None.
Proof.
  split; [reflexivity|]. apply (json_badge_truthful _ _ _ (create_run_steps 2)). discriminate.
Defined.

Lemma created_route_targets_listed_witness :
  (exists p l u, (create_handleSubmit (run_events (fun _ => js "Unexpected token") create_initial create_run)).2 = Some (routes_create p) /\
     Loaded (Ok (Some l)) ∈ create_run /\ u ∈ l /\ p_upstream_name p = trim u) /\
  (create_handleSubmit (run_events (fun _ => js "Unexpected token") create_initial (take 2 create_run))).2 = None.
Proof.
  split.
  - destruct (proj1 (created_route_targets_listed _ _ _ (create_run_steps 7)) _ eq_refl) as (p & l & u & Hc & Hl & Hu & Hp).
    exists p, l, u. split; [exact (f_equal Some Hc)|]. split; [exact Hl|]. split; [exact Hu|exact Hp].
  - apply (proj2 (created_route_targets_listed _ _ _ (create_run_steps 2))).
    intros u l Hin. apply list_elem_of_In in Hin. cbn in Hin. destruct Hin as [Hin|[Hin|[]]]; discriminate Hin.
Defined.
