(* ===== verification/RoutesPage.v ===== *)
(** * The routes page

    [pages/routes/page.tsx] with [sections/RouteStats.tsx],
    [sections/DeleteRouteDialog.tsx] and the layout of
    [sections/RouteVisualCanvas.tsx]: filtering and ordering the list, the
    choices of the filters, grouping by host, the selected route, and the
    optimistic changes with their roll-back. The list itself is a polled
    page. [localeCompare] depends on the collation tables of the engine: it
    is the class [Collation]. *)

From Stdlib Require Import ZArith NArith Lia String Sorting.Sorted Sorting.Permutation.
From stdpp Require Import gmap.
From S2P Require Import Prelude JsString JsValue Json Fetcher Api Polling Optimistic Profiles.
Import RoutesApi.
Local Open Scope string_scope.
Local Open Scope list_scope.

(** ** Orders on strings *)

(** The default order of [Array.prototype.sort]: by UTF-16 code units. *)
Fixpoint units_le (a b : jsstring) : bool :=
  match a, b with
  | [], _ => true
  | _ :: _, [] => false
  | x :: a', y :: b' => if (x =? y)%N then units_le a' b' else (x <? y)%N
  end.

(** Printable ASCII, where a collation tells different strings apart. *)
Definition plain (s : jsstring) : Prop := Forall (fun c => (32 <= c <= 126)%N) s.

Class Collation := {
  localeCompare : jsstring -> jsstring -> Z;
  localeCompare_total a b : (localeCompare a b <= 0)%Z \/ (localeCompare b a <= 0)%Z;
  localeCompare_trans a b c :
    (localeCompare a b <= 0)%Z -> (localeCompare b c <= 0)%Z -> (localeCompare a c <= 0)%Z;
  localeCompare_plain a b : plain a -> plain b ->
    (localeCompare a b <= 0)%Z -> (localeCompare b a <= 0)%Z -> a = b
}.

(** ** Filters and order *)

(** [new Set(...)] in insertion order. *)
Fixpoint unique (l : list jsstring) : list jsstring :=
  match l with
  | [] => []
  | x :: l' => x :: List.filter (fun y => negb (jeqb x y)) (unique l')
  end.

Definition availableHosts (routes : list RouteItem) : list jsstring :=
  stable_sort units_le (unique (map host routes)).
Definition availableUpstreams (routes : list RouteItem) : list jsstring :=
  stable_sort units_le (unique (map upstream_name routes)).

Section Page.
Context `{CaseMapping} `{Collation}.

Record filters := {
  searchQuery : jsstring;
  hostFilter : jsstring;
  upstreamFilter : jsstring;
  statFilter : option jsstring
}.

Definition stat_is (f : filters) (s : string) : bool :=
  match statFilter f with Some t => jeqb t (js s) | None => false end.

Definition matches_search (q : jsstring) (r : RouteItem) : bool :=
  let has s := includes q (toLowerCase s) in
  has (name r) || has (host r) || has (path r) || has (upstream_name r) || has (RoutesApi.id r)
  || (negb (jeqb (description r) []) && has (description r)).

Definition route_kept (f : filters) (r : RouteItem) : bool :=
  if negb (jeqb (trim (searchQuery f)) []) && negb (matches_search (toLowerCase (searchQuery f)) r) then false else
  if negb (jeqb (hostFilter f) (js "ALL")) && negb (jeqb (host r) (hostFilter f)) then false else
  if negb (jeqb (upstreamFilter f) (js "ALL")) && negb (jeqb (upstream_name r) (upstreamFilter f)) then false else
  if stat_is f "active" && negb (enabled r) then false else
  if stat_is f "websocket" && negb (websocket r) then false else
  if stat_is f "strip_path" && negb (strip_path r) then false else
  true.

(** The comparator: host, then longer path, then higher priority. *)
Definition route_compare (a b : RouteItem) : Z :=
  if negb (jeqb (host a) (host b)) then localeCompare (host a) (host b) else
  if negb (Nat.eqb (length (path b)) (length (path a)))
  then (Z.of_nat (length (path b)) - Z.of_nat (length (path a)))%Z
  else (priority b - priority a)%Z.

Definition route_le (a b : RouteItem) : bool := (route_compare a b <=? 0)%Z.

Definition filteredRoutes (f : filters) (routes : list RouteItem) : list RouteItem :=
  stable_sort route_le (List.filter (route_kept f) routes).

(** [RouteStats] *)
Record stats := { total : nat; active : nat; wsCount : nat; stripCount : nat }.
Definition route_stats (routes : list RouteItem) : stats :=
  {| total := length routes;
     active := length (List.filter enabled routes);
     wsCount := length (List.filter websocket routes);
     stripCount := length (List.filter strip_path routes) |}.

(** ** The canvas *)

Definition host_key (r : RouteItem) : jsstring := str_or (host r) (js "*").

(** [Map] keeps insertion order, whatever the keys. *)
Fixpoint group_push (k : jsstring) (r : RouteItem) (groups : list (jsstring * list RouteItem)) :
    list (jsstring * list RouteItem) :=
  match groups with
  | [] => [(k, [r])]
  | (k', l) :: groups' => if jeqb k k' then (k', l ++ [r]) :: groups' else (k', l) :: group_push k r groups'
  end.

Definition routesByHost (routes : list RouteItem) : list (jsstring * list RouteItem) :=
  fold_left (fun g r => group_push (host_key r) r g) routes [].

Definition first_id (routes : list RouteItem) : option jsstring := option_map RoutesApi.id (head routes).

(** The effect that keeps a route selected ([null] is [None]; an empty id is
    falsy as well). *)
Definition keep_selected (routes : list RouteItem) (selected : option jsstring) : option jsstring :=
  let none := match selected with None | Some [] => true | _ => false end in
  match routes with
  | _ :: _ =>
      if none then first_id routes
      else if existsb (fun r => bool_decide (Some (RoutesApi.id r) = selected)) routes then selected
      else first_id routes
  | [] => if none then selected else None
  end.

Definition selectedRoute (routes : list RouteItem) (selected : option jsstring) : option RouteItem :=
  List.find (fun r => bool_decide (Some (RoutesApi.id r) = selected)) routes.

Definition EXECUTION_ORDER : list jsstring :=
  map js ["ip-restriction"; "connection-limit"; "resource-limit"; "rate-limit"; "jwt-authentication";
          "traffic-shaper"; "response-cache"; "response-compression"].

Fixpoint indexOf (k : jsstring) (l : list jsstring) (i : nat) : option nat :=
  match l with [] => None | x :: l' => if jeqb x k then Some i else indexOf k l' (S i) end.

Definition order_of (m : DataplaneExtensionMeta) : nat := default 99 (indexOf (key m) EXECUTION_ORDER 0).

Definition orderedCatalog : list DataplaneExtensionMeta :=
  stable_sort (fun a b => Nat.leb (order_of a) (order_of b)) DATAPLANE_EXTENSION_CATALOG.

Definition filteredCatalog (category_filter : option ext_category) : list DataplaneExtensionMeta :=
  match category_filter with
  | None => DATAPLANE_EXTENSION_CATALOG
  | Some c => List.filter (fun m => match category m, c with
                                    | Performance, Performance | Security, Security | Traffic, Traffic => true
                                    | _, _ => false
                                    end) DATAPLANE_EXTENSION_CATALOG
  end.

(** ** Optimistic changes *)

#[local] Instance routes_feed : ListPage RouteItem :=
  polled_page 70 (js "ailed to load routes from backend").

Record RoutesState := {
  feed : page (A := RouteItem);
  togglingIds : gset jsstring;
  savingRouteIds : gset jsstring
}.

Definition set_enabled (b : bool) (r : RouteItem) : RouteItem :=
  {| id := id r; name := name r; host := host r; path := path r; upstream_name := upstream_name r;
     enabled := b; strip_path := strip_path r; websocket := websocket r; priority := priority r;
     plugins_json := plugins_json r; description := description r; created_at := created_at r;
     updated_at := updated_at r |}.
Definition set_plugins (j : jsstring) (r : RouteItem) : RouteItem :=
  {| id := id r; name := name r; host := host r; path := path r; upstream_name := upstream_name r;
     enabled := enabled r; strip_path := strip_path r; websocket := websocket r; priority := priority r;
     plugins_json := j; description := description r; created_at := created_at r;
     updated_at := updated_at r |}.

#[local] Instance route_toggleable : Toggleable RouteItem.
Proof. refine {| item_id := id; item_enabled := enabled; with_enabled := set_enabled |}; by intros; destruct x. Defined.

Definition toggle_start (s : RoutesState) (route : RouteItem) (nextEnabled : bool) : RoutesState * call :=
  ({| feed := edit (switch_rows (id route) nextEnabled) (feed s);
      togglingIds := mark (id route) (togglingIds s); savingRouteIds := savingRouteIds s |},
   routes_toggle (id route) nextEnabled).

Definition toggle_finish (s : RoutesState) (route : RouteItem) (nextEnabled : bool)
    (r : result ApiError val) : RoutesState :=
  {| feed := match r with
             | Ok _ => feed s
             | Throw _ => edit (switch_rows (id route) (negb nextEnabled)) (feed s)
             end;
     togglingIds := unmark (id route) (togglingIds s); savingRouteIds := savingRouteIds s |}.

Definition plugins_payload (route : RouteItem) (next : jsstring) : RoutePayload :=
  {| p_name := name route; p_host := host route; p_path := path route; p_upstream_name := upstream_name route;
     p_enabled := Some (enabled route); p_strip_path := Some (strip_path route);
     p_websocket := Some (websocket route); p_priority := Some (priority route);
     p_plugins_json := Some next; p_description := Some (description route) |}.

Definition set_page_error (p : page (A := RouteItem)) (m : jsstring) : page :=
  {| shown := set_view_error (shown p) (Some m); sequence := sequence p; pending := pending p; applied := applied p |}.

Definition plugins_start (s : RoutesState) (route : RouteItem) (next : jsstring) : RoutesState * call :=
  ({| feed := edit (update_id (id route) (set_plugins next)) (feed s);
      togglingIds := togglingIds s; savingRouteIds := mark (id route) (savingRouteIds s) |},
   routes_update (id route) (plugins_payload route next)).

Definition plugins_finish (s : RoutesState) (route : RouteItem) (r : result ApiError val) : RoutesState :=
  {| feed := match r with
             | Ok _ => feed s
             | Throw e =>
                 edit (update_id (id route) (set_plugins (plugins_json route)))
                   (set_page_error (feed s) (str_or (err_message e) (js "Failed to save extension profile assignment")))
             end;
     togglingIds := togglingIds s; savingRouteIds := unmark (id route) (savingRouteIds s) |}.

(** [DeleteRouteDialog]: on success the list is fetched again and the dialog
    closes. *)
Record dialog := { dlg_submitting : bool; dlg_error : option jsstring }.
Definition delete_start (d : dialog) (route : RouteItem) : dialog * call :=
  ({| dlg_submitting := true; dlg_error := None |}, routes_delete (id route)).
Definition delete_finish (d : dialog) (r : result ApiError val) : dialog * bool :=
  match r with
  | Ok _ => ({| dlg_submitting := false; dlg_error := dlg_error d |}, true)
  | Throw e => ({| dlg_submitting := false; dlg_error := Some (str_or (err_message e) (js "Failed to delete route")) |}, false)
  end.
End Page.

(** ** Lemmas *)

Lemma units_le_total a b : units_le a b = true \/ units_le b a = true.
Proof.
  revert b; induction a as [|x a IH]; intros [|y b]; simpl; auto.
  rewrite (N.eqb_sym y x). destruct (x =? y)%N eqn:E; [auto|]. boolify. rewrite !N.ltb_lt. lia.
Qed.

Lemma units_le_trans a b c : units_le a b = true -> units_le b c = true -> units_le a c = true.
Proof.
  revert b c; induction a as [|x a IH]; intros [|y b] [|z c]; simpl; try done.
  destruct (x =? y)%N eqn:E1, (y =? z)%N eqn:E2, (x =? z)%N eqn:E3; boolify; subst; try lia;
    rewrite ?N.ltb_lt; eauto; intros; boolify; try lia.
Qed.

Lemma units_le_antisym a b : units_le a b = true -> units_le b a = true -> a = b.
Proof.
  revert b; induction a as [|x a IH]; intros [|y b]; simpl; try done.
  rewrite (N.eqb_sym y x). destruct (x =? y)%N eqn:E; boolify; [subst; intros; f_equal; auto|].
  rewrite !N.ltb_lt. lia.
Qed.

(** The code-unit order is a collation. *)
Definition units_compare (a b : jsstring) : Z :=
  if units_le a b then (if units_le b a then 0 else -1)%Z else 1%Z.

Lemma units_compare_le a b : (units_compare a b <= 0)%Z <-> units_le a b = true.
Proof. unfold units_compare. destruct (units_le a b), (units_le b a); split; (done || lia). Qed.

#[refine] Instance units_collation : Collation := {| localeCompare := units_compare |}.
Proof.
  all: intros *; rewrite ?units_compare_le.
  - apply units_le_total.
  - apply units_le_trans.
  - intros _ _. apply units_le_antisym.
Defined.

Lemma unique_in l x : x ∈ unique l <-> x ∈ l.
Proof.
  induction l as [|y l IH]; simpl; [done|].
  rewrite !elem_of_cons, list_elem_of_In, filter_In, <- list_elem_of_In, IH, negb_true_iff, jeqb_false.
  destruct (decide (x = y)); naive_solver.
Qed.

Lemma unique_nodup l : NoDup (unique l).
Proof.
  induction l as [|y l IH]; simpl; constructor.
  - rewrite list_elem_of_In, filter_In, jeqb_refl. by intros [_ ?].
  - by apply NoDup_list_filter.
Qed.

Section Facts.
Context `{CaseMapping} `{Collation}.

Definition plain_host (r : RouteItem) : Prop := plain (host r).

Lemma route_le_spec a b :
  route_le a b = true <->
  (host a <> host b /\ (localeCompare (host a) (host b) <= 0)%Z) \/
  (host a = host b /\ (length (path b) < length (path a) \/
                       length (path b) = length (path a) /\ (priority b <= priority a)%Z)).
Proof.
  unfold route_le, route_compare. rewrite Z.leb_le.
  destruct (jeqb (host a) (host b)) eqn:E; simpl; [apply jeqb_true in E|apply jeqb_false in E; naive_solver].
  destruct (Nat.eqb _ _) eqn:E2; simpl; [apply Nat.eqb_eq in E2|apply Nat.eqb_neq in E2].
  - split; [intros; right; split; [done|right; lia]|intros [[? ?]|[_ ?]]; [done|lia]].
  - split; [intros; right; split; [done|left; lia]|intros [[? ?]|[_ ?]]; [done|lia]].
Qed.

Lemma route_le_total a b : plain_host a -> plain_host b -> route_le a b = true \/ route_le b a = true.
Proof.
  intros _ _. rewrite !route_le_spec. destruct (decide (host a = host b)) as [E|E].
  - rewrite E. destruct (lt_eq_lt_dec (length (path a)) (length (path b))) as [[?|?]|?]; try naive_solver.
    destruct (Z.le_ge_cases (priority a) (priority b)); naive_solver.
  - destruct (localeCompare_total (host a) (host b)); [left|right]; left; split; congruence.
Qed.

Lemma route_le_trans a b c :
  plain_host a -> plain_host b -> plain_host c ->
  route_le a b = true -> route_le b c = true -> route_le a c = true.
Proof.
  intros Ha Hb Hc. rewrite !route_le_spec.
  intros [[N1 L1]|[E1 R1]] [[N2 L2]|[E2 R2]].
  - left. split; [|by eapply localeCompare_trans].
    intros E. apply N1, localeCompare_plain; [done|done|done|]. by rewrite E.
  - left. rewrite <- E2. done.
  - left. rewrite E1. done.
  - right. split; [congruence|]. lia.
Qed.

Lemma group_lookup_push k r g h :
  obj_get h (group_push k r g) =
  if jeqb h k then Some (default [] (obj_get h g) ++ [r]) else obj_get h g.
Proof.
  induction g as [|[k' l] g IH]; simpl.
  - by destruct (jeqb h k).
  - destruct (jeqb k k') eqn:E1; simpl.
    + apply jeqb_true in E1 as ->. by destruct (jeqb h k').
    + destruct (jeqb h k') eqn:E2; [|done].
      apply jeqb_true in E2 as ->. destruct (jeqb k' k) eqn:E3; [|done].
      apply jeqb_true in E3 as ->. by rewrite jeqb_refl in E1.
Qed.

Lemma routesByHost_get routes g h :
  obj_get h (fold_left (fun g r => group_push (host_key r) r g) routes g) =
  match default [] (obj_get h g) ++ List.filter (fun r => jeqb h (host_key r)) routes with
  | [] => obj_get h g
  | l => Some l
  end.
Proof.
  revert g; induction routes as [|r routes IH]; intros g; simpl.
  - rewrite app_nil_r. destruct (obj_get h g) as [[|]|]; done.
  - rewrite IH, group_lookup_push. destruct (jeqb h (host_key r)) eqn:E; simpl; [|done].
    rewrite <- app_assoc. simpl. by destruct (default [] (obj_get h g)).
Qed.

Lemma find_selected routes i :
  existsb (fun r => bool_decide (Some (RoutesApi.id r) = i)) routes = true ->
  exists r, selectedRoute routes i = Some r /\ Some (RoutesApi.id r) = i /\ r ∈ routes.
Proof.
  intros Hex. unfold selectedRoute. induction routes as [|r routes IH]; simpl in *; [done|].
  destruct (bool_decide _) eqn:E.
  - apply bool_decide_eq_true in E. exists r. split; [done|]. split; [done|left].
  - destruct (IH Hex) as (r' & H1 & H2 & H3). exists r'. split; [done|]. split; [done|by right].
Qed.

Lemma first_selected r routes :
  exists r', selectedRoute (r :: routes) (first_id (r :: routes)) = Some r'
    /\ Some (RoutesApi.id r') = first_id (r :: routes) /\ r' ∈ r :: routes.
Proof.
  apply find_selected. simpl. by rewrite bool_decide_eq_true_2.
Qed.

Lemma edit_items f p : items (shown (edit (A := RouteItem) f p)) = f (items (shown p)).
Proof. done. Qed.
End Facts.

(** ** Theorems *)

Section PageTheorems.
Context `{CaseMapping} `{Collation}.

(** C35: the table shows exactly the routes that pass the filters, in the
    order the data plane tries them: hosts in collation order, the routes
    of one host together, longer paths first and higher priorities first
    among equal lengths. *)
Theorem filteredRoutes_sorted (f : filters) (routes : list RouteItem) :
  Forall plain_host routes ->
  filteredRoutes f routes ≡ₚ List.filter (route_kept f) routes /\
  StronglySorted (fun a b =>
    (host a <> host b /\ (localeCompare (host a) (host b) <= 0)%Z) \/
    (host a = host b /\ (length (path b) < length (path a) \/
                         length (path b) = length (path a) /\ (priority b <= priority a)%Z)))
    (filteredRoutes f routes).
Proof.
  intros Hp. split; [apply stable_sort_perm|].
  assert (Forall plain_host (List.filter (route_kept f) routes)) as Hp'.
  { rewrite Forall_forall in *. intros r Hr. apply Hp.
    apply list_elem_of_In, filter_In in Hr as [Hr _]. by apply list_elem_of_In. }
  pose proof (stable_sort_sorted_on route_le plain_host route_le_total route_le_trans _ Hp') as Hs.
  eapply StronglySorted_impl_in; [|exact Hs]. intros a b _ _ Hab. by apply route_le_spec in Hab.
Qed.

(** The choices of the host filter are the hosts of the routes, each
    once, in strictly increasing code-unit order. *)
Theorem availableHosts_spec (routes : list RouteItem) :
  (forall h, h ∈ availableHosts routes <-> exists r, r ∈ routes /\ host r = h) /\
  StronglySorted (fun a b => units_le a b = true /\ a <> b) (availableHosts routes).
Proof.
  unfold availableHosts. split.
  - intros h. rewrite stable_sort_perm, unique_in, list_elem_of_In, in_map_iff.
    setoid_rewrite list_elem_of_In. naive_solver.
  - pose proof (stable_sort_sorted units_le units_le_total units_le_trans (unique (map host routes))) as Hs.
    assert (NoDup (stable_sort units_le (unique (map host routes)))) as Hd
      by (rewrite stable_sort_perm; apply unique_nodup).
    unfold sorted_by in Hs. induction Hs as [|x l Hs IH Hx]; constructor; apply NoDup_cons in Hd as [Hn Hd].
    + by apply IH.
    + rewrite Forall_forall in *. intros y Hy. split; [by apply Hx|]. by intros ->.
Qed.

(** The canvas draws every route once under its host: the group of a
    host is the sublist of the routes with that host, in their order, and
    a host has a group exactly when it has a route. *)
Theorem routesByHost_spec (routes : list RouteItem) (h : jsstring) :
  obj_get h (routesByHost routes) =
  match List.filter (fun r => jeqb h (host_key r)) routes with [] => None | l => Some l end.
Proof. unfold routesByHost. by rewrite routesByHost_get. Qed.

(** After the selection effect a route of the list is selected whenever
    there is one, and a selection that is still listed is kept. *)
Theorem selection_valid (routes : list RouteItem) (selected : option jsstring) :
  let sel := keep_selected routes selected in
  (routes <> [] -> exists r, selectedRoute routes sel = Some r /\ Some (RoutesApi.id r) = sel /\ r ∈ routes) /\
  (forall r c i, r ∈ routes -> selected = Some (c :: i) -> RoutesApi.id r = c :: i -> sel = selected) /\
  keep_selected routes sel = sel.
Proof.
  intros sel.
  assert (routes <> [] -> exists r, selectedRoute routes sel = Some r /\ Some (RoutesApi.id r) = sel /\ r ∈ routes) as H1.
  { intros Hne. unfold sel, keep_selected. destruct routes as [|r routes]; [done|].
    destruct (match selected with None | Some [] => true | _ => false end); [apply first_selected|].
    destruct (existsb _ _) eqn:E; [by apply find_selected|apply first_selected]. }
  split; [done|]. split.
  - intros r c i Hr -> Hid. unfold sel, keep_selected. destruct routes as [|r0 routes]; [by apply elem_of_nil in Hr|].
    assert (existsb (fun r => bool_decide (Some (RoutesApi.id r) = Some (c :: i))) (r0 :: routes) = true) as ->; [|done].
    apply existsb_exists. exists r. split; [by apply list_elem_of_In|]. by rewrite Hid, bool_decide_eq_true_2.
  - destruct routes as [|r routes].
    + unfold sel, keep_selected. by destruct selected as [[|]|].
    + destruct H1 as (r' & _ & Hid & Hin); [done|]. unfold keep_selected at 1.
      assert (existsb (fun r => bool_decide (Some (RoutesApi.id r) = sel)) (r :: routes) = true) as ->.
      { apply existsb_exists. exists r'. split; [by apply list_elem_of_In|]. by rewrite bool_decide_eq_true_2. }
      destruct sel as [[|c i]|] eqn:Es; [|done|done].
      unfold sel, keep_selected in Es.
      destruct (match selected with None | Some [] => true | _ => false end) eqn:En; [done|].
      destruct (existsb _ _) eqn:Ex in Es; [|done]. by subst selected.
Qed.

(** The stat cards count what their filters show: with no other filter,
    selecting a card lists as many routes as the card says. *)
Theorem stats_match_filters (routes : list RouteItem) :
  let only s := {| searchQuery := []; hostFilter := js "ALL"; upstreamFilter := js "ALL"; statFilter := s |} in
  length (filteredRoutes (only None) routes) = total (route_stats routes) /\
  length (filteredRoutes (only (Some (js "active"))) routes) = active (route_stats routes) /\
  length (filteredRoutes (only (Some (js "websocket"))) routes) = wsCount (route_stats routes) /\
  length (filteredRoutes (only (Some (js "strip_path"))) routes) = stripCount (route_stats routes).
Proof.
  intros only. unfold filteredRoutes. rewrite !length_stable_sort. simpl.
  assert (forall g : RouteItem -> bool, forall f, (forall r, f r = g r) ->
            length (List.filter f routes) = length (List.filter g routes)) as Hext.
  { intros g f Hfg. f_equal. clear -Hfg. induction routes as [|r l IH]; simpl; [done|]. by rewrite Hfg, IH. }
  split_and!.
  - rewrite (Hext (fun _ => true)) by done. clear. induction routes as [|r l IH]; simpl; [done|]. by rewrite IH.
  - apply Hext. intros r. unfold route_kept. simpl. by destruct (enabled r).
  - apply Hext. intros r. unfold route_kept. simpl. by destruct (websocket r).
  - apply Hext. intros r. unfold route_kept. simpl. by destruct (strip_path r).
Qed.

(** A failed toggle leaves no trace: if the route shown had the opposite
    state, the list after the failure is the list before the click, and in
    every case the route is no longer marked as toggling, the other marks
    stay, and a success keeps the new state of that route only. *)
Theorem toggle_rolls_back (s : RoutesState) (route : RouteItem) (next : bool) (e : ApiError) (v : val) :
  Forall (fun r => RoutesApi.id r = RoutesApi.id route -> enabled r = negb next) (items (shown (feed s))) ->
  RoutesApi.id route ∉ togglingIds s ->
  let s1 := (toggle_start s route next).1 in
  RoutesApi.id route ∈ togglingIds s1 /\
  items (shown (feed (toggle_finish s1 route next (Throw e)))) = items (shown (feed s)) /\
  togglingIds (toggle_finish s1 route next (Throw e)) = togglingIds s /\
  togglingIds (toggle_finish s1 route next (Ok v)) = togglingIds s /\
  forall r, r ∈ items (shown (feed (toggle_finish s1 route next (Ok v)))) ->
    if jeqb (RoutesApi.id r) (RoutesApi.id route) then enabled r = next else r ∈ items (shown (feed s)).
Proof.
  intros Hl Hni s1. unfold s1, toggle_start, toggle_finish. cbn [fst feed togglingIds].
  split; [unfold mark; set_solver|]. rewrite mark_unmark, !edit_items by done.
  split; [by apply switch_rows_back|]. split; [done|]. split; [done|]. intros r Hr. exact (switch_rows_frame _ _ _ _ Hr).
Qed.

(** Assigning profiles on the canvas saves only the assignments: the
    update carries the other fields of the route as they are; and a
    failure restores the old assignments, shows a message and clears the
    saving mark. *)
Theorem plugins_update_rolls_back (s : RoutesState) (route : RouteItem) (next : jsstring) (e : ApiError) :
  Forall (fun r => RoutesApi.id r = RoutesApi.id route -> plugins_json r = plugins_json route) (items (shown (feed s))) ->
  RoutesApi.id route ∉ savingRouteIds s ->
  let '(s1, c) := plugins_start s route next in
  let s2 := plugins_finish s1 route (Throw e) in
  c = routes_update (RoutesApi.id route) (plugins_payload route next) /\
  items (shown (feed s2)) = items (shown (feed s)) /\
  savingRouteIds s2 = savingRouteIds s /\
  exists m, error (shown (feed s2)) = Some m /\ m <> [].
Proof.
  intros Hl Hni. unfold plugins_start, plugins_finish. cbv zeta. cbn [feed savingRouteIds].
  split; [done|]. split; [|split; [by apply mark_unmark|eexists; split; [done|by apply str_or_ne]]].
  rewrite edit_items. simpl. rewrite update_id_compose by done. apply update_id_id.
  eapply Forall_impl; [exact Hl|]. intros r Hr Hid. simpl in Hr. specialize (Hr Hid).
  destruct r; simpl in *. by rewrite Hr.
Qed.
End PageTheorems.

(** The canvas lists the extensions in the execution order of the data
    plane: the catalogue sorted by it has exactly its keys, in its order. *)
Theorem orderedCatalog_is_execution_order : map key orderedCatalog = EXECUTION_ORDER.
Proof. vm_compute. reflexivity. Qed.

(** ** Instances *)

Definition sample_route (i h p : string) (prio : Z) (on : bool) : RouteItem :=
  {| id := js i; name := js i; host := js h; path := js p; upstream_name := js "pool"; enabled := on;
     strip_path := false; websocket := false; priority := prio; plugins_json := js "{}"; description := [];
     created_at := []; updated_at := [] |}.

Definition sample_routes : list RouteItem :=
  [sample_route "1" "b.example" "/" 5 true; sample_route "2" "a.example" "/" 1 true;
   sample_route "3" "a.example" "/api" 1 false; sample_route "4" "a.example" "/" 9 true].

Definition no_filters : filters :=
  {| searchQuery := []; hostFilter := js "ALL"; upstreamFilter := js "ALL"; statFilter := None |}.

Lemma filteredRoutes_sorted_witness :
  map (fun r => RoutesApi.id r) (filteredRoutes no_filters sample_routes) = [js "3"; js "4"; js "2"; js "1"] /\
  filteredRoutes no_filters sample_routes ≡ₚ List.filter (route_kept no_filters) sample_routes.
Proof.
  split; [reflexivity|].
  apply (filteredRoutes_sorted no_filters sample_routes).
  repeat constructor; vm_compute; discriminate.
Defined.

Definition sample_state : RoutesState :=
  {| feed := {| shown := set_view_items initial_view sample_routes; sequence := 1; pending := []; applied := [1] |};
     togglingIds := ∅; savingRouteIds := ∅ |}.

Definition server_error : ApiError :=
  {| err_status := 500; err_statusText := []; err_data := VNull; err_message := [] |}.

Lemma toggle_rolls_back_witness :
  let r := sample_route "3" "a.example" "/api" 1 false in
  items (shown (feed (toggle_finish (toggle_start sample_state r true).1 r true (Throw server_error)))) = sample_routes.
Proof.
  apply (toggle_rolls_back sample_state (sample_route "3" "a.example" "/api" 1 false) true server_error VNull).
  - repeat constructor; (reflexivity || discriminate).
  - set_solver.
Defined.

Lemma plugins_update_rolls_back_witness :
  let r := sample_route "3" "a.example" "/api" 1 false in
  items (shown (feed (plugins_finish (plugins_start sample_state r (js "x")).1 r (Throw server_error)))) = sample_routes.
Proof.
  apply (plugins_update_rolls_back sample_state (sample_route "3" "a.example" "/api" 1 false) (js "x") server_error).
  - repeat constructor; discriminate.
  - set_solver.
Defined.
