(* ===== verification/Canvas.v ===== *)
(** * The canvas of routes and extensions

    [pages/routes/sections/RouteVisualCanvas.tsx] as a component of the
    routes page: the pipeline of extensions drawn for a route, the dock of
    profiles beside it, its clicks, drags and drops, and the update of the
    page that they cause. The texts that its handlers write are in
    [RouteExtensions], the layout of the routes in [RoutesPage]. The
    theorems compose the two and compare the canvas with the switches of
    the forms and with the badges of the table. *)

From Stdlib Require Import ZArith NArith Lia ZifyBool ZifyN String Sorting.Permutation.
From stdpp Require Import gmap.
From S2P Require Import Prelude JsString JsValue Json JsonFacts Fetcher Api Polling Optimistic Profiles RouteExtensions RoutesPage.
Import RoutesApi.
Local Open Scope string_scope.
Local Open Scope list_scope.

Abbreviation live_map := (list (jsstring * jsstring)) (only parsing).

(** ** What is drawn *)

(** A chip of the pipeline: an extension with its profile and the choices. *)
Record stage := {
  st_meta : DataplaneExtensionMeta;
  st_profileId : jsstring;
  st_profiles : list ExtensionProfileOption;
  st_current : option ExtensionProfileOption
}.

Definition profiles_of (live : live_map) (m : DataplaneExtensionMeta) : list ExtensionProfileOption :=
  resolveExtensionProfiles (key m) (live_config live (key m)).

(** [profiles[0]?.id || 'default'] *)
Definition default_id (live : live_map) (m : DataplaneExtensionMeta) : jsstring :=
  match profiles_of live m with p :: _ => str_or (Profiles.id p) (js "default") | [] => js "default" end.

Definition stage_at (live : live_map) (m : DataplaneExtensionMeta) (pid : jsstring) : stage :=
  {| st_meta := m; st_profileId := pid; st_profiles := profiles_of live m;
     st_current := find_profile pid (profiles_of live m) |}.

(** One turn of the loop over [orderedCatalog]. *)
Definition stage_of (live : live_map) (o : obj) (m : DataplaneExtensionMeta) : option stage :=
  let profId := getRouteExtensionSelectedProfile o (key m) (default_id live m) in
  if jeqb profId (js "off") then None else Some (stage_at live m profId).

Definition activePipeline (live : live_map) (plugins : jsstring) : list stage :=
  let pluginsObj := parsePluginsObj_canvas plugins in
  if is_passthrough (prop (js "_profile") pluginsObj) then [] else omap (stage_of live pluginsObj) orderedCatalog.

(** [activeProfOnSelected] of the dock. *)
Definition activeProfOnSelected (live : live_map) (selected : option RouteItem) (m : DataplaneExtensionMeta) : jsstring :=
  match selected with
  | Some r =>
      let o := parsePluginsObj_canvas (plugins_json r) in
      if is_passthrough (prop (js "_profile") o) then js "off"
      else getRouteExtensionSelectedProfile o (key m) (default_id live m)
  | None => js "off"
  end.

(** ** The component *)

Record Canvas := {
  selectedRouteId : option jsstring;
  dragOverRouteId : option jsstring;
  liveConfigsByExt : live_map;
  dockCategory : option ext_category
}.

Definition initial_canvas (routes : list RouteItem) : Canvas :=
  {| selectedRouteId := first_id routes; dragOverRouteId := None; liveConfigsByExt := []; dockCategory := None |}.

(** The answer to the list of extensions; a failure is ignored. *)
Definition configs_settled (c : Canvas) (r : result ApiError (option (list listed_extension))) : Canvas :=
  match r with
  | Ok (Some exts) =>
      {| selectedRouteId := selectedRouteId c; dragOverRouteId := dragOverRouteId c;
         liveConfigsByExt := canvas_live_configs exts; dockCategory := dockCategory c |}
  | _ => c
  end.

(** The effect that runs when the routes or the selection change. *)
Definition canvas_rendered (routes : list RouteItem) (c : Canvas) : Canvas :=
  {| selectedRouteId := keep_selected routes (selectedRouteId c); dragOverRouteId := dragOverRouteId c;
     liveConfigsByExt := liveConfigsByExt c; dockCategory := dockCategory c |}.

Definition select_route (c : Canvas) (i : jsstring) (over : option jsstring) : Canvas :=
  {| selectedRouteId := Some i; dragOverRouteId := over; liveConfigsByExt := liveConfigsByExt c;
     dockCategory := dockCategory c |}.

Definition set_over (c : Canvas) (over : option jsstring) : Canvas :=
  {| selectedRouteId := selectedRouteId c; dragOverRouteId := over; liveConfigsByExt := liveConfigsByExt c;
     dockCategory := dockCategory c |}.

Definition set_category (c : Canvas) (k : option ext_category) : Canvas :=
  {| selectedRouteId := selectedRouteId c; dragOverRouteId := dragOverRouteId c; liveConfigsByExt := liveConfigsByExt c;
     dockCategory := k |}.

(** The route nodes, the chips of a pipeline, and the dock. A drop carries
    the text of the transfer: what [handleDragStart] printed, or the empty
    text when something else was dragged. *)
Inductive canvas_event :=
| ClickRoute (r : RouteItem)
| DragOver (r : RouteItem)
| DragLeave (r : RouteItem)
| Drop (r : RouteItem) (raw : jsstring)
| ChooseStage (r : RouteItem) (m : DataplaneExtensionMeta) (pid : jsstring)
| RemoveStage (r : RouteItem) (m : DataplaneExtensionMeta)
| ClearAll (r : RouteItem)
| ClickCategory (k : option ext_category)
| ClickProfile (m : DataplaneExtensionMeta) (pid : jsstring)
| ClickOff (m : DataplaneExtensionMeta).

(** A handler changes the component and may call [onUpdateRoutePlugins]. *)
Definition assign (c : Canvas) (r : RouteItem) (extKey pid : jsstring) : option (RouteItem * jsstring) :=
  Some (r, assignProfileToRoute (liveConfigsByExt c) (plugins_json r) extKey pid).

(** [assignProfileToRoute] with what a transfer holds. [trim] of an extension
    that is not a text throws, which is caught, but it is not called to
    switch one off; a profile that is not a text is none of the known ones
    and is written as it is. *)
Definition assign_dropped (c : Canvas) (r : RouteItem) (extKey profileId : val) : option (RouteItem * jsstring) :=
  let next := obj_del (js "_profile") (obj_put (js "_mode") (vstr "explicit") (parsePluginsObj_canvas (plugins_json r))) in
  match extKey, profileId with
  | VStr k, VStr pid => assign c r k pid
  | VStr k, v => Some (r, stringify_obj (obj_put k (VObj [(js "enabled", VBool true); (js "profile", v)]) next))
  | v, VStr pid => if jeqb pid (js "off") then Some (r, stringify_obj (obj_put (to_string v) (VObj off_entry) next)) else None
  | _, _ => None
  end.

Definition canvas_handle (routes : list RouteItem) (c : Canvas) (e : canvas_event) :
    Canvas * option (RouteItem * jsstring) :=
  let sel := selectedRoute routes (selectedRouteId c) in
  match e with
  | ClickRoute r => (select_route c (id r) (dragOverRouteId c), None)
  | DragOver r => (set_over c (Some (id r)), None)
  | DragLeave r => (if decide (dragOverRouteId c = Some (id r)) then set_over c None else c, None)
  | Drop r raw =>
      (select_route c (id r) None,
       match handleDropOnRoute raw with
       | Some (extKey, profileId) => assign_dropped c r extKey profileId
       | None => None
       end)
  | ChooseStage r m pid => (c, assign c r (key m) pid)
  | RemoveStage r m => (c, assign c r (key m) (js "off"))
  | ClearAll r => (c, Some (r, setRoutePassthrough))
  | ClickCategory k => (set_category c k, None)
  | ClickProfile m pid =>
      (c, match sel with
          | None => None
          | Some r =>
              let isAssigned := jeqb (activeProfOnSelected (liveConfigsByExt c) sel m) pid in
              assign c r (key m) (if isAssigned then js "off" else pid)
          end)
  | ClickOff m => (c, match sel with None => None | Some r => assign c r (key m) (js "off") end)
  end.

Section Page.
Context `{CaseMapping} `{Collation}.

(** The routes page with the canvas on it: an update changes the row at once
    and is sent. *)
Definition canvas_page (f : filters) (s : RoutesState) (c : Canvas) (e : canvas_event) :
    RoutesState * Canvas * option call :=
  let '(c', u) := canvas_handle (filteredRoutes f (items (shown (feed s)))) c e in
  match u with
  | None => (s, c', None)
  | Some (r, text) => let '(s', k) := plugins_start s r text in (s', c', Some k)
  end.
End Page.

(** ** Facts *)

Lemma parse_odd_space f c s : is_ws c = true -> is_json_ws c = false -> parse_value f (c :: s) = None.
Proof.
  intros Hw Hj. destruct f as [|f]; [done|]. cbn [parse_value skip_ws drop_while]. unfold skip_ws. cbn [drop_while]. rewrite Hj.
  unfold is_ws, is_json_ws in *.
  assert ((c =? 34)%N = false /\ (c =? 91)%N = false /\ (c =? 123)%N = false /\ (116 =? c)%N = false /\ (102 =? c)%N = false /\
    (110 =? c)%N = false /\ (45 =? c)%N = false /\ is_digit c = false) as (-> & -> & -> & H1 & H2 & H3 & H4 & H5).
  { unfold is_digit. split_and!; lia. }
  unfold keyword. change (js "true") with [116; 114; 117; 101]%N. change (js "false") with [102; 97; 108; 115; 101]%N.
  change (js "null") with [110; 117; 108; 108]%N. cbn [startsWith]. rewrite H1, H2, H3. cbn [andb].
  unfold parse_num. cbn [expect]. rewrite H4. cbn [span_digits]. by rewrite H5.
Qed.

(** A text of white space is no JSON, whichever white space it is. *)
Lemma parse_blank s : trim s = [] -> parse s = None.
Proof.
  intros Hs%trim_nil. unfold parse. destruct (parse_value _ s) as [[v r]|] eqn:E; [|done]. exfalso.
  set (f := S (2 * length s)) in E. clearbody f. revert f E.
  induction Hs as [|c s Hc Hs IH]; intros f E; [by destruct f|].
  destruct (is_json_ws c) eqn:Ec; [|by rewrite parse_odd_space in E].
  apply (IH f). rewrite <- E. destruct f as [|f]; [done|]. cbn [parse_value]. unfold skip_ws. cbn [drop_while]. by rewrite Ec.
Qed.

Lemma parse_value_skip f c s : is_json_ws c = true -> parse_value f (c :: s) = parse_value f s.
Proof. intros E. destruct f as [|f]; [done|]. cbn [parse_value]. unfold skip_ws. cbn [drop_while]. by rewrite E. Qed.

Lemma trim_split s : exists k k', s = k ++ trim s ++ k' /\ Forall (fun c => is_ws c = true) k.
Proof.
  destruct (drop_while_suffix is_ws s) as (k & Hk & Hw). fold (trimStart s) in Hk.
  destruct (drop_while_suffix is_ws (reverse (trimStart s))) as (k' & Hk' & _).
  exists k, (reverse k'). split; [|done]. rewrite Hk at 1. f_equal. unfold trim, trimEnd.
  rewrite <- reverse_app, <- Hk'. by rewrite reverse_involutive.
Qed.

(** Braces with white space around them hold no entries. *)
Lemma blank_object s : trim s = js "{}" -> as_plain_object (parse s) = [].
Proof.
  intros Ht. destruct (trim_split s) as (k & k' & Hs & Hk). rewrite Ht in Hs. unfold parse.
  destruct (parse_value _ s) as [[v r]|] eqn:E; [|done].
  enough (v = VObj []) as -> by (destruct (skip_ws r); done).
  set (f := S (2 * length s)) in E. clearbody f. subst s. clear Ht. revert f E.
  induction Hk as [|c k Hc Hk IH]; intros f E.
  - destruct f as [|f]; [done|]. change (js "{}") with [123; 125]%N in E. cbn in E. by injection E as <- _.
  - change ((c :: k) ++ js "{}" ++ k') with (c :: (k ++ js "{}" ++ k')) in E.
    destruct (is_json_ws c) eqn:Ec; [|by rewrite parse_odd_space in E].
    apply (IH f). rewrite <- E. symmetry. by apply parse_value_skip.
Qed.

(** The two readers of a text agree. *)
Lemma parsePluginsObj_same raw : parsePluginsObj_canvas raw = parsePluginsObj raw.
Proof.
  unfold parsePluginsObj_canvas, parsePluginsObj. destruct (jeqb (trim raw) []) eqn:E.
  - apply jeqb_true in E. destruct raw as [|c raw]; [reflexivity|]. cbn [str_or]. by rewrite parse_blank.
  - by destruct raw.
Qed.

Lemma resolve_extends m c : m ∈ DATAPLANE_EXTENSION_CATALOG ->
  ids_extend (defaultProfiles m) (resolveExtensionProfiles (key m) c).
Proof.
  intros Hm. destruct catalogue_reachable as [HF _]. rewrite Forall_forall in HF. destruct (HF m Hm) as [Hk _].
  unfold resolveExtensionProfiles, builtin_profiles. rewrite Hk.
  destruct (parsed_config c); try done. destruct (entries_of _); [apply merge_entries_extend|done].
Qed.

Lemma catalogue_has_profiles m : m ∈ DATAPLANE_EXTENSION_CATALOG ->
  exists p l, defaultProfiles m = p :: l /\ Profiles.id p <> [] /\ Profiles.id p <> js "off".
Proof.
  intros Hm%list_elem_of_In.
  assert (forallb (fun m => match defaultProfiles m with
    | p :: _ => negb (jeqb (Profiles.id p) []) && negb (jeqb (Profiles.id p) (js "off")) | [] => false end)
    DATAPLANE_EXTENSION_CATALOG = true) as HF by (vm_compute; reflexivity).
  rewrite forallb_forall in HF. specialize (HF m Hm). destruct (defaultProfiles m) as [|p l]; [done|].
  apply andb_true_iff in HF as [H1%negb_true_iff%jeqb_false H2%negb_true_iff%jeqb_false]. by exists p, l.
Qed.

(** Custom profiles do not change which profile is the first. *)
Lemma default_id_first live m : m ∈ DATAPLANE_EXTENSION_CATALOG -> default_id live m = first_profile m.
Proof.
  intros Hm. destruct (catalogue_has_profiles m Hm) as (p & l & Hp & _). unfold default_id, first_profile, profiles_of.
  destruct (resolve_extends m (live_config live (key m)) Hm) as [[k Hk] _]. rewrite Hp in *.
  destruct (resolveExtensionProfiles _ _) as [|q r]; [done|]. cbn in Hk. by injection Hk as -> _.
Qed.

Lemma default_id_on live m : m ∈ DATAPLANE_EXTENSION_CATALOG -> default_id live m <> js "off".
Proof.
  intros Hm. destruct (catalogue_has_profiles m Hm) as (p & l & Hp & H1 & H2). rewrite (default_id_first live m Hm).
  unfold first_profile. rewrite Hp. by destruct (Profiles.id p).
Qed.

(** Whether an extension runs does not depend on the name of its default. *)
Lemma off_any_default o k d d' : d <> js "off" -> d' <> js "off" ->
  jeqb (getRouteExtensionSelectedProfile o k d) (js "off") = jeqb (getRouteExtensionSelectedProfile o k d') (js "off").
Proof.
  intros H1%jeqb_false H2%jeqb_false. unfold getRouteExtensionSelectedProfile.
  destruct (prop k o) as [| |[]| | | |e]; rewrite ?H1, ?H2; try done.
  destruct (prop (js "enabled") e) as [| |[]| | | |]; try done; destruct (prop (js "profile") e) as [| | | |p| |];
    rewrite ?H1, ?H2; try done; destruct (jeqb (trim p) []); by rewrite ?H1, ?H2.
Qed.

Lemma orderedCatalog_perm : orderedCatalog ≡ₚ DATAPLANE_EXTENSION_CATALOG.
Proof. apply stable_sort_perm. Qed.

Lemma ordered_catalog m : m ∈ orderedCatalog <-> m ∈ DATAPLANE_EXTENSION_CATALOG.
Proof. by rewrite orderedCatalog_perm. Qed.

Lemma catalogue_keys m m' : m ∈ orderedCatalog -> m' ∈ orderedCatalog -> key m = key m' -> m = m'.
Proof.
  rewrite !ordered_catalog. intros H1 H2 E. destruct catalogue_reachable as [HF _]. rewrite Forall_forall in HF.
  destruct (HF m H1) as [K1 _], (HF m' H2) as [K2 _]. congruence.
Qed.

Lemma catalogue_key_ok m : m ∈ DATAPLANE_EXTENSION_CATALOG ->
  units_ok (key m) /\ key m <> [] /\ key m <> js "_profile" /\ key m <> js "_mode".
Proof.
  intros Hm%list_elem_of_In.
  assert (forallb (fun m => units_okb (key m) && negb (jeqb (key m) []) && negb (jeqb (key m) (js "_profile"))
    && negb (jeqb (key m) (js "_mode"))) DATAPLANE_EXTENSION_CATALOG = true) as HF by (vm_compute; reflexivity).
  rewrite forallb_forall in HF. specialize (HF m Hm). rewrite !andb_true_iff, !negb_true_iff, !jeqb_false in HF.
  destruct HF as [[[H1%units_okb_sound ?] ?] ?]. by split_and!.
Qed.

(** ** The three views of a route *)

Definition runs (o : obj) (m : DataplaneExtensionMeta) : bool :=
  negb (jeqb (getRouteExtensionSelectedProfile o (key m) (js "default")) (js "off")).

Lemma stage_of_runs live o m : m ∈ DATAPLANE_EXTENSION_CATALOG ->
  st_meta <$> stage_of live o m = if runs o m then Some m else None.
Proof.
  intros Hm. unfold stage_of, runs. rewrite (off_any_default o (key m) (js "default") (default_id live m)); [|done|by apply default_id_on].
  by destruct (jeqb _ _).
Qed.

Lemma stages_run live o l : l ⊆ DATAPLANE_EXTENSION_CATALOG -> map st_meta (omap (stage_of live o) l) = List.filter (runs o) l.
Proof.
  induction l as [|m l IH]; intros Hl; [done|]. cbn [omap list_omap List.filter].
  pose proof (stage_of_runs live o m ltac:(set_solver)) as Hs. specialize (IH ltac:(set_solver)).
  destruct (stage_of live o m) as [st|], (runs o m); try done; cbn [map].
  injection Hs as ->. f_equal. exact IH.
Qed.

Lemma pipeline_metas live raw :
  map st_meta (activePipeline live raw) =
  if is_passthrough (prop (js "_profile") (parsePluginsObj raw)) then [] else List.filter (runs (parsePluginsObj raw)) orderedCatalog.
Proof.
  unfold activePipeline. rewrite parsePluginsObj_same. destruct (is_passthrough _); [done|].
  apply stages_run. intros m. apply ordered_catalog.
Qed.

Lemma filter_perm {A} (p : A -> bool) l l' : l ≡ₚ l' -> List.filter p l ≡ₚ List.filter p l'.
Proof.
  induction 1 as [|x l l' _ IH|x y l|]; cbn [List.filter]; [done| | |by etrans].
  - destruct (p x); [by constructor|done].
  - destruct (p x), (p y); try done. constructor.
Qed.

Lemma badges_run o : (active_badges o).*1 = map key (List.filter (runs o) DATAPLANE_EXTENSION_CATALOG).
Proof.
  unfold active_badges. generalize DATAPLANE_EXTENSION_CATALOG as l. induction l as [|m l IH]; [done|].
  cbn [flat_map List.filter]. unfold runs at 1. destruct (jeqb _ _); cbn [negb app map fmap list_fmap fst]; [done|].
  f_equal. exact IH.
Qed.

Lemma activeCount_runs raw :
  activeCount raw = length (List.filter (runs (parsePluginsObj raw)) DATAPLANE_EXTENSION_CATALOG).
Proof.
  unfold activeCount. f_equal. apply filter_ext_in. intros m Hm%list_elem_of_In. unfold runs. f_equal.
  apply off_any_default; [|done]. rewrite <- (default_id_first [] m Hm). by apply default_id_on.
Qed.

Lemma nothing_runs :
  map key (if is_passthrough (prop (js "_profile") []) then [] else List.filter (runs []) orderedCatalog) = [].
Proof. vm_compute. reflexivity. Qed.

(** C10: the three views of a route agree. Whatever text a route has and
    whatever the live configurations are, the extensions that the canvas
    draws are those that the table shows as badges, none when it shows
    "passthrough", "inherit" or nothing; and when the canvas draws some,
    the switches count as many. *)
Theorem extension_views_agree (live : list (jsstring * jsstring)) (raw : jsstring) :
  let drawn := map (fun st => key (st_meta st)) (activePipeline live raw) in
  match renderRouteExtensionBadges raw with
  | Active badges => badges.*1 ≡ₚ drawn
  | _ => drawn = []
  end /\ (drawn <> [] -> activeCount raw = length drawn).
Proof.
  intros drawn. assert (drawn = map key (map st_meta (activePipeline live raw))) as E by (unfold drawn; by rewrite map_map).
  rewrite E, pipeline_metas, activeCount_runs. clear E drawn.
  assert (forall o, map key (List.filter (runs o) orderedCatalog) ≡ₚ map key (List.filter (runs o) DATAPLANE_EXTENSION_CATALOG)) as HP
    by (intros o; apply Permutation_map, filter_perm, orderedCatalog_perm).
  split.
  - unfold renderRouteExtensionBadges.
    destruct (jeqb (trim raw) [] || jeqb (trim raw) (js "{}")) eqn:Eb.
    { enough (parsePluginsObj raw = []) as -> by exact nothing_runs. rewrite <- parsePluginsObj_same.
      unfold parsePluginsObj_canvas. destruct (jeqb (trim raw) []); [done|]. by apply blank_object, jeqb_true. }
    apply orb_false_iff in Eb as [Eb _]. unfold parsePluginsObj. destruct raw as [|c raw]; [discriminate Eb|]. cbn [str_or].
    destruct (parse (c :: raw)) as [[| | | | | |o]|]; cbn [as_plain_object]; try exact nothing_runs.
    destruct (is_passthrough _); [done|]. pose proof (HP o) as H1. rewrite <- badges_run in H1.
    revert H1. generalize (map key (List.filter (runs o) orderedCatalog)) as drawn. intros drawn H1.
    destruct (active_badges o) as [|b l]; [apply Permutation_nil_r, H1|symmetry; exact H1].
  - destruct (is_passthrough _); [done|]. intros _. rewrite <- (length_map key (List.filter _ DATAPLANE_EXTENSION_CATALOG)).
    by rewrite <- HP.
Qed.

(** The chips are drawn in the order in which the data plane runs them. *)
Theorem pipeline_in_order (live : list (jsstring * jsstring)) (raw : jsstring) :
  map (fun st => key (st_meta st)) (activePipeline live raw) `sublist_of` EXECUTION_ORDER.
Proof.
  rewrite <- orderedCatalog_is_execution_order, <- (map_map st_meta key), pipeline_metas.
  destruct (is_passthrough _); [apply sublist_nil_l|]. apply (fmap_sublist key).
  generalize orderedCatalog as l. induction l as [|m l IH]; cbn [List.filter]; [constructor|]. destruct (runs _ m); by constructor.
Qed.

(** ** Assignments *)

Lemma canvas_reads_printed o : json_ok (VObj o) -> parsePluginsObj_canvas (stringify_obj o) = o.
Proof. intros Ho. rewrite parsePluginsObj_same. apply parsePluginsObj_printed; [constructor|done]. Qed.

Lemma select_obj_profile live o extKey pid : extKey <> js "_profile" -> prop (js "_profile") (select_obj live o extKey pid) = VUndef.
Proof. intros Hk. unfold select_obj. rewrite prop_put_ne by done. apply prop_del_eq. Qed.

Lemma select_obj_off live o extKey d : getRouteExtensionSelectedProfile (select_obj live o extKey (js "off")) extKey d = js "off".
Proof. unfold getRouteExtensionSelectedProfile, select_obj. by rewrite prop_put_eq. Qed.

(** A profile that can be assigned: its id does not mean "off" and its
    parameters leave the fields of the entry alone. *)
Definition assignable (p : ExtensionProfileOption) : Prop :=
  units_ok (Profiles.id p) /\ plain_profile_id (Profiles.id p) /\ params_neutral p.

(** The pipeline after an assignment: the stage of the extension is the
    chosen one, or none, and every other stage is as the text had it. *)
Lemma pipeline_assigned live raw m pid (st : option stage) :
  live_ok live -> units_ok raw -> units_ok pid -> m ∈ DATAPLANE_EXTENSION_CATALOG ->
  (forall o, stage_of live (select_obj live o (key m) pid) m = st) ->
  activePipeline live (assignProfileToRoute live raw (key m) pid) =
  omap (fun m' => if jeqb (key m') (key m) then st else stage_of live (parsePluginsObj_canvas raw) m') orderedCatalog.
Proof.
  intros Hl Hr Hp Hm Hst. destruct (catalogue_key_ok m Hm) as (Hk & Hne & Hpr & Hmo).
  unfold activePipeline, assignProfileToRoute. rewrite canvas_reads_printed by (apply select_obj_json_ok; try done; by apply parsePluginsObj_canvas_ok).
  rewrite select_obj_profile by done. cbn [is_passthrough].
  assert (forall m', m' ∈ orderedCatalog -> stage_of live (select_obj live (parsePluginsObj_canvas raw) (key m) pid) m' =
    if jeqb (key m') (key m) then st else stage_of live (parsePluginsObj_canvas raw) m') as HE.
  { intros m' Hm'. destruct (jeqb (key m') (key m)) eqn:E.
    - apply jeqb_true in E. apply ordered_catalog in Hm. rewrite (catalogue_keys m' m Hm' Hm E). apply Hst.
    - apply jeqb_false in E. destruct (catalogue_key_ok m') as (_ & _ & H1 & H2); [by apply ordered_catalog|].
      unfold stage_of. by rewrite select_obj_other. }
  revert HE. generalize orderedCatalog as l. induction l as [|m' l IH]; intros HE; [done|].
  cbn [omap list_omap]. rewrite HE by left. rewrite IH; [done|]. intros x Hx. apply HE. by right.
Qed.

Lemma stage_assigned live m p o :
  m ∈ DATAPLANE_EXTENSION_CATALOG -> find_profile (Profiles.id p) (profiles_of live m) = Some p -> assignable p ->
  stage_of live (select_obj live o (key m) (Profiles.id p)) m = Some (stage_at live m (Profiles.id p)).
Proof.
  intros Hm Hf (_ & Hp & Hn). unfold stage_of. rewrite select_obj_selected; [|done|].
  - destruct Hp as (_ & _ & Ho). unfold is_off_word in Ho. by destruct (jeqb _ (js "off")).
  - intros q Hq. fold (profiles_of live m) in Hq. congruence.
Qed.

Lemma stage_off live m o : stage_of live (select_obj live o (key m) (js "off")) m = None.
Proof. unfold stage_of. by rewrite select_obj_off. Qed.

Lemma selected_listed routes i r : selectedRoute routes i = Some r -> r ∈ routes /\ i = Some (id r).
Proof.
  unfold selectedRoute. intros [H1 H2]%List.find_some. split; [by apply list_elem_of_In|]. by apply bool_decide_eq_true in H2.
Qed.

Section PageTheorems.
Context `{CaseMapping} `{Collation}.

(** C19: a dropped profile runs, if it can be assigned: its id is trimmed,
    not empty and does not mean "off", and its parameters define neither
    [enabled] nor [profile]. Dropping such a profile of the dock on a route
    sends one update of that route, which changes nothing but its
    assignments; the row changes at once and no other row does; the route
    is selected; and its pipeline then has that profile in the place of the
    extension and, for every other extension, what its text said, so that a
    route that was passed through starts to run what it had stored. *)
Theorem dropped_profile_runs (f : filters) (s : RoutesState) (c : Canvas) (r : RouteItem) (m : DataplaneExtensionMeta)
    (p : ExtensionProfileOption) :
  let live := liveConfigsByExt c in
  live_ok live -> units_ok (plugins_json r) -> m ∈ DATAPLANE_EXTENSION_CATALOG ->
  find_profile (Profiles.id p) (profiles_of live m) = Some p -> assignable p ->
  let text := assignProfileToRoute live (plugins_json r) (key m) (Profiles.id p) in
  let '(s', c', k) := canvas_page f s c (Drop r (handleDragStart (key m) (Profiles.id p))) in
  k = Some (routes_update (id r) (plugins_payload r text)) /\
  items (shown (feed s')) = map (fun x => if jeqb (id x) (id r) then set_plugins text x else x) (items (shown (feed s))) /\
  selectedRouteId c' = Some (id r) /\ dragOverRouteId c' = None /\
  activePipeline live text =
    omap (fun m' => if jeqb (key m') (key m) then Some (stage_at live m (Profiles.id p))
                    else stage_of live (parsePluginsObj_canvas (plugins_json r)) m') orderedCatalog.
Proof.
  intros live Hl Hr Hm Hf Ha text. destruct (catalogue_key_ok m Hm) as (Hk & Hne & _).
  pose proof Ha as (Hu & (_ & Hpn & _) & _).
  unfold canvas_page, canvas_handle. rewrite drag_drop_roundtrip by done.
  apply jeqb_false in Hne, Hpn. rewrite Hne, Hpn. cbn [orb]. unfold assign, plugins_start.
  split_and!; try reflexivity. apply pipeline_assigned; try done. intros o. by apply stage_assigned.
Qed.

(** A click in the dock turns the profile of the selected route: one that it
    does not use is put in the place of the extension, the one that it uses
    is taken away; the dock shows the result. *)
Theorem dock_click_turns (f : filters) (s : RoutesState) (c : Canvas) (r : RouteItem) (m : DataplaneExtensionMeta)
    (p : ExtensionProfileOption) :
  let live := liveConfigsByExt c in
  let shows x := activeProfOnSelected live (Some x) m in
  selectedRoute (filteredRoutes f (items (shown (feed s)))) (selectedRouteId c) = Some r ->
  live_ok live -> units_ok (plugins_json r) -> m ∈ DATAPLANE_EXTENSION_CATALOG ->
  find_profile (Profiles.id p) (profiles_of live m) = Some p -> assignable p ->
  exists text, canvas_handle (filteredRoutes f (items (shown (feed s)))) c (ClickProfile m (Profiles.id p)) = (c, Some (r, text)) /\
    shows (set_plugins text r) = if jeqb (shows r) (Profiles.id p) then js "off" else Profiles.id p.
Proof.
  intros live shows Hs Hl Hr Hm Hf (Hu & Hp & Hn). unfold canvas_handle. rewrite Hs. eexists. split; [done|].
  fold live. fold (shows r). destruct (catalogue_key_ok m Hm) as (Hk & Hne & Hpr & Hmo).
  unfold shows at 1, activeProfOnSelected. cbn [plugins_json set_plugins]. unfold assignProfileToRoute.
  rewrite canvas_reads_printed by
    (apply select_obj_json_ok; try done; [by destruct (jeqb _ _); [apply units_okb_sound|]|by apply parsePluginsObj_canvas_ok]).
  rewrite select_obj_profile by done. cbn [is_passthrough]. destruct (jeqb (shows r) (Profiles.id p)).
  - apply select_obj_off.
  - apply select_obj_selected; [done|]. intros q Hq. fold (profiles_of live m) in Hq. congruence.
Qed.
End PageTheorems.

Lemma ordered_keys_distinct : NoDup (map key orderedCatalog).
Proof. rewrite orderedCatalog_is_execution_order. apply (bool_decide_unpack _). vm_compute. exact I. Qed.

Lemma omap_find {A} (g : A -> option stage) (k : A -> jsstring) (x : A) l :
  x ∈ l -> NoDup (map k l) -> (forall y st, g y = Some st -> key (st_meta st) = k y) ->
  List.find (fun st => jeqb (key (st_meta st)) (k x)) (omap g l) = g x.
Proof.
  intros Hx Hnd Hk. induction l as [|y l IH]; [by apply elem_of_nil in Hx|].
  cbn [map] in Hnd. apply NoDup_cons in Hnd as [Hy Hnd]. cbn [omap list_omap].
  assert (x ∈ l -> k y <> k x) as Hne.
  { intros Hin E. apply Hy. rewrite E. by apply list_elem_of_In, in_map, list_elem_of_In. }
  assert (x = y -> List.find (fun st => jeqb (key (st_meta st)) (k x)) (omap g l) = None) as Hno.
  { intros ->. destruct (List.find _ _) as [st|] eqn:E; [|done]. exfalso. apply List.find_some in E as [Hin E%jeqb_true].
    apply list_elem_of_In, list_elem_of_omap in Hin as (z & Hz & Hst). apply Hy. rewrite <- E, (Hk z st Hst).
    by apply list_elem_of_In, in_map, list_elem_of_In. }
  apply elem_of_cons in Hx as [->|Hx].
  - destruct (g y) as [st|] eqn:E; [cbn; by rewrite (Hk y st E), jeqb_refl|by apply Hno].
  - destruct (g y) as [st|] eqn:E; [|by apply IH]. cbn [List.find]. rewrite (Hk y st E).
    rewrite (proj2 (jeqb_false _ _) (Hne Hx)). by apply IH.
Qed.

(** The dock marks what the pipeline of the selected route runs. *)
Theorem dock_matches_pipeline (live : list (jsstring * jsstring)) (r : RouteItem) (m : DataplaneExtensionMeta) :
  m ∈ DATAPLANE_EXTENSION_CATALOG ->
  activeProfOnSelected live (Some r) m =
  match List.find (fun st => jeqb (key (st_meta st)) (key m)) (activePipeline live (plugins_json r)) with
  | Some st => st_profileId st
  | None => js "off"
  end.
Proof.
  intros Hm. unfold activeProfOnSelected, activePipeline. destruct (is_passthrough _); [done|].
  rewrite (omap_find _ key m).
  - unfold stage_of. destruct (jeqb _ _) eqn:E; [by apply jeqb_true|done].
  - by apply ordered_catalog.
  - apply ordered_keys_distinct.
  - intros y st. unfold stage_of. destruct (jeqb _ _); [done|]. by intros [= <-].
Qed.

Lemma omap_none {A B} (g : A -> option B) l : (forall y, y ∈ l -> g y = None) -> omap g l = [].
Proof. induction l as [|y l IH]; intros Hg; [done|]. cbn [omap list_omap]. rewrite Hg by left. apply IH. set_solver. Qed.

Lemma omap_single {A B} (g : A -> option B) (k : A -> jsstring) (x : A) b l :
  x ∈ l -> NoDup (map k l) -> g x = Some b -> (forall y, y ∈ l -> k y <> k x -> g y = None) -> omap g l = [b].
Proof.
  intros Hx Hnd Hb Hg. induction l as [|y l IH]; [by apply elem_of_nil in Hx|].
  cbn [map] in Hnd. apply NoDup_cons in Hnd as [Hy Hnd].
  assert (forall z, z ∈ l -> k z <> k y) as Hne.
  { intros z Hz E. apply Hy. rewrite <- E. by apply list_elem_of_In, in_map, list_elem_of_In. }
  cbn [omap list_omap]. apply elem_of_cons in Hx as [<-|Hx].
  - rewrite Hb. f_equal. apply omap_none. intros z Hz. apply Hg; [by right|by apply Hne].
  - rewrite Hg; [|left|intros E; by apply (Hne x)]. apply IH; [done|done|]. intros z Hz. apply Hg. by right.
Qed.

Lemma passthrough_stages live m : m ∈ DATAPLANE_EXTENSION_CATALOG -> stage_of live passthrough_obj m = None.
Proof.
  intros Hm. pose proof (stage_of_runs live passthrough_obj m Hm) as H1.
  assert (forallb (fun m => negb (runs passthrough_obj m)) DATAPLANE_EXTENSION_CATALOG = true) as HF by (vm_compute; reflexivity).
  rewrite forallb_forall in HF. specialize (HF m ltac:(by apply list_elem_of_In)). apply negb_true_iff in HF. rewrite HF in H1.
  by destruct (stage_of live passthrough_obj m).
Qed.

(** After "clear all" a drop leaves exactly one stage. *)
Theorem cleared_then_assigned (live : list (jsstring * jsstring)) (m : DataplaneExtensionMeta) (p : ExtensionProfileOption) :
  live_ok live -> m ∈ DATAPLANE_EXTENSION_CATALOG ->
  find_profile (Profiles.id p) (profiles_of live m) = Some p -> assignable p ->
  activePipeline live setRoutePassthrough = [] /\
  activePipeline live (assignProfileToRoute live setRoutePassthrough (key m) (Profiles.id p)) = [stage_at live m (Profiles.id p)].
Proof.
  intros Hl Hm Hf Ha. pose proof Ha as (Hu & _).
  assert (parsePluginsObj_canvas setRoutePassthrough = passthrough_obj) as HE by (vm_compute; reflexivity).
  split; [unfold activePipeline; by rewrite HE|].
  rewrite (pipeline_assigned live _ m _ (Some (stage_at live m (Profiles.id p)))); try done.
  2:{ apply units_okb_sound. vm_compute. reflexivity. }
  2:{ intros o. by apply stage_assigned. }
  rewrite HE. apply ordered_catalog in Hm. apply (omap_single _ key m); [done|apply ordered_keys_distinct|by rewrite jeqb_refl|].
  intros y Hy E. rewrite (proj2 (jeqb_false _ _) E). by apply passthrough_stages, ordered_catalog.
Qed.

(** ** Where the views differ *)

(** The switches count entries of a route that is passed through. *)
Lemma switches_count_passthrough :
  let raw := stringify_obj [(js "_profile", vstr "passthrough"); (js "rate-limit", VBool true)] in
  activePipeline [] raw = [] /\ activeCount raw = 1.
Proof. split; vm_compute; reflexivity. Qed.

(** ** Instances *)

Definition strict_profile : ExtensionProfileOption :=
  default default_profile (find_profile (js "strict") (defaultProfiles meta_rate_limit)).

Lemma strict_assignable : assignable strict_profile.
Proof.
  split; [apply units_okb_sound; vm_compute; reflexivity|]. split.
  - split; [split; intros c E; vm_compute in E; injection E as <-; reflexivity|]. split; [vm_compute; discriminate|vm_compute; reflexivity].
  - split; apply (bool_decide_unpack _); vm_compute; exact I.
Qed.

Lemma rate_limit_listed : meta_rate_limit ∈ DATAPLANE_EXTENSION_CATALOG.
Proof. unfold DATAPLANE_EXTENSION_CATALOG. set_solver. Qed.

Lemma strict_found : find_profile (Profiles.id strict_profile) (profiles_of [] meta_rate_limit) = Some strict_profile.
Proof. vm_compute. reflexivity. Qed.

Definition canvas_route : RouteItem := sample_route "3" "a.example" "/api" 1 false.
Definition open_canvas : Canvas := initial_canvas [canvas_route].

Lemma dropped_profile_runs_witness :
  selectedRouteId (canvas_page no_filters sample_state open_canvas
      (Drop canvas_route (handleDragStart (key meta_rate_limit) (Profiles.id strict_profile)))).1.2 = Some (js "3").
Proof.
  pose proof (dropped_profile_runs no_filters sample_state open_canvas canvas_route meta_rate_limit strict_profile
    (List.Forall_nil _ ) ltac:(apply units_okb_sound; vm_compute; reflexivity) rate_limit_listed strict_found strict_assignable) as H.
  destruct (canvas_page no_filters sample_state open_canvas _) as [[s' c'] k].
  exact (proj1 (proj2 (proj2 H))).
Defined.

Lemma dock_click_turns_witness :
  exists text, canvas_handle (filteredRoutes no_filters (items (shown (feed sample_state)))) open_canvas
    (ClickProfile meta_rate_limit (Profiles.id strict_profile)) = (open_canvas, Some (canvas_route, text)).
Proof.
  destruct (dock_click_turns no_filters sample_state open_canvas canvas_route meta_rate_limit strict_profile) as (text & H & _).
  - vm_compute. reflexivity.
  - exact (List.Forall_nil _).
  - apply units_okb_sound. vm_compute. reflexivity.
  - exact rate_limit_listed.
  - exact strict_found.
  - exact strict_assignable.
  - exists text. exact H.
Defined.

Lemma dock_matches_pipeline_witness : activeProfOnSelected [] (Some canvas_route) meta_rate_limit = js "off".
Proof. rewrite (dock_matches_pipeline [] canvas_route meta_rate_limit rate_limit_listed). vm_compute. reflexivity. Defined.

Lemma cleared_then_assigned_witness : activePipeline [] setRoutePassthrough = [].
Proof.
  exact (proj1 (cleared_then_assigned [] meta_rate_limit strict_profile (List.Forall_nil _) rate_limit_listed strict_found strict_assignable)).
Defined.
