(* ===== verification/CanvasViews.v ===== *)
(** * What the canvas of routes draws

    The view of [pages/routes/sections/RouteVisualCanvas.tsx]: a section per
    host with its banner, a node per route with the chips of its pipeline,
    and the dock with the profiles of every extension, around the state and
    the handlers of [Canvas]. *)

From Stdlib Require Import ZArith NArith Lia String Sorting.Permutation.
From stdpp Require Import gmap.
From S2P Require Import Prelude JsString JsValue Fetcher Api Polling Optimistic Profiles RouteExtensions RoutesPage Canvas.
Import RoutesApi.
Local Open Scope string_scope.
Local Open Scope list_scope.

(** ** The nodes *)

(** A chip of a pipeline: its number, the extension, the profile selected
    with the options, the summary of the profile, and whether an arrow
    follows. *)
Record chip := { ch_number : nat; ch_label : jsstring; ch_value : jsstring; ch_options : list (jsstring * jsstring);
                 ch_summary : option jsstring; ch_remove : jsstring; ch_arrow : bool }.

Definition chip_of (r : RouteItem) (n : nat) (idx : nat) (s : stage) : chip :=
  {| ch_number := S idx; ch_label := shortLabel (st_meta s); ch_value := st_profileId s;
     ch_options := map (fun p => (Profiles.id p, Profiles.id p ++ js " (" ++ label p ++ js ")")) (st_profiles s);
     ch_summary := summary <$> st_current s;
     ch_remove := js "Gỡ " ++ meta_label (st_meta s) ++ js " khỏi Route " ++ path r; ch_arrow := (idx <? n - 1)%nat |}.

Inductive node_border := BorderDrop | BorderSelected | BorderPlain.

(** The node of a route; without chips it says that nothing runs. *)
Record route_node := {
  rn_id : jsstring; rn_border : node_border; rn_dimmed : bool; rn_path : jsstring; rn_name : jsstring; rn_priority : jsstring;
  rn_tags : list jsstring; rn_syncing : bool; rn_clear : bool; rn_status : jsstring * jsstring; rn_count : jsstring;
  rn_hint : bool; rn_chips : option (list chip); rn_upstream : jsstring
}.

Definition node_of (saving : gset jsstring) (c : Canvas) (r : RouteItem) : route_node :=
  let pipeline := activePipeline (liveConfigsByExt c) (plugins_json r) in
  let isSelected := bool_decide (Some (id r) = selectedRouteId c) in
  {| rn_id := id r;
     rn_border := if bool_decide (Some (id r) = dragOverRouteId c) then BorderDrop else if isSelected then BorderSelected else BorderPlain;
     rn_dimmed := negb (enabled r); rn_path := path r; rn_name := name r; rn_priority := js "Prio " ++ int_string (priority r);
     rn_tags := (if strip_path r then [js "strip_path"] else []) ++ (if websocket r then [js "WS"] else []);
     rn_syncing := bool_decide (id r ∈ saving); rn_clear := (0 <? length pipeline)%nat;
     rn_status := if enabled r then (js "ACTIVE", js "Đang bật (Click để tắt)") else (js "DISABLED", js "Đang tắt (Click để bật)");
     rn_count := js "Dataplane Execution Pipeline (" ++ int_string (Z.of_nat (length pipeline)) ++ js " active extensions)";
     rn_hint := isSelected;
     rn_chips := match pipeline with [] => None | _ => Some (imap (chip_of r (length pipeline)) pipeline) end;
     rn_upstream := upstream_name r |}.

(** The banner of a host and its nodes. *)
Definition host_banner (h : jsstring) : jsstring := js "Ingress Host: " ++ if jeqb h (js "*") then js "* (All Domains)" else h.

Definition count_text (n : nat) : jsstring := int_string (Z.of_nat n) ++ js " " ++ if (n =? 1)%nat then js "route" else js "routes".

Record host_section := { hs_host : jsstring; hs_banner : jsstring; hs_count : jsstring; hs_nodes : list route_node }.

Definition section_of (saving : gset jsstring) (c : Canvas) (g : jsstring * list RouteItem) : host_section :=
  {| hs_host := g.1; hs_banner := host_banner g.1; hs_count := count_text (length g.2); hs_nodes := map (node_of saving c) g.2 |}.

(** ** The dock *)

Record dock_profile := { dp_id : jsstring; dp_label : jsstring; dp_custom : bool; dp_summary : jsstring; dp_assigned : bool }.
Record dock_card := { dc_key : jsstring; dc_label : jsstring; dc_description : jsstring; dc_off : bool; dc_profiles : list dock_profile }.

Definition dock_card_of (live : live_map) (selected : option RouteItem) (m : DataplaneExtensionMeta) : dock_card :=
  let active := activeProfOnSelected live selected m in
  {| dc_key := key m; dc_label := meta_label m; dc_description := Profiles.description m; dc_off := negb (jeqb active (js "off"));
     dc_profiles := map (fun p => {| dp_id := Profiles.id p; dp_label := label p; dp_custom := negb (builtin p);
                                     dp_summary := summary p; dp_assigned := jeqb active (Profiles.id p) |}) (profiles_of live m) |}.

Definition dock_tabs : list (option ext_category * jsstring) :=
  [(None, js "Tất cả"); (Some Performance, js "Cache & Nén"); (Some Traffic, js "Rate & Conn"); (Some Security, js "Bảo mật")].

(** The text above the dock names the path of the selected route. *)
Definition dock_cards (routes : list RouteItem) (c : Canvas) : option jsstring * list dock_card :=
  let selected := selectedRoute routes (selectedRouteId c) in
  (path <$> selected, map (dock_card_of (liveConfigsByExt c) selected) (filteredCatalog (dockCategory c))).

(** ** The canvas *)

Inductive canvas_view := NoRoutes | Drawn (sections : list host_section) (dock : option jsstring * list dock_card).

Definition RouteVisualCanvas (routes : list RouteItem) (saving : gset jsstring) (c : Canvas) : canvas_view :=
  match routes with
  | [] => NoRoutes
  | _ => Drawn (map (section_of saving c) (routesByHost routes)) (dock_cards routes c)
  end.

(** The groups hold every route once. *)
Lemma group_push_perm k r g : concat (map snd (group_push k r g)) ≡ₚ concat (map snd g) ++ [r].
Proof.
  induction g as [|[k' l] g IH]; [done|]. cbn [group_push]. destruct (jeqb k k'); cbn [map concat snd].
  - rewrite <- !app_assoc. f_equiv. apply Permutation_app_comm.
  - by rewrite IH, app_assoc.
Qed.

Lemma group_push_keys k r g : NoDup (map fst g) -> NoDup (map fst (group_push k r g)) /\ forall x, x ∈ map fst (group_push k r g) -> x = k \/ x ∈ map fst g.
Proof.
  induction g as [|[k' l] g IH]; intros Hn; cbn [group_push].
  - split; [apply NoDup_singleton|]. cbn. set_solver.
  - apply NoDup_cons in Hn as [H1 H2]. destruct (jeqb k k') eqn:E; [split; [by constructor|]; cbn; set_solver|].
    destruct (IH H2) as [IH1 IH2]. cbn [map fst]. split.
    + constructor; [|done]. intros [->|H3]%IH2; [by rewrite jeqb_refl in E|done].
    + intros x [->|[->|Hx]%IH2]%elem_of_cons; set_solver.
Qed.

Lemma fold_groups routes : forall g, NoDup (map fst g) ->
  let g' := fold_left (fun g r => group_push (host_key r) r g) routes g in
  NoDup (map fst g') /\ concat (map snd g') ≡ₚ concat (map snd g) ++ routes.
Proof.
  induction routes as [|r routes IH]; intros g Hn; cbn [fold_left]; [by rewrite app_nil_r|].
  destruct (IH (group_push (host_key r) r g)) as [H1 H2]; [by apply group_push_keys|]. split; [done|].
  rewrite H2, group_push_perm. by rewrite <- app_assoc.
Qed.

Lemma section_ids saving c gs : map rn_id (concat (map hs_nodes (map (section_of saving c) gs))) = map id (concat (map snd gs)).
Proof.
  induction gs as [|g gs IH]; [done|]. cbn [map concat]. rewrite !map_app, IH. f_equal. cbn [section_of hs_nodes].
  rewrite map_map. by apply map_ext.
Qed.

(** A list without duplicates has at most one element that is a given one. *)
Lemma assigned_once (a : jsstring) (l : list jsstring) : NoDup l -> length (List.filter (jeqb a) l) <= 1.
Proof.
  induction 1 as [|x l Hx _ IH]; [cbn; lia|]. cbn [List.filter]. destruct (jeqb a x) eqn:E; [|done]. apply jeqb_true in E as ->.
  replace (List.filter (jeqb x) l) with (@nil jsstring); [cbn; lia|]. clear IH. induction l as [|y l IH]; [done|]. cbn [List.filter].
  destruct (jeqb x y) eqn:E; [apply jeqb_true in E as ->; set_solver|]. apply IH. set_solver.
Qed.

Lemma dock_card_once live selected m : length (List.filter dp_assigned (dc_profiles (dock_card_of live selected m))) <= 1.
Proof.
  unfold dock_card_of. cbv zeta. cbn [dc_profiles].
  assert (forall (a : jsstring) ps, length (List.filter dp_assigned (map (fun p => {| dp_id := Profiles.id p; dp_label := label p;
    dp_custom := negb (builtin p); dp_summary := summary p; dp_assigned := jeqb a (Profiles.id p) |}) ps))
    = length (List.filter (jeqb a) (map Profiles.id ps))) as E.
  { intros a ps. induction ps as [|p ps IH]; [done|]. cbn [map List.filter dp_assigned]. destruct (jeqb a _); cbn [length]; by rewrite IH. }
  rewrite E. apply assigned_once, resolve_profiles_ids.
Qed.

(** After the routes [seen]: the hosts are different, every host seen has its
    group, and a group holds the routes of its host in their order. *)
Definition of_host (h : jsstring) (r : RouteItem) : bool := jeqb (host_key r) h.

Definition grouped (seen : list RouteItem) (g : list (jsstring * list RouteItem)) : Prop :=
  NoDup (map fst g) /\ (forall r, r ∈ seen -> host_key r ∈ map fst g) /\
  forall h l, (h, l) ∈ g -> l = List.filter (of_host h) seen.

Lemma group_push_in k r g h l : NoDup (map fst g) -> (h, l) ∈ group_push k r g ->
  (h <> k /\ (h, l) ∈ g) \/ (h = k /\ ((exists l0, (k, l0) ∈ g /\ l = l0 ++ [r]) \/ (k ∉ map fst g /\ l = [r]))).
Proof.
  induction g as [|[k' l'] g IH]; intros Hn; cbn [group_push].
  - intros Heq%list_elem_of_singleton. injection Heq as -> ->. right. split; [done|]. right. split; [apply not_elem_of_nil|done].
  - cbn [map fst] in *. apply NoDup_cons in Hn as [H1 H2]. destruct (jeqb k k') eqn:E; [apply jeqb_true in E as ->|apply jeqb_false in E].
    + intros [Heq|Hin]%elem_of_cons; [injection Heq as -> ->; right; split; [done|]; left; eexists; split; [left|done]|].
      left. split; [|by right]. intros ->. apply H1, list_elem_of_fmap. by exists (k', l).
    + intros [Heq|Hin]%elem_of_cons; [injection Heq as -> ->; left; split; [done|left]|].
      destruct (IH H2 Hin) as [[Hne Hg]|[-> [(l0 & Hg & ->)|[Hg ->]]]].
      * left. split; [done|by right].
      * right. split; [done|]. left. exists l0. split; [by right|done].
      * right. split; [done|]. right. split; [by apply not_elem_of_cons|done].
Qed.

Lemma group_push_has k r g : k ∈ map fst (group_push k r g) /\ forall h, h ∈ map fst g -> h ∈ map fst (group_push k r g).
Proof.
  induction g as [|[k' l] g [IH1 IH2]]; cbn [group_push]; [split; [left|intros h Hh; by apply elem_of_nil in Hh]|].
  destruct (jeqb k k') eqn:E; cbn [map fst]; [apply jeqb_true in E as ->; split; [left|done]|].
  split; [by right|]. intros h [->|Hh]%elem_of_cons; [left|right; by apply IH2].
Qed.

Lemma filter_none (f : RouteItem -> bool) l : (forall r, r ∈ l -> f r = false) -> List.filter f l = [].
Proof.
  induction l as [|x l IH]; intros Hl; [done|]. cbn. rewrite (Hl x) by left. apply IH. intros r Hr. apply Hl. by right.
Qed.

Lemma group_push_grouped seen g r : grouped seen g -> grouped (seen ++ [r]) (group_push (host_key r) r g).
Proof.
  intros (Hn & Hk & Hg). split; [by apply group_push_keys|]. destruct (group_push_has (host_key r) r g) as [P1 P2]. split.
  - intros x [Hx|Hx]%elem_of_app; [by apply P2, Hk|]. apply list_elem_of_singleton in Hx as ->. done.
  - intros h l Hin. rewrite List.filter_app. cbn [List.filter]. unfold of_host at 2.
    apply group_push_in in Hin as [[Hne Hin]|[-> Hin]]; [| |done].
    + rewrite (proj2 (jeqb_false _ _)) by done. rewrite app_nil_r. by apply Hg.
    + rewrite jeqb_refl. destruct Hin as [(l0 & Hin & ->)|[Hnk ->]]; [by rewrite (Hg _ _ Hin)|].
      rewrite filter_none; [done|]. intros x Hx. apply jeqb_false. intros E. apply Hnk. rewrite <- E. by apply Hk.
Qed.

Lemma routes_grouped routes : forall seen g, grouped seen g ->
  grouped (seen ++ routes) (fold_left (fun g r => group_push (host_key r) r g) routes g).
Proof.
  induction routes as [|r routes IH]; intros seen g Hg; [by rewrite app_nil_r|]. cbn [fold_left].
  replace (seen ++ r :: routes) with ((seen ++ [r]) ++ routes) by (by rewrite <- app_assoc). by apply IH, group_push_grouped.
Qed.

Lemma routesByHost_grouped routes : grouped routes (routesByHost routes).
Proof.
  apply (routes_grouped routes [] []). split; [constructor|]. split; [intros r Hr|intros h l Hr]; by apply elem_of_nil in Hr.
Qed.

(** A stage of a pipeline is not switched off. *)
Lemma pipeline_not_off live plugins st : st ∈ activePipeline live plugins -> st_profileId st <> js "off".
Proof.
  unfold activePipeline. cbv zeta. destruct (is_passthrough _); [intros Hi; by apply elem_of_nil in Hi|].
  intros (m & _ & Hm)%list_elem_of_omap. unfold stage_of in Hm. cbv zeta in Hm. destruct (jeqb _ (js "off")) eqn:E; [done|].
  injection Hm as <-. by apply jeqb_false in E.
Qed.

Lemma find_stage live plugins m : (exists st, st ∈ activePipeline live plugins /\ key (st_meta st) = key m) <->
  exists st, List.find (fun st => jeqb (key (st_meta st)) (key m)) (activePipeline live plugins) = Some st /\ st_profileId st <> js "off".
Proof.
  split.
  - intros (st & Hin & Hk). destruct (List.find _ _) as [st'|] eqn:E.
    + exists st'. split; [done|]. apply find_some in E as [E _]. by eapply pipeline_not_off, list_elem_of_In.
    + apply list_elem_of_In in Hin. apply (List.find_none _ _ E) in Hin. by rewrite Hk, jeqb_refl in Hin.
  - intros (st & [Hin Hk]%find_some & _). exists st. split; [by apply list_elem_of_In|by apply jeqb_true].
Qed.



(** A chip whose profile was deleted shows a select without its value, as in
    the switches of the forms. *)
Lemma chip_without_option r n i live m pid : find_profile pid (profiles_of live m) = None ->
  ~ In (ch_value (chip_of r n i (stage_at live m pid))) (map fst (ch_options (chip_of r n i (stage_at live m pid)))) /\
  ch_summary (chip_of r n i (stage_at live m pid)) = None.
Proof.
  intros Hf. cbn. split; [|by rewrite Hf]. rewrite map_map. cbn. intros (p & Hp & Hin)%in_map_iff.
  unfold find_profile in Hf. apply (List.find_none _ _ Hf) in Hin. by rewrite Hp, jeqb_refl in Hin.
Qed.
