(* ===== verification/L4Acl.v ===== *)
(** * The L4 access-control list editor

    The ACL part of [pages/l4/create/page.tsx] and [pages/l4/edit/page.tsx]:
    a list of CIDR rules with integer priorities, kept in descending
    priority order, which NGINX evaluates first match first. The editor
    state is the rule list, the input row and the error banner; a change of
    the list also runs the effect that proposes the next priority.

    The abstract view of the list is the [policy]: the rules in evaluation
    order, without priorities. The operations refine operations on it. *)

From Stdlib Require Import ZArith Lia String Sorting.Sorted Sorting.Permutation.
From S2P Require Import Prelude JsString JsValue Json JsonFacts.
Local Open Scope Z_scope.

(** ** Data *)

Inductive acl_action := Allow | Deny.

Record L4ACLRule := {
  cidr : jsstring;
  action : acl_action;
  priority : Z;
  rule_description : option jsstring
}.

Record AclEditor := {
  aclRules : list L4ACLRule;
  newPriority : Z;
  newCidr : jsstring;
  newAction : acl_action;
  newDescription : jsstring;
  errorMsg : option jsstring
}.

Inductive direction := Up | Down.

Definition action_eqb (a b : acl_action) : bool :=
  match a, b with Allow, Allow | Deny, Deny => true | _, _ => false end.

Definition set_priority (r : L4ACLRule) (p : Z) : L4ACLRule :=
  {| cidr := cidr r; action := action r; priority := p; rule_description := rule_description r |}.

Definition set_error (s : AclEditor) (m : option jsstring) : AclEditor :=
  {| aclRules := aclRules s; newPriority := newPriority s; newCidr := newCidr s;
     newAction := newAction s; newDescription := newDescription s; errorMsg := m |}.

(** ** Operations *)

(** The comparator [(a, b) => b.priority - a.priority]. *)
Definition by_priority_desc (a b : L4ACLRule) : bool := priority b <=? priority a.
Definition sort_rules : list L4ACLRule -> list L4ACLRule := stable_sort by_priority_desc.

(** [Math.max(...rules.map((r) => r.priority))] of a non-empty list. *)
Fixpoint max_priority (p : Z) (rules : list L4ACLRule) : Z :=
  match rules with [] => p | r :: rules' => Z.max p (max_priority (priority r) rules') end.

Definition next_priority (rules : list L4ACLRule) : Z :=
  match rules with [] => 1 | r :: rules' => max_priority (priority r) rules' + 1 end.

(** [setAclRules] followed by the effect on [aclRules]. *)
Definition set_rules (s : AclEditor) (rules : list L4ACLRule) : AclEditor :=
  {| aclRules := rules; newPriority := next_priority rules; newCidr := newCidr s;
     newAction := newAction s; newDescription := newDescription s; errorMsg := errorMsg s |}.

Definition priority_message : jsstring := js "Priority must be an integer between 1 and 1,000,000.".
Definition priority_taken_message (p : Z) : jsstring :=
  js "Priority " ++ int_string p ++ js " is already in use.".

(** The rule that [handleAddACL] builds from the input row. *)
Definition ruleToAdd (s : AclEditor) : L4ACLRule :=
  {| priority := newPriority s; cidr := trim (newCidr s); action := newAction s;
     rule_description := match trim (newDescription s) with [] => None | d => Some d end |}.

(** [handleAddACL] *)
Definition handleAddACL (s : AclEditor) : AclEditor :=
  if jeqb (trim (newCidr s)) [] then s else
  let p := newPriority s in
  if (p <? 1) || (1000000 <? p) then set_error s (Some priority_message) else
  if existsb (fun r => priority r =? p) (aclRules s)
  then set_error s (Some (priority_taken_message p)) else
  let s' := set_rules s (sort_rules (aclRules s ++ [ruleToAdd s])) in
  {| aclRules := aclRules s'; newPriority := newPriority s'; newCidr := [];
     newAction := newAction s'; newDescription := []; errorMsg := errorMsg s' |}.

Definition is_deny_all (c : jsstring) (a : acl_action) : bool :=
  action_eqb a Deny && jeqb c (js "0.0.0.0/0").

(** The updater of [handleQuickAddRule]. *)
Definition quick_add (c : jsstring) (a : acl_action) (d : jsstring) (prev : list L4ACLRule) : list L4ACLRule :=
  if is_deny_all c a then
    let shifted := map (fun r => set_priority r (priority r + 1)) prev in
    sort_rules (shifted ++ [{| priority := 1; cidr := c; action := a; rule_description := Some d |}])
  else
    sort_rules (prev ++ [{| priority := next_priority prev; cidr := c; action := a; rule_description := Some d |}]).

Definition handleQuickAddRule (s : AclEditor) (c : jsstring) (a : acl_action) (d : jsstring) : AclEditor :=
  set_rules s (quick_add c a d (aclRules s)).

(** [handleRemoveACL] *)
Definition handleRemoveACL (s : AclEditor) (index : nat) : AclEditor :=
  set_rules s (remove_at index (aclRules s)).

(** The guard and the updater of [handleMoveRule]; both indices are in range
    for the buttons that call it. *)
Definition move_blocked (index : nat) (d : direction) (len : nat) : bool :=
  match d with Up => Nat.eqb index 0 | Down => Nat.eqb (index + 1) len end.

Definition target_index (index : nat) (d : direction) : nat :=
  match d with Up => index - 1 | Down => index + 1 end.

Definition swap_priorities (i j : nat) (prev : list L4ACLRule) : list L4ACLRule :=
  match prev !! i, prev !! j with
  | Some current, Some adjacent =>
      sort_rules (<[j := set_priority adjacent (priority current)]>
                    (<[i := set_priority current (priority adjacent)]> prev))
  | _, _ => prev
  end.

Definition handleMoveRule (s : AclEditor) (index : nat) (d : direction) : AclEditor :=
  if move_blocked index d (length (aclRules s)) then s
  else set_rules s (swap_priorities index (target_index index d) (aclRules s)).

(** ** Steps of the editor *)

Inductive acl_step : AclEditor -> unit -> AclEditor -> Prop :=
| StepAdd s : acl_step s tt (handleAddACL s)
| StepQuick s c a d : acl_step s tt (handleQuickAddRule s c a d)
| StepRemove s i : (i < length (aclRules s))%nat -> acl_step s tt (handleRemoveACL s i)
| StepMove s i d : (i < length (aclRules s))%nat -> acl_step s tt (handleMoveRule s i d)
| StepType s p c a d :
    acl_step s tt {| aclRules := aclRules s; newPriority := p; newCidr := c; newAction := a;
                     newDescription := d; errorMsg := errorMsg s |}.

(** ** Invariant: strictly descending, positive priorities *)

Definition acl_inv (rules : list L4ACLRule) : Prop :=
  StronglySorted (fun a b => priority b < priority a) rules /\ Forall (fun r => 1 <= priority r) rules.

(** The abstract list: what NGINX evaluates, in order. *)
Definition policy (rules : list L4ACLRule) : list (jsstring * acl_action * option jsstring) :=
  map (fun r => (cidr r, action r, rule_description r)) rules.

(** ** Lemmas *)

Lemma desc_total a b : by_priority_desc a b = true \/ by_priority_desc b a = true.
Proof. unfold by_priority_desc. rewrite !Z.leb_le. lia. Qed.

Lemma desc_trans a b c :
  by_priority_desc a b = true -> by_priority_desc b c = true -> by_priority_desc a c = true.
Proof. unfold by_priority_desc. rewrite !Z.leb_le. lia. Qed.

Lemma inv_sorted_by rules : acl_inv rules -> sorted_by by_priority_desc rules.
Proof.
  intros [H _]. eapply StronglySorted_impl_in; [|exact H].
  intros x y _ _ Hp. simpl in Hp. apply Z.leb_le. lia.
Qed.

Lemma sort_rules_id rules : acl_inv rules -> sort_rules rules = rules.
Proof. intros H. by apply stable_sort_id, inv_sorted_by. Qed.

(** Sorting rules with distinct priorities gives the strict order. *)
Lemma sort_rules_strict rules :
  NoDup (map priority rules) ->
  StronglySorted (fun a b => priority b < priority a) (sort_rules rules).
Proof.
  intros Hd. rewrite <- (stable_sort_perm by_priority_desc rules) in Hd.
  pose proof (stable_sort_sorted by_priority_desc desc_total desc_trans rules) as Hs.
  fold sort_rules in *. unfold sorted_by in Hs.
  induction Hs as [|x l Hs IH Hx]; simpl in *; constructor; apply NoDup_cons in Hd as [Hn Hd]; auto.
  rewrite Forall_forall in *. intros y Hy. specialize (Hx y Hy). apply Z.leb_le in Hx.
  assert (priority x <> priority y); [|lia]. intros E. apply Hn. rewrite E.
  by apply list_elem_of_In, in_map, list_elem_of_In.
Qed.

Lemma sorted_distinct rules : acl_inv rules -> NoDup (map priority rules).
Proof.
  intros [H _]. induction H as [|x l H IH Hx]; simpl; constructor; [|done].
  intros Hin. apply list_elem_of_In, in_map_iff in Hin as (y & Hy & Hin).
  rewrite Forall_forall in Hx. specialize (Hx y (proj2 (list_elem_of_In _ _) Hin)). lia.
Qed.

Lemma sort_rules_inv rules :
  NoDup (map priority rules) -> Forall (fun r => 1 <= priority r) rules -> acl_inv (sort_rules rules).
Proof.
  intros Hd Hp. split; [by apply sort_rules_strict|].
  unfold sort_rules. by rewrite stable_sort_perm.
Qed.

(** Two sorted lists with the same rules are the same list. *)
Lemma sort_rules_unique l l' : acl_inv l' -> l ≡ₚ l' -> sort_rules l = l'.
Proof.
  intros Hi Hp. apply (StronglySorted_perm_unique (fun a b => priority b < priority a)).
  - intros x y ? ?. lia.
  - apply sort_rules_strict. rewrite Hp. by apply sorted_distinct.
  - apply Hi.
  - unfold sort_rules. by rewrite stable_sort_perm.
Qed.

Lemma max_priority_ge p rules :
  p <= max_priority p rules /\ Forall (fun r => priority r <= max_priority p rules) rules.
Proof.
  revert p; induction rules as [|r rules IH]; intros p; simpl; [split; [lia|constructor]|].
  destruct (IH (priority r)) as [H1 H2]. split; [lia|]. constructor; [lia|].
  eapply Forall_impl; [exact H2|]. simpl. lia.
Qed.

Lemma next_priority_gt rules : Forall (fun r => priority r < next_priority rules) rules.
Proof.
  destruct rules as [|r rules]; [constructor|]. simpl.
  destruct (max_priority_ge (priority r) rules) as [H1 H2]. constructor; [lia|].
  eapply Forall_impl; [exact H2|]. simpl. lia.
Qed.

Lemma next_priority_pos rules : Forall (fun r => 1 <= priority r) rules -> 1 <= next_priority rules.
Proof.
  intros H. destruct rules as [|r rules]; [done|]. simpl.
  destruct (max_priority_ge (priority r) rules). inversion H; subst. lia.
Qed.

(** The two quick-add buttons: "deny all" becomes the last rule, any other
    rule the first. *)
Lemma quick_add_deny d rules :
  acl_inv rules ->
  quick_add (js "0.0.0.0/0") Deny d rules =
  map (fun r => set_priority r (priority r + 1)) rules
  ++ [{| priority := 1; cidr := js "0.0.0.0/0"; action := Deny; rule_description := Some d |}].
Proof.
  intros [Hs Hp]. unfold quick_add. simpl. apply stable_sort_id.
  induction Hs as [|x l Hs IH Hx]; simpl; [repeat constructor|].
  inversion Hp; subst. constructor; [by apply IH|]. apply Forall_app; split.
  - apply Forall_map. eapply Forall_impl; [exact Hx|]. intros y Hy. apply Z.leb_le. simpl in *. lia.
  - repeat constructor. apply Z.leb_le. simpl. lia.
Qed.

Lemma quick_add_first c a d rules :
  acl_inv rules -> is_deny_all c a = false ->
  quick_add c a d rules =
  {| priority := next_priority rules; cidr := c; action := a; rule_description := Some d |} :: rules.
Proof.
  intros [Hs Hp] Hd. unfold quick_add. rewrite Hd.
  apply sort_rules_unique; [|by rewrite Permutation_app_comm].
  split; constructor; try done; [|by apply next_priority_pos].
  apply next_priority_gt.
Qed.

Lemma is_deny_all_true c a : is_deny_all c a = true -> a = Deny /\ c = js "0.0.0.0/0".
Proof. unfold is_deny_all. destruct a; simpl; [done|]. intros H%jeqb_true. done. Qed.

Lemma shift_inv rules : acl_inv rules -> acl_inv (map (fun r => set_priority r (priority r + 1)) rules).
Proof.
  intros [Hs Hp]. split.
  - apply StronglySorted_map. simpl. eapply StronglySorted_impl_in; [|exact Hs]. simpl. lia.
  - apply Forall_map. eapply Forall_impl; [exact Hp|]. simpl. lia.
Qed.

Lemma snoc_inv rules r :
  acl_inv rules -> Forall (fun x => priority r < priority x) rules -> 1 <= priority r ->
  acl_inv (rules ++ [r]).
Proof.
  intros [Hs Hp] Hr Hr1. split; [|apply Forall_app; split; [done|by repeat constructor]].
  clear Hp. induction Hs as [|x l Hs IH Hx]; simpl; [repeat constructor|].
  inversion Hr; subst. constructor; [auto|]. apply Forall_app; split; [done|by repeat constructor].
Qed.

Lemma quick_add_inv c a d rules : acl_inv rules -> acl_inv (quick_add c a d rules).
Proof.
  intros Hi. destruct (is_deny_all c a) eqn:E.
  - apply is_deny_all_true in E as [-> ->]. rewrite quick_add_deny by done.
    apply snoc_inv; [by apply shift_inv| |done].
    apply Forall_map. destruct Hi as [_ Hp]. eapply Forall_impl; [exact Hp|]. simpl. lia.
  - rewrite quick_add_first by done. destruct Hi as [Hs Hp].
    split; constructor; try done; [apply next_priority_gt|by apply next_priority_pos].
Qed.

Lemma remove_at_inv i rules : acl_inv rules -> acl_inv (remove_at i rules).
Proof.
  intros [Hs Hp]. split; [eapply StronglySorted_sublist; [apply remove_at_sublist|done]|].
  rewrite Forall_forall in *. intros x Hx. apply Hp. eapply elem_of_sublist; [done|apply remove_at_sublist].
Qed.

Lemma add_inv p c a d rules :
  acl_inv rules -> 1 <= p -> existsb (fun r => priority r =? p) rules = false ->
  acl_inv (sort_rules (rules ++ [{| priority := p; cidr := c; action := a; rule_description := d |}])).
Proof.
  intros Hi Hp He. apply sort_rules_inv.
  - rewrite map_app. simpl. apply NoDup_app. split; [by apply sorted_distinct|].
    split; [|apply NoDup_singleton]. intros x Hx Hx'. apply list_elem_of_singleton in Hx' as ->.
    apply list_elem_of_In, in_map_iff in Hx as (r & Hr & Hin).
    assert (existsb (fun r => priority r =? p) rules = true); [|congruence].
    apply existsb_exists. exists r. split; [done|]. by apply Z.eqb_eq.
  - apply Forall_app. split; [apply Hi|by repeat constructor].
Qed.

(** The invariant only depends on the priorities. *)
Lemma acl_inv_priorities l l' : map priority l = map priority l' -> acl_inv l -> acl_inv l'.
Proof.
  unfold acl_inv. intros E [Hs Hp].
  apply (StronglySorted_map priority (fun x y => y < x)) in Hs. rewrite E in Hs.
  split; [by apply (StronglySorted_map priority (fun x y => y < x))|].
  change (Forall ((fun p => 1 <= p) ∘ priority) l'). rewrite <- Forall_fmap.
  change (Forall (fun p => 1 <= p) (map priority l')). rewrite <- E. by apply Forall_map.
Qed.

Definition exchanged (l1 : list L4ACLRule) (a b : L4ACLRule) (l2 : list L4ACLRule) : list L4ACLRule :=
  l1 ++ set_priority b (priority a) :: set_priority a (priority b) :: l2.

Lemma swap_adjacent l1 a b l2 i j :
  acl_inv (l1 ++ a :: b :: l2) ->
  (i = length l1 /\ j = S (length l1)) \/ (i = S (length l1) /\ j = length l1) ->
  swap_priorities i j (l1 ++ a :: b :: l2) = exchanged l1 a b l2.
Proof.
  intros Hi Hij. unfold swap_priorities.
  assert ((l1 ++ a :: b :: l2) !! length l1 = Some a) as Ha by (by rewrite lookup_app_r, Nat.sub_diag).
  assert ((l1 ++ a :: b :: l2) !! S (length l1) = Some b) as Hb
    by (rewrite lookup_app_r by lia; by replace (S (length l1) - length l1)%nat with 1%nat by lia).
  assert (forall x, <[length l1 := x]> (l1 ++ a :: b :: l2) = l1 ++ x :: b :: l2) as Hins1
    by (intros x; by rewrite insert_app_r_alt, Nat.sub_diag by lia).
  assert (forall x y, <[S (length l1) := y]> (l1 ++ x :: b :: l2) = l1 ++ x :: y :: l2) as Hins2
    by (intros x y; rewrite insert_app_r_alt by lia; by replace (S (length l1) - length l1)%nat with 1%nat by lia).
  assert (acl_inv (exchanged l1 a b l2)) as Hx.
  { eapply acl_inv_priorities; [|exact Hi]. unfold exchanged. by rewrite !map_app. }
  destruct Hij as [[-> ->]|[-> ->]]; rewrite Ha, Hb; apply sort_rules_unique; try done.
  - rewrite Hins1, Hins2. unfold exchanged. apply Permutation_app_head, Permutation_swap.
  - rewrite list_insert_insert_ne, Hins1, Hins2 by lia. unfold exchanged.
    apply Permutation_app_head, Permutation_swap.
Qed.

Lemma split_two (rules : list L4ACLRule) i :
  (S i < length rules)%nat -> exists l1 a b l2, rules = l1 ++ a :: b :: l2 /\ length l1 = i.
Proof.
  intros Hi. exists (take i rules).
  destruct (lookup_lt_is_Some_2 rules i ltac:(lia)) as [a Ha].
  destruct (lookup_lt_is_Some_2 rules (S i) Hi) as [b Hb].
  exists a, b, (drop (S (S i)) rules). split; [|rewrite length_take; lia].
  by rewrite <- (drop_S _ _ _ Hb), <- (drop_S _ _ _ Ha), take_drop.
Qed.

(** The pair of positions a move works on. *)
Lemma move_exchanges s i d :
  acl_inv (aclRules s) -> (i < length (aclRules s))%nat ->
  move_blocked i d (length (aclRules s)) = false ->
  exists l1 a b l2, aclRules s = l1 ++ a :: b :: l2
    /\ length l1 = match d with Up => (i - 1)%nat | Down => i end
    /\ aclRules (handleMoveRule s i d) = exchanged l1 a b l2.
Proof.
  intros Hinv Hi Hb. unfold handleMoveRule. rewrite Hb. simpl.
  destruct d; simpl in *; apply Nat.eqb_neq in Hb.
  - destruct (split_two (aclRules s) (i - 1) ltac:(lia)) as (l1 & a & b & l2 & E & Hl).
    exists l1, a, b, l2. rewrite E in *. repeat split; [done|].
    apply swap_adjacent; [done|]. right. lia.
  - destruct (split_two (aclRules s) i ltac:(lia)) as (l1 & a & b & l2 & E & Hl).
    exists l1, a, b, l2. rewrite E in *. repeat split; [done|].
    apply swap_adjacent; [done|]. left. lia.
Qed.

Lemma move_inv s i d :
  acl_inv (aclRules s) -> (i < length (aclRules s))%nat -> acl_inv (aclRules (handleMoveRule s i d)).
Proof.
  intros Hinv Hi. destruct (move_blocked i d (length (aclRules s))) eqn:E.
  - unfold handleMoveRule. by rewrite E.
  - destruct (move_exchanges s i d Hinv Hi E) as (l1 & a & b & l2 & Hs & _ & ->).
    eapply acl_inv_priorities; [|exact Hinv]. rewrite Hs. unfold exchanged. by rewrite !map_app.
Qed.

Lemma step_inv s l s' : acl_inv (aclRules s) -> acl_step s l s' -> acl_inv (aclRules s').
Proof.
  intros Hi Hstep. destruct Hstep; try done.
  - unfold handleAddACL. case_if; [done|]. case_if; [done|]. case_if; [done|]. simpl. boolify.
    by apply add_inv.
  - by apply quick_add_inv.
  - by apply remove_at_inv.
  - by apply move_inv.
Qed.

(** ** Theorems *)

(** C6: in every state the ACL editor can reach from a list in strictly
    descending priority order (the empty list included), whatever the order
    of additions, quick additions, removals and moves, the rules are strictly descending in priority, so priorities are distinct and the
    stored order is the evaluation order; and every priority is positive. *)
Theorem acl_reachable_invariant (s s' : AclEditor) (n : list unit) :
  acl_inv (aclRules s) -> star acl_step s n s' ->
  acl_inv (aclRules s') /\ NoDup (map priority (aclRules s')) /\ sort_rules (aclRules s') = aclRules s'.
Proof.
  intros Hs Hstar.
  assert (acl_inv (aclRules s')) as Hi.
  { by eapply (star_invariant acl_step (fun s => acl_inv (aclRules s))); [apply step_inv| |exact Hstar]. }
  split; [done|]. split; [by apply sorted_distinct|by apply sort_rules_id].
Qed.

(** C27: the editor implements the evaluation-order list: a quick "deny all"
    goes after every rule, any other quick rule goes before every rule, a
    removal removes that position, and an allowed move exchanges the rule
    with its neighbour and leaves the rest in place. *)
Theorem acl_refines_policy (s : AclEditor) (c : jsstring) (a : acl_action) (d : jsstring)
    (i : nat) (dir : direction) :
  acl_inv (aclRules s) -> (i < length (aclRules s))%nat ->
  policy (aclRules (handleQuickAddRule s c a d))
    = (if is_deny_all c a then policy (aclRules s) ++ [(c, a, Some d)]
       else (c, a, Some d) :: policy (aclRules s)) /\
  policy (aclRules (handleRemoveACL s i)) = remove_at i (policy (aclRules s)) /\
  (move_blocked i dir (length (aclRules s)) = false ->
   exists p1 x y p2, policy (aclRules s) = p1 ++ x :: y :: p2
     /\ length p1 = (match dir with Up => i - 1 | Down => i end)%nat
     /\ policy (aclRules (handleMoveRule s i dir)) = p1 ++ y :: x :: p2).
Proof.
  intros Hinv Hi. repeat split.
  - simpl. destruct (is_deny_all c a) eqn:E.
    + apply is_deny_all_true in E as [-> ->]. rewrite quick_add_deny by done.
      unfold policy. by rewrite map_app, map_map.
    + by rewrite quick_add_first.
  - simpl. generalize (aclRules s) as l, i. clear.
    induction l as [|r l IH]; intros [|i]; simpl; [done..|]. unfold policy in IH. by rewrite IH.
  - intros Hb. destruct (move_exchanges s i dir Hinv Hi Hb) as (l1 & x & y & l2 & Hs & Hl & ->).
    exists (policy l1), (cidr x, action x, rule_description x), (cidr y, action y, rule_description y), (policy l2).
    rewrite Hs. unfold policy, exchanged. rewrite !map_app, length_map. done.
Qed.

(** A typed rule is added exactly when its CIDR is not blank, its
    priority is between 1 and 1,000,000 and not in use; otherwise the list
    is unchanged, and the two priority errors are reported. *)
Theorem handleAddACL_branches (s : AclEditor) :
  let s' := handleAddACL s in
  let p := newPriority s in
  let fresh := existsb (fun r => priority r =? p) (aclRules s) = false in
  (trim (newCidr s) = [] -> s' = s) /\
  (trim (newCidr s) <> [] -> ~ (1 <= p <= 1000000) ->
     aclRules s' = aclRules s /\ errorMsg s' = Some priority_message) /\
  (trim (newCidr s) <> [] -> 1 <= p <= 1000000 -> ~ fresh ->
     aclRules s' = aclRules s /\ errorMsg s' = Some (priority_taken_message p)) /\
  (trim (newCidr s) <> [] -> 1 <= p <= 1000000 -> fresh ->
     aclRules s' ≡ₚ ruleToAdd s :: aclRules s /\ newCidr s' = []).
Proof.
  cbv zeta. unfold handleAddACL. repeat split; intros; boolify.
  1: by rewrite (proj2 (jeqb_true _ _)).
  all: rewrite (proj2 (jeqb_false _ _)) by done.
  - destruct (_ || _) eqn:E; [done|]. boolify. lia.
  - destruct (_ || _) eqn:E; [done|]. boolify. lia.
  - destruct (_ || _) eqn:E; [apply orb_true_iff in E as [E|E]; boolify; lia|].
    by destruct (existsb _ _).
  - destruct (_ || _) eqn:E; [apply orb_true_iff in E as [E|E]; boolify; lia|].
    by destruct (existsb _ _).
  - destruct (_ || _) eqn:E; [apply orb_true_iff in E as [E|E]; boolify; lia|].
    rewrite H1. simpl. unfold sort_rules. by rewrite stable_sort_perm, Permutation_app_comm.
  - destruct (_ || _) eqn:E; [apply orb_true_iff in E as [E|E]; boolify; lia|].
    by rewrite H1.
Qed.

(** The upper bound that a typed rule respects is not kept by the quick
    buttons: the proposed priority and the shift of "deny all" exceed it. *)
Definition full_priority_editor : AclEditor :=
  {| aclRules := [{| cidr := js "10.0.0.0/8"; action := Allow; priority := 1000000; rule_description := None |}];
     newPriority := 1000001; newCidr := []; newAction := Allow; newDescription := []; errorMsg := None |}.

Lemma quick_add_exceeds_bound :
  map priority (aclRules (handleQuickAddRule full_priority_editor (js "0.0.0.0/0") Deny (js "x")))
    = [1000001; 1] /\
  map priority (aclRules (handleQuickAddRule full_priority_editor (js "10.1.0.0/16") Allow (js "x")))
    = [1000001; 1000000].
Proof. split; reflexivity. Qed.

(** ** Instances *)

Definition empty_editor : AclEditor :=
  {| aclRules := []; newPriority := 1; newCidr := js "10.0.0.0/8"; newAction := Allow;
     newDescription := []; errorMsg := None |}.

Definition two_rules : AclEditor :=
  handleQuickAddRule (handleAddACL empty_editor) (js "0.0.0.0/0") Deny (js "Block all other IPs").

Lemma acl_reachable_invariant_witness :
  acl_inv (aclRules two_rules) /\ NoDup (map priority (aclRules two_rules)) /\
  sort_rules (aclRules two_rules) = aclRules two_rules.
Proof.
  apply (acl_reachable_invariant empty_editor two_rules [tt; tt]); [split; constructor|].
  eapply star_cons; [apply StepAdd|]. eapply star_cons; [apply StepQuick|]. apply star_nil.
Defined.

Lemma acl_refines_policy_witness :
  policy (aclRules (handleMoveRule two_rules 1 Up))
  = [(js "0.0.0.0/0", Deny, Some (js "Block all other IPs")); (js "10.0.0.0/8", Allow, None)].
Proof.
  assert (acl_inv (aclRules two_rules)) as Hi
    by (split; repeat constructor; simpl; lia).
  destruct (acl_refines_policy two_rules [] Allow [] 1 Up Hi ltac:(simpl; lia)) as (_ & _ & H).
  destruct (H eq_refl) as (p1 & x & y & p2 & E & Hl & ->).
  simpl in E, Hl. destruct p1; [|discriminate]. simpl in E. injection E as <- <- <-. reflexivity.
Defined.

(** ** The edit page

    [pages/l4/edit/page.tsx] repeats the handlers of the create page line for
    line over its own state. *)

Definition edit_next_priority : list L4ACLRule -> Z := next_priority.
Definition edit_handleAddACL : AclEditor -> AclEditor := handleAddACL.
Definition edit_handleQuickAddRule : AclEditor -> jsstring -> acl_action -> jsstring -> AclEditor := handleQuickAddRule.
Definition edit_handleRemoveACL : AclEditor -> nat -> AclEditor := handleRemoveACL.
Definition edit_handleMoveRule : AclEditor -> nat -> direction -> AclEditor := handleMoveRule.
