(* ===== verification/L4Forms.v ===== *)
(** * The L4 service forms

    [pages/l4/create/page.tsx] and [pages/l4/edit/page.tsx] around the ACL
    editor: the form state, loading (the upstream choices, the service under
    edit), the NGINX preview, the guards and payload of a submission and what
    its outcome does. The two pages share their fields and handlers; they
    differ in the initial port, the load and the request. *)

From Stdlib Require Import ZArith NArith Lia String.
From S2P Require Import Prelude JsString JsValue Json JsonFacts Urls Fetcher Api L4Acl.
Import L4Api.
Local Open Scope string_scope.
Local Open Scope list_scope.

(** ** State *)

Inductive proto := Tcp | Udp.

Definition proto_string (p : proto) : jsstring := match p with Tcp => js "tcp" | Udp => js "udp" end.

(** [port] is a number or the empty string of a cleared input. The banner
    [errorMsg] is that of the ACL editor, which shares it. *)
Record L4Form := {
  f_name : jsstring;
  f_protocol : proto;
  f_port : option Z;
  f_enabled : bool;
  f_description : jsstring;
  f_targetType : target;
  f_upstream : jsstring;
  f_endpoint : jsstring;
  f_acl : AclEditor;
  f_proxyTimeout : jsstring;
  f_connectTimeout : jsstring;
  f_available : list jsstring;
  f_loading : bool;
  f_isSubmitting : bool
}.

Definition blank_acl : AclEditor :=
  {| aclRules := []; newPriority := 1; newCidr := []; newAction := Allow; newDescription := []; errorMsg := None |}.

Definition initial_form (port : option Z) : L4Form :=
  {| f_name := []; f_protocol := Tcp; f_port := port; f_enabled := true; f_description := [];
     f_targetType := TUpstream; f_upstream := []; f_endpoint := []; f_acl := blank_acl;
     f_proxyTimeout := js "1h"; f_connectTimeout := js "5s"; f_available := [];
     f_loading := true; f_isSubmitting := false |}.

Definition create_initial : L4Form := initial_form None.
Definition edit_initial : L4Form := initial_form (Some 5432%Z).

Definition with_acl (s : L4Form) (a : AclEditor) : L4Form :=
  {| f_name := f_name s; f_protocol := f_protocol s; f_port := f_port s; f_enabled := f_enabled s;
     f_description := f_description s; f_targetType := f_targetType s; f_upstream := f_upstream s;
     f_endpoint := f_endpoint s; f_acl := a; f_proxyTimeout := f_proxyTimeout s;
     f_connectTimeout := f_connectTimeout s; f_available := f_available s; f_loading := f_loading s;
     f_isSubmitting := f_isSubmitting s |}.

Definition with_error (s : L4Form) (m : option jsstring) : L4Form := with_acl s (set_error (f_acl s) m).

Definition with_submitting (s : L4Form) (b : bool) : L4Form :=
  {| f_name := f_name s; f_protocol := f_protocol s; f_port := f_port s; f_enabled := f_enabled s;
     f_description := f_description s; f_targetType := f_targetType s; f_upstream := f_upstream s;
     f_endpoint := f_endpoint s; f_acl := f_acl s; f_proxyTimeout := f_proxyTimeout s;
     f_connectTimeout := f_connectTimeout s; f_available := f_available s; f_loading := f_loading s;
     f_isSubmitting := b |}.

Definition with_upstreams (s : L4Form) (names : list jsstring) (selected : jsstring) : L4Form :=
  {| f_name := f_name s; f_protocol := f_protocol s; f_port := f_port s; f_enabled := f_enabled s;
     f_description := f_description s; f_targetType := f_targetType s; f_upstream := selected;
     f_endpoint := f_endpoint s; f_acl := f_acl s; f_proxyTimeout := f_proxyTimeout s;
     f_connectTimeout := f_connectTimeout s; f_available := names; f_loading := f_loading s;
     f_isSubmitting := f_isSubmitting s |}.

Definition with_loading (s : L4Form) (b : bool) : L4Form :=
  {| f_name := f_name s; f_protocol := f_protocol s; f_port := f_port s; f_enabled := f_enabled s;
     f_description := f_description s; f_targetType := f_targetType s; f_upstream := f_upstream s;
     f_endpoint := f_endpoint s; f_acl := f_acl s; f_proxyTimeout := f_proxyTimeout s;
     f_connectTimeout := f_connectTimeout s; f_available := f_available s; f_loading := b;
     f_isSubmitting := f_isSubmitting s |}.

(** The upstream list has arrived on a mounted create page; of an upstream
    the form uses the name. *)
Definition upstreams_loaded (s : L4Form) (res : result ApiError (option (list jsstring))) : L4Form :=
  with_loading
    (match res with
     | Ok items =>
         let items := default [] items in
         with_upstreams s items (match items with u :: _ => u | [] => f_upstream s end)
     | Throw _ => s
     end) false.

(** ** ACL rules as JSON *)

Definition action_string (a : acl_action) : jsstring := match a with Allow => js "allow" | Deny => js "deny" end.

(** The members in the order [handleAddACL] writes them; an absent
    description is dropped. *)
Definition rule_val (r : L4ACLRule) : val :=
  VObj ([(js "priority", VInt (priority r)); (js "cidr", VStr (cidr r)); (js "action", VStr (action_string (action r)))]
        ++ match rule_description r with Some d => [(js "description", VStr d)] | None => [] end).

Definition acl_json (rules : list L4ACLRule) : jsstring := ser [] [] (VArr (map rule_val rules)).

Definition rule_of_val (v : val) : option L4ACLRule :=
  match v with
  | VObj o =>
      match prop (js "priority") o, prop (js "cidr") o, prop (js "action") o, prop (js "description") o with
      | VNum n, VStr c, VStr a, d =>
          p ← num_to_Z n;
          a ← (if jeqb a (js "allow") then Some Allow else if jeqb a (js "deny") then Some Deny else None);
          d ← match d with VUndef => Some None | VStr s => Some (Some s) | _ => None end;
          Some {| priority := p; cidr := c; action := a; rule_description := d |}
      | _, _, _, _ => None
      end
  | _ => None
  end.

(** [parsedAcl] of the edit page: unreadable text is the empty list; a value
    that is no array has no [sort]; [None] is an array whose members are
    not rules, which the types of the page exclude. *)
Inductive parsed_acl := AclRules (l : list L4ACLRule) | NotAnArray.

Definition parse_acl (text : jsstring) : option parsed_acl :=
  match parse (str_or text (js "[]")) with
  | None => Some (AclRules [])
  | Some (VArr l) => option_map AclRules (mapM rule_of_val l)
  | Some _ => Some NotAnArray
  end.

Section Forms.
Context `{CaseMapping}.

(** The engine's message for calling a method that does not exist. *)
Variable not_a_function : jsstring.

(** ** Loading the service under edit *)

Definition load_basic (s : L4Form) (svc : L4ServiceItem) (ups : list jsstring) : L4Form :=
  {| f_name := name svc;
     f_protocol := if jeqb (toLowerCase (protocol svc)) (js "udp") then Udp else Tcp;
     f_port := Some (listen_port svc);
     f_enabled := enabled svc;
     f_description := str_or (description svc) [];
     f_targetType := f_targetType s; f_upstream := f_upstream s; f_endpoint := f_endpoint s;
     f_acl := f_acl s;
     f_proxyTimeout := str_or (proxy_timeout svc) (js "1h");
     f_connectTimeout := str_or (proxy_connect_timeout svc) (js "5s");
     f_available := ups; f_loading := f_loading s; f_isSubmitting := f_isSubmitting s |}.

Definition with_target (s : L4Form) (t : target) (up ep : jsstring) : L4Form :=
  {| f_name := f_name s; f_protocol := f_protocol s; f_port := f_port s; f_enabled := f_enabled s;
     f_description := f_description s; f_targetType := t; f_upstream := up; f_endpoint := ep;
     f_acl := f_acl s; f_proxyTimeout := f_proxyTimeout s; f_connectTimeout := f_connectTimeout s;
     f_available := f_available s; f_loading := f_loading s; f_isSubmitting := f_isSubmitting s |}.

Definition detect_target (s : L4Form) (svc : L4ServiceItem) : L4Form :=
  if jeqb (forward_target_type svc) (js "endpoint")
     || (jeqb (upstream_name svc) [] && negb (jeqb (direct_endpoint svc) []))
  then with_target s TEndpoint (f_upstream s) (str_or (direct_endpoint svc) [])
  else with_target s TUpstream (str_or (upstream_name svc) []) (f_endpoint s).

Definition load_service (s : L4Form) (svc : result ApiError L4ServiceItem) (ups : list jsstring) : option L4Form :=
  match svc with
  | Throw e => Some (with_loading (with_error s (Some (str_or (err_message e) (js "Failed to load L4 service details")))) false)
  | Ok svc =>
      let s1 := load_basic s svc ups in
      match parse_acl (acl_rules_json svc) with
      | None => None
      | Some NotAnArray => Some (with_loading (with_error s1 (Some not_a_function)) false)
      | Some (AclRules parsed) =>
          let s2 := with_acl s1 (set_rules (f_acl s1) (sort_rules parsed)) in
          Some (with_loading (detect_target s2 svc) false)
      end
  end.

(** ** NGINX preview *)

Definition acl_line (r : L4ACLRule) : jsstring :=
  let comment :=
    match rule_description r with
    | Some (c :: d) => js " # Priority " ++ int_string (priority r) ++ js ": " ++ c :: d
    | _ => js " # Priority " ++ int_string (priority r)
    end in
  js "    " ++ action_string (action r) ++ js " " ++ cidr r ++ js ";" ++ comment.

Definition preview_lines (s : L4Form) : list jsstring :=
  [js "server {";
   js "    listen " ++ int_string (default 0%Z (f_port s))
     ++ (match f_protocol s with Udp => js " udp" | Tcp => [] end) ++ js ";"]
  ++ (match aclRules (f_acl s) with
      | [] => []
      | rules => js "    # Access Control List (Evaluated sequentially: first match wins)"
                 :: map acl_line (sort_rules rules)
      end)
  ++ [match f_targetType s with
      | TEndpoint => js "    proxy_pass " ++ str_or (f_endpoint s) (js "127.0.0.1:0") ++ js ";"
      | TUpstream => js "    proxy_pass l4_" ++ str_or (f_upstream s) (js "upstream_pool") ++ js ";"
      end]
  ++ (match f_proxyTimeout s with [] => [] | t => [js "    proxy_timeout " ++ t ++ js ";"] end)
  ++ (match f_connectTimeout s with [] => [] | t => [js "    proxy_connect_timeout " ++ t ++ js ";"] end)
  ++ [js "}"].

Definition nginxPreview (s : L4Form) : jsstring := join [10%N] (preview_lines s).

(** The edit page renders the same text. *)
Definition edit_nginxPreview : L4Form -> jsstring := nginxPreview.

(** ** Submission *)

Definition port_ok (p : option Z) : bool :=
  match p with Some n => negb (n =? 0)%Z && negb (n <? 1)%Z && negb (65535 <? n)%Z | None => false end.

(** The guards in their order, then the payload. *)
Definition submit_payload (s : L4Form) : result jsstring L4Payload :=
  if jeqb (trim (f_name s)) [] then Throw (js "Service Name is required.") else
  if negb (port_ok (f_port s)) then Throw (js "Listen Port must be between 1 and 65535.") else
  let payload up ep :=
    {| p_name := trim (f_name s); p_protocol := proto_string (f_protocol s);
       p_listen_port := default 0%Z (f_port s); p_forward_target_type := Some (f_targetType s);
       p_upstream_name := Some up; p_direct_endpoint := Some ep;
       p_acl_rules_json := acl_json (sort_rules (aclRules (f_acl s)));
       p_proxy_timeout := Some (str_or (trim (f_proxyTimeout s)) (js "1h"));
       p_proxy_connect_timeout := Some (str_or (trim (f_connectTimeout s)) (js "5s"));
       p_enabled := Some (f_enabled s); p_description := Some (trim (f_description s)) |} in
  match f_targetType s with
  | TUpstream =>
      if jeqb (trim (f_upstream s)) [] then Throw (js "Please select an Upstream Pool.")
      else Ok (payload (trim (f_upstream s)) [])
  | TEndpoint =>
      if jeqb (trim (f_endpoint s)) [] then Throw (js "Please specify a Direct Target Address (IP:Port).")
      else Ok (payload [] (trim (f_endpoint s)))
  end.

(** [handleSubmit] up to its [await], given the request of a payload. *)
Definition submit_start (request : L4Payload -> call) (s : L4Form) : L4Form * option call :=
  match submit_payload s with
  | Throw m => (with_error s (Some m), None)
  | Ok p => (with_submitting (with_error s None) true, Some (request p))
  end.

(** ... and from it: the new state and where the page navigates to. *)
Definition submit_finish (fallback : jsstring) (s : L4Form) (r : result ApiError val) : L4Form * option jsstring :=
  match r with
  | Ok _ => (with_submitting s false, Some (js "/l4"))
  | Throw e => (with_submitting (with_error s (Some (str_or (err_message e) fallback))) false, None)
  end.

Definition create_handleSubmit (s : L4Form) : L4Form * option call := submit_start l4_createService s.
Definition create_submitted : L4Form -> result ApiError val -> L4Form * option jsstring :=
  submit_finish (js "Failed to create L4 service").

(** The edit page does nothing without an id in its URL. *)
Definition edit_handleSubmit (id : jsstring) (s : L4Form) : L4Form * option call :=
  match id with [] => (s, None) | _ => submit_start (l4_updateService id) s end.
Definition edit_submitted : L4Form -> result ApiError val -> L4Form * option jsstring :=
  submit_finish (js "Failed to update L4 service").

End Forms.

(** ** Lemmas *)

Definition rule_ok (r : L4ACLRule) : Prop :=
  units_ok (cidr r) /\ match rule_description r with Some d => units_ok d | None => True end.

Lemma js_units_ok s : units_okb (js s) = true -> units_ok (js s).
Proof. apply units_okb_sound. Qed.

Lemma rule_val_ok r : rule_ok r -> json_ok (rule_val r).
Proof.
  intros [Hc Hd]. apply json_ok_obj.
  assert (json_ok (VStr (action_string (action r)))) as Ha by (destruct (action r); by apply js_units_ok).
  assert (json_ok (VInt (priority r))) as Hp by apply num_of_Z_canonical.
  split; [apply obj_wfb_sound; by destruct (rule_description r)|].
  destruct (rule_description r); repeat constructor; try done; try (by apply js_units_ok).
Qed.

Lemma rule_roundtrip r : rule_of_val (rule_val r) = Some r.
Proof.
  destruct r as [c a p d]. unfold rule_of_val, rule_val. simpl.
  destruct d; cbn -[num_to_Z num_of_Z]; rewrite num_to_of_Z; by destruct a.
Qed.

#[local] Arguments rule_of_val : simpl never.

Lemma rules_roundtrip rules : mapM rule_of_val (map rule_val rules) = Some rules.
Proof. induction rules as [|r rules IH]; simpl; [done|]. by rewrite rule_roundtrip, IH. Qed.

Lemma acl_json_roundtrip rules :
  Forall rule_ok rules -> parse_acl (acl_json rules) = Some (AclRules rules).
Proof.
  intros Hr. unfold parse_acl.
  replace (str_or (acl_json rules) (js "[]")) with (acl_json rules).
  - unfold acl_json. rewrite parse_ser; [by rewrite rules_roundtrip|constructor|].
    apply json_ok_arr, Forall_map. eapply Forall_impl; [exact Hr|]. intros r. apply rule_val_ok.
  - unfold acl_json. by destruct rules.
Qed.

Lemma port_ok_spec p : port_ok p = true <-> exists n, p = Some n /\ (1 <= n <= 65535)%Z.
Proof.
  destruct p as [n|]; simpl; [|split; [done|by intros (n & ? & _)]].
  rewrite !andb_true_iff, !negb_true_iff, Z.eqb_neq, !Z.ltb_ge. split.
  - intros. exists n. split; [done|lia].
  - intros (m & [= ->] & ?). lia.
Qed.

(** What the guards ask for. *)
Definition submittable (s : L4Form) : Prop :=
  trim (f_name s) <> [] /\ (exists n, f_port s = Some n /\ (1 <= n <= 65535)%Z) /\
  match f_targetType s with TUpstream => trim (f_upstream s) <> [] | TEndpoint => trim (f_endpoint s) <> [] end.

Lemma submit_payload_ok s : (exists p, submit_payload s = Ok p) <-> submittable s.
Proof.
  unfold submit_payload, submittable.
  rewrite <- port_ok_spec. destruct (jeqb (trim (f_name s)) []) eqn:E.
  { apply jeqb_true in E. split; [by intros [? [=]]|by intros [? _]]. }
  apply jeqb_false in E. destruct (port_ok (f_port s)) eqn:Ep; simpl; [|split; [by intros [? [=]]|by intros (_ & [=] & _)]].
  destruct (f_targetType s).
  - destruct (jeqb (trim (f_upstream s)) []) eqn:Eu; [apply jeqb_true in Eu|apply jeqb_false in Eu];
      split; try naive_solver.
  - destruct (jeqb (trim (f_endpoint s)) []) eqn:Eu; [apply jeqb_true in Eu|apply jeqb_false in Eu];
      split; try naive_solver.
Qed.

(** The one payload a form can send. *)
Definition payload_of (s : L4Form) : L4Payload :=
  {| p_name := trim (f_name s); p_protocol := proto_string (f_protocol s);
     p_listen_port := default 0%Z (f_port s); p_forward_target_type := Some (f_targetType s);
     p_upstream_name := Some (match f_targetType s with TUpstream => trim (f_upstream s) | TEndpoint => [] end);
     p_direct_endpoint := Some (match f_targetType s with TUpstream => [] | TEndpoint => trim (f_endpoint s) end);
     p_acl_rules_json := acl_json (sort_rules (aclRules (f_acl s)));
     p_proxy_timeout := Some (str_or (trim (f_proxyTimeout s)) (js "1h"));
     p_proxy_connect_timeout := Some (str_or (trim (f_connectTimeout s)) (js "5s"));
     p_enabled := Some (f_enabled s); p_description := Some (trim (f_description s)) |}.

Lemma submit_payload_value s p : submit_payload s = Ok p -> p = payload_of s.
Proof.
  unfold submit_payload, payload_of. destruct (f_targetType s); repeat case_if; by intros [= <-].
Qed.

Lemma submit_payload_eq s : submittable s -> submit_payload s = Ok (payload_of s).
Proof. intros [p Hp]%submit_payload_ok. by rewrite Hp, (submit_payload_value s p Hp). Qed.

(** A service as stored from a payload. *)
Definition stored (sid created updated : jsstring) (p : L4Payload) : L4ServiceItem :=
  {| id := sid; name := p_name p; protocol := p_protocol p; listen_port := p_listen_port p;
     forward_target_type := match p_forward_target_type p with Some t => target_string t | None => [] end;
     upstream_name := default [] (p_upstream_name p); direct_endpoint := default [] (p_direct_endpoint p);
     acl_rules_json := p_acl_rules_json p; proxy_timeout := default [] (p_proxy_timeout p);
     proxy_connect_timeout := default [] (p_proxy_connect_timeout p);
     enabled := default false (p_enabled p); description := default [] (p_description p);
     created_at := created; updated_at := updated |}.

(** The lower-casing of an ASCII protocol name is the engine's. *)
Lemma proto_lower `{CaseMapping} p :
  (if jeqb (toLowerCase (proto_string p)) (js "udp") then Udp else Tcp) = p.
Proof. destruct p; simpl; rewrite toLowerCase_ascii by (by repeat constructor); reflexivity. Qed.

(** Loading a stored service gives back the fields of its payload. *)
Lemma load_stored `{CaseMapping} nf s0 s sid created updated ups :
  submittable s -> acl_inv (aclRules (f_acl s)) -> Forall rule_ok (aclRules (f_acl s)) ->
  exists s', load_service nf s0 (Ok (stored sid created updated (payload_of s))) ups = Some s' /\
    f_name s' = trim (f_name s) /\ f_protocol s' = f_protocol s /\ f_port s' = f_port s /\
    f_enabled s' = f_enabled s /\ f_description s' = trim (f_description s) /\
    f_targetType s' = f_targetType s /\
    match f_targetType s with
    | TUpstream => f_upstream s' = trim (f_upstream s)
    | TEndpoint => f_endpoint s' = trim (f_endpoint s)
    end /\
    aclRules (f_acl s') = aclRules (f_acl s) /\
    f_proxyTimeout s' = str_or (trim (f_proxyTimeout s)) (js "1h") /\
    f_connectTimeout s' = str_or (trim (f_connectTimeout s)) (js "5s").
Proof.
  intros (Hn & (port & Hp & Hr) & Ht) Hi Hok. unfold load_service. cbn [acl_rules_json stored payload_of p_acl_rules_json].
  rewrite (sort_rules_id _ Hi), acl_json_roundtrip by done. eexists. split; [reflexivity|].
  unfold detect_target, stored, payload_of. simpl.
  destruct (f_targetType s) eqn:Et; simpl.
  - rewrite (proj2 (jeqb_false (trim (f_upstream s)) [])) by done. simpl.
    rewrite proto_lower, Hp, !str_or_again, (sort_rules_id _ Hi).
    repeat split; try done. + by destruct (trim (f_description s)). + by destruct (trim (f_upstream s)).
  - rewrite proto_lower, Hp, !str_or_again, (sort_rules_id _ Hi).
    repeat split; try done. + by destruct (trim (f_description s)). + by destruct (trim (f_endpoint s)).
Qed.

(** ** Theorems *)

(** What a payload that is sent looks like. *)
Definition payload_in_bounds (p : L4Payload) : Prop :=
  (1 <= p_listen_port p <= 65535)%Z /\ p_name p <> [] /\ trim (p_name p) = p_name p /\
  (match p_upstream_name p, p_direct_endpoint p with
   | Some (_ :: _), Some [] | Some [], Some (_ :: _) => True
   | _, _ => False
   end) /\
  p_proxy_timeout p <> Some [] /\ p_proxy_connect_timeout p <> Some [].

Lemma submit_payload_bounds (s : L4Form) (p : L4Payload) : submit_payload s = Ok p -> payload_in_bounds p.
Proof.
  intros E. assert (submittable s) as (Hn & (port & Hp & Hr) & Ht) by (apply submit_payload_ok; eauto).
  rewrite (submit_payload_value s p E). unfold payload_in_bounds. simpl. rewrite Hp, trim_idemp. split; [done|].
  split; [done|]. split; [done|]. split; [|split; intros [= E']; revert E'; by apply str_or_ne].
  destruct (f_targetType s); [by destruct (trim (f_upstream s))|by destruct (trim (f_endpoint s))].
Qed.

(** C40: the submit handlers of the create page and of the edit page, which
    needs an id in its URL, send a request exactly when the trimmed name is
    not empty, the port is between 1 and 65535 and the selected target is
    not blank; otherwise they only set the banner, and the edit page without
    an id does nothing. What is sent is in bounds: the port, a trimmed
    non-empty name, exactly one non-empty target, and non-empty timeouts. *)
Theorem l4_submit_guarded (s : L4Form) (sid : jsstring) :
  ((exists c, (create_handleSubmit s).2 = Some c) <-> submittable s) /\
  ((exists c, (edit_handleSubmit sid s).2 = Some c) <-> sid <> [] /\ submittable s) /\
  match submit_payload s with
  | Throw m =>
      create_handleSubmit s = (with_error s (Some m), None) /\
      edit_handleSubmit sid s = (if bool_decide (sid = []) then s else with_error s (Some m), None)
  | Ok p =>
      let sent := with_submitting (with_error s None) true in
      create_handleSubmit s = (sent, Some (l4_createService p)) /\
      edit_handleSubmit sid s = (if bool_decide (sid = []) then (s, None) else (sent, Some (l4_updateService sid p))) /\
      (1 <= p_listen_port p <= 65535)%Z /\ p_name p <> [] /\ trim (p_name p) = p_name p /\
      (match p_upstream_name p, p_direct_endpoint p with
       | Some (_ :: _), Some [] | Some [], Some (_ :: _) => True
       | _, _ => False
       end) /\
      p_proxy_timeout p <> Some [] /\ p_proxy_connect_timeout p <> Some []
  end.
Proof.
  unfold create_handleSubmit, edit_handleSubmit, submit_start. rewrite <- submit_payload_ok. split; [|split].
  - destruct (submit_payload s) as [p|m]; simpl; naive_solver.
  - destruct sid; [naive_solver|]. destruct (submit_payload s) as [p|m]; simpl; naive_solver.
  - destruct (submit_payload s) as [p|m] eqn:E; [|by destruct sid].
    split; [done|]. split; [by destruct sid|]. by apply (submit_payload_bounds s p).
Qed.


(** The preview shows what is submitted: the access lines of the NGINX
    preview are, in order and without others between them, those of the
    rules the submitted JSON decodes to, highest priority first, whatever
    the order of the list in the state. *)
Theorem l4_preview_matches_payload (s : L4Form) (p : L4Payload) :
  submit_payload s = Ok p -> Forall rule_ok (aclRules (f_acl s)) ->
  exists rules pre post, parse_acl (p_acl_rules_json p) = Some (AclRules rules) /\
    preview_lines s = pre ++ map acl_line rules ++ post /\
    sorted_by by_priority_desc rules /\ rules ≡ₚ aclRules (f_acl s).
Proof.
  intros Hp Hok. rewrite (submit_payload_value s p Hp).
  set (rules := aclRules (f_acl s)) in *.
  assert (sort_rules rules ≡ₚ rules) as Hperm by apply stable_sort_perm.
  assert (exists pre post, preview_lines s = pre ++ map acl_line (sort_rules rules) ++ post) as (pre & post & E).
  { unfold preview_lines. fold rules. destruct rules as [|r0 rs].
    - exists []. eexists. reflexivity.
    - rewrite (app_assoc [_; _]). eexists ([_; _; _]), _. reflexivity. }
  exists (sort_rules rules), pre, post. split; [apply acl_json_roundtrip; by rewrite Hperm|].
  split; [done|]. split; [|done]. apply stable_sort_sorted; [apply desc_total|apply desc_trans].
Qed.

(** A submission ends where it should: while it is pending the form is
    marked as submitting with no error shown, and when it settles the mark
    is cleared, the page leaves for the list exactly on success, and on a
    failure shows a message and keeps every field. *)
Theorem l4_submit_settles (s s1 : L4Form) (c : call) (r : result ApiError val) :
  create_handleSubmit s = (s1, Some c) ->
  f_isSubmitting s1 = true /\ errorMsg (f_acl s1) = None /\
  let '(s2, nav) := create_submitted s1 r in
  f_isSubmitting s2 = false /\
  match r with
  | Ok _ => nav = Some (js "/l4") /\ errorMsg (f_acl s2) = None
  | Throw e => nav = None /\ (exists m, errorMsg (f_acl s2) = Some m /\ m <> []) /\ submit_payload s2 = submit_payload s
  end.
Proof.
  unfold create_handleSubmit, submit_start. destruct (submit_payload s) eqn:E; intros [= <- _].
  split; [done|]. split; [done|]. destruct r as [v|e]; simpl; [done|].
  split; [done|]. split; [done|]. split; [eexists; split; [done|]; by apply str_or_ne|].
  by rewrite <- E.
Qed.

(** ** Instances *)

Definition filled_form : L4Form :=
  {| f_name := js " redis "; f_protocol := Udp; f_port := Some 6379%Z; f_enabled := true;
     f_description := []; f_targetType := TUpstream; f_upstream := js "pool"; f_endpoint := [];
     f_acl := two_rules; f_proxyTimeout := []; f_connectTimeout := js "5s"; f_available := [js "pool"];
     f_loading := false; f_isSubmitting := false |}.

Lemma two_rules_inv : acl_inv (aclRules two_rules).
Proof. split; repeat constructor; simpl; lia. Qed.

Lemma two_rules_ok : Forall rule_ok (aclRules two_rules).
Proof.
  assert (forallb (fun r => units_okb (cidr r) && match rule_description r with Some d => units_okb d | None => true end)
            (aclRules two_rules) = true) as H by (vm_compute; reflexivity).
  rewrite forallb_forall in H. apply List.Forall_forall. intros r [H1 H2]%H%andb_true_iff.
  split; [by apply units_okb_sound|]. destruct (rule_description r); [by apply units_okb_sound|done].
Qed.


Lemma l4_preview_matches_payload_witness :
  exists rules pre post, parse_acl (p_acl_rules_json (payload_of filled_form)) = Some (AclRules rules) /\
    preview_lines filled_form = pre ++ map acl_line rules ++ post /\
    sorted_by by_priority_desc rules /\ rules ≡ₚ aclRules two_rules.
Proof. exact (l4_preview_matches_payload filled_form (payload_of filled_form) eq_refl two_rules_ok). Defined.

Lemma l4_submit_settles_witness :
  (create_submitted (create_handleSubmit filled_form).1 (Ok VNull)).2 = Some (js "/l4").
Proof.
  exact (proj1 (proj2 (proj2 (proj2
    (l4_submit_settles filled_form _ _ (Ok VNull) (eq_refl : create_handleSubmit filled_form =
      ((create_handleSubmit filled_form).1, Some (l4_createService (payload_of filled_form))))))))).
Defined.
