(* ===== verification/L4Inputs.v ===== *)
(** * The inputs of the L4 service forms

    The markup of [pages/l4/create/page.tsx] and [pages/l4/edit/page.tsx]:
    the inputs of the listener, of its target, of the access list and of
    the time-outs, with the buttons of the access list and the summary card.
    The pages differ in what an emptied port becomes. *)

From Stdlib Require Import ZArith NArith Lia String.
From S2P Require Import Prelude JsString JsValue Json Fetcher Api L4Acl L4Forms FormInputs.
Import L4Api.
Local Open Scope string_scope.
Local Open Scope list_scope.

Inductive page := CreatePage | EditPage.

Inductive l4_entry :=
| InName (t : jsstring)
| InProtocol (p : proto)
| InPort (t : jsstring)
| InDescription (t : jsstring)
| InTargetType (t : target)
| InUpstream (t : jsstring)
| InEndpoint (t : jsstring)
| InProxyTimeout (t : jsstring)
| InConnectTimeout (t : jsstring)
| InNewPriority (t : jsstring)
| InNewCidr (t : jsstring)
| InNewAction (a : acl_action)
| InNewDescription (t : jsstring)
| InAddRule
| InQuickRule (c : jsstring) (a : acl_action) (d : jsstring)
| InMoveRule (i : nat) (d : direction)
| InRemoveRule (i : nat).

Inductive l4_field :=
| FName | FProtocol | FPort | FDescription | FTargetType | FUpstream | FEndpoint | FProxyTimeout | FConnectTimeout
| FNewPriority | FNewCidr | FNewAction | FNewDescription | FRules.

#[global] Instance l4_field_eq_dec : EqDecision l4_field.
Proof. solve_decision. Defined.

#[global] Instance target_eq_dec : EqDecision target.
Proof. solve_decision. Defined.

(** [val === '' ? '' : parseInt(val, 10) || 0], with [0] for the empty text
    on the edit page. *)
Definition port_of (pg : page) (t : jsstring) : option Z :=
  match t with
  | [] => match pg with CreatePage => None | EditPage => Some 0%Z end
  | _ => Some (parse_or 0 t)
  end.

Definition set_row (a : AclEditor) (p : Z) (c : jsstring) (act : acl_action) (d : jsstring) : AclEditor :=
  {| aclRules := aclRules a; newPriority := p; newCidr := c; newAction := act; newDescription := d; errorMsg := errorMsg a |}.

(** The three presets under the input row. *)
Definition quick_presets : list (jsstring * acl_action * jsstring) :=
  [(js "10.0.0.0/8", Allow, js "Internal 10.0.0.0/8"); (js "192.168.0.0/16", Allow, js "Private LAN 192.168.0.0/16");
   (js "0.0.0.0/0", Deny, js "Block all other IPs")].

Definition acl_enter (a : AclEditor) (e : l4_entry) : AclEditor :=
  match e with
  | InNewPriority t => set_row a (parse_or 1 t) (newCidr a) (newAction a) (newDescription a)
  | InNewCidr t => set_row a (newPriority a) t (newAction a) (newDescription a)
  | InNewAction act => set_row a (newPriority a) (newCidr a) act (newDescription a)
  | InNewDescription t => set_row a (newPriority a) (newCidr a) (newAction a) t
  | InAddRule => handleAddACL a
  | InQuickRule c act d => handleQuickAddRule a c act d
  | InMoveRule i d => handleMoveRule a i d
  | InRemoveRule i => handleRemoveACL a i
  | _ => a
  end.

Section Page.
Context (pg : page).

Definition l4_enter (s : L4Form) (e : l4_entry) : L4Form :=
  {| f_name := match e with InName t => t | _ => f_name s end;
     f_protocol := match e with InProtocol p => p | _ => f_protocol s end;
     f_port := match e with InPort t => port_of pg t | _ => f_port s end;
     f_enabled := f_enabled s;
     f_description := match e with InDescription t => t | _ => f_description s end;
     f_targetType := match e with InTargetType t => t | _ => f_targetType s end;
     f_upstream := match e with InUpstream t => t | _ => f_upstream s end;
     f_endpoint := match e with InEndpoint t => t | _ => f_endpoint s end;
     f_acl := acl_enter (f_acl s) e;
     f_proxyTimeout := match e with InProxyTimeout t => t | _ => f_proxyTimeout s end;
     f_connectTimeout := match e with InConnectTimeout t => t | _ => f_connectTimeout s end;
     f_available := f_available s; f_loading := f_loading s; f_isSubmitting := f_isSubmitting s |}.

(** The target of the chosen kind; the select of pools needs one to choose. *)
Definition target_offered (s : L4Form) (e : l4_entry) : bool :=
  match e with
  | InUpstream t => bool_decide (f_targetType s = TUpstream) && existsb (jeqb t) (f_available s)
  | InEndpoint _ => bool_decide (f_targetType s = TEndpoint)
  | _ => true
  end.

(** The presets, and the buttons of each rule, whose arrows stop at the
    ends. *)
Definition acl_offered (l : list L4ACLRule) (e : l4_entry) : bool :=
  match e with
  | InQuickRule c a d => existsb (fun q => jeqb q.1.1 c && action_eqb q.1.2 a && jeqb q.2 d) quick_presets
  | InMoveRule i d => Nat.ltb i (length l) && negb (move_blocked i d (length l))
  | InRemoveRule i => Nat.ltb i (length l)
  | _ => true
  end.

Definition l4_offered (s : L4Form) (e : l4_entry) : bool := target_offered s e && acl_offered (aclRules (f_acl s)) e.

Definition l4_target (e : l4_entry) : l4_field :=
  match e with
  | InName _ => FName | InProtocol _ => FProtocol | InPort _ => FPort | InDescription _ => FDescription
  | InTargetType _ => FTargetType | InUpstream _ => FUpstream | InEndpoint _ => FEndpoint
  | InProxyTimeout _ => FProxyTimeout | InConnectTimeout _ => FConnectTimeout | InNewPriority _ => FNewPriority
  | InNewCidr _ => FNewCidr | InNewAction _ => FNewAction | InNewDescription _ => FNewDescription
  | InAddRule | InQuickRule _ _ _ | InMoveRule _ _ | InRemoveRule _ => FRules
  end.

(** A change of the rules proposes the next priority, and adding a typed
    rule clears its row. *)
Definition l4_also (e : l4_entry) : list l4_field :=
  match e with
  | InAddRule => [FNewPriority; FNewCidr; FNewAction; FNewDescription]
  | InQuickRule _ _ _ | InMoveRule _ _ | InRemoveRule _ => [FNewPriority]
  | _ => []
  end.

(** What the row of a new rule and the list show. *)
Definition acl_value (a : AclEditor) (f : l4_field) : val :=
  match f with
  | FNewPriority => VInt (newPriority a) | FNewCidr => VStr (newCidr a)
  | FNewAction => VStr (action_string (newAction a)) | FNewDescription => VStr (newDescription a)
  | FRules => VArr (map rule_val (aclRules a))
  | _ => VUndef
  end.

Definition l4_value (s : L4Form) (f : l4_field) : val :=
  match f with
  | FName => VStr (f_name s) | FProtocol => VStr (proto_string (f_protocol s))
  | FPort => match f_port s with Some n => VInt n | None => VStr [] end
  | FDescription => VStr (f_description s)
  | FTargetType => VBool (bool_decide (f_targetType s = TUpstream))
  | FUpstream => VStr (f_upstream s) | FEndpoint => VStr (f_endpoint s)
  | FProxyTimeout => VStr (f_proxyTimeout s) | FConnectTimeout => VStr (f_connectTimeout s)
  | FNewPriority | FNewCidr | FNewAction | FNewDescription | FRules => acl_value (f_acl s) f
  end.

Definition l4_kept (s : L4Form) (e : l4_entry) : val :=
  match e with
  | InName t | InDescription t | InUpstream t | InEndpoint t | InProxyTimeout t | InConnectTimeout t
  | InNewCidr t | InNewDescription t => VStr t
  | InProtocol p => VStr (proto_string p)
  | InPort t => match port_of pg t with Some n => VInt n | None => VStr [] end
  | InTargetType t => VBool (bool_decide (t = TUpstream))
  | InNewPriority t => VInt (parse_or 1 t)
  | InNewAction a => VStr (action_string a)
  | InAddRule | InQuickRule _ _ _ | InMoveRule _ _ | InRemoveRule _ => VArr (map rule_val (aclRules (acl_enter (f_acl s) e)))
  end.

Definition l4_inputs : FormInputs L4Form l4_entry l4_field.
Proof.
  refine {| enter := l4_enter; FormInputs.target := l4_target; also := l4_also; field_value := l4_value;
            kept_value := l4_kept; offered := l4_offered |}.
  - intros s e. by destruct e.
  - intros s e f Hf Ha. destruct f; try reflexivity; destruct e; try reflexivity; try (by exfalso; apply Hf);
      try (by exfalso; apply Ha; set_solver); cbn; unfold handleMoveRule;
      try (destruct (move_blocked _ _ _)); reflexivity.
Defined.

(** The summary card. *)
Definition summary_target (s : L4Form) : jsstring :=
  match f_targetType s with
  | TUpstream => js "Pool: " ++ str_or (f_upstream s) (js "None")
  | TEndpoint => js "Direct: " ++ str_or (f_endpoint s) (js "None")
  end.
End Page.

(** ** What the page reaches *)

Lemma acl_enter_inv pg s e : acl_inv (aclRules (f_acl s)) -> l4_offered s e = true -> acl_inv (aclRules (f_acl (l4_enter pg s e))).
Proof.
  intros Hi [_ Ho]%andb_true_iff. cbn [f_acl l4_enter]. destruct e; cbn [acl_enter acl_offered] in *; try done.
  - eapply step_inv; [exact Hi|apply StepAdd].
  - eapply step_inv; [exact Hi|apply StepQuick].
  - apply andb_true_iff in Ho as [Hlt _]. apply Nat.ltb_lt in Hlt. eapply step_inv; [exact Hi|by apply StepMove].
  - apply Nat.ltb_lt in Ho. eapply step_inv; [exact Hi|by apply StepRemove].
Qed.

(** What is typed is what listens. In a form whose other guards hold,
    the text of a port number entered last, whatever was entered before it
    and in other inputs after it, is the port of the request, which carries
    the trimmed name, and rules in descending order are listed as they are
    shown. *)
Theorem typed_port_is_sent (pg : page) (s : L4Form) (before after : list l4_entry) (n : Z) :
  (1 <= n <= 65535)%Z ->
  Forall (@spares _ _ _ (l4_inputs pg) FPort) after ->
  let s' := @enter_all _ _ _ (l4_inputs pg) s (before ++ InPort (int_string n) :: after) in
  trim (f_name s') <> [] ->
  trim (match f_targetType s' with TUpstream => f_upstream s' | TEndpoint => f_endpoint s' end) <> [] ->
  f_port s' = Some n /\
  exists p, submit_payload s' = Ok p /\ p_listen_port p = n /\ p_name p = trim (f_name s') /\
    (acl_inv (aclRules (f_acl s')) -> p_acl_rules_json p = acl_json (aclRules (f_acl s'))).
Proof.
  intros Hn Hafter s' Hname Htarget.
  assert (l4_value s' FPort = VInt n) as Hv.
  { pose proof (@last_entry_shown _ _ _ (l4_inputs pg) s before after (InPort (int_string n)) Hafter) as Hl.
    cbn [FormInputs.target field_value kept_value l4_inputs l4_target l4_kept] in Hl. fold s' in Hl. rewrite Hl. unfold port_of.
    destruct (int_string n) as [|c t] eqn:E; [|rewrite <- E, parse_or_digits by lia; done].
    exfalso. unfold int_string in E. rewrite (proj2 (Z.ltb_ge n 0)) in E by lia.
    destruct (digits_spec n ltac:(lia)) as (_ & _ & Hne & _). done. }
  assert (f_port s' = Some n) as Hp.
  { cbn [l4_value] in Hv. destruct (f_port s') as [m|]; [|done]. injection Hv as Hv.
    assert (num_to_Z (num_of_Z m) = num_to_Z (num_of_Z n)) as Hz by (by rewrite Hv). rewrite !num_to_of_Z in Hz. congruence. }
  split; [done|]. unfold submit_payload. rewrite Hp.
  apply jeqb_false in Hname. rewrite Hname.
  assert (port_ok (Some n) = true) as ->.
  { unfold port_ok. rewrite (proj2 (Z.eqb_neq n 0)), (proj2 (Z.ltb_ge n 1)), (proj2 (Z.ltb_ge 65535 n)) by lia. done. }
  cbn [negb]. apply jeqb_false in Htarget.
  destruct (f_targetType s'); rewrite Htarget; (eexists; split; [done|]);
    (split; [done|]); (split; [done|]); intros Hsort; cbn [p_acl_rules_json]; by rewrite sort_rules_id.
Qed.

(** Along every run of the offered inputs from the empty form the access
    rules stay in strictly descending order of positive priorities. *)
Theorem l4_rules_stay_ordered (pg : page) (port : option Z) (es : list l4_entry) (s' : L4Form) :
  star (@offered_step _ _ _ (l4_inputs pg)) (initial_form port) es s' -> acl_inv (aclRules (f_acl s')).
Proof.
  apply (@offered_invariant _ _ _ (l4_inputs pg) (fun s => acl_inv (aclRules (f_acl s)))); [apply acl_enter_inv|].
  split; constructor.
Qed.

(** ** Instances *)

Definition typed_service : list l4_entry :=
  [InName (js "db"); InTargetType TEndpoint; InEndpoint (js "10.0.0.5:5432"); InPort (js "54")].

Lemma typed_port_is_sent_witness :
  exists p, submit_payload (@enter_all _ _ _ (l4_inputs CreatePage) L4Forms.create_initial
              (typed_service ++ InPort (int_string 5432) :: [InProtocol Udp])) = Ok p /\ p_listen_port p = 5432%Z.
Proof.
  destruct (typed_port_is_sent CreatePage L4Forms.create_initial typed_service [InProtocol Udp] 5432) as (_ & p & H1 & H2 & _).
  - lia.
  - repeat constructor; [discriminate|apply not_elem_of_nil].
  - discriminate.
  - discriminate.
  - exists p. split; [exact H1|exact H2].
Defined.

Lemma l4_rules_stay_ordered_witness :
  acl_inv (aclRules (f_acl (l4_enter EditPage (initial_form None) (InQuickRule (js "0.0.0.0/0") Deny (js "Block all other IPs"))))).
Proof.
  apply (l4_rules_stay_ordered EditPage None [InQuickRule (js "0.0.0.0/0") Deny (js "Block all other IPs")]).
  eapply star_cons; [apply (@OfferedEntry _ _ _ (l4_inputs EditPage)); reflexivity|apply star_nil].
Defined.
