(* ===== verification/UpstreamForms.v ===== *)
(** * The upstream forms

    [pages/upstreams/create/page.tsx], [pages/upstreams/edit/page.tsx] and
    [pages/upstreams/types.ts]: the server pool and probe editors, the
    loading of an upstream, and the payload of a submission with its gates
    on TLS material. [Date.now()] is an argument of the handlers that make
    identifiers. The forms that upload a PEM file only set a string. *)

From Stdlib Require Import ZArith NArith Lia String.
From S2P Require Import Prelude JsString JsValue Json JsonFacts Urls Fetcher Api.
Local Open Scope string_scope.
Local Open Scope list_scope.

(** ** Data *)

Inductive UpstreamType := SingleServer | LoadBalancer | ExternalFqdn.
Inductive BalancingAlgorithm := RoundRobin | LeastConn | IpHash.
Inductive ProbeType := Readiness | Liveness | Health.
Inductive HttpVersion := Http11 | Http2 | Http3 | Http10.
Inductive Compression := NoCompression | Gzip | Deflate.

Definition type_string (t : UpstreamType) : jsstring :=
  match t with
  | SingleServer => js "Single Server" | LoadBalancer => js "Load Balancer" | ExternalFqdn => js "External (FQDN)"
  end.
Definition algorithm_string (a : BalancingAlgorithm) : jsstring :=
  match a with RoundRobin => js "round_robin" | LeastConn => js "least_conn" | IpHash => js "ip_hash" end.
Definition probe_string (p : ProbeType) : jsstring :=
  match p with Readiness => js "Readiness" | Liveness => js "Liveness" | Health => js "Health" end.
Definition version_string (v : HttpVersion) : jsstring :=
  match v with Http11 => js "HTTP/1.1" | Http2 => js "HTTP/2" | Http3 => js "HTTP/3" | Http10 => js "HTTP/1.0" end.
Definition compression_string (c : Compression) : jsstring :=
  match c with NoCompression => js "none" | Gzip => js "gzip" | Deflate => js "deflate" end.

#[export] Instance probe_type_eq_dec : EqDecision ProbeType.
Proof. solve_decision. Defined.

Record UpstreamNode := {
  n_id : jsstring;
  n_address : jsstring;
  n_weight : Z;
  n_maxFails : option Z;
  n_failTimeout : option jsstring;
  n_backup : option bool;
  n_healthy : bool
}.

Record ProbeCheckItem := {
  pr_id : jsstring;
  pr_type : ProbeType;
  pr_path : jsstring;
  pr_expectedStatus : option Z;
  pr_intervalSec : option Z;
  pr_timeoutSec : option Z
}.

Record InternalSslConfig := {
  ssl_enabled : bool;
  ssl_verifyCert : bool;
  ssl_sniHost : option jsstring;
  ssl_caCert : option jsstring;
  ssl_mTLS : bool;
  ssl_clientCertName : option jsstring;
  ssl_clientCert : option jsstring;
  ssl_clientKey : option jsstring;
  ssl_clientKeyConfigured : bool
}.

Record UpstreamTransportConfig := {
  t_requestCompression : option Compression;
  t_compressionMinBytes : option Z;
  t_compressionLevel : option Z;
  t_httpVersion : HttpVersion;
  t_enableWebSocket : bool;
  t_enableSse : bool;
  t_enableGrpc : bool;
  t_keepAliveConnections : option Z
}.

Record UpstreamItem := {
  u_id : jsstring;
  u_name : jsstring;
  u_description : option jsstring;
  u_type : UpstreamType;
  u_algorithm : BalancingAlgorithm;
  u_servers : list UpstreamNode;
  u_externalFqdn : option jsstring;
  u_sniOverride : option bool;
  u_dynamicDns : option bool;
  u_internalSsl : InternalSslConfig;
  u_probes : list ProbeCheckItem;
  u_transport : UpstreamTransportConfig;
  u_boundDomainsCount : Z
}.

(** [CreateUpstreamPayload]; an absent member is [None]. *)
Record UpstreamPayload := {
  p_name : jsstring;
  p_description : jsstring;
  p_architecture_type : UpstreamType;
  p_algorithm : BalancingAlgorithm;
  p_servers : list UpstreamNode;
  p_external_fqdn : option jsstring;
  p_sni_override : option bool;
  p_dynamic_dns : bool;
  p_internal_ssl : InternalSslConfig;
  p_probes : list ProbeCheckItem;
  p_transport : UpstreamTransportConfig
}.

(** ** The body of a request *)

Definition node_val (n : UpstreamNode) : val :=
  vobj [("id", VStr (n_id n)); ("address", VStr (n_address n)); ("weight", VInt (n_weight n));
        ("maxFails", opt_int (n_maxFails n)); ("failTimeout", opt_str (n_failTimeout n));
        ("backup", opt_bool (n_backup n)); ("healthy", VBool (n_healthy n))].

Definition probe_val (p : ProbeCheckItem) : val :=
  vobj [("id", VStr (pr_id p)); ("type", VStr (probe_string (pr_type p))); ("path", VStr (pr_path p));
        ("expectedStatus", opt_int (pr_expectedStatus p)); ("intervalSec", opt_int (pr_intervalSec p));
        ("timeoutSec", opt_int (pr_timeoutSec p))].

(** [clientKeyConfigured] belongs to responses only. *)
Definition ssl_val (c : InternalSslConfig) : val :=
  vobj [("enabled", VBool (ssl_enabled c)); ("verifyCert", VBool (ssl_verifyCert c));
        ("sniHost", opt_str (ssl_sniHost c)); ("caCert", opt_str (ssl_caCert c)); ("mTLS", VBool (ssl_mTLS c));
        ("clientCertName", opt_str (ssl_clientCertName c)); ("clientCert", opt_str (ssl_clientCert c));
        ("clientKey", opt_str (ssl_clientKey c))].

Definition transport_val (t : UpstreamTransportConfig) : val :=
  vobj [("httpVersion", VStr (version_string (t_httpVersion t))); ("enableWebSocket", VBool (t_enableWebSocket t));
        ("enableSse", VBool (t_enableSse t)); ("enableGrpc", VBool (t_enableGrpc t));
        ("requestCompression", opt_str (option_map compression_string (t_requestCompression t)));
        ("compressionMinBytes", opt_int (t_compressionMinBytes t));
        ("compressionLevel", opt_int (t_compressionLevel t));
        ("keepAliveConnections", opt_int (t_keepAliveConnections t))].

Definition payload_obj (p : UpstreamPayload) : obj :=
  obj_lit [("name", VStr (p_name p)); ("description", VStr (p_description p));
           ("architecture_type", VStr (type_string (p_architecture_type p)));
           ("algorithm", VStr (algorithm_string (p_algorithm p)));
           ("servers", VArr (map node_val (p_servers p)));
           ("external_fqdn", opt_str (p_external_fqdn p)); ("sni_override", opt_bool (p_sni_override p));
           ("dynamic_dns", VBool (p_dynamic_dns p)); ("internal_ssl", ssl_val (p_internal_ssl p));
           ("probes", VArr (map probe_val (p_probes p))); ("transport", transport_val (p_transport p))].

(** ** State of a form *)

Record UpstreamForm := {
  name : jsstring;
  description : jsstring;
  type : UpstreamType;
  singleAddress : jsstring;
  algorithm : BalancingAlgorithm;
  lbServers : list UpstreamNode;
  externalFqdn : jsstring;
  sniOverride : bool;
  dynamicDns : bool;
  internalSslEnabled : bool;
  verifyCert : bool;
  sniHost : jsstring;
  customCaEnabled : bool;
  caCert : jsstring;
  mTLS : bool;
  clientCert : jsstring;
  clientCertFileName : jsstring;
  clientKey : jsstring;
  clientKeyConfigured : bool;
  probes : list ProbeCheckItem;
  newProbeType : ProbeType;
  newProbePath : jsstring;
  newProbeStatus : Z;
  httpVersion : HttpVersion;
  enableWebSocket : bool;
  enableSse : bool;
  enableGrpc : bool;
  requestCompression : Compression;
  compressionMinBytes : Z;
  compressionLevel : Z;
  keepAliveConnections : Z;
  loading : bool;
  loadError : jsstring;
  submitting : bool;
  errorMsg : jsstring
}.

Definition first_node : UpstreamNode :=
  {| n_id := js "node-1"; n_address := []; n_weight := 1; n_maxFails := Some 3%Z;
     n_failTimeout := Some (js "10s"); n_backup := Some false; n_healthy := false |}.

Definition create_initial : UpstreamForm :=
  {| name := []; description := []; type := LoadBalancer; singleAddress := []; algorithm := RoundRobin;
     lbServers := [first_node]; externalFqdn := []; sniOverride := true; dynamicDns := true;
     internalSslEnabled := false; verifyCert := true; sniHost := []; customCaEnabled := false; caCert := [];
     mTLS := false; clientCert := []; clientCertFileName := []; clientKey := []; clientKeyConfigured := false;
     probes := []; newProbeType := Readiness; newProbePath := []; newProbeStatus := 200;
     httpVersion := Http11; enableWebSocket := false; enableSse := false; enableGrpc := false;
     requestCompression := NoCompression; compressionMinBytes := 1024; compressionLevel := 6;
     keepAliveConnections := 32; loading := false; loadError := []; submitting := false; errorMsg := [] |}.

Definition edit_initial : UpstreamForm :=
  {| name := []; description := []; type := LoadBalancer; singleAddress := []; algorithm := LeastConn;
     lbServers := []; externalFqdn := []; sniOverride := true; dynamicDns := true;
     internalSslEnabled := false; verifyCert := false; sniHost := []; customCaEnabled := false; caCert := [];
     mTLS := false; clientCert := []; clientCertFileName := []; clientKey := []; clientKeyConfigured := false;
     probes := []; newProbeType := Readiness; newProbePath := []; newProbeStatus := 200;
     httpVersion := Http11; enableWebSocket := true; enableSse := true; enableGrpc := false;
     requestCompression := NoCompression; compressionMinBytes := 1024; compressionLevel := 6;
     keepAliveConnections := 32; loading := true; loadError := []; submitting := false; errorMsg := [] |}.

(** ** The server pool *)

Definition handleAddNode (now : Z) (l : list UpstreamNode) : list UpstreamNode :=
  l ++ [{| n_id := js "node-" ++ int_string now; n_address := []; n_weight := 1; n_maxFails := Some 3%Z;
           n_failTimeout := Some (js "10s"); n_backup := Some false; n_healthy := false |}].

(** [{ ...node, ...updates }]: the updates the rows make never hold an id. *)
Record node_updates := {
  up_address : option jsstring;
  up_weight : option Z;
  up_maxFails : option Z;
  up_failTimeout : option jsstring;
  up_backup : option bool
}.

Definition apply_updates (u : node_updates) (n : UpstreamNode) : UpstreamNode :=
  {| n_id := n_id n; n_address := default (n_address n) (up_address u);
     n_weight := default (n_weight n) (up_weight u);
     n_maxFails := match up_maxFails u with Some x => Some x | None => n_maxFails n end;
     n_failTimeout := match up_failTimeout u with Some x => Some x | None => n_failTimeout n end;
     n_backup := match up_backup u with Some x => Some x | None => n_backup n end;
     n_healthy := n_healthy n |}.

Definition handleUpdateNode (i : jsstring) (u : node_updates) (l : list UpstreamNode) : list UpstreamNode :=
  map (fun n => if jeqb (n_id n) i then apply_updates u n else n) l.

Definition handleRemoveNode (i : jsstring) (l : list UpstreamNode) : list UpstreamNode :=
  if Nat.leb (length l) 1 then l else List.filter (fun n => negb (jeqb (n_id n) i)) l.

(** The edit page's versions: another address and another identifier. *)
Definition addLbServer (now : Z) (l : list UpstreamNode) : list UpstreamNode :=
  l ++ [{| n_id := int_string now; n_address := js "10.0.1.11:8080"; n_weight := 1; n_maxFails := Some 3%Z;
           n_failTimeout := Some (js "10s"); n_backup := None; n_healthy := false |}].
Definition removeLbServer : jsstring -> list UpstreamNode -> list UpstreamNode := handleRemoveNode.
Definition updateLbServer : jsstring -> node_updates -> list UpstreamNode -> list UpstreamNode := handleUpdateNode.

(** ** Probes *)

(** [newProbeStatus || 200] *)
Definition status_or (n : Z) : Z := if (n =? 0)%Z then 200%Z else n.

Definition probe_path (path : jsstring) : jsstring :=
  let trimmed := trim path in if startsWith (js "/") trimmed then trimmed else js "/" ++ trimmed.

Definition add_probe (now : Z) (t : ProbeType) (path : jsstring) (st : Z) (l : list ProbeCheckItem) :
    option (list ProbeCheckItem) :=
  if jeqb (trim path) [] then None else
  let formatted := probe_path path in
  if existsb (fun p => jeqb (pr_path p) formatted && bool_decide (pr_type p = t)) l then None else
  Some (l ++ [{| pr_id := js "probe-" ++ int_string now; pr_type := t; pr_path := formatted;
                 pr_expectedStatus := Some (status_or st); pr_intervalSec := Some 10%Z; pr_timeoutSec := Some 3%Z |}]).

(** [handleAddProbe]: the list and the input row, which an addition clears. *)
Definition handleAddProbe (now : Z) (t : ProbeType) (path : jsstring) (st : Z) (l : list ProbeCheckItem) :
    list ProbeCheckItem * jsstring :=
  match add_probe now t path st l with Some l' => (l', []) | None => (l, path) end.

Definition handleRemoveProbe (i : jsstring) (l : list ProbeCheckItem) : list ProbeCheckItem :=
  List.filter (fun p => negb (jeqb (pr_id p) i)) l.

(** The edit page adds a fixed probe. *)
Definition addProbe (now : Z) (l : list ProbeCheckItem) : list ProbeCheckItem :=
  l ++ [{| pr_id := int_string now; pr_type := Health; pr_path := js "/health";
           pr_expectedStatus := Some 200%Z; pr_intervalSec := Some 10%Z; pr_timeoutSec := Some 3%Z |}].
Definition removeProbe : jsstring -> list ProbeCheckItem -> list ProbeCheckItem := handleRemoveProbe.

(** The fields a row of the edit page can change. *)
Record probe_updates := {
  pu_type : option ProbeType;
  pu_path : option jsstring;
  pu_expectedStatus : option Z;
  pu_intervalSec : option Z;
  pu_timeoutSec : option Z
}.

Definition apply_probe_updates (u : probe_updates) (p : ProbeCheckItem) : ProbeCheckItem :=
  {| pr_id := pr_id p; pr_type := default (pr_type p) (pu_type u); pr_path := default (pr_path p) (pu_path u);
     pr_expectedStatus := match pu_expectedStatus u with Some x => Some x | None => pr_expectedStatus p end;
     pr_intervalSec := match pu_intervalSec u with Some x => Some x | None => pr_intervalSec p end;
     pr_timeoutSec := match pu_timeoutSec u with Some x => Some x | None => pr_timeoutSec p end |}.

Definition updateProbe (i : jsstring) (u : probe_updates) (l : list ProbeCheckItem) : list ProbeCheckItem :=
  map (fun p => if jeqb (pr_id p) i then apply_probe_updates u p else p) l.

(** ** Loading *)

(** [item.internalSsl.x || d] and [?? d] on optional members. *)
Definition opt_or (o : option jsstring) (d : jsstring) : jsstring := str_or (default [] o) d.

Definition load_upstream (s : UpstreamForm) (item : UpstreamItem) : UpstreamForm :=
  let ssl := u_internalSsl item in
  let t := u_transport item in
  let ext := match u_type item with ExternalFqdn => true | _ => false end in
  {| name := u_name item;
     description := opt_or (u_description item) [];
     type := u_type item;
     singleAddress := match u_type item, u_servers item with SingleServer, n :: _ => n_address n | _, _ => singleAddress s end;
     algorithm := u_algorithm item;
     lbServers := match u_type item, u_servers item with LoadBalancer, n :: l => n :: l | _, _ => lbServers s end;
     externalFqdn := if ext then str_or (opt_or (u_externalFqdn item) (match u_servers item with n :: _ => n_address n | [] => [] end)) []
                     else externalFqdn s;
     sniOverride := if ext then default true (u_sniOverride item) else sniOverride s;
     dynamicDns := if ext then default true (u_dynamicDns item) else dynamicDns s;
     internalSslEnabled := ssl_enabled ssl;
     verifyCert := ssl_verifyCert ssl;
     sniHost := opt_or (ssl_sniHost ssl) [];
     customCaEnabled := match default [] (ssl_caCert ssl) with [] => customCaEnabled s | _ => true end;
     caCert := match default [] (ssl_caCert ssl) with [] => caCert s | c => c end;
     mTLS := ssl_mTLS ssl;
     clientCert := match default [] (ssl_clientCert ssl) with [] => clientCert s | c => c end;
     clientCertFileName := match default [] (ssl_clientCert ssl) with
                           | [] => clientCertFileName s
                           | _ => opt_or (ssl_clientCertName ssl) (js "client.crt")
                           end;
     clientKey := [];
     clientKeyConfigured := ssl_clientKeyConfigured ssl;
     probes := match u_probes item with [] => probes s | l => l end;
     newProbeType := newProbeType s; newProbePath := newProbePath s; newProbeStatus := newProbeStatus s;
     httpVersion := t_httpVersion t;
     enableWebSocket := t_enableWebSocket t;
     enableSse := t_enableSse t;
     enableGrpc := t_enableGrpc t;
     requestCompression := default NoCompression (t_requestCompression t);
     compressionMinBytes := default 1024%Z (t_compressionMinBytes t);
     compressionLevel := default 6%Z (t_compressionLevel t);
     keepAliveConnections := match t_keepAliveConnections t with Some 0%Z | None => 32%Z | Some n => n end;
     loading := false; loadError := []; submitting := submitting s; errorMsg := errorMsg s |}.

Definition set_load_error (s : UpstreamForm) (m : jsstring) : UpstreamForm :=
  {| name := name s; description := description s; type := type s; singleAddress := singleAddress s;
     algorithm := algorithm s; lbServers := lbServers s; externalFqdn := externalFqdn s;
     sniOverride := sniOverride s; dynamicDns := dynamicDns s; internalSslEnabled := internalSslEnabled s;
     verifyCert := verifyCert s; sniHost := sniHost s; customCaEnabled := customCaEnabled s; caCert := caCert s;
     mTLS := mTLS s; clientCert := clientCert s; clientCertFileName := clientCertFileName s;
     clientKey := clientKey s; clientKeyConfigured := clientKeyConfigured s; probes := probes s;
     newProbeType := newProbeType s; newProbePath := newProbePath s; newProbeStatus := newProbeStatus s;
     httpVersion := httpVersion s; enableWebSocket := enableWebSocket s; enableSse := enableSse s;
     enableGrpc := enableGrpc s; requestCompression := requestCompression s;
     compressionMinBytes := compressionMinBytes s; compressionLevel := compressionLevel s;
     keepAliveConnections := keepAliveConnections s; loading := false; loadError := m;
     submitting := submitting s; errorMsg := errorMsg s |}.

(** The effect of the edit page, once [getById] has settled. *)
Definition edit_loaded (uid : jsstring) (s : UpstreamForm) (r : result ApiError UpstreamItem) : UpstreamForm :=
  match uid with
  | [] => set_load_error s (js "Missing upstream ID")
  | _ => match r with
         | Ok item => load_upstream s item
         | Throw e => set_load_error s
                        (str_or (err_message e) (js "Không tìm thấy hoặc không thể tải cấu hình Upstream"))
         end
  end.

(** ** The payload *)

Section Payload.
Context `{CaseMapping}.

Definition slug (n : jsstring) : jsstring := replace_ws_runs (js "-") false (toLowerCase (trim n)).

(** [x.trim() ? x.trim() : undefined] *)
Definition nonblank (x : jsstring) : option jsstring := match trim x with [] => None | t => Some t end.

Definition plain_node (i a : jsstring) : UpstreamNode :=
  {| n_id := i; n_address := a; n_weight := 1; n_maxFails := None; n_failTimeout := None; n_backup := None; n_healthy := false |}.

Definition with_address (a : jsstring) (n : UpstreamNode) : UpstreamNode :=
  {| n_id := n_id n; n_address := a; n_weight := n_weight n; n_maxFails := n_maxFails n;
     n_failTimeout := n_failTimeout n; n_backup := n_backup n; n_healthy := n_healthy n |}.

(** [finalServers] of the create page, with its default addresses ... *)
Definition create_servers (s : UpstreamForm) : list UpstreamNode :=
  match type s with
  | SingleServer => [plain_node (js "node-single") (str_or (trim (singleAddress s)) (js "127.0.0.1:8080"))]
  | LoadBalancer => map (fun n => with_address (str_or (trim (n_address n)) (js "127.0.0.1:8080")) n) (lbServers s)
  | ExternalFqdn => [plain_node (js "node-ext") (str_or (trim (externalFqdn s)) (js "origin.internal"))]
  end.

(** ... and of the edit page, without. *)
Definition edit_servers (s : UpstreamForm) : list UpstreamNode :=
  match type s with
  | SingleServer => [plain_node (js "single-1") (trim (singleAddress s))]
  | LoadBalancer => map (fun n => with_address (trim (n_address n)) n) (lbServers s)
  | ExternalFqdn => [plain_node (js "ext-1") (trim (externalFqdn s))]
  end.

Definition ssl_payload (s : UpstreamForm) : InternalSslConfig :=
  let on := internalSslEnabled s in
  let mt := on && mTLS s in
  {| ssl_enabled := on;
     ssl_verifyCert := on && verifyCert s;
     ssl_sniHost := if on then nonblank (sniHost s) else None;
     ssl_caCert := if on && verifyCert s && customCaEnabled s then nonblank (caCert s) else None;
     ssl_mTLS := mt;
     ssl_clientCertName := if mt then Some (str_or (clientCertFileName s) (js "aurora-internal-client.crt")) else None;
     ssl_clientCert := if mt then nonblank (clientCert s) else None;
     ssl_clientKey := if mt then nonblank (clientKey s) else None;
     ssl_clientKeyConfigured := false |}.

Definition transport_payload (s : UpstreamForm) : UpstreamTransportConfig :=
  {| t_requestCompression := Some (requestCompression s); t_compressionMinBytes := Some (compressionMinBytes s);
     t_compressionLevel := Some (compressionLevel s); t_httpVersion := httpVersion s;
     t_enableWebSocket := enableWebSocket s; t_enableSse := enableSse s; t_enableGrpc := enableGrpc s;
     t_keepAliveConnections := Some (keepAliveConnections s) |}.

Definition upstream_payload (servers : UpstreamForm -> list UpstreamNode)
    (probe : ProbeCheckItem -> ProbeCheckItem) (s : UpstreamForm) : UpstreamPayload :=
  let ext := match type s with ExternalFqdn => true | _ => false end in
  {| p_name := slug (name s); p_description := trim (description s); p_architecture_type := type s;
     p_algorithm := algorithm s; p_servers := servers s;
     p_external_fqdn := if ext then Some (trim (externalFqdn s)) else None;
     p_sni_override := if ext then Some (sniOverride s) else None;
     p_dynamic_dns := dynamicDns s; p_internal_ssl := ssl_payload s;
     p_probes := map probe (probes s); p_transport := transport_payload s |}.

(** The edit page fills in a missing expected status. *)
Definition edit_probe (p : ProbeCheckItem) : ProbeCheckItem :=
  {| pr_id := pr_id p; pr_type := pr_type p; pr_path := pr_path p;
     pr_expectedStatus := Some (status_or (default 0%Z (pr_expectedStatus p)));
     pr_intervalSec := pr_intervalSec p; pr_timeoutSec := pr_timeoutSec p |}.

Definition create_payload : UpstreamForm -> UpstreamPayload := upstream_payload create_servers (fun p => p).
Definition update_payload : UpstreamForm -> UpstreamPayload := upstream_payload edit_servers edit_probe.

Definition set_submitting (s : UpstreamForm) (b : bool) (m : jsstring) : UpstreamForm :=
  {| name := name s; description := description s; type := type s; singleAddress := singleAddress s;
     algorithm := algorithm s; lbServers := lbServers s; externalFqdn := externalFqdn s;
     sniOverride := sniOverride s; dynamicDns := dynamicDns s; internalSslEnabled := internalSslEnabled s;
     verifyCert := verifyCert s; sniHost := sniHost s; customCaEnabled := customCaEnabled s; caCert := caCert s;
     mTLS := mTLS s; clientCert := clientCert s; clientCertFileName := clientCertFileName s;
     clientKey := clientKey s; clientKeyConfigured := clientKeyConfigured s; probes := probes s;
     newProbeType := newProbeType s; newProbePath := newProbePath s; newProbeStatus := newProbeStatus s;
     httpVersion := httpVersion s; enableWebSocket := enableWebSocket s; enableSse := enableSse s;
     enableGrpc := enableGrpc s; requestCompression := requestCompression s;
     compressionMinBytes := compressionMinBytes s; compressionLevel := compressionLevel s;
     keepAliveConnections := keepAliveConnections s; loading := loading s; loadError := loadError s;
     submitting := b; errorMsg := m |}.

(** A blank name makes the handlers return at once, with no message. *)
Definition handleCreate (s : UpstreamForm) : UpstreamForm * option call :=
  if jeqb (trim (name s)) [] then (s, None)
  else (set_submitting s true [], Some (UpstreamsApi.upstreams_create (payload_obj (create_payload s)))).

Definition handleUpdate (uid : jsstring) (s : UpstreamForm) : UpstreamForm * option call :=
  if jeqb (trim (name s)) [] || jeqb uid [] then (s, None)
  else (set_submitting s true [], Some (UpstreamsApi.upstreams_update uid (payload_obj (update_payload s)))).

Definition upstream_submitted (fallback : jsstring) (s : UpstreamForm) (r : result ApiError val) :
    UpstreamForm * option jsstring :=
  match r with
  | Ok _ => (set_submitting s false (errorMsg s), Some (js "/upstreams"))
  | Throw e => (set_submitting s false (str_or (err_message e) fallback), None)
  end.

Definition create_submitted : UpstreamForm -> result ApiError val -> UpstreamForm * option jsstring :=
  upstream_submitted (js "Không thể kết nối hoặc lưu Upstream tới máy chủ Control-Plane").
Definition update_submitted : UpstreamForm -> result ApiError val -> UpstreamForm * option jsstring :=
  upstream_submitted (js "Không thể lưu thay đổi Upstream tới máy chủ Control-Plane").
End Payload.

(** ** The pool and the probes as transition systems *)

(** The pool with the latest time used for an identifier; clicks come at
    increasing times. *)
Inductive pool_step : list UpstreamNode * Z -> unit -> list UpstreamNode * Z -> Prop :=
| PoolAdd l t now : (t < now)%Z -> pool_step (l, t) tt (handleAddNode now l, now)
| PoolUpdate l t i u : pool_step (l, t) tt (handleUpdateNode i u l, t)
| PoolRemove l t i : pool_step (l, t) tt (handleRemoveNode i l, t).

Definition pool_inv (s : list UpstreamNode * Z) : Prop :=
  s.1 <> [] /\ (1 <= s.2)%Z /\ NoDup (map n_id s.1) /\
  Forall (fun n => exists k, n_id n = js "node-" ++ int_string k /\ (k <= s.2)%Z) s.1.

Inductive probe_step : list ProbeCheckItem -> unit -> list ProbeCheckItem -> Prop :=
| ProbeAdd l now t path st l' : add_probe now t path st l = Some l' -> probe_step l tt l'
| ProbeRemove l i : probe_step l tt (handleRemoveProbe i l).

Definition probe_inv (l : list ProbeCheckItem) : Prop :=
  NoDup (map (fun p => (pr_path p, pr_type p)) l) /\
  Forall (fun p => head (pr_path p) = Some 47%N /\ exists n, pr_expectedStatus p = Some n /\ n <> 0%Z) l.

(** ** Lemmas *)

Lemma node_id_inj a b : js "node-" ++ int_string a = js "node-" ++ int_string b -> a = b.
Proof. intros E. apply int_string_inj. by apply app_inv_head in E. Qed.

Lemma handleUpdateNode_ids i u l : map n_id (handleUpdateNode i u l) = map n_id l.
Proof.
  unfold handleUpdateNode. rewrite map_map. apply map_ext. intros n. by destruct (jeqb _ _).
Qed.

(** Distinct identifiers: a removal takes away one row at most. *)
Lemma filter_ids_short i l :
  NoDup (map n_id l) -> length l <= S (length (List.filter (fun n => negb (jeqb (n_id n) i)) l)).
Proof.
  induction l as [|n l IH]; simpl; [lia|]. rewrite NoDup_cons. intros [Hn Hd].
  destruct (jeqb (n_id n) i) eqn:E; simpl; [|specialize (IH Hd); lia].
  apply jeqb_true in E. assert (List.filter (fun n => negb (jeqb (n_id n) i)) l = l) as ->; [|lia].
  clear -Hn E. induction l as [|m l IH]; simpl in *; [done|].
  destruct (jeqb (n_id m) i) eqn:E2; simpl; [|rewrite IH; [done|set_solver]].
  apply jeqb_true in E2. set_solver.
Qed.

Lemma pool_step_inv s e s' : pool_inv s -> pool_step s e s' -> pool_inv s'.
Proof.
  intros (Hne & Ht & Hd & Hid) Hstep. destruct Hstep as [l t now Hnow|l t i u|l t i]; unfold pool_inv; simpl in *.
  - split_and!; [by destruct l|lia| |].
    + unfold handleAddNode. rewrite map_app. apply NoDup_app. split; [done|]. split; [|apply NoDup_singleton].
      intros x Hx Hx'. apply list_elem_of_singleton in Hx' as ->. simpl in Hx.
      apply list_elem_of_In, in_map_iff in Hx as (n & Hn & Hin). rewrite Forall_forall in Hid.
      destruct (Hid n) as (k & Hk & Hkt); [by apply list_elem_of_In|].
      rewrite Hk in Hn. apply node_id_inj in Hn. lia.
    + apply Forall_app. split; [|by repeat constructor; exists now].
      eapply Forall_impl; [exact Hid|]. intros n (k & ? & ?). exists k. split; [done|lia].
  - split_and!; [by destruct l|done|by rewrite handleUpdateNode_ids|].
    unfold handleUpdateNode. apply Forall_map. eapply Forall_impl; [exact Hid|]. intros n Hn. by destruct (jeqb _ _).
  - unfold handleRemoveNode. destruct (Nat.leb (length l) 1) eqn:E; [done|]. apply Nat.leb_gt in E.
    split_and!; [|done|by apply map_filter_nodup|].
    + intros Hnil. pose proof (filter_ids_short i l Hd) as Hlen. rewrite Hnil in Hlen. simpl in Hlen. lia.
    + rewrite Forall_forall in *. intros n Hn. apply Hid. eapply elem_of_sublist; [exact Hn|apply filter_sublist].
Qed.

Lemma probe_path_slash path : head (probe_path path) = Some 47%N.
Proof.
  unfold probe_path. destruct (startsWith (js "/") (trim path)) eqn:E; [|done].
  apply startsWith_spec in E as [t ->]. done.
Qed.

Lemma status_or_nonzero n : status_or n <> 0%Z.
Proof. unfold status_or. destruct (n =? 0)%Z eqn:E; [done|]. by apply Z.eqb_neq. Qed.

Lemma probe_step_inv l e l' : probe_inv l -> probe_step l e l' -> probe_inv l'.
Proof.
  intros [Hd Hf] Hstep. destruct Hstep as [l now t path st l' Hadd|l i]; unfold probe_inv.
  - unfold add_probe in Hadd. destruct (jeqb (trim path) []); [done|].
    destruct (existsb _ l) eqn:E; [done|]. injection Hadd as <-. split.
    + rewrite map_app. apply NoDup_app. split; [done|]. split; [|apply NoDup_singleton].
      intros x Hx Hx'. apply list_elem_of_singleton in Hx' as ->. simpl in Hx.
      apply list_elem_of_In, in_map_iff in Hx as (p & Hp & Hin). injection Hp as H1 H2.
      assert (existsb (fun p => jeqb (pr_path p) (probe_path path) && bool_decide (pr_type p = t)) l = true); [|congruence].
      apply existsb_exists. exists p. split; [done|]. by rewrite H1, H2, jeqb_refl, bool_decide_eq_true_2.
    + apply Forall_app. split; [done|]. constructor; [|constructor]. simpl.
      split; [apply probe_path_slash|]. eexists. split; [done|apply status_or_nonzero].
  - split; [by apply map_filter_nodup|].
    rewrite Forall_forall in *. intros p Hp. apply Hf. eapply elem_of_sublist; [exact Hp|apply filter_sublist].
Qed.

(** ** Theorems *)

Section UpstreamTheorems.
Context `{CaseMapping}.

(** The server pool of the create page is never empty and its rows keep
    distinct identifiers, so an update or a removal acts on one row, after
    any sequence of additions at increasing times, updates and removals. *)
Theorem pool_reachable_invariant (l : list UpstreamNode) (t : Z) (es : list unit) :
  star pool_step (lbServers create_initial, 1%Z) es (l, t) ->
  l <> [] /\ NoDup (map n_id l) /\
  forall i, length l <= S (length (handleRemoveNode i l)).
Proof.
  intros Hs. eapply (star_invariant pool_step pool_inv) in Hs as (Hne & _ & Hd & _);
    [|apply pool_step_inv|].
  - simpl in *. split; [done|]. split; [done|]. intros i. unfold handleRemoveNode.
    destruct (Nat.leb (length l) 1); [lia|]. by apply filter_ids_short.
  - split_and!; [done|done|apply NoDup_singleton|]. repeat constructor. by exists 1%Z.
Qed.

(** The probes added on the create page are never duplicated: no two
    have the same type and path, every path is absolute and every expected
    status is set, after any sequence of additions and removals. *)
Theorem probes_reachable_invariant (l : list ProbeCheckItem) (es : list unit) :
  star probe_step [] es l -> probe_inv l.
Proof.
  intros Hs. eapply (star_invariant probe_step probe_inv); [apply probe_step_inv| |exact Hs].
  split; constructor.
Qed.

(** C34: TLS material leaves the browser only when it is switched on: a
    client key or certificate is sent only with TLS and mTLS enabled, a CA
    certificate only with verification and a custom CA enabled, each
    trimmed and not blank, and the flags sent agree with the switches. *)
Theorem ssl_material_gated (s : UpstreamForm) :
  let c := p_internal_ssl (create_payload s) in
  (forall k, ssl_clientKey c = Some k ->
     internalSslEnabled s = true /\ mTLS s = true /\ k = trim (clientKey s) /\ k <> []) /\
  (forall k, ssl_clientCert c = Some k ->
     internalSslEnabled s = true /\ mTLS s = true /\ k = trim (clientCert s) /\ k <> []) /\
  (forall k, ssl_caCert c = Some k ->
     ssl_verifyCert c = true /\ customCaEnabled s = true /\ k = trim (caCert s) /\ k <> []) /\
  (ssl_mTLS c = true -> ssl_enabled c = true) /\ (ssl_verifyCert c = true -> ssl_enabled c = true) /\
  p_internal_ssl (update_payload s) = c.
Proof.
  simpl. unfold ssl_payload, nonblank. simpl.
  destruct (internalSslEnabled s), (mTLS s), (verifyCert s), (customCaEnabled s); simpl; split_and!; try done;
    intros k; by destruct (trim _) eqn:E; intros [= <-].
Qed.
End UpstreamTheorems.

(** ** Instances *)

Lemma pool_reachable_invariant_witness :
  NoDup (map n_id (handleAddNode 1700000000000 (lbServers create_initial))).
Proof.
  apply (pool_reachable_invariant _ 1700000000000 [tt]).
  eapply star_cons; [apply (PoolAdd _ 1 1700000000000); lia|apply star_nil].
Defined.

Lemma probes_reachable_invariant_witness :
  exists l, add_probe 5 Readiness (js "ready") 0 [] = Some l /\ probe_inv l.
Proof.
  eexists. split; [reflexivity|]. apply (probes_reachable_invariant _ [tt]).
  eapply star_cons; [apply (ProbeAdd [] 5 Readiness (js "ready") 0); reflexivity|apply star_nil].
Defined.
