(* ===== verification/UpstreamInputs.v ===== *)
(** * The inputs of the upstream forms

    The markup of [pages/upstreams/create/page.tsx] and
    [pages/upstreams/edit/page.tsx]: every input with the field it shows,
    what its handler writes, and when it is on the page and enabled,
    including [CertUploadInput] for certificates and keys. The two pages
    share their inputs; where their handlers differ the page is a
    parameter. *)

From Stdlib Require Import ZArith NArith Lia String.
From S2P Require Import Prelude JsString JsValue Json Api FormInputs UpstreamForms.
Local Open Scope string_scope.
Local Open Scope list_scope.

#[global] Instance UpstreamType_eq_dec : EqDecision UpstreamType.
Proof. solve_decision. Defined.
#[global] Instance HttpVersion_eq_dec : EqDecision HttpVersion.
Proof. solve_decision. Defined.
#[global] Instance Compression_eq_dec : EqDecision Compression.
Proof. solve_decision. Defined.

Inductive page := CreatePage | EditPage.

(** ** Certificates and keys *)

(** The three uses of [CertUploadInput]. *)
Inductive cert_slot := CaSlot | ClientCertSlot | ClientKeySlot.

#[global] Instance cert_slot_eq_dec : EqDecision cert_slot.
Proof. solve_decision. Defined.

(** What the component makes of a file (its content and name), a pasted
    text or a removal: the value and the file name it hands to the page. *)
Inductive cert_entry := LoadFile (content file_name : jsstring) | Paste (text : jsstring) | Clear.

Definition cert_value (e : cert_entry) : jsstring :=
  match e with LoadFile content _ => content | Paste text => text | Clear => [] end.

(** The create page names pasted text only when there is no name yet, the
    edit page whenever it is not empty. *)
Definition cert_file_name (p : page) (old : jsstring) (e : cert_entry) : jsstring :=
  match e with
  | LoadFile _ n => n
  | Clear => []
  | Paste text =>
      match p with
      | CreatePage => str_or old (js "pasted-key.pem")
      | EditPage => match text with [] => old | _ => js "pasted-content.pem" end
      end
  end.

Definition isPemValid (value : jsstring) : bool := includes (js "-----BEGIN") value.
Definition linesCount (value : jsstring) : nat :=
  match value with [] => 0 | _ => length (split_on (N.eqb 10) (trim value)) end.

(** The name on the badge of the create page. *)
Definition badge_name (isPrivateKey : bool) (file_name : jsstring) : jsstring :=
  str_or file_name (if isPrivateKey then js "private-key.pem" else js "certificate.pem").

(** ** Entries and fields *)

Inductive up_entry :=
| InName (t : jsstring)
| InDescription (t : jsstring)
| InType (t : UpstreamType)
| InAlgorithm (a : BalancingAlgorithm)
| InSingle (t : jsstring)
| InFqdn (t : jsstring)
| InSniOverride (b : bool)
| InDynamicDns (b : bool)
| InSsl (b : bool)
| InSniHost (t : jsstring)
| InVerify (b : bool)
| InCustomCa (b : bool)
| InMtls (b : bool)
| InCert (slot : cert_slot) (e : cert_entry)
| InProbeType (t : ProbeType)
| InProbePath (t : jsstring)
| InProbeStatus (t : jsstring)
| InCompression (c : Compression)
| InMinBytes (n : Z)
| InLevel (n : Z)
| InVersion (v : HttpVersion)
| InWebSocket (b : bool)
| InSse (b : bool)
| InGrpc (b : bool)
| InKeepAlive (t : jsstring)
| InAddNode (now : Z)
| InNode (i : jsstring) (u : node_updates)
| InRemoveNode (i : jsstring)
| InAddProbe (now : Z)
| InProbe (i : jsstring) (u : probe_updates)
| InRemoveProbe (i : jsstring).

Inductive up_field :=
| FName | FDescription | FType | FAlgorithm | FSingle | FFqdn | FSniOverride | FDynamicDns | FSsl | FSniHost
| FVerify | FCustomCa | FMtls | FCaCert | FClientCert | FClientCertFile | FClientKey | FProbeType | FProbePath
| FProbeStatus | FCompression | FMinBytes | FLevel | FVersion | FWebSocket | FSse | FGrpc | FKeepAlive
| FServers | FProbes.

#[global] Instance up_field_eq_dec : EqDecision up_field.
Proof. solve_decision. Defined.

Section Page.
Context (pg : page).

(** [if (e.target.checked && httpVersion === 'HTTP/1.1')] on the create
    page, [if (e.target.checked)] on the edit page. *)
Definition grpc_switches (s : UpstreamForm) (b : bool) : bool :=
  b && match pg with CreatePage => bool_decide (httpVersion s = Http11) | EditPage => true end.

Definition after_grpc (c : Compression) : Compression := match c with Deflate => Gzip | _ => c end.

Definition added_probes (s : UpstreamForm) (now : Z) : list ProbeCheckItem * jsstring :=
  match pg with
  | CreatePage => handleAddProbe now (newProbeType s) (newProbePath s) (newProbeStatus s) (probes s)
  | EditPage => (addProbe now (probes s), newProbePath s)
  end.

Definition added_nodes (s : UpstreamForm) (now : Z) : list UpstreamNode :=
  match pg with CreatePage => handleAddNode now (lbServers s) | EditPage => addLbServer now (lbServers s) end.

(** The handlers of the inputs. *)
Definition up_enter (s : UpstreamForm) (e : up_entry) : UpstreamForm :=
  {| name := match e with InName t => t | _ => name s end;
     description := match e with InDescription t => t | _ => description s end;
     type := match e with InType t => t | _ => type s end;
     singleAddress := match e with InSingle t => t | _ => singleAddress s end;
     algorithm := match e with InAlgorithm a => a | _ => algorithm s end;
     lbServers := match e with
                  | InAddNode now => added_nodes s now
                  | InNode i u => handleUpdateNode i u (lbServers s)
                  | InRemoveNode i => handleRemoveNode i (lbServers s)
                  | _ => lbServers s
                  end;
     externalFqdn := match e with InFqdn t => t | _ => externalFqdn s end;
     sniOverride := match e with InSniOverride b => b | _ => sniOverride s end;
     dynamicDns := match e with InDynamicDns b => b | _ => dynamicDns s end;
     internalSslEnabled := match e with InSsl b => b | _ => internalSslEnabled s end;
     verifyCert := match e with InVerify b => b | InMtls true => true | _ => verifyCert s end;
     sniHost := match e with InSniHost t => t | _ => sniHost s end;
     customCaEnabled := match e with InCustomCa b => b | _ => customCaEnabled s end;
     caCert := match e with InCert CaSlot c => cert_value c | _ => caCert s end;
     mTLS := match e with InMtls b => b | _ => mTLS s end;
     clientCert := match e with InCert ClientCertSlot c => cert_value c | _ => clientCert s end;
     clientCertFileName := match e with
                           | InCert ClientCertSlot c => cert_file_name pg (clientCertFileName s) c
                           | _ => clientCertFileName s
                           end;
     clientKey := match e with InCert ClientKeySlot c => cert_value c | _ => clientKey s end;
     clientKeyConfigured := clientKeyConfigured s;
     probes := match e with
               | InAddProbe now => (added_probes s now).1
               | InProbe i u => updateProbe i u (probes s)
               | InRemoveProbe i => handleRemoveProbe i (probes s)
               | _ => probes s
               end;
     newProbeType := match e with InProbeType t => t | _ => newProbeType s end;
     newProbePath := match e with
                     | InProbePath t => t
                     | InAddProbe now => (added_probes s now).2
                     | _ => newProbePath s
                     end;
     newProbeStatus := match e with InProbeStatus t => parse_or 200 t | _ => newProbeStatus s end;
     httpVersion := match e with
                    | InVersion v => v
                    | InGrpc b => if grpc_switches s b then Http2 else httpVersion s
                    | _ => httpVersion s
                    end;
     enableWebSocket := match e with
                        | InWebSocket b => b
                        | InGrpc b => if grpc_switches s b then false else enableWebSocket s
                        | _ => enableWebSocket s
                        end;
     enableSse := match e with InSse b => b | _ => enableSse s end;
     enableGrpc := match e with InGrpc b => b | _ => enableGrpc s end;
     requestCompression := match e with
                           | InCompression c => c
                           | InGrpc b => if grpc_switches s b then after_grpc (requestCompression s) else requestCompression s
                           | _ => requestCompression s
                           end;
     compressionMinBytes := match e with InMinBytes n => n | _ => compressionMinBytes s end;
     compressionLevel := match e with InLevel n => n | _ => compressionLevel s end;
     keepAliveConnections := match e with InKeepAlive t => parse_or 32 t | _ => keepAliveConnections s end;
     loading := loading s; loadError := loadError s; submitting := submitting s; errorMsg := errorMsg s |}.

(** When the input is on the page and enabled: the target of the chosen
    type, the TLS settings behind their switches, the probes (the create page
    has a row to type one, the edit page edits them in place) and the
    transport settings that the runtime has. *)
Definition target_offered (s : UpstreamForm) (e : up_entry) : bool :=
  match e with
  | InSingle _ => bool_decide (type s = SingleServer)
  | InAlgorithm _ | InAddNode _ | InNode _ _ => bool_decide (type s = LoadBalancer)
  | InRemoveNode _ => bool_decide (type s = LoadBalancer) && Nat.ltb 1 (length (lbServers s))
  | InFqdn _ | InSniOverride _ => bool_decide (type s = ExternalFqdn)
  | _ => true
  end.

Definition tls_offered (s : UpstreamForm) (e : up_entry) : bool :=
  match e with
  | InSniHost _ | InVerify _ | InMtls _ => internalSslEnabled s
  | InCustomCa _ => internalSslEnabled s && verifyCert s
  | InCert CaSlot _ => internalSslEnabled s && verifyCert s && customCaEnabled s
  | InCert _ _ => internalSslEnabled s && mTLS s
  | _ => true
  end.

Definition probe_offered (e : up_entry) : bool :=
  match e with
  | InProbeType _ | InProbePath _ | InProbeStatus _ => match pg with CreatePage => true | EditPage => false end
  | InProbe _ _ => match pg with CreatePage => false | EditPage => true end
  | _ => true
  end.

Definition transport_offered (s : UpstreamForm) (e : up_entry) : bool :=
  match e with
  | InCompression c => bool_decide (c = NoCompression)
  | InMinBytes _ | InLevel _ => negb (bool_decide (requestCompression s = NoCompression))
  | InVersion v => negb (bool_decide (v = Http3))
  | _ => true
  end.

Definition up_offered (s : UpstreamForm) (e : up_entry) : bool :=
  target_offered s e && tls_offered s e && probe_offered e && transport_offered s e.

Definition up_target (e : up_entry) : up_field :=
  match e with
  | InName _ => FName | InDescription _ => FDescription | InType _ => FType | InAlgorithm _ => FAlgorithm
  | InSingle _ => FSingle | InFqdn _ => FFqdn | InSniOverride _ => FSniOverride | InDynamicDns _ => FDynamicDns
  | InSsl _ => FSsl | InSniHost _ => FSniHost | InVerify _ => FVerify | InCustomCa _ => FCustomCa | InMtls _ => FMtls
  | InCert CaSlot _ => FCaCert | InCert ClientCertSlot _ => FClientCert | InCert ClientKeySlot _ => FClientKey
  | InProbeType _ => FProbeType | InProbePath _ => FProbePath | InProbeStatus _ => FProbeStatus
  | InCompression _ => FCompression | InMinBytes _ => FMinBytes | InLevel _ => FLevel | InVersion _ => FVersion
  | InWebSocket _ => FWebSocket | InSse _ => FSse | InGrpc _ => FGrpc | InKeepAlive _ => FKeepAlive
  | InAddNode _ | InNode _ _ | InRemoveNode _ => FServers
  | InAddProbe _ | InProbe _ _ | InRemoveProbe _ => FProbes
  end.

Definition up_also (e : up_entry) : list up_field :=
  match e with
  | InMtls _ => [FVerify]
  | InCert ClientCertSlot _ => [FClientCertFile]
  | InGrpc _ => [FVersion; FWebSocket; FCompression]
  | InAddProbe _ => [FProbePath]
  | _ => []
  end.

(** What an input shows, section by section. *)
Definition target_value (s : UpstreamForm) (f : up_field) : val :=
  match f with
  | FAlgorithm => VStr (algorithm_string (algorithm s)) | FSingle => VStr (singleAddress s)
  | FFqdn => VStr (externalFqdn s) | FSniOverride => VBool (sniOverride s) | FDynamicDns => VBool (dynamicDns s)
  | FServers => VArr (map node_val (lbServers s))
  | _ => VUndef
  end.

Definition tls_value (s : UpstreamForm) (f : up_field) : val :=
  match f with
  | FSsl => VBool (internalSslEnabled s) | FSniHost => VStr (sniHost s) | FVerify => VBool (verifyCert s)
  | FCustomCa => VBool (customCaEnabled s) | FMtls => VBool (mTLS s) | FCaCert => VStr (caCert s)
  | FClientCert => VStr (clientCert s) | FClientCertFile => VStr (clientCertFileName s) | FClientKey => VStr (clientKey s)
  | _ => VUndef
  end.

Definition probe_value (s : UpstreamForm) (f : up_field) : val :=
  match f with
  | FProbeType => VStr (probe_string (newProbeType s)) | FProbePath => VStr (newProbePath s)
  | FProbeStatus => VInt (newProbeStatus s) | FProbes => VArr (map probe_val (probes s))
  | _ => VUndef
  end.

Definition transport_value (s : UpstreamForm) (f : up_field) : val :=
  match f with
  | FCompression => VStr (compression_string (requestCompression s))
  | FMinBytes => VInt (compressionMinBytes s) | FLevel => VInt (compressionLevel s)
  | FVersion => VStr (version_string (httpVersion s)) | FWebSocket => VBool (enableWebSocket s) | FSse => VBool (enableSse s)
  | FGrpc => VBool (enableGrpc s) | FKeepAlive => VInt (keepAliveConnections s)
  | _ => VUndef
  end.

Definition up_value (s : UpstreamForm) (f : up_field) : val :=
  match f with
  | FName => VStr (name s) | FDescription => VStr (description s) | FType => VStr (type_string (type s))
  | FAlgorithm | FSingle | FFqdn | FSniOverride | FDynamicDns | FServers => target_value s f
  | FSsl | FSniHost | FVerify | FCustomCa | FMtls | FCaCert | FClientCert | FClientCertFile | FClientKey => tls_value s f
  | FProbeType | FProbePath | FProbeStatus | FProbes => probe_value s f
  | _ => transport_value s f
  end.

(** What the input keeps of an entry. *)
Definition up_kept (s : UpstreamForm) (e : up_entry) : val :=
  match e with
  | InName t | InDescription t | InSingle t | InFqdn t | InSniHost t | InProbePath t => VStr t
  | InType t => VStr (type_string t)
  | InAlgorithm a => VStr (algorithm_string a)
  | InSniOverride b | InDynamicDns b | InSsl b | InVerify b | InCustomCa b | InMtls b | InWebSocket b | InSse b | InGrpc b => VBool b
  | InCert _ c => VStr (cert_value c)
  | InProbeType t => VStr (probe_string t)
  | InProbeStatus t => VInt (parse_or 200 t)
  | InCompression c => VStr (compression_string c)
  | InMinBytes n | InLevel n => VInt n
  | InVersion v => VStr (version_string v)
  | InKeepAlive t => VInt (parse_or 32 t)
  | InAddNode now => VArr (map node_val (added_nodes s now))
  | InNode i u => VArr (map node_val (handleUpdateNode i u (lbServers s)))
  | InRemoveNode i => VArr (map node_val (handleRemoveNode i (lbServers s)))
  | InAddProbe now => VArr (map probe_val (added_probes s now).1)
  | InProbe i u => VArr (map probe_val (updateProbe i u (probes s)))
  | InRemoveProbe i => VArr (map probe_val (handleRemoveProbe i (probes s)))
  end.

Definition upstream_inputs : FormInputs UpstreamForm up_entry up_field.
Proof.
  refine {| enter := up_enter; target := up_target; also := up_also; field_value := up_value;
            kept_value := up_kept; offered := up_offered |}.
  - intros s e. destruct e; try reflexivity. by destruct slot.
  - intros s e f Hf Ha. destruct f; try reflexivity; destruct e; try reflexivity; try (by exfalso; apply Hf);
      try (by exfalso; apply Ha; set_solver); destruct slot; try reflexivity; try (by exfalso; apply Hf);
      by exfalso; apply Ha; set_solver.
Defined.
End Page.

(** ** What the page reaches *)

(** What the runtime supports, of the settings that have unavailable
    choices; a connection count and a probe status are never zero. *)
Definition supported (s : UpstreamForm) : Prop :=
  httpVersion s <> Http3 /\ requestCompression s = NoCompression /\ keepAliveConnections s <> 0%Z /\ newProbeStatus s <> 0%Z.

Lemma supported_enter pg s e : supported s -> up_offered pg s e = true -> supported (up_enter pg s e).
Proof.
  intros (Hv & Hc & Hk & Hp) Ho. unfold supported.
  cbn [httpVersion requestCompression keepAliveConnections newProbeStatus up_enter].
  destruct e; try done; cbn in Ho; boolify; try (by rewrite Ho); try done.
  - split_and!; try done. by apply parse_or_nonzero.
  - destruct (grpc_switches pg s b); [|done]. by rewrite Hc.
  - split_and!; try done. by apply parse_or_nonzero.
Qed.

(** The forms offer only what the runtime supports. From a form with
    supported settings, such as the empty one of the create page, whatever
    offered inputs are used and in whatever order, the request sent has an
    HTTP version other than HTTP/3, no request compression and a non-zero
    number of kept connections. *)
Theorem inputs_stay_supported (pg : page) (s s' : UpstreamForm) (es : list up_entry) :
  supported s ->
  star (@offered_step _ _ _ (upstream_inputs pg)) s es s' ->
  t_httpVersion (transport_payload s') <> Http3 /\
  t_requestCompression (transport_payload s') = Some NoCompression /\
  exists n, t_keepAliveConnections (transport_payload s') = Some n /\ n <> 0%Z.
Proof.
  intros Hs Hes. assert (supported s') as (Hv & Hc & Hk & _).
  { eapply (@offered_invariant _ _ _ (upstream_inputs pg) supported); [|exact Hs|exact Hes]. apply supported_enter. }
  unfold transport_payload. cbn. rewrite Hc. eauto.
Qed.

(** The credentials that were given are the credentials that are sent.
    When the last thing done to the client key was to load, paste or clear
    it, and the form is submitted with TLS and mutual TLS on, the payload
    carries that text trimmed, and no key when it is blank; with one of the
    switches off it carries none. The same text is what the input shows. *)
Theorem entered_key_is_sent (pg : page) (s : UpstreamForm) (before after : list up_entry) (c : cert_entry) :
  Forall (@spares _ _ _ (upstream_inputs pg) FClientKey) after ->
  let s' := @enter_all _ _ _ (upstream_inputs pg) s (before ++ InCert ClientKeySlot c :: after) in
  up_value s' FClientKey = VStr (cert_value c) /\
  ssl_clientKey (p_internal_ssl (create_payload s')) =
    if internalSslEnabled s' && mTLS s' then nonblank (cert_value c) else None.
Proof.
  intros Hafter s'.
  assert (up_value s' FClientKey = VStr (cert_value c)) as Hv
    by exact (@last_entry_shown _ _ _ (upstream_inputs pg) s before after (InCert ClientKeySlot c) Hafter).
  split; [done|]. cbn in Hv. injection Hv as Hv. cbn [create_payload upstream_payload p_internal_ssl ssl_payload ssl_clientKey].
  by rewrite Hv.
Qed.

(** The create page keeps a chosen file name over pasted text, the edit page
    replaces it. *)
Lemma pasted_name_differs old text c :
  old <> [] -> text = c :: [] ->
  cert_file_name CreatePage old (Paste text) = old /\ cert_file_name EditPage old (Paste text) = js "pasted-content.pem".
Proof. intros Ho ->. split; [by destruct old|done]. Qed.

(** The button that adds a probe is disabled on the create page, but the
    Enter key in the path input adds one. *)
Lemma enter_adds_unavailable_probe (now : Z) :
  length (p_probes (create_payload (@enter_all _ _ _ (upstream_inputs CreatePage) create_initial
            [InProbePath (js "/healthz"); InAddProbe now]))) = 1.
Proof. reflexivity. Qed.

(** Switching gRPC on from HTTP/1.0 leaves the version on the create page;
    on the edit page it becomes HTTP/2. *)
Lemma grpc_keeps_http10 :
  let sent pg := p_transport (create_payload (@enter_all _ _ _ (upstream_inputs pg) create_initial [InVersion Http10; InGrpc true])) in
  (t_enableGrpc (sent CreatePage), t_httpVersion (sent CreatePage)) = (true, Http10) /\
  (t_enableGrpc (sent EditPage), t_httpVersion (sent EditPage)) = (true, Http2).
Proof. split; reflexivity. Qed.

(** ** Instances *)

Lemma inputs_stay_supported_witness :
  let s' := up_enter CreatePage (up_enter CreatePage create_initial (InGrpc true)) (InKeepAlive (js "0")) in
  t_httpVersion (transport_payload s') <> Http3.
Proof.
  apply (inputs_stay_supported CreatePage create_initial
           (up_enter CreatePage (up_enter CreatePage create_initial (InGrpc true)) (InKeepAlive (js "0")))
           [InGrpc true; InKeepAlive (js "0")]).
  - split_and!; discriminate || reflexivity.
  - eapply star_cons; [apply (@OfferedEntry _ _ _ (upstream_inputs CreatePage)); reflexivity|].
    eapply star_cons; [apply (@OfferedEntry _ _ _ (upstream_inputs CreatePage)); reflexivity|]. apply star_nil.
Defined.

Lemma entered_key_is_sent_witness :
  ssl_clientKey (p_internal_ssl (create_payload (@enter_all _ _ _ (upstream_inputs CreatePage) create_initial
    ([InSsl true; InMtls true] ++ InCert ClientKeySlot (Paste (js " k ")) :: [InName (js "pool")])))) = Some (js "k").
Proof.
  exact (proj2 (entered_key_is_sent CreatePage create_initial [InSsl true; InMtls true] [InName (js "pool")] (Paste (js " k "))
    ltac:(repeat constructor; [discriminate|apply not_elem_of_nil]))).
Defined.
