(* ===== verification/Previews.v ===== *)
(** * The previews of the editor pages

    The editor pages show beside their inputs what will be saved: the
    dataflow of [pages/routes/create/page.tsx] and [edit/page.tsx], the
    summary of [pages/l4/create/page.tsx] and [edit/page.tsx] and the preview
    of [pages/upstreams/create/page.tsx] and [edit/page.tsx]. The class
    [Preview] states what a preview promises: for a form whose texts are
    written as they are sent, it reads what the payload says. The pages are
    its instances. The certificate input of the upstream pages and the gates
    in front of the forms are here too. *)

From Stdlib Require Import ZArith NArith Lia String.
From S2P Require Import Prelude JsString JsValue Json Fetcher Api FormInputs RouteForms L4Acl L4Forms UpstreamForms UpstreamInputs.
Local Open Scope string_scope.
Local Open Scope list_scope.

(** ** What a preview promises *)

(** A form [F] sends a payload [P] and shows a summary [S]; [reading] is what
    a truthful summary says of a payload. *)
Class Preview (F P S : Type) := {
  summary : F -> S;
  payload : F -> option P;
  reading : P -> S;
  tidy : F -> Prop;
  summary_truthful f p : payload f = Some p -> tidy f -> summary f = reading p
}.

(** Whatever the page: two forms that send the same show the same, and a
    preview that changed announces another payload. *)
Lemma same_payload_same_summary {F P S} `{Preview F P S} (f g : F) (p : P) :
  payload f = Some p -> payload g = Some p -> tidy f -> tidy g -> summary f = summary g.
Proof. intros Hf Hg Tf Tg. by rewrite (summary_truthful f p Hf Tf), (summary_truthful g p Hg Tg). Qed.

(** ** The dataflow of a route *)

Module RouteFlow.
Import RouteForms.
Section Flow.
Context `{CaseMapping}.

Record flow := { fl_active : bool; fl_host : jsstring; fl_path : jsstring; fl_policies : list jsstring; fl_upstream : jsstring }.

(** The policies named between the path and the upstream. *)
Definition policies (strip websocket : bool) : list jsstring :=
  if strip then js "Strip Prefix" :: (if websocket then [js "WebSocket WS"] else [])
  else if websocket then [js "WebSocket WS"] else [js "Standard Pass-through"].

Definition flow_of (f : RouteFormState) : flow :=
  {| fl_active := r_enabled f; fl_host := str_or (r_host f) (js "*"); fl_path := str_or (r_path f) (js "/");
     fl_policies := policies (r_strip_path f) (r_websocket f);
     fl_upstream := str_or (r_upstream_name f) (js "Select Upstream...") |}.

Definition flow_reading (p : RoutesApi.RoutePayload) : flow :=
  {| fl_active := default false (RoutesApi.p_enabled p); fl_host := RoutesApi.p_host p; fl_path := RoutesApi.p_path p;
     fl_policies := policies (default false (RoutesApi.p_strip_path p)) (default false (RoutesApi.p_websocket p));
     fl_upstream := RoutesApi.p_upstream_name p |}.

(** The texts are as [handleSubmit] will send them. *)
Definition flow_tidy (f : RouteFormState) : Prop :=
  r_host f = toLowerCase (trim (r_host f)) /\ r_path f = trim (r_path f) /\ r_upstream_name f = trim (r_upstream_name f).

Definition page_sends (f : RouteFormState) : option RoutesApi.RoutePayload :=
  match page_payload create_invalid f with Ok p => Some p | Throw _ => None end.

#[export] Instance route_flow : Preview RouteFormState RoutesApi.RoutePayload flow.
Proof.
  refine {| summary := flow_of; payload := page_sends; reading := flow_reading; tidy := flow_tidy |}.
  intros f p Hp (Hh & Hpa & Hu). unfold page_sends in Hp. destruct (page_payload create_invalid f) as [q|m] eqn:E; [|done].
  injection Hp as <-. apply page_payload_ok in E as [(_ & H2 & H3 & H4 & _) ->].
  unfold flow_of, flow_reading. cbn. rewrite <- Hh in *. rewrite <- Hpa in *. rewrite <- Hu in *.
  destruct (r_host f); [done|]. destruct (r_upstream_name f); [done|]. destruct (r_path f); [by apply startsWith_spec in H3 as [? ?]|]. done.
Defined.

(** The header: the button that submits and the gate while an edited route
    is loaded. *)
Definition create_button (s : RouteForm) : jsstring * bool :=
  (if submitting s then js "Creating..." else js "Create & Deploy Route", submitting s).
Definition edit_button (s : RouteForm) : jsstring * bool :=
  (if submitting s then js "Saving..." else js "Save Changes", submitting s).

Inductive edit_screen := LoadingRoute | EditScreen (title : jsstring) (error : option jsstring) (flow : flow).

Definition edit_screen_of (s : RouteForm) : edit_screen :=
  if loading s then LoadingRoute
  else EditScreen (js "Edit Route: " ++ match originalRoute s with Some r => RoutesApi.name r | None => [] end)
         (error s) (flow_of (formData s)).
End Flow.
End RouteFlow.

(** ** The summary of a layer-4 service *)

Module L4Summary.
Import L4Api L4Acl L4Forms.
Section Summary.
Context `{CaseMapping}.

Record l4_summary := { su_name : jsstring; su_listener : jsstring; su_destination : jsstring; su_rules : jsstring; su_status : jsstring }.

Definition listener_text (protocol : jsstring) (port : option Z) : jsstring :=
  protocol ++ js " :" ++ match port with Some n => int_string n | None => [] end.

Definition destination_text (t : target) (upstream endpoint : jsstring) : jsstring :=
  match t with
  | TUpstream => js "Pool: " ++ str_or upstream (js "None")
  | TEndpoint => js "Direct: " ++ str_or endpoint (js "None")
  end.

Definition rules_text (n : nat) : jsstring := int_string (Z.of_nat n) ++ js " active (by priority)".
Definition status_text (enabled : bool) : jsstring := if enabled then js "Active / Enabled" else js "Inactive".

Definition summary_of (s : L4Form) : l4_summary :=
  {| su_name := str_or (f_name s) (js "—"); su_listener := listener_text (proto_string (f_protocol s)) (f_port s);
     su_destination := destination_text (f_targetType s) (f_upstream s) (f_endpoint s);
     su_rules := rules_text (length (aclRules (f_acl s))); su_status := status_text (f_enabled s) |}.

(** The rules of a payload are what its JSON decodes to. *)
Definition payload_rules (p : L4Payload) : nat :=
  match parse_acl (p_acl_rules_json p) with Some (AclRules l) => length l | _ => 0 end.

Definition summary_reading (p : L4Payload) : l4_summary :=
  {| su_name := p_name p; su_listener := listener_text (p_protocol p) (Some (p_listen_port p));
     su_destination := destination_text (default TUpstream (p_forward_target_type p)) (default [] (p_upstream_name p))
                         (default [] (p_direct_endpoint p));
     su_rules := rules_text (payload_rules p); su_status := status_text (default false (p_enabled p)) |}.

Definition l4_tidy (s : L4Form) : Prop :=
  f_name s = trim (f_name s) /\ f_upstream s = trim (f_upstream s) /\ f_endpoint s = trim (f_endpoint s) /\
  Forall rule_ok (aclRules (f_acl s)).

Definition l4_sends (s : L4Form) : option L4Payload := match submit_payload s with Ok p => Some p | Throw _ => None end.

#[export] Instance l4_preview : Preview L4Form L4Payload l4_summary.
Proof.
  refine {| summary := summary_of; payload := l4_sends; reading := summary_reading; tidy := l4_tidy |}.
  intros s p Hp (Hn & Hu & He & Hr). unfold l4_sends in Hp. destruct (submit_payload s) as [q|m] eqn:E; [|done].
  injection Hp as <-. assert (submittable s) as (H1 & (n & Hport & _) & H3) by (apply submit_payload_ok; eauto).
  rewrite (submit_payload_value s q E). unfold summary_of, summary_reading, payload_of, payload_rules.
  cbn [p_name p_protocol p_listen_port p_forward_target_type p_upstream_name p_direct_endpoint p_acl_rules_json p_enabled default].
  assert (sort_rules (aclRules (f_acl s)) ≡ₚ aclRules (f_acl s)) as Hperm by apply stable_sort_perm.
  rewrite acl_json_roundtrip by (by rewrite Hperm). rewrite Hperm, Hport. rewrite <- Hn, <- Hu, <- He in *. cbn [default].
  destruct (f_name s); [done|]. by destruct (f_targetType s).
Defined.

Definition create_button (s : L4Form) : jsstring * bool :=
  (if f_isSubmitting s then js "Creating Service..." else js "Create L4 Service", f_isSubmitting s).
Definition edit_button (s : L4Form) : jsstring * bool :=
  (if f_isSubmitting s then js "Saving Changes..." else js "Save Changes", f_isSubmitting s).

Definition rules_count (s : L4Form) : jsstring :=
  let n := length (aclRules (f_acl s)) in
  int_string (Z.of_nat n) ++ js " " ++ (if Nat.eqb n 1 then js "rule" else js "rules") ++ js " configured".

Inductive edit_screen := LoadingService | EditScreen (crumb : jsstring) (error : option jsstring) (summary : l4_summary) (nginx : jsstring).

Definition edit_screen_of (s : L4Form) : edit_screen :=
  if f_loading s then LoadingService
  else EditScreen (str_or (f_name s) (js "Service Details")) (errorMsg (f_acl s)) (summary_of s) (edit_nginxPreview s).
End Summary.
End L4Summary.

(** ** The preview of an upstream *)

Module UpstreamPreview.
Import UpstreamForms UpstreamInputs.
Section Preview_.
Context `{CaseMapping}.

Inductive topology :=
| OneTarget (address : jsstring)
| Pool (algorithm : jsstring) (nodes : list (jsstring * Z)).

(** What the panel says about TLS when it is on. *)
Record tls_lines := { tl_verify : bool; tl_ca : bool; tl_mtls : option jsstring; tl_sni : option jsstring }.

Record upstream_summary := {
  us_type : jsstring;
  us_name : jsstring;
  us_topology : topology;
  us_tls : option tls_lines;
  us_probes : list (jsstring * jsstring);
  us_features : list jsstring
}.

Definition probe_line (p : ProbeCheckItem) : jsstring * jsstring :=
  (probe_string (pr_type p) ++ js ": " ++ pr_path p, js "HTTP " ++ int_string (status_or (default 0%Z (pr_expectedStatus p)))).

Definition features (v : HttpVersion) (ws sse grpc : bool) : list jsstring :=
  version_string v :: (if ws then [js "WebSocket"] else []) ++ (if sse then [js "SSE"] else []) ++ (if grpc then [js "gRPC"] else []).

Definition shown_name (s : UpstreamForm) : jsstring := match trim (name s) with [] => js "unnamed-upstream" | _ => slug (name s) end.

Definition shown_topology (node_hint : string) (s : UpstreamForm) : topology :=
  match type s with
  | SingleServer => OneTarget (str_or (singleAddress s) (js "10.0.1.10:8080"))
  | LoadBalancer => Pool (algorithm_string (algorithm s)) (map (fun n => (str_or (n_address n) (js node_hint), n_weight n)) (lbServers s))
  | ExternalFqdn => OneTarget (str_or (externalFqdn s) (js "origin.internal"))
  end.

Definition opt_line (t : jsstring) : option jsstring := match t with [] => None | _ => Some t end.

Definition shown_tls (ca_line : UpstreamForm -> bool) (s : UpstreamForm) : option tls_lines :=
  if internalSslEnabled s
  then Some {| tl_verify := verifyCert s; tl_ca := ca_line s;
               tl_mtls := if mTLS s then Some (str_or (clientCertFileName s) (js "Configured")) else None;
               tl_sni := opt_line (sniHost s) |}
  else None.

(** The create page names the CA bundle when one is loaded. *)
Definition create_ca_line (s : UpstreamForm) : bool := verifyCert s && negb (jeqb (caCert s) []).

Definition create_summary (s : UpstreamForm) : upstream_summary :=
  {| us_type := type_string (type s); us_name := shown_name s; us_topology := shown_topology "10.0.1.x" s;
     us_tls := shown_tls create_ca_line s; us_probes := map probe_line (probes s);
     us_features := features (httpVersion s) (enableWebSocket s) (enableSse s) (enableGrpc s) |}.

(** What a payload says, read the same way. *)
Definition topology_reading (p : UpstreamPayload) : topology :=
  match p_architecture_type p, p_servers p with
  | LoadBalancer, l => Pool (algorithm_string (p_algorithm p)) (map (fun n => (n_address n, n_weight n)) l)
  | _, n :: _ => OneTarget (n_address n)
  | _, [] => OneTarget []
  end.

Definition tls_reading (c : InternalSslConfig) : option tls_lines :=
  if ssl_enabled c
  then Some {| tl_verify := ssl_verifyCert c; tl_ca := match ssl_caCert c with Some _ => true | None => false end;
               tl_mtls := if ssl_mTLS c then ssl_clientCertName c else None; tl_sni := ssl_sniHost c |}
  else None.

Definition upstream_reading (p : UpstreamPayload) : upstream_summary :=
  let t := p_transport p in
  {| us_type := type_string (p_architecture_type p); us_name := p_name p; us_topology := topology_reading p;
     us_tls := tls_reading (p_internal_ssl p); us_probes := map probe_line (p_probes p);
     us_features := features (t_httpVersion t) (t_enableWebSocket t) (t_enableSse t) (t_enableGrpc t) |}.

(** A text that is there and has no blanks around it. *)
Definition plain (t : jsstring) : Prop := t <> [] /\ trim t = t.

(** The addresses are given, the texts are as they are sent, a CA bundle is
    loaded exactly when it is used, and a client certificate has a name. *)
Definition upstream_tidy (s : UpstreamForm) : Prop :=
  match type s with
  | SingleServer => plain (singleAddress s)
  | LoadBalancer => Forall (fun n => plain (n_address n)) (lbServers s)
  | ExternalFqdn => plain (externalFqdn s)
  end /\
  (internalSslEnabled s = true ->
     trim (sniHost s) = sniHost s /\
     (verifyCert s = true -> if customCaEnabled s then plain (caCert s) else caCert s = []) /\
     (mTLS s = true -> clientCertFileName s <> [])).

Definition create_sends (s : UpstreamForm) : option UpstreamPayload :=
  if jeqb (trim (name s)) [] then None else Some (create_payload s).

Lemma plain_or t d : plain t -> str_or (trim t) d = t /\ (forall d', str_or t d' = t).
Proof. intros [Hn Ht]. rewrite Ht. by destruct t. Qed.

Lemma topology_truthful s :
  match type s with
  | SingleServer => plain (singleAddress s)
  | LoadBalancer => Forall (fun n => plain (n_address n)) (lbServers s)
  | ExternalFqdn => plain (externalFqdn s)
  end -> shown_topology "10.0.1.x" s = topology_reading (create_payload s).
Proof.
  intros Ht. unfold shown_topology, topology_reading, create_payload, upstream_payload, create_servers.
  cbn [p_architecture_type p_servers p_algorithm]. destruct (type s).
  - destruct (plain_or _ (js "127.0.0.1:8080") Ht) as [E1 E2]. cbn [plain_node n_address]. by rewrite E1, E2.
  - f_equal. rewrite map_map. apply map_ext_in. intros n Hn%list_elem_of_In. rewrite Forall_forall in Ht.
    destruct (plain_or _ (js "127.0.0.1:8080") (Ht n Hn)) as [E1 E2]. cbn [with_address n_address n_weight]. by rewrite E1, E2.
  - destruct (plain_or _ (js "origin.internal") Ht) as [E1 E2]. cbn [plain_node n_address]. by rewrite E1, E2.
Qed.

Lemma nonblank_line t : trim t = t -> nonblank t = opt_line t.
Proof. unfold nonblank, opt_line. intros E. rewrite E. by destruct t. Qed.

Lemma tls_truthful s :
  (internalSslEnabled s = true ->
     trim (sniHost s) = sniHost s /\
     (verifyCert s = true -> if customCaEnabled s then plain (caCert s) else caCert s = []) /\
     (mTLS s = true -> clientCertFileName s <> [])) ->
  shown_tls create_ca_line s = tls_reading (ssl_payload s).
Proof.
  intros Ht. unfold shown_tls, tls_reading, ssl_payload, create_ca_line.
  cbn [ssl_enabled ssl_verifyCert ssl_caCert ssl_mTLS ssl_clientCertName ssl_sniHost].
  destruct (internalSslEnabled s); [|done]. destruct (Ht eq_refl) as (H1 & H2 & H3). cbn [andb]. f_equal.
  rewrite (nonblank_line _ H1). f_equal.
  - destruct (verifyCert s); cbn [andb]; [|done]. specialize (H2 eq_refl). destruct (customCaEnabled s).
    + destruct H2 as [Hn Hc]. unfold nonblank. rewrite Hc. by destruct (caCert s).
    + by rewrite H2.
  - destruct (mTLS s); [|done]. specialize (H3 eq_refl). by destruct (clientCertFileName s).
Qed.

#[export] Instance upstream_preview : Preview UpstreamForm UpstreamPayload upstream_summary.
Proof.
  refine {| summary := create_summary; payload := create_sends; reading := upstream_reading; tidy := upstream_tidy |}.
  intros s p Hp [Ht Hs]. unfold create_sends in Hp. destruct (jeqb (trim (name s)) []) eqn:E; [done|]. injection Hp as <-.
  apply jeqb_false in E. unfold create_summary, upstream_reading. rewrite (topology_truthful s Ht), (tls_truthful s Hs).
  cbn [create_payload upstream_payload p_architecture_type p_name p_internal_ssl p_probes p_transport transport_payload
       t_httpVersion t_enableWebSocket t_enableSse t_enableGrpc]. rewrite map_id. unfold shown_name.
  by destruct (trim (name s)).
Defined.

(** The snippet "Backend transport configuration" of both pages. *)
Definition snippet (s : UpstreamForm) : val :=
  vobj [("protocol", VStr (version_string (httpVersion s))); ("grpc", VBool (enableGrpc s));
        ("requestCompression", VStr (compression_string (requestCompression s)));
        ("compressionMinBytes", VInt (compressionMinBytes s)); ("compressionLevel", VInt (compressionLevel s));
        ("dynamicDns", VBool (dynamicDns s)); ("tls", VBool (internalSslEnabled s)); ("verifyOrigin", VBool (verifyCert s));
        ("sni", VStr (sniHost s)); ("mtls", VBool (mTLS s)); ("keepAliveConnections", VInt (keepAliveConnections s))].

(** The edit page counts the nodes instead of listing them and does not name
    the CA bundle. *)
Record edit_summary := { es_type : jsstring; es_name : jsstring; es_target : jsstring + (jsstring * nat); es_tls : option tls_lines;
                         es_probes : list (jsstring * jsstring); es_features : list jsstring }.

Definition edit_summary_of (s : UpstreamForm) : edit_summary :=
  {| es_type := type_string (type s); es_name := shown_name s;
     es_target := match shown_topology "10.0.1.10:8080" s with OneTarget a => inl a | Pool a l => inr (a, length l) end;
     es_tls := shown_tls (fun _ => false) s; es_probes := map probe_line (probes s);
     es_features := features (httpVersion s) (enableWebSocket s) (enableSse s) (enableGrpc s) |}.

(** The gates of the edit page, and its warning before a rename;
    [bound] and [initialName] are those of the upstream that was loaded. *)
Definition rename_warning (bound : Z) (initialName : jsstring) (s : UpstreamForm) : bool :=
  (0 <? bound)%Z && negb (jeqb (slug (name s)) initialName).

Definition bound_badge (bound : Z) : option jsstring :=
  if (0 <? bound)%Z then Some (int_string bound ++ js " bound " ++ (if (bound =? 1)%Z then js "domain" else js "domains")) else None.

Inductive edit_screen :=
| LoadingPool
| PoolNotFound (message : jsstring)
| EditPool (badge : option jsstring) (warning : bool) (error : option jsstring) (summary : edit_summary).

Definition edit_screen_of (bound : Z) (initialName : jsstring) (s : UpstreamForm) : edit_screen :=
  if loading s then LoadingPool
  else match loadError s with
       | [] => EditPool (bound_badge bound) (rename_warning bound initialName s) (opt_line (errorMsg s)) (edit_summary_of s)
       | m => PoolNotFound m
       end.

(** [disabled={!name.trim() || submitting}] *)
Definition submit_disabled (s : UpstreamForm) : bool := jeqb (trim (name s)) [] || submitting s.
Definition create_button (s : UpstreamForm) : jsstring * bool :=
  (if submitting s then js "Creating Upstream Pool..." else js "Create Upstream Pool", submit_disabled s).
Definition edit_button (s : UpstreamForm) : jsstring * bool :=
  (if submitting s then js "Saving Changes..." else js "Save Changes", submit_disabled s).

(** A click on an enabled button sends, once: the button is disabled by it. *)
Lemma enabled_button_sends s : (create_button s).2 = false ->
  exists s' c, handleCreate s = (s', Some c) /\ (create_button s').2 = true.
Proof.
  unfold create_button, submit_disabled, handleCreate. cbn [snd]. rewrite orb_false_iff. intros [-> _].
  do 2 eexists. split; [done|]. cbn. apply orb_true_r.
Qed.

(** The warning is given exactly when the name that will be sent is another
    than the one the bound routes know. *)
Lemma rename_warning_spec bound initialName s :
  rename_warning bound initialName s = true <-> (0 < bound)%Z /\ p_name (update_payload s) <> initialName.
Proof. unfold rename_warning. by rewrite andb_true_iff, Z.ltb_lt, negb_true_iff, jeqb_false. Qed.

(** Where the preview and the payload part. A blank address is previewed as
    one address and sent as another; *)
Lemma blank_address_previewed (s : UpstreamForm) : type s = SingleServer -> singleAddress s = [] ->
  us_topology (create_summary s) = OneTarget (js "10.0.1.10:8080") /\
  map n_address (p_servers (create_payload s)) = [js "127.0.0.1:8080"].
Proof.
  intros Ht Hs. unfold create_summary, create_payload, upstream_payload, shown_topology, create_servers.
  cbn [us_topology p_servers]. by rewrite Ht, Hs.
Qed.

(** a CA bundle that is loaded and switched off is previewed and not sent; *)
Lemma unused_ca_previewed (s : UpstreamForm) : internalSslEnabled s = true -> verifyCert s = true ->
  customCaEnabled s = false -> caCert s <> [] ->
  tl_ca <$> us_tls (create_summary s) = Some true /\ ssl_caCert (ssl_payload s) = None.
Proof.
  intros H1 H2 H3 H4. unfold create_summary, shown_tls, create_ca_line, ssl_payload. cbn [us_tls ssl_caCert].
  rewrite H1, H2, H3. split; [|done]. cbn. by destruct (caCert s).
Qed.

(** and the snippet of an untouched form announces a verified origin over
    plain HTTP. *)
Lemma snippet_verifies_plain_http :
  obj_get (js "verifyOrigin") (match snippet create_initial with VObj o => o | _ => [] end) = Some (VBool true) /\
  internalSslEnabled create_initial = false /\ ssl_verifyCert (ssl_payload create_initial) = false.
Proof. split_and!; vm_compute; reflexivity. Qed.
End Preview_.
End UpstreamPreview.

(** ** The certificate input of the upstream pages *)

Module CertInput.
Import UpstreamInputs.

Inductive cert_tab := UploadTab | PasteTab.

(** The state of the input; the value and the file name are the page's. *)
Record CertUploadInput := { tab : cert_tab; isDragging : bool }.
Definition initial_input : CertUploadInput := {| tab := UploadTab; isDragging := false |}.

Inductive cert_event := DragOver | DragLeave | Drop (file : option (jsstring * jsstring)) | PickTab (t : cert_tab)
                      | ChooseFile (file : option (jsstring * jsstring)) | PasteText (t : jsstring) | ClearValue.

(** What an event hands to the page: the content of a file when it was read. *)
Definition handed (e : cert_event) : option cert_entry :=
  match e with
  | Drop (Some (c, n)) | ChooseFile (Some (c, n)) => Some (LoadFile c n)
  | PasteText t => Some (Paste t)
  | ClearValue => Some Clear
  | _ => None
  end.

Definition input_step (s : CertUploadInput) (e : cert_event) : CertUploadInput :=
  match e with
  | DragOver => {| tab := tab s; isDragging := true |}
  | DragLeave | Drop _ => {| tab := tab s; isDragging := false |}
  | PickTab t => {| tab := t; isDragging := isDragging s |}
  | _ => s
  end.

(** What each page draws of it: the create page has a badge above the tabs,
    the edit page has it inside the upload tab. *)
Inductive cert_panel :=
| DropZone
| FileBadge (file_name : jsstring) (pem : bool) (lines : nat)
| TextArea (value : jsstring) (note : option bool).

Definition edit_file_name (isPrivateKey : bool) (file_name : jsstring) : jsstring :=
  str_or file_name (if isPrivateKey then js "private-key.key" else js "certificate.crt").

Definition create_panels (s : CertUploadInput) (key : bool) (value file_name : jsstring) : list cert_panel :=
  (match value with [] => [] | _ => [FileBadge (badge_name key file_name) (isPemValid value) (linesCount value)] end) ++
  (match tab s, value with
   | UploadTab, [] => [DropZone]
   | UploadTab, _ => []
   | PasteTab, _ => [TextArea value (if isPemValid value then Some true else None)]
   end).

Definition edit_panels (s : CertUploadInput) (key : bool) (value file_name : jsstring) : list cert_panel :=
  match tab s with
  | UploadTab => match value with
                 | [] => [DropZone]
                 | _ => [FileBadge (edit_file_name key file_name) (isPemValid value) (linesCount value)]
                 end
  | PasteTab => [TextArea value (match value with [] => None | _ => Some (isPemValid value) end)]
  end.

(** A file can be loaded exactly while there is none, or after switching to
    the text; whatever was dragged over, a drop ends the drag. *)
Lemma drop_ends_drag s es f : isDragging (input_step (fold_left input_step es s) (Drop f)) = false.
Proof. done. Qed.

Lemma value_always_visible s key value file_name : value <> [] ->
  create_panels s key value file_name <> [] /\ edit_panels s key value file_name <> [] /\
  DropZone ∉ create_panels s key value file_name /\ DropZone ∉ edit_panels s key value file_name.
Proof.
  intros Hv. unfold create_panels, edit_panels. destruct value as [|c v]; [done|].
  destruct (tab s); cbn; split_and!; try done; set_solver.
Qed.
End CertInput.

(** ** Theorems *)

(** C24: what the editor pages preview is what they save. For a route, a
    layer-4 service and an upstream alike: when the form is submitted, and
    its texts are written as they are sent (for an upstream also: its
    addresses are given, a CA bundle is loaded exactly when it is used, and
    a client certificate has a file name), the summary beside the inputs
    reads host, path, policies and target, or listener, destination and
    number of rules, or name, topology, TLS, probes and features, exactly
    as the payload of the request says. *)
Theorem previews_read_payloads `{CaseMapping} :
  (forall f p, RouteForms.page_payload RouteForms.create_invalid f = Ok p -> RouteFlow.flow_tidy f ->
     RouteFlow.flow_of f = RouteFlow.flow_reading p) /\
  (forall s p, L4Forms.submit_payload s = Ok p -> L4Summary.l4_tidy s -> L4Summary.summary_of s = L4Summary.summary_reading p) /\
  (forall s c, (UpstreamForms.handleCreate s).2 = Some c -> UpstreamPreview.upstream_tidy s ->
     UpstreamPreview.create_summary s = UpstreamPreview.upstream_reading (UpstreamForms.create_payload s)).
Proof.
  split_and!.
  - intros f p Hp Ht. apply (summary_truthful (Preview := RouteFlow.route_flow) f p); [|done].
    cbn. unfold RouteFlow.page_sends. by rewrite Hp.
  - intros s p Hp Ht. apply (summary_truthful (Preview := L4Summary.l4_preview) s p); [|done].
    cbn. unfold L4Summary.l4_sends. by rewrite Hp.
  - intros s c Hc Ht. apply (summary_truthful (Preview := UpstreamPreview.upstream_preview) s); [|done].
    cbn. unfold UpstreamPreview.create_sends. unfold UpstreamForms.handleCreate in Hc. by destruct (jeqb _ []).
Qed.

(** ** Instances *)

Definition external_form : UpstreamForm :=
  fold_left (up_enter CreatePage) [InName (js "Origin"); InType ExternalFqdn; InFqdn (js "origin.example:443"); InSsl true] UpstreamForms.create_initial.

Lemma previews_read_payloads_witness :
  UpstreamPreview.create_summary external_form = UpstreamPreview.upstream_reading (UpstreamForms.create_payload external_form).
Proof.
  refine (proj2 (proj2 previews_read_payloads) external_form _ eq_refl _).
  split; [split; [discriminate|reflexivity]|]. intros _. split; [reflexivity|]. split; [reflexivity|discriminate].
Defined.
