(* ===== verification/UpstreamsPage.v ===== *)
(** * The upstreams page

    [pages/upstreams/page.tsx]: the loop that loads every page of the list,
    the polled state around it, deletion, and the counters and filters. The
    control plane is an argument: what it answers to each page number. *)

From Stdlib Require Import ZArith NArith Lia String.
From S2P Require Import Prelude JsString JsValue Json Fetcher Api Polling UpstreamForms.
Local Open Scope string_scope.
Local Open Scope list_scope.

(** ** Loading all pages *)

Definition page_limit : nat := 100.

Section Paging.
Context {A : Type}.

(** [upstreamsApi.list({page, limit: 100})]: the items and the total. *)
Variable server : nat -> result ApiError (list A * Z).

(** The body of the [for (let page = 1; ; page++)] loop, from [page] with the
    items so far; [None] when the fuel is used up. *)
Fixpoint load_pages (fuel page : nat) (items : list A) : option (result ApiError (list A)) :=
  match fuel with
  | O => None
  | S fuel' =>
      match server page with
      | Throw e => Some (Throw e)
      | Ok (l, total) =>
          let items := items ++ l in
          if Nat.eqb (length l) 0 || (total <=? Z.of_nat (length items))%Z
          then Some (Ok items) else load_pages fuel' (S page) items
      end
  end.

(** The loop ends no later than a page that fails or is empty. *)
Lemma load_pages_ends k page items :
  match server (page + k) with Throw _ => True | Ok (l, _) => l = [] end ->
  exists r, load_pages (S k) page items = Some r.
Proof.
  revert page items; induction k as [|k IH]; intros page items Hk; cbn [load_pages].
  - rewrite Nat.add_0_r in Hk. destruct (server page) as [[l total]|e]; [|by eexists].
    subst l. simpl. by eexists.
  - destruct (server page) as [[l total]|e]; [|by eexists]. cbv zeta.
    destruct (_ || _); [by eexists|]. apply IH. by rewrite Nat.add_succ_comm.
Qed.
End Paging.

(** A control plane that holds the list [all] and pages it. *)
Definition paged {A} (all : list A) (page : nat) : result ApiError (list A * Z) :=
  Ok (take page_limit (drop (page_limit * (page - 1)) all), Z.of_nat (length all)).

Lemma load_pages_paged {A} (all : list A) fuel k :
  page_limit * k <= length all \/ k = 0 -> length all <= page_limit * (k + fuel) -> 0 < fuel ->
  load_pages (paged all) fuel (S k) (take (page_limit * k) all) = Some (Ok all).
Proof.
  revert k; induction fuel as [|fuel IH]; intros k Hk Hf H0; [lia|]. cbn [load_pages paged].
  replace (page_limit * (S k - 1)) with (page_limit * k) by lia. cbv zeta.
  replace (take (page_limit * k) all ++ take page_limit (drop (page_limit * k) all))
    with (take (page_limit * S k) all) by (rewrite take_take_drop; f_equal; lia).
  destruct (decide (length all <= page_limit * S k)) as [Hle|Hgt].
  - rewrite (take_ge all) by done.
    rewrite (proj2 (Z.leb_le (Z.of_nat (length all)) (Z.of_nat (length all)))) by lia. by rewrite orb_true_r.
  - rewrite !length_take, length_drop.
    rewrite (proj2 (Nat.eqb_neq _ 0)) by (unfold page_limit in *; lia).
    rewrite (proj2 (Z.leb_gt _ _)) by lia. simpl. apply IH; [left; lia|lia|unfold page_limit in *; lia].
Qed.

(** ** The page *)

Definition upstreams_feed : ListPage UpstreamItem :=
  reloaded_page 70 (js "ailed to load upstreams from backend").

Section Page.
Context `{CaseMapping}.

(** What a finished load gives to the polled page. *)
Definition fetch_outcome (r : result ApiError (list UpstreamItem)) : result jsstring (list UpstreamItem) :=
  match r with Ok l => Ok l | Throw e => Throw (err_message e) end.

Record counters := { totalUpstreams : nat; totalNodes : nat; sslProtectedCount : nat }.

Definition upstream_counters (l : list UpstreamItem) : counters :=
  {| totalUpstreams := length l;
     totalNodes := fold_left (fun acc u => acc + length (u_servers u)) l 0;
     sslProtectedCount := length (List.filter (fun u => ssl_enabled (u_internalSsl u)) l) |}.

(** [typeFilter] is ["ALL"] or a type. *)
Definition upstream_kept (typeFilter : option UpstreamType) (searchQuery : jsstring) (u : UpstreamItem) : bool :=
  let type_ok := match typeFilter with
                 | None => true
                 | Some t => jeqb (type_string (u_type u)) (type_string t)
                 end in
  let q := toLowerCase searchQuery in
  let has s := includes q (toLowerCase s) in
  let opt_has o := match o with Some s => has s | None => false end in
  type_ok &&
  (jeqb (trim searchQuery) [] ||
   has (u_name u) || opt_has (u_description u) || existsb (fun n => has (n_address n)) (u_servers u)
   || opt_has (u_externalFqdn u)).

Definition filtered (typeFilter : option UpstreamType) (searchQuery : jsstring) (l : list UpstreamItem) :
    list UpstreamItem := List.filter (upstream_kept typeFilter searchQuery) l.

(** [handleDelete]: the dialog is closed whatever the outcome; a success
    reloads the list, a failure shows a message. *)
Record delete_state := { deleteTarget : option UpstreamItem; deleting : bool; page_error : option jsstring }.

Definition delete_start (d : delete_state) : delete_state * option call :=
  match deleteTarget d with
  | None => (d, None)
  | Some u => ({| deleteTarget := Some u; deleting := true; page_error := page_error d |},
               Some (UpstreamsApi.upstreams_delete (u_id u)))
  end.

Definition delete_finish (d : delete_state) (r : result ApiError val) : delete_state * bool :=
  ({| deleteTarget := None; deleting := false;
      page_error := match r with
                    | Ok _ => page_error d
                    | Throw e => Some (str_or (err_message e) (js "Failed to delete upstream"))
                    end |},
   match r with Ok _ => true | Throw _ => false end).
End Page.

(** ** Theorems *)

(** C39: the loading loop ends and loads everything: against a control plane
    that pages a list by a hundred and reports its length, it returns that
    list after at most one request per started hundred and one more. *)
Theorem load_pages_complete {A} (all : list A) :
  load_pages (paged all) (S (length all / page_limit)) 1 [] = Some (Ok all).
Proof.
  apply (load_pages_paged all (S (length all / page_limit)) 0); [by right| |lia].
  pose proof (Nat.div_mod (length all) page_limit ltac:(unfold page_limit; lia)) as E.
  pose proof (Nat.mod_upper_bound (length all) page_limit ltac:(unfold page_limit; lia)). lia.
Qed.

(** Whatever a control plane answers, wrong totals included, the loop
    ends by the first page that is empty or fails. *)
Theorem load_pages_terminates {A} (server : nat -> result ApiError (list A * Z)) (k : nat) :
  match server (S k) with Throw _ => True | Ok (l, _) => l = [] end ->
  exists r, load_pages server (S k) 1 [] = Some r.
Proof. apply (load_pages_ends server k 1). Qed.

(** ** Instances *)

Lemma load_pages_terminates_witness :
  exists r, load_pages (fun p => if Nat.ltb p 3 then Ok ([p], 1000%Z) else Ok ([], 1000%Z)) 3 1 [] = Some r.
Proof.
  exact (load_pages_terminates (fun p => if Nat.ltb p 3 then Ok ([p], 1000%Z) else Ok ([], 1000%Z)) 2 eq_refl).
Defined.
