(* ===== verification/ExtensionConfig.v ===== *)
(** * The extension configuration dialog

    [pages/extensions/components/ExtensionConfigModal.tsx] with
    [config/types.ts], [config/ExtensionProfilesManager.tsx] and
    [config/ExtensionRawJson.tsx]. The dialog edits one configuration in two
    ways, as a form (with a table of rules and a profile manager) and as
    JSON text, and keeps three copies of it: the text, the parsed value and
    the rule list. The file models the synchronisation between them, rule
    editing, profile editing and saving. *)

From Stdlib Require Import ZArith NArith Lia String.
From S2P Require Import Prelude JsString JsValue Json JsonFacts Profiles.
Local Open Scope string_scope.
Local Open Scope list_scope.

(** ** Data *)

Inductive schema_type :=
| FText | FNumber | FBoolean | FPassword | FTextareaCode | FListString | FSelect | FKeyValueMap.

Record SchemaField := {
  sf_key : jsstring;
  sf_label : jsstring;
  sf_type : schema_type;
  sf_options : list (jsstring * val)
}.

(** [ExtensionRenderContext]: what the dialog reads of the UI schema. *)
Record ExtensionRenderContext := {
  table_layout : bool;
  fields : list SchemaField;
  table_columns : list (jsstring * jsstring);
  row_fields : list SchemaField
}.

Definition action_options (with_challenge : bool) : list (jsstring * val) :=
  [(js "Block (403 Forbidden)", vstr "block"); (js "Throttle (429 Too Many Requests)", vstr "throttle");
   (js "Allow (Bypass / Pass)", vstr "allow")]
  ++ if with_challenge then [(js "Challenge (CAPTCHA)", vstr "challenge")] else [].

Definition numeric_columns : list jsstring :=
  map js ["rate"; "burst"; "period_secs"; "status_code"; "timeout_ms"; "max_body_bytes"].

(** The row field derived from a table column. *)
Definition column_field (col : jsstring * jsstring) : SchemaField :=
  let '(k, l) := col in
  {| sf_key := k; sf_label := l;
     sf_type := if jeqb k (js "action") then FSelect
                else if jeqb k (js "enabled") then FBoolean
                else if existsb (jeqb k) numeric_columns then FNumber else FText;
     sf_options := if jeqb k (js "action") then action_options true else [] |}.

Definition effectiveRowFields (c : ExtensionRenderContext) : list SchemaField :=
  match row_fields c, table_columns c with
  | f :: l, _ => f :: l
  | [], col :: cols => map column_field (col :: cols)
  | [], [] =>
      [{| sf_key := js "name"; sf_label := js "Rule Name"; sf_type := FText; sf_options := [] |};
       {| sf_key := js "match_value"; sf_label := js "Route Path / Match Value"; sf_type := FText; sf_options := [] |};
       {| sf_key := js "action"; sf_label := js "Policy Action"; sf_type := FSelect; sf_options := action_options false |}]
  end.

Inductive mode := Visual | JsonMode.

Record modal := {
  workspaceMode : mode;
  configText : jsstring;
  parsedConfig : val;
  rules : list val;
  isEditingRule : bool;
  editingIndex : option nat;
  ruleForm : obj;
  jsonError : option jsstring;
  isSaving : bool;
  saveSuccess : bool
}.

Definition set_copies (s : modal) (text : jsstring) (v : val) (rs : list val) : modal :=
  {| workspaceMode := workspaceMode s; configText := text; parsedConfig := v; rules := rs;
     isEditingRule := isEditingRule s; editingIndex := editingIndex s; ruleForm := ruleForm s;
     jsonError := jsonError s; isSaving := isSaving s; saveSuccess := saveSuccess s |}.
Definition set_mode (s : modal) (m : mode) : modal :=
  {| workspaceMode := m; configText := configText s; parsedConfig := parsedConfig s; rules := rules s;
     isEditingRule := isEditingRule s; editingIndex := editingIndex s; ruleForm := ruleForm s;
     jsonError := jsonError s; isSaving := isSaving s; saveSuccess := saveSuccess s |}.
Definition set_json_error (s : modal) (e : option jsstring) : modal :=
  {| workspaceMode := workspaceMode s; configText := configText s; parsedConfig := parsedConfig s; rules := rules s;
     isEditingRule := isEditingRule s; editingIndex := editingIndex s; ruleForm := ruleForm s;
     jsonError := e; isSaving := isSaving s; saveSuccess := saveSuccess s |}.
Definition set_rule_editor (s : modal) (editing : bool) (index : option nat) (form : obj) : modal :=
  {| workspaceMode := workspaceMode s; configText := configText s; parsedConfig := parsedConfig s; rules := rules s;
     isEditingRule := editing; editingIndex := index; ruleForm := form;
     jsonError := jsonError s; isSaving := isSaving s; saveSuccess := saveSuccess s |}.
Definition set_saving (s : modal) (saving ok : bool) : modal :=
  {| workspaceMode := workspaceMode s; configText := configText s; parsedConfig := parsedConfig s; rules := rules s;
     isEditingRule := isEditingRule s; editingIndex := editingIndex s; ruleForm := ruleForm s;
     jsonError := jsonError s; isSaving := saving; saveSuccess := ok |}.

(** [Array.isArray(parsed.rules) ? parsed.rules : []] *)
Definition rules_of (v : val) : list val :=
  match opt_prop (js "rules") v with VArr l => l | _ => [] end.

Definition pretty (v : val) : jsstring := ser [32; 32]%N [] v.

(** ** Synchronisation *)

(** [nextConfig] of [syncToJSON] *)
Definition merged_config (v : val) (rs : list val) : obj :=
  match rs with
  | [] => obj_del (js "rules") (spread v)
  | _ => obj_put (js "rules") (VArr rs) (spread v)
  end.

(** [syncToJSON(v, rs)], in a handler that also sets the rules to [rs]. *)
Definition syncToJSON (s : modal) (v : val) (rs : list val) : modal :=
  let next := VObj (merged_config v rs) in
  set_copies s (pretty next) next rs.

Section Sync.
(** The engine's messages: of a text that does not parse, and of reading a
    member of [null]. *)
Variable syntax_message : jsstring -> jsstring.
Variable null_message : jsstring.

(** [syncFromJSON]: the text [null] is set as the value before reading its
    rules throws. *)
Definition syncFromJSON (s : modal) (text : jsstring) : modal * bool :=
  match parse text with
  | None => (set_json_error s (Some (js "JSON syntax error: " ++ syntax_message text)), false)
  | Some VNull =>
      (set_json_error (set_copies s (configText s) VNull (rules s)) (Some (js "JSON syntax error: " ++ null_message)), false)
  | Some v => (set_json_error (set_copies s (configText s) v (rules_of v)) None, true)
  end.

Definition handleModeChange (s : modal) (m : mode) : modal :=
  match m with
  | Visual => let '(s', ok) := syncFromJSON s (configText s) in if ok then set_mode s' Visual else s'
  | JsonMode => set_mode (syncToJSON s (parsedConfig s) (rules s)) JsonMode
  end.

(** The effect that runs when an extension is opened. *)
Definition open_modal (s : modal) (config_json : jsstring) : modal :=
  let text := str_or config_json (js "{}") in
  let s1 := match parse text with
            | None => set_copies s text (VObj []) []
            | Some VNull => set_copies s text (VObj []) []
            | Some v => set_copies s (pretty v) v (rules_of v)
            end in
  {| workspaceMode := Visual; configText := configText s1; parsedConfig := parsedConfig s1; rules := rules s1;
     isEditingRule := false; editingIndex := None; ruleForm := ruleForm s1; jsonError := None;
     isSaving := isSaving s1; saveSuccess := false |}.

(** ** The form *)

Definition handleFieldChange (s : modal) (key : jsstring) (value : val) : modal :=
  syncToJSON s (VObj (obj_put key value (spread (parsedConfig s)))) (rules s).

Definition handleUpdateProfiles (s : modal) (nextProfiles : obj) : modal :=
  let next := match nextProfiles with
              | [] => obj_del (js "profiles") (spread (parsedConfig s))
              | _ => obj_put (js "profiles") (VObj nextProfiles) (spread (parsedConfig s))
              end in
  syncToJSON s (VObj next) (rules s).

(** ** Rules *)

(** The default of a field in a new rule. *)
Definition field_default (f : SchemaField) : val :=
  match sf_type f with
  | FBoolean => VBool true
  | FNumber => VInt (if jeqb (sf_key f) (js "period_secs") then 1 else if jeqb (sf_key f) (js "rate") then 100 else 0)
  | FSelect => match sf_options f with (_, v) :: _ => v | [] => VStr [] end
  | FListString => VArr []
  | _ => VStr []
  end.

Definition initial_rule (extId : jsstring) (now : Z) (fields : list SchemaField) : obj :=
  fold_left (fun r f => match prop (sf_key f) r with VUndef => obj_put (sf_key f) (field_default f) r | _ => r end)
    fields
    [(js "id", VStr (extId ++ js "-rule-" ++ int_string now)); (js "name", VStr []); (js "enabled", VBool true)].

Definition handleOpenAddRule (s : modal) (extId : jsstring) (now : Z) (fields : list SchemaField) : modal :=
  set_rule_editor s true None (initial_rule extId now fields).

Definition handleOpenEditRule (s : modal) (rule : val) (index : nat) : modal :=
  set_rule_editor s true (Some index) (spread rule).

(** [x?.trim()]: falsy, truthy, or a throw on a value without [trim]. *)
Definition trim_truthy (v : val) : option bool :=
  match v with
  | VUndef | VNull => Some false
  | VStr s => Some (negb (jeqb (trim s) []))
  | _ => None
  end.

(** The guard of [handleSaveRuleEntry]: a throw leaves the state as it is,
    like the early return. *)
Definition rule_named (form : obj) : bool :=
  match trim_truthy (prop (js "name") form) with
  | Some true => true
  | None => false
  | Some false =>
      match trim_truthy (prop (js "pattern") form) with
      | Some true => true
      | None => false
      | Some false => match trim_truthy (prop (js "id") form) with Some true => true | _ => false end
      end
  end.

(** [updatedRules[editingIndex] = x]: a write past the end of an array makes
    it longer, and what lies in between are holes, which read as
    [undefined]. *)
Definition write_at (i : nat) (x : val) (l : list val) : list val :=
  if (i <? length l)%nat then <[i := x]> l else l ++ replicate (i - length l) VUndef ++ [x].

Definition handleSaveRuleEntry (s : modal) : modal :=
  if negb (rule_named (ruleForm s)) then s else
  let updated := match editingIndex s with
                 | Some i => write_at i (VObj (ruleForm s)) (rules s)
                 | None => rules s ++ [VObj (ruleForm s)]
                 end in
  set_rule_editor (syncToJSON s (parsedConfig s) updated) false None (ruleForm s).

(** [filter] visits no hole. *)
Definition is_hole (v : val) : bool := match v with VUndef => true | _ => false end.

Definition handleDeleteRule (s : modal) (index : nat) : modal :=
  syncToJSON s (parsedConfig s) (List.filter (fun r => negb (is_hole r)) (remove_at index (rules s))).

Definition toggle_rule (r : val) : val :=
  VObj (obj_put (js "enabled") (VBool (negb (truthy (opt_prop (js "enabled") r)))) (spread r)).

(** Reading [enabled] of [null] or of a hole throws and changes nothing. *)
Definition handleToggleRule (s : modal) (index : nat) : modal :=
  match rules s !! index with
  | None | Some VUndef | Some VNull => s
  | Some r => syncToJSON s (parsedConfig s) (<[index := toggle_rule r]> (rules s))
  end.

(** ** The raw editor *)

Definition type_text (s : modal) (text : jsstring) : modal := set_copies s text (parsedConfig s) (rules s).

Definition handleFormat (s : modal) : modal :=
  match parse (configText s) with
  | Some v => set_json_error (set_copies s (pretty v) (parsedConfig s) (rules s)) None
  | None => set_json_error s (Some (syntax_message (configText s)))
  end.

(** ** Saving *)

(** [handleApplyConfig] up to the [await] of [onSave]: the minified text, or
    nothing when the text does not parse. *)
Definition apply_start (s : modal) : modal * option jsstring :=
  let s1 := match workspaceMode s with Visual => syncToJSON s (parsedConfig s) (rules s) | JsonMode => s end in
  match parse (configText s1) with
  | Some v => (set_saving (set_json_error s1 None) true (saveSuccess s1), Some (ser [] [] v))
  | None => (set_saving (set_json_error s1 (Some (js "Invalid JSON syntax: " ++ syntax_message (configText s1)))) false (saveSuccess s1), None)
  end.

(** The rest: [onSave] answers whether it stored the text; a success also
    schedules the close of the dialog. *)
Definition apply_finish (s : modal) (ok : bool) : modal * bool :=
  (set_saving s false (if ok then true else saveSuccess s), ok).
End Sync.

(** ** The profile manager *)

Section Profiles.
Context `{CaseMapping}.

Definition customProfilesMap (config : val) : obj :=
  match opt_prop (js "profiles") config with
  | VObj o => o
  | VArr l => spread (VArr l)
  | _ => []
  end.

Definition clean_profile_id (s : jsstring) : jsstring :=
  replace_class is_profile_char 95%N (toLowerCase (trim s)).

(** [entry] of [handleSaveProfile] *)
Definition saved_entry (cleanId label summary : jsstring) (ps : obj) : obj :=
  let e := obj_put (js "label") (VStr (str_or (trim label) cleanId)) ps in
  match trim summary with [] => e | t => obj_put (js "summary") (VStr t) e end.

(** The profiles given to [onUpdateProfiles]; [None] for an empty id. *)
Definition handleSaveProfile (config : val) (pid label summary : jsstring) (ps : obj) : option obj :=
  let cleanId := clean_profile_id pid in
  if jeqb cleanId [] then None
  else Some (obj_put cleanId (VObj (saved_entry cleanId label summary ps)) (customProfilesMap config)).

Definition handleDeleteProfile (config : val) (pid : jsstring) : obj :=
  obj_del pid (customProfilesMap config).

(** The parameters of a new profile. *)
Definition profile_defaults (extKey : jsstring) : obj :=
  match findDataplaneExtensionMeta extKey with
  | Some m => fold_left (fun o f => obj_put (field_key f) (defaultValue f) o) (profileFields m) []
  | None => []
  end.
End Profiles.

(** ** Steps of the dialog

    The handlers of the form run in the visual mode, the raw editor in the
    JSON mode; values that come from inputs are JSON values. The rule editor
    keeps its index while the rules are changed in the JSON mode: a save
    says whether it writes [past] the end and leaves holes. *)

Section Steps.
Variable syntax_message : jsstring -> jsstring.
Variable null_message : jsstring.

Inductive modal_event := Edit | SaveRule (past : bool).

Definition leaves_holes (s : modal) : bool :=
  rule_named (ruleForm s) && match editingIndex s with Some i => (length (rules s) <? i)%nat | None => false end.

Definition without_holes (e : modal_event) : Prop := match e with SaveRule true => False | _ => True end.

Inductive modal_step : modal -> modal_event -> modal -> Prop :=
| StepField s k v : workspaceMode s = Visual -> units_ok k -> json_ok v -> modal_step s Edit (handleFieldChange s k v)
| StepProfiles s o : workspaceMode s = Visual -> json_ok (VObj o) -> modal_step s Edit (handleUpdateProfiles s o)
| StepRuleForm s b i form : workspaceMode s = Visual -> json_ok (VObj form) ->
    modal_step s Edit (set_rule_editor s b i form)
| StepSaveRule s : workspaceMode s = Visual -> modal_step s (SaveRule (leaves_holes s)) (handleSaveRuleEntry s)
| StepDeleteRule s i : workspaceMode s = Visual -> modal_step s Edit (handleDeleteRule s i)
| StepToggleRule s i : workspaceMode s = Visual -> modal_step s Edit (handleToggleRule s i)
| StepType s t : workspaceMode s = JsonMode -> units_ok t -> modal_step s Edit (type_text s t)
| StepFormat s : workspaceMode s = JsonMode -> modal_step s Edit (handleFormat syntax_message s)
| StepMode s m : modal_step s Edit (handleModeChange syntax_message null_message s m)
| StepApply s : modal_step s Edit (apply_start syntax_message s).1
| StepApplied s ok : modal_step s Edit (apply_finish s ok).1.

(** The three copies agree. *)
Definition synced (s : modal) : Prop :=
  parse (configText s) = Some (parsedConfig s) /\ rules s = rules_of (parsedConfig s) /\ parsedConfig s <> VNull.

Definition modal_inv (s : modal) : Prop :=
  json_ok (parsedConfig s) /\ Forall json_ok (rules s) /\ units_ok (configText s) /\
  json_ok (VObj (ruleForm s)) /\ (workspaceMode s = Visual -> synced s).

(** ** Lemmas *)

#[local] Arguments json_ok : simpl never.

Lemma json_ok_empty : json_ok (VObj []).
Proof. split; [constructor|done]. Qed.

Lemma spread_ok v : json_ok v -> json_ok (VObj (spread v)).
Proof.
  destruct v as [| | | |s|l|o]; intros Hv; try apply json_ok_empty; try done; apply json_ok_of_entries.
  - apply Forall_lookup. intros i [k x]. rewrite list_lookup_imap. intros Hi.
    destruct (s !! i) as [c|] eqn:E; [|done]. injection Hi as <- <-. split.
    + unfold int_string. simpl. rewrite (proj2 (Z.ltb_ge _ _)) by lia. apply digits_units. lia.
    + constructor; [|constructor]. by eapply Forall_lookup in Hv.
  - by apply (entries_of_members (VArr l)).
Qed.

Lemma merged_ok v rs : json_ok v -> Forall json_ok rs -> json_ok (VObj (merged_config v rs)).
Proof.
  intros Hv Hr. apply spread_ok in Hv. unfold merged_config.
  destruct rs as [|r rs]; [by apply obj_del_json_ok|].
  apply obj_put_json_ok; [by apply units_okb_sound|by apply json_ok_arr|done].
Qed.

Lemma merged_rules v rs : rules_of (VObj (merged_config v rs)) = rs.
Proof.
  unfold rules_of, merged_config. simpl.
  destruct rs as [|r rs]; [by rewrite prop_del_eq|by rewrite prop_put_eq].
Qed.

Lemma pretty_parse v : json_ok v -> parse (pretty v) = Some v.
Proof. intros Hv. apply parse_ser; [by repeat constructor|done]. Qed.

Lemma rules_of_ok v : json_ok v -> Forall json_ok (rules_of v).
Proof.
  intros Hv. unfold rules_of. destruct v; simpl; try constructor.
  destruct (prop_json_ok (js "rules") o Hv) as [->|Hp]; [constructor|].
  destruct (prop (js "rules") o); try constructor. by apply json_ok_arr.
Qed.

Lemma pretty_units v : json_ok v -> units_ok (pretty v).
Proof. intros Hv. apply ser_units; [done|by apply units_okb_sound|constructor]. Qed.

(** Writing the value and the rules synchronises the copies. *)
Lemma syncToJSON_inv s v rs :
  json_ok v -> Forall json_ok rs -> json_ok (VObj (ruleForm s)) -> modal_inv (syncToJSON s v rs).
Proof.
  intros Hv Hr Hf. pose proof (merged_ok v rs Hv Hr) as Hm. unfold modal_inv, synced, syncToJSON. simpl.
  split; [done|]. split; [done|]. split; [by apply pretty_units|]. split; [done|]. intros _.
  split; [by apply pretty_parse|]. split; [by rewrite merged_rules|done].
Qed.

(** Fields that are not one of the copies do not matter. *)
Lemma modal_inv_same s s' :
  workspaceMode s' = workspaceMode s -> configText s' = configText s -> parsedConfig s' = parsedConfig s ->
  rules s' = rules s -> json_ok (VObj (ruleForm s')) -> modal_inv s -> modal_inv s'.
Proof. unfold modal_inv, synced. intros -> -> -> -> Hf (? & ? & ? & ? & ?). done. Qed.

Lemma syncFromJSON_inv s :
  modal_inv s ->
  let '(s', ok) := syncFromJSON syntax_message null_message s (configText s) in
  if ok then modal_inv (set_mode s' Visual) else workspaceMode s' = JsonMode /\ modal_inv s'.
Proof.
  intros (Hp & Hr & Hu & Hf & Hs). unfold syncFromJSON.
  assert (forall v, parse (configText s) <> Some v \/ v = VNull -> parse (configText s) = Some v \/ parse (configText s) = None ->
            workspaceMode s = JsonMode) as Hmode.
  { intros v Hv He. destruct (workspaceMode s); [|done]. destruct (Hs eq_refl) as (H1 & _ & H3).
    destruct He as [He|He]; [|congruence]. destruct Hv as [Hv|Hv]; [done|]. congruence. }
  destruct (parse (configText s)) as [v|] eqn:E.
  - pose proof (parse_ok _ _ Hu E) as Hv.
    destruct v as [| |b|n|t|l|o]; [done| |..].
    1: { split; [apply (Hmode VNull); auto|]. unfold modal_inv. simpl.
         rewrite (Hmode VNull) by auto. done. }
    all: unfold modal_inv, synced; simpl; split_and!; try done; try (apply (rules_of_ok _ Hv)).
  - split; [apply (Hmode VNull); auto|]. unfold modal_inv. simpl. rewrite (Hmode VNull) by auto. done.
Qed.

Lemma toggle_rule_ok r : json_ok r -> json_ok (toggle_rule r).
Proof.
  intros Hr. unfold toggle_rule. apply obj_put_json_ok; [by apply units_okb_sound|done|by apply spread_ok].
Qed.

Lemma apply_start_inv s : modal_inv s -> modal_inv (apply_start syntax_message s).1.
Proof.
  intros Hi. unfold apply_start.
  assert (modal_inv (match workspaceMode s with Visual => syncToJSON s (parsedConfig s) (rules s) | JsonMode => s end)) as Hi'.
  { destruct (workspaceMode s); [|done]. destruct Hi as (? & ? & _ & ? & _). by apply syncToJSON_inv. }
  destruct (parse _); simpl; eapply modal_inv_same; [..|exact Hi']; try done; apply Hi'.
Qed.

Lemma write_at_ok i x l : i <= length l -> json_ok x -> Forall json_ok l -> Forall json_ok (write_at i x l).
Proof.
  intros Hi Hx Hl. unfold write_at. destruct (Nat.ltb_spec i (length l)); [by apply Forall_insert|].
  replace (i - length l) with 0 by lia. apply Forall_app. split; [done|by apply Forall_singleton].
Qed.

Lemma Forall_filter_list {B} (P : B -> Prop) f (l : list B) : Forall P l -> Forall P (List.filter f l).
Proof. rewrite !Forall_forall. intros Hl x Hx. apply list_elem_of_In, filter_In in Hx as [Hx _]. by apply Hl, list_elem_of_In. Qed.

Lemma modal_step_inv s e s' : without_holes e -> modal_inv s -> modal_step s e s' -> modal_inv s'.
Proof.
  intros He Hi Hstep. pose proof Hi as (Hp & Hr & Hu & Hf & Hs).
  destruct Hstep as [s k v Hm Hk Hv|s o Hm Ho|s b i form Hm Hform|s Hm|s i Hm|s i Hm|s t Hm Ht|s Hm|s m|s|s ok].
  - apply syncToJSON_inv; [|done|done]. apply obj_put_json_ok; [done|done|by apply spread_ok].
  - apply syncToJSON_inv; [|done|done]. destruct o as [|kv o]; [by apply obj_del_json_ok, spread_ok|].
    apply obj_put_json_ok; [by apply units_okb_sound|done|by apply spread_ok].
  - by eapply modal_inv_same; [..|exact Hi].
  - unfold handleSaveRuleEntry. cbn [without_holes] in He. unfold leaves_holes in He.
    destruct (rule_named (ruleForm s)); [|done]. cbn [negb andb] in *.
    eapply modal_inv_same; [..|apply (syncToJSON_inv s (parsedConfig s))]; try done.
    destruct (editingIndex s) as [i|]; [|apply Forall_app; split; [done|by apply Forall_singleton]].
    apply write_at_ok; [|done|done]. apply Nat.ltb_ge. by destruct (_ <? i)%nat.
  - apply syncToJSON_inv; [done| |done]. apply Forall_filter_list. rewrite Forall_forall in *. intros x Hx. apply Hr.
    eapply elem_of_sublist; [done|apply remove_at_sublist].
  - unfold handleToggleRule. destruct (rules s !! i) as [r|] eqn:E; [|done].
    assert (modal_inv (syncToJSON s (parsedConfig s) (<[i := toggle_rule r]> (rules s)))) as Ht.
    { apply syncToJSON_inv; [done| |done]. apply Forall_insert; [done|].
      apply toggle_rule_ok. by eapply Forall_lookup in Hr. }
    by destruct r.
  - unfold modal_inv. simpl. split_and!; try done. by rewrite Hm.
  - unfold handleFormat. destruct (parse (configText s)) as [v|] eqn:E; unfold modal_inv; simpl.
    + split_and!; try done; [|by rewrite Hm]. by apply pretty_units, (parse_ok _ _ Hu E).
    + by rewrite Hm.
  - destruct m; simpl.
    + pose proof (syncFromJSON_inv s Hi) as H.
      destruct (syncFromJSON syntax_message null_message s (configText s)) as [s' [|]]; [done|apply H].
    + pose proof (syncToJSON_inv s _ _ Hp Hr Hf) as (? & ? & ? & ? & _). unfold modal_inv. simpl. done.
  - by apply apply_start_inv.
  - by eapply modal_inv_same; [..|exact Hi].
Qed.

Lemma modal_run_inv s es s' : Forall without_holes es -> modal_inv s -> star modal_step s es s' -> modal_inv s'.
Proof.
  intros He Hi Hs. induction Hs as [s|s e s1 es s2 Hstep _ IH]; [done|]. inversion_clear He as [|? ? He1 He2].
  apply IH; [done|]. by eapply modal_step_inv.
Qed.

Lemma open_modal_inv s config_json v :
  units_ok config_json -> json_ok (VObj (ruleForm s)) ->
  parse (str_or config_json (js "{}")) = Some v -> v <> VNull ->
  modal_inv (open_modal s config_json).
Proof.
  intros Hu Hf Hv Hn.
  assert (units_ok (str_or config_json (js "{}"))) as Hu'
    by (destruct config_json; [by apply units_okb_sound|done]).
  pose proof (parse_ok _ _ Hu' Hv) as Hok. unfold open_modal. rewrite Hv.
  unfold modal_inv, synced.
  destruct v; try done; simpl; split_and!; try done; try (by apply (rules_of_ok _ Hok)); try (by apply pretty_units);
    intros; split_and!; try done; by apply pretty_parse.
Qed.
End Steps.

(** ** Profiles *)

Section ProfileFacts.
Context `{CaseMapping}.

Lemma profile_char_not_ws c : is_profile_char c = true -> is_ws c = false.
Proof.
  unfold is_profile_char, is_ws, is_lower, is_digit. rewrite !orb_true_iff, !andb_true_iff, !N.leb_le, !N.eqb_eq.
  intros Hc. repeat (apply orb_false_iff; split); try (apply andb_false_iff; rewrite !N.leb_gt); try (apply N.eqb_neq); lia.
Qed.

Lemma clean_id_chars s : Forall (fun c => is_profile_char c = true) (clean_profile_id s).
Proof. by apply replace_class_keeps. Qed.

Lemma no_ws_trimmed s : Forall (fun c => is_profile_char c = true) s -> trim s = s.
Proof.
  intros Hs. apply trim_id.
  assert (Forall (fun c => is_ws c = false) s) as Hw.
  { eapply Forall_impl; [exact Hs|]. intros c. apply profile_char_not_ws. }
  rewrite Forall_forall in Hw. split; intros c Hc; apply Hw.
  - by apply head_Some_elem_of.
  - by apply last_Some_elem_of.
Qed.

Lemma custom_map_wf v : json_ok v -> obj_wf (customProfilesMap v).
Proof.
  intros Hv. unfold customProfilesMap. destruct v as [| | | | | |o]; simpl; try constructor.
  destruct (prop_json_ok (js "profiles") o Hv) as [->|Hp]; [constructor|].
  destruct (prop (js "profiles") o) as [| | | | |l|o']; try constructor; [apply obj_of_entries_wf|].
  by apply json_ok_obj in Hp as [? _].
Qed.

Lemma merged_profiles v rs : prop (js "profiles") (merged_config v rs) = prop (js "profiles") (spread v).
Proof.
  unfold merged_config. destruct rs; [apply prop_del_ne|apply prop_put_ne]; by vm_compute.
Qed.

Lemma saved_entry_label cid l sm ps :
  prop (js "label") (saved_entry cid l sm ps) = VStr (str_or (trim l) cid).
Proof.
  unfold saved_entry. destruct (trim sm) as [|c t]; [by rewrite prop_put_eq|].
  rewrite prop_put_ne by (by vm_compute). by rewrite prop_put_eq.
Qed.

Lemma saved_custom_label cid l sm ps :
  cid <> [] -> trim cid = cid -> custom_label cid (saved_entry cid l sm ps) = str_or (trim l) cid.
Proof.
  intros Hne Ht. unfold custom_label. rewrite saved_entry_label, str_or_trim by done.
  rewrite (proj2 (jeqb_false _ _)) by (by apply str_or_ne). done.
Qed.
End ProfileFacts.

(** The text given to [onSave]. *)
Lemma apply_start_text msg s t :
  modal_inv s -> (apply_start msg s).2 = Some t ->
  exists v, parse t = Some v /\
    match workspaceMode s with
    | Visual => v = VObj (merged_config (parsedConfig s) (rules s))
    | JsonMode => parse (configText s) = Some v
    end.
Proof.
  intros (Hp & Hr & Hu & _). unfold apply_start. destruct (workspaceMode s) eqn:Em.
  - pose proof (merged_ok _ _ Hp Hr) as Hm. cbn [syncToJSON set_copies configText]. rewrite pretty_parse by done. cbn [snd]. intros Et%(inj Some). subst t.
    eexists. split; [apply parse_ser; [constructor|done]|done].
  - destruct (parse (configText s)) as [v|] eqn:E; rewrite ?E; [|done]. cbn [snd]. intros Et%(inj Some). subst t.
    exists v. split; [|done]. apply parse_ser; [constructor|by eapply parse_ok].
Qed.

(** Opening shows the value of the text, unless it is [null]. *)
Lemma open_modal_value s0 text v :
  parse (str_or text (js "{}")) = Some v -> v <> VNull ->
  parsedConfig (open_modal s0 text) = v /\ rules (open_modal s0 text) = rules_of v.
Proof. intros Hv Hn. unfold open_modal. rewrite Hv. by destruct v. Qed.

(** ** Theorems *)


(** What is saved is what is shown: in the visual mode the text given to
    [onSave] parses to the value of the form with the rules of the table;
    in the JSON mode a text is given exactly when the typed text is valid
    JSON, and it parses to the same value; otherwise an error is shown. *)
Theorem apply_saves_what_is_shown (msg : jsstring -> jsstring) (s : modal) :
  modal_inv s ->
  match workspaceMode s with
  | Visual => exists t, (apply_start msg s).2 = Some t /\
                parse t = Some (VObj (merged_config (parsedConfig s) (rules s)))
  | JsonMode =>
      match parse (configText s) with
      | Some v => exists t, (apply_start msg s).2 = Some t /\ parse t = Some v
      | None => (apply_start msg s).2 = None /\ jsonError (apply_start msg s).1 <> None
      end
  end.
Proof.
  intros (Hp & Hr & Hu & _). unfold apply_start. destruct (workspaceMode s) eqn:Em.
  - pose proof (merged_ok _ _ Hp Hr) as Hm. simpl. rewrite pretty_parse by done.
    eexists. split; [done|]. apply parse_ser; [constructor|done].
  - destruct (parse (configText s)) as [v|] eqn:E; rewrite ?E; [|done].
    eexists. split; [done|]. apply parse_ser; [constructor|by eapply parse_ok].
Qed.

(** Going to the JSON mode and back without typing changes neither the
    rules nor the members of the configuration. *)
Theorem mode_round_trip (msg : jsstring -> jsstring) (nullmsg : jsstring) (s : modal) :
  modal_inv s -> workspaceMode s = Visual ->
  let s' := handleModeChange msg nullmsg (handleModeChange msg nullmsg s JsonMode) Visual in
  workspaceMode s' = Visual /\ rules s' = rules s /\
  (forall k, k <> js "rules" -> opt_prop k (parsedConfig s') = prop k (spread (parsedConfig s))).
Proof.
  intros (Hp & Hr & _) Hm. pose proof (merged_ok _ _ Hp Hr) as Hok.
  cbn [handleModeChange]. unfold syncFromJSON. simpl. rewrite pretty_parse by done. simpl.
  split; [done|]. split; [apply merged_rules|]. intros k Hk.
  unfold merged_config. destruct (rules s); [by apply prop_del_ne|by apply prop_put_ne].
Qed.

(** A saved profile can be used: after the profile manager saves an id,
    the configuration resolves it to a profile with the entered label (the
    id when blank) and parameters, under an id made of lower-case letters,
    digits, dashes and underscores only. *)
Theorem saved_profile_resolves `{CaseMapping} (s : modal) (ext pid lab summ : jsstring) (ps next : obj) :
  json_ok (parsedConfig s) -> handleSaveProfile (parsedConfig s) pid lab summ ps = Some next ->
  let cid := clean_profile_id pid in
  Forall (fun c => is_profile_char c = true) cid /\
  exists c, parsedConfig (handleUpdateProfiles s next) = VObj c /\
    match find_profile cid (resolveExtensionProfiles ext (CfgObj c)) with
    | Some p => label p = str_or (trim lab) cid /\ params p = saved_entry cid lab summ ps
    | None => False
    end.
Proof.
  intros Hp Hsave cid. pose proof (clean_id_chars pid) as Hc. fold cid in Hc. split; [done|].
  unfold handleSaveProfile in Hsave. fold cid in Hsave.
  destruct (jeqb cid []) eqn:Ecid; [done|]. apply jeqb_false in Ecid. injection Hsave as <-.
  set (entry := saved_entry cid lab summ ps). set (m := obj_put cid (VObj entry) (customProfilesMap (parsedConfig s))).
  assert (obj_wf m) as Hw by (by apply obj_put_wf, custom_map_wf).
  assert (exists kv m', m = kv :: m') as (kv & m' & Em).
  { destruct m as [|kv m'] eqn:E; [|eauto]. assert (obj_get cid m = Some (VObj entry)) as Hg by apply obj_get_put_eq.
    by rewrite E in Hg. }
  eexists. split; [done|].
  assert (prop (js "profiles") (merged_config (VObj (match m with
            | [] => obj_del (js "profiles") (spread (parsedConfig s))
            | _ => obj_put (js "profiles") (VObj m) (spread (parsedConfig s)) end)) (rules s)) = VObj m) as Hpr.
  { rewrite merged_profiles. simpl. rewrite Em. by rewrite prop_put_eq. }
  unfold resolveExtensionProfiles, parsed_config. rewrite Hpr. cbn [entries_of].
  rewrite find_merge_entries by done. unfold custom_of.
  pose proof (no_ws_trimmed cid Hc) as Ht. rewrite Ht, (proj2 (jeqb_false cid [])) by done.
  unfold m. rewrite obj_get_put_eq. simpl. split; [|done]. by apply saved_custom_label.
Qed.

(** Pressing the JSON tab in the JSON mode replaces the typed text by the
    last parsed value. *)
Lemma json_tab_discards_edits (msg : jsstring -> jsstring) (nullmsg text : jsstring) (s : modal) :
  workspaceMode s = JsonMode ->
  configText (handleModeChange msg nullmsg (type_text s text) JsonMode)
  = pretty (VObj (merged_config (parsedConfig s) (rules s))).
Proof. done. Qed.

(** ** Instances *)

Definition blank_modal : modal :=
  {| workspaceMode := Visual; configText := []; parsedConfig := VObj []; rules := []; isEditingRule := false;
     editingIndex := None; ruleForm := []; jsonError := None; isSaving := false; saveSuccess := false |}.

Definition sample_config : obj :=
  [(js "rate", VInt 5); (js "rules", VArr [VObj [(js "name", vstr "a"); (js "enabled", VBool true)]])].

Definition opened : modal := open_modal blank_modal (stringify_obj sample_config).
Definition no_message (t : jsstring) : jsstring := js "Unexpected token".

Lemma opened_inv : modal_inv opened.
Proof.
  eapply (open_modal_inv blank_modal _ (VObj sample_config));
    [by apply units_okb_sound|apply json_ok_empty|reflexivity|done].
Qed.


(** The exception: a rule is opened, its row and the one before it are
    removed in the JSON mode, and the rule is saved. The table has a hole
    where the text has [null]. *)
Definition two_rules_config : obj :=
  [(js "rules", VArr [VObj [(js "name", vstr "a")]; VObj [(js "name", vstr "b")]])].

Lemma save_past_end_disagrees : exists s,
  star (modal_step no_message []) (open_modal blank_modal (stringify_obj two_rules_config))
    [Edit; Edit; Edit; Edit; SaveRule true] s /\
  workspaceMode s = Visual /\ rules s = [VUndef; VObj [(js "name", vstr "b")]] /\
  parse (configText s) = Some (VObj [(js "rules", VArr [VNull; VObj [(js "name", vstr "b")]])]) /\
  parse (configText s) <> Some (parsedConfig s).
Proof.
  eexists. split; [|split; [|split; [|split]]].
  - eapply star_cons; [apply (StepRuleForm _ _ _ true (Some 1) [(js "name", vstr "b")]); [reflexivity|by apply json_okb_sound]|].
    eapply star_cons; [apply (StepMode _ _ _ JsonMode)|].
    eapply star_cons; [apply (StepType _ _ _ (js "{}")); [reflexivity|by apply units_okb_sound]|].
    eapply star_cons; [apply (StepMode _ _ _ Visual)|].
    eapply star_cons; [apply StepSaveRule; reflexivity|apply star_nil].
  - reflexivity.
  - reflexivity.
  - vm_compute. reflexivity.
  - vm_compute. discriminate.
Qed.

Lemma apply_saves_what_is_shown_witness :
  exists t, (apply_start no_message opened).2 = Some t /\
    parse t = Some (VObj (merged_config (parsedConfig opened) (rules opened))).
Proof. exact (apply_saves_what_is_shown no_message opened opened_inv). Defined.

Lemma mode_round_trip_witness :
  rules (handleModeChange no_message [] (handleModeChange no_message [] opened JsonMode) Visual) = rules opened.
Proof. apply (mode_round_trip no_message [] opened opened_inv). reflexivity. Defined.

Lemma saved_profile_resolves_witness :
  clean_profile_id (js " My Profile!") = js "my_profile_" /\
  exists c, parsedConfig (handleUpdateProfiles opened
      [(js "my_profile_", VObj (saved_entry (js "my_profile_") [] [] [(js "rate", VInt 7)]))]) = VObj c /\
    match find_profile (js "my_profile_") (resolveExtensionProfiles (js "rate-limit") (CfgObj c)) with
    | Some p => label p = str_or (trim []) (js "my_profile_") /\
                params p = saved_entry (js "my_profile_") [] [] [(js "rate", VInt 7)]
    | None => False
    end.
Proof.
  split; [reflexivity|].
  exact (proj2 (saved_profile_resolves opened (js "rate-limit") (js " My Profile!") [] [] [(js "rate", VInt 7)] _
           (proj1 opened_inv) eq_refl)).
Defined.
