(* ===== verification/ConfigInputs.v ===== *)
(** * The inputs of an extension configuration

    [pages/extensions/components/config/]: the tag list, the key-value map,
    the widgets that [ExtensionVisualForm] shows for the fields of a schema
    and those of [ExtensionRuleEditForm]. A widget is what it shows for a
    value and the value it hands to the form; [ExtensionConfig] does the
    rest. *)

From Stdlib Require Import ZArith NArith Lia String.
From S2P Require Import Prelude JsString JsValue Json JsonFacts ExtensionConfig.
Local Open Scope string_scope.
Local Open Scope list_scope.

(** ** Tags *)

Record TagList := { tags : list val; inputVal : jsstring }.

Definition is_string (t : jsstring) (v : val) : bool := match v with VStr s => jeqb s t | _ => false end.

(** [handleAdd]; [onChange] sets the list of the parent. *)
Definition tag_add (s : TagList) : TagList :=
  match trim (inputVal s) with
  | [] => s
  | t => {| tags := if existsb (is_string t) (tags s) then tags s else tags s ++ [VStr t]; inputVal := [] |}
  end.
Definition tag_key (s : TagList) (key : jsstring) : TagList :=
  if jeqb key (js "Enter") || jeqb key (js ",") then tag_add s else s.
Definition tag_type (s : TagList) (t : jsstring) : TagList := {| tags := tags s; inputVal := t |}.
Definition tag_remove (s : TagList) (idx : nat) : TagList := {| tags := remove_at idx (tags s); inputVal := inputVal s |}.

(** [Array.isArray(val) ? val : []] *)
Definition tags_of (v : val) : list val := match v with VArr l => l | _ => [] end.

Inductive tag_event := TagType (t : jsstring) | TagKey (k : jsstring) | TagButton | TagRemove (idx : nat).

Definition tag_handle (s : TagList) (e : tag_event) : TagList :=
  match e with
  | TagType t => tag_type s t
  | TagKey k => tag_key s k
  | TagButton => tag_add s
  | TagRemove i => tag_remove s i
  end.

(** ** Maps *)

Record KeyValueMap := { kv_value : obj; newKey : jsstring; newVal : jsstring }.

Definition kv_add (s : KeyValueMap) : KeyValueMap :=
  match trim (newKey s) with
  | [] => s
  | k => {| kv_value := obj_put k (VStr (newVal s)) (kv_value s); newKey := []; newVal := [] |}
  end.
Definition kv_remove (s : KeyValueMap) (k : jsstring) : KeyValueMap :=
  {| kv_value := obj_del k (kv_value s); newKey := newKey s; newVal := newVal s |}.

(** [typeof val === 'object' && val !== null ? val : {}], spread. *)
Definition map_of (v : val) : obj := match v with VObj _ | VArr _ => spread v | _ => [] end.

(** How an entry is shown: JSON for objects and arrays, [String(v ?? '')]
    for the rest. *)
Definition entry_text (v : val) : jsstring :=
  match v with
  | VObj _ | VArr _ => ser [] [] v
  | VUndef | VNull => []
  | _ => to_string v
  end.

(** ** Numbers *)

(** [Number(s)] on the value of a number input, which is a decimal literal:
    an optional sign, digits with an optional fraction, an optional
    exponent. Any other text gives [NaN]. *)
Definition input_number (s : jsstring) : num :=
  let '(neg, s1) := match s with 45%N :: r => (true, r) | 43%N :: r => (false, r) | _ => (false, s) end in
  let '(ip, s2) := span_digits s1 in
  let '(fp, s3) := match s2 with 46%N :: r => span_digits r | _ => ([], s2) end in
  match ip ++ fp, parse_exp s3 with
  | _ :: _, Some (ex, []) =>
      let m := digits_val (ip ++ fp) in
      num_make (if neg : bool then - m else m) (ex - Z.of_nat (length fp))
  | _, _ => NNaN
  end.

(** ** The widgets *)

(** What the user gives a widget: a text, a tick or a new list or map. *)
Inductive entry := EText (t : jsstring) | ETick (b : bool) | EList (l : list val) | EMap (o : obj).

(** The value that [ExtensionVisualForm] hands to [onFieldChange]; an entry
    that the widget of the type cannot make is [None]. *)
Definition visual_value (t : schema_type) (e : entry) : option val :=
  match t, e with
  | FBoolean, ETick b => Some (VBool b)
  | FNumber, EText [] => Some VUndef
  | FNumber, EText s => Some (VNum (input_number s))
  | FListString, EList l => Some (VArr l)
  | FKeyValueMap, EMap o => Some (VObj o)
  | (FText | FPassword | FTextareaCode | FSelect), EText s => Some (VStr s)
  | _, _ => None
  end.

(** ... and [ExtensionRuleEditForm] to [setRuleForm]: an emptied number is
    the empty string; a switch negates the value that is there. *)
Definition rule_value (t : schema_type) (old : val) (e : entry) : option val :=
  match t, e with
  | FBoolean, ETick _ => Some (VBool (negb (truthy old)))
  | FNumber, EText [] => Some (VStr [])
  | FNumber, EText s => Some (VNum (input_number s))
  | FListString, EList l => Some (VArr l)
  | FKeyValueMap, EMap o => Some (VObj o)
  | (FText | FPassword | FTextareaCode | FSelect), EText s => Some (VStr s)
  | _, _ => None
  end.

(** The position of the two switches. *)
Definition visual_switch_on (v : val) : bool := truthy v.
Definition rule_switch_on (v : val) : bool := match v with VBool false => false | _ => true end.

(** [fields = rowFields.filter((f) => f.key !== 'name' && f.key !== 'id')] *)
Definition rule_form_fields (l : list SchemaField) : list SchemaField :=
  List.filter (fun f => negb (jeqb (sf_key f) (js "name")) && negb (jeqb (sf_key f) (js "id"))) l.

Definition set_rule_field (form : obj) (f : SchemaField) (e : entry) : obj :=
  match rule_value (sf_type f) (prop (sf_key f) form) e with
  | Some v => obj_put (sf_key f) v form
  | None => form
  end.

Definition set_visual_field (s : modal) (f : SchemaField) (e : entry) : modal :=
  match visual_value (sf_type f) e with
  | Some v => handleFieldChange s (sf_key f) v
  | None => s
  end.

(** ** Lemmas: members that are undefined *)

Definition is_defined (v : val) : bool := match v with VUndef => false | _ => true end.
Definition defined (o : obj) : obj := List.filter (fun kv => is_defined kv.2) o.

(** [JSON.stringify] drops them. *)
Lemma ser_defined gap ind o : ser gap ind (VObj o) = ser gap ind (VObj (defined o)).
Proof.
  cbn [ser]. f_equal. induction o as [|[k v] o IH]; [done|]. cbn [flat_map defined List.filter snd].
  destruct v; cbn [is_defined flat_map]; rewrite IH; done.
Qed.

Lemma obj_get_defined o k : obj_wf o ->
  obj_get k (defined o) = match obj_get k o with Some VUndef => None | x => x end.
Proof.
  unfold obj_wf. induction 1 as [|[k' v] o Ho IH Hk]; [done|]. cbn [defined List.filter snd obj_get].
  assert (jeqb k k' = true -> obj_get k o = None) as Hnone.
  { intros ->%jeqb_true. destruct (obj_get k' o) as [w|] eqn:E; [|done]. apply obj_get_in in E.
    rewrite Forall_forall in Hk. by destruct (Hk _ E). }
  destruct (is_defined v) eqn:Ev.
  - cbn [obj_get]. fold (defined o). destruct (jeqb k k'); [by destruct v|done].
  - fold (defined o). rewrite IH. destruct v; try done. destruct (jeqb k k') eqn:E; [by rewrite Hnone|done].
Qed.

Lemma prop_defined o k : obj_wf o -> prop k (defined o) = prop k o.
Proof. intros Hw. unfold prop. rewrite obj_get_defined by done. by destruct (obj_get k o) as [[]|]. Qed.

Definition member_printable (kv : jsstring * val) : Prop := units_ok kv.1 /\ (kv.2 = VUndef \/ json_ok kv.2).

(** What is read back from the text of an object with such members. *)
Lemma parse_printable gap o : ws_only gap -> obj_wf o -> Forall member_printable o ->
  parse (ser gap [] (VObj o)) = Some (VObj (defined o)).
Proof.
  intros Hg Hw Ho. rewrite ser_defined. apply parse_ser; [done|]. apply json_ok_obj. split.
  - unfold obj_wf in *. eapply StronglySorted_sublist; [apply filter_sublist|done].
  - rewrite Forall_forall in *. intros [k v] Hin%list_elem_of_In. apply filter_In in Hin as [Hin%list_elem_of_In Hd].
    destruct (Ho _ Hin) as [Hk [Hv|Hv]]; [|done]. cbn [snd] in *. by subst v.
Qed.

Lemma put_printable k v o : units_ok k -> v = VUndef \/ json_ok v -> Forall member_printable o -> Forall member_printable (obj_put k v o).
Proof. intros Hk Hv Ho. rewrite Forall_forall in *. intros x [->|Hx]%obj_put_keys; [done|auto]. Qed.

Lemma printable_of_ok o : json_ok (VObj o) -> obj_wf o /\ Forall member_printable o.
Proof.
  intros [Hw Ho]%json_ok_obj. split; [done|]. eapply Forall_impl; [exact Ho|]. intros kv [? ?]. split; [done|by right].
Qed.

(** The configuration with its rules written in. *)
Lemma merged_printable o rs : obj_wf o -> Forall member_printable o -> Forall json_ok rs ->
  obj_wf (merged_config (VObj o) rs) /\ Forall member_printable (merged_config (VObj o) rs).
Proof.
  intros Hw Ho Hr. unfold merged_config. destruct rs as [|r rs]; cbn [spread].
  - split; [by apply obj_del_wf|]. unfold obj_del. rewrite Forall_forall in *. intros x Hx%list_elem_of_In.
    apply filter_In in Hx as [Hx%list_elem_of_In _]. auto.
  - split; [by apply obj_put_wf|]. apply put_printable; [by apply units_okb_sound| |done]. right. by apply json_ok_arr.
Qed.

Lemma merged_prop o rs k : k <> js "rules" -> prop k (merged_config (VObj o) rs) = prop k o.
Proof.
  intros Hk. unfold merged_config. destruct rs; [by apply prop_del_ne|by apply prop_put_ne].
Qed.

(** ** Lemmas: numbers *)

(** A number in JSON syntax is read as [JSON.parse] reads it. *)
Lemma input_number_json s n : parse_num s = Some (n, []) -> input_number s = n.
Proof.
  unfold parse_num, input_number, expect. intros H.
  assert (forall (r : jsstring) (neg : bool),
    (let '(ip, s2) := span_digits r in
     if jeqb ip [] || leading_zero ip then None else
     match parse_frac s2 with
     | None => None
     | Some (fp, s3) =>
         match parse_exp s3 with
         | None => None
         | Some (ex, r) => Some (num_make (if neg then - digits_val (ip ++ fp) else digits_val (ip ++ fp)) (ex - Z.of_nat (length fp)), r)%Z
         end
     end) = Some (n, []) ->
    (let '(ip, s2) := span_digits r in
     let '(fp, s3) := match s2 with 46%N :: r => span_digits r | _ => ([], s2) end in
     match ip ++ fp, parse_exp s3 with
     | _ :: _, Some (ex, []) => num_make (if neg then - digits_val (ip ++ fp) else digits_val (ip ++ fp)) (ex - Z.of_nat (length fp))
     | _, _ => NNaN
     end) = n) as Hcore.
  { intros r neg. destruct (span_digits r) as [ip s2]. destruct ip as [|d ip]; [done|]. cbn [jeqb].
    destruct (jeqb (d :: ip) [] || leading_zero (d :: ip)); [done|]. unfold parse_frac, expect.
    destruct s2 as [|c s2].
    - cbn. by intros [= <-].
    - destruct (46 =? c)%N eqn:Ec.
      + apply N.eqb_eq in Ec as <-. destruct (span_digits s2) as [fp s3]. destruct fp as [|f fp]; [done|].
        destruct (parse_exp s3) as [[ex [|x r']]|]; [|done|done]. cbn [app]. by intros [= <-].
      + apply N.eqb_neq in Ec. intros Hp.
        assert (match c with 46%N => span_digits s2 | _ => ([], c :: s2) end = ([], c :: s2)) as Hm.
        { destruct c as [|p]; [done|]. do 6 (try destruct p as [p|p|]); done. }
        rewrite Hm. destruct (parse_exp (c :: s2)) as [[ex [|x r']]|]; [|done|done].
        rewrite app_nil_r in *. by injection Hp as <-. }
  destruct s as [|c s]; [done|]. destruct (45 =? c)%N eqn:E45.
  - apply N.eqb_eq in E45 as <-. by apply (Hcore s true).
  - assert (c <> 43%N) as E43.
    { intros ->. change (span_digits (43%N :: s)) with (@nil N, 43%N :: s) in H. cbv beta iota in H. by rewrite jeqb_refl in H. }
    apply N.eqb_neq in E45.
    assert (match c with 45%N => (true, s) | 43%N => (false, s) | _ => (false, c :: s) end = (false, c :: s)) as ->.
    { destruct c as [|p]; [done|]. do 6 (try destruct p as [p|p|]); done. }
    by apply (Hcore (c :: s) false).
Qed.

(** ** Theorems *)

Definition tag_run (s : TagList) (es : list tag_event) : TagList := fold_left tag_handle es s.

(** A tag that was typed: trimmed and not empty. *)
Definition typed_tag (v : val) : Prop := exists t, v = VStr t /\ t <> [] /\ trimmed t.

Lemma tag_add_spec s :
  (forall v, v ∈ tags (tag_add s) -> v ∈ tags s \/ typed_tag v) /\
  (NoDup (tags s) -> NoDup (tags (tag_add s))) /\
  (trim (inputVal s) <> [] -> VStr (trim (inputVal s)) ∈ tags (tag_add s) /\ inputVal (tag_add s) = []).
Proof.
  unfold tag_add. destruct (trim (inputVal s)) as [|c t] eqn:E; [split_and!; [auto|done|done]|].
  destruct (existsb (is_string (c :: t)) (tags s)) eqn:Ex; cbn [tags inputVal].
  - split; [auto|]. split; [done|]. intros _. split; [|done].
    apply existsb_exists in Ex as (v & Hv%list_elem_of_In & Hs). destruct v; try done.
    apply jeqb_true in Hs. by subst.
  - split_and!.
    + intros v [Hv|Hv%list_elem_of_singleton]%elem_of_app; [by left|]. subst v. right. exists (c :: t).
      split; [done|]. split; [done|]. rewrite <- E. apply trim_trimmed.
    + intros Hd. apply NoDup_app. split; [done|]. split; [|apply NoDup_singleton].
      intros v Hv Hs%list_elem_of_singleton. subst v. apply not_true_iff_false in Ex. apply Ex, existsb_exists.
      exists (VStr (c :: t)). split; [by apply list_elem_of_In|]. apply jeqb_refl.
    + intros _. split; [|done]. apply elem_of_app. right. by apply list_elem_of_singleton.
Qed.

Lemma tag_handle_spec s e :
  (forall v, v ∈ tags (tag_handle s e) -> v ∈ tags s \/ typed_tag v) /\ (NoDup (tags s) -> NoDup (tags (tag_handle s e))).
Proof.
  pose proof (tag_add_spec s) as (H1 & H2 & _). destruct e as [t|k| |i]; cbn [tag_handle]; [by auto| |done|].
  - unfold tag_key. case_if; [done|by auto].
  - pose proof (remove_at_sublist i (tags s)) as Hs. cbn [tags tag_remove]. split.
    + intros v Hv. left. by eapply elem_of_sublist.
    + intros Hd. by eapply sublist_NoDup.
Qed.

(** Tags stay distinct. Whatever is typed, confirmed with Enter, a comma
    or the button, and removed, a list of distinct tags stays one, and every
    tag that was not there at first is trimmed and not empty. *)
Theorem tags_stay_distinct (l : list val) (es : list tag_event) :
  NoDup l ->
  let s := tag_run {| tags := l; inputVal := [] |} es in
  NoDup (tags s) /\ forall v, v ∈ tags s -> v ∈ l \/ typed_tag v.
Proof.
  intros Hd. unfold tag_run. induction es as [|e es IH] using rev_ind; [by auto|].
  rewrite fold_left_app. cbn [fold_left]. cbv zeta in IH. destruct IH as [IH1 IH2].
  destruct (tag_handle_spec (fold_left tag_handle es {| tags := l; inputVal := [] |}) e) as [H1 H2].
  split; [by apply H2|]. intros v [Hv|Hv]%H1; auto.
Qed.

(** C30: a field of the form keeps its type and reads back. Giving a widget an
    entry it can make stores a value of the type of the field; the text of
    the configuration then reads back with that value under the key, without
    the key when a number was emptied, and with every other member but the
    rules as it was. *)
Theorem field_edit_roundtrip (s : modal) (f : SchemaField) (e : entry) (v : val) :
  json_ok (VObj (spread (parsedConfig s))) -> Forall json_ok (rules s) -> units_ok (sf_key f) -> sf_key f <> js "rules" ->
  visual_value (sf_type f) e = Some v -> v = VUndef \/ json_ok v ->
  match sf_type f, v with
  | FBoolean, VBool _ | FNumber, (VNum _ | VUndef) | FListString, VArr _ | FKeyValueMap, VObj _
  | (FText | FPassword | FTextareaCode | FSelect), VStr _ => True
  | _, _ => False
  end /\
  exists o, parse (configText (set_visual_field s f e)) = Some (VObj o) /\
    obj_get (sf_key f) o = match v with VUndef => None | _ => Some v end /\
    forall k, k <> sf_key f -> k <> js "rules" -> prop k o = prop k (spread (parsedConfig s)).
Proof.
  intros Hc Hr Hu Hne Hv Hok. split.
  { destruct (sf_type f), e as [[|c t]| | |]; simpl in Hv; try done; by injection Hv as <-. }
  unfold set_visual_field. rewrite Hv. unfold handleFieldChange, syncToJSON. cbn [configText set_copies].
  apply printable_of_ok in Hc as [Hw Hp].
  assert (obj_wf (obj_put (sf_key f) v (spread (parsedConfig s)))) as Hw' by (by apply obj_put_wf).
  pose proof (put_printable _ _ _ Hu Hok Hp) as Hp'.
  destruct (merged_printable _ (rules s) Hw' Hp' Hr) as [Hmw Hmp].
  eexists. split; [apply parse_printable; [by repeat constructor|done|done]|].
  assert (forall k, k <> js "rules" -> obj_get k (merged_config (VObj (obj_put (sf_key f) v (spread (parsedConfig s)))) (rules s))
                    = obj_get k (obj_put (sf_key f) v (spread (parsedConfig s)))) as Hg.
  { intros k Hk. unfold merged_config. destruct (rules s); [by apply obj_get_del_ne|by apply obj_get_put_ne]. }
  split.
  - rewrite obj_get_defined, Hg, obj_get_put_eq by done. by destruct v.
  - intros k Hk Hk'. rewrite prop_defined by done. unfold prop. rewrite Hg, obj_get_put_ne by congruence. done.
Qed.

(** A number that is shown is the number that is read: typing the text
    of a JSON number into a number field gives that number. *)
Theorem number_field_roundtrip (m e : Z) :
  num_canonical (NDec m e) ->
  visual_value FNumber (EText (num_string (NDec m e))) = Some (VNum (NDec m e)) /\
  rule_value FNumber VUndef (EText (num_string (NDec m e))) = Some (VNum (NDec m e)).
Proof.
  intros Hc. pose proof (parse_num_string m e [] Hc ltac:(done)) as Hp. rewrite app_nil_r in Hp.
  pose proof (input_number_json _ _ Hp) as Hn.
  destruct (num_string (NDec m e)) as [|c s] eqn:E; [done|].
  cbn [visual_value rule_value]. by rewrite Hn.
Qed.

(** Entries of a map are added and removed by their trimmed key. *)
Theorem map_entry_roundtrip (s : KeyValueMap) (k : jsstring) :
  trim (newKey s) <> [] ->
  let s1 := kv_add s in
  obj_get (trim (newKey s)) (kv_value s1) = Some (VStr (newVal s)) /\ newKey s1 = [] /\ newVal s1 = [] /\
  (k <> trim (newKey s) -> obj_get k (kv_value s1) = obj_get k (kv_value s)) /\
  obj_get (trim (newKey s)) (kv_value (kv_remove s1 (trim (newKey s)))) = None.
Proof.
  intros Hk. unfold kv_add. destruct (trim (newKey s)) as [|c t] eqn:E; [done|]. cbv zeta. cbn [kv_value newKey newVal].
  split; [apply obj_get_put_eq|]. split; [done|]. split; [done|]. split; [intros; by apply obj_get_put_ne|].
  apply obj_get_del_eq.
Qed.

(** The switch of a rule shows a missing value as on, and negates it: the
    first click on a switch that is shown on leaves it on. *)
Lemma rule_switch_first_click (form : obj) (f : SchemaField) (b : bool) :
  sf_type f = FBoolean -> prop (sf_key f) form = VUndef ->
  rule_switch_on (prop (sf_key f) form) = true /\
  rule_switch_on (prop (sf_key f) (set_rule_field form f (ETick b))) = true.
Proof.
  intros Ht Hp. unfold set_rule_field. rewrite Ht, Hp. split; [done|]. cbn [rule_value truthy negb].
  by rewrite prop_put_eq.
Qed.

(** An emptied number is removed by the form of the extension and stored as
    an empty string by the form of a rule. *)
Lemma emptied_number_differs old :
  visual_value FNumber (EText []) = Some VUndef /\ rule_value FNumber old (EText []) = Some (VStr []).
Proof. done. Qed.

(** ** Instances *)

Lemma tags_stay_distinct_witness :
  tags (tag_run {| tags := [vstr "a"]; inputVal := [] |} [TagType (js " b "); TagKey (js "Enter"); TagType (js "a"); TagKey (js ",")])
    = [vstr "a"; vstr "b"] /\
  NoDup (tags (tag_run {| tags := [vstr "a"]; inputVal := [] |} [TagType (js " b "); TagKey (js "Enter"); TagType (js "a"); TagKey (js ",")])).
Proof.
  split; [reflexivity|].
  apply (tags_stay_distinct [vstr "a"] [TagType (js " b "); TagKey (js "Enter"); TagType (js "a"); TagKey (js ",")]).
  apply NoDup_singleton.
Defined.

Definition rate_field : SchemaField := {| sf_key := js "rate"; sf_label := js "Rate"; sf_type := FNumber; sf_options := [] |}.

Lemma field_edit_roundtrip_witness :
  exists o, parse (configText (set_visual_field opened rate_field (EText (js "250")))) = Some (VObj o) /\
    obj_get (js "rate") o = Some (VInt 250).
Proof.
  destruct (field_edit_roundtrip opened rate_field (EText (js "250")) (VInt 250)) as (_ & o & H1 & H2 & _).
  - json_ok_compute.
  - repeat (apply Forall_cons; split; [json_ok_compute|]). by apply Forall_nil.
  - by apply units_okb_sound.
  - discriminate.
  - reflexivity.
  - right. json_ok_compute.
  - exists o. split; [exact H1|exact H2].
Defined.

Lemma number_field_roundtrip_witness :
  visual_value FNumber (EText (js "-12.5")) = Some (VNum (NDec (-125) (-1))).
Proof.
  apply (number_field_roundtrip (-125) (-1)). right. discriminate.
Defined.

Lemma map_entry_roundtrip_witness :
  obj_get (js "k") (kv_value (kv_add {| kv_value := []; newKey := js " k "; newVal := js "v" |})) = Some (vstr "v").
Proof.
  apply (map_entry_roundtrip {| kv_value := []; newKey := js " k "; newVal := js "v" |} []). discriminate.
Defined.
