(* ===== verification/ProfileForm.v ===== *)
(** * The form of the profile manager

    The state of
    [pages/extensions/components/config/ExtensionProfilesManager.tsx]: the
    form that creates a profile or edits one, with its inputs, and its
    composition with the dialog of [ExtensionConfig], which holds the
    configuration that the profiles are part of. *)

From Stdlib Require Import ZArith NArith Lia String.
From S2P Require Import Prelude JsString JsValue Json JsonFacts Api FormInputs Profiles ExtensionConfig.
Local Open Scope string_scope.
Local Open Scope list_scope.

Record ProfilesManager := {
  isAdding : bool;
  editingId : option jsstring;
  profId : jsstring;
  profLabel : jsstring;
  profSummary : jsstring;
  profParams : obj
}.

Definition initial_manager : ProfilesManager :=
  {| isAdding := false; editingId := None; profId := []; profLabel := []; profSummary := []; profParams := [] |}.

Definition openCreate (extensionKey : jsstring) : ProfilesManager :=
  {| isAdding := true; editingId := None; profId := []; profLabel := []; profSummary := [];
     profParams := profile_defaults extensionKey |}.

Definition openEdit (p : ExtensionProfileOption) : ProfilesManager :=
  {| isAdding := true; editingId := Some (id p); profId := id p; profLabel := label p; profSummary := summary p;
     profParams := params p |}.

(** [setIsAdding(false)], with or without [setEditingId(null)]. *)
Definition close_form (s : ProfilesManager) (forget : bool) : ProfilesManager :=
  {| isAdding := false; editingId := if forget then None else editingId s; profId := profId s; profLabel := profLabel s;
     profSummary := profSummary s; profParams := profParams s |}.

(** [Boolean(editingId)]: the id can be typed for a new profile only. *)
Definition id_disabled (s : ProfilesManager) : bool := match editingId s with Some (_ :: _) => true | _ => false end.

(** [Math.max(1, parseInt(e.target.value, 10) || 1)] for a number. *)
Definition param_value (f : ProfileFieldSchema) (t : jsstring) : val :=
  match field_type f with FieldNumber => VInt (Z.max 1 (parse_or 1 t)) | _ => VStr t end.

Inductive form_entry :=
| TypeId (t : jsstring)
| TypeLabel (t : jsstring)
| TypeSummary (t : jsstring)
| TypeParam (f : ProfileFieldSchema) (t : jsstring).

Definition form_enter (s : ProfilesManager) (e : form_entry) : ProfilesManager :=
  {| isAdding := isAdding s; editingId := editingId s;
     profId := match e with TypeId t => t | _ => profId s end;
     profLabel := match e with TypeLabel t => t | _ => profLabel s end;
     profSummary := match e with TypeSummary t => t | _ => profSummary s end;
     profParams := match e with TypeParam f t => obj_put (field_key f) (param_value f t) (profParams s) | _ => profParams s end |}.

(** [profParams[field.key] ?? field.defaultValue] *)
Definition shown_param (s : ProfilesManager) (f : ProfileFieldSchema) : val :=
  val_nullish (prop (field_key f) (profParams s)) (defaultValue f).

Definition form_fields (extensionKey : jsstring) : list ProfileFieldSchema :=
  match findDataplaneExtensionMeta extensionKey with Some m => profileFields m | None => [] end.

(** [isCustomOverride] of a listed profile, which has the delete button. *)
Definition isCustomOverride (config : val) (pid : jsstring) : bool := truthy (prop pid (customProfilesMap config)).

Section Manager.
Context `{CaseMapping} (extensionKey : jsstring).

Abbreviation page := (ProfilesManager * modal)%type.

Definition save_form (p : page) : page :=
  match handleSaveProfile (parsedConfig p.2) (profId p.1) (profLabel p.1) (profSummary p.1) (profParams p.1) with
  | None => p
  | Some next => (close_form p.1 true, handleUpdateProfiles p.2 next)
  end.

Definition delete_profile (p : page) (pid : jsstring) : page := (p.1, handleUpdateProfiles p.2 (handleDeleteProfile (parsedConfig p.2) pid)).

(** What the user does with the manager. *)
Inductive manager_step : page -> page -> Prop :=
| StepCreate p : isAdding p.1 = false -> manager_step p (openCreate extensionKey, p.2)
| StepEdit p o : manager_step p (openEdit o, p.2)
| StepEnter p e : isAdding p.1 = true ->
    match e with TypeId _ => id_disabled p.1 = false | TypeParam f _ => f ∈ form_fields extensionKey | _ => True end ->
    manager_step p (form_enter p.1 e, p.2)
| StepCancel p : isAdding p.1 = true -> manager_step p (close_form p.1 false, p.2)
| StepSave p : isAdding p.1 = true -> manager_step p (save_form p)
| StepDelete p pid : isCustomOverride (parsedConfig p.2) pid = true -> manager_step p (delete_profile p pid).

Definition manager_run : page -> page -> Prop := rtc manager_step.

(** The inputs of one opening of the form. *)
Definition typed (s : ProfilesManager) (es : list form_entry) : ProfilesManager := fold_left form_enter es s.

(** The form of a profile under edit keeps the id of that profile. *)
Definition id_kept (p : page) : Prop :=
  match editingId p.1 with Some (c :: i) => profId p.1 = c :: i | _ => True end.

Lemma manager_step_id p q : id_kept p -> manager_step p q -> id_kept q.
Proof.
  intros Hp Hs. destruct Hs as [p Ha|p o|p e Ha He|p Ha|p Ha|p pid Hd]; unfold id_kept in *; cbn in *; try done.
  - by destruct (id o).
  - destruct (editingId p.1) as [[|c i]|] eqn:E; try done. destruct e; try done. unfold id_disabled in He. by rewrite E in He.
  - unfold save_form. destruct (handleSaveProfile _ _ _ _ _); [done|exact Hp].
Qed.

(** Editing a profile replaces that profile. Whatever was done with the
    manager, saving the form of a profile under edit whose id is as the
    console writes ids stores exactly that id: its entry has the label and
    parameters of the form and every other custom profile is as it was. *)
Theorem edit_replaces_profile (m : modal) (p : page) (c : N) (i : jsstring) (q : jsstring) :
  manager_run (initial_manager, m) p -> editingId p.1 = Some (c :: i) -> clean_profile_id (c :: i) = c :: i ->
  exists next, handleSaveProfile (parsedConfig p.2) (profId p.1) (profLabel p.1) (profSummary p.1) (profParams p.1) = Some next /\
    prop (c :: i) next = VObj (saved_entry (c :: i) (profLabel p.1) (profSummary p.1) (profParams p.1)) /\
    (q <> c :: i -> prop q next = prop q (customProfilesMap (parsedConfig p.2))).
Proof.
  intros Hr He Hc. assert (id_kept p) as Hp.
  { assert (id_kept (initial_manager, m)) as H0 by exact I. revert H0.
    induction Hr as [|x y z Hxy _ IH]; intros H0; [done|]. apply IH; [done|]. by eapply manager_step_id. }
  unfold id_kept in Hp. rewrite He in Hp. unfold handleSaveProfile. rewrite Hp, Hc. cbn [jeqb].
  eexists. split; [done|]. split; [apply prop_put_eq|]. intros Hq. by apply prop_put_ne.
Qed.

Lemma fields_distinct_types f g : f ∈ form_fields extensionKey -> g ∈ form_fields extensionKey -> field_key f = field_key g ->
  field_type f = field_type g.
Proof.
  unfold form_fields, findDataplaneExtensionMeta. destruct (List.find _ _) as [m|] eqn:E; [|by intros ?%elem_of_nil].
  apply List.find_some in E as [E _]. intros Hf Hg Hk.
  assert (forallb (fun m => forallb (fun f => forallb (fun g => negb (jeqb (field_key f) (field_key g))
    || match field_type f, field_type g with FieldNumber, FieldNumber | FieldText, FieldText | FieldSelect, FieldSelect => true | _, _ => false end)
    (profileFields m)) (profileFields m)) DATAPLANE_EXTENSION_CATALOG = true) as Ht by (vm_compute; reflexivity).
  rewrite forallb_forall in Ht. specialize (Ht m E).
  rewrite forallb_forall in Ht. specialize (Ht f ltac:(by apply list_elem_of_In)).
  rewrite forallb_forall in Ht. specialize (Ht g ltac:(by apply list_elem_of_In)).
  rewrite Hk, jeqb_refl in Ht. cbn [negb orb] in Ht. by destruct (field_type f), (field_type g).
Qed.

(** The inputs write positive numbers: however the form is filled in, the
    value of a number field is the one the form was opened with or an
    integer of at least one. *)
Theorem typed_numbers_positive (s : ProfilesManager) (es : list form_entry) (f : ProfileFieldSchema) :
  f ∈ form_fields extensionKey -> field_type f = FieldNumber ->
  Forall (fun e => match e with TypeParam g _ => g ∈ form_fields extensionKey | _ => True end) es ->
  shown_param (typed s es) f = shown_param s f \/ exists n, (1 <= n)%Z /\ shown_param (typed s es) f = VInt n.
Proof.
  intros Hf Ht Hes. unfold typed. induction es as [|e es IH] using rev_ind; [by left|].
  apply Forall_app in Hes as [Hes He]. apply Forall_cons in He as [He _]. rewrite fold_left_app. cbn [fold_left].
  destruct e as [t|t|t|g t]; try exact (IH Hes). unfold shown_param. cbn [profParams form_enter].
  destruct (decide (field_key g = field_key f)) as [E|E]; [|rewrite prop_put_ne by done; exact (IH Hes)].
  right. exists (Z.max 1 (parse_or 1 t)). split; [lia|]. rewrite E, prop_put_eq. unfold param_value.
  by rewrite (fields_distinct_types g f He Hf E), Ht.
Qed.

Lemma saved_entry_param cid l sm ps k : k <> js "label" -> k <> js "summary" -> prop k (saved_entry cid l sm ps) = prop k ps.
Proof.
  intros H1 H2. unfold saved_entry. destruct (trim sm); rewrite ?prop_put_ne by congruence; done.
Qed.

(** C37: a profile opens as it was saved. A form that is saved is found again
    among the profiles of the extension; opening it shows its cleaned id,
    the label (the id when it was blank) and in every input of a parameter
    the value that the form showed. *)
Theorem profile_reopens (s : ProfilesManager) (m : modal) :
  json_ok (parsedConfig m) -> clean_profile_id (profId s) <> [] ->
  let cid := clean_profile_id (profId s) in
  let p := save_form (s, m) in
  isAdding p.1 = false /\
  exists c o, parsedConfig p.2 = VObj c /\ find_profile cid (resolveExtensionProfiles extensionKey (CfgObj c)) = Some o /\
    profId (openEdit o) = cid /\ profLabel (openEdit o) = str_or (trim (profLabel s)) cid /\
    forall f, field_key f <> js "label" -> field_key f <> js "summary" -> shown_param (openEdit o) f = shown_param s f.
Proof.
  intros Hj Hne cid p. unfold p, save_form. cbn [fst snd].
  destruct (handleSaveProfile _ _ _ _ _) as [next|] eqn:E.
  2:{ unfold handleSaveProfile in E. apply jeqb_false in Hne. by rewrite Hne in E. }
  split; [done|].
  destruct (saved_profile_resolves m extensionKey _ _ _ _ _ Hj E) as (_ & c & Hc & Hf). fold cid in Hf.
  exists c. destruct (find_profile cid _) as [o|] eqn:Eo; [|done]. destruct Hf as [Hl Hp].
  exists o. split_and!; [done|done| |done|].
  - unfold find_profile in Eo. apply List.find_some in Eo as [_ Eo]. by apply jeqb_true.
  - intros f H1 H2. unfold shown_param. cbn [openEdit profParams]. by rewrite Hp, saved_entry_param.
Qed.
End Manager.

(** ** What the form does not do *)

(** A custom profile is listed with a summary made of the stored one and its
    parameters. The form takes that whole text for the stored summary: each
    time the profile is opened and saved the parameters are repeated. *)
Lemma reopened_summary_grows :
  let o := custom_option (js "vip") [(js "rate", VInt 7)] in
  let o' := custom_option (js "vip") (saved_entry (js "vip") (profLabel (openEdit o)) (profSummary (openEdit o)) (profParams (openEdit o))) in
  summary o = js "7 req/1s" /\ summary o' = js "7 req/1s · 7 req/1s".
Proof. split; vm_compute; reflexivity. Qed.

(** A stored summary cannot be removed: a blank one leaves the old one. *)
Lemma summary_not_cleared (cid l : jsstring) (ps : obj) :
  prop (js "summary") (saved_entry cid l [] ps) = prop (js "summary") ps.
Proof. unfold saved_entry. cbn [trim]. by apply prop_put_ne. Qed.

(** ** Instances *)

Definition vip_form : ProfilesManager :=
  form_enter (form_enter (openCreate (js "rate-limit")) (TypeId (js " VIP tier"))) (TypeLabel (js "VIP")).

Lemma profile_reopens_witness :
  exists c o, find_profile (js "vip_tier") (resolveExtensionProfiles (js "rate-limit") (CfgObj c)) = Some o /\
    profLabel (openEdit o) = js "VIP".
Proof.
  destruct (profile_reopens (js "rate-limit") vip_form opened) as (_ & c & o & _ & Ho & _ & Hl & _).
  - exact (proj1 opened_inv).
  - intros E. vm_compute in E. discriminate E.
  - exists c, o. split; [exact Ho|exact Hl].
Defined.

Definition vip_option : ExtensionProfileOption := custom_option (js "vip") [(js "rate", VInt 7)].

Lemma edit_replaces_profile_witness :
  let p := (openEdit vip_option, opened) in
  exists next, handleSaveProfile (parsedConfig opened) (profId p.1) (profLabel p.1) (profSummary p.1) (profParams p.1) = Some next.
Proof.
  destruct (edit_replaces_profile (js "rate-limit") opened (openEdit vip_option, opened) 118%N (js "ip") [])
    as (next & Hn & _).
  - apply rtc_once, StepEdit.
  - reflexivity.
  - vm_compute. reflexivity.
  - exists next. exact Hn.
Defined.

Lemma typed_numbers_positive_witness :
  exists f, f ∈ form_fields (js "rate-limit") /\ field_type f = FieldNumber /\
    shown_param (typed (openCreate (js "rate-limit")) [TypeParam f (js "-4")]) f = VInt 1.
Proof.
  destruct (form_fields (js "rate-limit")) as [|f l] eqn:E; [vm_compute in E; discriminate E|].
  assert (field_type f = FieldNumber) as Hf by (vm_compute in E; injection E as <- _; reflexivity).
  assert (f ∈ form_fields (js "rate-limit")) as Hin by (rewrite E; left).
  exists f. split; [left|]. split; [exact Hf|].
  destruct (typed_numbers_positive (js "rate-limit") (openCreate (js "rate-limit")) [TypeParam f (js "-4")] f Hin Hf
    ltac:(apply Forall_singleton; exact Hin)) as [_|_];
    (unfold shown_param, typed; cbn [fold_left form_enter profParams]; rewrite prop_put_eq; unfold param_value; rewrite Hf;
     vm_compute; reflexivity).
Defined.
