(* ===== verification/L4Page.v ===== *)
(** * The L4 services page

    [pages/l4/page.tsx] with [sections/L4Stats.tsx] and
    [sections/DeleteL4ServiceDialog.tsx]: the list of stream services with
    its filters and counters, the status switch and deletion, which ask the
    control plane first and then load the list again. Loading asks for the
    services and the upstreams together; a failure of the upstreams only
    empties that list. The list is a polled page. *)

From Stdlib Require Import ZArith NArith Lia String.
From S2P Require Import Prelude JsString JsValue Json JsonFacts Fetcher Api Polling.
Import L4Api.
Local Open Scope string_scope.
Local Open Scope list_scope.

(** [Array.isArray(acls) && acls.length > 0], a parse error being [false]. *)
Definition has_acl (s : L4ServiceItem) : bool :=
  match parse (str_or (acl_rules_json s) (js "[]")) with Some (VArr (_ :: _)) => true | _ => false end.

Inductive proto_filter := AllProtocols | OnlyTcp | OnlyUdp.
Definition proto_filter_string (p : proto_filter) : jsstring :=
  match p with AllProtocols => js "all" | OnlyTcp => js "tcp" | OnlyUdp => js "udp" end.

Record l4_filters := { searchQuery : jsstring; protoFilter : proto_filter; statFilter : option jsstring }.

Definition handleClearFilters (f : l4_filters) : l4_filters :=
  {| searchQuery := []; protoFilter := AllProtocols; statFilter := None |}.

Section Filters.
Context `{CaseMapping}.

Definition is_proto (p : string) (s : L4ServiceItem) : bool := jeqb (toLowerCase (protocol s)) (js p).

Definition l4_matches_search (q : jsstring) (s : L4ServiceItem) : bool :=
  let has t := includes (toLowerCase q) (toLowerCase t) in
  jeqb (trim q) [] || has (name s) || has (upstream_name s)
  || (negb (jeqb (direct_endpoint s) []) && has (direct_endpoint s))
  || includes q (int_string (listen_port s)).

(** [matchesStat]: each test overrides the one before. *)
Definition l4_matches_stat (f : option jsstring) (s : L4ServiceItem) : bool :=
  let sel t := match f with Some k => jeqb k (js t) | None => false end in
  let m := if sel "tcp" then is_proto "tcp" s else true in
  let m := if sel "udp" then is_proto "udp" s else m in
  if sel "acl" then has_acl s else m.

Definition l4_kept (f : l4_filters) (s : L4ServiceItem) : bool :=
  l4_matches_search (searchQuery f) s
  && match protoFilter f with
     | AllProtocols => true
     | p => jeqb (toLowerCase (protocol s)) (proto_filter_string p)
     end
  && l4_matches_stat (statFilter f) s.

Definition filteredServices (f : l4_filters) (services : list L4ServiceItem) : list L4ServiceItem :=
  List.filter (l4_kept f) services.

(** [L4Stats] *)
Record l4_stats := { total : nat; tcpCount : nat; udpCount : nat; aclCount : nat }.
Definition service_stats (services : list L4ServiceItem) : l4_stats :=
  {| total := length services; tcpCount := length (List.filter (is_proto "tcp") services);
     udpCount := length (List.filter (is_proto "udp") services);
     aclCount := length (List.filter has_acl services) |}.
End Filters.

(** ** Loading, switching and deleting *)

#[local] Instance l4_feed : ListPage L4ServiceItem :=
  polled_page 70 (js "ailed to load L4 Gateway configurations").

(** [alerts] are the messages given to [alert], latest first. *)
Record L4State := {
  feed : page (A := L4ServiceItem);
  availableUpstreams : list jsstring;
  deletingService : option L4ServiceItem;
  isDeleting : bool;
  alerts : list jsstring
}.

Definition set_feed (s : L4State) (p : page (A := L4ServiceItem)) : L4State :=
  {| feed := p; availableUpstreams := availableUpstreams s; deletingService := deletingService s;
     isDeleting := isDeleting s; alerts := alerts s |}.

Definition fetchData_start (showSpin : bool) (s : L4State) : L4State := set_feed s (fetch_start showSpin (feed s)).

(** Both lists of one load; [res.items || []], and an upstream failure is
    caught before [Promise.all] sees it. *)
Definition fetchData_finish (n : nat) (svcs : result ApiError (option (list L4ServiceItem)))
    (ups : result ApiError (option (list jsstring))) (s : L4State) : L4State :=
  let r := match svcs with Ok l => Ok (default [] l) | Throw e => Throw (err_message e) end in
  {| feed := fetch_settle n r (feed s);
     availableUpstreams :=
       match svcs with
       | Ok _ => if Nat.eqb n (sequence (feed s)) then match ups with Ok l => default [] l | Throw _ => [] end
                 else availableUpstreams s
       | Throw _ => availableUpstreams s
       end;
     deletingService := deletingService s; isDeleting := isDeleting s; alerts := alerts s |}.

Definition add_alert (s : L4State) (m : jsstring) (deleting : bool) : L4State :=
  {| feed := feed s; availableUpstreams := availableUpstreams s; deletingService := deletingService s;
     isDeleting := deleting; alerts := m :: alerts s |}.

Definition handleToggleStatus (item : L4ServiceItem) : call := l4_toggleService (id item) (negb (enabled item)).
Definition toggle_settled (s : L4State) (r : result ApiError val) : L4State :=
  match r with
  | Ok _ => fetchData_start false s
  | Throw e => add_alert s (str_or (err_message e) (js "Error updating service status")) (isDeleting s)
  end.

Definition handleConfirmDelete (s : L4State) : L4State * option call :=
  match deletingService s with
  | None => (s, None)
  | Some svc =>
      ({| feed := feed s; availableUpstreams := availableUpstreams s; deletingService := deletingService s;
          isDeleting := true; alerts := alerts s |}, Some (l4_deleteService (id svc)))
  end.

(** After the deletion the list is awaited too: [isDeleting] is reset by
    [delete_reloaded]. *)
Definition delete_settled (s : L4State) (r : result ApiError val) : L4State :=
  match r with
  | Ok _ =>
      fetchData_start false
        {| feed := feed s; availableUpstreams := availableUpstreams s; deletingService := None;
           isDeleting := isDeleting s; alerts := alerts s |}
  | Throw e => add_alert s (str_or (err_message e) (js "Error deleting service")) false
  end.

Definition delete_reloaded (s : L4State) : L4State :=
  {| feed := feed s; availableUpstreams := availableUpstreams s; deletingService := deletingService s;
     isDeleting := false; alerts := alerts s |}.

(** ** Theorems *)

Section L4Theorems.
Context `{CaseMapping}.

(** The cards of the L4 page count what their filters show, and clearing
    the filters shows every service. *)
Theorem l4_stats_match_filters (services : list L4ServiceItem) (f : l4_filters) :
  let shown_by s := length (filteredServices {| searchQuery := []; protoFilter := AllProtocols; statFilter := s |} services) in
  filteredServices (handleClearFilters f) services = services /\
  shown_by None = total (service_stats services) /\
  shown_by (Some (js "tcp")) = tcpCount (service_stats services) /\
  shown_by (Some (js "udp")) = udpCount (service_stats services) /\
  shown_by (Some (js "acl")) = aclCount (service_stats services).
Proof.
  intros shown_by.
  assert (filteredServices (handleClearFilters f) services = services) as Hc.
  { unfold filteredServices. rewrite (List.filter_ext _ (fun _ => true)) by done. clear.
    induction services as [|s l IH]; simpl; [done|]. by rewrite IH. }
  split; [done|]. unfold shown_by. split; [exact (f_equal length Hc)|].
  split; [|split]; unfold filteredServices; simpl; f_equal; by apply List.filter_ext.
Qed.

(** A deleted or switched service does not come back from an old
    answer: when the control plane has confirmed the deletion, the dialog
    closes and a new load starts; whatever loads were under way before, in
    whatever order they and the new one are answered, once the new answer
    is there the list is that answer. *)
Theorem l4_delete_shown (s : L4State) (es : list (event (A := L4ServiceItem)))
    (p : page (A := L4ServiceItem)) (v : val) (l : list L4ServiceItem) :
  let s1 := delete_settled s (Ok v) in
  star page_step (feed s1) es p -> Forall is_settle es -> Settle (sequence (feed s1)) (Ok l) ∈ es ->
  deletingService s1 = None /\ items (shown p) = l /\ Polling.loading (shown p) = false.
Proof.
  intros s1 Hs Hes Hin. split; [done|]. by apply (latest_settles _ _ _ (sequence (feed s1)) l Hs Hes).
Qed.

(** The services are shown whether or not the upstreams can be loaded:
    the answer of the latest load sets the list to the services (none when
    the answer has no list) and clears the error, and the choices of
    upstreams are those of the answer or none. *)
Theorem l4_load_tolerates_upstreams (s : L4State) (svcs : option (list L4ServiceItem))
    (ups : result ApiError (option (list jsstring))) :
  let s' := fetchData_finish (sequence (feed s)) (Ok svcs) ups s in
  items (shown (feed s')) = default [] svcs /\ Polling.error (shown (feed s')) = None /\
  Polling.loading (shown (feed s')) = false /\
  availableUpstreams s' = match ups with Ok l => default [] l | Throw _ => [] end.
Proof. cbv zeta. unfold fetchData_finish, fetch_settle. simpl. by rewrite Nat.eqb_refl. Qed.
End L4Theorems.

(** ** Instances *)

Definition example_service (i : string) : L4ServiceItem :=
  {| id := js i; name := js "redis"; protocol := js "TCP"; listen_port := 6379; forward_target_type := js "upstream";
     upstream_name := js "cache"; direct_endpoint := []; acl_rules_json := js "[]"; proxy_timeout := js "10m";
     proxy_connect_timeout := js "5s"; enabled := true; description := []; created_at := []; updated_at := [] |}.

Definition example_l4 : L4State :=
  {| feed := fetch_start false (initial_page (A := L4ServiceItem)); availableUpstreams := [];
     deletingService := Some (example_service "a"); isDeleting := true; alerts := [] |}.

(** The load of before the deletion is answered after the new one. *)
Lemma l4_delete_shown_witness :
  let s1 := delete_settled example_l4 (Ok VNull) in
  items (shown (fetch_settle 1 (Ok [example_service "a"; example_service "b"])
                  (fetch_settle 2 (Ok [example_service "b"]) (feed s1)))) = [example_service "b"].
Proof.
  apply (l4_delete_shown example_l4
    [Settle 2 (Ok [example_service "b"]); Settle 1 (Ok [example_service "a"; example_service "b"])] _ VNull).
  - eapply star_cons; [apply StepSettle; by constructor|].
    eapply star_cons; [apply StepSettle; by constructor|apply star_nil].
  - by repeat constructor.
  - by constructor.
Defined.
