(* ===== verification/ExtensionsPage.v ===== *)
(** * The extensions page

    [pages/extensions/page.tsx] with [pages/extensions/types.ts]: the list of
    installed extensions with its category counters and filters, the
    optimistic status switch (which also changes the extension open in the
    dialog) and saving a configuration from the dialog of
    [ExtensionConfig]. An error is the message of what was thrown: an
    [ApiError], or the [URIError] of an id that cannot be encoded. *)

From Stdlib Require Import ZArith NArith Lia String.
From stdpp Require Import gmap.
From S2P Require Import Prelude JsString JsValue Json JsonFacts Fetcher Api Optimistic Profiles ExtensionConfig.
Import ExtensionsApi.
Local Open Scope string_scope.
Local Open Scope list_scope.

(** The page's [ExtensionItem] has optional tags beside the members of the
    API type. *)
Record HubExtension := { hub : ExtensionItem; tags : option (list jsstring) }.

(** ** Categories *)

(** The legacy names, as both [stats] and the filter map them. *)
Definition category_key (c : jsstring) : jsstring :=
  let c := if jeqb c (js "security") then js "security_engine" else c in
  let c := if jeqb c (js "auth") then js "authentication" else c in
  let c := if jeqb c (js "traffic") then js "traffic_control" else c in
  if jeqb c (js "runtime") then js "integration_runtime" else c.

Definition CATEGORIES : list jsstring :=
  map js ["security_engine"; "authentication"; "authorization_security"; "traffic_control";
          "request_transformation"; "response_transformation"; "observability"; "resilience_upstream";
          "cache_content"; "integration_runtime"; "ai_gateway"].

Record ExtensionStatsData := {
  total : nat;
  enabled_count : nat;
  disabled : nat;
  byCategory : list (jsstring * nat)
}.

(** One round of [forEach]. A name that is not a counter is ignored (names
    of [Object.prototype] such as [constructor] are not modelled). *)
Definition count_extension (acc : nat * list (jsstring * nat)) (e : HubExtension) : nat * list (jsstring * nat) :=
  let k := category_key (category (hub e)) in
  ((if enabled (hub e) then S acc.1 else acc.1),
   match obj_get k acc.2 with Some n => obj_put k (S n) acc.2 | None => acc.2 end).

Definition extension_stats (l : list HubExtension) : ExtensionStatsData :=
  let '(on, counts) := fold_left count_extension l (0, map (fun k => (k, 0)) CATEGORIES) in
  {| total := length l; enabled_count := on; disabled := length l - on; byCategory := counts |}.

(** ** Filters *)

Inductive status_filter := AnyStatus | OnlyEnabled | OnlyDisabled.

Record ext_filters := { searchQuery : jsstring; selectedCategory : jsstring; statusFilter : status_filter }.

Section Filters.
Context `{CaseMapping}.

Definition ext_matches (q : jsstring) (e : HubExtension) : bool :=
  let has s := includes q (toLowerCase s) in
  has (name (hub e)) || has (id (hub e)) || has (description (hub e)) || has (category (hub e))
  || match tags e with Some l => existsb has l | None => false end.

Definition ext_kept (f : ext_filters) (e : HubExtension) : bool :=
  if negb (jeqb (selectedCategory f) (js "all")) && negb (jeqb (category_key (category (hub e))) (selectedCategory f))
  then false else
  if (match statusFilter f with OnlyEnabled => negb (enabled (hub e)) | _ => false end) then false else
  if (match statusFilter f with OnlyDisabled => enabled (hub e) | _ => false end) then false else
  if negb (jeqb (trim (searchQuery f)) []) && negb (ext_matches (trim (toLowerCase (searchQuery f))) e) then false else
  true.

Definition filteredExtensions (f : ext_filters) (l : list HubExtension) : list HubExtension :=
  List.filter (ext_kept f) l.
End Filters.

(** ** The page *)

Record ExtensionsState := {
  extensions : list HubExtension;
  loading : bool;
  isRefreshing : bool;
  error : option jsstring;
  togglingIds : gset jsstring;
  configuringExt : option HubExtension
}.

Definition with_list (s : ExtensionsState) (l : list HubExtension) (e : option jsstring) : ExtensionsState :=
  {| extensions := l; loading := loading s; isRefreshing := isRefreshing s; error := e;
     togglingIds := togglingIds s; configuringExt := configuringExt s |}.

Definition fetchExtensions_start (isManual : bool) (s : ExtensionsState) : ExtensionsState :=
  {| extensions := extensions s; loading := loading s; isRefreshing := if isManual then true else isRefreshing s;
     error := error s; togglingIds := togglingIds s; configuringExt := configuringExt s |}.

(** [res.extensions || []]; a failure empties the list. *)
Definition fetchExtensions_finish (isManual : bool) (r : result ApiError (option (list HubExtension)))
    (s : ExtensionsState) : ExtensionsState :=
  let s1 := match r with
            | Ok l => with_list s (default [] l) None
            | Throw e => with_list s [] (Some (err_message e))
            end in
  {| extensions := extensions s1; loading := false; isRefreshing := if isManual then false else isRefreshing s1;
     error := error s1; togglingIds := togglingIds s1; configuringExt := configuringExt s1 |}.

Definition set_item (f : ExtensionItem -> ExtensionItem) (e : HubExtension) : HubExtension :=
  {| hub := f (hub e); tags := tags e |}.
Definition set_enabled (b : bool) (i : ExtensionItem) : ExtensionItem :=
  {| id := id i; name := name i; category := category i; description := description i;
     manifest_key := manifest_key i; manifest_version := manifest_version i; manifest_digest := manifest_digest i;
     enabled := b; config_json := config_json i; config_schema_json := config_schema_json i;
     ui_schema_json := ui_schema_json i; supported := supported i; is_builtin := is_builtin i;
     created_at := created_at i; updated_at := updated_at i |}.
Definition set_config (c : jsstring) (i : ExtensionItem) : ExtensionItem :=
  {| id := id i; name := name i; category := category i; description := description i;
     manifest_key := manifest_key i; manifest_version := manifest_version i; manifest_digest := manifest_digest i;
     enabled := enabled i; config_json := c; config_schema_json := config_schema_json i;
     ui_schema_json := ui_schema_json i; supported := supported i; is_builtin := is_builtin i;
     created_at := created_at i; updated_at := updated_at i |}.

#[local] Instance extension_toggleable : Toggleable HubExtension.
Proof.
  refine {| item_id e := id (hub e); item_enabled e := enabled (hub e); with_enabled b := set_item (set_enabled b) |};
    by intros; destruct x as [[] ?].
Defined.

(** [prev && prev.id === id ? { ...prev, enabled } : prev] *)
Definition switch_open (i : jsstring) (b : bool) (o : option HubExtension) : option HubExtension :=
  match o with Some e => Some (if jeqb (id (hub e)) i then with_enabled b e else e) | None => None end.

Definition switched (s : ExtensionsState) (i : jsstring) (b : bool) (e : option jsstring) (marks : gset jsstring) :
    ExtensionsState :=
  {| extensions := switch_rows i b (extensions s); loading := loading s; isRefreshing := isRefreshing s;
     error := e; togglingIds := marks; configuringExt := switch_open i b (configuringExt s) |}.

(** [handleToggleStatus] up to its [await]; without a call the id could not
    be encoded and the handler goes on with the [URIError]. *)
Definition ext_toggle_start (s : ExtensionsState) (i : jsstring) (newEnabled : bool) : ExtensionsState * option call :=
  (switched s i newEnabled (error s) (mark i (togglingIds s)), extensions_updateStatus i newEnabled).

Definition ext_toggle_finish (s : ExtensionsState) (i : jsstring) (newEnabled : bool) (r : result jsstring val) :
    ExtensionsState :=
  match r with
  | Ok _ => {| extensions := extensions s; loading := loading s; isRefreshing := isRefreshing s; error := error s;
               togglingIds := unmark i (togglingIds s); configuringExt := configuringExt s |}
  | Throw m => switched s i (negb newEnabled) (Some m) (unmark i (togglingIds s))
  end.

(** [handleSaveConfig] *)
Definition save_call (i configJSON : jsstring) : option call := extensions_updateConfig i (ConfigText configJSON).
Definition save_finish (s : ExtensionsState) (i configJSON : jsstring) (r : result jsstring val) : ExtensionsState * bool :=
  match r with
  | Ok _ => (with_list s (update_id i (set_item (set_config configJSON)) (extensions s)) (error s), true)
  | Throw m => (with_list s (extensions s) (Some m), false)
  end.

(** The dialog belongs to [configuringExt]: a new value of it, such as the
    one a switch makes, runs the effect that opens the dialog. *)
Definition dialog_after_switch (s : ExtensionsState) (i : jsstring) (m : modal) : modal :=
  match configuringExt s with
  | Some e => if jeqb (id (hub e)) i then open_modal m (config_json (hub e)) else m
  | None => m
  end.

(** ** Lemmas *)

Definition of_category (k : jsstring) (e : HubExtension) : bool := jeqb (category_key (category (hub e))) k.
Definition is_enabled (e : HubExtension) : bool := enabled (hub e).

Lemma count_category k l acc n :
  obj_get k acc.2 = Some n ->
  obj_get k (fold_left count_extension l acc).2 = Some (n + length (List.filter (of_category k) l)).
Proof.
  revert acc n. induction l as [|e l IH]; intros acc n Hn; simpl; [by rewrite Nat.add_0_r|].
  unfold of_category. destruct (jeqb (category_key (category (hub e))) k) eqn:E.
  - apply jeqb_true in E. simpl. rewrite <- Nat.add_succ_comm. apply IH. simpl. rewrite E, Hn. apply obj_get_put_eq.
  - apply IH. simpl. apply jeqb_false in E.
    destruct (obj_get (category_key _) acc.2); [|done]. by rewrite obj_get_put_ne.
Qed.

Lemma count_enabled l acc :
  (fold_left count_extension l acc).1 = acc.1 + length (List.filter is_enabled l).
Proof.
  revert acc. induction l as [|e l IH]; intros acc; simpl; [lia|]. rewrite IH. simpl. unfold is_enabled.
  destruct (enabled (hub e)); simpl; lia.
Qed.

Lemma filter_partition {A} (f : A -> bool) l :
  length (List.filter f l) + length (List.filter (fun x => negb (f x)) l) = length l.
Proof. induction l as [|x l IH]; simpl; [done|]. destruct (f x); simpl; lia. Qed.

Lemma switch_open_back i b o :
  (forall e, o = Some e -> id (hub e) = i -> enabled (hub e) = negb b) ->
  switch_open i (negb b) (switch_open i b o) = o.
Proof.
  intros Ho. destruct o as [[x t]|]; [|done]. specialize (Ho _ eq_refl). simpl in *. f_equal.
  destruct (jeqb (id x) i) eqn:E; simpl; rewrite E; [|done].
  apply jeqb_true in E. unfold set_item. simpl. f_equal. rewrite <- (Ho E). by destruct x.
Qed.

(** ** Theorems *)

Section ExtensionsTheorems.
Context `{CaseMapping}.

(** The tabs and counters of the hub count what they show: selecting one
    of the eleven categories lists as many extensions as its counter says,
    legacy category names included, and the enabled and disabled counters
    add up to the total and match their filters. *)
Theorem ext_counts_match_filters (l : list HubExtension) :
  let shown_by c st := length (filteredExtensions {| searchQuery := []; selectedCategory := c; statusFilter := st |} l) in
  let s := extension_stats l in
  Forall (fun k => obj_get k (byCategory s) = Some (shown_by k AnyStatus)) CATEGORIES /\
  shown_by (js "all") AnyStatus = total s /\ shown_by (js "all") OnlyEnabled = enabled_count s /\
  shown_by (js "all") OnlyDisabled = disabled s /\ enabled_count s + disabled s = total s.
Proof.
  intros shown_by s. subst shown_by.
  pose proof (count_enabled l (0, map (fun k => (k, 0)) CATEGORIES)) as He.
  pose proof (fun k n => count_category k l (0, map (fun k => (k, 0)) CATEGORIES) n) as Hc.
  unfold s, extension_stats. destruct (fold_left count_extension l _) as [on counts]. cbn [fst snd] in He, Hc.
  pose proof (filter_partition is_enabled l) as Hp. unfold filteredExtensions.
  cbn [byCategory total enabled_count disabled]. split; [|split; [|split; [|split]]].
  - apply Forall_forall. intros k Hk. rewrite (Hc k 0).
    + rewrite Nat.add_0_l. do 2 f_equal. apply List.filter_ext. intros e. unfold ext_kept, of_category. cbn [searchQuery selectedCategory statusFilter].
      assert (jeqb k (js "all") = false) as ->.
      { clear -Hk. repeat (apply elem_of_cons in Hk as [->|Hk]; [reflexivity|]). by apply elem_of_nil in Hk. }
      by destruct (jeqb _ _).
    + clear -Hk. repeat (apply elem_of_cons in Hk as [->|Hk]; [reflexivity|]). by apply elem_of_nil in Hk.
  - rewrite (List.filter_ext _ (fun _ => true)) by done. clear. induction l as [|e l IH]; simpl; [done|]. by rewrite IH.
  - rewrite He. simpl. f_equal. apply List.filter_ext. intros e. unfold ext_kept, is_enabled. simpl. by destruct (enabled _).
  - rewrite He. simpl. rewrite <- Hp.
    assert (List.filter (ext_kept {| searchQuery := []; selectedCategory := js "all"; statusFilter := OnlyDisabled |}) l
            = List.filter (fun x => negb (is_enabled x)) l) as ->.
    { apply List.filter_ext. intros e. unfold ext_kept, is_enabled. simpl. by destruct (enabled _). }
    lia.
  - rewrite He. simpl. lia.
Qed.

(** A failed switch of an extension leaves the list and the open dialog
    as they were, clears the mark and shows the message; a success changes
    that extension only. *)
Theorem ext_toggle_rolls_back (s : ExtensionsState) (i : jsstring) (next : bool) (m : jsstring) (v : val) :
  Forall (fun e => id (hub e) = i -> enabled (hub e) = negb next) (extensions s) ->
  (forall e, configuringExt s = Some e -> id (hub e) = i -> enabled (hub e) = negb next) ->
  i ∉ togglingIds s ->
  let s1 := (ext_toggle_start s i next).1 in
  let failed := ext_toggle_finish s1 i next (Throw m) in
  let done := ext_toggle_finish s1 i next (Ok v) in
  extensions failed = extensions s /\ configuringExt failed = configuringExt s /\
  togglingIds failed = togglingIds s /\ error failed = Some m /\ togglingIds done = togglingIds s /\
  forall e, e ∈ extensions done ->
    if jeqb (id (hub e)) i then enabled (hub e) = next else e ∈ extensions s.
Proof.
  intros Hl Ho Hni. unfold ext_toggle_start, ext_toggle_finish, switched. cbv zeta.
  cbn [fst extensions configuringExt togglingIds error]. rewrite mark_unmark by done.
  split; [by apply switch_rows_back|]. split; [by apply switch_open_back|]. do 3 (split; [done|]).
  intros e He. exact (switch_rows_frame _ _ _ _ He).
Qed.

End ExtensionsTheorems.

(** Switching the status inside the dialog throws away what was edited: the
    dialog is opened again on the stored configuration. *)
Lemma switch_discards_edits (s : ExtensionsState) (e : HubExtension) (m m' : modal) :
  configuringExt s = Some e -> ruleForm m = ruleForm m' -> isSaving m = isSaving m' ->
  dialog_after_switch s (id (hub e)) m = dialog_after_switch s (id (hub e)) m'.
Proof.
  intros He Hf Hs. unfold dialog_after_switch. rewrite He, jeqb_refl. unfold open_modal.
  destruct (parse _) as [[]|]; simpl; by rewrite Hf, Hs.
Qed.

(** ** Instances *)

Definition example_extension (i : string) (on : bool) : HubExtension :=
  {| hub := {| id := js i; name := js i; category := js "traffic"; description := []; manifest_key := js i;
               manifest_version := 1; manifest_digest := []; enabled := on; config_json := js "{}";
               config_schema_json := []; ui_schema_json := []; supported := true; is_builtin := true;
               created_at := None; updated_at := None |}; tags := None |}.

Definition example_hub : ExtensionsState :=
  {| extensions := [example_extension "rate-limit" true; example_extension "waf" false]; loading := false;
     isRefreshing := false; error := None; togglingIds := ∅; configuringExt := Some (example_extension "rate-limit" true) |}.

Lemma ext_toggle_rolls_back_witness :
  extensions (ext_toggle_start example_hub (js "rate-limit") false).1 <> extensions example_hub /\
  extensions (ext_toggle_finish (ext_toggle_start example_hub (js "rate-limit") false).1 (js "rate-limit") false
                (Throw (js "HTTP 500"))) = extensions example_hub.
Proof.
  split; [vm_compute; discriminate|].
  apply (ext_toggle_rolls_back example_hub (js "rate-limit") false (js "HTTP 500") VNull).
  - by repeat constructor.
  - by intros e [= <-] _.
  - set_solver.
Defined.

Definition saved_text : jsstring := default [] (apply_start no_message opened).2.
Definition saved_row : HubExtension := set_item (set_config saved_text) (example_extension "waf" false).

