(* ===== verification/SecuritySettings.v ===== *)
(** * Security settings

    [pages/settings/tabs/security/SecurityTab.tsx] with its sections
    [AuthProviderSetupModal], [ChangePasswordModal] and
    [TwoFactorSetupModal]: the authentication providers (one of which must
    stay active), the configuration of a provider, changing the password and
    switching two-factor authentication on and off. The QR code is drawn by
    a library: what its call settles with is an argument. *)

From Stdlib Require Import ZArith NArith Lia String.
From stdpp Require Import gmap.
From S2P Require Import Prelude JsString JsValue Json JsonFacts Fetcher Api Optimistic.
Import OtherApis.
Local Open Scope string_scope.
Local Open Scope list_scope.

Record AuthProviderItem := {
  id : jsstring;
  name : jsstring;
  description : jsstring;
  enabled : bool;
  config_json : jsstring;
  updated_at : jsstring
}.

Definition set_enabled (b : bool) (p : AuthProviderItem) : AuthProviderItem :=
  {| id := id p; name := name p; description := description p; enabled := b;
     config_json := config_json p; updated_at := updated_at p |}.
Definition set_config (c : jsstring) (p : AuthProviderItem) : AuthProviderItem :=
  {| id := id p; name := name p; description := description p; enabled := enabled p;
     config_json := c; updated_at := updated_at p |}.

#[local] Instance provider_toggleable : Toggleable AuthProviderItem.
Proof. refine {| item_id := id; item_enabled := enabled; with_enabled := set_enabled |}; by intros; destruct x. Defined.

(** ** The tab *)

Record SecurityTab := {
  loading : bool;
  errorBanner : jsstring;
  successBanner : jsstring;
  providers : list AuthProviderItem;
  savingProviderId : option jsstring;
  enable2FA : bool;
  disabling2FA : bool;
  passwordLastUpdated : jsstring;
  adminUsername : jsstring
}.

Definition set_providers (s : SecurityTab) (l : list AuthProviderItem) (saving : option jsstring)
    (err ok : jsstring) : SecurityTab :=
  {| loading := loading s; errorBanner := err; successBanner := ok; providers := l; savingProviderId := saving;
     enable2FA := enable2FA s; disabling2FA := disabling2FA s; passwordLastUpdated := passwordLastUpdated s;
     adminUsername := adminUsername s |}.
Definition set_2fa (s : SecurityTab) (on disabling : bool) (err ok : jsstring) : SecurityTab :=
  {| loading := loading s; errorBanner := err; successBanner := ok; providers := providers s;
     savingProviderId := savingProviderId s; enable2FA := on; disabling2FA := disabling;
     passwordLastUpdated := passwordLastUpdated s; adminUsername := adminUsername s |}.

(** [SecurityOverview], as far as the tab reads it; an absent member is
    [None] or empty. *)
Record SecurityOverview := {
  auth_providers : option (list AuthProviderItem);
  two_factor_enabled : option bool;
  admin_username : jsstring;
  password_last_updated : jsstring
}.

Definition loadOverview_start (s : SecurityTab) : SecurityTab :=
  {| loading := true; errorBanner := []; successBanner := successBanner s; providers := providers s;
     savingProviderId := savingProviderId s; enable2FA := enable2FA s; disabling2FA := disabling2FA s;
     passwordLastUpdated := passwordLastUpdated s; adminUsername := adminUsername s |}.

Definition loadOverview_finish (s : SecurityTab) (r : result ApiError SecurityOverview) : SecurityTab :=
  match r with
  | Ok d =>
      {| loading := false; errorBanner := errorBanner s; successBanner := successBanner s;
         providers := default [] (auth_providers d); savingProviderId := savingProviderId s;
         enable2FA := default false (two_factor_enabled d); disabling2FA := disabling2FA s;
         passwordLastUpdated := str_or (password_last_updated d) (passwordLastUpdated s);
         adminUsername := str_or (admin_username d) (adminUsername s) |}
  | Throw e =>
      {| loading := false; errorBanner := str_or (err_message e) (js "Không thể tải cấu hình bảo mật từ máy chủ");
         successBanner := successBanner s; providers := providers s; savingProviderId := savingProviderId s;
         enable2FA := enable2FA s; disabling2FA := disabling2FA s; passwordLastUpdated := passwordLastUpdated s;
         adminUsername := adminUsername s |}
  end.

Definition activeProvidersCount (s : SecurityTab) : nat := length (List.filter enabled (providers s)).

Definition last_provider_message : jsstring :=
  js "Hệ thống yêu cầu ít nhất 1 phương thức xác thực luôn hoạt động. Không thể tắt tất cả phương thức.".

(** [handleToggleProvider] up to its [await]. *)
Definition toggle_provider (s : SecurityTab) (p : AuthProviderItem) : SecurityTab * option call :=
  let next := negb (enabled p) in
  if negb next && Nat.leb (activeProvidersCount s) 1
  then (set_providers s (providers s) (savingProviderId s) last_provider_message (successBanner s), None)
  else (set_providers s (switch_rows (id p) next (providers s)) (Some (id p)) [] (successBanner s),
        Some (security_updateProvider (id p) next (config_json p))).

(** ... and from it. *)
Definition provider_settled (s : SecurityTab) (p : AuthProviderItem) (r : result ApiError val) : SecurityTab :=
  let next := negb (enabled p) in
  match r with
  | Ok _ =>
      set_providers s (providers s) None (errorBanner s)
        (js "Đã " ++ (if next then js "bật" else js "tắt") ++ js " " ++ name p)
  | Throw e =>
      set_providers s (switch_rows (id p) (enabled p) (providers s)) None
        (str_or (err_message e) (js "Thao tác không thành công")) (successBanner s)
  end.

(** A toggle whose answer comes before the next one starts. *)
Definition provider_round (s : SecurityTab) (p : AuthProviderItem) (r : result ApiError val) : SecurityTab :=
  match toggle_provider s p with (s', Some _) => provider_settled s' p r | (s', None) => s' end.

Definition handleDisable2FA (s : SecurityTab) (confirmed : bool) : SecurityTab * option call :=
  if confirmed then (set_2fa s (enable2FA s) true [] (successBanner s), Some security_disable2FA) else (s, None).
Definition disable_settled (s : SecurityTab) (r : result ApiError val) : SecurityTab :=
  match r with
  | Ok _ => set_2fa s false false (errorBanner s) (js "Đã tắt xác thực hai bước (2FA)")
  | Throw e => set_2fa s (enable2FA s) false (str_or (err_message e) (js "Không thể tắt 2FA")) (successBanner s)
  end.

Definition handleProviderSetupSuccess (s : SecurityTab) (pid configJsonStr : jsstring) : SecurityTab :=
  let target := List.find (fun p => jeqb (id p) pid) (providers s) in
  set_providers s (update_id pid (fun p => set_config configJsonStr (set_enabled true p)) (providers s))
    (savingProviderId s) (errorBanner s)
    (js "Đã lưu cấu hình cho " ++ str_or (match target with Some p => name p | None => [] end) pid).

(** ** Configuring a provider *)

Record SetupModal := { setupConfig : val; savingConfig : bool; setupError : jsstring }.

Definition open_setup (p : AuthProviderItem) : SetupModal :=
  {| setupConfig := default (VObj []) (parse (str_or (config_json p) (js "{}"))); savingConfig := false;
     setupError := [] |}.

(** [setSetupConfig({ ...setupConfig, [k]: v })] *)
Definition set_field (m : SetupModal) (k : jsstring) (v : val) : SetupModal :=
  {| setupConfig := VObj (obj_put k v (spread (setupConfig m)));
     savingConfig := savingConfig m; setupError := setupError m |}.

Definition setup_text (m : SetupModal) : jsstring := ser [] [] (setupConfig m).

Definition handleSaveSetup (m : SetupModal) (p : AuthProviderItem) : SetupModal * call :=
  ({| setupConfig := setupConfig m; savingConfig := true; setupError := [] |},
   security_updateProvider (id p) true (setup_text m)).

(** The outcome: the tab is told on success, and the modal closes. *)
Definition setup_settled (s : SecurityTab) (m : SetupModal) (p : AuthProviderItem) (r : result ApiError val) :
    SecurityTab * option SetupModal :=
  match r with
  | Ok _ => (handleProviderSetupSuccess s (id p) (setup_text m), None)
  | Throw e => (s, Some {| setupConfig := setupConfig m; savingConfig := false;
                           setupError := str_or (err_message e) (js "Lưu cấu hình thất bại") |})
  end.

(** ** Changing the password *)

Record PasswordForm := {
  currentPassword : jsstring;
  newPassword : jsstring;
  confirmPassword : jsstring;
  passChangeSuccess : bool;
  passChangeError : jsstring;
  changingPass : bool
}.

Definition set_password_state (f : PasswordForm) (err : jsstring) (changing : bool) : PasswordForm :=
  {| currentPassword := currentPassword f; newPassword := newPassword f; confirmPassword := confirmPassword f;
     passChangeSuccess := passChangeSuccess f; passChangeError := err; changingPass := changing |}.

Definition handlePasswordSubmit (f : PasswordForm) : PasswordForm * option call :=
  if jeqb (currentPassword f) []
  then (set_password_state f (js "Vui lòng nhập mật khẩu hiện tại.") (changingPass f), None) else
  if Nat.ltb (length (newPassword f)) 8
  then (set_password_state f (js "Mật khẩu mới phải có ít nhất 8 ký tự.") (changingPass f), None) else
  if negb (jeqb (newPassword f) (confirmPassword f))
  then (set_password_state f (js "Mật khẩu xác nhận không khớp.") (changingPass f), None) else
  (set_password_state f [] true, Some (security_changePassword (currentPassword f) (newPassword f))).

(** The fields are cleared on success; the tab shows the new date (the
    second component tells it). *)
Definition password_settled (f : PasswordForm) (r : result ApiError val) : PasswordForm * bool :=
  match r with
  | Ok _ =>
      ({| currentPassword := []; newPassword := []; confirmPassword := []; passChangeSuccess := true;
          passChangeError := passChangeError f; changingPass := false |}, true)
  | Throw e =>
      (set_password_state f (str_or (err_message e) (js "Đổi mật khẩu thất bại. Vui lòng kiểm tra lại mật khẩu cũ.")) false, false)
  end.

(** ** Setting up the second factor *)

Inductive two_fa_step := Scan | Recovery.

Record TwoFactorSetup := {
  tf_loading : bool;
  twoFaStep : two_fa_step;
  twoFaCode : jsstring;
  secretKey : jsstring;
  qrDataUrl : jsstring;
  recoveryCodes : list jsstring;
  twoFaError : jsstring;
  verifying2FA : bool
}.

Definition initial_two_factor : TwoFactorSetup :=
  {| tf_loading := true; twoFaStep := Scan; twoFaCode := []; secretKey := []; qrDataUrl := [];
     recoveryCodes := []; twoFaError := []; verifying2FA := false |}.

(** The effect: [init2FA] answers with a secret and a URL, then the library
    draws the URL. [mounted1] and [mounted2] tell whether the modal is still
    there after each of the two waits. *)
Definition init_settled (s : TwoFactorSetup) (mounted1 mounted2 : bool)
    (r : result ApiError (jsstring * jsstring)) (qr : jsstring -> result jsstring jsstring) : TwoFactorSetup :=
  let fail m := {| tf_loading := false; twoFaStep := twoFaStep s; twoFaCode := twoFaCode s;
                   secretKey := match r with Ok (k, _) => k | Throw _ => secretKey s end; qrDataUrl := qrDataUrl s;
                   recoveryCodes := recoveryCodes s; twoFaError := str_or m (js "Không thể khởi tạo 2FA");
                   verifying2FA := verifying2FA s |} in
  if negb mounted1 then s else
  match r with
  | Throw e => fail (err_message e)
  | Ok (secret, url) =>
      if negb mounted2 then
        {| tf_loading := tf_loading s; twoFaStep := twoFaStep s; twoFaCode := twoFaCode s; secretKey := secret;
           qrDataUrl := qrDataUrl s; recoveryCodes := recoveryCodes s; twoFaError := twoFaError s;
           verifying2FA := verifying2FA s |}
      else match qr url with
           | Throw m => fail m
           | Ok image =>
               {| tf_loading := false; twoFaStep := twoFaStep s; twoFaCode := twoFaCode s; secretKey := secret;
                  qrDataUrl := image; recoveryCodes := recoveryCodes s; twoFaError := twoFaError s;
                  verifying2FA := verifying2FA s |}
           end
  end.

(** [setTwoFaCode(e.target.value.replace(/\D/g, ''))] *)
Definition type_code (s : TwoFactorSetup) (t : jsstring) : TwoFactorSetup :=
  {| tf_loading := tf_loading s; twoFaStep := twoFaStep s; twoFaCode := List.filter is_digit t; secretKey := secretKey s;
     qrDataUrl := qrDataUrl s; recoveryCodes := recoveryCodes s; twoFaError := twoFaError s; verifying2FA := verifying2FA s |}.

Definition set_verifying (s : TwoFactorSetup) (b : bool) (err : jsstring) : TwoFactorSetup :=
  {| tf_loading := tf_loading s; twoFaStep := twoFaStep s; twoFaCode := twoFaCode s; secretKey := secretKey s;
     qrDataUrl := qrDataUrl s; recoveryCodes := recoveryCodes s; twoFaError := err; verifying2FA := b |}.

Definition handleVerify2FA (s : TwoFactorSetup) : TwoFactorSetup * option call :=
  if negb (Nat.eqb (length (twoFaCode s)) 6) then (s, None)
  else (set_verifying s true [], Some (security_verify2FA (secretKey s) (twoFaCode s))).

(** [res.recovery_codes || []]; on success the tab marks 2FA as enabled. *)
Definition verify_settled (t : SecurityTab) (s : TwoFactorSetup) (r : result ApiError (option (list jsstring))) :
    SecurityTab * TwoFactorSetup :=
  match r with
  | Ok codes =>
      (set_2fa t true (disabling2FA t) (errorBanner t) (successBanner t),
       {| tf_loading := tf_loading s; twoFaStep := Recovery; twoFaCode := twoFaCode s; secretKey := secretKey s;
          qrDataUrl := qrDataUrl s; recoveryCodes := default [] codes; twoFaError := twoFaError s; verifying2FA := false |})
  | Throw e => (t, set_verifying s false (str_or (err_message e) (js "Mã xác thực không hợp lệ. Vui lòng thử lại")))
  end.

(** ** Lemmas *)

Definition active (l : list AuthProviderItem) : nat := length (List.filter enabled l).

Lemma switch_absent i b (l : list AuthProviderItem) : i ∉ map id l -> switch_rows i b l = l.
Proof.
  intros Hi. apply update_id_id, Forall_forall. intros p Hp <-. exfalso. apply Hi.
  apply list_elem_of_In, in_map_iff. exists p. split; [done|by apply list_elem_of_In].
Qed.

(** Switching one provider off removes at most one from the count. *)
Lemma active_switch_off i l : NoDup (map id l) -> active l <= S (active (switch_rows i false l)).
Proof.
  unfold active. induction l as [|p l IH]; intros Hn; [simpl; lia|]. apply NoDup_cons in Hn as [Hp Hn].
  rewrite switch_rows_cons. cbn [item_id provider_toggleable]. destruct (jeqb (id p) i) eqn:E.
  - apply jeqb_true in E. subst i. rewrite switch_absent by done. simpl. destruct (enabled p); simpl; lia.
  - specialize (IH Hn). simpl. destruct (enabled p); simpl; lia.
Qed.

Lemma active_switch_on i p l : p ∈ l -> id p = i -> 1 <= active (switch_rows i true l).
Proof.
  unfold active. intros Hp <-. induction l as [|q l IH]; [by apply elem_of_nil in Hp|].
  rewrite switch_rows_cons. cbn [item_id provider_toggleable]. apply elem_of_cons in Hp as [<-|Hp].
  - rewrite jeqb_refl. simpl. lia.
  - specialize (IH Hp). destruct (jeqb (id q) (id p)); simpl; [lia|destruct (enabled q); simpl; lia].
Qed.

(** A row has the state of the list it is taken from. *)
Lemma row_state (l : list AuthProviderItem) p :
  NoDup (map id l) -> p ∈ l -> Forall (fun q => id q = id p -> enabled q = enabled p) l.
Proof.
  intros Hn Hp. apply Forall_forall. intros q Hq Hid. f_equal.
  apply list_elem_of_lookup in Hp as [i Hi], Hq as [j Hj].
  assert (i = j) as ->; [|congruence].
  eapply (NoDup_lookup (map id l) i j (id p)); [done| |].
  - change (map id l) with (id <$> l). by rewrite list_lookup_fmap, Hi.
  - change (map id l) with (id <$> l). by rewrite list_lookup_fmap, Hj, <- Hid.
Qed.

Lemma switch_ids i b (l : list AuthProviderItem) : map id (switch_rows i b l) = map id l.
Proof. exact (update_id_ids i (with_enabled b) l (with_enabled_id b)). Qed.

Definition providers_ok (s : SecurityTab) : Prop := NoDup (map id (providers s)) /\ 1 <= activeProvidersCount s.

Lemma provider_round_ok s p r : p ∈ providers s -> providers_ok s -> providers_ok (provider_round s p r).
Proof.
  intros Hp [Hn Ha]. unfold provider_round, toggle_provider.
  destruct (negb (negb (enabled p)) && Nat.leb (activeProvidersCount s) 1) eqn:Eg; [done|].
  set (s1 := set_providers s _ _ _ _).
  assert (NoDup (map id (providers s1))) as Hn1 by (unfold s1; simpl; by rewrite switch_ids).
  destruct r as [v|e]; split; simpl; try (by rewrite ?switch_ids).
  - unfold activeProvidersCount. simpl. fold (active (switch_rows (id p) (negb (enabled p)) (providers s))).
    destruct (enabled p) eqn:Ep; simpl.
    + pose proof (active_switch_off (id p) (providers s) Hn) as Hs. simpl in Eg. apply Nat.leb_gt in Eg.
      unfold activeProvidersCount in Eg. fold (active (providers s)) in Eg. lia.
    + by eapply active_switch_on.
  - unfold activeProvidersCount. simpl.
    pose proof (switch_rows_back (id p) (negb (enabled p)) (providers s)) as Hb. rewrite negb_involutive in Hb.
    rewrite Hb; [done|]. by apply row_state.
Qed.

Lemma setup_success_ok s pid c : providers_ok s -> providers_ok (handleProviderSetupSuccess s pid c).
Proof.
  intros [Hn Ha]. unfold handleProviderSetupSuccess. split; simpl.
  - match goal with |- NoDup (map _ (update_id _ ?f _)) => rewrite (@update_id_ids _ provider_toggleable pid f (providers s) (fun r => eq_refl) : map id _ = _) end.
    done.
  - unfold activeProvidersCount in *. simpl. clear Hn. induction (providers s) as [|q l IH]; simpl in *; [done|].
    destruct (jeqb (id q) pid); simpl; [lia|]. destruct (enabled q); simpl in *; [lia|]. by apply IH.
Qed.

(** What the tab does to its providers, one request at a time. *)
Inductive tab_step : SecurityTab -> unit -> SecurityTab -> Prop :=
| StepToggle s p r : p ∈ providers s -> tab_step s tt (provider_round s p r)
| StepSetup s pid c : tab_step s tt (handleProviderSetupSuccess s pid c).

(** ** Theorems *)

(** C28: one authentication provider is always active: from a list with
    distinct ids and an active provider, after any sequence of toggles, each
    answered (with success or failure) before the next, and of saved
    configurations, the list has distinct ids and an active provider. *)
Theorem provider_always_active (s s' : SecurityTab) (es : list unit) :
  NoDup (map id (providers s)) -> 1 <= activeProvidersCount s ->
  star tab_step s es s' ->
  NoDup (map id (providers s')) /\ 1 <= activeProvidersCount s'.
Proof.
  intros Hn Ha. apply (star_invariant tab_step providers_ok); [|by split].
  intros a [] b Hi Hs. destruct Hs; [by apply provider_round_ok|by apply setup_success_ok].
Qed.

(** What the setup saves is what it shows when it is opened again. *)
Lemma open_saved (m : SetupModal) (p : AuthProviderItem) :
  json_ok (setupConfig m) -> config_json p = setup_text m -> setupConfig (open_setup p) = setupConfig m.
Proof.
  intros Hj Hc. unfold open_setup. cbn [setupConfig]. rewrite Hc. unfold setup_text.
  replace (str_or (ser [] [] (setupConfig m)) (js "{}")) with (ser [] [] (setupConfig m)).
  - rewrite parse_ser; [done|constructor|done].
  - destruct (ser_start [] [] (setupConfig m) Hj) as (c & t & -> & _). done.
Qed.

(** A provider's configuration survives saving: after a successful save
    the provider is enabled with the saved text, the other providers are as
    they were, and opening the setup again shows the configuration that was
    saved; a failure changes nothing in the tab and keeps the form. *)
Theorem provider_setup_roundtrip (s : SecurityTab) (m : SetupModal) (p q : AuthProviderItem) (v : val) (e : ApiError) :
  json_ok (setupConfig m) ->
  let s' := (setup_settled s m p (Ok v)).1 in
  (q ∈ providers s' ->
   if jeqb (id q) (id p) then enabled q = true /\ config_json q = setup_text m /\ setupConfig (open_setup q) = setupConfig m
   else q ∈ providers s) /\
  (setup_settled s m p (Throw e)).1 = s /\
  exists m', (setup_settled s m p (Throw e)).2 = Some m' /\ setupConfig m' = setupConfig m /\ setupError m' <> [].
Proof.
  intros Hj s'. split; [|split; [done|eexists; split; [done|split; [done|by apply str_or_ne]]]].
  intros Hq. apply list_elem_of_In, in_map_iff in Hq as (q0 & Hq & Hin). simpl in Hq.
  destruct (jeqb (id q0) (id p)) eqn:E; subst q; [|rewrite E; by apply list_elem_of_In].
  cbn [id set_config set_enabled]. rewrite E. split; [done|]. split; [done|].
  by apply open_saved.
Qed.

(** A password change is sent exactly when the current password is
    given, the new one has at least eight code units and is repeated
    exactly, and it carries those two passwords; success clears the three
    fields and tells the tab, failure shows a message and keeps them. *)
Theorem password_change_guarded (f : PasswordForm) (r : result ApiError val) :
  let '(f', c) := handlePasswordSubmit f in
  ((exists k, c = Some k) <->
   currentPassword f <> [] /\ 8 <= length (newPassword f) /\ newPassword f = confirmPassword f) /\
  match c with
  | Some k =>
      k = security_changePassword (currentPassword f) (newPassword f) /\ changingPass f' = true /\
      let '(f'', told) := password_settled f' r in
      changingPass f'' = false /\
      match r with
      | Ok _ => told = true /\ currentPassword f'' = [] /\ newPassword f'' = [] /\ confirmPassword f'' = []
      | Throw _ => told = false /\ passChangeError f'' <> [] /\ newPassword f'' = newPassword f
      end
  | None => passChangeError f' <> [] /\ newPassword f' = newPassword f
  end.
Proof.
  unfold handlePasswordSubmit. destruct (jeqb (currentPassword f) []) eqn:E1.
  { apply jeqb_true in E1. split; [|done]. split; [by intros [k Hk]|by intros (? & _)]. }
  apply jeqb_false in E1. destruct (Nat.ltb (length (newPassword f)) 8) eqn:E2.
  { apply Nat.ltb_lt in E2. split; [|done]. split; [by intros [k Hk]|intros (_ & ? & _); lia]. }
  apply Nat.ltb_ge in E2. destruct (jeqb (newPassword f) (confirmPassword f)) eqn:E3; cbn [negb].
  - apply jeqb_true in E3. split; [split; [done|eauto]|]. split; [done|]. split; [done|].
    destruct r as [v|e]; cbn [password_settled]; (split; [done|]); [done|].
    split; [done|]. split; [by apply str_or_ne|done].
  - apply jeqb_false in E3. split; [|done]. split; [by intros [k Hk]|by intros (_ & _ & ?)].
Qed.

(** A second factor is verified with six digits and only then reported:
    whatever was typed, the code holds digits only; a request is made
    exactly for six of them, with the secret shown; the tab marks 2FA as
    enabled exactly on success, and only then are recovery codes shown. *)
Theorem two_factor_setup_guarded (t : SecurityTab) (s : TwoFactorSetup) (typed : jsstring)
    (r : result ApiError (option (list jsstring))) :
  let s1 := type_code s typed in
  let '(s2, c) := handleVerify2FA s1 in
  Forall (fun d => is_digit d = true) (twoFaCode s1) /\
  c = (if Nat.eqb (length (List.filter is_digit typed)) 6
       then Some (security_verify2FA (secretKey s) (List.filter is_digit typed)) else None) /\
  let '(t', s3) := verify_settled t s2 r in
  match r with
  | Ok codes => enable2FA t' = true /\ twoFaStep s3 = Recovery /\ recoveryCodes s3 = default [] codes
  | Throw _ => t' = t /\ twoFaStep s3 = twoFaStep s /\ recoveryCodes s3 = recoveryCodes s /\ twoFaError s3 <> []
  end.
Proof.
  cbv zeta. unfold handleVerify2FA, type_code. cbn [twoFaCode secretKey].
  assert (Forall (fun d => is_digit d = true) (List.filter is_digit typed)) as Hd.
  { apply Forall_forall. intros c Hc%list_elem_of_In. by apply filter_In in Hc as [_ ?]. }
  destruct (Nat.eqb _ 6) eqn:E; cbn [negb]; (split; [done|]); (split; [done|]);
    (destruct r as [codes|e]; cbn [verify_settled]; [done|split_and!; try done; by apply str_or_ne]).
Qed.

(** ** Instances *)

Definition local_provider (on : bool) : AuthProviderItem :=
  {| id := js "local"; name := js "Local"; description := []; enabled := on; config_json := js "{}"; updated_at := [] |}.
Definition oidc_provider (on : bool) : AuthProviderItem :=
  {| id := js "oidc"; name := js "OIDC"; description := []; enabled := on; config_json := js "{}"; updated_at := [] |}.

Definition example_tab : SecurityTab :=
  {| loading := false; errorBanner := []; successBanner := []; providers := [local_provider true; oidc_provider false];
     savingProviderId := None; enable2FA := false; disabling2FA := false; passwordLastUpdated := []; adminUsername := js "admin" |}.

Lemma provider_always_active_witness :
  let s' := provider_round example_tab (local_provider true) (Ok VNull) in
  errorBanner s' = last_provider_message /\ 1 <= activeProvidersCount s'.
Proof.
  split; [reflexivity|].
  apply (provider_always_active example_tab (provider_round example_tab (local_provider true) (Ok VNull)) [tt]).
  - apply NoDup_cons. split; [by intros [?|?%elem_of_nil]%elem_of_cons|apply NoDup_singleton].
  - by apply Nat.leb_le.
  - eapply star_cons; [apply StepToggle; by constructor|apply star_nil].
Defined.

Lemma provider_setup_roundtrip_witness :
  let m := set_field (open_setup (oidc_provider false)) (js "client_id") (vstr "aurora") in
  (setup_settled example_tab m (oidc_provider false) (Throw (network_error []))).1 = example_tab.
Proof.
  apply (provider_setup_roundtrip example_tab
           (set_field (open_setup (oidc_provider false)) (js "client_id") (vstr "aurora"))
           (oidc_provider false) (oidc_provider true) VNull (network_error [])).
  json_ok_compute.
Defined.

(** Without waiting for the answers the guard is not enough: with one active
    provider, enable another, disable the first, and let the first request
    fail: no provider is left active. *)
Lemma overlapping_toggles_disable_all :
  let s1 := (toggle_provider example_tab (oidc_provider false)).1 in
  let s2 := (toggle_provider s1 (local_provider true)).1 in
  let s3 := provider_settled s2 (local_provider true) (Ok VNull) in
  let s4 := provider_settled s3 (oidc_provider false) (Throw (network_error [])) in
  (toggle_provider s1 (local_provider true)).2 <> None /\ activeProvidersCount s4 = 0.
Proof. split; [discriminate|reflexivity]. Qed.
