(* ===== verification/DialogInputs.v ===== *)
(** * The inputs of the dialogs

    The markup of [CertificateModal.tsx] ([pages/certificates/sections])
    and of [AuthProviderSetupModal.tsx] (the security tab): the nine inputs
    of a certificate, of which two appear with mutual TLS, and the inputs of
    the setup of an authentication provider, one group per provider. *)

From Stdlib Require Import ZArith NArith Lia String.
From S2P Require Import Prelude JsString JsValue Json JsonFacts Urls Fetcher Api FormInputs CertificatesPage SecuritySettings.
Import CertificatesApi.
Local Open Scope string_scope.
Local Open Scope list_scope.

(** ** The certificate *)

Module Certificate.

Inductive cert_entry :=
| InName (t : jsstring)
| InSnis (t : jsstring)
| InCert (t : jsstring)
| InKey (t : jsstring)
| InMtls (b : bool)
| InClientCa (t : jsstring)
| InDepth (t : jsstring)
| InDescription (t : jsstring)
| InEnabled (b : bool).

Inductive cert_field := FName | FSnis | FCert | FKey | FMtls | FClientCa | FDepth | FDescription | FEnabled.

#[global] Instance cert_field_eq_dec : EqDecision cert_field.
Proof. solve_decision. Defined.

Definition enter_form (f : CertificateFormState) (e : cert_entry) : CertificateFormState :=
  {| f_name := match e with InName t => t | _ => f_name f end;
     snisInput := match e with InSnis t => t | _ => snisInput f end;
     f_cert_pem := match e with InCert t => t | _ => f_cert_pem f end;
     f_key_pem := match e with InKey t => t | _ => f_key_pem f end;
     f_mtls_enabled := match e with InMtls b => b | _ => f_mtls_enabled f end;
     f_client_ca_pem := match e with InClientCa t => t | _ => f_client_ca_pem f end;
     f_verify_depth := match e with InDepth t => num_of_Z (parse_or 1 t) | _ => f_verify_depth f end;
     f_enabled := match e with InEnabled b => b | _ => f_enabled f end;
     f_description := match e with InDescription t => t | _ => f_description f end |}.

Definition cert_enter (m : CertificateModal) (e : cert_entry) : CertificateModal :=
  {| formData := enter_form (formData m) e; submitting := submitting m; m_error := m_error m |}.

(** The client CA and the depth are shown with mutual TLS. *)
Definition cert_offered (m : CertificateModal) (e : cert_entry) : bool :=
  match e with InClientCa _ | InDepth _ => f_mtls_enabled (formData m) | _ => true end.

Definition cert_target (e : cert_entry) : cert_field :=
  match e with
  | InName _ => FName | InSnis _ => FSnis | InCert _ => FCert | InKey _ => FKey | InMtls _ => FMtls
  | InClientCa _ => FClientCa | InDepth _ => FDepth | InDescription _ => FDescription | InEnabled _ => FEnabled
  end.

Definition cert_value (m : CertificateModal) (f : cert_field) : val :=
  let d := formData m in
  match f with
  | FName => VStr (f_name d) | FSnis => VStr (snisInput d) | FCert => VStr (f_cert_pem d) | FKey => VStr (f_key_pem d)
  | FMtls => VBool (f_mtls_enabled d) | FClientCa => VStr (f_client_ca_pem d) | FDepth => VNum (f_verify_depth d)
  | FDescription => VStr (f_description d) | FEnabled => VBool (f_enabled d)
  end.

Definition cert_kept (m : CertificateModal) (e : cert_entry) : val :=
  match e with
  | InName t | InSnis t | InCert t | InKey t | InClientCa t | InDescription t => VStr t
  | InMtls b | InEnabled b => VBool b
  | InDepth t => VInt (parse_or 1 t)
  end.

Definition cert_inputs : FormInputs CertificateModal cert_entry cert_field.
Proof.
  refine {| enter := cert_enter; FormInputs.target := cert_target; also := fun _ => []; field_value := cert_value;
            kept_value := cert_kept; offered := cert_offered |}.
  - intros m e. by destruct e.
  - intros m e f Hf _. by destruct f, e.
Defined.

Section Submit.
Context `{CaseMapping}.

(** The certificate and key typed last, whatever was entered before and in
    other inputs after, are the pair that is sent, without the white space
    around them, once the form is complete. *)
Theorem typed_pair_is_sent (m : CertificateModal) (before between after : list cert_entry) (cert key : jsstring)
    (p : CertificatePayload) :
  Forall (@spares _ _ _ cert_inputs FCert) (between ++ InKey key :: after) ->
  Forall (@spares _ _ _ cert_inputs FKey) after ->
  cert_payload (formData (@enter_all _ _ _ cert_inputs m (before ++ InCert cert :: between ++ InKey key :: after))) = Ok p ->
  p_cert_pem p = trim cert /\ p_key_pem p = trim key /\
  has_pem_header (trim cert) = true /\ includes (js "KEY") (trim key) = true.
Proof.
  intros H1 H2 Hp.
  pose proof (@last_entry_shown _ _ _ cert_inputs m before _ (InCert cert) H1) as Hc.
  pose proof (@last_entry_shown _ _ _ cert_inputs m (before ++ InCert cert :: between) _ (InKey key) H2) as Hk.
  rewrite <- app_assoc in Hk. cbn [FormInputs.target field_value kept_value cert_inputs cert_target cert_kept cert_value app] in Hc, Hk.
  injection Hc as Hc. injection Hk as Hk. revert Hp. unfold cert_payload. rewrite Hc, Hk.
  destruct (jeqb _ []); [done|]. destruct (Nat.eqb _ 0); [done|].
  destruct (has_pem_header (trim cert)) eqn:Eh; [|done]. cbn [negb].
  destruct (includes (js "BEGIN") (trim key)), (includes (js "KEY") (trim key)); try done. cbn [negb orb].
  destruct (_ && _); [done|]. by intros [= <-].
Qed.

(** Switching mutual TLS off hides the client CA and does not withdraw it:
    it is still sent. *)
Lemma hidden_ca_is_sent (m : CertificateModal) (ca : jsstring) (p : CertificatePayload) :
  cert_payload (formData (cert_enter (cert_enter m (InClientCa ca)) (InMtls false))) = Ok p ->
  p_mtls_enabled p = Some false /\ p_client_ca_pem p = Some (trim ca).
Proof.
  unfold cert_payload. cbn [formData cert_enter enter_form f_mtls_enabled f_client_ca_pem andb].
  destruct (jeqb _ []); [done|]. destruct (Nat.eqb _ 0); [done|]. destruct (negb _); [done|].
  destruct (_ || _); [done|]. by intros [= <-].
Qed.
End Submit.
End Certificate.

(** ** The setup of a provider *)

Module Provider.

Inductive setup_field :=
| PasswordMinLength | RequireUppercase | RequireNumber
| IssuerUrl | ClientId | ClientSecret
| Server | Port | UseSsl | BaseDn | BindDn | BindPassword
| IdpMetadataUrl | EntityId | SsoUrl.

#[global] Instance setup_field_eq_dec : EqDecision setup_field.
Proof. solve_decision. Defined.

Definition setup_key (f : setup_field) : jsstring :=
  match f with
  | PasswordMinLength => js "password_min_length" | RequireUppercase => js "require_uppercase"
  | RequireNumber => js "require_number" | IssuerUrl => js "issuer_url" | ClientId => js "client_id"
  | ClientSecret => js "client_secret" | Server => js "server" | Port => js "port" | UseSsl => js "use_ssl"
  | BaseDn => js "base_dn" | BindDn => js "bind_dn" | BindPassword => js "bind_password"
  | IdpMetadataUrl => js "idp_metadata_url" | EntityId => js "entity_id" | SsoUrl => js "sso_url"
  end.

(** The group of inputs that holds the field: [provider.id === ...]. *)
Definition setup_group (f : setup_field) : jsstring :=
  match f with
  | PasswordMinLength | RequireUppercase | RequireNumber => js "local"
  | IssuerUrl | ClientId | ClientSecret => js "oidc"
  | Server | Port | UseSsl | BaseDn | BindDn | BindPassword => js "ldap"
  | IdpMetadataUrl | EntityId | SsoUrl => js "saml"
  end.

(** A text, a number that falls back to a default, a check box. *)
Inductive widget := TextWidget | NumberWidget (d : Z) | TickWidget.

Definition setup_widget (f : setup_field) : widget :=
  match f with
  | PasswordMinLength => NumberWidget 8 | Port => NumberWidget 636
  | RequireUppercase | RequireNumber | UseSsl => TickWidget
  | _ => TextWidget
  end.

(** [setupConfig.k || ''], [setupConfig.k || d], [setupConfig.k ?? true].
    A configuration that is [null] cannot be drawn. *)
Definition setup_shown (m : SetupModal) (f : setup_field) : val :=
  let v := prop (setup_key f) (spread (setupConfig m)) in
  match setup_widget f with
  | TextWidget => val_or v (VStr [])
  | NumberWidget d => val_or v (VInt d)
  | TickWidget => val_nullish v (VBool true)
  end.

(** The read-only callback address of the OIDC group, which [copyCallbackUrl]
    copies. *)
Definition callback_url (m : SetupModal) : val :=
  val_or (prop (js "redirect_url") (spread (setupConfig m))) (vstr "https://waf.local/api/v1/auth/callback/oidc").

Inductive setup_entry := Typed (f : setup_field) (t : jsstring) | Ticked (f : setup_field) (b : bool).

(** What the handler writes, when the event is one of the widget. *)
Definition setup_written (e : setup_entry) : option (setup_field * val) :=
  match e with
  | Typed f t =>
      match setup_widget f with
      | TextWidget => Some (f, VStr t)
      | NumberWidget d => Some (f, VInt (parse_or d t))
      | TickWidget => None
      end
  | Ticked f b => match setup_widget f with TickWidget => Some (f, VBool b) | _ => None end
  end.

Definition setup_enter (m : SetupModal) (e : setup_entry) : SetupModal :=
  match setup_written e with Some (f, v) => set_field m (setup_key f) v | None => m end.

Definition setup_target (e : setup_entry) : setup_field := match e with Typed f _ | Ticked f _ => f end.

Section Group.
Context (provider : jsstring).

Definition setup_offered (m : SetupModal) (e : setup_entry) : bool :=
  jeqb provider (setup_group (setup_target e)) && match setup_written e with Some _ => true | None => false end.

Lemma setup_key_inj f g : setup_key f = setup_key g -> f = g.
Proof. destruct f, g; first [reflexivity | intros E; exfalso; vm_compute in E; discriminate E]. Qed.

Lemma shown_written m e f v : setup_written e = Some (f, v) -> f = setup_target e /\ setup_shown (setup_enter m e) f = v.
Proof.
  intros Hw. assert (f = setup_target e) as Hf.
  { destruct e as [g t|g b]; cbn [setup_written setup_target] in *; destruct (setup_widget g); by inversion Hw. }
  split; [done|]. unfold setup_enter. rewrite Hw. unfold setup_shown, set_field. cbn [setupConfig spread].
  rewrite prop_put_eq. destruct e as [g t|g b]; cbn [setup_written setup_target] in *; subst g;
    destruct (setup_widget f) as [|d|] eqn:Ew; try done; injection Hw as <-.
  - unfold val_or. by destruct t.
  - assert (d <> 0)%Z as Hd by (destruct f; cbn in Ew; congruence).
    unfold val_or, VInt. cbn [truthy]. pose proof (parse_or_nonzero d t Hd) as Hn.
    by rewrite (num_of_Z_truthy _ Hn).
  - done.
Qed.

Definition setup_inputs : FormInputs SetupModal setup_entry setup_field.
Proof.
  refine {| enter := setup_enter; FormInputs.target := setup_target; also := fun _ => []; field_value := setup_shown;
            kept_value := fun m e => match setup_written e with Some (_, v) => v | None => setup_shown m (setup_target e) end;
            offered := setup_offered |}.
  - intros m e. destruct (setup_written e) as [[f v]|] eqn:Ew; [|unfold setup_enter; by rewrite Ew].
    by destruct (shown_written m e f v Ew) as [<- ->].
  - intros m e f Hf _. unfold setup_enter. destruct (setup_written e) as [[g v]|] eqn:Ew; [|done].
    destruct (shown_written m e g v Ew) as [-> _]. unfold setup_shown, set_field. cbn [setupConfig spread].
    rewrite prop_put_ne; [done|]. intros E%setup_key_inj. congruence.
Defined.
End Group.

(** The texts of the entries. *)
Definition entry_text_ok (e : setup_entry) : Prop := match e with Typed _ t => units_ok t | Ticked _ _ => True end.

Definition is_object (m : SetupModal) : Prop := exists o, setupConfig m = VObj o.

Lemma setup_enter_ok m e : entry_text_ok e -> json_ok (setupConfig m) -> is_object m ->
  json_ok (setupConfig (setup_enter m e)) /\ is_object (setup_enter m e).
Proof.
  intros He Hj [o Ho]. unfold setup_enter. destruct (setup_written e) as [[f v]|] eqn:Ew; [|split; [done|by exists o]].
  cbn [set_field setupConfig]. rewrite Ho in *. split; [|by eexists]. cbn [spread]. apply obj_put_json_ok; [| |done].
  - destruct f; by apply units_okb_sound.
  - destruct e as [g t|g b]; cbn [setup_written] in Ew; destruct (setup_widget g); inversion Ew; subst;
      first [exact He | apply num_of_Z_canonical | done].
Qed.

Lemma setup_run_ok p m es : Forall entry_text_ok es -> json_ok (setupConfig m) -> is_object m ->
  json_ok (setupConfig (@enter_all _ _ _ (setup_inputs p) m es)).
Proof.
  intros Hes. revert m. induction Hes as [|e es He _ IH]; intros m Hj Ho; [done|].
  destruct (setup_enter_ok m e He Hj Ho). by apply IH.
Qed.

(** The setup of a provider is kept. Whatever is entered in the inputs
    of a provider whose stored configuration is an object, every input shows
    after saving and opening again what it showed before, the defaults of
    the untouched ones included, and the callback address is the same. *)
Theorem provider_inputs_reopen (s : SecurityTab) (p q : AuthProviderItem) (es : list setup_entry) (v : val) :
  units_ok (config_json p) -> is_object (open_setup p) -> Forall entry_text_ok es ->
  let m := @enter_all _ _ _ (setup_inputs (SecuritySettings.id p)) (open_setup p) es in
  q ∈ providers (setup_settled s m p (Ok v)).1 -> SecuritySettings.id q = SecuritySettings.id p ->
  SecuritySettings.enabled q = true /\ (forall f, setup_shown (open_setup q) f = setup_shown m f) /\
  callback_url (open_setup q) = callback_url m.
Proof.
  intros Hu Ho Hes m Hq Hid.
  assert (json_ok (setupConfig m)) as Hj.
  { apply setup_run_ok; [done| |done]. unfold open_setup. cbn [setupConfig].
    destruct (parse _) as [w|] eqn:E; cbn [default]; [|json_ok_compute].
    eapply parse_ok, E. destruct (config_json p); [by apply units_okb_sound|done]. }
  cbn [setup_settled handleProviderSetupSuccess fst providers] in Hq.
  apply list_elem_of_In, in_map_iff in Hq as (q0 & Hq & Hin). simpl in Hq.
  destruct (jeqb (SecuritySettings.id q0) (SecuritySettings.id p)) eqn:E; subst q; [|apply jeqb_false in E; congruence].
  split; [done|]. unfold setup_shown, callback_url. by rewrite (open_saved m) by done.
Qed.

(** The defaults are only shown: what was not touched is not sent. *)
Lemma shown_defaults_not_saved (p : AuthProviderItem) : config_json p = [] ->
  setup_shown (open_setup p) PasswordMinLength = VInt 8 /\ setup_shown (open_setup p) RequireUppercase = VBool true /\
  setup_text (open_setup p) = js "{}".
Proof. intros E. unfold open_setup, setup_shown, setup_text. rewrite E. split_and!; reflexivity. Qed.

Lemma provider_inputs_reopen_witness :
  let p := oidc_provider false in
  let m := @enter_all _ _ _ (setup_inputs (js "oidc")) (open_setup p) [Typed ClientId (js "aurora")] in
  setup_shown m ClientId = vstr "aurora" /\
  exists q, q ∈ providers (setup_settled example_tab m p (Ok VNull)).1 /\ setup_shown (open_setup q) ClientId = vstr "aurora".
Proof.
  split; [reflexivity|].
  eexists. split; [by apply list_elem_of_further, list_elem_of_here|].
  refine (proj1 (proj2 (provider_inputs_reopen example_tab (oidc_provider false) _ [Typed ClientId (js "aurora")] VNull _ _ _ _ _)) ClientId).
  - by apply units_okb_sound.
  - eexists. vm_compute. reflexivity.
  - apply Forall_singleton. by apply units_okb_sound.
  - by apply list_elem_of_further, list_elem_of_here.
  - reflexivity.
Defined.
End Provider.
