(* ===== verification/Notifications.v ===== *)
(** * Notification settings

    [pages/settings/tabs/notifications/NotificationsTab.tsx] and its
    [sections/AlertmanagerIntegrationSection.tsx], with the types of
    [lib/api/alerts.ts]: the overview of Prometheus and Alertmanager with
    its three requests that fail independently, the connection settings, and
    the silences that are created and expired from the console. The clock is
    an argument of [handleCreateSilence]; what a handler does besides
    changing its state is returned as [effect]s. *)

From Stdlib Require Import ZArith NArith Lia String.
From S2P Require Import Prelude JsString JsValue Json Urls Fetcher Dates Api.
Import OtherApis.
Local Open Scope string_scope.
Local Open Scope list_scope.

(** ** The types of [alerts.ts] *)

(** [Record<string, string>] as its entries. *)
Abbreviation labels_of := (list (jsstring * jsstring)).

Record AlertmanagerOverview := {
  prometheus_connected : bool;
  prometheus_latency_ms : num;
  alertmanager_connected : bool;
  alertmanager_latency_ms : num;
  active_alerts_count : num;
  active_silences_count : num;
  total_rules_count : num;
  prometheus_url : jsstring;
  alertmanager_url : jsstring
}.

Record PrometheusActiveAlert := {
  pa_labels : labels_of;
  pa_annotations : labels_of;
  pa_state : jsstring;
  active_at : jsstring;
  pa_value : jsstring
}.

Record PrometheusRuleItem := {
  rule_name : jsstring;
  group : jsstring;
  query : jsstring;
  duration : jsstring;
  severity : jsstring;
  state : jsstring;
  health : jsstring;
  last_error : option jsstring;
  labels : labels_of;
  annotations : labels_of;
  active_alerts : option (list PrometheusActiveAlert)
}.

Record AlertmanagerSilenceItem := {
  sil_id : jsstring;
  status : jsstring;
  starts_at : jsstring;
  ends_at : jsstring;
  created_by : jsstring;
  comment : jsstring;
  matchers : list AlertmanagerMatcher
}.

Record AlertmanagerSettings := {
  cfg_enabled : bool;
  cfg_alertmanager_url : jsstring;
  cfg_prometheus_url : jsstring;
  cfg_updated_at : option jsstring
}.

(** ** The tab *)

Record NotificationsTab := {
  loading : bool;
  errorBanner : jsstring;
  successBanner : jsstring;
  amOverview : option AlertmanagerOverview;
  amRules : list PrometheusRuleItem;
  amSilences : list AlertmanagerSilenceItem;
  amLoading : bool
}.

Definition initial_tab : NotificationsTab :=
  {| loading := true; errorBanner := []; successBanner := []; amOverview := None; amRules := [];
     amSilences := []; amLoading := false |}.

(** A list answer: [null], or an object whose member may be missing. *)
Inductive list_answer (A : Type) := NullAnswer | ListAnswer (l : option (list A)).
Arguments NullAnswer {A}.
Arguments ListAnswer {A} l.

Definition loadAlertmanagerData_calls : list call := [alerts_getOverview; alerts_getLiveRules; alerts_getSilences].

Definition loadAlertmanagerData_start (s : NotificationsTab) : NotificationsTab :=
  {| loading := loading s; errorBanner := errorBanner s; successBanner := successBanner s;
     amOverview := amOverview s; amRules := amRules s; amSilences := amSilences s; amLoading := true |}.

Definition set_data (s : NotificationsTab) (ov : option AlertmanagerOverview) (rules : list PrometheusRuleItem)
    (silences : list AlertmanagerSilenceItem) (err : jsstring) : NotificationsTab :=
  {| loading := false; errorBanner := err; successBanner := successBanner s; amOverview := ov;
     amRules := rules; amSilences := silences; amLoading := false |}.

Definition load_fallback : jsstring := js "Không thể tải dữ liệu từ Alertmanager & Prometheus".

(** After [Promise.all]: each request has its own fallback. Reading a member
    of [null] throws a [TypeError], whose text the engine chooses, after the
    state before it was set. *)
Definition loadAlertmanagerData_finish (type_error : jsstring) (s : NotificationsTab)
    (ov : result ApiError (option AlertmanagerOverview))
    (rules : result ApiError (list_answer PrometheusRuleItem))
    (silences : result ApiError (list_answer AlertmanagerSilenceItem)) : NotificationsTab :=
  let ov := catch ov None in
  match catch rules (ListAnswer (Some [])) with
  | NullAnswer => set_data s ov (amRules s) (amSilences s) (str_or type_error load_fallback)
  | ListAnswer rules =>
      match catch silences (ListAnswer (Some [])) with
      | NullAnswer => set_data s ov (default [] rules) (amSilences s) (str_or type_error load_fallback)
      | ListAnswer silences => set_data s ov (default [] rules) (default [] silences) []
      end
  end.

(** [onConfigUpdated]: the banner, then a reload. *)
Definition onConfigUpdated (s : NotificationsTab) : NotificationsTab :=
  loadAlertmanagerData_start
    {| loading := loading s; errorBanner := errorBanner s;
       successBanner := js "Đã cập nhật cấu hình kết nối Alertmanager";
       amOverview := amOverview s; amRules := amRules s; amSilences := amSilences s; amLoading := amLoading s |}.

(** ** The section *)

Record Section_ := {
  configModalOpen : bool;
  configForm : AlertmanagerSettings;
  savingConfig : bool;
  silenceModalOpen : bool;
  targetAlertName : jsstring;
  silenceDurationHours : Z;
  silenceComment : jsstring;
  creatingSilence : bool;
  expiringId : option jsstring
}.

Inductive effect := Send (c : call) | Alert (m : jsstring) | OnRefresh | OnConfigUpdated.

Definition set_config (s : Section_) (isOpen : bool) (f : AlertmanagerSettings) (saving : bool) : Section_ :=
  {| configModalOpen := isOpen; configForm := f; savingConfig := saving; silenceModalOpen := silenceModalOpen s;
     targetAlertName := targetAlertName s; silenceDurationHours := silenceDurationHours s;
     silenceComment := silenceComment s; creatingSilence := creatingSilence s; expiringId := expiringId s |}.
Definition set_silence (s : Section_) (isOpen : bool) (alert : jsstring) (hours : Z) (text : jsstring)
    (creating : bool) : Section_ :=
  {| configModalOpen := configModalOpen s; configForm := configForm s; savingConfig := savingConfig s;
     silenceModalOpen := isOpen; targetAlertName := alert; silenceDurationHours := hours;
     silenceComment := text; creatingSilence := creating; expiringId := expiringId s |}.
Definition set_expiring (s : Section_) (i : option jsstring) : Section_ :=
  {| configModalOpen := configModalOpen s; configForm := configForm s; savingConfig := savingConfig s;
     silenceModalOpen := silenceModalOpen s; targetAlertName := targetAlertName s;
     silenceDurationHours := silenceDurationHours s; silenceComment := silenceComment s;
     creatingSilence := creatingSilence s; expiringId := i |}.

Definition settings_of (enabled : bool) (overview : option AlertmanagerOverview) : AlertmanagerSettings :=
  let url f := match overview with Some o => f o | None => [] end in
  {| cfg_enabled := enabled;
     cfg_alertmanager_url := str_or (url alertmanager_url) (js "http://127.0.0.1:9093");
     cfg_prometheus_url := str_or (url prometheus_url) (js "http://127.0.0.1:9090");
     cfg_updated_at := None |}.

(** The initial values of its [useState]s. *)
Definition mount (overview : option AlertmanagerOverview) : Section_ :=
  {| configModalOpen := false; configForm := settings_of true overview; savingConfig := false;
     silenceModalOpen := false; targetAlertName := []; silenceDurationHours := 2;
     silenceComment := js "Bảo trì định kỳ"; creatingSilence := false; expiringId := None |}.

(** *** Connection settings *)

(** The button "Connection Settings". *)
Definition open_config (s : Section_) (overview : option AlertmanagerOverview) : Section_ :=
  set_config s true
    (settings_of (match overview with Some o => alertmanager_connected o | None => true end) overview) (savingConfig s).
Definition close_config (s : Section_) : Section_ := set_config s false (configForm s) (savingConfig s).

Definition edit_prometheus_url (s : Section_) (u : jsstring) : Section_ :=
  let f := configForm s in
  set_config s (configModalOpen s)
    {| cfg_enabled := cfg_enabled f; cfg_alertmanager_url := cfg_alertmanager_url f; cfg_prometheus_url := u;
       cfg_updated_at := cfg_updated_at f |} (savingConfig s).
Definition edit_alertmanager_url (s : Section_) (u : jsstring) : Section_ :=
  let f := configForm s in
  set_config s (configModalOpen s)
    {| cfg_enabled := cfg_enabled f; cfg_alertmanager_url := u; cfg_prometheus_url := cfg_prometheus_url f;
       cfg_updated_at := cfg_updated_at f |} (savingConfig s).

Definition handleSaveConfig (s : Section_) : Section_ * list effect :=
  let f := configForm s in
  (set_config s (configModalOpen s) f true,
   [Send (alerts_updateConfig (cfg_enabled f) (cfg_alertmanager_url f) (cfg_prometheus_url f))]).
Definition config_settled (s : Section_) (r : result ApiError val) : Section_ * list effect :=
  match r with
  | Ok _ => (set_config s false (configForm s) false, [OnConfigUpdated])
  | Throw e => (set_config s (configModalOpen s) (configForm s) false,
                [Alert (js "Cập nhật cấu hình thất bại: " ++ err_message e)])
  end.

(** *** Silences *)

Definition openSilenceModal (s : Section_) (alertName : jsstring) : Section_ :=
  set_silence s true alertName (silenceDurationHours s) (js "Tắt chuông tạm thời cho " ++ alertName) (creatingSilence s).
Definition close_silence (s : Section_) : Section_ :=
  set_silence s false (targetAlertName s) (silenceDurationHours s) (silenceComment s) (creatingSilence s).

(** The options of the [select]. *)
Definition duration_options : list Z := [1; 2; 4; 8; 24]%Z.
Definition choose_duration (s : Section_) (hours : Z) : Section_ :=
  set_silence s (silenceModalOpen s) (targetAlertName s) hours (silenceComment s) (creatingSilence s).
Definition edit_comment (s : Section_) (text : jsstring) : Section_ :=
  set_silence s (silenceModalOpen s) (targetAlertName s) (silenceDurationHours s) text (creatingSilence s).

Definition set_creating (s : Section_) (isOpen creating : bool) : Section_ :=
  set_silence s isOpen (targetAlertName s) (silenceDurationHours s) (silenceComment s) creating.

Definition silence_payload (s : Section_) (endsAt : jsstring) : CreateSilencePayload :=
  {| s_starts_at := None; s_ends_at := endsAt; s_created_by := Some (js "aurora-admin");
     s_comment := silenceComment s;
     s_matchers := [{| m_name := js "alertname"; m_value := targetAlertName s; m_isRegex := false; m_isEqual := true |}] |}.

(** [now] is [Date.now()]; a [RangeError] of [toISOString] is caught. *)
Definition handleCreateSilence (range_error : jsstring) (now : Z) (s : Section_) : Section_ * list effect :=
  match toISOString (now + silenceDurationHours s * 3600 * 1000) with
  | Some endsAt =>
      (set_creating s (silenceModalOpen s) true, [Send (alerts_createSilence (silence_payload s endsAt))])
  | None =>
      (set_creating s (silenceModalOpen s) false, [Alert (js "Tạo silence thất bại: " ++ range_error)])
  end.
Definition silence_settled (s : Section_) (r : result ApiError val) : Section_ * list effect :=
  match r with
  | Ok _ => (set_creating s false false, [OnRefresh])
  | Throw e => (set_creating s (silenceModalOpen s) false, [Alert (js "Tạo silence thất bại: " ++ err_message e)])
  end.

(** [encodeURIComponent] throws on an id with a lone surrogate. *)
Definition handleExpireSilence (uri_error : jsstring) (s : Section_) (i : jsstring) : Section_ * list effect :=
  match alerts_expireSilence i with
  | Some c => (set_expiring s (Some i), [Send c])
  | None => (set_expiring s None, [Alert (js "Xóa silence thất bại: " ++ uri_error)])
  end.
Definition expire_settled (s : Section_) (r : result ApiError val) : Section_ * list effect :=
  (set_expiring s None,
   match r with
   | Ok _ => [OnRefresh]
   | Throw e => [Alert (js "Xóa silence thất bại: " ++ err_message e)]
   end).

(** *** What is shown *)

Definition firingAlertsCount (rules : list PrometheusRuleItem) : nat :=
  length (List.filter (fun r => jeqb (state r) (js "firing")) rules).
Definition activeSilencesCount (silences : list AlertmanagerSilenceItem) : nat :=
  length (List.filter (fun x => jeqb (status x) (js "active")) silences).

(** [annotations.summary || annotations.description || query] *)
Definition rule_summary (r : PrometheusRuleItem) : jsstring :=
  let at_ k := default [] (obj_get (js k) (annotations r)) in
  str_or (at_ "summary") (str_or (at_ "description") (query r)).

Definition matchers_text (x : AlertmanagerSilenceItem) : jsstring :=
  join (js ", ") (map (fun m => m_name m ++ js "=" ++ m_value m) (matchers x)).

(** ** Lemmas *)

(** What the user can do to the section; [select] offers only its options.
    A step is labelled with the alert the silence form is opened for. *)
Inductive section_step : Section_ -> option jsstring -> Section_ -> Prop :=
| StepOpen s a : section_step s (Some a) (openSilenceModal s a)
| StepClose s : section_step s None (close_silence s)
| StepDuration s h : h ∈ duration_options -> section_step s None (choose_duration s h)
| StepComment s t : section_step s None (edit_comment s t)
| StepCreate err now s : creatingSilence s = false -> section_step s None (handleCreateSilence err now s).1
| StepCreated s r : section_step s None (silence_settled s r).1
| StepExpire err s i : section_step s None (handleExpireSilence err s i).1
| StepExpired s r : section_step s None (expire_settled s r).1
| StepConfig s ov : section_step s None (open_config s ov)
| StepCloseConfig s : section_step s None (close_config s)
| StepPrometheus s u : section_step s None (edit_prometheus_url s u)
| StepAlertmanager s u : section_step s None (edit_alertmanager_url s u)
| StepSave s : section_step s None (handleSaveConfig s).1
| StepSaved s r : section_step s None (config_settled s r).1.

(** The form keeps an offered duration and the alert it was opened for. *)
Definition silence_form_inv (h : list (option jsstring)) (s : Section_) : Prop :=
  silenceDurationHours s ∈ duration_options /\ targetAlertName s = default [] (last (omap id h)).

Lemma section_step_form s e s' :
  section_step s e s' ->
  (silenceDurationHours s ∈ duration_options -> silenceDurationHours s' ∈ duration_options) /\
  targetAlertName s' = match e with Some a => a | None => targetAlertName s end.
Proof.
  destruct 1 as [| | | |err now s _|s r|err s i|s r| | | | | |s r]; try done.
  - unfold handleCreateSilence. by destruct (toISOString _).
  - by destruct r.
  - unfold handleExpireSilence. by destruct (alerts_expireSilence i).
  - by destruct r.
Qed.

Lemma section_step_inv h s e s' : silence_form_inv h s -> section_step s e s' -> silence_form_inv (h ++ [e]) s'.
Proof.
  intros [Hd Ht] [Hd' Ht']%section_step_form. split; [auto|]. rewrite Ht', omap_app.
  destruct e as [a|]; simpl; [by rewrite last_snoc|by rewrite app_nil_r].
Qed.

Lemma section_reachable ov es s : star section_step (mount ov) es s -> silence_form_inv es s.
Proof. apply star_history; [apply section_step_inv|]. split; [right; left|done]. Qed.

Lemma duration_bounds h : h ∈ duration_options -> (1 <= h <= 24)%Z.
Proof. unfold duration_options. set_solver by lia. Qed.

(** ** Theorems *)

(** C31: a silence mutes the alert it was opened for, for the time chosen.
    Whatever was done in the section, submitting the form at time [now]
    sends one request, whose payload has as its single matcher the equality
    with the name of the alert the form was last opened for, no start time,
    the reason typed, and an end time that reads back as [now] plus the
    chosen duration, between one hour and one day later. *)
Theorem silence_window (ov : option AlertmanagerOverview) (es : list (option jsstring)) (s : Section_)
    (alert err : jsstring) (now : Z) :
  star section_step (mount ov) es s -> last (omap id es) = Some alert ->
  (0 <= now <= max_time - 86400000)%Z ->
  exists p t,
    (handleCreateSilence err now s).2 = [Send (alerts_createSilence p)] /\
    s_matchers p = [{| m_name := js "alertname"; m_value := alert; m_isRegex := false; m_isEqual := true |}] /\
    s_starts_at p = None /\ s_comment p = silenceComment s /\
    parse_iso (s_ends_at p) = Some t /\ (t = now + silenceDurationHours s * 3600000)%Z /\
    (now + 3600000 <= t <= now + 86400000)%Z.
Proof.
  intros [Hd Ht]%section_reachable Hl Hnow. apply duration_bounds in Hd. rewrite Hl in Ht.
  destruct (toISOString_defined (now + silenceDurationHours s * 3600 * 1000)) as [endsAt Hiso];
    [unfold max_time in *; lia|].
  exists (silence_payload s endsAt), (now + silenceDurationHours s * 3600 * 1000)%Z. unfold handleCreateSilence. rewrite Hiso.
  split; [done|]. split; [unfold silence_payload; cbn [s_matchers]; by rewrite Ht|]. split; [done|]. split; [done|].
  split; [by apply parse_toISOString|]. lia.
Qed.

(** The overview degrades by parts: when the three requests have settled,
    the tab no longer loads, an answer that came is shown whatever the
    others did, a request that failed leaves its part empty, and no error
    is shown, however many of them fail. *)
Theorem overview_degrades (terr : jsstring) (s : NotificationsTab)
    (ov : result ApiError (option AlertmanagerOverview)) (rules : result ApiError (option (list PrometheusRuleItem)))
    (silences : result ApiError (option (list AlertmanagerSilenceItem))) :
  let answer {A} (r : result ApiError (option (list A))) :=
    match r with Ok l => Ok (ListAnswer l) | Throw e => Throw e end in
  let s' := loadAlertmanagerData_finish terr (loadAlertmanagerData_start s) ov (answer rules) (answer silences) in
  loading s' = false /\ amLoading s' = false /\ errorBanner s' = [] /\
  amOverview s' = match ov with Ok o => o | Throw _ => None end /\
  amRules s' = match rules with Ok l => default [] l | Throw _ => [] end /\
  amSilences s' = match silences with Ok l => default [] l | Throw _ => [] end.
Proof. cbv zeta. destruct ov, rules, silences; split_and!; reflexivity. Qed.

(** A busy section becomes idle with the answer: whatever the request was
    and however it settled, its flag is reset, its modal closes exactly on
    success, and the tab reloads exactly on success. *)
Theorem section_requests_settle (s : Section_) (r : result ApiError val) :
  let '(s1, e1) := config_settled s r in
  let '(s2, e2) := silence_settled s r in
  let '(s3, e3) := expire_settled s r in
  savingConfig s1 = false /\ creatingSilence s2 = false /\ expiringId s3 = None /\
  match r with
  | Ok _ => configModalOpen s1 = false /\ silenceModalOpen s2 = false /\
  e1 = [OnConfigUpdated] /\ e2 = [OnRefresh] /\ e3 = [OnRefresh]
  | Throw _ => configModalOpen s1 = configModalOpen s /\ silenceModalOpen s2 = silenceModalOpen s /\
  configForm s1 = configForm s /\ silenceComment s2 = silenceComment s /\
  OnRefresh ∉ e2 /\ OnRefresh ∉ e3 /\ OnConfigUpdated ∉ e1
  end.
Proof. destruct r as [v|e]; cbn; split_and!; try done; by intros [?|?%elem_of_nil]%elem_of_cons. Qed.

(** The form of the connection settings takes the connection status for the
    switch of the integration: saving it unchanged while Alertmanager cannot
    be reached switches the integration off. *)
Lemma saving_disconnected_disables (s : Section_) (o : AlertmanagerOverview) :
  alertmanager_connected o = false -> alertmanager_url o <> [] -> prometheus_url o <> [] ->
  (handleSaveConfig (open_config s (Some o))).2 =
    [Send (alerts_updateConfig false (alertmanager_url o) (prometheus_url o))].
Proof.
  intros Hc Ha Hp. unfold handleSaveConfig, open_config, set_config, settings_of.
  cbn [configForm cfg_enabled cfg_alertmanager_url cfg_prometheus_url snd]. rewrite Hc.
  by destruct (alertmanager_url o), (prometheus_url o).
Qed.

(** ** Instances *)

Lemma silence_window_witness :
  exists p t, (handleCreateSilence [] 1709208123045 (choose_duration (openSilenceModal (mount None) (js "HighErrorRate")) 8)).2
    = [Send (alerts_createSilence p)] /\
  parse_iso (s_ends_at p) = Some t /\ (t = 1709208123045 + 8 * 3600000)%Z.
Proof.
  destruct (silence_window None [Some (js "HighErrorRate"); None]
              (choose_duration (openSilenceModal (mount None) (js "HighErrorRate")) 8)
              (js "HighErrorRate") [] 1709208123045) as (p & t & H1 & _ & _ & _ & H2 & H3 & _).
  - eapply star_cons; [apply StepOpen|]. eapply star_cons; [apply StepDuration|apply star_nil].
    apply list_elem_of_In. cbn. tauto.
  - reflexivity.
  - unfold max_time. lia.
  - exists p, t. split; [exact H1|]. split; [exact H2|exact H3].
Defined.
