(* ===== verification/AlertViews.v ===== *)
(** * The alert engine as it is used

    The markup of
    [pages/settings/tabs/notifications/sections/AlertmanagerIntegrationSection.tsx]
    around the handlers of [Notifications]: what the cards, the rules and the
    silences show, which buttons are there and enabled, and the section as a
    machine of clicks and answers with its requests in flight. *)

From Stdlib Require Import ZArith NArith Lia String.
From S2P Require Import Prelude JsString JsValue Json Fetcher Dates Api Notifications.
Import OtherApis.
Local Open Scope string_scope.
Local Open Scope list_scope.

(** ** What is shown *)

(** A connection card: connected or not, with its text. *)
Record connection_card := { card_ok : bool; card_text : jsstring }.

Definition connected_card (connected : bool) (latency : num) : connection_card :=
  if connected
  then {| card_ok := true; card_text := js "Connected (" ++ num_string latency ++ js "ms)" |}
  else {| card_ok := false; card_text := js "Disconnected" |}.

Definition prometheus_card (o : option AlertmanagerOverview) : connection_card :=
  match o with
  | Some o => connected_card (prometheus_connected o) (prometheus_latency_ms o)
  | None => {| card_ok := false; card_text := js "Disconnected" |}
  end.

Definition alertmanager_card (o : option AlertmanagerOverview) : connection_card :=
  match o with
  | Some o => connected_card (alertmanager_connected o) (alertmanager_latency_ms o)
  | None => {| card_ok := false; card_text := js "Disconnected" |}
  end.

Definition count_text (n : nat) (unit_ : string) : jsstring := num_string (num_of_Z (Z.of_nat n)) ++ js unit_.
Definition firing_text (rules : list PrometheusRuleItem) : jsstring := count_text (firingAlertsCount rules) " rule(s) firing".
Definition muted_text (silences : list AlertmanagerSilenceItem) : jsstring := count_text (activeSilencesCount silences) " muted".
Definition total_text (rules : list PrometheusRuleItem) : jsstring := count_text (length rules) " total metric rules".

Inductive rule_badge := FIRING | PENDING | INACTIVE.

Definition badge_of (r : PrometheusRuleItem) : rule_badge :=
  if jeqb (state r) (js "firing") then FIRING else if jeqb (state r) (js "pending") then PENDING else INACTIVE.

Record rule_row := { row_badge : rule_badge; row_name : jsstring; row_for : jsstring; row_severity : jsstring;
                     row_summary : jsstring; row_expr : jsstring }.

Definition rule_row_of (r : PrometheusRuleItem) : rule_row :=
  {| row_badge := badge_of r; row_name := rule_name r; row_for := js "for: " ++ duration r;
     row_severity := js "[" ++ severity r ++ js "]"; row_summary := rule_summary r; row_expr := js "expr: " ++ query r |}.

(** The rules, or the hint that there are none, with the address asked. *)
Inductive rules_body := NoRules (endpoint : option jsstring) | RuleRows (rows : list rule_row).

Definition rules_body_of (o : option AlertmanagerOverview) (rules : list PrometheusRuleItem) : rules_body :=
  match rules with [] => NoRules (prometheus_url <$> o) | _ => RuleRows (map rule_row_of rules) end.

(** The status is shown in capitals and the end in the locale of the browser:
    the row has the texts that are handed to [toUpperCase] and
    [toLocaleString]. *)
Record silence_row := { sil_key : jsstring; sil_status : jsstring; sil_ends : jsstring; sil_matchers : jsstring; sil_reason : jsstring; sil_busy : bool }.

Definition silence_row_of (s : Section_) (x : AlertmanagerSilenceItem) : silence_row :=
  {| sil_key := sil_id x; sil_status := status x; sil_ends := ends_at x; sil_matchers := matchers_text x;
     sil_reason := js "Lý do: " ++ comment x ++ js " (tạo bởi: " ++ created_by x ++ js ")";
     sil_busy := match expiringId s with Some i => jeqb i (sil_id x) | None => false end |}.

Definition silence_rows (s : Section_) (silences : list AlertmanagerSilenceItem) : list silence_row :=
  map (silence_row_of s) silences.

(** ** The section as a machine *)

(** A request that was sent and is not answered. *)
Inductive request := SaveReq | CreateReq (p : CreateSilencePayload) | ExpireReq (i : jsstring).

Record engine := {
  sec : Section_;
  rules : list PrometheusRuleItem;
  silences : list AlertmanagerSilenceItem;
  flying : list request
}.

Definition set_sec (m : engine) (s : Section_) (l : list request) : engine :=
  {| sec := s; rules := rules m; silences := silences m; flying := l |}.

(** [required] inputs and the [disabled] submit buttons. *)
Definition config_submittable (s : Section_) : bool :=
  configModalOpen s && negb (savingConfig s)
  && negb (jeqb (cfg_prometheus_url (configForm s)) []) && negb (jeqb (cfg_alertmanager_url (configForm s)) []).
Definition silence_submittable (s : Section_) : bool :=
  silenceModalOpen s && negb (creatingSilence s) && negb (jeqb (silenceComment s) []).
Definition expire_enabled (s : Section_) (x : AlertmanagerSilenceItem) : bool := negb (sil_busy (silence_row_of s x)).

Inductive engine_event :=
| OpenConfig (o : option AlertmanagerOverview) | CloseConfig | TypePrometheus (u : jsstring) | TypeAlertmanager (u : jsstring)
| SubmitConfig | ConfigAnswer (r : result ApiError val)
| OpenSilence (r : PrometheusRuleItem) | CloseSilence | ChooseDuration (h : Z) | TypeComment (t : jsstring)
| SubmitSilence (now : Z) (range_error : jsstring) | SilenceAnswer (p : CreateSilencePayload) (r : result ApiError val)
| ClickExpire (x : AlertmanagerSilenceItem) (uri_error : jsstring) | ExpireAnswer (i : jsstring) (r : result ApiError val)
| Reloaded (rs : list PrometheusRuleItem) (ss : list AlertmanagerSilenceItem).

(** The request of the handler, if it sent one. *)
Definition sent (r : request) (effects : list effect) : list request :=
  match effects with [Send _] => [r] | _ => [] end.

Definition created (now : Z) (s : Section_) : list request :=
  match toISOString (now + silenceDurationHours s * 3600 * 1000) with
  | Some endsAt => [CreateReq (silence_payload s endsAt)]
  | None => []
  end.

Inductive engine_step : engine -> engine_event -> engine -> Prop :=
| DoOpenConfig m o : engine_step m (OpenConfig o) (set_sec m (open_config (sec m) o) (flying m))
| DoCloseConfig m : engine_step m CloseConfig (set_sec m (close_config (sec m)) (flying m))
| DoTypePrometheus m u : configModalOpen (sec m) = true ->
    engine_step m (TypePrometheus u) (set_sec m (edit_prometheus_url (sec m) u) (flying m))
| DoTypeAlertmanager m u : configModalOpen (sec m) = true ->
    engine_step m (TypeAlertmanager u) (set_sec m (edit_alertmanager_url (sec m) u) (flying m))
| DoSubmitConfig m : config_submittable (sec m) = true ->
    engine_step m SubmitConfig (set_sec m (handleSaveConfig (sec m)).1 (SaveReq :: flying m))
| DoConfigAnswer m r l1 l2 : flying m = l1 ++ SaveReq :: l2 ->
    engine_step m (ConfigAnswer r) (set_sec m (config_settled (sec m) r).1 (l1 ++ l2))
| DoOpenSilence m r : r ∈ rules m ->
    engine_step m (OpenSilence r) (set_sec m (openSilenceModal (sec m) (rule_name r)) (flying m))
| DoCloseSilence m : engine_step m CloseSilence (set_sec m (close_silence (sec m)) (flying m))
| DoChooseDuration m h : silenceModalOpen (sec m) = true -> h ∈ duration_options ->
    engine_step m (ChooseDuration h) (set_sec m (choose_duration (sec m) h) (flying m))
| DoTypeComment m t : silenceModalOpen (sec m) = true ->
    engine_step m (TypeComment t) (set_sec m (edit_comment (sec m) t) (flying m))
| DoSubmitSilence m now err : silence_submittable (sec m) = true ->
    engine_step m (SubmitSilence now err)
      (set_sec m (handleCreateSilence err now (sec m)).1 (created now (sec m) ++ flying m))
| DoSilenceAnswer m p r l1 l2 : flying m = l1 ++ CreateReq p :: l2 ->
    engine_step m (SilenceAnswer p r) (set_sec m (silence_settled (sec m) r).1 (l1 ++ l2))
| DoClickExpire m x err : x ∈ silences m -> expire_enabled (sec m) x = true ->
    engine_step m (ClickExpire x err)
      (set_sec m (handleExpireSilence err (sec m) (sil_id x)).1
         (sent (ExpireReq (sil_id x)) (handleExpireSilence err (sec m) (sil_id x)).2 ++ flying m))
| DoExpireAnswer m i r l1 l2 : flying m = l1 ++ ExpireReq i :: l2 ->
    engine_step m (ExpireAnswer i r) (set_sec m (expire_settled (sec m) r).1 (l1 ++ l2))
| DoReloaded m rs ss : engine_step m (Reloaded rs ss) {| sec := sec m; rules := rs; silences := ss; flying := flying m |}.

Definition mounted (o : option AlertmanagerOverview) (rs : list PrometheusRuleItem) (ss : list AlertmanagerSilenceItem) : engine :=
  {| sec := mount o; rules := rs; silences := ss; flying := [] |}.

(** ** Lemmas *)

Definition is_save (r : request) : bool := match r with SaveReq => true | _ => false end.
Definition is_create (r : request) : bool := match r with CreateReq _ => true | _ => false end.
Definition count (f : request -> bool) (l : list request) : nat := length (List.filter f l).

Lemma count_app f l1 l2 : count f (l1 ++ l2) = count f l1 + count f l2.
Proof. unfold count. by rewrite List.filter_app, length_app. Qed.
Lemma count_cons f x l : count f (x :: l) = Nat.b2n (f x) + count f l.
Proof. unfold count. cbn. by destruct (f x). Qed.

(** A silence that was sent is well formed: of one equality on a name, with
    a reason. *)
Definition silence_sent_ok (r : request) : Prop :=
  match r with
  | CreateReq p => s_comment p <> [] /\ exists a, s_matchers p =
      [{| m_name := js "alertname"; m_value := a; m_isRegex := false; m_isEqual := true |}]
  | _ => True
  end.

(** The flags of the section count its requests. *)
Definition engine_inv (m : engine) : Prop :=
  count is_save (flying m) = Nat.b2n (savingConfig (sec m)) /\
  count is_create (flying m) = Nat.b2n (creatingSilence (sec m)) /\
  Forall silence_sent_ok (flying m) /\
  silenceDurationHours (sec m) ∈ duration_options /\
  (forall i, expiringId (sec m) = Some i -> ExpireReq i ∈ flying m).

Lemma flying_rest (P : request -> Prop) l1 x l2 : Forall P (l1 ++ x :: l2) -> Forall P (l1 ++ l2).
Proof. rewrite !Forall_app, Forall_cons. tauto. Qed.

Lemma flying_other (x y : request) l1 l2 : x <> y -> x ∈ l1 ++ y :: l2 -> x ∈ l1 ++ l2.
Proof. rewrite !elem_of_app, elem_of_cons. tauto. Qed.

(** An answer takes its request away and may change one flag; the flags
    still count what is left. *)
Lemma count_answer f x l1 l2 (b : bool) :
  count f (l1 ++ x :: l2) = Nat.b2n b -> count f (l1 ++ l2) = Nat.b2n (if f x then false else b).
Proof. rewrite !count_app, count_cons. destruct (f x), b; cbn; lia. Qed.

Lemma created_ok now s : silence_submittable s = true -> Forall silence_sent_ok (created now s).
Proof.
  unfold silence_submittable, created. rewrite !andb_true_iff, !negb_true_iff. intros [_ Hc].
  destruct (toISOString _); constructor; [|constructor]. split; [|by eexists]. cbn. by intros E; rewrite E in Hc.
Qed.

Lemma config_settled_inv m r l1 l2 : flying m = l1 ++ SaveReq :: l2 -> engine_inv m ->
  engine_inv (set_sec m (config_settled (sec m) r).1 (l1 ++ l2)).
Proof.
  intros Hf (H1 & H2 & H3 & H4 & H5). rewrite Hf in *.
  split_and!; cbn [flying sec set_sec].
  - apply count_answer in H1. rewrite H1. by destruct r.
  - apply count_answer in H2. rewrite H2. by destruct r.
  - by eapply flying_rest.
  - by destruct r.
  - intros i Hi. eapply flying_other; [|apply H5; by destruct r]. done.
Qed.

Lemma silence_settled_inv m p r l1 l2 : flying m = l1 ++ CreateReq p :: l2 -> engine_inv m ->
  engine_inv (set_sec m (silence_settled (sec m) r).1 (l1 ++ l2)).
Proof.
  intros Hf (H1 & H2 & H3 & H4 & H5). rewrite Hf in *.
  split_and!; cbn [flying sec set_sec].
  - apply count_answer in H1. rewrite H1. by destruct r.
  - apply count_answer in H2. rewrite H2. by destruct r.
  - by eapply flying_rest.
  - by destruct r.
  - intros i Hi. eapply flying_other; [|apply H5; by destruct r]. done.
Qed.

Lemma expire_settled_inv m i r l1 l2 : flying m = l1 ++ ExpireReq i :: l2 -> engine_inv m ->
  engine_inv (set_sec m (expire_settled (sec m) r).1 (l1 ++ l2)).
Proof.
  intros Hf (H1 & H2 & H3 & H4 & H5). rewrite Hf in *.
  split_and!; cbn [flying sec set_sec].
  - apply count_answer in H1. rewrite H1. by destruct r.
  - apply count_answer in H2. rewrite H2. by destruct r.
  - by eapply flying_rest.
  - by destruct r.
  - by destruct r.
Qed.

Lemma submit_silence_inv m now err : silence_submittable (sec m) = true -> engine_inv m ->
  engine_inv (set_sec m (handleCreateSilence err now (sec m)).1 (created now (sec m) ++ flying m)).
Proof.
  intros Hs (H1 & H2 & H3 & H4 & H5).
  assert (creatingSilence (sec m) = false) as Hc.
  { unfold silence_submittable in Hs. by destruct (silenceModalOpen _), (creatingSilence _). }
  pose proof (created_ok now _ Hs) as Ho. unfold handleCreateSilence. unfold created in *. rewrite Hc in H2.
  destruct (toISOString _); split_and!; cbn [flying sec set_sec fst]; rewrite ?count_app, ?H1, ?H2; try done.
  - apply Forall_app. split; [exact Ho|done].
  - intros i Hi. apply elem_of_app. right. by apply H5.
Qed.

Lemma click_expire_inv m i err : engine_inv m ->
  engine_inv (set_sec m (handleExpireSilence err (sec m) i).1
    (sent (ExpireReq i) (handleExpireSilence err (sec m) i).2 ++ flying m)).
Proof.
  intros (H1 & H2 & H3 & H4 & H5). unfold handleExpireSilence.
  destruct (alerts_expireSilence i); split_and!; cbn [flying sec set_sec fst snd sent app]; try done.
  - by constructor.
  - intros j [= ->]. by left.
Qed.

Lemma engine_step_inv m e m' : engine_inv m -> engine_step m e m' -> engine_inv m'.
Proof.
  intros Hi Hs. destruct Hs.
  5:{ destruct Hi as (H1 & H2 & H3 & H4 & H5). split_and!; cbn [flying sec set_sec]; try done.
      - rewrite count_cons, H1. unfold config_submittable in H. destruct (savingConfig (sec m)); [|done].
        by rewrite andb_false_r in H.
      - by constructor.
      - intros i Hi. right. by apply H5. }
  5:{ by apply config_settled_inv. }
  9:{ by apply submit_silence_inv. }
  9:{ by eapply silence_settled_inv. }
  9:{ by apply click_expire_inv. }
  9:{ by eapply expire_settled_inv. }
  all: destruct Hi as (H1 & H2 & H3 & H4 & H5); by split_and!.
Qed.

Lemma mounted_inv o rs ss : engine_inv (mounted o rs ss).
Proof. split_and!; try done. right; left. Qed.

(** ** Theorems *)

(** C32: whatever is clicked, typed and answered, at most one save of the
    connection and at most one new silence is in flight, each exactly while
    its button is disabled; every silence in flight is one equality on an
    alert name with a reason; a row of the silences is busy only while its
    own request is in flight; and when every request was answered, everything
    is enabled again. *)
Theorem alert_requests_single (o : option AlertmanagerOverview) (rs : list PrometheusRuleItem)
    (ss : list AlertmanagerSilenceItem) (es : list engine_event) (m : engine) :
  star engine_step (mounted o rs ss) es m ->
  count is_save (flying m) = Nat.b2n (savingConfig (sec m)) /\
  count is_create (flying m) = Nat.b2n (creatingSilence (sec m)) /\
  Forall silence_sent_ok (flying m) /\
  (forall x, sil_busy (silence_row_of (sec m) x) = true -> ExpireReq (sil_id x) ∈ flying m) /\
  (flying m = [] -> savingConfig (sec m) = false /\ creatingSilence (sec m) = false /\ expiringId (sec m) = None).
Proof.
  intros Hr. apply (star_invariant engine_step engine_inv) in Hr as (H1 & H2 & H3 & H4 & H5);
    [|intros ???; apply engine_step_inv|apply mounted_inv].
  split_and!; try done.
  - intros x Hb. cbn in Hb. destruct (expiringId (sec m)) as [i|] eqn:E; [|done]. apply jeqb_true in Hb as <-. by apply H5.
  - intros E. rewrite E in *. cbn in H1, H2. destruct (savingConfig (sec m)), (creatingSilence (sec m)); try done.
    destruct (expiringId (sec m)) as [i|] eqn:Ei; [|done]. by specialize (H5 i eq_refl); apply elem_of_nil in H5.
Qed.

(** The badges agree with the card: the rows marked as firing are as many as
    the card counts. *)
Lemma firing_rows_counted (rules : list PrometheusRuleItem) :
  firingAlertsCount rules = length (List.filter (fun r => match row_badge r with FIRING => true | _ => false end) (map rule_row_of rules)).
Proof.
  unfold firingAlertsCount. induction rules as [|r l IH]; [done|]. cbn [map List.filter rule_row_of row_badge].
  unfold badge_of. destruct (jeqb (state r) (js "firing")); [cbn; by rewrite IH|]. by destruct (jeqb (state r) (js "pending")).
Qed.

(** ** What the machine shows *)

(** One row remembers the only cancellation: cancelling a second silence
    enables the first one's button again while its request is in flight. *)
Lemma expire_sent_twice (m : engine) (x y : AlertmanagerSilenceItem) (c d : call) :
  x ∈ silences m -> y ∈ silences m -> sil_id x <> sil_id y -> expiringId (sec m) = None ->
  alerts_expireSilence (sil_id x) = Some c -> alerts_expireSilence (sil_id y) = Some d ->
  exists m', star engine_step m [ClickExpire x []; ClickExpire y []; ClickExpire x []] m' /\
    flying m' = ExpireReq (sil_id x) :: ExpireReq (sil_id y) :: ExpireReq (sil_id x) :: flying m.
Proof.
  intros Hx Hy Hn He Ec Ed. pose proof (fun a b => proj2 (jeqb_false a b)) as Hne.
  eexists. split.
  - eapply star_cons; [apply DoClickExpire; [exact Hx|]|].
    { unfold expire_enabled, silence_row_of. cbn [sil_busy]. by rewrite He. }
    eapply star_cons; [apply DoClickExpire; [exact Hy|]|].
    { unfold expire_enabled, silence_row_of, handleExpireSilence. rewrite Ec. cbn. by rewrite (Hne _ _ Hn). }
    eapply star_cons; [apply DoClickExpire; [exact Hx|]|apply star_nil].
    unfold expire_enabled, silence_row_of, handleExpireSilence. cbn. rewrite Ed. cbn. by rewrite (Hne _ _ (not_eq_sym Hn)).
  - unfold handleExpireSilence. rewrite Ec, Ed. done.
Qed.

(** The dialog can be closed and opened for another alert while a silence is
    being created: the answer then closes the dialog of the other alert. *)
Lemma answer_closes_other_dialog (s : Section_) (alert : jsstring) (v : val) :
  let s' := openSilenceModal (close_silence (set_creating s true true)) alert in
  silenceModalOpen s' = true /\ targetAlertName s' = alert /\ silenceModalOpen (silence_settled s' (Ok v)).1 = false.
Proof. done. Qed.

(** ** Instances *)

Definition config_opened (m : engine) : engine := set_sec m (open_config (sec m) None) (flying m).
Definition config_submitted (m : engine) : engine := set_sec m (handleSaveConfig (sec m)).1 (SaveReq :: flying m).

Lemma alert_requests_single_witness :
  count is_save (flying (config_submitted (config_opened (mounted None [] [])))) = 1.
Proof.
  apply (alert_requests_single None [] [] [OpenConfig None; SubmitConfig] (config_submitted (config_opened (mounted None [] [])))).
  apply (star_cons _ _ _ (config_opened (mounted None [] []))); [apply DoOpenConfig|].
  apply (star_cons _ _ _ (config_submitted (config_opened (mounted None [] [])))); [|apply star_nil].
  apply DoSubmitConfig. vm_compute. reflexivity.
Defined.
