(* ===== verification/SecurityDialogs.v ===== *)
(** * The dialogs of signing in and of the security settings

    What [pages/login/sections/LoginForm.tsx] shows of the states of
    [Session], and the dialogs of [pages/settings/tabs/security]
    ([ChangePasswordModal], [TwoFactorSetupModal] and the cards that open
    them) as components that are mounted and unmounted while their requests
    are under way: a dialog that was closed is gone, what its request answers
    reaches only what outlives it. *)

From Stdlib Require Import ZArith NArith Lia String.
From S2P Require Import Prelude JsString JsValue Json Fetcher Api Session SecuritySettings.
Import OtherApis.
Local Open Scope string_scope.
Local Open Scope list_scope.

(** ** Dialogs that are mounted and unmounted *)

Module Dialog.
Section Dialog.
Context {F : Type} (init : F) (busy : F -> bool).

(** The mounted dialog with the number of its mounting, and the mountings
    whose request is under way. *)
Record dialogs := { shown : option (nat * F); fresh : nat; flying : list nat }.

Definition none : dialogs := {| shown := None; fresh := 0; flying := [] |}.

(** [setShow(true)]: a dialog that is there stays. *)
Definition show (d : dialogs) : dialogs :=
  match shown d with
  | Some _ => d
  | None => {| shown := Some (fresh d, init); fresh := S (fresh d); flying := flying d |}
  end.

(** [setShow(false)] *)
Definition hide (d : dialogs) : dialogs := {| shown := None; fresh := fresh d; flying := flying d |}.

Definition edit (d : dialogs) (g : F -> F) : dialogs :=
  {| shown := match shown d with Some (i, f) => Some (i, g f) | None => None end; fresh := fresh d; flying := flying d |}.

(** The form after its handler, and whether it sent a request. *)
Definition submit (d : dialogs) (i : nat) (f : F) (sent : bool) : dialogs :=
  {| shown := Some (i, f); fresh := fresh d; flying := if sent then i :: flying d else flying d |}.

(** An answer reaches the form of the mounting that asked. *)
Definition settle (d : dialogs) (i : nat) (g : F -> F) : dialogs :=
  {| shown := match shown d with
              | Some (j, f) => Some (j, if Nat.eqb j i then g f else f)
              | None => None
              end;
     fresh := fresh d; flying := List.filter (fun j => negb (Nat.eqb j i)) (flying d) |}.

(** A mounted form is busy exactly while its request is under way, and has
    at most one. *)
Definition dialogs_inv (d : dialogs) : Prop :=
  NoDup (flying d) /\ Forall (fun i => i < fresh d) (flying d) /\
  match shown d with Some (i, f) => i < fresh d /\ (busy f = true <-> i ∈ flying d) | None => True end.

Lemma none_inv : dialogs_inv none.
Proof. split_and!; try done. constructor. Qed.

Lemma show_inv d : busy init = false -> dialogs_inv d -> dialogs_inv (show d).
Proof.
  intros Hb (H1 & H2 & H3). unfold show. destruct (shown d) as [[i f]|] eqn:E; [unfold dialogs_inv; by rewrite E|].
  unfold dialogs_inv. cbn [flying shown fresh]. split; [done|]. split; [|split; [lia|]].
  - eapply Forall_impl; [exact H2|]. cbn. lia.
  - rewrite Hb. split; [done|]. rewrite Forall_forall in H2. intros Hin%H2. lia.
Qed.

Lemma hide_inv d : dialogs_inv d -> dialogs_inv (hide d).
Proof. intros (H1 & H2 & _). by split_and!. Qed.

Lemma edit_inv d g : (forall f, busy (g f) = busy f) -> dialogs_inv d -> dialogs_inv (edit d g).
Proof.
  intros Hg (H1 & H2 & H3). unfold dialogs_inv, edit. destruct (shown d) as [[i f]|]; cbn; [|done].
  by rewrite Hg.
Qed.

Lemma submit_inv d i f f' sent : shown d = Some (i, f) -> busy f = false -> busy f' = sent ->
  dialogs_inv d -> dialogs_inv (submit d i f' sent).
Proof.
  intros E Hb <- (H1 & H2 & H3). rewrite E in H3. destruct H3 as [H3 H4].
  assert (i ∉ flying d) as Hn by (intros Hin%H4; congruence).
  unfold dialogs_inv, submit. cbn [flying shown fresh]. destruct (busy f') eqn:Eb.
  - split; [by apply NoDup_cons|]. split; [by constructor|]. split; [done|]. split; [intros _; by left|done].
  - done.
Qed.

Lemma settle_flying d i j : j ∈ flying (settle d i (fun f => f)) <-> j ∈ flying d /\ j <> i.
Proof.
  cbn. rewrite !list_elem_of_In, filter_In, negb_true_iff, Nat.eqb_neq. done.
Qed.

Lemma settle_inv d i g : (forall f, busy (g f) = false) -> dialogs_inv d -> dialogs_inv (settle d i g).
Proof.
  intros Hg (H1 & H2 & H3). pose proof (settle_flying d i) as Hf.
  change (flying (settle d i (fun f => f))) with (flying (settle d i g)) in Hf.
  split_and!.
  - cbn [settle flying]. by apply NoDup_ListNoDup, List.NoDup_filter, NoDup_ListNoDup.
  - rewrite Forall_forall in H2 |- *. intros j [Hj _]%Hf. by apply H2.
  - cbn [settle shown fresh]. destruct (shown d) as [[j f]|]; [|done]. destruct H3 as [H3 H4]. split; [done|]. rewrite Hf.
    destruct (Nat.eqb_spec j i) as [->|Hn]; [rewrite Hg; split; [done|tauto]|]. rewrite H4. tauto.
Qed.
End Dialog.
Arguments dialogs : clear implicits.
End Dialog.

(** ** Changing the password *)

Module Password.
Import Dialog.

Record PasswordModal := { pform : PasswordForm; showCurrentPass : bool; showNewPass : bool }.

Definition initial_form : PasswordForm :=
  {| currentPassword := []; newPassword := []; confirmPassword := []; passChangeSuccess := false; passChangeError := [];
     changingPass := false |}.
Definition initial_modal : PasswordModal := {| pform := initial_form; showCurrentPass := false; showNewPass := false |}.

Inductive password_input := TypeCurrent (t : jsstring) | TypeNew (t : jsstring) | TypeConfirm (t : jsstring) | EyeCurrent | EyeNew.

Definition enter (m : PasswordModal) (e : password_input) : PasswordModal :=
  let f := pform m in
  {| pform := {| currentPassword := match e with TypeCurrent t => t | _ => currentPassword f end;
                 newPassword := match e with TypeNew t => t | _ => newPassword f end;
                 confirmPassword := match e with TypeConfirm t => t | _ => confirmPassword f end;
                 passChangeSuccess := passChangeSuccess f; passChangeError := passChangeError f;
                 changingPass := changingPass f |};
     showCurrentPass := match e with EyeCurrent => negb (showCurrentPass m) | _ => showCurrentPass m end;
     showNewPass := match e with EyeNew => negb (showNewPass m) | _ => showNewPass m end |}.

(** [type={show ? 'text' : 'password'}] of the three inputs. *)
Inductive input_type := TextInput | PasswordInput.
Definition input_types (m : PasswordModal) : list input_type :=
  [if showCurrentPass m then TextInput else PasswordInput; if showNewPass m then TextInput else PasswordInput; PasswordInput].

(** The three inputs are [required]; the button is [disabled] while saving. *)
Definition submittable (m : PasswordModal) : bool :=
  let f := pform m in
  negb (changingPass f) && negb (jeqb (currentPassword f) []) && negb (jeqb (newPassword f) [])
  && negb (jeqb (confirmPassword f) []).

Definition submit_text (m : PasswordModal) : jsstring := if changingPass (pform m) then js "Saving..." else js "Update Password".

Definition set_pform (m : PasswordModal) (f : PasswordForm) : PasswordModal :=
  {| pform := f; showCurrentPass := showCurrentPass m; showNewPass := showNewPass m |}.

(** The tab: its dialogs, the date it shows, and the timeouts of
    [handlePasswordSubmit] that will close the dialog. *)
Record password_tab := { dialog : dialogs PasswordModal; lastUpdated : jsstring; closers : nat }.

Definition just_now : jsstring := js "Vừa xong".

Inductive password_event :=
| OpenChange | CloseChange | Input (e : password_input) | Submit (c : option call) | Answer (i : nat) (r : result ApiError val) | Timeout.

Definition with_dialog (s : password_tab) (d : dialogs PasswordModal) : password_tab :=
  {| dialog := d; lastUpdated := lastUpdated s; closers := closers s |}.

Definition is_some {A} (o : option A) : bool := match o with Some _ => true | None => false end.

(** The tab is told of the success by the second component of
    [password_settled], whose value is that of the answer alone: the dialog
    that asked may be gone. *)
Inductive password_step : password_tab -> password_event -> password_tab -> Prop :=
| DoOpen s : password_step s OpenChange (with_dialog s (show initial_modal (dialog s)))
| DoClose s : password_step s CloseChange (with_dialog s (hide (dialog s)))
| DoInput s e : password_step s (Input e) (with_dialog s (edit (dialog s) (fun m => enter m e)))
| DoSubmit s i m : shown (dialog s) = Some (i, m) -> submittable m = true ->
    password_step s (Submit (handlePasswordSubmit (pform m)).2)
      (with_dialog s (submit (dialog s) i (set_pform m (handlePasswordSubmit (pform m)).1)
                        (is_some (handlePasswordSubmit (pform m)).2)))
| DoAnswer s i r : i ∈ flying (dialog s) ->
    password_step s (Answer i r)
      {| dialog := settle (dialog s) i (fun m => set_pform m (password_settled (pform m) r).1);
         lastUpdated := if (password_settled initial_form r).2 then just_now else lastUpdated s;
         closers := if (password_settled initial_form r).2 then S (closers s) else closers s |}
| DoTimeout s n : closers s = S n ->
    password_step s Timeout {| dialog := hide (dialog s); lastUpdated := lastUpdated s; closers := n |}.

Definition opened_tab (updated : jsstring) : password_tab :=
  {| dialog := none; lastUpdated := updated; closers := 0 |}.

Definition saving (m : PasswordModal) : bool := changingPass (pform m).
Definition accepted (e : password_event) : bool := match e with Answer _ (Ok _) => true | _ => false end.

(** A change that was sent was typed twice and is long enough. *)
Definition change_ok (e : password_event) : Prop :=
  match e with
  | Submit (Some c) => exists cur new, cur <> [] /\ 8 <= length new /\ c = security_changePassword cur new
  | _ => True
  end.

Lemma handler_sends f : submittable (set_pform initial_modal f) = true ->
  changingPass (handlePasswordSubmit f).1 = is_some (handlePasswordSubmit f).2 /\ change_ok (Submit (handlePasswordSubmit f).2).
Proof.
  unfold submittable. cbn [pform set_pform]. intros Hs. assert (changingPass f = false) as Hc by (by destruct (changingPass f)).
  unfold handlePasswordSubmit. destruct (jeqb (currentPassword f) []) eqn:E1; [done|]. apply jeqb_false in E1.
  destruct (Nat.ltb_spec (length (newPassword f)) 8); [done|].
  destruct (negb (jeqb (newPassword f) (confirmPassword f))); [done|]. split; [done|]. by exists (currentPassword f), (newPassword f).
Qed.

Definition password_inv (l0 : jsstring) (h : list password_event) (s : password_tab) : Prop :=
  dialogs_inv saving (dialog s) /\ Forall change_ok h /\
  lastUpdated s = (if existsb accepted h then just_now else l0).

Lemma password_step_inv l0 h s e s' : password_inv l0 h s -> password_step s e s' -> password_inv l0 (h ++ [e]) s'.
Proof.
  intros (H1 & H2 & H3) Hs. unfold password_inv. rewrite existsb_app, Forall_app, Forall_singleton.
  destruct Hs as [s|s|s e|s i m Hm Hs|s i r Hi|s n Hn]; cbn [with_dialog dialog lastUpdated existsb accepted]; rewrite ?orb_false_r.
  - split; [by apply show_inv|]. done.
  - split; [by apply hide_inv|]. done.
  - split; [apply edit_inv; [by intros f; destruct e|done]|]. done.
  - destruct (handler_sends (pform m)) as [Hb Ho]; [exact Hs|]. split; [|done].
    eapply submit_inv; [exact Hm| |exact Hb|done]. unfold submittable in Hs. unfold saving. by destruct (changingPass _).
  - split; [apply settle_inv; [|done]; intros f; by destruct r|]. split; [done|].
    destruct r; [by rewrite orb_true_r|by rewrite orb_false_r].
  - split; [by apply hide_inv|]. done.
Qed.

(** C22: however the dialog is opened, closed and used while its requests are
    under way, every change that is sent carries a current password and a
    new one of at least eight code units; the mounted dialog is saving
    exactly while the one request of its own is under way; and the tab
    reports the change exactly when one was accepted, even if its dialog was
    closed in between. *)
Theorem password_dialog_requests (updated : jsstring) (es : list password_event) (s : password_tab) :
  star password_step (opened_tab updated) es s ->
  Forall change_ok es /\
  NoDup (flying (dialog s)) /\
  (forall i m, shown (dialog s) = Some (i, m) -> changingPass (pform m) = true <-> i ∈ flying (dialog s)) /\
  lastUpdated s = (if existsb accepted es then just_now else updated).
Proof.
  intros Hr. apply (star_history password_step (password_inv updated)) in Hr as (H1 & H2 & H3);
    [|intros ????; apply password_step_inv|split; [apply none_inv|split; [constructor|done]]].
  destruct H1 as (Hn & _ & Hb). split_and!; try done. intros i m E. rewrite E in Hb. apply Hb.
Qed.

(** A dialog that was opened again is closed by the timeout of the one
    before: the timeout closes whatever is shown. *)
Lemma timeout_closes_new_dialog (s : password_tab) (i : nat) (v : val) :
  i ∈ flying (dialog s) -> exists j m s1 s2,
    star password_step s [CloseChange; Answer i (Ok v); OpenChange] s1 /\ shown (dialog s1) = Some (j, m) /\
    password_step s1 Timeout s2 /\ shown (dialog s2) = None.
Proof.
  intros Hi. do 4 eexists. split; [|split; [|split]].
  - eapply star_cons; [apply DoClose|]. eapply star_cons; [by apply DoAnswer|]. eapply star_cons; [apply DoOpen|apply star_nil].
  - cbn. reflexivity.
  - by eapply DoTimeout.
  - done.
Qed.

Lemma password_dialog_requests_witness :
  lastUpdated (with_dialog (opened_tab (js "Recently")) (show initial_modal none)) = js "Recently".
Proof.
  refine (proj2 (proj2 (proj2 (password_dialog_requests (js "Recently") [OpenChange]
    (with_dialog (opened_tab (js "Recently")) (show initial_modal none)) _)))).
  eapply star_cons; [apply DoOpen|apply star_nil].
Defined.
End Password.

(** ** Setting up the second factor *)

Module TwoFactor.
Import Dialog Password.

Record TwoFactorModal := { setup : TwoFactorSetup; copiedSecret : bool }.
Definition initial_modal : TwoFactorModal := {| setup := initial_two_factor; copiedSecret := false |}.
Definition set_setup (m : TwoFactorModal) (s : TwoFactorSetup) : TwoFactorModal := {| setup := s; copiedSecret := copiedSecret m |}.

(** What the dialog shows. *)
Inductive two_factor_body :=
| Initialising
| ScanBody (error : option jsstring) (image : option jsstring) (secret : jsstring) (copy_label : jsstring) (submit_label : jsstring)
| RecoveryBody (codes : list jsstring).

Definition opt_text (s : jsstring) : option jsstring := match s with [] => None | _ => Some s end.

Definition body_of (m : TwoFactorModal) : two_factor_body :=
  let s := setup m in
  if tf_loading s then Initialising
  else match twoFaStep s with
       | Scan => ScanBody (opt_text (twoFaError s)) (opt_text (qrDataUrl s)) (secretKey s)
                   (if copiedSecret m then js "Copied" else js "Copy")
                   (if verifying2FA s then js "Verifying..." else js "Verify & Enable 2FA")
       | Recovery => RecoveryBody (recoveryCodes s)
       end.

(** "Copy all codes" *)
Definition copy_codes (m : TwoFactorModal) : jsstring := join [10%N] (recoveryCodes (setup m)).

Definition scanning (m : TwoFactorModal) : bool :=
  negb (tf_loading (setup m)) && match twoFaStep (setup m) with Scan => true | Recovery => false end.

(** [disabled={twoFaCode.length !== 6 || verifying2FA}] *)
Definition submittable (m : TwoFactorModal) : bool :=
  scanning m && Nat.eqb (length (twoFaCode (setup m))) 6 && negb (verifying2FA (setup m)).

(** The tab with the dialogs; [initing] are the mountings whose secret was
    not answered. *)
Record two_factor_tab := { dialog : dialogs TwoFactorModal; initing : list nat; tab : SecurityTab }.

Inductive two_factor_event :=
| Start2FA | Close2FA
| InitAnswer (i : nat) (r : result ApiError (jsstring * jsstring)) (qr : jsstring -> result jsstring jsstring)
| TypeCode (t : jsstring) | CopySecret
| Verify (c : option call) | VerifyAnswer (i : nat) (r : result ApiError (option (list jsstring))).

Definition with_dialog (s : two_factor_tab) (d : dialogs TwoFactorModal) : two_factor_tab :=
  {| dialog := d; initing := initing s; tab := tab s |}.

(** Opening mounts a dialog, which asks for its secret. *)
Definition start2FA (s : two_factor_tab) : two_factor_tab :=
  {| dialog := show initial_modal (dialog s);
     initing := match shown (dialog s) with Some _ => initing s | None => fresh (dialog s) :: initing s end;
     tab := tab s |}.

(** The answers to the first request reach a mounted dialog only. *)
Definition init_modal (d : dialogs TwoFactorModal) (i : nat) (g : TwoFactorModal -> TwoFactorModal) : dialogs TwoFactorModal :=
  {| shown := match shown d with Some (j, f) => Some (j, if Nat.eqb j i then g f else f) | None => None end;
     fresh := fresh d; flying := flying d |}.

Inductive two_factor_step : two_factor_tab -> two_factor_event -> two_factor_tab -> Prop :=
| DoStart s : two_factor_step s Start2FA (start2FA s)
| DoClose s : two_factor_step s Close2FA (with_dialog s (hide (dialog s)))
| DoInit s i r qr : i ∈ initing s ->
    two_factor_step s (InitAnswer i r qr)
      {| dialog := init_modal (dialog s) i (fun m => set_setup m (init_settled (setup m) true true r qr));
         initing := List.filter (fun j => negb (Nat.eqb j i)) (initing s); tab := tab s |}
| DoType s i m t : shown (dialog s) = Some (i, m) -> scanning m = true ->
    two_factor_step s (TypeCode t) (with_dialog s (edit (dialog s) (fun m => set_setup m (type_code (setup m) t))))
| DoCopy s i m : shown (dialog s) = Some (i, m) -> scanning m = true ->
    two_factor_step s CopySecret
      (with_dialog s (edit (dialog s) (fun m => {| setup := setup m; copiedSecret := true |})))
| DoVerify s i m : shown (dialog s) = Some (i, m) -> submittable m = true ->
    two_factor_step s (Verify (handleVerify2FA (setup m)).2)
      (with_dialog s (submit (dialog s) i (set_setup m (handleVerify2FA (setup m)).1)
                        (is_some (handleVerify2FA (setup m)).2)))
| DoVerifyAnswer s i r : i ∈ flying (dialog s) ->
    two_factor_step s (VerifyAnswer i r)
      {| dialog := settle (dialog s) i (fun m => set_setup m (verify_settled (tab s) (setup m) r).2);
         initing := initing s; tab := (verify_settled (tab s) initial_two_factor r).1 |}.

Definition opened_tab (t : SecurityTab) : two_factor_tab := {| dialog := none; initing := []; tab := t |}.

Definition verifying (m : TwoFactorModal) : bool := verifying2FA (setup m).
Definition enabled_by (e : two_factor_event) : bool := match e with VerifyAnswer _ (Ok _) => true | _ => false end.

Definition verify_ok (e : two_factor_event) : Prop :=
  match e with
  | Verify (Some c) => exists secret code, c = security_verify2FA secret code /\ length code = 6 /\ Forall (fun d => is_digit d = true) code
  | _ => True
  end.

(** The codes on display are those of the dialog's own answer. *)
Definition codes_own (h : list two_factor_event) (i : nat) (m : TwoFactorModal) : Prop :=
  twoFaStep (setup m) = Recovery -> exists codes, VerifyAnswer i (Ok codes) ∈ h /\ recoveryCodes (setup m) = default [] codes.

Definition modal_ok (h : list two_factor_event) (i : nat) (m : TwoFactorModal) : Prop :=
  Forall (fun d => is_digit d = true) (twoFaCode (setup m)) /\ codes_own h i m.

Definition two_factor_inv (b0 : bool) (h : list two_factor_event) (s : two_factor_tab) : Prop :=
  dialogs_inv verifying (dialog s) /\ Forall verify_ok h /\
  enable2FA (tab s) = existsb enabled_by h || b0 /\
  match shown (dialog s) with Some (i, m) => modal_ok h i m | None => True end.

Lemma modal_ok_mono h h' i m : modal_ok h i m -> modal_ok (h ++ h') i m.
Proof. intros [H1 H2]. split; [done|]. intros Hs. destruct (H2 Hs) as (c & Hc & E). exists c. set_solver. Qed.

(** The answers that are not of a verification change nothing of it. *)
Lemma init_keeps s r qr : let s' := init_settled s true true r qr in
  twoFaCode s' = twoFaCode s /\ twoFaStep s' = twoFaStep s /\ recoveryCodes s' = recoveryCodes s /\ verifying2FA s' = verifying2FA s.
Proof. unfold init_settled. cbn [negb]. destruct r as [[k u]|e]; [destruct (qr u)|]; done. Qed.

Lemma digits_kept t : Forall (fun d => is_digit d = true) (List.filter is_digit t).
Proof. apply Forall_forall. intros c Hc%list_elem_of_In. by apply filter_In in Hc as [_ ?]. Qed.

Lemma init_modal_inv d i g : (forall m, verifying (g m) = verifying m) ->
  dialogs_inv verifying d -> dialogs_inv verifying (init_modal d i g).
Proof.
  intros Hg (H1 & H2 & H3). unfold dialogs_inv, init_modal. cbn [shown fresh flying].
  destruct (shown d) as [[j f]|]; [|done]. destruct (Nat.eqb j i); by rewrite ?Hg.
Qed.

Lemma submittable_code m : submittable m = true ->
  verifying2FA (setup m) = false /\ length (twoFaCode (setup m)) = 6 /\ twoFaStep (setup m) = Scan /\ tf_loading (setup m) = false.
Proof.
  unfold submittable, scanning. rewrite !andb_true_iff, !negb_true_iff, Nat.eqb_eq. intros [[[H1 H2] H3] H4].
  by destruct (twoFaStep (setup m)).
Qed.

Lemma verify_step_inv b0 h s i m : two_factor_inv b0 h s -> shown (dialog s) = Some (i, m) -> submittable m = true ->
  two_factor_inv b0 (h ++ [Verify (handleVerify2FA (setup m)).2])
    (with_dialog s (submit (dialog s) i (set_setup m (handleVerify2FA (setup m)).1) (is_some (handleVerify2FA (setup m)).2))).
Proof.
  intros (H1 & H2 & H3 & H4) Hm Hs. rewrite Hm in H4. destruct (submittable_code m Hs) as (Hv & Hl & Hst & _).
  unfold handleVerify2FA. rewrite Hl. cbn [Nat.eqb negb fst snd is_some].
  split; [|split; [|split]]; cbn [with_dialog dialog tab].
  - by eapply submit_inv.
  - rewrite Forall_app, Forall_singleton. split; [done|]. exists (secretKey (setup m)), (twoFaCode (setup m)). by destruct H4.
  - rewrite existsb_app. cbn. by rewrite orb_false_r.
  - destruct H4 as [Hd Hc]. split; [done|]. intros Hr. cbn in Hr. congruence.
Qed.

Lemma answer_step_inv b0 h s i r : two_factor_inv b0 h s -> i ∈ flying (dialog s) ->
  two_factor_inv b0 (h ++ [VerifyAnswer i r])
    {| dialog := settle (dialog s) i (fun m => set_setup m (verify_settled (tab s) (setup m) r).2);
       initing := initing s; tab := (verify_settled (tab s) initial_two_factor r).1 |}.
Proof.
  intros (H1 & H2 & H3 & H4) Hi. split; [|split; [|split]]; cbn [dialog tab].
  - apply settle_inv; [|done]. intros f. by destruct r.
  - rewrite Forall_app, Forall_singleton. done.
  - rewrite existsb_app. cbn. destruct r; cbn; [by rewrite orb_true_r|]. by rewrite orb_false_r.
  - cbn [settle shown]. destruct (shown (dialog s)) as [[j m]|]; [|done].
    destruct (Nat.eqb_spec j i) as [->|Hn]; [|by apply modal_ok_mono]. destruct r as [codes|e]; cbn [verify_settled set_setup setup snd].
    + destruct H4 as [Hd _]. split; [done|]. intros _. exists codes. split; [|done]. apply elem_of_app. right. by left.
    + apply (modal_ok_mono _ [VerifyAnswer i (Throw e)]) in H4 as [Hd Hc]. by split.
Qed.

Lemma two_factor_step_inv b0 h s e s' : two_factor_inv b0 h s -> two_factor_step s e s' -> two_factor_inv b0 (h ++ [e]) s'.
Proof.
  intros Hi Hs. destruct Hs as [s|s|s i r qr Hin|s i m t Hm Hsc|s i m Hm Hsc|s i m Hm Hsb|s i r Hin];
    [..|by apply verify_step_inv|by apply answer_step_inv];
    destruct Hi as (H1 & H2 & H3 & H4);
    (split; [|split; [by rewrite Forall_app, Forall_singleton|split; [rewrite existsb_app; cbn; by rewrite orb_false_r|]]]);
    cbn [with_dialog dialog start2FA].
  - by apply show_inv.
  - unfold show. destruct (shown (dialog s)) as [[j m]|] eqn:E; [rewrite E; by apply modal_ok_mono|].
    cbn [shown]. split; [constructor|done].
  - by apply hide_inv.
  - done.
  - apply init_modal_inv; [|done]. intros m. apply (init_keeps (setup m) r qr).
  - cbn [init_modal shown]. destruct (shown (dialog s)) as [[j m]|]; [|done].
    destruct (Nat.eqb j i); [|by apply modal_ok_mono]. apply (modal_ok_mono _ [InitAnswer i r qr]) in H4.
    destruct (init_keeps (setup m) r qr) as (E1 & E2 & E3 & _). unfold modal_ok, codes_own, set_setup in *. cbn [setup].
    by rewrite E1, E2, E3.
  - by apply edit_inv.
  - unfold edit. rewrite Hm in *. cbn [shown]. pose proof (modal_ok_mono _ [TypeCode t] _ _ H4) as [_ Hc].
    split; [apply digits_kept|done].
  - by apply edit_inv.
  - unfold edit. rewrite Hm in *. cbn [shown]. by apply (modal_ok_mono _ [CopySecret]) in H4.
Qed.

(** However the dialog is opened and closed while its requests are under
    way, a verification that is sent carries six digits; the mounted dialog
    is verifying exactly while the one request of its own is under way; the
    recovery codes it shows are those of its own accepted code; and the tab
    has the second factor on exactly when it had it before or some code was
    accepted. *)
Theorem two_factor_dialog_requests (t : SecurityTab) (es : list two_factor_event) (s : two_factor_tab) :
  star two_factor_step (opened_tab t) es s ->
  Forall verify_ok es /\ enable2FA (tab s) = existsb enabled_by es || enable2FA t /\ NoDup (flying (dialog s)) /\
  forall i m, shown (dialog s) = Some (i, m) ->
    (verifying2FA (setup m) = true <-> i ∈ flying (dialog s)) /\ codes_own es i m.
Proof.
  intros Hr. apply (star_history two_factor_step (two_factor_inv (enable2FA t))) in Hr as (H1 & H2 & H3 & H4);
    [|intros ????; apply two_factor_step_inv|].
  - destruct H1 as (Hn & _ & Hb). split_and!; try done. intros i m E. rewrite E in Hb, H4. split; [apply Hb|apply H4].
  - split; [apply none_inv|]. split; [constructor|]. by split.
Qed.

(** A dialog that is closed while its code is verified takes the recovery
    codes with it: the second factor is on and no dialog shows them. *)
Lemma recovery_codes_lost (s : two_factor_tab) (i : nat) (codes : list jsstring) :
  i ∈ flying (dialog s) -> exists s', star two_factor_step s [Close2FA; VerifyAnswer i (Ok (Some codes))] s' /\
    enable2FA (tab s') = true /\ shown (dialog s') = None.
Proof.
  intros Hi. eexists. split; [|split].
  - eapply star_cons; [apply DoClose|]. eapply star_cons; [by apply DoVerifyAnswer|apply star_nil].
  - done.
  - done.
Qed.

Lemma two_factor_dialog_requests_witness :
  enable2FA (tab (start2FA (opened_tab example_tab))) = enable2FA example_tab.
Proof.
  refine (proj1 (proj2 (two_factor_dialog_requests example_tab [Start2FA] (start2FA (opened_tab example_tab)) _))).
  eapply star_cons; [apply DoStart|apply star_nil].
Defined.
End TwoFactor.

(** ** The cards of the security tab *)

Module Cards.

(** [AuthProvidersSection] *)
Record provider_card := { pc_id : jsstring; pc_checked : bool; pc_disabled : bool; pc_badge : jsstring; pc_setup : bool }.

Definition provider_card_of (saving : option jsstring) (p : AuthProviderItem) : provider_card :=
  {| pc_id := id p; pc_checked := enabled p; pc_disabled := match saving with Some i => jeqb i (id p) | None => false end;
     pc_badge := if enabled p then js "Active" else js "Disabled"; pc_setup := negb (jeqb (id p) (js "local")) |}.

(** [TwoFactorAuthSection]: the badge, the line, the button that disables with
    whether it is disabled, and the one that sets up. *)
Record two_factor_card := { tc_badge : jsstring; tc_line : jsstring; tc_disable : option (jsstring * bool); tc_setup : jsstring }.

Definition two_factor_card_of (s : SecurityTab) : two_factor_card :=
  if enable2FA s
  then {| tc_badge := js "Enabled"; tc_line := js "Authenticator configured";
          tc_disable := Some (if disabling2FA s then js "Disabling..." else js "Disable 2FA", disabling2FA s);
          tc_setup := js "Reconfigure 2FA" |}
  else {| tc_badge := js "Disabled"; tc_line := js "Not configured"; tc_disable := None; tc_setup := js "Setup 2FA with QR" |}.

(** [PasswordManagementSection] *)
Definition password_line (s : SecurityTab) : jsstring := js "Password updated: " ++ passwordLastUpdated s.

(** [SecurityTab] itself. *)
Inductive tab_body :=
| Syncing
| TabBody (error success : option jsstring) (active_line : jsstring) (cards : list provider_card) (two_factor : two_factor_card)
    (password : jsstring).

Definition tab_body_of (s : SecurityTab) : tab_body :=
  match providers s with
  | [] => if loading s then Syncing
          else TabBody (TwoFactor.opt_text (errorBanner s)) (TwoFactor.opt_text (successBanner s))
                 (num_string (num_of_Z (Z.of_nat (activeProvidersCount s))) ++ js " authentication provider(s) active")
                 [] (two_factor_card_of s) (password_line s)
  | _ => TabBody (TwoFactor.opt_text (errorBanner s)) (TwoFactor.opt_text (successBanner s))
           (num_string (num_of_Z (Z.of_nat (activeProvidersCount s))) ++ js " authentication provider(s) active")
           (map (provider_card_of (savingProviderId s)) (providers s)) (two_factor_card_of s) (password_line s)
  end.

(** Which cards can be clicked: a provider whose change is being saved cannot
    be switched again. *)
Lemma saving_card_disabled s p i : savingProviderId s = Some i ->
  pc_disabled (provider_card_of (savingProviderId s) p) = true <-> id p = i.
Proof. intros ->. cbn. rewrite jeqb_true. naive_solver. Qed.
End Cards.

(** ** The login page *)

Module LoginView.

Record LoginUi := { page : login_page; showPassword : bool; rememberDevice : bool }.

Inductive login_body :=
| CredentialsBody (user pass : jsstring) (pass_shown : bool) (remember : bool)
| CodeBody (code : jsstring) (back_disabled : bool).

(** The label of the button is a spinner while a request is under way. *)
Record login_view := {
  kicker : jsstring; title : jsstring; subtitle : jsstring;
  error_alert : option val; success_alert : option jsstring;
  body : login_body;
  button : option jsstring; button_disabled : bool
}.

Definition view_of (u : LoginUi) : login_view :=
  let f := form (page u) in
  let two := requires2FA f in
  {| kicker := if two then js "TWO-FACTOR AUTHENTICATION" else js "CONSOLE ACCESS";
     title := if two then js "Security Verification" else js "Sign in to Aurora API Gateway";
     subtitle := if two then js "Enter the 6-digit code from your authenticator app, or a backup recovery code."
                 else js "Enterprise Cloud Defense & Security Management";
     error_alert := if truthy (errorMessage f) then Some (errorMessage f) else None;
     success_alert := if isSuccess f then Some (js "Authenticated successfully! Redirecting to Console...") else None;
     body := if two then CodeBody (twoFactorCode f) (isLoading f)
             else CredentialsBody (username f) (password f) (showPassword u) (rememberDevice u);
     button := if isLoading f then None
               else Some (if isSuccess f then (if two then js "Verified" else js "Authenticated")
                          else if two then js "Verify & Sign In" else js "Sign in to Console");
     button_disabled := isLoading f || isSuccess f |}.

(** The two toggles of the credentials form. *)
Definition toggle_eye (u : LoginUi) : LoginUi :=
  {| page := page u; showPassword := negb (showPassword u); rememberDevice := rememberDevice u |}.
Definition set_remember (u : LoginUi) (b : bool) : LoginUi :=
  {| page := page u; showPassword := showPassword u; rememberDevice := b |}.

(** While a request is under way and after success no error is kept, and
    success leaves nothing under way. *)
Definition quiet (p : login_page) : Prop :=
  (isLoading (form p) = true \/ isSuccess (form p) = true -> truthy (errorMessage (form p)) = false).

Lemma finish_quiet st f r d fl : isLoading f = true -> isSuccess f = false -> truthy (errorMessage f) = false ->
  quiet (let '(st', f', _) := finish_session st f r d in LoginPage f' st' fl).
Proof.
  intros Hl Hs He. unfold finish_session, quiet. destruct r as [v|e]; [destruct (accept_token st v)|]; cbn; [done|..]; by intros [?|?]; congruence.
Qed.

Lemma login_step_quiet st h p e p' : login_inv st h p -> quiet p -> login_step p e p' -> quiet p'.
Proof.
  intros Hi Hq Hs. destruct Hs as [p u w c|p H2 Hs|p H2 Hs|p H2 Hl|p r l1 l2 Hf|p r l1 l2 Hf].
  - exact Hq.
  - unfold send, login_start. destruct (isLoading (form p)) eqn:E; [exact Hq|done].
  - unfold send, verify_start. destruct (isLoading (form p)) eqn:E; [exact Hq|].
    destruct (jeqb _ _); [|done]. unfold quiet. cbn. rewrite Hs. by intros [?|?].
  - done.
  - destruct (inv_flight _ _ _ Hi) as [[E _]|(k & E & Hl & Hsu & _)]; [rewrite Hf in E; by destruct l1|].
    unfold login_finish. destruct r as [v|e]; [destruct (wants_2fa v); [done|]|]; apply finish_quiet; auto; by apply Hq; left.
  - destruct (inv_flight _ _ _ Hi) as [[E _]|(k & E & Hl & Hsu & _)]; [rewrite Hf in E; by destruct l1|].
    unfold verify_finish. apply finish_quiet; auto; by apply Hq; left.
Qed.

(** The login page never contradicts itself. Whatever was typed, sent
    and answered, it does not report success and an error together, nor an
    error while a request is under way; its button is disabled exactly
    while the one request is under way or the session was granted; and the
    form of the second factor is shown only after an answer that asked for
    it. *)
Theorem login_view_consistent (st : Storage) (es : list login_event) (p : login_page) (eye remember : bool) :
  star login_step (open_login st) es p ->
  let v := view_of {| page := p; showPassword := eye; rememberDevice := remember |} in
  (error_alert v <> None -> success_alert v = None /\ flights p = []) /\
  (button_disabled v = true <-> flights p <> [] \/ success_alert v <> None) /\
  (forall c b, body v = CodeBody c b -> exists data, Answered Credentials (Ok data) ∈ es /\ wants_2fa data = true).
Proof.
  intros Hr. apply (star_history login_step (fun h q => login_inv st h q /\ quiet q)) in Hr as [Hi Hq].
  2:{ intros h a l b [Hi Hq] Hs. split; [by eapply login_step_inv|by eapply login_step_quiet]. }
  2:{ split; [apply open_login_inv|]. by intros [?|?]. }
  unfold quiet in Hq. cbn [view_of page showPassword rememberDevice error_alert success_alert button_disabled body].
  split; [|split].
  - destruct (truthy (errorMessage (form p))) eqn:E; [intros _|done].
    destruct (isSuccess (form p)) eqn:Es; [by discriminate Hq; auto|]. split; [done|].
    destruct (inv_flight _ _ _ Hi) as [[Hf _]|(k & _ & Hl & _)]; [done|]. by discriminate Hq; auto.
  - destruct (inv_flight _ _ _ Hi) as [[-> ->]|(k & -> & -> & -> & _)]; cbn.
    + destruct (isSuccess (form p)); naive_solver.
    + naive_solver.
  - destruct (requires2FA (form p)) eqn:E2; [|done]. intros c b _. destruct (inv_2fa _ _ _ Hi E2) as (d & Hd & _). by exists d.
Qed.

(** Ticking "Remember this device" changes nothing of what is sent or kept. *)
Lemma remember_inert (u : LoginUi) (b : bool) :
  page (set_remember u b) = page u /\ login_start (form (page (set_remember u b))) = login_start (form (page u)).
Proof. done. Qed.

Lemma login_view_consistent_witness :
  button_disabled (view_of {| page := send Credentials (open_login empty_store) (login_start initial_login); showPassword := false;
                              rememberDevice := false |}) = true.
Proof.
  apply (login_view_consistent empty_store [Sent Credentials (login_start initial_login).2]
           (send Credentials (open_login empty_store) (login_start initial_login)) false false).
  - eapply star_cons; [|apply star_nil]. by apply (StepLogin (open_login empty_store)).
  - by left.
Defined.
End LoginView.
