(* ===== verification/BackupSettings.v ===== *)
(** * Backup and restore

    [pages/settings/tabs/backup-restore/]: the tab with its configuration,
    the download of a snapshot, the upload to S3, and the section that
    restores a snapshot from a file. The section is mounted only while the
    tab is not loading, so a reload of the overview forgets its state; the
    composition [BackupPage] keeps that. The clock, the network and the
    files the browser hands over are arguments. *)

From Stdlib Require Import ZArith NArith Lia String.
From stdpp Require Import gmap.
From S2P Require Import Prelude JsString JsValue Json JsonFacts Fetcher Dates Numbers Api.
Import OtherApis.
Local Open Scope string_scope.
Local Open Scope list_scope.

(** ** The types of [backup.ts] *)

Record BackupConfig := {
  auto_backup_enabled : bool;
  cron_expression : jsstring;
  s3_enabled : bool;
  s3_endpoint : jsstring;
  s3_bucket : jsstring;
  s3_region : jsstring;
  s3_access_key : jsstring;
  s3_secret_key : jsstring;
  s3_prefix : jsstring;
  s3_retention_days : num;
  last_backup_at : jsstring;
  last_backup_status : jsstring;
  last_backup_destination : jsstring;
  updated_at : jsstring
}.

Record BackupHistoryItem := {
  h_id : jsstring;
  h_filename : jsstring;
  h_destination : jsstring;
  h_size_bytes : Z;
  h_status : jsstring;
  h_error_message : jsstring;
  h_created_at : jsstring
}.

(** [BackupOverview]; either member may be missing from the answer. *)
Record BackupOverview := { o_config : option BackupConfig; o_history : option (list BackupHistoryItem) }.

(** [RestoreResult], as far as it is read. *)
Record RestoreResult := { rr_success : bool; rr_message : jsstring; rr_restored_tables : num }.

(** The object that [updateConfig] sends. *)
Definition config_obj (c : BackupConfig) : obj :=
  obj_lit
    [("auto_backup_enabled", VBool (auto_backup_enabled c)); ("cron_expression", VStr (cron_expression c));
     ("s3_enabled", VBool (s3_enabled c)); ("s3_endpoint", VStr (s3_endpoint c)); ("s3_bucket", VStr (s3_bucket c));
     ("s3_region", VStr (s3_region c)); ("s3_access_key", VStr (s3_access_key c));
     ("s3_secret_key", VStr (s3_secret_key c)); ("s3_prefix", VStr (s3_prefix c));
     ("s3_retention_days", VNum (s3_retention_days c)); ("last_backup_at", VStr (last_backup_at c));
     ("last_backup_status", VStr (last_backup_status c));
     ("last_backup_destination", VStr (last_backup_destination c)); ("updated_at", VStr (updated_at c))].

(** ** The tab *)

Record BackupRestoreTab := {
  loading : bool;
  errorBanner : jsstring;
  successBanner : jsstring;
  config : BackupConfig;
  history : list BackupHistoryItem;
  savingConfig : bool;
  downloadingLocal : bool;
  pushingS3 : bool
}.

Definition default_config : BackupConfig :=
  {| auto_backup_enabled := true; cron_expression := js "0 2 * * *"; s3_enabled := false; s3_endpoint := [];
     s3_bucket := []; s3_region := []; s3_access_key := []; s3_secret_key := []; s3_prefix := [];
     s3_retention_days := num_of_Z 30; last_backup_at := []; last_backup_status := [];
     last_backup_destination := []; updated_at := [] |}.

Definition initial_tab : BackupRestoreTab :=
  {| loading := true; errorBanner := []; successBanner := []; config := default_config; history := [];
     savingConfig := false; downloadingLocal := false; pushingS3 := false |}.

(** One flag or banner at a time, as the setters do. *)
Definition set_loading (b : bool) (s : BackupRestoreTab) : BackupRestoreTab :=
  {| loading := b; errorBanner := errorBanner s; successBanner := successBanner s; config := config s;
     history := history s; savingConfig := savingConfig s; downloadingLocal := downloadingLocal s; pushingS3 := pushingS3 s |}.
Definition set_error (m : jsstring) (s : BackupRestoreTab) : BackupRestoreTab :=
  {| loading := loading s; errorBanner := m; successBanner := successBanner s; config := config s;
     history := history s; savingConfig := savingConfig s; downloadingLocal := downloadingLocal s; pushingS3 := pushingS3 s |}.
Definition set_success (m : jsstring) (s : BackupRestoreTab) : BackupRestoreTab :=
  {| loading := loading s; errorBanner := errorBanner s; successBanner := m; config := config s;
     history := history s; savingConfig := savingConfig s; downloadingLocal := downloadingLocal s; pushingS3 := pushingS3 s |}.
Definition setConfig (c : BackupConfig) (s : BackupRestoreTab) : BackupRestoreTab :=
  {| loading := loading s; errorBanner := errorBanner s; successBanner := successBanner s; config := c;
     history := history s; savingConfig := savingConfig s; downloadingLocal := downloadingLocal s; pushingS3 := pushingS3 s |}.
Definition setHistory (l : list BackupHistoryItem) (s : BackupRestoreTab) : BackupRestoreTab :=
  {| loading := loading s; errorBanner := errorBanner s; successBanner := successBanner s; config := config s;
     history := l; savingConfig := savingConfig s; downloadingLocal := downloadingLocal s; pushingS3 := pushingS3 s |}.
Definition set_saving (b : bool) (s : BackupRestoreTab) : BackupRestoreTab :=
  {| loading := loading s; errorBanner := errorBanner s; successBanner := successBanner s; config := config s;
     history := history s; savingConfig := b; downloadingLocal := downloadingLocal s; pushingS3 := pushingS3 s |}.
Definition set_downloading (b : bool) (s : BackupRestoreTab) : BackupRestoreTab :=
  {| loading := loading s; errorBanner := errorBanner s; successBanner := successBanner s; config := config s;
     history := history s; savingConfig := savingConfig s; downloadingLocal := b; pushingS3 := pushingS3 s |}.
Definition set_pushing (b : bool) (s : BackupRestoreTab) : BackupRestoreTab :=
  {| loading := loading s; errorBanner := errorBanner s; successBanner := successBanner s; config := config s;
     history := history s; savingConfig := savingConfig s; downloadingLocal := downloadingLocal s; pushingS3 := b |}.

Definition loadOverview_start (s : BackupRestoreTab) : BackupRestoreTab := set_error [] (set_loading true s).
Definition loadOverview_finish (s : BackupRestoreTab) (r : result ApiError BackupOverview) : BackupRestoreTab :=
  set_loading false
    match r with
    | Ok d =>
        let s := match o_config d with Some c => setConfig c s | None => s end in
        setHistory (default [] (o_history d)) s
    | Throw e => set_error (str_or (err_message e) (js "Không thể tải cấu hình sao lưu từ máy chủ")) s
    end.

(** A handler that succeeds reloads the overview, without waiting for it:
    the result is a state in which that request is under way. *)
Definition handleSaveConfig (s : BackupRestoreTab) : BackupRestoreTab * call :=
  (set_error [] (set_saving true s), backup_updateConfig (config_obj (config s))).
Definition save_settled (s : BackupRestoreTab) (r : result ApiError val) : BackupRestoreTab :=
  set_saving false
    match r with
    | Ok _ => loadOverview_start (set_success (js "Đã lưu cấu hình sao lưu và lịch trình Cron thành công") s)
    | Throw e => set_error (str_or (err_message e) (js "Không thể lưu cấu hình sao lưu")) s
    end.

Definition handlePushS3 (s : BackupRestoreTab) : BackupRestoreTab * call :=
  (set_error [] (set_pushing true s), backup_triggerS3Backup).
Definition push_settled (s : BackupRestoreTab) (r : result ApiError BackupHistoryItem) : BackupRestoreTab :=
  set_pushing false
    match r with
    | Ok res =>
        loadOverview_start
          (set_success (js "Đã tạo snapshot và tải lên S3 thành công: " ++ h_filename res ++ js " ("
                        ++ toFixed 1 (h_size_bytes res) 1024 ++ js " KB)") s)
    | Throw e => set_error (str_or (err_message e) (js "Lỗi đẩy bản sao lưu lên S3 bucket")) s
    end.

(** *** Downloading a snapshot *)

Definition take_while (p : N -> bool) : jsstring -> jsstring :=
  fix go s := match s with c :: s' => if p c then c :: go s' else [] | [] => [] end.

Definition filename_char (c : N) : bool := negb ((c =? 34) || (c =? 59))%N.

(** The first group of the leftmost match of the regular expression:
    [filename=], a quote or none, then one or more code units that are
    neither a quote nor a semicolon. *)
Fixpoint match_filename (s : jsstring) : option jsstring :=
  match s with
  | [] => None
  | _ :: s' =>
      if startsWith (js "filename=") s then
        let r := drop 9 s in
        match take_while filename_char (match r with 34%N :: r' => r' | _ => r end) with
        | [] => match_filename s'
        | g => Some g
        end
      else match_filename s'
  end.

(** The name of the downloaded file; [None] is a [RangeError] of the clock. *)
Definition download_filename (now : Z) (disposition : option jsstring) : option jsstring :=
  iso ← toISOString now;
  let filename := js "aurora-waf-backup-" ++ slice_head 10 iso ++ js ".db" in
  Some match disposition with
       | Some h => if includes (js "filename=") h then default filename (match_filename h) else filename
       | None => filename
       end.

Definition download_headers (st : Storage) : gmap jsstring jsstring :=
  match getAuthToken st with
  | Some (c :: t) => {[ js "Authorization" := js "Bearer " ++ c :: t ]}
  | _ => ∅
  end.

(** What [fetch] and then [blob] settle with. *)
Inductive download_outcome :=
| DownloadRejected (m : jsstring)
| DownloadAnswered (status : Z) (disposition : option jsstring) (blob : result jsstring unit).

Definition status_ok (status : Z) : bool := (200 <=? status)%Z && (status <=? 299)%Z.

Definition handleDownloadLocal (s : BackupRestoreTab) : BackupRestoreTab := set_error [] (set_downloading true s).

(** The [catch] and [finally] of the handler. *)
Definition download_failed (s : BackupRestoreTab) (m : jsstring) : BackupRestoreTab * option jsstring :=
  (set_downloading false (set_error (str_or m (js "Lỗi xuất file snapshot database")) s), None).

(** The second component is the name under which a file was saved. *)
Definition download_settled (range_error : jsstring) (now : Z) (s : BackupRestoreTab) (o : download_outcome) :
    BackupRestoreTab * option jsstring :=
  match o with
  | DownloadRejected m => download_failed s m
  | DownloadAnswered status disposition blob =>
      if negb (status_ok status) then download_failed s (js "Tải bản sao lưu thất bại (HTTP " ++ int_string status ++ js ")") else
      match blob with
      | Throw m => download_failed s m
      | Ok _ =>
          match download_filename now disposition with
          | None => download_failed s range_error
          | Some filename =>
              (set_downloading false
                 (loadOverview_start
                    (set_success (js "Đã xuất và tải thành công bản sao lưu: " ++ filename) s)), Some filename)
          end
      end
  end.

(** *** The schedule and the S3 settings *)

Definition describeCron (cron : jsstring) : jsstring :=
  let trimmed := trim cron in
  if jeqb trimmed (js "0 2 * * *") then js "At 02:00 AM UTC every day" else
  if jeqb trimmed (js "0 */6 * * *") then js "Every 6 hours (00:00, 06:00, 12:00, 18:00 UTC)" else
  if jeqb trimmed (js "0 0 * * *") then js "Every day at midnight (00:00 UTC)" else
  if jeqb trimmed (js "0 2 * * 0") then js "At 02:00 AM UTC every Sunday" else
  if jeqb trimmed (js "0 2 1 * *") then js "At 02:00 AM UTC on the 1st of every month" else
  js "Cron Schedule: " ++ trimmed.

Definition set_cron (c : BackupConfig) (cron : jsstring) : BackupConfig :=
  {| auto_backup_enabled := auto_backup_enabled c; cron_expression := cron; s3_enabled := s3_enabled c;
     s3_endpoint := s3_endpoint c; s3_bucket := s3_bucket c; s3_region := s3_region c; s3_access_key := s3_access_key c;
     s3_secret_key := s3_secret_key c; s3_prefix := s3_prefix c; s3_retention_days := s3_retention_days c;
     last_backup_at := last_backup_at c; last_backup_status := last_backup_status c;
     last_backup_destination := last_backup_destination c; updated_at := updated_at c |}.
Definition set_auto_backup (c : BackupConfig) (b : bool) : BackupConfig :=
  {| auto_backup_enabled := b; cron_expression := cron_expression c; s3_enabled := s3_enabled c;
     s3_endpoint := s3_endpoint c; s3_bucket := s3_bucket c; s3_region := s3_region c; s3_access_key := s3_access_key c;
     s3_secret_key := s3_secret_key c; s3_prefix := s3_prefix c; s3_retention_days := s3_retention_days c;
     last_backup_at := last_backup_at c; last_backup_status := last_backup_status c;
     last_backup_destination := last_backup_destination c; updated_at := updated_at c |}.

(** The buttons of the schedule. *)
Definition cron_presets : list jsstring := [js "0 */6 * * *"; js "0 2 * * *"; js "0 2 * * 0"; js "0 2 1 * *"].

(** The inputs of [S3StorageSection]. *)
Inductive s3_field := Endpoint | Bucket | Region | AccessKey | SecretKey.

Definition edit_s3 (c : BackupConfig) (f : s3_field) (v : jsstring) : BackupConfig :=
  let pick g old := match f, g with
                    | Endpoint, Endpoint | Bucket, Bucket | Region, Region | AccessKey, AccessKey
                    | SecretKey, SecretKey => v
                    | _, _ => old
                    end in
  {| auto_backup_enabled := auto_backup_enabled c; cron_expression := cron_expression c; s3_enabled := s3_enabled c;
     s3_endpoint := pick Endpoint (s3_endpoint c); s3_bucket := pick Bucket (s3_bucket c);
     s3_region := pick Region (s3_region c); s3_access_key := pick AccessKey (s3_access_key c);
     s3_secret_key := pick SecretKey (s3_secret_key c); s3_prefix := s3_prefix c;
     s3_retention_days := s3_retention_days c; last_backup_at := last_backup_at c;
     last_backup_status := last_backup_status c; last_backup_destination := last_backup_destination c;
     updated_at := updated_at c |}.

Definition set_s3 (c : BackupConfig) (on : bool) (days : num) : BackupConfig :=
  {| auto_backup_enabled := auto_backup_enabled c; cron_expression := cron_expression c; s3_enabled := on;
     s3_endpoint := s3_endpoint c; s3_bucket := s3_bucket c; s3_region := s3_region c; s3_access_key := s3_access_key c;
     s3_secret_key := s3_secret_key c; s3_prefix := s3_prefix c; s3_retention_days := days;
     last_backup_at := last_backup_at c; last_backup_status := last_backup_status c;
     last_backup_destination := last_backup_destination c; updated_at := updated_at c |}.

Definition toggle_s3 (c : BackupConfig) (on : bool) : BackupConfig := set_s3 c on (s3_retention_days c).

(** [parseInt(e.target.value, 10) || 30] *)
Definition choose_retention (c : BackupConfig) (text : jsstring) : BackupConfig :=
  let n := parseInt10 text in
  set_s3 c (s3_enabled c) (if num_truthy n then n else num_of_Z 30).

Definition retention_options : list Z := [7; 14; 30; 60; 90; 180; 365]%Z.

(** The destination shown by [ImmediateBackupSection]. *)
Definition s3_target (c : BackupConfig) : jsstring :=
  match s3_bucket c with [] => js "Bucket not set" | b => js "s3://" ++ b end.

(** ** Restoring a snapshot *)

(** A file of the browser; its content is opaque. *)
Record File := { file_name : jsstring; file_size : Z; file_content : nat }.

Record RestoreSection := {
  dragActive : bool;
  selectedFile : option File;
  confirmRestore : bool;
  restoring : bool
}.

Definition initial_restore : RestoreSection :=
  {| dragActive := false; selectedFile := None; confirmRestore := false; restoring := false |}.

Inductive callback := OnError (m : jsstring) | OnSuccess (m : jsstring) | OnRestoreCompleted | SendRestore (f : File).

Section Restore.
Context `{CaseMapping}.

Definition validExts : list jsstring :=
  [js ".db"; js ".sqlite"; js ".sqlite3"; js ".sql"; js ".gz"; js ".tar.gz"].

Definition isValid (f : File) : bool :=
  existsb (fun ext => endsWith ext (toLowerCase (file_name f))) validExts.

Definition set_drag (b : bool) (s : RestoreSection) : RestoreSection :=
  {| dragActive := b; selectedFile := selectedFile s; confirmRestore := confirmRestore s; restoring := restoring s |}.

Definition validateAndSelectFile (s : RestoreSection) (f : File) : RestoreSection * list callback :=
  if isValid f
  then ({| dragActive := dragActive s; selectedFile := Some f; confirmRestore := false; restoring := restoring s |},
        [OnError []])
  else (s, [OnError (js "Định dạng file không hỗ trợ. Vui lòng chọn file database (.db, .sqlite, .sql, .tar.gz)")]).

(** [handleFileInputChange]: the first of the chosen files. *)
Definition handleFileInputChange (s : RestoreSection) (files : list File) : RestoreSection * list callback :=
  match files with f :: _ => validateAndSelectFile s f | [] => (s, []) end.

Definition handleDrop (s : RestoreSection) (files : list File) : RestoreSection * list callback :=
  handleFileInputChange (set_drag false s) files.

Definition removeFile (s : RestoreSection) : RestoreSection :=
  {| dragActive := dragActive s; selectedFile := None; confirmRestore := confirmRestore s; restoring := restoring s |}.
Definition set_confirm (s : RestoreSection) (b : bool) : RestoreSection :=
  {| dragActive := dragActive s; selectedFile := selectedFile s; confirmRestore := b; restoring := restoring s |}.
Definition set_restoring (s : RestoreSection) (b : bool) : RestoreSection :=
  {| dragActive := dragActive s; selectedFile := selectedFile s; confirmRestore := confirmRestore s; restoring := b |}.

Definition handleExecuteRestore (s : RestoreSection) : RestoreSection * list callback :=
  match selectedFile s with
  | None => (s, [])
  | Some f =>
      if confirmRestore s then (set_restoring s true, [OnError []; SendRestore f])
      else (s, [OnError (js "Vui lòng tích xác nhận ghi đè cơ sở dữ liệu trước khi phục hồi.")])
  end.

Definition restore_settled (s : RestoreSection) (r : result ApiError RestoreResult) : RestoreSection * list callback :=
  match r with
  | Ok res =>
      ({| dragActive := dragActive s; selectedFile := None; confirmRestore := false; restoring := false |},
       [OnSuccess (str_or (rr_message res) (js "Phục hồi cơ sở dữ liệu thành công!")); OnRestoreCompleted])
  | Throw e => (set_restoring s false, [OnError (str_or (err_message e) (js "Lỗi phục hồi snapshot database"))])
  end.

(** [disabled={restoring || !confirmRestore}] *)
Definition execute_disabled (s : RestoreSection) : bool := restoring s || negb (confirmRestore s).

(** *** The section as a machine *)

Inductive restore_event :=
| DragOver | DragLeave
| Drop (files : list File)
| Choose (files : list File)
| Remove
| Confirm (b : bool)
| Execute
| Restored (r : result ApiError RestoreResult).

Definition restore_handle (s : RestoreSection) (e : restore_event) : RestoreSection * list callback :=
  match e with
  | DragOver => (set_drag true s, [])
  | DragLeave => (set_drag false s, [])
  | Drop files => handleDrop s files
  | Choose files => handleFileInputChange s files
  | Remove => (removeFile s, [])
  | Confirm b => (set_confirm s b, [])
  | Execute => handleExecuteRestore s
  | Restored r => restore_settled s r
  end.

Definition restore_run (s : RestoreSection) (es : list restore_event) : RestoreSection :=
  fold_left (fun s e => (restore_handle s e).1) es s.

(** ** The page: the tab with its section *)

(** [mounts] numbers the instances of the section; it is how a settled
    request finds out whether the instance that made it is still there. *)
Record BackupPage := { tab : BackupRestoreTab; section : option RestoreSection; mounts : nat }.

Definition apply_callback (t : BackupRestoreTab) (c : callback) : BackupRestoreTab :=
  match c with
  | OnError m => set_error m t
  | OnSuccess m => set_success m t
  | OnRestoreCompleted => loadOverview_start t
  | SendRestore _ => t
  end.

(** [if (loading) return ...]: the sections are there only otherwise. *)
Definition render (p : BackupPage) : BackupPage :=
  if loading (tab p) then {| tab := tab p; section := None; mounts := mounts p |}
  else match section p with
       | Some _ => p
       | None => {| tab := tab p; section := Some initial_restore; mounts := S (mounts p) |}
       end.

Inductive page_event :=
| InSection (e : restore_event)
| RestoreAnswer (instance : nat) (r : result ApiError RestoreResult)
| InTab (f : BackupRestoreTab -> BackupRestoreTab).

Definition page_handle (p : BackupPage) (e : page_event) : BackupPage :=
  render
    match e with
    | InSection e =>
        match section p with
        | None => p
        | Some s =>
            let '(s', cs) := restore_handle s e in
            {| tab := fold_left apply_callback cs (tab p); section := Some s'; mounts := mounts p |}
        end
    | RestoreAnswer i r =>
        let '(s', cs) := restore_settled (default initial_restore (section p)) r in
        {| tab := fold_left apply_callback cs (tab p);
           section := match section p with
                      | Some s => Some (if Nat.eqb i (mounts p) then s' else s)
                      | None => None
                      end;
           mounts := mounts p |}
    | InTab f => {| tab := f (tab p); section := section p; mounts := mounts p |}
    end.

(** ** Lemmas *)

Lemma endsWith_spec p s : endsWith p s = true <-> p `suffix_of` s.
Proof.
  unfold endsWith. rewrite startsWith_spec. split; intros [k Hk].
  - exists (reverse k). apply (f_equal reverse) in Hk. by rewrite reverse_involutive, reverse_app, reverse_involutive in Hk.
  - exists (reverse k). by rewrite Hk, reverse_app.
Qed.

(** The file an event selects. *)
Definition picked (e : restore_event) : option File :=
  match e with
  | Drop (f :: _) | Choose (f :: _) => if isValid f then Some f else None
  | _ => None
  end.

(** An event after which a selected file is still the selected one. *)
Definition keeps_file (e : restore_event) : Prop :=
  picked e = None /\ e <> Remove /\ forall res, e <> Restored (Ok res).

(** The history behind a selected file, and behind its confirmation. *)
Definition selected_in (h : list restore_event) (f : File) (confirmed : bool) : Prop :=
  exists pre e rest, h = pre ++ e :: rest /\ picked e = Some f /\ Forall keeps_file rest /\
    (confirmed = true -> exists mid post, rest = mid ++ Confirm true :: post /\ Confirm false ∉ post).

Lemma selected_in_snoc h f b e :
  selected_in h f b -> keeps_file e -> (forall c, e <> Confirm c) -> selected_in (h ++ [e]) f b.
Proof.
  intros (pre & e0 & rest & -> & Hp & Hr & Hc) He Hn. exists pre, e0, (rest ++ [e]).
  split; [by rewrite <- app_assoc|]. split; [done|]. split; [by apply Forall_app, conj, Forall_singleton|].
  intros Hb. destruct (Hc Hb) as (mid & post & -> & Hpost). exists mid, (post ++ [e]).
  split; [by rewrite <- app_assoc|]. intros [?|[?|?%elem_of_nil]%elem_of_cons]%elem_of_app; [done| |done]. by eapply Hn.
Qed.

Lemma selected_in_confirm h f b c : selected_in h f b -> selected_in (h ++ [Confirm c]) f c.
Proof.
  intros (pre & e0 & rest & -> & Hp & Hr & _). exists pre, e0, (rest ++ [Confirm c]).
  split; [by rewrite <- app_assoc|]. split; [done|]. split; [apply Forall_app; split; [done|by repeat constructor]|].
  intros ->. exists rest, []. split; [done|]. apply not_elem_of_nil.
Qed.

Definition restore_inv (h : list restore_event) (s : RestoreSection) : Prop :=
  forall f, selectedFile s = Some f -> selected_in h f (confirmRestore s).

Lemma restore_select_inv h s f e :
  (forall f', picked e = Some f' <-> f' = f /\ isValid f = true) -> e <> Remove -> (forall r, e <> Restored r) ->
  (forall c, e <> Confirm c) -> restore_inv h s -> restore_inv (h ++ [e]) (validateAndSelectFile s f).1.
Proof.
  intros Hpick Hr Hres Hc Hi f'. unfold validateAndSelectFile. destruct (isValid f) eqn:E; cbn [fst selectedFile confirmRestore].
  - intros E'%(inj Some). subst f'. exists h, e, []. split; [done|]. split; [by apply Hpick|]. split; [constructor|done].
  - intros Hf. apply selected_in_snoc; [by apply Hi| |done]. split; [|split; [done|by intros res]].
    destruct (picked e) as [f''|]; [|done]. by destruct (proj1 (Hpick f'') eq_refl).
Qed.

Lemma restore_step_inv h s e : restore_inv h s -> restore_inv (h ++ [e]) (restore_handle s e).1.
Proof.
  intros Hi. assert (keeps_file e -> (forall c, e <> Confirm c) -> restore_inv (h ++ [e]) s) as Hkeep
    by (intros Hk Hc f Hf; apply selected_in_snoc; auto).
  destruct e as [| |files|files| |b| |r]; cbn [restore_handle fst].
  - by apply Hkeep.
  - by apply Hkeep.
  - unfold handleDrop, handleFileInputChange. destruct files as [|f files]; [by apply Hkeep|].
    apply restore_select_inv; try done. intros f'. simpl. destruct (isValid f); naive_solver.
  - unfold handleFileInputChange. destruct files as [|f files]; [by apply Hkeep|].
    apply restore_select_inv; try done. intros f'. simpl. destruct (isValid f); naive_solver.
  - by intros f.
  - intros f Hf. eapply selected_in_confirm. by apply Hi.
  - unfold handleExecuteRestore. destruct (selectedFile s) as [f|] eqn:Ef; [|by apply Hkeep].
    destruct (confirmRestore s); by apply Hkeep.
  - destruct r as [res|er]; [by intros f|]. by apply Hkeep.
Qed.

Lemma restore_run_inv es : restore_inv es (restore_run initial_restore es).
Proof.
  induction es as [|e es IH] using rev_ind; [by intros f|].
  unfold restore_run. rewrite fold_left_app. by apply restore_step_inv.
Qed.

(** ** Theorems *)

(** C11: a snapshot is restored only on purpose. Whatever happened to the
    section, if executing sends a file then the file has an accepted name,
    it was selected, the confirmation was given after that selection and not
    withdrawn since, and neither a removal, another selection nor a finished
    restore came in between. *)
Theorem restore_confirmed (es : list restore_event) (f : File) :
  SendRestore f ∈ (restore_handle (restore_run initial_restore es) Execute).2 ->
  isValid f = true /\
  exists pre e mid post,
    es = pre ++ e :: mid ++ Confirm true :: post /\ picked e = Some f /\
    Forall keeps_file (mid ++ Confirm true :: post) /\ Confirm false ∉ post.
Proof.
  pose proof (restore_run_inv es) as Hi. cbn [restore_handle]. unfold handleExecuteRestore.
  destruct (selectedFile _) as [g|] eqn:Eg; [|by intros ?%elem_of_nil].
  specialize (Hi _ Eg). destruct (confirmRestore _);
    [|by intros [?|?%elem_of_nil]%elem_of_cons].
  intros [?|[E|?%elem_of_nil]%elem_of_cons]%elem_of_cons; [done| |done].
  injection E as ->. destruct Hi as (pre & e & rest & -> & Hp & Hr & Hc).
  destruct (Hc eq_refl) as (mid & post & -> & Hpost). split; [|by exists pre, e, mid, post].
  destruct e as [| |[|x fs]|[|x fs]| | | |]; simpl in Hp; try done;
    (destruct (isValid x) eqn:E; [|done]; injection Hp as <-; done).
Qed.

End Restore.

(** ** The name of a downloaded file *)

Lemma take_while_stop p a r : Forall (fun c => p c = true) a -> match r with c :: _ => p c = false | [] => True end ->
  take_while p (a ++ r) = a.
Proof.
  intros Ha Hr. induction Ha as [|c a Hc _ IH]; simpl.
  - destruct r as [|c r]; simpl; [done|]. by rewrite Hr.
  - by rewrite Hc, IH.
Qed.

Lemma match_filename_attachment r : match_filename (js "attachment; " ++ r) = match_filename r.
Proof. reflexivity. Qed.

Lemma match_filename_here r :
  match_filename (js "filename=" ++ r) =
  match take_while filename_char (match r with 34%N :: r' => r' | _ => r end) with
  | [] => match_filename (js "ilename=" ++ r)
  | g => Some g
  end.
Proof. reflexivity. Qed.

(** The header as the control plane writes it. *)
Definition disposition (name : jsstring) : jsstring := js "attachment; filename=" ++ [34%N] ++ name ++ [34%N].

(** The name in the header is the name of the saved file: for every
    non-empty name without quotes and semicolons; without the header the
    name is made of the date of the download, which is printed in full. *)
Theorem download_name_roundtrip (now : Z) (name : jsstring) :
  (0 <= now <= 253402300799999)%Z -> name <> [] -> Forall (fun c => filename_char c = true) name ->
  download_filename now (Some (disposition name)) = Some name /\
  let '(y, m, d) := civil (now / msPerDay) in
  download_filename now None =
    Some (js "aurora-waf-backup-" ++ (pad 4 y ++ 45%N :: pad 2 (m + 1) ++ 45%N :: pad 2 d) ++ js ".db").
Proof.
  intros Hnow Hne Hn. destruct (toISOString_defined now) as [iso Hiso]; [unfold max_time; lia|].
  assert (0 <= (civil (now / msPerDay)).1.1 <= 9999)%Z as Hy.
  { assert (0 <= now / msPerDay <= 2932896)%Z as Hd by (unfold msPerDay; Z.to_euclidean_division_equations; lia).
    clear -Hd. set (n := (now / msPerDay)%Z) in *. clearbody n. unfold civil.
    pose proof (year_and_day_bounds n) as Hb. destruct (year_and_day n) as [y doy]. destruct Hb as [Hb1 Hb2].
    cbn [fst]. unfold DaysInYear in Hb2. pose proof (InLeapYear_bounds y). unfold DayFromYear in Hb1.
    Z.to_euclidean_division_equations; lia. }
  pose proof (toISOString_date now iso Hiso Hy) as Hdate. unfold download_filename. rewrite Hiso. cbn [mbind option_bind].
  split.
  - assert (includes (js "filename=") (disposition name) = true) as ->
      by (apply includes_spec; exists (js "attachment; "), ([34%N] ++ name ++ [34%N]); reflexivity).
    change (disposition name) with (js "attachment; " ++ js "filename=" ++ [34%N] ++ name ++ [34%N]).
    rewrite match_filename_attachment, match_filename_here. cbn [app].
    rewrite take_while_stop by done. by destruct name.
  - destruct (civil (now / msPerDay)) as [[y m] d]. by rewrite Hdate.
Qed.

(** ** The configuration *)

Definition config_texts (c : BackupConfig) : list jsstring :=
  [cron_expression c; s3_endpoint c; s3_bucket c; s3_region c; s3_access_key c; s3_secret_key c;
   s3_prefix c; last_backup_at c; last_backup_status c; last_backup_destination c; updated_at c].

Lemma config_obj_ok c : Forall units_ok (config_texts c) -> num_canonical (s3_retention_days c) -> json_ok (VObj (config_obj c)).
Proof.
  unfold config_texts. rewrite !Forall_cons. intros (? & ? & ? & ? & ? & ? & ? & ? & ? & ? & ? & _) Hn. apply obj_lit_ok.
  repeat (apply Forall_cons; split; [split; [vm_compute; reflexivity|first [done|assumption]]|]). by apply Forall_nil.
Qed.

(** A reader of the object that [updateConfig] sends, as an endpoint with
    the declared type would read it. *)
Definition str_at (k : string) (o : obj) : option jsstring :=
  match obj_get (js k) o with Some (VStr s) => Some s | _ => None end.
Definition bool_at (k : string) (o : obj) : option bool :=
  match obj_get (js k) o with Some (VBool b) => Some b | _ => None end.
Definition num_at (k : string) (o : obj) : option num :=
  match obj_get (js k) o with Some (VNum n) => Some n | _ => None end.

Definition read_config (o : obj) : option BackupConfig :=
  ab ← bool_at "auto_backup_enabled" o; ce ← str_at "cron_expression" o; se ← bool_at "s3_enabled" o;
  ep ← str_at "s3_endpoint" o; bu ← str_at "s3_bucket" o; re ← str_at "s3_region" o;
  ak ← str_at "s3_access_key" o; sk ← str_at "s3_secret_key" o; pr ← str_at "s3_prefix" o;
  rd ← num_at "s3_retention_days" o; la ← str_at "last_backup_at" o; ls ← str_at "last_backup_status" o;
  ld ← str_at "last_backup_destination" o; ua ← str_at "updated_at" o;
  Some {| auto_backup_enabled := ab; cron_expression := ce; s3_enabled := se; s3_endpoint := ep; s3_bucket := bu;
          s3_region := re; s3_access_key := ak; s3_secret_key := sk; s3_prefix := pr; s3_retention_days := rd;
          last_backup_at := la; last_backup_status := ls; last_backup_destination := ld; updated_at := ua |}.

Lemma read_config_obj c : read_config (config_obj c) = Some c.
Proof. destruct c. vm_compute. reflexivity. Qed.

Lemma updateConfig_body o : (with_body ∅ (opt_body (backup_updateConfig o).2)).2 = TextBody (ser [] [] (VObj o)).
Proof. reflexivity. Qed.

(** A successful save is reloaded, and the reload ends. *)
Lemma save_reloads s v c hist :
  let s2 := save_settled (handleSaveConfig s).1 (Ok v) in
  let s3 := loadOverview_finish s2 (Ok {| o_config := Some c; o_history := hist |}) in
  loading s2 = true /\ config s3 = c /\ loading s3 = false /\ savingConfig s3 = false /\ errorBanner s3 = [].
Proof. split_and!; reflexivity. Qed.

(** The configuration that is edited is the configuration that is kept:
    the request of a save carries a JSON text that reads back as the whole
    configuration of the tab, and when the control plane answers the reload
    that follows with what it read, the tab shows that configuration, no
    longer loads or saves, and shows no error. *)
Theorem backup_config_roundtrip (s : BackupRestoreTab) (v : val) (hist : option (list BackupHistoryItem)) :
  Forall units_ok (config_texts (config s)) -> num_canonical (s3_retention_days (config s)) ->
  let '(s1, c) := handleSaveConfig s in
  exists t o kept,
    (with_body ∅ (opt_body c.2)).2 = TextBody t /\ parse t = Some (VObj o) /\ read_config o = Some kept /\
    let s2 := save_settled s1 (Ok v) in
    let s3 := loadOverview_finish s2 (Ok {| o_config := Some kept; o_history := hist |}) in
    loading s2 = true /\ config s3 = config s /\ loading s3 = false /\ savingConfig s3 = false /\ errorBanner s3 = [].
Proof.
  intros Ht Hn. pose proof (save_reloads s v (config s) hist) as Hs.
  pose proof (updateConfig_body (config_obj (config s))) as Hb.
  assert (parse (ser [] [] (VObj (config_obj (config s)))) = Some (VObj (config_obj (config s)))) as Hp.
  { apply parse_ser; [constructor|by apply config_obj_ok]. }
  pose proof (read_config_obj (config s)) as Hr. revert Hs Hb Hp Hr. unfold handleSaveConfig. cbn [fst snd].
  generalize (config_obj (config s)). intros o Hs Hb Hp Hr.
  exists (ser [] [] (VObj o)), o, (config s). exact (conj Hb (conj Hp (conj Hr Hs))).
Qed.

(** The retention is one the schedule understands: what the list offers is
    what is kept, and a text without a number keeps the standard of 30 days. *)
Lemma retention_chosen c n : n ∈ retention_options ->
  s3_retention_days (choose_retention c (int_string n)) = num_of_Z n.
Proof. intros Hn. unfold retention_options in Hn. repeat (apply elem_of_cons in Hn as [->|Hn]; [by vm_compute|]). by apply elem_of_nil in Hn. Qed.

(** Every preset has a description of its own. *)
Lemma presets_described : NoDup (map describeCron cron_presets) /\
  Forall (fun c => negb (startsWith (js "Cron Schedule: ") (describeCron c))) cron_presets.
Proof. split; [by apply (bool_decide_unpack _); vm_compute|by repeat constructor]. Qed.

Lemma download_cases rerr now s o :
  (exists f, (download_settled rerr now s o).2 = Some f /\ downloadingLocal (download_settled rerr now s o).1 = false /\
             errorBanner (download_settled rerr now s o).1 = []) \/
  (exists m, download_settled rerr now s o = download_failed s m).
Proof.
  destruct o as [m|st d b]; cbn [download_settled]; [right; by eexists|].
  destruct (negb _); [right; by eexists|]. destruct b as [u|m]; [|right; by eexists].
  destruct (download_filename now d) as [f|]; [left; by exists f|right; by eexists].
Qed.

(** A request that has settled leaves no flag set, and an error is shown
    exactly when it failed: for saving, uploading and downloading. *)
Theorem backup_requests_settle (s : BackupRestoreTab) (r : result ApiError val) (q : result ApiError BackupHistoryItem)
    (rerr : jsstring) (now : Z) (o : download_outcome) :
  savingConfig (save_settled s r) = false /\ pushingS3 (push_settled s q) = false /\
  downloadingLocal (download_settled rerr now s o).1 = false /\
  (errorBanner (save_settled s r) = [] <-> exists v, r = Ok v) /\
  (errorBanner (push_settled s q) = [] <-> exists v, q = Ok v) /\
  (errorBanner (download_settled rerr now s o).1 = [] <-> exists f, (download_settled rerr now s o).2 = Some f).
Proof.
  split; [done|]. split; [done|]. split_and!.
  - destruct (download_cases rerr now s o) as [(f & _ & H & _)|[m ->]]; [done|reflexivity].
  - destruct r as [v|e]; cbn [save_settled]; [split; [eauto|done]|].
    split; [|by intros [v ?]]. intros Hm. by apply str_or_ne in Hm.
  - destruct q as [v|e]; cbn [push_settled]; [split; [eauto|done]|].
    split; [|by intros [v ?]]. intros Hm. by apply str_or_ne in Hm.
  - destruct (download_cases rerr now s o) as [(f & Hf & _ & He)|[m ->]]; [split; eauto|].
    split; [|by intros [v ?]]. intros Hm. by apply str_or_ne in Hm.
Qed.

(** ** The page *)

Section Page.
Context `{CaseMapping}.

(** The whole flow works: choosing an accepted file, confirming and
    executing sends that file, whatever the state of the section. *)
Lemma restore_flow (s : RestoreSection) (f : File) :
  isValid f = true ->
  (restore_handle (restore_run s [Choose [f]; Confirm true]) Execute).2 = [OnError []; SendRestore f].
Proof. intros Hf. unfold restore_run. cbn [fold_left restore_handle handleFileInputChange]. unfold validateAndSelectFile. by rewrite Hf. Qed.

(** An answer that comes after the section was taken down and put up again
    reaches the banners of the tab but not the new section. *)
Lemma late_answer_spares_section (p : BackupPage) (i : nat) (r : result ApiError RestoreResult) (s : RestoreSection) :
  i <> mounts p -> section p = Some s -> loading (tab p) = false ->
  match r with
  | Throw _ => section (page_handle p (RestoreAnswer i r)) = Some s
  | Ok _ => section (page_handle p (RestoreAnswer i r)) = None
  end.
Proof.
  intros Hi Hs Hl. apply Nat.eqb_neq in Hi. destruct p as [t o m]. cbn [mounts section tab] in *. subst o.
  destruct r as [res|e]; [reflexivity|]. unfold page_handle. cbn [section restore_settled mounts tab fold_left apply_callback].
  rewrite Hi. unfold render. cbn [tab loading set_error]. by rewrite Hl.
Qed.

(** Saving the schedule while a snapshot is selected: the reload takes the
    section down, and it comes back without file and confirmation. *)
Lemma save_forgets_selected_file (p : BackupPage) (v : val) (d : BackupOverview) :
  section (page_handle (page_handle p (InTab (fun t => save_settled t (Ok v)))) (InTab (fun t => loadOverview_finish t (Ok d))))
  = Some initial_restore.
Proof. reflexivity. Qed.

End Page.

(** ** Instances *)

Definition snapshot : File := {| file_name := js "Aurora-2024.DB"; file_size := 4096; file_content := 1 |}.

Lemma restore_confirmed_witness :
  SendRestore snapshot ∈ (restore_handle (restore_run initial_restore [Choose [snapshot]; Confirm true]) Execute).2 /\
  isValid snapshot = true.
Proof.
  assert (SendRestore snapshot ∈ (restore_handle (restore_run initial_restore [Choose [snapshot]; Confirm true]) Execute).2) as Hs.
  { replace (restore_handle (restore_run initial_restore [Choose [snapshot]; Confirm true]) Execute).2
      with [OnError []; SendRestore snapshot] by (vm_compute; reflexivity). right; left. }
  split; [exact Hs|]. apply (restore_confirmed _ _ Hs).
Defined.

Lemma download_name_roundtrip_witness :
  download_filename 1709208123045 (Some (disposition (js "aurora-20240229.db"))) = Some (js "aurora-20240229.db") /\
  download_filename 1709208123045 None = Some (js "aurora-waf-backup-2024-02-29.db").
Proof.
  split; [|vm_compute; reflexivity].
  apply (download_name_roundtrip 1709208123045 (js "aurora-20240229.db")).
  - lia.
  - discriminate.
  - apply List.Forall_forall, forallb_forall. vm_compute. reflexivity.
Defined.

Definition loaded_tab : BackupRestoreTab := loadOverview_finish initial_tab (Ok {| o_config := None; o_history := None |}).

Lemma backup_config_roundtrip_witness :
  exists t, (with_body ∅ (opt_body (handleSaveConfig loaded_tab).2.2)).2 = TextBody t.
Proof.
  destruct (backup_config_roundtrip loaded_tab VNull None) as (t & o & kept & Ht & _).
  - repeat (apply Forall_cons; split; [by repeat constructor|]). by apply Forall_nil.
  - apply num_of_Z_canonical.
  - exists t. exact Ht.
Defined.
