(* ===== verification/Analytics.v ===== *)
(** * Analytics explorer

    [pages/analytics/page.tsx] with its [PresetSelector], [QueryBuilder],
    [AnalyticsHeader] and [TimeSeriesCanvas], and [lib/api/analytics.ts]:
    the queries being built, the time window, the execution of a query
    against the metrics source and the table and statistics that the chart
    draws. Values of series are the exact decimal values of their doubles
    and the means exact quotients; the clock and the answers are
    arguments. *)

From Stdlib Require Import ZArith NArith Lia String Sorting.Sorted.
From stdpp Require Import gmap.
From S2P Require Import Prelude JsString JsValue Json Fetcher Numbers Api.
Local Open Scope string_scope.
Local Open Scope list_scope.

(** ** The types of [analytics.ts] *)

Record AnalyticsQueryItem := {
  q_id : jsstring;
  metric_key : jsstring;
  aggregation : option jsstring;
  filters : option (list (jsstring * jsstring));
  group_by : option (list jsstring)
}.

(** The exact value of a double of the answer, [mant * 10 ^ expo]. It is not
    the numeral in the JSON text: the double nearest to 1.005 is
    1.00499999999999989..., and [toFixed] rounds that value. *)
Record dec := { mant : Z; expo : Z }.

Record AnalyticsSeries := {
  query_id : jsstring;
  s_metric_key : jsstring;
  s_labels : list (jsstring * jsstring);
  timestamps : list Z;
  values : list dec
}.

Record MetricDefinition := {
  m_key : jsstring;
  m_label : jsstring;
  m_unit : jsstring;
  m_description : jsstring;
  supported_aggregations : option (list jsstring);
  supported_group_by : option (list jsstring);
  m_extension_required : option jsstring;
  promql_template : jsstring
}.

Record MetricCatalogCategory := {
  cat_id : jsstring;
  cat_name : jsstring;
  cat_description : jsstring;
  cat_extension_required : option jsstring;
  metrics : list MetricDefinition
}.

Record TelemetrySourceInfo := {
  src_id : jsstring;
  src_name : jsstring;
  src_type : jsstring;
  src_status : jsstring;
  src_url : option jsstring
}.

(** [MetricCatalogResponse]; a member may be missing. *)
Record MetricCatalogResponse := {
  r_sources : option (list TelemetrySourceInfo);
  r_categories : option (list MetricCatalogCategory)
}.

Definition query_item_val (q : AnalyticsQueryItem) : val :=
  vobj [("id", VStr (q_id q)); ("metric_key", VStr (metric_key q)); ("aggregation", opt_str (aggregation q));
        ("filters", match filters q with Some f => VObj (map (fun kv => (kv.1, VStr kv.2)) f) | None => VUndef end);
        ("group_by", match group_by q with Some l => VArr (map VStr l) | None => VUndef end)].

Definition analytics_base : jsstring := js "/api/v1/analytics".

(** [AnalyticsQueryRequest] and [AnalyticsRawQueryRequest] *)
Definition analytics_query (source_id : jsstring) (queries : list AnalyticsQueryItem) (start end_ step_seconds : Z) : call :=
  api_post (analytics_base ++ js "/query")
    (body [("source_id", VStr source_id); ("queries", VArr (map query_item_val queries)); ("start", VInt start);
           ("end", VInt end_); ("step_seconds", VInt step_seconds)]).
Definition analytics_queryRaw (source_id query : jsstring) (start end_ step_seconds : Z) : call :=
  api_post (analytics_base ++ js "/query-raw")
    (body [("source_id", VStr source_id); ("query", VStr query); ("start", VInt start);
           ("end", VInt end_); ("step_seconds", VInt step_seconds)]).
Definition analytics_getCatalog : call := api_get (analytics_base ++ js "/catalog") None.

(** ** Presets *)

Inductive PresetType := Traffic | Waf | RateLimit | System | Custom.

#[global] Instance PresetType_eq_dec : EqDecision PresetType.
Proof. solve_decision. Defined.

Definition preset_query (qid metric agg grp : string) : AnalyticsQueryItem :=
  {| q_id := js qid; metric_key := js metric; aggregation := Some (js agg); filters := None; group_by := Some [js grp] |}.

(** The queries of [PRESET_DEFINITIONS]. *)
Definition PRESET_DEFINITIONS : list (PresetType * list AnalyticsQueryItem) :=
  [(Traffic, [preset_query "A" "traffic.requests_rate" "sum" "node_id";
              preset_query "B" "traffic.connections_active" "sum" "node_id"]);
   (Waf, [preset_query "A" "waf.blocks_rate" "sum" "action"; preset_query "B" "waf.rules_triggered" "sum" "rule_id"]);
   (RateLimit, [preset_query "A" "rate_limit.rejected" "sum" "zone"; preset_query "B" "rate_limit.delayed" "sum" "zone"]);
   (System, [preset_query "A" "system.cpu_percent" "avg" "node_id";
             preset_query "B" "system.memory_percent" "avg" "node_id"]);
   (Custom, [])].

(** ** The query builder *)

Definition fromCharCode (n : nat) : jsstring := [N.of_nat n mod 65536]%N.

Definition first_metric (categories : list MetricCatalogCategory) : jsstring :=
  str_or (match categories with c :: _ => match metrics c with m :: _ => m_key m | [] => [] end | [] => [] end)
    (js "traffic.requests_rate").

Definition addQuery (categories : list MetricCatalogCategory) (queries : list AnalyticsQueryItem) : list AnalyticsQueryItem :=
  queries ++ [{| q_id := fromCharCode (65 + length queries); metric_key := first_metric categories;
                 aggregation := Some (js "sum"); filters := None; group_by := Some [js "node_id"] |}].

Definition removeQuery (queries : list AnalyticsQueryItem) (index : nat) : list AnalyticsQueryItem :=
  if Nat.leb (length queries) 1 then queries else remove_at index queries.

(** The fields that [updateQueryField] is called with. *)
Inductive query_edit :=
| EditMetric (k : jsstring)
| EditAggregation (a : jsstring)
| EditGroupBy (g : list jsstring)
| EditFilters (f : list (jsstring * jsstring)).

Definition apply_edit (e : query_edit) (q : AnalyticsQueryItem) : AnalyticsQueryItem :=
  match e with
  | EditMetric k => {| q_id := q_id q; metric_key := k; aggregation := aggregation q; filters := filters q; group_by := group_by q |}
  | EditAggregation a => {| q_id := q_id q; metric_key := metric_key q; aggregation := Some a; filters := filters q; group_by := group_by q |}
  | EditGroupBy g => {| q_id := q_id q; metric_key := metric_key q; aggregation := aggregation q; filters := filters q; group_by := Some g |}
  | EditFilters f => {| q_id := q_id q; metric_key := metric_key q; aggregation := aggregation q; filters := Some f; group_by := group_by q |}
  end.

(** The index is that of a row that is shown. *)
Definition updateQueryField (queries : list AnalyticsQueryItem) (index : nat) (e : query_edit) : list AnalyticsQueryItem :=
  alter (apply_edit e) index queries.

(** [e.target.value ? [e.target.value] : []] *)
Definition group_by_edit (v : jsstring) : query_edit := EditGroupBy (match v with [] => [] | _ => [v] end).

(** The node filter: an empty text deletes the key. *)
Definition node_filter_edit (q : AnalyticsQueryItem) (v : jsstring) : query_edit :=
  let newFilters := default [] (filters q) in
  EditFilters (match v with [] => obj_del (js "node_id") newFilters | _ => obj_put (js "node_id") v newFilters end).

(** The value the filter shows: [q.filters?.node_id || ''] *)
Definition node_filter (q : AnalyticsQueryItem) : jsstring := default [] (obj_get (js "node_id") (default [] (filters q))).

(** [break] leaves the inner loop only: the last category that has the key
    decides. *)
Definition currentDef (categories : list MetricCatalogCategory) (key : jsstring) : option MetricDefinition :=
  fold_left (fun d cat => match List.find (fun m => jeqb (m_key m) key) (metrics cat) with Some m => Some m | None => d end)
    categories None.

Definition aggregation_options (d : option MetricDefinition) : list jsstring :=
  default [js "sum"; js "avg"; js "max"; js "min"] (d ≫= supported_aggregations).
Definition group_by_options (d : option MetricDefinition) : list jsstring :=
  default [js "node_id"; js "status"; js "action"] (d ≫= supported_group_by).

(** ** The page *)

Inductive TimeRangePreset := R15m | R1h | R6h | R24h | R7d.
Inductive main_tab := Explorer | Connections.

#[global] Instance main_tab_eq_dec : EqDecision main_tab.
Proof. solve_decision. Defined.

Record AnalyticsPage := {
  activeMainTab : main_tab;
  sources : list TelemetrySourceInfo;
  categories : list MetricCatalogCategory;
  selectedSourceId : jsstring;
  timeRange : TimeRangePreset;
  autoRefreshInterval : Z;
  activePreset : PresetType;
  queries : list AnalyticsQueryItem;
  isRawMode : bool;
  rawPromQL : jsstring;
  series : list AnalyticsSeries;
  isLoading : bool;
  error : val
}.

Definition initial_page : AnalyticsPage :=
  {| activeMainTab := Explorer; sources := []; categories := []; selectedSourceId := js "prometheus";
     timeRange := R1h; autoRefreshInterval := 30; activePreset := Traffic;
     queries := default [] (snd <$> head PRESET_DEFINITIONS); isRawMode := false;
     rawPromQL := js "sum(rate(nginx_http_requests_total[1m]))"; series := []; isLoading := false; error := VNull |}.

Definition set_answer (s : AnalyticsPage) (l : list AnalyticsSeries) (busy : bool) (err : val) : AnalyticsPage :=
  {| activeMainTab := activeMainTab s; sources := sources s; categories := categories s;
     selectedSourceId := selectedSourceId s; timeRange := timeRange s; autoRefreshInterval := autoRefreshInterval s;
     activePreset := activePreset s; queries := queries s; isRawMode := isRawMode s; rawPromQL := rawPromQL s;
     series := l; isLoading := busy; error := err |}.
Definition set_controls (s : AnalyticsPage) (p : PresetType) (qs : list AnalyticsQueryItem) (raw : bool) (text : jsstring) : AnalyticsPage :=
  {| activeMainTab := activeMainTab s; sources := sources s; categories := categories s;
     selectedSourceId := selectedSourceId s; timeRange := timeRange s; autoRefreshInterval := autoRefreshInterval s;
     activePreset := p; queries := qs; isRawMode := raw; rawPromQL := text;
     series := series s; isLoading := isLoading s; error := error s |}.
Definition set_window (s : AnalyticsPage) (t : main_tab) (src : jsstring) (r : TimeRangePreset) (every : Z) : AnalyticsPage :=
  {| activeMainTab := t; sources := sources s; categories := categories s;
     selectedSourceId := src; timeRange := r; autoRefreshInterval := every;
     activePreset := activePreset s; queries := queries s; isRawMode := isRawMode s; rawPromQL := rawPromQL s;
     series := series s; isLoading := isLoading s; error := error s |}.

(** [getTimeBounds]: duration and step of a range, then the window that
    ends at [now], in seconds. [now] is [Date.now()]. *)
Definition range_seconds (r : TimeRangePreset) : Z * Z :=
  match r with
  | R15m => (900, 5)
  | R1h => (3600, 15)
  | R6h => (21600, 60)
  | R24h => (86400, 300)
  | R7d => (604800, 1800)
  end%Z.

Record TimeBounds := { start : Z; end_ : Z; step_seconds : Z }.

Definition getTimeBounds (r : TimeRangePreset) (now_ms : Z) : TimeBounds :=
  let now := (now_ms / 1000)%Z in
  let '(duration, step) := range_seconds r in
  {| start := now - duration; end_ := now; step_seconds := step |}.

(** [refreshCatalog]: a failure is only logged. *)
Definition catalog_settled (s : AnalyticsPage) (r : result ApiError MetricCatalogResponse) : AnalyticsPage :=
  match r with
  | Throw _ => s
  | Ok res =>
      {| activeMainTab := activeMainTab s; sources := default [] (r_sources res);
         categories := default [] (r_categories res);
         selectedSourceId := match r_sources res with Some (src :: _) => src_id src | _ => selectedSourceId s end;
         timeRange := timeRange s; autoRefreshInterval := autoRefreshInterval s; activePreset := activePreset s;
         queries := queries s; isRawMode := isRawMode s; rawPromQL := rawPromQL s; series := series s;
         isLoading := isLoading s; error := error s |}
  end.

(** [executeQuery] up to its request. *)
Definition executeQuery (s : AnalyticsPage) (now_ms : Z) : AnalyticsPage * option call :=
  match activeMainTab s with
  | Connections => (s, None)
  | Explorer =>
      let b := getTimeBounds (timeRange s) now_ms in
      if isRawMode s then
        match trim (rawPromQL s) with
        | [] => (set_answer s (series s) false VNull, None)
        | q => (set_answer s (series s) true VNull,
                Some (analytics_queryRaw (selectedSourceId s) q (start b) (end_ b) (step_seconds b)))
        end
      else
        match queries s with
        | [] => (set_answer s (series s) false VNull, None)
        | qs => (set_answer s (series s) true VNull,
                 Some (analytics_query (selectedSourceId s) qs (start b) (end_ b) (step_seconds b)))
        end
  end.

Definition query_fallback (raw : bool) : jsstring :=
  if raw then js "Lỗi truy vấn PromQL từ máy chủ Prometheus" else js "Không thể lấy số liệu từ máy chủ metrics".

(** [err?.data?.message || err?.data?.error || err?.message || fallback] *)
Definition query_error (raw : bool) (e : ApiError) : val :=
  val_or (opt_prop (js "message") (err_data e))
    (val_or (opt_prop (js "error") (err_data e)) (VStr (str_or (err_message e) (query_fallback raw)))).

(** ... and from it, for a request made in the mode [raw]. *)
Definition query_settled (s : AnalyticsPage) (raw : bool) (r : result ApiError (option (list AnalyticsSeries))) : AnalyticsPage :=
  match r with
  | Ok l => set_answer s (default [] l) false (error s)
  | Throw e => set_answer s [] false (query_error raw e)
  end.

Definition handleSelectPreset (s : AnalyticsPage) (p : PresetType) : AnalyticsPage :=
  match List.find (fun d => bool_decide (d.1 = p)) PRESET_DEFINITIONS with
  | Some (_, (q :: qs)) => set_controls s p (q :: qs) false (rawPromQL s)
  | _ => set_controls s p (queries s) (isRawMode s) (rawPromQL s)
  end.

Definition onChangeQueries (s : AnalyticsPage) (qs : list AnalyticsQueryItem) : AnalyticsPage :=
  set_controls s Custom qs (isRawMode s) (rawPromQL s).
Definition onToggleRawMode (s : AnalyticsPage) (raw : bool) : AnalyticsPage :=
  set_controls s Custom (queries s) raw (rawPromQL s).
Definition setRawPromQL (s : AnalyticsPage) (t : jsstring) : AnalyticsPage :=
  set_controls s (activePreset s) (queries s) (isRawMode s) t.

(** The timer of the auto refresh: nothing outside the explorer, nothing
    when it is off, nothing while the document is hidden. *)
Definition auto_refresh (s : AnalyticsPage) (visible : bool) (now_ms : Z) : AnalyticsPage * option call :=
  if bool_decide (activeMainTab s <> Explorer) || (autoRefreshInterval s <=? 0)%Z || negb visible then (s, None)
  else executeQuery s now_ms.

(** [sources.find((s) => s.id === selectedSourceId) || sources[0]] *)
Definition selectedSource (s : AnalyticsPage) : option TelemetrySourceInfo :=
  match List.find (fun x => jeqb (src_id x) (selectedSourceId s)) (sources s) with
  | Some x => Some x
  | None => head (sources s)
  end.

(** ** The chart *)

Definition SERIES_COLORS : list jsstring :=
  map js ["#10b981"; "#06b6d4"; "#8b5cf6"; "#f59e0b"; "#f43f5e"; "#3b82f6"; "#14b8a6"; "#ec4899"].

Definition dataKey (idx : nat) : jsstring := js "s_" ++ int_string (Z.of_nat idx).

Record SeriesMeta := { meta_dataKey : jsstring; meta_label : jsstring; meta_color : jsstring; meta_metricKey : jsstring }.

Definition series_label (s : AnalyticsSeries) : jsstring :=
  (match query_id s with [] => [] | q => js "[" ++ q ++ js "] " end) ++
  (match s_labels s with
   | [] => s_metric_key s
   | ls => join (js ", ") (map (fun kv => kv.1 ++ js "=" ++ kv.2) ls)
   end).

Definition seriesMeta (l : list AnalyticsSeries) : list SeriesMeta :=
  imap (fun idx s =>
    {| meta_dataKey := dataKey idx; meta_label := series_label s;
       meta_color := default [] (SERIES_COLORS !! (idx mod length SERIES_COLORS)%nat);
       meta_metricKey := s_metric_key s |}) l.

(** [hiddenSeries]: keys never set are visible. *)
Definition toggleSeries (hidden : gmap jsstring bool) (key : jsstring) : gmap jsstring bool :=
  <[key := negb (default false (hidden !! key))]> hidden.

(** [Number((p / q).toFixed(2))] in hundredths: the nearest one to the exact
    value, of two equally near the one farther from zero. *)
Definition hundredths (p q : Z) : Z := (Z.sgn p * round_half_up (Z.abs p * 100) q)%Z.
Definition dec_hundredths (d : dec) : Z :=
  if (0 <=? expo d)%Z then hundredths (mant d * 10 ^ expo d) 1 else hundredths (mant d) (10 ^ (- expo d)).

(** What the two nested loops visit, in order; reading a missing value and
    calling [toFixed] on it throws ([None]). *)
Definition series_points (idx : nat) (s : AnalyticsSeries) : option (list (Z * (jsstring * Z))) :=
  if Nat.leb (length (timestamps s)) (length (values s))
  then Some (zip_with (fun ts v => (ts, (dataKey idx, dec_hundredths v))) (timestamps s) (values s))
  else None.

Definition points (l : list AnalyticsSeries) : option (list (Z * (jsstring * Z))) :=
  @List.concat _ <$> mapM (fun '(idx, s) => series_points idx s) (imap pair l).

(** A row: the value of each series at one time. *)
Abbreviation chart_row := (list (jsstring * Z)).

Definition add_point (m : gmap Z chart_row) (pt : Z * (jsstring * Z)) : gmap Z chart_row :=
  <[pt.1 := obj_put pt.2.1 pt.2.2 (default [] (m !! pt.1))]> m.

Definition timeMap (pts : list (Z * (jsstring * Z))) : gmap Z chart_row := fold_left add_point pts ∅.

Definition sortedTimestamps (m : gmap Z chart_row) : list Z := stable_sort Z.leb (map_to_list m).*1.

Definition chartData (l : list AnalyticsSeries) : option (list (Z * chart_row)) :=
  pts ← points l;
  let m := timeMap pts in
  Some (map (fun ts => (ts, default [] (m !! ts))) (sortedTimestamps m)).

(** ** Statistics, in hundredths *)

Record Stats := { st_current : Z; st_max : Z; st_min : Z; st_avg : Z }.

Definition allValues (l : list AnalyticsSeries) : list dec := List.concat (map values l).
Definition latestVal (l : list AnalyticsSeries) : dec :=
  fold_left (fun v s => match last (values s) with Some d => d | None => v end) l {| mant := 0; expo := 0 |}.

(** The values over a common power of ten. *)
Definition common_expo (ds : list dec) : Z := fold_right (fun d k => Z.min (expo d) k) 0%Z ds.
Definition scaled (k : Z) (d : dec) : Z := (mant d * 10 ^ (expo d - k))%Z.

Definition stats (l : list AnalyticsSeries) : Stats :=
  match allValues l with
  | [] => {| st_current := 0; st_max := 0; st_min := 0; st_avg := 0 |}
  | d :: ds =>
      let k := common_expo (d :: ds) in
      let q := (10 ^ (- k))%Z in
      let v := scaled k d in
      let vs := map (scaled k) ds in
      {| st_current := dec_hundredths (latestVal l);
         st_max := hundredths (fold_left Z.max vs v) q;
         st_min := hundredths (fold_left Z.min vs v) q;
         st_avg := hundredths (fold_left Z.add vs v) (q * Z.of_nat (S (length ds))) |}
  end.

(** The number that is shown. *)
Definition shown_number (h : Z) : num := num_make h (-2).

(** ** Lemmas: the chart *)

(** The last value that the points give to a series at a time. *)
Fixpoint last_point (pts : list (Z * (jsstring * Z))) (ts : Z) (k : jsstring) : option Z :=
  match pts with
  | [] => None
  | (t, (k', v)) :: pts' =>
      match last_point pts' ts k with
      | Some w => Some w
      | None => if (t =? ts)%Z && jeqb k' k then Some v else None
      end
  end.

Lemma timeMap_lookup pts (m : gmap Z chart_row) ts k :
  obj_get k (default [] (fold_left add_point pts m !! ts)) =
  match last_point pts ts k with Some v => Some v | None => obj_get k (default [] (m !! ts)) end.
Proof.
  revert m. induction pts as [|[t [k' v]] pts IH]; intros m; simpl; [done|]. rewrite IH.
  destruct (last_point pts ts k); [done|]. unfold add_point. simpl. destruct (t =? ts)%Z eqn:E; boolify; simpl.
  - subst t. rewrite lookup_insert_eq. simpl. destruct (jeqb k' k) eqn:Ek.
    + apply jeqb_true in Ek as ->. by rewrite obj_get_put_eq.
    + apply jeqb_false in Ek. by rewrite obj_get_put_ne.
  - by rewrite lookup_insert_ne.
Qed.

Lemma timeMap_keys pts (m : gmap Z chart_row) ts :
  is_Some (fold_left add_point pts m !! ts) <-> is_Some (m !! ts) \/ ts ∈ pts.*1.
Proof.
  revert m. induction pts as [|[t [k v]] pts IH]; intros m; simpl; [set_solver|].
  rewrite IH. unfold add_point. simpl. rewrite lookup_insert_is_Some', elem_of_cons. naive_solver.
Qed.

Lemma sortedTimestamps_elem m ts : ts ∈ sortedTimestamps m <-> is_Some (m !! ts).
Proof.
  unfold sortedTimestamps. rewrite stable_sort_perm, list_elem_of_fmap. split.
  - intros ([t r] & -> & H%elem_of_map_to_list). eauto.
  - intros [r Hr]. exists (ts, r). split; [done|]. by apply elem_of_map_to_list.
Qed.

Lemma strictly_sorted (l : list Z) : NoDup l -> sorted_by Z.leb l -> StronglySorted Z.lt l.
Proof.
  unfold sorted_by. induction 2 as [|x l Hl IH Hx]; constructor; apply NoDup_cons in H as [Hn Hd]; [by apply IH|].
  rewrite Forall_forall in *. intros y Hy. specialize (Hx y Hy). apply Z.leb_le in Hx.
  assert (x <> y) by (by intros ->). lia.
Qed.

Lemma sortedTimestamps_sorted m : StronglySorted Z.lt (sortedTimestamps m).
Proof.
  apply strictly_sorted.
  - unfold sortedTimestamps. rewrite stable_sort_perm. apply NoDup_fst_map_to_list.
  - apply stable_sort_sorted; intros *; rewrite ?Z.leb_le; lia.
Qed.

(** *** The points of one series *)

Lemma dataKey_inj i j : dataKey i = dataKey j -> i = j.
Proof. unfold dataKey. intros H%app_inv_head%int_string_inj. lia. Qed.

(** The last value of a series at a time. *)
Fixpoint value_at (ts : Z) (ts_l : list Z) (vs : list dec) : option dec :=
  match ts_l, vs with
  | t :: ts_l', v :: vs' =>
      match value_at ts ts_l' vs' with Some w => Some w | None => if (t =? ts)%Z then Some v else None end
  | _, _ => None
  end.

Lemma last_point_app a b ts k :
  last_point (a ++ b) ts k = match last_point b ts k with Some v => Some v | None => last_point a ts k end.
Proof.
  induction a as [|[t [k' v]] a IH]; simpl; [by destruct (last_point b ts k)|]. rewrite IH.
  by destruct (last_point b ts k).
Qed.

Lemma last_point_zip key ts k ts_l vs :
  last_point (zip_with (fun t v => (t, (key, dec_hundredths v))) ts_l vs) ts k =
  if jeqb key k then dec_hundredths <$> value_at ts ts_l vs else None.
Proof.
  revert vs. induction ts_l as [|t ts_l IH]; intros [|v vs]; simpl; try (by destruct (jeqb key k)).
  rewrite IH. destruct (jeqb key k), (value_at ts ts_l vs), (t =? ts)%Z; done.
Qed.

Lemma series_points_spec idx s pts : series_points idx s = Some pts ->
  length (timestamps s) <= length (values s) /\ pts.*1 = timestamps s /\
  forall ts k, last_point pts ts k = if jeqb (dataKey idx) k then dec_hundredths <$> value_at ts (timestamps s) (values s) else None.
Proof.
  unfold series_points. destruct (Nat.leb _ _) eqn:E; [|done]. apply Nat.leb_le in E. intros Hp%(inj Some). subst pts.
  split; [done|]. split; [|intros; apply last_point_zip].
  revert E. generalize (values s). induction (timestamps s) as [|t l IH]; intros [|v vs] E; simpl in *; try lia; [done|done|].
  f_equal. apply IH. lia.
Qed.

(** All series, their indices starting at [n]. *)
Definition points_from (n : nat) (l : list AnalyticsSeries) : option (list (Z * (jsstring * Z))) :=
  @List.concat _ <$> mapM (fun '(idx, s) => series_points idx s) (imap (fun i s => (n + i, s)) l).

Lemma points_from_cons n s l :
  points_from n (s :: l) = a ← series_points n s; b ← points_from (S n) l; Some (a ++ b).
Proof.
  unfold points_from. rewrite imap_cons. cbn [mapM]. rewrite Nat.add_0_r.
  destruct (series_points n s) as [a|]; [|done]. cbn [mbind option_bind].
  replace (imap ((fun i s0 => (n + i, s0)) ∘ S) l) with (imap (fun i s0 => (S n + i, s0)) l)
    by (apply imap_ext; intros i x _; simpl; f_equal; lia).
  by destruct (mapM _ _).
Qed.

Lemma points_from_0 l : points_from 0 l = points l.
Proof. reflexivity. Qed.

Lemma points_from_spec l : forall n pts, points_from n l = Some pts ->
  (forall ts, ts ∈ pts.*1 <-> exists s, s ∈ l /\ ts ∈ timestamps s) /\
  (forall i s ts, l !! i = Some s ->
     last_point pts ts (dataKey (n + i)) = dec_hundredths <$> value_at ts (timestamps s) (values s)) /\
  (forall j ts, j < n -> last_point pts ts (dataKey j) = None).
Proof.
  induction l as [|s l IH]; intros n pts.
  - intros [= <-]. split_and!; [|done|done]. intros ts. split; [by intros ?%elem_of_nil|]. by intros (s & ?%elem_of_nil & _).
  - rewrite points_from_cons. destruct (series_points n s) as [a|] eqn:Ea; [|done].
    destruct (points_from (S n) l) as [b|] eqn:Eb; [|done]. cbn [mbind option_bind]. intros Hp%(inj Some). subst pts.
    apply series_points_spec in Ea as (_ & Ha & Hl). destruct (IH _ _ Eb) as (Hk & Hv & Hn). split_and!.
    + intros ts. rewrite fmap_app, elem_of_app, Ha, Hk. setoid_rewrite elem_of_cons. naive_solver.
    + intros [|i] s' ts Hs; rewrite last_point_app.
      * rewrite Nat.add_0_r, Hn, Hl by lia. injection Hs as ->. by rewrite jeqb_refl.
      * replace (n + S i) with (S n + i) by lia. rewrite (Hv i s' ts Hs).
        destruct (dec_hundredths <$> value_at ts (timestamps s') (values s')) eqn:E; [done|].
        rewrite Hl. case_jeqb; [|done]. apply dataKey_inj in E0. lia.
    + intros j ts Hj. rewrite last_point_app, Hn, Hl by lia. case_jeqb; [|done]. apply dataKey_inj in E. lia.
Qed.

(** ** Lemmas: rounding *)

Lemma round_half_up_scale p q n : (0 < q -> 0 < n -> round_half_up (p * n) (q * n) = round_half_up p q)%Z.
Proof.
  intros Hq Hn. unfold round_half_up. replace (2 * (p * n) + q * n)%Z with ((2 * p + q) * n)%Z by ring.
  replace (2 * (q * n))%Z with (2 * q * n)%Z by ring. apply Z.div_mul_cancel_r; lia.
Qed.

Lemma hundredths_scale p q n : (0 < q -> 0 < n -> hundredths (p * n) (q * n) = hundredths p q)%Z.
Proof.
  intros Hq Hn. unfold hundredths. rewrite Z.sgn_mul, (Z.sgn_pos n), Z.abs_mul, (Z.abs_eq n) by lia.
  replace (Z.abs p * n * 100)%Z with (Z.abs p * 100 * n)%Z by ring. rewrite round_half_up_scale by done. ring.
Qed.

Lemma hundredths_mono p p' q : (0 < q -> p <= p' -> hundredths p q <= hundredths p' q)%Z.
Proof.
  intros Hq Hp. unfold hundredths.
  assert (forall x, 0 <= x -> 0 <= round_half_up (x * 100) q)%Z as Hn by (intros; apply round_half_up_nonneg; lia).
  pose proof (Hn (Z.abs p) ltac:(lia)). pose proof (Hn (Z.abs p') ltac:(lia)).
  destruct (Z.sgn_spec p) as [[H1 ->]|[[H1 ->]|[H1 ->]]], (Z.sgn_spec p') as [[H2 ->]|[[H2 ->]|[H2 ->]]]; try lia.
  - pose proof (round_half_up_mono (Z.abs p * 100) (Z.abs p' * 100) q Hq ltac:(lia)). lia.
  - pose proof (round_half_up_mono (Z.abs p' * 100) (Z.abs p * 100) q Hq ltac:(lia)). lia.
Qed.

(** A decimal over a smaller power of ten has the same hundredths. *)
Lemma dec_hundredths_scaled k d : (k <= 0 -> k <= expo d -> dec_hundredths d = hundredths (scaled k d) (10 ^ (- k)))%Z.
Proof.
  intros Hk He. unfold dec_hundredths, scaled. destruct (0 <=? expo d)%Z eqn:E; boolify.
  - replace (mant d * 10 ^ (expo d - k))%Z with (mant d * 10 ^ expo d * 10 ^ (- k))%Z
      by (rewrite <- Z.mul_assoc, <- Z.pow_add_r by lia; do 2 f_equal; lia).
    rewrite <- (hundredths_scale (mant d * 10 ^ expo d) 1 (10 ^ (- k))) by (try lia; by apply Z.pow_pos_nonneg; lia).
    f_equal. lia.
  - rewrite <- (hundredths_scale (mant d) (10 ^ (- expo d)) (10 ^ (expo d - k))) by (apply Z.pow_pos_nonneg; lia).
    rewrite <- Z.pow_add_r by lia. f_equal. f_equal. lia.
Qed.

Lemma common_expo_le ds d : d ∈ ds -> (common_expo ds <= expo d)%Z.
Proof. induction 1; simpl; lia. Qed.
Lemma common_expo_nonpos ds : (common_expo ds <= 0)%Z.
Proof. induction ds; simpl; lia. Qed.

(** [Math.max], [Math.min] and the sum of a non-empty list. *)
Lemma fold_max_ge vs v : (forall x, x ∈ v :: vs -> x <= fold_left Z.max vs v)%Z.
Proof.
  revert v. induction vs as [|w vs IH]; intros v x Hx; simpl; [set_solver by lia|].
  pose proof (IH (Z.max v w) (Z.max v w) ltac:(left)).
  apply elem_of_cons in Hx as [->|[->|Hx]%elem_of_cons]; [lia|lia|]. apply IH. by right.
Qed.
Lemma fold_min_le vs v : (forall x, x ∈ v :: vs -> fold_left Z.min vs v <= x)%Z.
Proof.
  revert v. induction vs as [|w vs IH]; intros v x Hx; simpl; [set_solver by lia|].
  pose proof (IH (Z.min v w) (Z.min v w) ltac:(left)).
  apply elem_of_cons in Hx as [->|[->|Hx]%elem_of_cons]; [lia|lia|]. apply IH. by right.
Qed.
Lemma fold_add_between vs v lo hi : (forall x, x ∈ v :: vs -> lo <= x <= hi)%Z ->
  (lo * Z.of_nat (S (length vs)) <= fold_left Z.add vs v <= hi * Z.of_nat (S (length vs)))%Z.
Proof.
  intros Hb. assert (forall a, (a + lo * Z.of_nat (length vs) <= fold_left Z.add vs a <= a + hi * Z.of_nat (length vs))%Z) as Hs.
  { assert (forall x, x ∈ vs -> lo <= x <= hi)%Z as Hv by (intros; apply Hb; by right). clear Hb.
    induction vs as [|w vs IH]; intros a; [simpl; lia|]. cbn [fold_left length].
    specialize (IH ltac:(intros; apply Hv; by right) (a + w)%Z). specialize (Hv w ltac:(left)). lia. }
  specialize (Hs v). specialize (Hb v ltac:(left)). lia.
Qed.

Lemma latestVal_in l : allValues l <> [] -> latestVal l ∈ allValues l.
Proof.
  unfold latestVal, allValues.
  assert (forall v, (fold_left (fun v s => match last (values s) with Some d => d | None => v end) l v = v /\ List.concat (map values l) = []) \/
    fold_left (fun v s => match last (values s) with Some d => d | None => v end) l v ∈ List.concat (map values l)) as Hl.
  { induction l as [|s l IH]; intros v; [by left|]. cbn [fold_left map List.concat]. destruct (last (values s)) as [d|] eqn:E.
    - right. destruct (IH d) as [[-> _]|H]; apply elem_of_app; [left|by right]. by apply last_Some_elem_of.
    - apply last_None in E. rewrite E. apply IH. }
  intros Hne. destruct (Hl {| mant := 0; expo := 0 |}) as [[_ ?]|?]; done.
Qed.

(** ** The page as a machine *)

(** The requests in flight, by the mode they were made in. *)
Record Machine := { pg : AnalyticsPage; inflight : list bool }.

Inductive control :=
| Preset (p : PresetType)
| AddQuery
| RemoveQuery (index : nat)
| EditQuery (index : nat) (e : query_edit)
| RawMode (raw : bool)
| RawText (t : jsstring)
| Window (t : main_tab) (src : jsstring) (r : TimeRangePreset) (every : Z)
| Catalog (r : result ApiError MetricCatalogResponse).

Definition apply_control (s : AnalyticsPage) (c : control) : AnalyticsPage :=
  match c with
  | Preset p => handleSelectPreset s p
  | AddQuery => onChangeQueries s (addQuery (categories s) (queries s))
  | RemoveQuery i => onChangeQueries s (removeQuery (queries s) i)
  | EditQuery i e => onChangeQueries s (updateQueryField (queries s) i e)
  | RawMode raw => onToggleRawMode s raw
  | RawText t => setRawPromQL s t
  | Window t src r every => set_window s t src r every
  | Catalog r => catalog_settled s r
  end.

Inductive label := LControl (c : control) | LExecute (now_ms : Z) | LAnswer (r : result ApiError (option (list AnalyticsSeries))).

(** A query is executed by the button, by a change of its parameters or by
    the timer: at any time. Answers arrive in any order. *)
Inductive mstep : Machine -> label -> Machine -> Prop :=
| StepControl m c : mstep m (LControl c) {| pg := apply_control (pg m) c; inflight := inflight m |}
| StepExecute m now s' c : executeQuery (pg m) now = (s', c) ->
    mstep m (LExecute now)
      {| pg := s'; inflight := match c with Some _ => isRawMode (pg m) :: inflight m | None => inflight m end |}
| StepAnswer m i raw r : inflight m !! i = Some raw ->
    mstep m (LAnswer r) {| pg := query_settled (pg m) raw r; inflight := remove_at i (inflight m) |}.

Definition initial_machine : Machine := {| pg := initial_page; inflight := [] |}.

Definition machine_inv (m : Machine) : Prop :=
  queries (pg m) <> [] /\ (inflight m = [] -> isLoading (pg m) = false).

Lemma remove_at_ne {A} i (l : list A) : 1 < length l -> remove_at i l <> [].
Proof. destruct l as [|x [|y l]], i; simpl; (lia || done). Qed.

Lemma control_queries s c : queries s <> [] -> queries (apply_control s c) <> [] /\ isLoading (apply_control s c) = isLoading s.
Proof.
  intros Hq. destruct c as [p| |i|i e|raw|t|t src r every|r]; cbn [apply_control].
  - destruct p; by split.
  - split; [|done]. unfold addQuery. cbn. by intros [_ ?]%app_eq_nil.
  - split; [|done]. cbn. unfold removeQuery. destruct (Nat.leb _ _) eqn:E; [done|]. apply Nat.leb_gt in E. by apply remove_at_ne.
  - split; [|done]. cbn. unfold updateQueryField. destruct (queries s) as [|q qs]; [done|]. by destruct i.
  - done.
  - done.
  - done.
  - by destruct r.
Qed.

Lemma execute_flags s now s' c : executeQuery s now = (s', c) ->
  queries s' = queries s /\ (c = None -> isLoading s' = false \/ isLoading s' = isLoading s).
Proof.
  unfold executeQuery. destruct (activeMainTab s); [|intros [= <- <-]; auto].
  destruct (isRawMode s); [destruct (trim (rawPromQL s))|destruct (queries s) eqn:E]; intros [= <- <-]; auto; (split; [done|by auto]).
Qed.

Lemma mstep_inv m l m' : machine_inv m -> mstep m l m' -> machine_inv m'.
Proof.
  intros [Hq Hl] Hs. destruct Hs as [m c|m now s' c He|m i raw r Hi]; split; cbn [pg inflight].
  - by apply control_queries.
  - intros E. rewrite (proj2 (control_queries _ c Hq)). auto.
  - by rewrite (proj1 (execute_flags _ _ _ _ He)).
  - destruct c; [done|]. intros E. destruct (proj2 (execute_flags _ _ _ _ He) eq_refl) as [H|H]; rewrite H; auto.
  - by destruct r.
  - by destruct r.
Qed.

Definition answer_only (l : label) : Prop := match l with LAnswer _ => True | _ => False end.

Lemma answers_count m ls m' : star mstep m ls m' -> Forall answer_only ls -> length ls + length (inflight m') = length (inflight m).
Proof.
  induction 1 as [m|m l m1 ls m2 Hstep _ IH]; intros Hls; [done|]. inversion Hls as [|? ? Hl Hls']; subst.
  destruct Hstep as [| |m i raw r Hi]; try done. specialize (IH Hls'). cbn [inflight length] in *.
  rewrite length_remove_at in IH by (by apply lookup_lt_Some in Hi).
  apply lookup_lt_Some in Hi. lia.
Qed.

Lemma answers_can_drain n : forall m, length (inflight m) = n ->
  exists ls m', star mstep m ls m' /\ Forall answer_only ls /\ inflight m' = [].
Proof.
  induction n as [|n IH]; intros m Hn.
  - exists [], m. split; [constructor|]. split; [constructor|]. by apply nil_length_inv.
  - destruct (inflight m) as [|raw l] eqn:E; [done|].
    set (m1 := {| pg := query_settled (pg m) raw (Ok None); inflight := remove_at 0 (inflight m) |}).
    destruct (IH m1) as (ls & m' & Hs & Hf & He); [unfold m1; rewrite E; simpl in *; lia|].
    exists (LAnswer (Ok None) :: ls), m'. split; [|split; [by constructor|done]].
    eapply star_cons; [|exact Hs]. apply StepAnswer. by rewrite E.
Qed.

(** ** Theorems *)

(** C18: the chart shows the series. When every series has a value for each
    of its times the table is built; its rows have strictly increasing
    times, exactly the times of the series, and in each row a series has its
    last value at that time, rounded to two digits, or none if it has no
    value there. *)
Theorem chart_faithful (l : list AnalyticsSeries) :
  Forall (fun s => length (timestamps s) <= length (values s)) l ->
  exists rows, chartData l = Some rows /\
    StronglySorted Z.lt rows.*1 /\
    (forall ts, ts ∈ rows.*1 <-> exists s, s ∈ l /\ ts ∈ timestamps s) /\
    (forall ts row i s, (ts, row) ∈ rows -> l !! i = Some s ->
       obj_get (dataKey i) row = dec_hundredths <$> value_at ts (timestamps s) (values s)).
Proof.
  intros Hl. assert (is_Some (points l)) as [pts Hp].
  { unfold points. apply fmap_is_Some, mapM_is_Some. apply Forall_forall. intros [i s] Hin.
    apply elem_of_lookup_imap in Hin as (j & x & [= -> ->] & Hx). rewrite Forall_forall in Hl.
    unfold series_points. specialize (Hl x ltac:(by eapply list_elem_of_lookup_2)). apply Nat.leb_le in Hl. simpl. by rewrite Hl. }
  unfold chartData. rewrite Hp. cbn [mbind option_bind]. eexists. split; [done|].
  rewrite <- points_from_0 in Hp. apply points_from_spec in Hp as (Hk & Hv & _).
  assert ((map (fun ts => (ts, default [] (timeMap pts !! ts))) (sortedTimestamps (timeMap pts))).*1 = sortedTimestamps (timeMap pts)) as ->.
  { change (fst <$> ((fun ts => (ts, default [] (timeMap pts !! ts))) <$> sortedTimestamps (timeMap pts)) = sortedTimestamps (timeMap pts)).
    rewrite <- list_fmap_compose. apply list_fmap_id. }
  split; [apply sortedTimestamps_sorted|]. split.
  - intros ts. rewrite sortedTimestamps_elem. unfold timeMap. rewrite timeMap_keys, lookup_empty, Hk.
    split; [intros [[? ?]|?]; done|by right].
  - intros ts row i s Hrow Hs. apply list_elem_of_In, in_map_iff in Hrow as (ts' & [= -> <-] & _).
    specialize (Hv i s ts Hs). cbn [plus] in Hv. unfold timeMap. rewrite timeMap_lookup, Hv, lookup_empty. by destruct (value_at ts (timestamps s) (values s)).
Qed.

(** The statistics are in order: with at least one value, the smallest
    value shown is at most the mean and the current value, and these are at
    most the largest; without values all four are zero. *)
Theorem stats_ordered (l : list AnalyticsSeries) :
  (st_min (stats l) <= st_avg (stats l) <= st_max (stats l))%Z /\
  (st_min (stats l) <= st_current (stats l) <= st_max (stats l))%Z.
Proof.
  unfold stats. pose proof (latestVal_in l) as Hlast. destruct (allValues l) as [|d ds] eqn:E; [simpl; lia|].
  specialize (Hlast ltac:(done)). set (k := common_expo (d :: ds)). set (vs := map (scaled k) ds).
  pose proof (common_expo_nonpos (d :: ds)) as Hk. fold k in Hk.
  assert (0 < 10 ^ (- k))%Z as Hq by (apply Z.pow_pos_nonneg; lia).
  set (lo := fold_left Z.min vs (scaled k d)). set (hi := fold_left Z.max vs (scaled k d)).
  assert (forall x, x ∈ d :: ds -> lo <= scaled k x <= hi)%Z as Hb.
  { intros x Hx. assert (scaled k x ∈ scaled k d :: vs) by (by apply (list_elem_of_fmap_2 (scaled k) (d :: ds))).
    split; [by apply fold_min_le|by apply fold_max_ge]. }
  assert (forall v, v ∈ scaled k d :: vs -> lo <= v <= hi)%Z as Hb'.
  { intros v Hv. apply (list_elem_of_fmap_1 (scaled k) (d :: ds)) in Hv as (x & -> & Hx). by apply Hb. }
  pose proof (fold_add_between vs (scaled k d) lo hi Hb') as Hsum.
  replace (length vs) with (length ds) in Hsum by (unfold vs; by rewrite length_map).
  cbn [st_min st_avg st_max st_current]. set (n := Z.of_nat (S (length ds))) in *. assert (0 < n)%Z by lia. split.
  - rewrite <- (hundredths_scale lo (10 ^ (- k)) n), <- (hundredths_scale hi (10 ^ (- k)) n) by done.
    split; apply hundredths_mono; lia.
  - rewrite (dec_hundredths_scaled k) by (try done; by apply common_expo_le).
    destruct (Hb _ Hlast). split; apply hundredths_mono; lia.
Qed.

(** C29: the explorer comes to rest. From every state it can reach, each
    answer that arrives is one request less in flight, so after as many
    answers as there are requests, in any order and with any outcomes, none
    is in flight and the page is not loading; and such a sequence of answers
    always exists. *)
Theorem explorer_comes_to_rest (m : Machine) (past : list label) :
  star mstep initial_machine past m ->
  (forall ls m', star mstep m ls m' -> Forall answer_only ls ->
     length ls + length (inflight m') = length (inflight m) /\
     (length ls = length (inflight m) -> isLoading (pg m') = false)) /\
  exists ls m', star mstep m ls m' /\ Forall answer_only ls /\ isLoading (pg m') = false.
Proof.
  intros Hpast. assert (machine_inv m) as Hi.
  { eapply (star_invariant mstep machine_inv); [apply mstep_inv| |exact Hpast]. by split. }
  assert (forall ls m', star mstep m ls m' -> inflight m' = [] -> isLoading (pg m') = false) as Hidle.
  { intros ls m' Hs He. eapply (star_invariant mstep machine_inv) in Hs as [_ Hl]; [by apply Hl|apply mstep_inv|done]. }
  split.
  - intros ls m' Hs Hf. pose proof (answers_count _ _ _ Hs Hf) as Hc. split; [done|]. intros E.
    eapply Hidle; [exact Hs|]. apply nil_length_inv. lia.
  - destruct (answers_can_drain _ m eq_refl) as (ls & m' & Hs & Hf & He).
    exists ls, m'. split_and!; [done|done|by eapply Hidle].
Qed.

(** A query asks for the window that is shown. In every state the
    explorer can reach there is a query to ask, and executing outside the
    raw mode sends the queries of the builder for a window that ends now,
    goes back by the chosen range and has a whole number of steps, at most
    360 of them. *)
Theorem query_window (m : Machine) (past : list label) (now_ms : Z) :
  star mstep initial_machine past m -> activeMainTab (pg m) = Explorer -> isRawMode (pg m) = false ->
  let b := getTimeBounds (timeRange (pg m)) now_ms in
  queries (pg m) <> [] /\
  (executeQuery (pg m) now_ms).2
    = Some (analytics_query (selectedSourceId (pg m)) (queries (pg m)) (start b) (end_ b) (step_seconds b)) /\
  (end_ b * 1000 <= now_ms < end_ b * 1000 + 1000 /\ end_ b - start b = (range_seconds (timeRange (pg m))).1)%Z /\
  exists n, (end_ b - start b = n * step_seconds b /\ 0 < n <= 360)%Z.
Proof.
  intros Hpast Ht Hr b. assert (queries (pg m) <> []) as Hq.
  { eapply (star_invariant mstep machine_inv) in Hpast as [? _]; [done|apply mstep_inv|by split]. }
  split; [done|]. split.
  { unfold executeQuery. rewrite Ht, Hr. destruct (queries (pg m)); [done|]. reflexivity. }
  unfold b, getTimeBounds. destruct (timeRange (pg m)); cbn [range_seconds start end_ step_seconds fst];
    (split; [split; [Z.to_euclidean_division_equations; lia|lia]|]);
    [exists 180%Z|exists 240%Z|exists 360%Z|exists 288%Z|exists 336%Z]; lia.
Qed.

(** One request at a time, its answer is what is shown: data without an
    error, or an error without data. *)
Theorem query_round (s : AnalyticsPage) (now_ms : Z) (r : result ApiError (option (list AnalyticsSeries))) (c : call) :
  (executeQuery s now_ms).2 = Some c ->
  let s' := query_settled (executeQuery s now_ms).1 (isRawMode s) r in
  isLoading s' = false /\
  match r with
  | Ok l => series s' = default [] l /\ error s' = VNull
  | Throw e => series s' = [] /\ error s' = query_error (isRawMode s) e
  end.
Proof.
  unfold executeQuery. destruct (activeMainTab s); [|done].
  destruct (isRawMode s); [destruct (trim (rawPromQL s)); [done|]|destruct (queries s); [done|]];
    intros _; destruct r; done.
Qed.

(** A filter that is typed is read back, and an empty text removes it. *)
Lemma node_filter_roundtrip q v : node_filter (apply_edit (node_filter_edit q v) q) = v.
Proof.
  destruct v as [|c v].
  - change (default [] (obj_get (js "node_id") (obj_del (js "node_id") (default [] (filters q)))) = []).
    by rewrite obj_get_del_eq.
  - change (default [] (obj_get (js "node_id") (obj_put (js "node_id") (c :: v) (default [] (filters q)))) = c :: v).
    by rewrite obj_get_put_eq.
Qed.

(** Two requests at once: the first fails after the second was started, then
    the second succeeds. Its data arrive, and the error stays in front of
    them; had the second answer come first, the older answer would replace
    it. *)
Lemma overlapping_queries (s : AnalyticsPage) (now_ms : Z) (e : ApiError) (old new : list AnalyticsSeries) :
  let s2 := (executeQuery (executeQuery s now_ms).1 now_ms).1 in
  let failed := query_settled (query_settled s2 (isRawMode s) (Throw e)) (isRawMode s) (Ok (Some new)) in
  let late := query_settled (query_settled s2 (isRawMode s) (Ok (Some new))) (isRawMode s) (Ok (Some old)) in
  series failed = new /\ error failed = query_error (isRawMode s) e /\ series late = old.
Proof. done. Qed.

(** Removing a query and adding one gives two queries the same letter. *)
Lemma added_query_reuses_letter :
  map q_id (addQuery [] (removeQuery (queries initial_page) 0)) = [js "B"; js "B"].
Proof. reflexivity. Qed.

(** ** Instances *)

Definition cpu_series : AnalyticsSeries :=
  {| query_id := js "A"; s_metric_key := js "system.cpu_percent"; s_labels := [(js "node_id", js "n1")];
     timestamps := [60; 0; 120]%Z;
     values := [{| mant := 12345; expo := -3 |}; {| mant := 5; expo := 0 |}; {| mant := -25; expo := -1 |}] |}.
Definition mem_series : AnalyticsSeries :=
  {| query_id := js "B"; s_metric_key := js "system.memory_percent"; s_labels := []; timestamps := [60]%Z;
     values := [{| mant := 4; expo := 1 |}] |}.

Lemma chart_example :
  chartData [cpu_series; mem_series]
  = Some [(0%Z, [(dataKey 0, 500%Z)]); (60%Z, [(dataKey 0, 1235%Z); (dataKey 1, 4000%Z)]); (120%Z, [(dataKey 0, (-250)%Z)])] /\
  stats [cpu_series; mem_series] = {| st_current := 4000; st_max := 4000; st_min := -250; st_avg := 1371 |} /\
  map meta_label (seriesMeta [cpu_series; mem_series]) = [js "[A] node_id=n1"; js "[B] system.memory_percent"].
Proof. vm_compute. repeat split. Qed.

Lemma chart_faithful_witness :
  exists rows, chartData [cpu_series; mem_series] = Some rows /\ StronglySorted Z.lt rows.*1.
Proof.
  destruct (chart_faithful [cpu_series; mem_series]) as (rows & H1 & H2 & _).
  - repeat constructor.
  - exists rows. split; [exact H1|exact H2].
Defined.

Definition busy_machine : Machine :=
  {| pg := (executeQuery initial_page 1709208123045).1; inflight := [false] |}.

Lemma busy_reachable : star mstep initial_machine [LExecute 1709208123045] busy_machine.
Proof.
  eapply star_cons; [|apply star_nil].
  exact (StepExecute initial_machine 1709208123045 _ _ (surjective_pairing (executeQuery initial_page 1709208123045))).
Qed.

Lemma explorer_comes_to_rest_witness :
  isLoading (pg busy_machine) = true /\
  exists ls m', star mstep busy_machine ls m' /\ Forall answer_only ls /\ isLoading (pg m') = false.
Proof.
  split; [reflexivity|].
  exact (proj2 (explorer_comes_to_rest busy_machine [LExecute 1709208123045] busy_reachable)).
Defined.

Lemma query_window_witness :
  (executeQuery initial_page 1709208123045).2
  = Some (analytics_query (js "prometheus") (queries initial_page) 1709204523 1709208123 15).
Proof.
  exact (proj1 (proj2 (query_window initial_machine [] 1709208123045 (star_nil _ _) eq_refl eq_refl))).
Defined.

Lemma query_round_witness :
  error (query_settled (executeQuery initial_page 0).1 false (Ok None)) = VNull.
Proof.
  destruct (query_round initial_page 0 (Ok None)
              (analytics_query (js "prometheus") (queries initial_page) (-3600) 0 15)) as (_ & _ & He).
  - reflexivity.
  - exact He.
Defined.
