(* ===== verification/AnalyticsViews.v ===== *)
(** * What the analytics page shows

    The components of [pages/analytics/components] around the states of
    [Analytics]: [AnalyticsHeader.tsx] with its sources, ranges and refresh
    intervals, the rows of [QueryBuilder.tsx] with what each of their inputs
    offers, shows and writes, and [TimeSeriesCanvas.tsx] with the lines that
    are drawn, the tooltip and the legend. *)

From Stdlib Require Import ZArith NArith Lia String.
From stdpp Require Import gmap.
From S2P Require Import Prelude JsString JsValue Fetcher Api FormInputs Analytics.
Import OtherApis.
Local Open Scope string_scope.
Local Open Scope list_scope.

(** ** The header *)

Module Header.

Definition ranges : list (TimeRangePreset * jsstring) :=
  [(R15m, js "15m"); (R1h, js "1h"); (R6h, js "6h"); (R24h, js "24h"); (R7d, js "7d")].

Definition refreshOptions : list (Z * jsstring) :=
  [(0, js "Tắt"); (10, js "10 giây"); (30, js "30 giây"); (60, js "1 phút")]%Z.

Definition source_text (s : TelemetrySourceInfo) : jsstring := src_name s ++ js " (" ++ src_status s ++ js ")".
Definition source_options (p : AnalyticsPage) : list (jsstring * jsstring) := map (fun s => (src_id s, source_text s)) (sources p).

Inductive status_dot := DotConnected | DotUnreachable | DotOther.

Definition dot_of (o : option TelemetrySourceInfo) : status_dot :=
  match o with
  | Some s => if jeqb (src_status s) (js "connected") then DotConnected
              else if jeqb (src_status s) (js "unreachable") then DotUnreachable else DotOther
  | None => DotOther
  end.

Definition dot_title (o : option TelemetrySourceInfo) : jsstring :=
  js "Trạng thái: " ++ str_or (match o with Some s => src_status s | None => [] end) (js "unknown").

(** The picker is there when there are sources. *)
Definition source_picker (p : AnalyticsPage) : option (list (jsstring * jsstring) * status_dot * jsstring) :=
  match sources p with
  | [] => None
  | _ => Some (source_options p, dot_of (selectedSource p), dot_title (selectedSource p))
  end.

Inductive header_event := PickSource (i : jsstring) | PickRange (r : TimeRangePreset) | PickRefresh (v : Z).

Definition header_offered (p : AnalyticsPage) (e : header_event) : Prop :=
  match e with
  | PickSource i => i ∈ map src_id (sources p)
  | PickRange r => r ∈ ranges.*1
  | PickRefresh v => v ∈ refreshOptions.*1
  end.

Definition header_enter (p : AnalyticsPage) (e : header_event) : AnalyticsPage :=
  match e with
  | PickSource i => set_window p (activeMainTab p) i (timeRange p) (autoRefreshInterval p)
  | PickRange r => set_window p (activeMainTab p) (selectedSourceId p) r (autoRefreshInterval p)
  | PickRefresh v => set_window p (activeMainTab p) (selectedSourceId p) (timeRange p) v
  end.

(** The dot is that of the source that is asked, once one was picked. *)
Lemma picked_source_dot p i : i ∈ map src_id (sources p) ->
  exists s, selectedSource (header_enter p (PickSource i)) = Some s /\ src_id s = i /\ s ∈ sources p.
Proof.
  intros Hi. unfold selectedSource. cbn [header_enter set_window sources selectedSourceId].
  destruct (List.find _ (sources p)) as [s|] eqn:E.
  - apply find_some in E as [Hin Hs%jeqb_true]. exists s. split; [done|]. split; [done|]. by apply list_elem_of_In.
  - apply list_elem_of_In, in_map_iff in Hi as (s & Hs & Hin). pose proof (find_none _ _ E s Hin) as Hn. cbn in Hn.
    rewrite Hs, jeqb_refl in Hn. done.
Qed.
End Header.

(** ** The rows of the query builder *)

Module Builder.

(** What a [select] shows for a value that is none of its options: the
    first of them. *)
Definition select_shown (v : jsstring) (options : list jsstring) : option jsstring :=
  if existsb (jeqb v) options then Some v else head options.

Definition metric_options (cats : list MetricCatalogCategory) : list (jsstring * list (jsstring * jsstring)) :=
  map (fun c => (cat_name c, map (fun m => (m_key m, m_label m ++ js " (" ++ m_unit m ++ js ")")) (metrics c))) cats.
Definition metric_keys (cats : list MetricCatalogCategory) : list jsstring := List.concat (map (fun c => map m_key (metrics c)) cats).

Definition row_badge (idx : nat) (q : AnalyticsQueryItem) : jsstring := str_or (q_id q) (fromCharCode (65 + idx)).
Definition aggregation_value (q : AnalyticsQueryItem) : jsstring := str_or (default [] (aggregation q)) (js "sum").
Definition group_value (q : AnalyticsQueryItem) : jsstring := default [] (head (default [] (group_by q))).

Definition aggregation_choices (cats : list MetricCatalogCategory) (q : AnalyticsQueryItem) : list jsstring :=
  aggregation_options (currentDef cats (metric_key q)).
Definition group_choices (cats : list MetricCatalogCategory) (q : AnalyticsQueryItem) : list jsstring :=
  [] :: group_by_options (currentDef cats (metric_key q)).

(** The row of a query as it is drawn. *)
Record query_row := { badge : jsstring; metric : option jsstring; aggregate : option jsstring; grouped : option jsstring;
                      node : jsstring; removable : bool }.

Definition row_of (cats : list MetricCatalogCategory) (n idx : nat) (q : AnalyticsQueryItem) : query_row :=
  {| badge := row_badge idx q; metric := select_shown (metric_key q) (metric_keys cats);
     aggregate := select_shown (aggregation_value q) (aggregation_choices cats q);
     grouped := select_shown (group_value q) (group_choices cats q); node := node_filter q; removable := Nat.ltb 1 n |}.

Inductive builder_body := RawBody (text : jsstring) | Rows (rows : list query_row).

Definition body_of (p : AnalyticsPage) : builder_body :=
  if isRawMode p then RawBody (rawPromQL p) else Rows (imap (row_of (categories p) (length (queries p))) (queries p)).

Definition run_button (p : AnalyticsPage) : jsstring * bool :=
  (if isLoading p then js "Đang chạy..." else js "Thực thi Query", isLoading p).

(** The entries of a row. *)
Inductive row_entry := ChooseMetric (k : jsstring) | ChooseAggregation (a : jsstring) | ChooseGroup (g : jsstring) | TypeNode (t : jsstring).
Inductive row_field := FMetric | FAggregation | FGroup | FNode.

Definition row_edit (q : AnalyticsQueryItem) (e : row_entry) : query_edit :=
  match e with
  | ChooseMetric k => EditMetric k
  | ChooseAggregation a => EditAggregation a
  | ChooseGroup g => group_by_edit g
  | TypeNode t => node_filter_edit q t
  end.

Definition row_target (e : row_entry) : row_field :=
  match e with ChooseMetric _ => FMetric | ChooseAggregation _ => FAggregation | ChooseGroup _ => FGroup | TypeNode _ => FNode end.

Definition builder_enter (qs : list AnalyticsQueryItem) (e : nat * row_entry) : list AnalyticsQueryItem :=
  match qs !! e.1 with Some q => updateQueryField qs e.1 (row_edit q e.2) | None => qs end.

Definition row_text (q : AnalyticsQueryItem) (f : row_field) : jsstring :=
  match f with
  | FMetric => metric_key q
  | FAggregation => aggregation_value q
  | FGroup => group_value q
  | FNode => node_filter q
  end.

(** What the input keeps of an entry. *)
Definition entry_text (e : row_entry) : jsstring :=
  match e with ChooseAggregation a => str_or a (js "sum") | ChooseMetric t | ChooseGroup t | TypeNode t => t end.

Definition builder_value (qs : list AnalyticsQueryItem) (f : nat * row_field) : val :=
  match qs !! f.1 with Some q => VStr (row_text q f.2) | None => VUndef end.

Definition row_offered (cats : list MetricCatalogCategory) (q : AnalyticsQueryItem) (e : row_entry) : bool :=
  match e with
  | ChooseMetric k => existsb (jeqb k) (metric_keys cats)
  | ChooseAggregation a => existsb (jeqb a) (aggregation_choices cats q)
  | ChooseGroup g => existsb (jeqb g) (group_choices cats q)
  | TypeNode _ => true
  end.

Lemma row_edit_target q e : row_text (apply_edit (row_edit q e) q) (row_target e) = entry_text e.
Proof. destruct e as [k|a|g|t]; [done|done|by destruct g|apply node_filter_roundtrip]. Qed.

Lemma row_edit_other q e f : f <> row_target e -> row_text (apply_edit (row_edit q e) q) f = row_text q f.
Proof. destruct e, f; try done; by destruct g. Qed.

Lemma enter_row qs i e j : builder_enter qs (i, e) !! j =
  if decide (j = i) then (fun q => apply_edit (row_edit q e) q) <$> qs !! j else qs !! j.
Proof.
  unfold builder_enter, updateQueryField. cbn [fst snd]. destruct (qs !! i) as [q|] eqn:E.
  - destruct (decide (j = i)) as [->|Hn]; [by rewrite list_lookup_alter_eq, E|by rewrite list_lookup_alter_ne].
  - destruct (decide (j = i)) as [->|Hn]; [by rewrite E|done].
Qed.

Section Inputs.
Variable cats : list MetricCatalogCategory.

#[export] Instance builder_inputs : FormInputs (list AnalyticsQueryItem) (nat * row_entry) (nat * row_field).
Proof.
  refine {| enter := builder_enter; target := fun e => (e.1, row_target e.2); also := fun _ => []; field_value := builder_value;
            kept_value := fun qs e => match qs !! e.1 with Some _ => VStr (entry_text e.2) | None => VUndef end;
            offered := fun qs e => match qs !! e.1 with Some q => row_offered cats q e.2 | None => false end |}.
  - intros qs [i e]. unfold builder_value. cbn [fst snd]. rewrite enter_row. destruct (decide (i = i)); [|done].
    destruct (qs !! i) as [q|]; cbn; [by rewrite row_edit_target|done].
  - intros qs [i e] [j f] Hn _. unfold builder_value. cbn [fst snd] in *. rewrite enter_row.
    destruct (decide (j = i)) as [->|]; [|done]. destruct (qs !! i) as [q|]; cbn; [|done].
    rewrite row_edit_other; [done|]. intros ->. by apply Hn.
Defined.
End Inputs.

Lemma enter_all_length qs es : length (fold_left builder_enter es qs) = length qs.
Proof.
  revert qs. induction es as [|e es IH]; intros qs; [done|]. cbn. rewrite IH. unfold builder_enter.
  destruct (qs !! e.1); [|done]. apply length_alter.
Qed.

(** The entries that leave a field of a row alone. *)
Definition leaves (i : nat) (f : row_field) (e : nat * row_entry) : Prop := (i, f) <> (e.1, row_target e.2).

(** What was chosen last in a row is what is asked. However the rows are
    edited, when the explorer runs its queries the request carries as many
    queries as there were rows, the query of a row has in each field what
    was entered there last, and the queries of the rows that were not
    touched are as they were. *)
Theorem entered_query_is_sent (p : AnalyticsPage) (before after : list (nat * row_entry)) (i : nat) (e : row_entry) (now_ms : Z) :
  activeMainTab p = Explorer -> isRawMode p = false -> i < length (queries p) ->
  Forall (leaves i (row_target e)) after ->
  let qs := fold_left builder_enter (before ++ (i, e) :: after) (queries p) in
  let b := getTimeBounds (timeRange p) now_ms in
  (executeQuery (onChangeQueries p qs) now_ms).2 =
    Some (analytics_query (selectedSourceId p) qs (start b) (end_ b) (step_seconds b)) /\
  length qs = length (queries p) /\
  (exists q, qs !! i = Some q /\ row_text q (row_target e) = entry_text e) /\
  (forall j, Forall (fun x => x.1 <> j) (before ++ (i, e) :: after) -> qs !! j = queries p !! j).
Proof.
  intros Ht Hr Hi Hafter qs b. assert (length qs = length (queries p)) as Hlen by apply enter_all_length.
  split_and!; [|done| |].
  - unfold executeQuery, onChangeQueries. cbn [set_controls activeMainTab isRawMode queries timeRange selectedSourceId].
    rewrite Ht, Hr. destruct qs as [|q l] eqn:E; [cbn in Hlen; lia|done].
  - destruct (qs !! i) as [q|] eqn:E; [|apply lookup_ge_None in E; lia]. exists q. split; [done|].
    pose proof (@last_entry_shown _ _ _ (builder_inputs []) (queries p) before after (i, e)) as Hl.
    assert (builder_value qs (i, row_target e) = VStr (entry_text e)) as Hv.
    { etransitivity; [apply Hl|].
      - eapply Forall_impl; [exact Hafter|]. intros x Hx. split; [exact Hx|]. apply not_elem_of_nil.
      - cbn [kept_value builder_inputs fst snd]. unfold enter_all. cbn [enter builder_inputs].
        destruct (fold_left builder_enter before (queries p) !! i) as [x|] eqn:Ex; [reflexivity|]. apply lookup_ge_None in Ex. rewrite enter_all_length in Ex. lia. }
    unfold builder_value in Hv. cbn [fst snd] in Hv. rewrite E in Hv. by injection Hv.
  - intros j Hj. unfold qs. generalize (queries p). clear -Hj. induction Hj as [|[k x] es Hk _ IH]; intros l; [done|].
    cbn [fold_left]. rewrite IH, enter_row. by destruct (decide (j = k)) as [->|].
Qed.

(** A row is truthful when its three values are among its options: then it
    shows what is sent. *)
Lemma row_truthful cats n idx q : metric_key q ∈ metric_keys cats ->
  aggregation_value q ∈ aggregation_choices cats q -> group_value q ∈ group_choices cats q ->
  metric (row_of cats n idx q) = Some (metric_key q) /\ aggregate (row_of cats n idx q) = Some (aggregation_value q) /\
  grouped (row_of cats n idx q) = Some (group_value q).
Proof.
  assert (forall v l, v ∈ l -> select_shown v l = Some v) as Hs.
  { intros v l Hv. unfold select_shown. destruct (existsb (jeqb v) l) eqn:E; [done|].
    assert (existsb (jeqb v) l = true) as E' by (apply existsb_exists; exists v; split; [by apply list_elem_of_In|apply jeqb_refl]).
    congruence. }
  intros H1 H2 H3. cbn [row_of metric aggregate grouped]. by rewrite !Hs.
Qed.

(** The choice of a metric keeps the aggregation of the one before: where
    the new metric does not have it, the row shows another aggregation than
    is sent. *)
Lemma stale_aggregation :
  let m1 := {| m_key := js "a"; m_label := js "A"; m_unit := []; m_description := []; supported_aggregations := Some [js "sum"];
               supported_group_by := None; m_extension_required := None; promql_template := [] |} in
  let m2 := {| m_key := js "b"; m_label := js "B"; m_unit := []; m_description := []; supported_aggregations := Some [js "p95"];
               supported_group_by := None; m_extension_required := None; promql_template := [] |} in
  let cats := [{| cat_id := []; cat_name := []; cat_description := []; cat_extension_required := None; metrics := [m1; m2] |}] in
  let q := preset_query "A" "a" "sum" "node_id" in
  let q' := apply_edit (row_edit q (ChooseMetric (js "b"))) q in
  aggregate (row_of cats 1 0 q') = Some (js "p95") /\ aggregation q' = Some (js "sum").
Proof. vm_compute. done. Qed.

Lemma entered_query_is_sent_witness :
  length (fold_left builder_enter ([] ++ (0, ChooseMetric (js "system.cpu_percent")) :: [(0, TypeNode (js "n1"))]) (queries initial_page)) = 2.
Proof.
  apply (entered_query_is_sent initial_page [] [(0, TypeNode (js "n1"))] 0 (ChooseMetric (js "system.cpu_percent")) 0).
  - reflexivity.
  - reflexivity.
  - vm_compute. lia.
  - constructor; [|constructor]. unfold leaves. cbn. congruence.
Defined.
End Builder.

(** ** The canvas *)

Module Chart.

(** The area of the chart: an error hides the data, no data is said so. *)
Inductive canvas_body := ErrorBody (e : val) | EmptyBody (message : jsstring) | ChartBody (rows : list (Z * chart_row)) (lines : list SeriesMeta).

Definition hidden_key (h : gmap jsstring bool) (k : jsstring) : bool := default false (h !! k).

Definition visible_lines (h : gmap jsstring bool) (l : list AnalyticsSeries) : list SeriesMeta :=
  List.filter (fun m => negb (hidden_key h (meta_dataKey m))) (seriesMeta l).

(** [None]: a series with fewer values than timestamps makes the chart throw. *)
Definition canvas_of (h : gmap jsstring bool) (p : AnalyticsPage) : option canvas_body :=
  rows ← chartData (series p);
  Some (if truthy (error p) then ErrorBody (error p)
        else match rows with
             | [] => EmptyBody (if isLoading p then js "Đang truy vấn Prometheus..." else js "Không có dữ liệu trong khoảng thời gian đã chọn")
             | _ => ChartBody rows (visible_lines h (series p))
             end).

(** The tooltip names the line of a data key. *)
Definition tooltip_label (l : list AnalyticsSeries) (key name : jsstring) : jsstring :=
  match List.find (fun m => jeqb (meta_dataKey m) key) (seriesMeta l) with Some m => str_or (meta_label m) name | None => name end.

(** The legend: a button per series, with whether it is struck out. *)
Definition legend (h : gmap jsstring bool) (l : list AnalyticsSeries) : list (jsstring * bool) :=
  map (fun m => (meta_label m, hidden_key h (meta_dataKey m))) (seriesMeta l).

(** Clicks on the buttons of the legend, by their index. *)
Definition clicks (h : gmap jsstring bool) (ks : list nat) : gmap jsstring bool := fold_left (fun h i => toggleSeries h (dataKey i)) ks h.

Lemma click_hidden h i j : hidden_key (toggleSeries h (dataKey i)) (dataKey j) = xorb (Nat.eqb i j) (hidden_key h (dataKey j)).
Proof.
  unfold hidden_key, toggleSeries. destruct (Nat.eqb_spec i j) as [->|Hn].
  - rewrite lookup_insert_eq. cbn. by destruct (h !! dataKey j) as [[]|].
  - rewrite lookup_insert_ne; [by destruct (default false (h !! dataKey j))|]. intros E. by apply dataKey_inj in E.
Qed.

Lemma clicks_hidden h ks j :
  hidden_key (clicks h ks) (dataKey j) = xorb (Nat.odd (length (List.filter (Nat.eqb j) ks))) (hidden_key h (dataKey j)).
Proof.
  unfold clicks. revert h. induction ks as [|i ks IH]; intros h; cbn [fold_left List.filter]; [by destruct (hidden_key _ _)|].
  rewrite IH, click_hidden, (Nat.eqb_sym i j). destruct (Nat.eqb j i); cbn [length].
  - rewrite Nat.odd_succ, <- Nat.negb_odd. by destruct (Nat.odd _), (hidden_key h (dataKey j)).
  - by destruct (Nat.odd _), (hidden_key h (dataKey j)).
Qed.

Definition meta_at (idx : nat) (s : AnalyticsSeries) : SeriesMeta :=
  {| meta_dataKey := dataKey idx; meta_label := series_label s;
     meta_color := default [] (SERIES_COLORS !! (idx mod length SERIES_COLORS)%nat); meta_metricKey := s_metric_key s |}.

Lemma series_meta_at l j : seriesMeta l !! j = meta_at j <$> l !! j.
Proof. unfold seriesMeta. by rewrite list_lookup_imap. Qed.

(** A data key belongs to one series. *)
Lemma meta_key_found l j s : l !! j = Some s -> List.find (fun m => jeqb (meta_dataKey m) (dataKey j)) (seriesMeta l) = Some (meta_at j s).
Proof.
  intros Hj. destruct (List.find _ _) as [m|] eqn:E.
  - apply find_some in E as [Hin Hk%jeqb_true]. apply list_elem_of_In, list_elem_of_lookup in Hin as [i Hi].
    rewrite series_meta_at in Hi. destruct (l !! i) as [s'|] eqn:Ei; [|done]. cbn in Hi. injection Hi as <-.
    cbn in Hk. apply dataKey_inj in Hk as ->. congruence.
  - assert (meta_at j s ∈ seriesMeta l) as Hin by (apply list_elem_of_lookup; exists j; by rewrite series_meta_at, Hj).
    apply list_elem_of_In in Hin. pose proof (find_none _ _ E _ Hin) as Hn. cbn in Hn. by rewrite jeqb_refl in Hn.
Qed.

(** The legend switches each line by itself. After any clicks on the
    buttons of the legend, the line of a series is drawn exactly when its
    own button was clicked an even number of times; the lines that are drawn
    are those of the series in their order, with their colours; and the
    tooltip names each line by its own label. *)
Theorem legend_switches_lines (l : list AnalyticsSeries) (ks : list nat) (j : nat) (s : AnalyticsSeries) :
  l !! j = Some s ->
  (meta_at j s ∈ visible_lines (clicks ∅ ks) l <-> Nat.odd (length (List.filter (Nat.eqb j) ks)) = false) /\
  visible_lines (clicks ∅ ks) l `sublist_of` seriesMeta l /\
  (legend (clicks ∅ ks) l !! j = Some (series_label s, Nat.odd (length (List.filter (Nat.eqb j) ks)))) /\
  (series_label s <> [] -> forall name, tooltip_label l (dataKey j) name = series_label s).
Proof.
  intros Hj. assert (hidden_key (clicks ∅ ks) (dataKey j) = Nat.odd (length (List.filter (Nat.eqb j) ks))) as Hh.
  { rewrite clicks_hidden. unfold hidden_key. rewrite lookup_empty. apply xorb_false_r. }
  split_and!.
  - unfold visible_lines. rewrite list_elem_of_In, filter_In. cbn [meta_at meta_dataKey]. rewrite Hh, negb_true_iff.
    split; [by intros [_ ?]|]. intros ->. split; [|done].
    apply list_elem_of_In, list_elem_of_lookup. exists j. by rewrite series_meta_at, Hj.
  - apply filter_sublist.
  - unfold legend. rewrite list_lookup_fmap, series_meta_at, Hj. cbn. by rewrite Hh.
  - intros Hne name. unfold tooltip_label. rewrite (meta_key_found l j s Hj). cbn. by destruct (series_label s).
Qed.

(** The keys of hidden lines are indices: a line that was hidden stays
    hidden when other data arrive, whatever is then at its place. *)
Lemma hidden_carries_over (s s' : AnalyticsSeries) (l l' : list AnalyticsSeries) :
  map snd (legend (clicks ∅ [0]) (s :: l)) !! 0 = Some true /\ map snd (legend (clicks ∅ [0]) (s' :: l')) !! 0 = Some true.
Proof.
  assert (hidden_key (clicks ∅ [0]) (dataKey 0) = true) as H by (by rewrite clicks_hidden).
  unfold legend, seriesMeta. cbn [imap map lookup list_lookup meta_dataKey snd]. by rewrite H.
Qed.

Lemma legend_switches_lines_witness :
  meta_at 1 mem_series ∈ visible_lines (clicks ∅ [0; 1; 1]) [cpu_series; mem_series].
Proof. apply (legend_switches_lines [cpu_series; mem_series] [0; 1; 1] 1 mem_series); reflexivity. Defined.
End Chart.
