(* ===== verification/Connections.v ===== *)
(** * Metrics connection

    [pages/analytics/components/ConnectionsTab.tsx] with the connection
    types of [lib/api/analytics.ts]: the configuration of the metrics
    server, which is an object whose members may be absent and which the
    loaded configuration is spread over, its custom headers, the connection
    test and saving. *)

From Stdlib Require Import ZArith NArith Lia String.
From S2P Require Import Prelude JsString JsValue Json JsonFacts Fetcher Api.
Local Open Scope string_scope.
Local Open Scope list_scope.

Definition connection_base : jsstring := js "/api/v1/analytics/connection".
Definition analytics_getConnection : call := api_get connection_base None.
Definition analytics_updateConnection (config : obj) : call := api_put connection_base (BodyVal (VObj config)).
Definition analytics_testConnection (config : obj) : call :=
  api_post (connection_base ++ js "/test") (BodyVal (VObj config)).

Record RuntimeMetadata := {
  engine : jsstring;
  version : jsstring;
  revision : option jsstring;
  latency_ms : num;
  active_targets : num;
  total_targets : num;
  md_status : jsstring;
  last_checked_at : num;
  error_message : option jsstring
}.

(** [ConnectionStatusResponse] and [TestConnectionResult]; the message of
    the latter may be what the control plane sent as an error. *)
Record ConnectionStatusResponse := {
  extension_enabled : bool;
  cs_config : option obj;
  cs_metadata : option RuntimeMetadata
}.
Record TestConnectionResult := {
  success : bool;
  message : val;
  t_latency_ms : num;
  t_metadata : option RuntimeMetadata
}.

Record ConnectionsTab := {
  extensionEnabled : bool;
  config : obj;
  metadata : option RuntimeMetadata;
  isLoading : bool;
  isSaving : bool;
  testStatus : option TestConnectionResult;
  isTesting : bool;
  saveMessage : option jsstring;
  headerKey : jsstring;
  headerVal : jsstring
}.

Definition default_connection : obj :=
  obj_lit [("mode", vstr "prometheus"); ("prometheus_url", vstr "http://127.0.0.1:9090");
           ("prometheus_job", vstr "aurora-waf"); ("auth_type", vstr "none"); ("auth_token", VStr []);
           ("auth_username", VStr []); ("auth_password", VStr []); ("custom_headers", VObj []);
           ("tls_enabled", VBool false); ("insecure_skip", VBool false); ("ca_cert_pem", VStr []);
           ("client_cert_pem", VStr []); ("client_key_pem", VStr [])].

Definition initial_connections : ConnectionsTab :=
  {| extensionEnabled := true; config := default_connection; metadata := None; isLoading := true; isSaving := false;
     testStatus := None; isTesting := false; saveMessage := None; headerKey := js "X-Scope-OrgID"; headerVal := [] |}.

Definition set_config (s : ConnectionsTab) (c : obj) : ConnectionsTab :=
  {| extensionEnabled := extensionEnabled s; config := c; metadata := metadata s; isLoading := isLoading s;
     isSaving := isSaving s; testStatus := testStatus s; isTesting := isTesting s; saveMessage := saveMessage s;
     headerKey := headerKey s; headerVal := headerVal s |}.
Definition set_header_fields (s : ConnectionsTab) (k v : jsstring) : ConnectionsTab :=
  {| extensionEnabled := extensionEnabled s; config := config s; metadata := metadata s; isLoading := isLoading s;
     isSaving := isSaving s; testStatus := testStatus s; isTesting := isTesting s; saveMessage := saveMessage s;
     headerKey := k; headerVal := v |}.
Definition set_test (s : ConnectionsTab) (t : option TestConnectionResult) (testing : bool) (md : option RuntimeMetadata) : ConnectionsTab :=
  {| extensionEnabled := extensionEnabled s; config := config s; metadata := md; isLoading := isLoading s;
     isSaving := isSaving s; testStatus := t; isTesting := testing; saveMessage := saveMessage s;
     headerKey := headerKey s; headerVal := headerVal s |}.
Definition set_save (s : ConnectionsTab) (saving : bool) (m : option jsstring) : ConnectionsTab :=
  {| extensionEnabled := extensionEnabled s; config := config s; metadata := metadata s; isLoading := isLoading s;
     isSaving := saving; testStatus := testStatus s; isTesting := isTesting s; saveMessage := m;
     headerKey := headerKey s; headerVal := headerVal s |}.

(** [{ ...prev, ...res.config, auth_type: res.config.auth_type || 'none' }] *)
Definition merge_config (prev loaded : obj) : obj :=
  obj_put (js "auth_type") (val_or (prop (js "auth_type") loaded) (vstr "none")) (obj_assign prev loaded).

(** The effect that loads the connection; an error is only logged. *)
Definition connection_loaded (s : ConnectionsTab) (r : result ApiError ConnectionStatusResponse) : ConnectionsTab :=
  match r with
  | Ok res =>
      {| extensionEnabled := extension_enabled res;
         config := match cs_config res with Some c => merge_config (config s) c | None => config s end;
         metadata := match cs_metadata res with Some m => Some m | None => metadata s end; isLoading := false;
         isSaving := isSaving s; testStatus := testStatus s; isTesting := isTesting s; saveMessage := saveMessage s;
         headerKey := headerKey s; headerVal := headerVal s |}
  | Throw _ =>
      {| extensionEnabled := extensionEnabled s; config := config s; metadata := metadata s; isLoading := false;
         isSaving := isSaving s; testStatus := testStatus s; isTesting := isTesting s; saveMessage := saveMessage s;
         headerKey := headerKey s; headerVal := headerVal s |}
  end.

(** [err?.data?.error || err?.message || fallback] *)
Definition connection_error (e : ApiError) (fallback : jsstring) : val :=
  val_or (opt_prop (js "error") (err_data e)) (VStr (str_or (err_message e) fallback)).

(** [handleTestConnection] with the configuration of its closure. *)
Definition handleTestConnection (s : ConnectionsTab) (closure : obj) : ConnectionsTab * call :=
  (set_test s None true (metadata s), analytics_testConnection closure).
Definition test_settled (s : ConnectionsTab) (r : result ApiError TestConnectionResult) : ConnectionsTab :=
  match r with
  | Ok res => set_test s (Some res) false (match t_metadata res with Some m => Some m | None => metadata s end)
  | Throw e =>
      set_test s (Some {| success := false; message := connection_error e (js "Không thể kết nối máy chủ Prometheus");
                          t_latency_ms := num_of_Z 0; t_metadata := None |}) false (metadata s)
  end.

Definition handleSaveConfig (s : ConnectionsTab) : ConnectionsTab * call :=
  (set_save s true None, analytics_updateConnection (config s)).

(** The outcome of saving the configuration [saved]: success starts a test,
    which the handler of the same render makes. *)
Definition save_settled (s : ConnectionsTab) (saved : obj) (r : result ApiError val) : ConnectionsTab * option call :=
  match r with
  | Ok _ =>
      let '(s', c) := handleTestConnection (set_save s false (Some (js "Lưu cấu hình kết nối thành công!"))) saved in
      (s', Some c)
  | Throw e => (set_save s false (Some (js "Lỗi: " ++ to_string (connection_error e (js "Không thể lưu")))), None)
  end.

(** An input of the form: [setConfig({ ...config, [k]: v })]. *)
Definition edit_config (s : ConnectionsTab) (k : jsstring) (v : val) : ConnectionsTab :=
  set_config s (obj_put k v (config s)).

(** [config.custom_headers || {}], spread. *)
Definition headers_of (c : obj) : obj := spread (val_or (prop (js "custom_headers") c) (VObj [])).

Definition add_header (s : ConnectionsTab) : ConnectionsTab :=
  match headerKey s, headerVal s with
  | _ :: _, _ :: _ =>
      set_header_fields
        (edit_config s (js "custom_headers") (VObj (obj_put (headerKey s) (VStr (headerVal s)) (headers_of (config s)))))
        (headerKey s) []
  | _, _ => s
  end.
Definition remove_header (s : ConnectionsTab) (k : jsstring) : ConnectionsTab :=
  edit_config s (js "custom_headers") (VObj (obj_del k (headers_of (config s)))).

(** ** Lemmas *)

Lemma obj_wf_keys (o : obj) : obj_wf o -> NoDup o.*1.
Proof.
  unfold obj_wf. induction 1 as [|x o Ho IH Hx]; [constructor|]. apply NoDup_cons. split; [|done].
  rewrite Forall_forall in Hx. intros (y & Hy & Hin)%list_elem_of_fmap. destruct (Hx y Hin) as [Hne _]. done.
Qed.

(** Spreading one object over another. *)
Lemma obj_get_assign (prev loaded : obj) k : obj_wf loaded ->
  obj_get k (obj_assign prev loaded) = match obj_get k loaded with Some v => Some v | None => obj_get k prev end.
Proof.
  intros Hw. destruct (obj_get k loaded) as [v|] eqn:E.
  - apply obj_get_assign_in; [by apply obj_wf_keys|by apply obj_get_in].
  - apply obj_get_assign_notin. intros (kv & -> & Hin)%list_elem_of_fmap. destruct kv as [k v].
    apply (obj_wf_get _ _ _ Hw) in Hin. simpl in E. congruence.
Qed.

Lemma merge_config_get prev loaded k : obj_wf loaded ->
  obj_get k (merge_config prev loaded) =
  if jeqb k (js "auth_type") then Some (val_or (prop (js "auth_type") loaded) (vstr "none"))
  else match obj_get k loaded with Some v => Some v | None => obj_get k prev end.
Proof.
  intros Hw. unfold merge_config. destruct (jeqb k (js "auth_type")) eqn:E.
  - apply jeqb_true in E as ->. apply obj_get_put_eq.
  - apply jeqb_false in E. rewrite obj_get_put_ne by congruence. by apply obj_get_assign.
Qed.

Lemma member_json_ok (o : obj) k : json_ok (VObj o) -> json_ok (val_or (prop k o) (vstr "none")).
Proof.
  intros Ho. unfold val_or. destruct (truthy (prop k o)) eqn:E; [|by apply units_okb_sound].
  unfold prop in *. destruct (obj_get k o) as [v|] eqn:Ev; [|done]. apply json_ok_obj in Ho as [_ Ho].
  rewrite Forall_forall in Ho. destruct (Ho (k, v)) as [_ ?]; [by apply obj_get_in|done].
Qed.

Lemma merge_config_ok prev loaded : json_ok (VObj prev) -> json_ok (VObj loaded) -> json_ok (VObj (merge_config prev loaded)).
Proof.
  intros Hp Hl. pose proof (member_json_ok loaded (js "auth_type") Hl) as Ha.
  apply json_ok_obj in Hp as [Hpw Hp], Hl as [Hlw Hl]. apply json_ok_obj. unfold merge_config. split; [eauto with aurora|].
  rewrite Forall_forall in *. intros x Hx. apply obj_put_keys in Hx as [->|Hx].
  - split; [by apply units_okb_sound|done].
  - apply obj_assign_elem in Hx as [Hx|Hx]; [by apply Hp|by apply Hl].
Qed.

(** ** Theorems *)

(** The configuration that was loaded is the configuration that is saved
    and tested. Saving right after loading sends a JSON text that reads back
    as an object with every member that was loaded, the defaults for the
    members that were absent, and an authentication type; when the control
    plane accepts it, exactly that object is tested, whatever was edited
    since. *)
Theorem connection_save_roundtrip (s edited : ConnectionsTab) (res : ConnectionStatusResponse) (loaded : obj) (v : val) :
  cs_config res = Some loaded -> json_ok (VObj loaded) -> json_ok (VObj (config s)) ->
  let '(s1, c) := handleSaveConfig (connection_loaded s (Ok res)) in
  exists t o, with_body ∅ (opt_body c.2) = (<[js "Content-Type" := js "application/json"]> ∅, TextBody t) /\
    parse t = Some (VObj o) /\
    (forall k, obj_get k o =
       if jeqb k (js "auth_type") then Some (val_or (prop (js "auth_type") loaded) (vstr "none"))
       else match obj_get k loaded with Some v => Some v | None => obj_get k (config s) end) /\
    (save_settled edited o (Ok v)).2 = Some (analytics_testConnection o) /\
    isSaving (save_settled edited o (Ok v)).1 = false /\ isTesting (save_settled edited o (Ok v)).1 = true.
Proof.
  intros Hc Hl Hs. unfold handleSaveConfig, connection_loaded. rewrite Hc. cbn [config].
  exists (ser [] [] (VObj (merge_config (config s) loaded))), (merge_config (config s) loaded). split; [reflexivity|].
  split; [by apply parse_stringify_obj, merge_config_ok|]. split; [|done].
  intros k. apply merge_config_get. by apply json_ok_obj in Hl as [? _].
Qed.

(** Custom headers are kept by name: adding a header with a name and a
    value lists that value under the name, clears the value and changes no
    other header and no other member of the configuration; without one of
    the two nothing happens; and removing the header again leaves no value
    under the name and the others alone. *)
Theorem custom_headers_kept (s : ConnectionsTab) (k k' : jsstring) :
  let s1 := add_header s in
  let s2 := remove_header s1 (headerKey s) in
  (k <> js "custom_headers" -> obj_get k (config s2) = obj_get k (config s) /\ obj_get k (config s1) = obj_get k (config s)) /\
  match headerKey s, headerVal s with
  | _ :: _, _ :: _ =>
      obj_get (headerKey s) (headers_of (config s1)) = Some (VStr (headerVal s)) /\ headerVal s1 = [] /\
      (k' <> headerKey s -> obj_get k' (headers_of (config s1)) = obj_get k' (headers_of (config s)) /\
                            obj_get k' (headers_of (config s2)) = obj_get k' (headers_of (config s))) /\
      obj_get (headerKey s) (headers_of (config s2)) = None
  | _, _ => s1 = s
  end.
Proof.
  cbv zeta.
  assert (forall t o, headers_of (config (edit_config t (js "custom_headers") (VObj o))) = o) as Hh.
  { intros t o. unfold headers_of, edit_config. cbn [config set_config]. by rewrite prop_put_eq. }
  assert (forall t v, k <> js "custom_headers" -> obj_get k (config (edit_config t (js "custom_headers") v)) = obj_get k (config t)) as Hf.
  { intros t v Hk. unfold edit_config. cbn [config set_config]. by apply obj_get_put_ne. }
  split.
  - intros Hk. unfold remove_header. rewrite Hf by done. unfold add_header.
    destruct (headerKey s) as [|a x], (headerVal s) as [|b y]; try done. split; by apply Hf.
  - unfold remove_header. destruct (headerKey s) as [|a x] eqn:Ek; [unfold add_header; by rewrite Ek|].
    destruct (headerVal s) as [|b y] eqn:Ev; [unfold add_header; by rewrite Ek, Ev|].
    rewrite Hh. unfold add_header. rewrite Ek, Ev.
    change (config (set_header_fields ?t _ _)) with (config t). rewrite Hh.
    split; [apply obj_get_put_eq|]. split; [done|]. split; [|apply obj_get_del_eq].
    intros Hk'. rewrite obj_get_del_ne, obj_get_put_ne by congruence. done.
Qed.

(** ** Instances *)

Definition loaded_example : obj := obj_lit [("mode", vstr "prometheus"); ("prometheus_url", vstr "http://p:9090"); ("auth_type", VStr [])].
Definition status_example : ConnectionStatusResponse :=
  {| extension_enabled := true; cs_config := Some loaded_example; cs_metadata := None |}.

Lemma connection_save_roundtrip_witness :
  exists t, with_body ∅ (opt_body (handleSaveConfig (connection_loaded initial_connections (Ok status_example))).2.2)
    = (<[js "Content-Type" := js "application/json"]> ∅, TextBody t).
Proof.
  destruct (connection_save_roundtrip initial_connections initial_connections status_example loaded_example VNull)
    as (t & o & Ht & _).
  - reflexivity.
  - json_ok_compute.
  - json_ok_compute.
  - exists t. exact Ht.
Defined.

(** The control plane answers [null] for an empty map of headers; adding one
    header works on it. *)
Lemma add_header_to_null :
  headers_of (config (add_header (set_header_fields
    (edit_config initial_connections (js "custom_headers") VNull) (js "X-Org") (js "a")))) = [(js "X-Org", vstr "a")].
Proof. reflexivity. Qed.
