(* ===== verification/ConnectionInputs.v ===== *)
(** * The inputs of the metrics connection

    The form of [pages/analytics/components/ConnectionsTab.tsx]: the mode,
    the address, the four ways to authenticate, the custom headers and the
    TLS material, with the conditions under which each is shown; the panel
    of the runtime data. *)

From Stdlib Require Import ZArith NArith Lia String.
From S2P Require Import Prelude JsString JsValue Json JsonFacts Fetcher Api FormInputs Connections.
Local Open Scope string_scope.
Local Open Scope list_scope.

Inductive conn_field :=
| Mode | PrometheusUrl | PrometheusJob | AuthType | AuthToken | AuthUsername | AuthPassword
| HeaderName | HeaderValue | CustomHeaders | TlsEnabled | InsecureSkip | CaCert | ClientCert | ClientKey.

#[global] Instance conn_field_eq_dec : EqDecision conn_field.
Proof. solve_decision. Defined.

(** The member of the configuration behind a field; the two texts of a new
    header are not members. *)
Definition conn_key (f : conn_field) : option jsstring :=
  match f with
  | Mode => Some (js "mode") | PrometheusUrl => Some (js "prometheus_url") | PrometheusJob => Some (js "prometheus_job")
  | AuthType => Some (js "auth_type") | AuthToken => Some (js "auth_token") | AuthUsername => Some (js "auth_username")
  | AuthPassword => Some (js "auth_password") | CustomHeaders => Some (js "custom_headers")
  | TlsEnabled => Some (js "tls_enabled") | InsecureSkip => Some (js "insecure_skip") | CaCert => Some (js "ca_cert_pem")
  | ClientCert => Some (js "client_cert_pem") | ClientKey => Some (js "client_key_pem")
  | HeaderName | HeaderValue => None
  end.

Inductive conn_entry :=
| InMode (m : jsstring)
| InUrl (t : jsstring)
| InJob (t : jsstring)
| InAuthType (t : jsstring)
| InToken (t : jsstring)
| InUsername (t : jsstring)
| InPassword (t : jsstring)
| InHeaderName (t : jsstring)
| InHeaderValue (t : jsstring)
| InAddHeader
| InRemoveHeader (k : jsstring)
| InTls (b : bool)
| InSkip (b : bool)
| InCa (t : jsstring)
| InCert (t : jsstring)
| InKey (t : jsstring).

Definition conn_modes : list jsstring := [js "prometheus"; js "disabled"].
Definition auth_types : list jsstring := [js "none"; js "bearer"; js "basic"; js "headers"].

(** The inputs that write one member. *)
Definition conn_written (e : conn_entry) : option (conn_field * val) :=
  match e with
  | InMode m => Some (Mode, VStr m) | InUrl t => Some (PrometheusUrl, VStr t) | InJob t => Some (PrometheusJob, VStr t)
  | InAuthType t => Some (AuthType, VStr t) | InToken t => Some (AuthToken, VStr t)
  | InUsername t => Some (AuthUsername, VStr t) | InPassword t => Some (AuthPassword, VStr t)
  | InTls b => Some (TlsEnabled, VBool b) | InSkip b => Some (InsecureSkip, VBool b)
  | InCa t => Some (CaCert, VStr t) | InCert t => Some (ClientCert, VStr t) | InKey t => Some (ClientKey, VStr t)
  | _ => None
  end.

Definition conn_enter (s : ConnectionsTab) (e : conn_entry) : ConnectionsTab :=
  match e with
  | InHeaderName t => set_header_fields s t (headerVal s)
  | InHeaderValue t => set_header_fields s (headerKey s) t
  | InAddHeader => add_header s
  | InRemoveHeader k => remove_header s k
  | _ => match conn_written e with
         | Some (f, v) => edit_config s (default [] (conn_key f)) v
         | None => s
         end
  end.

Definition is_text (v : val) (t : string) : bool := match v with VStr s => jeqb s (js t) | _ => false end.

(** The credentials of the chosen way to authenticate, with a button per
    stored header. *)
Definition auth_offered (c : obj) (e : conn_entry) : bool :=
  let auth t := is_text (prop (js "auth_type") c) t in
  match e with
  | InAuthType t => existsb (jeqb t) auth_types
  | InToken _ => auth "bearer"
  | InUsername _ | InPassword _ => auth "basic"
  | InHeaderName _ | InHeaderValue _ | InAddHeader => auth "headers"
  | InRemoveHeader k => auth "headers" && match obj_get k (headers_of c) with Some _ => true | None => false end
  | _ => true
  end.

(** The certificates are shown with TLS. *)
Definition tls_offered (c : obj) (e : conn_entry) : bool :=
  match e with
  | InSkip _ | InCa _ | InCert _ | InKey _ => truthy (prop (js "tls_enabled") c)
  | _ => true
  end.

(** Once loaded, the mode can be chosen; the rest is shown with the mode
    [prometheus]. *)
Definition conn_offered (s : ConnectionsTab) (e : conn_entry) : bool :=
  negb (isLoading s) &&
  match e with
  | InMode m => existsb (jeqb m) conn_modes
  | _ => is_text (prop (js "mode") (config s)) "prometheus" && tls_offered (config s) e && auth_offered (config s) e
  end.

Definition conn_target (e : conn_entry) : conn_field :=
  match e with
  | InMode _ => Mode | InUrl _ => PrometheusUrl | InJob _ => PrometheusJob | InAuthType _ => AuthType
  | InToken _ => AuthToken | InUsername _ => AuthUsername | InPassword _ => AuthPassword
  | InHeaderName _ => HeaderName | InHeaderValue _ => HeaderValue | InAddHeader | InRemoveHeader _ => CustomHeaders
  | InTls _ => TlsEnabled | InSkip _ => InsecureSkip | InCa _ => CaCert | InCert _ => ClientCert | InKey _ => ClientKey
  end.

(** The values of the inputs: [config.k || ''] for the optional texts,
    [config.k || false] for the check boxes. *)
Definition conn_value (s : ConnectionsTab) (f : conn_field) : val :=
  let get k := prop k (config s) in
  match f, conn_key f with
  | HeaderName, _ => VStr (headerKey s)
  | HeaderValue, _ => VStr (headerVal s)
  | CustomHeaders, _ => VObj (headers_of (config s))
  | (Mode | PrometheusUrl | PrometheusJob | AuthType), Some k => get k
  | (TlsEnabled | InsecureSkip), Some k => val_or (get k) (VBool false)
  | _, Some k => val_or (get k) (VStr [])
  | _, None => VUndef
  end.

Definition conn_kept (s : ConnectionsTab) (e : conn_entry) : val :=
  match e with
  | InHeaderName t | InHeaderValue t => VStr t
  | InAddHeader | InRemoveHeader _ => VObj (headers_of (config (conn_enter s e)))
  | _ => match conn_written e with Some (_, v) => v | None => VUndef end
  end.

Lemma conn_key_inj f g k : conn_key f = Some k -> conn_key g = Some k -> f = g.
Proof. destruct f, g; intros E1 E2; try reflexivity; try discriminate E1; try discriminate E2; exfalso;
  rewrite <- E2 in E1; vm_compute in E1; discriminate E1. Qed.

(** Writing one member shows in that field only. *)
Lemma edit_other s g k v f : conn_key g = Some k -> f <> g -> conn_value (edit_config s k v) f = conn_value s f.
Proof.
  intros Hk Hne.
  assert (forall k', conn_key f = Some k' -> prop k' (config (edit_config s k v)) = prop k' (config s)) as Hp.
  { intros k' Hk'. cbn [edit_config set_config config]. apply prop_put_ne. intros ->. apply Hne. by eapply conn_key_inj. }
  destruct f; try reflexivity; unfold conn_value, headers_of; cbn [conn_key] in *; by rewrite (Hp _ eq_refl).
Qed.

Lemma written_enter s e g v : conn_written e = Some (g, v) ->
  exists k, conn_key g = Some k /\ g = conn_target e /\ conn_enter s e = edit_config s k v.
Proof.
  intros Hw. destruct e; try discriminate Hw; apply (inj Some), pair_equal_spec in Hw as [<- <-];
    (eexists; split; [reflexivity|split; reflexivity]).
Qed.

Lemma add_header_frame s f : f <> CustomHeaders -> f <> HeaderValue -> conn_value (add_header s) f = conn_value s f.
Proof.
  intros H1 H2. unfold add_header. destruct (headerKey s) as [|a x] eqn:Ek, (headerVal s) as [|b y]; try done.
  transitivity (conn_value (edit_config s (js "custom_headers")
    (VObj (obj_put (a :: x) (VStr (b :: y)) (headers_of (config s))))) f).
  - destruct f; try reflexivity; try done. unfold conn_value. cbn [edit_config set_config set_header_fields headerKey].
    by rewrite Ek.
  - by apply (edit_other s CustomHeaders).
Qed.

Definition connection_inputs : FormInputs ConnectionsTab conn_entry conn_field.
Proof.
  refine {| enter := conn_enter; FormInputs.target := conn_target;
            also := fun e => match e with InAddHeader => [HeaderValue] | _ => [] end; field_value := conn_value;
            kept_value := conn_kept; offered := conn_offered |}.
  - intros s e. destruct e; cbn [conn_enter conn_target conn_kept conn_written]; try reflexivity;
      unfold conn_value; cbn [conn_key default edit_config set_config config]; rewrite prop_put_eq;
      first [reflexivity | by destruct t | by destruct b].
  - intros s e f Hf Ha. destruct (conn_written e) as [[g v]|] eqn:Ew.
    + destruct (written_enter s e g v Ew) as (k & Hk & Hg & ->). apply (edit_other s g); [done|by rewrite Hg].
    + destruct e; try discriminate Ew; cbn [conn_enter conn_target] in *.
      * by destruct f.
      * by destruct f.
      * apply add_header_frame; [done|]. intros ->. apply Ha. set_solver.
      * by apply (edit_other s CustomHeaders).
Defined.

(** The panel of the runtime data: shown for a connected server, with the
    active targets as the total when the server gives none. *)
Definition runtime_panel (s : ConnectionsTab) : option (num * num * num) :=
  match metadata s with
  | Some m =>
      if jeqb (md_status m) (js "connected")
      then Some (latency_ms m, active_targets m, if num_truthy (total_targets m) then total_targets m else active_targets m)
      else None
  | None => None
  end.

(** ** The type of the configuration *)

Definition is_str (v : val) : bool := match v with VStr _ => true | _ => false end.
Definition is_bool (v : val) : bool := match v with VBool _ => true | _ => false end.
Definition one_of (l : list jsstring) (v : val) : bool := match v with VStr s => existsb (jeqb s) l | _ => false end.
Definition is_header_map (v : val) : bool :=
  match v with VNull | VUndef => true | VObj o => forallb (fun kv => is_str kv.2) o | _ => false end.

(** [ConnectionConfig]: the type of each member. *)
Definition ConnectionConfig : list (jsstring * (val -> bool)) :=
  [(js "mode", one_of conn_modes); (js "prometheus_url", is_str); (js "prometheus_job", is_str);
   (js "auth_type", one_of auth_types); (js "auth_token", is_str); (js "auth_username", is_str);
   (js "auth_password", is_str); (js "custom_headers", is_header_map); (js "tls_enabled", is_bool);
   (js "insecure_skip", is_bool); (js "ca_cert_pem", is_str); (js "client_cert_pem", is_str);
   (js "client_key_pem", is_str); (js "updated_at", is_str)].

Definition member_typed (kv : jsstring * val) : bool :=
  match List.find (fun m => jeqb m.1 kv.1) ConnectionConfig with Some m => m.2 kv.2 | None => true end.

Definition config_typed (c : obj) : Prop := Forall (fun kv => member_typed kv = true) c.

Lemma put_typed k v c : member_typed (k, v) = true -> config_typed c -> config_typed (obj_put k v c).
Proof.
  intros Hv Hc. apply Forall_forall. intros x [->|Hx]%obj_put_keys; [done|]. unfold config_typed in Hc.
  rewrite Forall_forall in Hc. by apply Hc.
Qed.

Lemma headers_typed c : config_typed c -> Forall (fun kv => is_str kv.2 = true) (headers_of c).
Proof.
  intros Hc. unfold headers_of, prop. destruct (obj_get (js "custom_headers") c) as [v|] eqn:E; [|constructor].
  apply obj_get_in in E. unfold config_typed in Hc. rewrite Forall_forall in Hc. specialize (Hc _ E).
  change (is_header_map v = true) in Hc. destruct v; try discriminate Hc; cbn; try constructor.
  apply Forall_forall. intros x Hx. cbn [is_header_map] in Hc. rewrite forallb_forall in Hc. apply Hc. by apply list_elem_of_In.
Qed.

Lemma header_map_typed o : Forall (fun kv => is_str kv.2 = true) o -> member_typed (js "custom_headers", VObj o) = true.
Proof.
  intros Ho. change (forallb (fun kv : jsstring * val => is_str kv.2) o = true). apply forallb_forall.
  intros x Hx. rewrite Forall_forall in Ho. apply Ho. by apply list_elem_of_In.
Qed.

Lemma conn_enter_typed s e : config_typed (config s) -> conn_offered s e = true -> config_typed (config (conn_enter s e)).
Proof.
  intros Hc Ho. unfold conn_offered in Ho. apply andb_true_iff in Ho as [_ Ho].
  destruct e; cbn [conn_enter conn_written conn_key default edit_config set_config config set_header_fields] in *; try exact Hc;
    try (apply put_typed; [first [exact Ho | apply andb_true_iff in Ho as [_ Ho]; exact Ho | reflexivity]|exact Hc]).
  - unfold add_header. destruct (headerKey s) as [|a x], (headerVal s) as [|b y]; try exact Hc.
    cbn [set_header_fields edit_config set_config config]. apply put_typed; [|done]. apply header_map_typed.
    apply Forall_forall. intros z [->|Hz]%obj_put_keys; [done|].
    pose proof (headers_typed _ Hc) as Hh. rewrite Forall_forall in Hh. by apply Hh.
  - unfold remove_header. cbn [edit_config set_config config]. apply put_typed; [|done]. apply header_map_typed.
    apply Forall_forall. intros z Hz. pose proof (headers_typed _ Hc) as Hh. rewrite Forall_forall in Hh. apply Hh.
    unfold obj_del in Hz. apply list_elem_of_In, filter_In in Hz as [Hz _]. by apply list_elem_of_In.
Qed.

(** C21: the connection that is sent has its declared type. Whatever the user
    does with the inputs that are shown, starting from a configuration of
    the type the control plane declares, every member keeps its type: one of
    the two modes, one of the four ways to authenticate, texts, switches and
    a map of texts; both the saved and the tested configuration have it. *)
Theorem connection_stays_typed (s s' : ConnectionsTab) (es : list conn_entry) :
  config_typed (config s) -> star (@offered_step _ _ _ connection_inputs) s es s' ->
  exists c, config_typed c /\ (handleSaveConfig s').2 = analytics_updateConnection c /\
    (handleTestConnection s' (config s')).2 = analytics_testConnection c.
Proof.
  intros Hc Hs. exists (config s'). split; [|done].
  refine (@offered_invariant _ _ _ connection_inputs (fun t => config_typed (config t)) s es s' _ Hc Hs).
  intros t e Ht He. by apply conn_enter_typed.
Qed.

(** Changing the way to authenticate does not withdraw the credentials of
    the old one: they are still sent. *)
Lemma hidden_token_is_sent (s : ConnectionsTab) (t : jsstring) :
  let s' := conn_enter (conn_enter s (InToken t)) (InAuthType (js "none")) in
  obj_get (js "auth_token") (config s') = Some (VStr t) /\ (handleSaveConfig s').2 = analytics_updateConnection (config s').
Proof.
  split; [|done]. cbn [conn_enter conn_written conn_key default edit_config set_config config].
  rewrite obj_get_put_ne by discriminate. apply obj_get_put_eq.
Qed.

Lemma connection_stays_typed_witness :
  let s := connection_loaded initial_connections (Ok status_example) in
  let s' := conn_enter (conn_enter s (InAuthType (js "bearer"))) (InToken (js "secret")) in
  exists c, config_typed c /\ (handleSaveConfig s').2 = analytics_updateConnection c.
Proof.
  cbv zeta.
  destruct (connection_stays_typed (connection_loaded initial_connections (Ok status_example))
    (conn_enter (conn_enter (connection_loaded initial_connections (Ok status_example)) (InAuthType (js "bearer"))) (InToken (js "secret")))
    [InAuthType (js "bearer"); InToken (js "secret")]) as (c & Hc & H1 & _).
  - repeat (apply Forall_cons; split; [reflexivity|]). by apply Forall_nil.
  - eapply star_cons; [by apply (@OfferedEntry _ _ _ connection_inputs)|].
    eapply star_cons; [by apply (@OfferedEntry _ _ _ connection_inputs)|apply star_nil].
  - exists c. split; [exact Hc|exact H1].
Defined.
