(* ===== verification/Dashboard.v ===== *)
(** * Dashboard

    [pages/dashboard/page.tsx]: system information and the cluster
    specification, polled every fifteen seconds and refreshed by a button
    that is disabled while a refresh runs; and the digests as the header,
    the metrics and the synchronisation panel shorten them. Requests are
    numbered as on the list pages ([Polling]), but the flag of a refresh is
    reset only by a refresh that is still the latest request. *)

From Stdlib Require Import ZArith NArith Lia String.
From S2P Require Import Prelude JsString JsValue Json Fetcher Api.
Import OtherApis.
Local Open Scope string_scope.
Local Open Scope list_scope.

Record SystemInfo := {
  product : jsstring;
  version : jsstring;
  build : jsstring;
  go_version : jsstring;
  uptime_seconds : num;
  uptime_formatted : jsstring;
  architecture : jsstring;
  state_persistence : jsstring;
  database_path : jsstring;
  database_size_bytes : num;
  database_size_formatted : jsstring;
  memory_alloc_bytes : num;
  memory_alloc_formatted : jsstring
}.

(** [pending] holds the requests in flight with their [showSpin]. *)
Record Dashboard := {
  systemInfo : option SystemInfo;
  clusterSpec : option ClusterSpecInfo;
  isRefreshing : bool;
  requestID : nat;
  pending : list (nat * bool)
}.

Definition initial_dashboard : Dashboard :=
  {| systemInfo := None; clusterSpec := None; isRefreshing := false; requestID := 0; pending := [] |}.

(** [loadData] up to its [await]. *)
Definition loadData_start (showSpin : bool) (s : Dashboard) : Dashboard :=
  {| systemInfo := systemInfo s; clusterSpec := clusterSpec s;
     isRefreshing := if showSpin then true else isRefreshing s; requestID := S (requestID s);
     pending := (S (requestID s), showSpin) :: pending s |}.

(** ... and from it: each of the two requests has its own fallback, so the
    [try] never throws. *)
Definition loadData_finish (reqId : nat) (showSpin : bool) (info : result ApiError SystemInfo)
    (spec : result ApiError ClusterSpecInfo) (s : Dashboard) : Dashboard :=
  let current := Nat.eqb reqId (requestID s) in
  let keep {E A} (r : result E A) := match r with Ok x => Some x | Throw _ => None end in
  {| systemInfo := if current then keep info else systemInfo s;
     clusterSpec := if current then keep spec else clusterSpec s;
     isRefreshing := if showSpin && current then false else isRefreshing s;
     requestID := requestID s;
     pending := List.filter (fun p => negb (Nat.eqb p.1 reqId)) (pending s) |}.

(** [disabled={isRefreshing}] of the only button that refreshes. *)
Definition refresh_disabled (s : Dashboard) : bool := isRefreshing s.

Inductive dashboard_event :=
| Refresh
| Poll
| Answer (reqId : nat) (info : result ApiError SystemInfo) (spec : result ApiError ClusterSpecInfo).

Inductive dashboard_step : Dashboard -> dashboard_event -> Dashboard -> Prop :=
| StepRefresh s : refresh_disabled s = false -> dashboard_step s Refresh (loadData_start true s)
| StepPoll s : dashboard_step s Poll (loadData_start false s)
| StepAnswered s n spin info spec : (n, spin) ∈ pending s ->
    dashboard_step s (Answer n info spec) (loadData_finish n spin info spec s).

(** ** What the sections show *)

(** [hash.slice(0, n)...hash.slice(-m)] *)
Definition short_hash (n m : nat) (hash : jsstring) : jsstring := slice_head n hash ++ js "..." ++ slice_tail m hash.

Definition spec_hash (c : option ClusterSpecInfo) : jsstring := match c with Some i => hash i | None => [] end.

(** [None] is [null]: the header shows no digest then. *)
Definition header_hash (c : option ClusterSpecInfo) : option jsstring :=
  match spec_hash c with [] => None | h => Some (short_hash 8 4 h) end.
Definition metrics_hash (c : option ClusterSpecInfo) : jsstring :=
  match spec_hash c with [] => js "Baseline" | h => short_hash 8 6 h end.
Definition panel_hash (c : option ClusterSpecInfo) : jsstring :=
  match spec_hash c with [] => js "No digest" | h => short_hash 12 6 h end.
Definition panel_fullHash (c : option ClusterSpecInfo) : jsstring := str_or (spec_hash c) (js "None (Default Static Config)").

(** [copyHash]: what goes to the clipboard, if anything. *)
Definition copyHash (c : option ClusterSpecInfo) : option jsstring := match spec_hash c with [] => None | h => Some h end.

(** ** Lemmas *)

Definition dashboard_inv (s : Dashboard) : Prop :=
  NoDup (pending s).*1 /\ Forall (fun n => n <= requestID s) (pending s).*1.

Lemma pending_answer n (l : list (nat * bool)) p :
  p ∈ List.filter (fun p => negb (Nat.eqb p.1 n)) l <-> p ∈ l /\ p.1 <> n.
Proof. rewrite !list_elem_of_In, filter_In, negb_true_iff, Nat.eqb_neq. done. Qed.

Lemma loadData_start_inv b s : dashboard_inv s -> dashboard_inv (loadData_start b s).
Proof.
  intros [Hn Hl]. split; cbn [loadData_start pending requestID].
  - apply NoDup_cons. split; [|done]. intros Hin. rewrite Forall_forall in Hl. specialize (Hl _ Hin). simpl in Hl. lia.
  - apply Forall_cons. split; [done|]. eapply Forall_impl; [exact Hl|]. simpl. lia.
Qed.

Lemma dashboard_step_inv s e s' : dashboard_inv s -> dashboard_step s e s' -> dashboard_inv s'.
Proof.
  intros Hi Hs. pose proof Hi as [Hn Hl].
  destruct Hs as [s _|s|s n spin info spec Hp]; [by apply loadData_start_inv..|].
  split; cbn [loadData_finish pending requestID].
  - by apply (map_filter_nodup (fun p => negb (Nat.eqb p.1 n)) fst).
  - rewrite Forall_forall in *. intros x Hx. apply Hl. apply list_elem_of_fmap in Hx as (p & -> & Hp').
    apply pending_answer in Hp' as [? _]. by apply list_elem_of_fmap_2.
Qed.

Definition is_answer (e : dashboard_event) : Prop := match e with Answer _ _ _ => True | _ => False end.

(** Without the latest request in flight, answers change nothing shown. *)
Lemma stale_answers s es s' :
  star dashboard_step s es s' -> Forall is_answer es -> requestID s ∉ (pending s).*1 ->
  systemInfo s' = systemInfo s /\ clusterSpec s' = clusterSpec s /\ isRefreshing s' = isRefreshing s.
Proof.
  induction 1 as [s|s e s1 es s2 Hstep _ IH]; intros Hes Hn; [done|]. inversion Hes as [|? ? He Hes']; subst.
  destruct Hstep as [| |s n spin info spec Hp]; try done.
  destruct (decide (n = requestID s)) as [->|Hne]; [by apply list_elem_of_fmap_2 with (f := fst) in Hp|].
  apply Nat.eqb_neq in Hne.
  destruct (IH Hes') as (H1 & H2 & H3).
  { cbn [loadData_finish pending requestID]. intros (p & Hp1 & [Hp2 _]%pending_answer)%list_elem_of_fmap. apply Hn.
    rewrite Hp1. by apply list_elem_of_fmap_2. }
  rewrite H1, H2, H3. cbn [loadData_finish systemInfo clusterSpec isRefreshing]. by rewrite Hne, andb_false_r.
Qed.

Lemma answer_was_pending s es s' n info spec :
  star dashboard_step s es s' -> Forall is_answer es -> Answer n info spec ∈ es -> n ∈ (pending s).*1.
Proof.
  induction 1 as [s|s e s1 es s2 Hstep _ IH]; intros Hes Hin; [by apply elem_of_nil in Hin|].
  inversion Hes as [|? ? He Hes']; subst. destruct Hstep as [| |s k spin i0 s0 Hk]; try done.
  apply elem_of_cons in Hin as [[= -> _ _]|Hin]; [by apply list_elem_of_fmap_2 with (f := fst) in Hk|].
  specialize (IH Hes' Hin). cbn [loadData_finish pending] in IH.
  apply list_elem_of_fmap in IH as (p & -> & [Hp _]%pending_answer). by apply list_elem_of_fmap_2.
Qed.

Lemma latest_answer s es s' spin info spec :
  star dashboard_step s es s' -> Forall is_answer es -> dashboard_inv s -> (requestID s, spin) ∈ pending s ->
  Answer (requestID s) info spec ∈ es ->
  systemInfo s' = match info with Ok x => Some x | Throw _ => None end /\
  clusterSpec s' = match spec with Ok x => Some x | Throw _ => None end /\
  (spin = true -> isRefreshing s' = false).
Proof.
  induction 1 as [s|s e s1 es s2 Hstep Hstar IH]; intros Hes Hinv Hp Hin; [by apply elem_of_nil in Hin|].
  inversion Hes as [|? ? He Hes']; subst. pose proof (dashboard_step_inv _ _ _ Hinv Hstep) as Hinv'.
  destruct Hstep as [| |s n spin' i0 s0 Hk]; try done.
  destruct (decide (n = requestID s)) as [->|Hne].
  - assert (spin' = spin) as ->.
    { destruct Hinv as [Hnd _]. apply list_elem_of_lookup in Hk as [i Hi], Hp as [j Hj].
      assert (i = j) as ->; [|congruence].
      eapply (NoDup_lookup _ i j (requestID s) Hnd); rewrite list_lookup_fmap, ?Hi, ?Hj; done. }
    assert (requestID (loadData_finish (requestID s) spin i0 s0 s) ∉ (pending (loadData_finish (requestID s) spin i0 s0 s)).*1) as Hno.
    { cbn [loadData_finish pending requestID]. intros (p & Hp1 & [_ Hp2]%pending_answer)%list_elem_of_fmap. done. }
    destruct (stale_answers _ _ _ Hstar Hes' Hno) as (-> & -> & ->).
    apply elem_of_cons in Hin as [[= <- <-]|Hin]; [|by apply (answer_was_pending _ _ _ _ _ _ Hstar Hes') in Hin].
    cbn [loadData_finish systemInfo clusterSpec isRefreshing]. rewrite Nat.eqb_refl, andb_true_r.
    split_and!; [done|done|by intros ->].
  - apply elem_of_cons in Hin as [[= E _ _]|Hin]; [done|].
    apply (IH Hes' Hinv'); [|done]. cbn [loadData_finish pending requestID]. by apply pending_answer.
Qed.

(** ** Theorems *)

(** C16: a refresh that is not overtaken ends. After the button was pressed,
    once this refresh is answered, in any order with the older requests, the
    button is enabled again and the dashboard shows the answer, an empty
    part for each of the two requests that failed. *)
Theorem refresh_completes (s s' : Dashboard) (past es : list dashboard_event)
    (info : result ApiError SystemInfo) (spec : result ApiError ClusterSpecInfo) :
  star dashboard_step initial_dashboard past s ->
  star dashboard_step (loadData_start true s) es s' -> Forall is_answer es ->
  Answer (S (requestID s)) info spec ∈ es ->
  refresh_disabled s' = false /\
  systemInfo s' = match info with Ok x => Some x | Throw _ => None end /\
  clusterSpec s' = match spec with Ok x => Some x | Throw _ => None end.
Proof.
  intros Hpast Hes Hans Hin.
  assert (dashboard_inv s) as Hi.
  { eapply (star_invariant dashboard_step dashboard_inv); [apply dashboard_step_inv| |exact Hpast]. split; constructor. }
  destruct (latest_answer _ _ _ true info spec Hes Hans (loadData_start_inv _ _ Hi)) as (H1 & H2 & H3); [left|done|].
  split; [by apply H3|done].
Qed.

(** A refresh that a poll overtakes never ends: the button stays disabled
    in every state that polls and answers lead to, and since only the button
    refreshes, those are all the states there are. *)
Definition stuck (s : Dashboard) : Prop :=
  isRefreshing s = true /\ Forall (fun p => p.2 = true -> p.1 < requestID s) (pending s).

Lemma stuck_step s e s' : stuck s -> dashboard_step s e s' -> stuck s'.
Proof.
  intros [Hr Hp] Hs. destruct Hs as [s Hd|s|s n spin info spec Hin]; [by unfold refresh_disabled in Hd; congruence| |].
  - split; [done|]. cbn [loadData_start pending requestID]. apply Forall_cons. split; [done|].
    eapply Forall_impl; [exact Hp|]. simpl. intros p Hlt Ht. specialize (Hlt Ht). lia.
  - rewrite Forall_forall in Hp. split; cbn [loadData_finish pending requestID isRefreshing].
    + destruct spin; [|done]. specialize (Hp _ Hin eq_refl). cbn [fst] in Hp.
      assert (n <> requestID s) as Hne%Nat.eqb_neq by lia. by rewrite Hne.
    + rewrite Forall_forall. intros p [Hin' _]%pending_answer. by apply Hp.
Qed.

Lemma overtaken_refresh_never_ends (s s' : Dashboard) (past es : list dashboard_event) :
  star dashboard_step initial_dashboard past s -> refresh_disabled s = false ->
  star dashboard_step (loadData_start false (loadData_start true s)) es s' ->
  refresh_disabled s' = true.
Proof.
  intros Hpast Hd Hes. assert (stuck (loadData_start false (loadData_start true s))) as Hst.
  { eapply (star_invariant dashboard_step dashboard_inv) in Hpast as [_ Hl]; [|apply dashboard_step_inv|split; constructor].
    split; [done|]. cbn [loadData_start pending requestID]. apply Forall_cons. split; [done|].
    apply Forall_cons. split; [simpl; lia|]. apply Forall_fmap in Hl. eapply Forall_impl; [exact Hl|]. simpl. lia. }
  eapply (star_invariant dashboard_step stuck) in Hes as [? _]; [done|apply stuck_step|done].
Qed.

(** ** Instances *)

Lemma refresh_completes_witness :
  refresh_disabled (loadData_finish 1 true (Throw (network_error [])) (Ok no_spec) (loadData_start true initial_dashboard)) = false.
Proof.
  apply (refresh_completes initial_dashboard _ [] [Answer 1 (Throw (network_error [])) (Ok no_spec)]
           (Throw (network_error [])) (Ok no_spec)).
  - apply star_nil.
  - eapply star_cons; [apply StepAnswered; left|apply star_nil].
  - repeat constructor.
  - left.
Defined.
