(* ===== verification/Shell.v ===== *)
(** * The shell of the console

    What surrounds the pages: the theme that [components/theme-provider.tsx]
    applies to the document, the side bar of [components/ConsoleSidebar.tsx]
    with its keyboard shortcut and its two ways of being controlled, the
    header of [components/ConsoleHeader.tsx], the tabs of
    [pages/settings/page.tsx] with the general and logging tabs, and the
    panels of the dashboard. The stored preferences themselves are in
    [Session]. *)

From Stdlib Require Import ZArith NArith Lia String.
From S2P Require Import Prelude JsString JsValue Fetcher Api Session Dashboard.
Import OtherApis.
Local Open Scope string_scope.
Local Open Scope list_scope.

(** An invariant of every step holds after a run of them. *)
Lemma fold_left_inv {A B} (f : A -> B -> A) (I : A -> Prop) (bs : list B) (a : A) :
  (forall x b, I x -> I (f x b)) -> I a -> I (fold_left f bs a).
Proof. intros Hf. revert a. induction bs as [|b bs IH]; intros a Ha; cbn; eauto. Qed.

Lemma filter_nil_all {A} (f : A -> bool) (l : list A) : Forall (fun x => f x = false) l -> List.filter f l = [].
Proof. induction 1 as [|x l Hx _ IH]; cbn; [done|]. by rewrite Hx. Qed.

(** ** The theme of the document *)

Module ThemeRoot.

(** The attributes of the root element that [applyTheme] sets, and the state
    of the provider. *)
Record document := { classList : list jsstring; dataTheme : jsstring; colorScheme : jsstring }.

Record ThemeProvider := {
  store : Storage;
  theme : Theme;
  resolvedTheme : Theme;
  prefers_dark : bool;
  root : document
}.

Definition remove_classes (names : list jsstring) (l : list jsstring) : list jsstring :=
  List.filter (fun c => negb (existsb (jeqb c) names)) l.

(** [classList.add]: a set in insertion order. *)
Definition add_class (c : jsstring) (l : list jsstring) : list jsstring := if existsb (jeqb c) l then l else l ++ [c].

Definition apply_root (resolved : Theme) (d : document) : document :=
  let name := theme_name resolved in
  {| classList := add_class name (remove_classes [js "light"; js "dark"] (classList d)); dataTheme := name; colorScheme := name |}.

Definition applyTheme (s : ThemeProvider) (current : Theme) : ThemeProvider :=
  let resolved := resolved_theme (prefers_dark s) current in
  {| store := store s; theme := theme s; resolvedTheme := resolved; prefers_dark := prefers_dark s; root := apply_root resolved (root s) |}.

(** The first rendering with its effect. *)
Definition provider_initial (st : Storage) (defaultTheme : Theme) (dark : bool) (d : document) : ThemeProvider :=
  let t := theme_initial st defaultTheme in
  applyTheme {| store := st; theme := t; resolvedTheme := Dark; prefers_dark := dark; root := d |} t.

(** [setTheme] and the effect that a changed theme runs again. *)
Definition choose_theme (s : ThemeProvider) (t : Theme) : ThemeProvider :=
  let '(st, t') := setTheme (store s) t in
  let s' := {| store := st; theme := t'; resolvedTheme := resolvedTheme s; prefers_dark := prefers_dark s; root := root s |} in
  if decide (theme_name t' = theme_name (theme s)) then s' else applyTheme s' t'.

(** The preference of the system changes; there is a listener only while the
    theme is [system]. *)
Definition system_change (s : ThemeProvider) (dark : bool) : ThemeProvider :=
  let s' := {| store := store s; theme := theme s; resolvedTheme := resolvedTheme s; prefers_dark := dark; root := root s |} in
  match theme s with System => applyTheme s' System | _ => s' end.

(** The button of the header and the select of the general settings both
    call [setTheme]. *)
Inductive theme_event := PressToggle | SelectTheme (t : Theme) | SystemChange (dark : bool).

Definition theme_next (t : Theme) : Theme := match t with Dark => Light | Light => System | System => Dark end.

Definition theme_step (s : ThemeProvider) (e : theme_event) : ThemeProvider :=
  match e with
  | PressToggle => choose_theme s (theme_next (theme s))
  | SelectTheme t => choose_theme s t
  | SystemChange dark => system_change s dark
  end.

Definition theme_run (s : ThemeProvider) (es : list theme_event) : ThemeProvider := fold_left theme_step es s.

(** The document shows the theme: its name is the one of the resolved theme
    and is the only one of the two among the classes. *)
Definition applied (s : ThemeProvider) : Prop :=
  resolvedTheme s = resolved_theme (prefers_dark s) (theme s) /\
  dataTheme (root s) = theme_name (resolvedTheme s) /\ colorScheme (root s) = theme_name (resolvedTheme s) /\
  (forall c, c ∈ [js "light"; js "dark"] -> c ∈ classList (root s) <-> c = theme_name (resolvedTheme s)).

Lemma existsb_jeqb c l : existsb (jeqb c) l = true <-> c ∈ l.
Proof.
  rewrite existsb_exists, list_elem_of_In. split; [intros (x & Hx & ->%jeqb_true); done|]. intros Hc. exists c. by rewrite jeqb_refl.
Qed.

Lemma add_class_in c x l : x ∈ add_class c l <-> x = c \/ x ∈ l.
Proof.
  unfold add_class. destruct (existsb (jeqb c) l) eqn:E; [apply existsb_jeqb in E; set_solver|set_solver].
Qed.

Lemma remove_classes_in x names l : x ∈ remove_classes names l <-> x ∈ l /\ x ∉ names.
Proof.
  unfold remove_classes. rewrite list_elem_of_In, filter_In, negb_true_iff, <- not_true_iff_false, existsb_jeqb, <- list_elem_of_In. done.
Qed.

Lemma resolved_named dark t : theme_name (resolved_theme dark t) ∈ [js "light"; js "dark"].
Proof. destruct t, dark; cbn [resolved_theme theme_name]; set_solver. Qed.

Lemma apply_applied s t : theme s = t -> applied (applyTheme s t).
Proof.
  intros <-. unfold applied, applyTheme. cbn [resolvedTheme prefers_dark theme root apply_root dataTheme colorScheme classList].
  split_and!; try done. intros c Hc. rewrite add_class_in, remove_classes_in. naive_solver.
Qed.

Lemma theme_name_inj t t' : theme_name t = theme_name t' -> t = t'.
Proof. destruct t, t'; try done; intros E; vm_compute in E; discriminate E. Qed.

Lemma theme_step_applied s e : applied s -> applied (theme_step s e).
Proof.
  assert (forall t, applied s -> applied (choose_theme s t)) as HC.
  { intros t Hs. unfold choose_theme, setTheme. destruct (decide _) as [E|E]; [|by apply apply_applied].
    apply theme_name_inj in E as ->. exact Hs. }
  intros Hs. destruct e as [|t|dark]; [by apply HC|by apply HC|]. unfold theme_step, system_change.
  destruct (theme s) eqn:E; [| |by apply apply_applied]; unfold applied in *; cbn [resolvedTheme prefers_dark theme root];
    rewrite E in *; exact Hs.
Qed.

(** The document follows the theme. Along every sequence of presses of the
    header button, selections in the settings and changes of the system
    preference, the document carries the chosen theme, or for "system" the
    current preference, as its only theme class. *)
Theorem document_follows_theme (st : Storage) (d : Theme) (dark : bool) (doc : document) (es : list theme_event) :
  applied (theme_run (provider_initial st d dark doc) es).
Proof.
  unfold theme_run. assert (applied (provider_initial st d dark doc)) as H0 by (by apply apply_applied).
  revert H0. generalize (provider_initial st d dark doc) as s. induction es as [|e es IH]; intros s Hs; [done|].
  apply IH. by apply theme_step_applied.
Qed.

(** Classes that are not names of themes are left alone. *)
Lemma other_classes_kept s t c : c ∉ [js "light"; js "dark"] -> c ∈ classList (root (applyTheme s t)) <-> c ∈ classList (root s).
Proof.
  intros Hc. cbn [applyTheme root apply_root classList]. rewrite add_class_in, remove_classes_in.
  pose proof (resolved_named (prefers_dark s) t). set_solver.
Qed.
End ThemeRoot.

(** ** The side bar and the header *)

Module SideBar.

(** What the listeners look at of a key press. *)
Record KeyboardEvent := {
  key : jsstring;
  ctrlKey : bool;
  metaKey : bool;
  tagName : jsstring;
  isContentEditable : bool
}.

Section Keys.
Context `{CaseMapping}.

(** Ctrl+B or Cmd+B outside of a text input. *)
Definition sidebar_key (e : KeyboardEvent) : bool :=
  if jeqb (tagName e) (js "INPUT") || jeqb (tagName e) (js "TEXTAREA") || isContentEditable e then false
  else (ctrlKey e || metaKey e) && jeqb (toLowerCase (key e)) (js "b").

(** Ctrl+K or Cmd+K anywhere, with a small [k]. *)
Definition search_key (e : KeyboardEvent) : bool := (ctrlKey e || metaKey e) && jeqb (key e) (js "k").

(** The layout holds the flag and hands it to the side bar; the side bar has
    a flag of its own, for the case that it is not handed one. *)
Record shell := {
  store : Storage;
  sidebarCollapsed : bool;
  internalCollapsed : bool;
  searchQuery : jsstring;
  search_focused : bool
}.

Definition initial_shell (st : Storage) : shell :=
  {| store := st; sidebarCollapsed := sidebar_initial st; internalCollapsed := sidebar_initial st; searchQuery := [];
     search_focused := false |}.

(** [controlledCollapsed !== undefined ? controlledCollapsed : internalCollapsed] *)
Definition collapsed (controlled : option bool) (internal : bool) : bool := default internal controlled.

(** [toggleCollapsed] of the side bar: [onToggleCollapse] is the function of
    the layout when the side bar is controlled. *)
Definition toggleCollapsed (controlled : bool) (s : shell) : shell :=
  if controlled
  then let '(st, c) := toggleSidebar (store s) (sidebarCollapsed s) in
       {| store := st; sidebarCollapsed := c; internalCollapsed := internalCollapsed s; searchQuery := searchQuery s;
          search_focused := search_focused s |}
  else let '(st, c) := toggleSidebar (store s) (internalCollapsed s) in
       {| store := st; sidebarCollapsed := sidebarCollapsed s; internalCollapsed := c; searchQuery := searchQuery s;
          search_focused := search_focused s |}.

Definition set_search (s : shell) (q : jsstring) (focused : bool) : shell :=
  {| store := store s; sidebarCollapsed := sidebarCollapsed s; internalCollapsed := internalCollapsed s; searchQuery := q;
     search_focused := focused |}.

Inductive shell_event := PressCollapse | KeyDown (e : KeyboardEvent) | TypeSearch (q : jsstring).

(** Both listeners see every key. [handleSearchChange] would call
    [onSearch], which the layout does not pass. *)
Definition shell_step (controlled : bool) (s : shell) (e : shell_event) : shell :=
  match e with
  | PressCollapse => toggleCollapsed controlled s
  | KeyDown k =>
      let s1 := if sidebar_key k then toggleCollapsed controlled s else s in
      if search_key k then set_search s1 (searchQuery s1) true else s1
  | TypeSearch q => set_search s q (search_focused s)
  end.

Definition shell_run (controlled : bool) (s : shell) (es : list shell_event) : shell := fold_left (shell_step controlled) es s.

(** What the side bar shows. *)
Definition shown_collapsed (controlled : bool) (s : shell) : bool :=
  collapsed (if controlled then Some (sidebarCollapsed s) else None) (internalCollapsed s).

Definition toggles (es : list shell_event) : nat :=
  length (List.filter (fun e => match e with PressCollapse => true | KeyDown k => sidebar_key k | TypeSearch _ => false end) es).

Lemma shell_step_shown controlled s e :
  shown_collapsed controlled (shell_step controlled s e) = xorb (shown_collapsed controlled s) (Nat.odd (toggles [e])) /\
  store (shell_step controlled s e) = if Nat.odd (toggles [e]) then (toggleSidebar (store s) (shown_collapsed controlled s)).1 else store s.
Proof.
  unfold shell_step, toggles, shown_collapsed, toggleCollapsed. destruct e as [|k|q]; cbn [List.filter length].
  - destruct controlled; cbn; by destruct (_ : bool).
  - destruct (sidebar_key k), (search_key k), controlled; cbn; by destruct (_ : bool).
  - destruct controlled; cbn; by destruct (_ : bool).
Qed.

Lemma toggle_stored st c : readable st = true -> writable st = true ->
  sidebar_initial (toggleSidebar st c).1 = negb c /\ readable (toggleSidebar st c).1 = true /\ writable (toggleSidebar st c).1 = true.
Proof.
  intros Hr Hw. unfold toggleSidebar. cbn [fst].
  destruct (set_usable st SIDEBAR_KEY (if negb c then js "true" else js "false")) as [H1 H2].
  split; [|by rewrite H1, H2]. unfold sidebar_initial. rewrite getItem_set by done. rewrite jeqb_refl. by destruct c.
Qed.

Lemma stored_shown controlled st es : readable st = true -> writable st = true ->
  let s := shell_run controlled (initial_shell st) es in
  sidebar_initial (store s) = shown_collapsed controlled s /\ readable (store s) = true /\ writable (store s) = true.
Proof.
  intros Hr Hw. cbv zeta. unfold shell_run. induction es as [|e es IH] using rev_ind; [by destruct controlled|].
  rewrite fold_left_app. cbn [fold_left]. revert IH. generalize (fold_left (shell_step controlled) es (initial_shell st)) as s.
  intros s (H1 & H2 & H3). destruct (shell_step_shown controlled s e) as [E1 E2]. rewrite E1, E2.
  destruct (Nat.odd (toggles [e])); [|by rewrite xorb_false_r].
  rewrite xorb_true_r. by apply toggle_stored.
Qed.

(** The side bar is one switch. However the header button and the
    shortcut are used, and whatever else is typed, the side bar that the
    layout controls shows the same as one that controls itself, with the
    same store: collapsed or not by the number of uses; and in a usable
    store a reloaded page starts as this one is. *)
Theorem sidebar_controlled_agrees (st : Storage) (es : list shell_event) :
  let outer := shell_run true (initial_shell st) es in
  let inner := shell_run false (initial_shell st) es in
  shown_collapsed true outer = shown_collapsed false inner /\ store outer = store inner /\
  shown_collapsed true outer = xorb (sidebar_initial st) (Nat.odd (toggles es)) /\
  (readable st = true -> writable st = true -> sidebar_initial (store outer) = shown_collapsed true outer).
Proof.
  enough (let outer := shell_run true (initial_shell st) es in
    let inner := shell_run false (initial_shell st) es in
    shown_collapsed true outer = shown_collapsed false inner /\ store outer = store inner /\
    shown_collapsed true outer = xorb (sidebar_initial st) (Nat.odd (toggles es))) as (H1 & H2 & H3).
  { split_and!; try done. intros Hr Hw. by apply (stored_shown true st es). }
  cbv zeta. unfold shell_run. induction es as [|e es IH] using rev_ind; [cbn; by rewrite xorb_false_r|].
  rewrite !fold_left_app. cbn [fold_left]. destruct IH as (H1 & H2 & H3).
  assert (Nat.odd (toggles (es ++ [e])) = xorb (Nat.odd (toggles es)) (Nat.odd (toggles [e]))) as Ht.
  { unfold toggles. rewrite List.filter_app, length_app. apply Nat.odd_add. }
  revert H1 H2 H3. generalize (fold_left (shell_step true) es (initial_shell st)) as s.
  generalize (fold_left (shell_step false) es (initial_shell st)) as s'. intros s' s H1 H2 H3.
  destruct (shell_step_shown true s e) as [E1 E2], (shell_step_shown false s' e) as [F1 F2].
  by rewrite E1, E2, F1, F2, <- H1, <- H2, Ht, H3, xorb_assoc.
Qed.

(** The search box of the header changes nothing but its own text. *)
Lemma search_box_inert controlled s q :
  let s' := shell_step controlled s (TypeSearch q) in
  store s' = store s /\ sidebarCollapsed s' = sidebarCollapsed s /\ internalCollapsed s' = internalCollapsed s /\ searchQuery s' = q.
Proof. done. Qed.
End Keys.
End SideBar.

(** ** Settings: the tabs that keep their own state *)

Module SettingsTabs.

Inductive SettingsTab := General | Security | Notifications | Logging | BackupRestore.

Definition tabs : list (SettingsTab * jsstring) :=
  [(General, js "General"); (Security, js "Security"); (Notifications, js "Notifications"); (Logging, js "Logging");
   (BackupRestore, js "Backup & Restore")].

(** [SystemInfoSection]: one request while it is mounted. *)
Record InfoSection := { sysInfo : option SystemInfo; loading : bool; mounted : bool }.

Definition info_mounted : InfoSection := {| sysInfo := None; loading := true; mounted := true |}.

Definition info_settled (s : InfoSection) (r : result ApiError SystemInfo) : InfoSection :=
  if mounted s
  then {| sysInfo := match r with Ok i => Some i | Throw _ => sysInfo s end; loading := false; mounted := true |}
  else s.

Definition info_unmounted (s : InfoSection) : InfoSection := {| sysInfo := sysInfo s; loading := loading s; mounted := false |}.

(** [sysInfo?.x ?? (loading ? '...' : '—')] *)
Definition info_text (s : InfoSection) (field : SystemInfo -> jsstring) : jsstring :=
  match sysInfo s with Some i => field i | None => if loading s then js "..." else js "—" end.

Definition info_rows (s : InfoSection) : list (jsstring * jsstring) :=
  [(js "Product", info_text s product); (js "Version", info_text s version); (js "Build", info_text s build);
   (js "Uptime", info_text s uptime_formatted); (js "Architecture", info_text s architecture);
   (js "State Persistence", info_text s state_persistence)].

(** [LoggingSettingsSection] *)
Record LoggingSection := {
  logLevel : jsstring;
  logRetention : jsstring;
  maxLogSize : jsstring;
  enableAccessLog : bool;
  enableAuditLog : bool;
  enableErrorLog : bool;
  remoteSyslog : bool
}.

Definition initial_logging : LoggingSection :=
  {| logLevel := js "Info"; logRetention := js "30 days"; maxLogSize := js "1 GB"; enableAccessLog := true; enableAuditLog := true;
     enableErrorLog := true; remoteSyslog := false |}.

Definition level_options : list jsstring := map js ["Debug"; "Info"; "Warn"; "Error"].
Definition retention_options : list jsstring := map js ["7 days"; "14 days"; "30 days"; "90 days"; "365 days"].
Definition size_options : list jsstring := map js ["250 MB"; "500 MB"; "1 GB"; "5 GB"].

Inductive logging_event :=
| ChooseLevel (v : jsstring) | ChooseRetention (v : jsstring) | ChooseSize (v : jsstring)
| FlipAccess | FlipAudit | FlipError | FlipSyslog.

Definition logging_enter (s : LoggingSection) (e : logging_event) : LoggingSection :=
  {| logLevel := match e with ChooseLevel v => v | _ => logLevel s end;
     logRetention := match e with ChooseRetention v => v | _ => logRetention s end;
     maxLogSize := match e with ChooseSize v => v | _ => maxLogSize s end;
     enableAccessLog := match e with FlipAccess => negb (enableAccessLog s) | _ => enableAccessLog s end;
     enableAuditLog := match e with FlipAudit => negb (enableAuditLog s) | _ => enableAuditLog s end;
     enableErrorLog := match e with FlipError => negb (enableErrorLog s) | _ => enableErrorLog s end;
     remoteSyslog := match e with FlipSyslog => negb (remoteSyslog s) | _ => remoteSyslog s end |}.

Definition logging_offered (e : logging_event) : Prop :=
  match e with
  | ChooseLevel v => v ∈ level_options
  | ChooseRetention v => v ∈ retention_options
  | ChooseSize v => v ∈ size_options
  | _ => True
  end.

(** [WebInterfaceSection]: the theme is the provider's, the language its own. *)
Definition language_options : list jsstring := map js ["English"; "Tiếng Việt"; "日本語"; "Deutsch"].

(** The page mounts the content of the active tab only: entering a tab gives
    it its initial state. *)
Record SettingsPage := {
  activeTab : SettingsTab;
  info : InfoSection;
  language : jsstring;
  logging : LoggingSection
}.

Definition initial_settings : SettingsPage :=
  {| activeTab := General; info := info_mounted; language := js "English"; logging := initial_logging |}.

#[export] Instance tab_eq_dec : EqDecision SettingsTab.
Proof. solve_decision. Defined.

Definition onTabChange (s : SettingsPage) (t : SettingsTab) : SettingsPage :=
  if decide (t = activeTab s) then s
  else {| activeTab := t;
          info := if decide (t = General) then info_mounted else info_unmounted (info s);
          language := if decide (t = General) then js "English" else language s;
          logging := if decide (t = Logging) then initial_logging else logging s |}.

Inductive settings_event :=
| ChooseTab (t : SettingsTab)
| InfoAnswer (r : result ApiError SystemInfo)
| ChooseLanguage (l : jsstring)
| LoggingInput (e : logging_event).

(** A request of an earlier mounting is answered into nothing. *)
Inductive settings_step : SettingsPage -> settings_event -> SettingsPage -> Prop :=
| StepTab s t : settings_step s (ChooseTab t) (onTabChange s t)
| StepInfo s r : loading (info s) = true ->
    settings_step s (InfoAnswer r)
      {| activeTab := activeTab s; info := info_settled (info s) r; language := language s; logging := logging s |}
| StepLanguage s l : activeTab s = General -> l ∈ language_options ->
    settings_step s (ChooseLanguage l) {| activeTab := activeTab s; info := info s; language := l; logging := logging s |}
| StepLogging s e : activeTab s = Logging -> logging_offered e ->
    settings_step s (LoggingInput e)
      {| activeTab := activeTab s; info := info s; language := language s; logging := logging_enter (logging s) e |}.

Definition logging_choices_ok (l : LoggingSection) : Prop :=
  logLevel l ∈ level_options /\ logRetention l ∈ retention_options /\ maxLogSize l ∈ size_options.

Definition settings_inv (s : SettingsPage) : Prop :=
  logging_choices_ok (logging s) /\ language s ∈ language_options /\ mounted (info s) = bool_decide (activeTab s = General).

(** Whatever is done on the settings page, the selects show one of their
    options, and the information is mounted exactly on its tab. *)
Theorem settings_selects_valid (es : list settings_event) (s : SettingsPage) :
  star settings_step initial_settings es s -> settings_inv s.
Proof.
  intros Hrun. revert Hrun. apply (star_invariant settings_step settings_inv).
  - clear s es. intros a e b (H1 & H2 & H3) Hs. unfold settings_inv.
    destruct Hs as [s t|s r Hl|s l Ht Hl|s ev Ht Ho]; cbn [logging language info activeTab].
    + unfold onTabChange. destruct (decide (t = activeTab s)); [done|]. cbn [logging language info activeTab].
      split_and!.
      * destruct (decide (t = Logging)); [|done]. unfold logging_choices_ok. cbn. set_solver.
      * destruct (decide (t = General)); [|done]. unfold language_options. cbn. set_solver.
      * destruct (decide (t = General)) as [->|Hn]; [done|]. by rewrite bool_decide_eq_false_2.
    + split_and!; try done. unfold info_settled. destruct (mounted (info s)) eqn:E; [done|congruence].
    + done.
    + split_and!; try done. unfold logging_choices_ok in *. by destruct ev, H1 as (? & ? & ?).
  - split_and!; [unfold logging_choices_ok; cbn; set_solver|unfold language_options; cbn; set_solver|done].
Qed.

(** Nothing of the logging tab is kept: leaving it and coming back shows the
    initial choices. *)
Lemma logging_forgotten (s : SettingsPage) : activeTab s = Logging -> logging (onTabChange (onTabChange s General) Logging) = initial_logging.
Proof. intros E. unfold onTabChange. rewrite E. done. Qed.

Lemma settings_selects_valid_witness :
  logging_choices_ok (logging (onTabChange initial_settings Logging)).
Proof.
  refine (proj1 (settings_selects_valid [ChooseTab Logging] (onTabChange initial_settings Logging) _)).
  eapply star_cons; [apply StepTab|apply star_nil].
Defined.
End SettingsTabs.

(** ** The panels of the dashboard *)

Module Panels.
Import Dashboard.

(** [systemInfo?.x || fallback] *)
Definition field_or (i : option SystemInfo) (f : SystemInfo -> jsstring) (d : string) : jsstring :=
  match i with Some x => str_or (f x) (js d) | None => js d end.

(** [clusterSpec?.releaseId ? `Release #${clusterSpec.releaseId}` : fallback] *)
Definition release_text (c : option ClusterSpecInfo) (d : string) : jsstring :=
  match c with
  | Some i => if num_truthy (releaseId i) then js "Release #" ++ num_string (releaseId i) else js d
  | None => js d
  end.

(** [DashboardMetrics]: a card is its label, its value and the line below. *)
Record card := { card_label : jsstring; card_value : jsstring; card_detail : list jsstring }.

Definition metrics_cards (i : option SystemInfo) (c : option ClusterSpecInfo) : list card :=
  [{| card_label := js "Cluster Spec Release"; card_value := release_text c "Initial Spec";
      card_detail := [metrics_hash c; js "declarative digest"] |};
   {| card_label := js "Dataplane Architecture"; card_value := js "Stateless Fleet";
      card_detail := [js "Autonomous agent pull over gRPC (:9090)"] |};
   {| card_label := js "Control Plane Engine"; card_value := field_or i uptime_formatted "Online";
      card_detail := [field_or i product "Aurora API Gateway" ++ js " • " ++ field_or i go_version "Go"] |};
   {| card_label := js "State Persistence"; card_value := field_or i database_size_formatted "WAL Active";
      card_detail := [field_or i state_persistence "SQLite WAL" ++ js " • " ++ field_or i memory_alloc_formatted "RAM OK"] |}].

(** [DashboardClusterHealth] *)
Definition isHealthy (i : option SystemInfo) : bool := match i with Some _ => true | None => false end.

Definition health_text (i : option SystemInfo) : jsstring :=
  if isHealthy i then js "Control Plane Online & Serving gRPC / REST" else js "Control Plane Initializing...".

Definition paren (s : jsstring) : jsstring := js " (" ++ s ++ js ")".

Definition health_rows (i : option SystemInfo) : list (jsstring * jsstring) :=
  [(js "Product Engine", field_or i product "Aurora API Gateway" ++ paren (field_or i version "v0.4.2"));
   (js "State Persistence", field_or i state_persistence "SQLite WAL Mode");
   (js "Database Size", field_or i database_size_formatted "0 MB");
   (js "CP Memory Alloc", field_or i memory_alloc_formatted "0 MB" ++ paren (field_or i architecture "amd64"));
   (js "Uptime", field_or i uptime_formatted "Online");
   (js "Runtime Engine", field_or i go_version "Go")].

(** [DashboardHeader]: the badge of the active specification. *)
Inductive spec_badge :=
| ActiveSpec (title : jsstring) (release : jsstring) (digest : option jsstring)
| BaselineSpec.

Definition header_badge (c : option ClusterSpecInfo) : spec_badge :=
  match c with
  | Some i =>
      if hasSpec i
      then ActiveSpec (js "Active Release #" ++ num_string (releaseId i) ++ js " • SHA-256: " ++ hash i)
             (js "r" ++ num_string (releaseId i)) (header_hash c)
      else BaselineSpec
  | None => BaselineSpec
  end.

Definition refresh_label (s : Dashboard) : jsstring :=
  if isRefreshing s then js "Syncing..." else js "Auto-refresh (15s)".

(** [DashboardSpecSyncPanel]: [copied], and the instants at which the
    timeouts of [copyHash] will clear it. *)
Record SyncPanel := { copied : bool; timeouts : list Z; now : Z }.

Definition initial_panel : SyncPanel := {| copied := false; timeouts := []; now := 0%Z |}.

Definition panel_release (c : option ClusterSpecInfo) : jsstring := release_text c "Initial Baseline".

Definition copy_visible (c : option ClusterSpecInfo) : bool := match spec_hash c with [] => false | _ => true end.

Definition click_copy (c : option ClusterSpecInfo) (s : SyncPanel) : SyncPanel :=
  match copyHash c with
  | Some _ => {| copied := true; timeouts := (now s + 2000)%Z :: timeouts s; now := now s |}
  | None => s
  end.

(** Time passes: the timeouts that are due run. *)
Definition pass (d : Z) (s : SyncPanel) : SyncPanel :=
  let t := (now s + d)%Z in
  {| copied := if existsb (fun x => (x <=? t)%Z) (timeouts s) then false else copied s;
     timeouts := List.filter (fun x => negb (x <=? t)%Z) (timeouts s); now := t |}.

Inductive panel_event := ClickCopy (c : option ClusterSpecInfo) | Pass (d : Z).

Definition panel_step (s : SyncPanel) (e : panel_event) : SyncPanel :=
  match e with ClickCopy c => click_copy c s | Pass d => pass (Z.max 0 d) s end.

Definition panel_run (es : list panel_event) : SyncPanel := fold_left panel_step es initial_panel.

(** The mark of a copy always has a timeout ahead that clears it. *)
Definition panel_inv (s : SyncPanel) : Prop :=
  Forall (fun x => now s < x <= now s + 2000)%Z (timeouts s) /\ (copied s = true -> timeouts s <> []).

Lemma panel_step_inv s e : panel_inv s -> panel_inv (panel_step s e).
Proof.
  intros [H1 H2]. destruct e as [c|d]; cbn [panel_step].
  - unfold click_copy. destruct (copyHash c); [|done]. split; cbn; [|done]. constructor; [lia|done].
  - unfold pass. split; cbn [copied timeouts now].
    + apply List.Forall_forall. intros x Hx. apply filter_In in Hx as [Hx Hd]. rewrite Forall_forall in H1.
      specialize (H1 x ltac:(by apply list_elem_of_In)). lia.
    + destruct (existsb _ _) eqn:E; [done|]. intros Hc Hf. apply (H2 Hc). destruct (timeouts s) as [|x l]; [done|].
      cbn in E, Hf. apply orb_false_iff in E as [E _]. by rewrite E in Hf.
Qed.

(** The check mark of the copy button never stays: whatever was clicked
    and waited before, two seconds without another click after it, the
    button is back to its copy icon and no timeout is left running. *)
Theorem copied_clears (es : list panel_event) (d : Z) :
  (2000 <= d)%Z -> let s := panel_step (panel_run es) (Pass d) in copied s = false /\ timeouts s = [].
Proof.
  intros Hd. assert (panel_inv (panel_run es)) as [H1 H2].
  { unfold panel_run. apply fold_left_inv; [intros; by apply panel_step_inv|]. split; [constructor|done]. }
  cbn [panel_step]. unfold pass. cbn [copied timeouts].
  destruct (timeouts (panel_run es)) as [|x l] eqn:E; [split; [|done]; cbn; destruct (copied _); [by destruct H2|done]|].
  split.
  - cbn. inversion H1 as [|? ? Hx _]. by rewrite (proj2 (Z.leb_le _ _)) by lia.
  - apply filter_nil_all. rewrite Forall_forall in H1 |- *. intros y Hy. specialize (H1 y Hy). apply negb_false_iff, Z.leb_le. lia.
Qed.

Lemma copied_clears_witness :
  let i := {| releaseId := num_of_Z 3; hash := js "abcdef"; hasSpec := true |} in
  copied (panel_step (panel_run [ClickCopy (Some i)]) (Pass 2000)) = false.
Proof. apply (copied_clears [ClickCopy (Some {| releaseId := num_of_Z 3; hash := js "abcdef"; hasSpec := true |})] 2000). lia. Defined.

(** ... but a second copy does not extend the first one's mark: a timeout is
    never cancelled. *)
Lemma second_copy_cut_short (c : option ClusterSpecInfo) (h : jsstring) :
  copyHash c = Some h -> copied (panel_run [ClickCopy c; Pass 1999; ClickCopy c; Pass 1]) = false.
Proof. intros E. unfold panel_run. cbn [fold_left panel_step]. unfold click_copy. rewrite E. done. Qed.

(** With no answer from the control plane the cards still report it, and only
    the health panel says otherwise. *)
Lemma cards_without_control_plane c :
  (fun k => (card_label k, card_value k)) <$> metrics_cards None c !! 2 = Some (js "Control Plane Engine", js "Online") /\
  (health_rows None) !! 4 = Some (js "Uptime", js "Online") /\ isHealthy None = false.
Proof. split_and!; vm_compute; reflexivity. Qed.
End Panels.
