(* ===== verification/ListViews.v ===== *)
(** * The list pages: bars and rows

    What the pages of routes, upstreams and extensions draw around their
    lists: the filter bars of [pages/routes/page.tsx] and
    [pages/extensions/components/ExtensionFilters.tsx], the rows of
    [RouteTable.tsx], [ExtensionCard.tsx] and [ExtensionTable.tsx] and the
    table of [pages/upstreams/page.tsx]. The theorems relate what a bar
    offers and counts to what the list then shows. *)

From Stdlib Require Import ZArith NArith Lia String Sorting.Permutation Sorting.Sorted.
From S2P Require Import Prelude JsString JsValue Json Fetcher JsonFacts Api RouteExtensions UpstreamForms UpstreamsPage ExtensionsPage RoutesPage Polling.
Local Open Scope string_scope.
Local Open Scope list_scope.

(** ** Routes *)

Module RoutesBar.
Import RoutesApi RoutesPage Polling.

(** The inputs of the bar. *)
Inductive bar_event :=
| Search (t : jsstring)
| ChooseHost (h : jsstring)
| ChooseUpstream (u : jsstring)
| ChooseStat (s : option jsstring)
| Clear.

Definition clear_filters : filters :=
  {| searchQuery := []; hostFilter := js "ALL"; upstreamFilter := js "ALL"; statFilter := None |}.

Definition bar_enter (f : filters) (e : bar_event) : filters :=
  match e with
  | Clear => clear_filters
  | _ => {| searchQuery := match e with Search t => t | _ => searchQuery f end;
            hostFilter := match e with ChooseHost h => h | _ => hostFilter f end;
            upstreamFilter := match e with ChooseUpstream u => u | _ => upstreamFilter f end;
            statFilter := match e with ChooseStat s => s | _ => statFilter f end |}
  end.

(** The options of the two selects. *)
Definition host_options (routes : list RouteItem) : list jsstring := js "ALL" :: availableHosts routes.
Definition upstream_options (routes : list RouteItem) : list jsstring := js "ALL" :: availableUpstreams routes.

(** The "Clear" button is there. *)
Definition clear_shown (f : filters) : bool :=
  negb (jeqb (searchQuery f) []) || negb (jeqb (hostFilter f) (js "ALL")) || negb (jeqb (upstreamFilter f) (js "ALL"))
  || match statFilter f with Some (_ :: _) => true | _ => false end.

Definition bar_offered (routes : list RouteItem) (f : filters) (e : bar_event) : Prop :=
  match e with
  | ChooseHost h => h ∈ host_options routes
  | ChooseUpstream u => u ∈ upstream_options routes
  | Clear => clear_shown f = true
  | _ => True
  end.

(** What is below the bar. *)
Inductive view_mode := CanvasMode | TableMode.
Inductive body := LoadingRoutes | CanvasOf (l : list RouteItem) | TableOf (l : list RouteItem).

Section Bar.
Context `{CaseMapping} `{Collation}.

Definition body_of (v : view RouteItem) (f : filters) (mode : view_mode) : body :=
  if loading v && match items v with [] => true | _ => false end then LoadingRoutes
  else match mode with
       | CanvasMode => CanvasOf (filteredRoutes f (items v))
       | TableMode => TableOf (filteredRoutes f (items v))
       end.

(** A row of [RouteTable]. *)
Record route_row := {
  row_subtitle : jsstring;
  row_host : jsstring;
  row_path : jsstring;
  row_upstream : jsstring;
  row_priority : Z;
  row_flags : list jsstring;
  row_badges : badges;
  row_switch : option bool
}.

Definition row_of (locale_date : jsstring -> jsstring) (toggling : bool) (r : RouteItem) : route_row :=
  {| row_subtitle := match description r with [] => js "Created " ++ locale_date (created_at r) | d => d end;
     row_host := host r; row_path := path r; row_upstream := upstream_name r; row_priority := priority r;
     row_flags := (if websocket r then [js "WS"] else []) ++ (if strip_path r then [js "Strip"] else []);
     row_badges := renderRouteExtensionBadges (plugins_json r);
     row_switch := if toggling then None else Some (negb (enabled r)) |}.

Lemma kept_with (f : filters) (r : RouteItem) :
  trim (searchQuery f) = [] -> statFilter f = None ->
  route_kept f r = (jeqb (hostFilter f) (js "ALL") || jeqb (host r) (hostFilter f))
                   && (jeqb (upstreamFilter f) (js "ALL") || jeqb (upstream_name r) (upstreamFilter f)).
Proof.
  intros Hq Hs. unfold route_kept, stat_is. rewrite Hq, Hs. change (jeqb [] []) with true. cbn [negb andb].
  by destruct (jeqb (hostFilter f) _), (jeqb (host r) _), (jeqb (upstreamFilter f) _), (jeqb (upstream_name r) _).
Qed.

Lemma host_listed h routes : h ∈ availableHosts routes <-> exists r, r ∈ routes /\ host r = h.
Proof.
  unfold availableHosts. rewrite stable_sort_perm, unique_in, list_elem_of_In, in_map_iff.
  setoid_rewrite list_elem_of_In. naive_solver.
Qed.

Lemma shown_perm f routes : filteredRoutes f routes ≡ₚ List.filter (route_kept f) routes.
Proof. apply stable_sort_perm. Qed.

(** What the bar offers it can show. Choosing a host that the bar offers,
    with the other filters clear, shows exactly the routes of that host, and
    at least one; only a host that is spelt like the word for "all" shows
    every route. "Clear" shows every route and takes its own button away. *)
Theorem offered_host_shown (routes : list RouteItem) (h : jsstring) :
  let shown := filteredRoutes (bar_enter clear_filters (ChooseHost h)) routes in
  h ∈ availableHosts routes ->
  shown <> [] /\
  (h <> js "ALL" -> forall r, r ∈ shown <-> r ∈ routes /\ host r = h) /\
  (forall f, filteredRoutes (bar_enter f Clear) routes ≡ₚ routes /\ clear_shown (bar_enter f Clear) = false).
Proof.
  intros shown Hh. pose proof (shown_perm (bar_enter clear_filters (ChooseHost h)) routes) as HP. fold shown in HP.
  assert (forall r, r ∈ shown <-> r ∈ routes /\ (jeqb h (js "ALL") || jeqb (host r) h) = true) as HE.
  { intros r. rewrite HP, !list_elem_of_In, filter_In, kept_with by done.
    cbn [bar_enter clear_filters hostFilter upstreamFilter]. rewrite andb_comm. done. }
  split; [|split].
  - apply host_listed in Hh as (r & Hr & E). intros Hn. assert (r ∈ shown) as Hin.
    { apply HE. split; [done|]. rewrite E, jeqb_refl. apply orb_true_r. }
    rewrite Hn in Hin. by apply elem_of_nil in Hin.
  - intros Hne%jeqb_false r. by rewrite HE, Hne, orb_false_l, jeqb_true.
  - intros f. split; [|done]. rewrite shown_perm. rewrite (List.filter_ext _ (fun _ => true)) by (intros r; by rewrite kept_with).
    clear. by induction routes as [|r l IH]; cbn [List.filter]; [|rewrite IH].
Qed.

(** A filter whose host has gone shows nothing, and the select, which has no
    option for it, falls back to its first one. *)
Lemma stale_host_filter (f : filters) (routes : list RouteItem) :
  hostFilter f ∉ host_options routes -> filteredRoutes f routes = [].
Proof.
  intros Hn. apply not_elem_of_cons in Hn as [Hall%jeqb_false Hn].
  enough (List.filter (route_kept f) routes = []) as E by (unfold filteredRoutes; by rewrite E).
  assert (forall r, r ∈ routes -> route_kept f r = false) as HF.
  { intros r Hr. assert (host r <> hostFilter f) as Hne%jeqb_false by (intros E; apply Hn, host_listed; by exists r).
    unfold route_kept. rewrite Hall, Hne. by destruct (_ && _). }
  clear Hn Hall. induction routes as [|r l IH]; [done|]. cbn [List.filter]. rewrite HF by left. apply IH. intros x Hx. apply HF. by right.
Qed.
End Bar.

Definition two_hosts : list RouteItem := sample_routes.

Lemma offered_host_shown_witness :
  filteredRoutes (bar_enter clear_filters (ChooseHost (js "a.example"))) two_hosts <> [].
Proof.
  apply (offered_host_shown two_hosts (js "a.example")).
  apply (bool_decide_unpack _). vm_compute. exact I.
Defined.
End RoutesBar.

(** ** Upstreams *)

Module UpstreamTable.
Import UpstreamsPage Polling.

(** [algorithm.replace('_', ' ')]: the first underscore. *)
Fixpoint replace_first (c d : N) (s : jsstring) : jsstring :=
  match s with [] => [] | x :: s' => if (x =? c)%N then d :: s' else x :: replace_first c d s' end.

(** The second line of the architecture cell. *)
Definition algorithm_line (u : UpstreamItem) : option jsstring :=
  match u_type u with LoadBalancer => Some (js "alg: " ++ replace_first 95 32 (algorithm_string (u_algorithm u))) | _ => None end.

(** A node with its weight when that is above one. *)
Definition node_chip (n : UpstreamNode) : jsstring * option Z :=
  (n_address n, if (1 <? n_weight n)%Z then Some (n_weight n) else None).

Inductive ssl_cell := PlainHttp | Mtls | HttpsVerified | HttpsUnverified.

Definition ssl_cell_of (u : UpstreamItem) : ssl_cell :=
  let c := u_internalSsl u in
  if ssl_enabled c then if ssl_mTLS c then Mtls else if ssl_verifyCert c then HttpsVerified else HttpsUnverified
  else PlainHttp.

Definition probe_chip (p : ProbeCheckItem) : jsstring :=
  pr_path p ++ js " (" ++ slice_head 4 (probe_string (pr_type p)) ++ js ")".

(** The warning of the deletion dialog. *)
Definition bound_warning (u : UpstreamItem) : bool := (0 <? u_boundDomainsCount u)%Z.

Inductive body := Loading | Failed (m : jsstring) | Empty | Rows (l : list UpstreamItem).

#[local] Existing Instance upstreams_feed.

Section Table.
Context `{CaseMapping}.

Definition body_of (v : view UpstreamItem) (typeFilter : option UpstreamType) (q : jsstring) : body :=
  if loading v then Loading
  else match error v with
       | Some (c :: m) => Failed (c :: m)
       | _ => match filtered typeFilter q (items v) with [] => Empty | l => Rows l end
       end.

(** [upstreams.filter((u) => u.type === 'Load Balancer').length] *)
Definition load_balancers (l : list UpstreamItem) : nat :=
  length (List.filter (fun u => match u_type u with LoadBalancer => true | _ => false end) l).

Definition is_encrypted (u : UpstreamItem) : bool := match ssl_cell_of u with PlainHttp => false | _ => true end.

Lemma filter_all {A} (p : A -> bool) l : (forall x, p x = true) -> List.filter p l = l.
Proof. intros Hp. induction l as [|x l IH]; [done|]. cbn [List.filter]. by rewrite Hp, IH. Qed.

(** The cards count the rows: with no filter the table has as many rows as
    the first card says, the encrypted card counts the rows whose cell is
    not plain HTTP, and the filter for load balancers shows as many rows as
    their card says. *)
Theorem cards_count_rows (l : list UpstreamItem) :
  filtered None [] l = l /\
  sslProtectedCount (upstream_counters l) = length (List.filter is_encrypted l) /\
  length (filtered (Some LoadBalancer) [] l) = load_balancers l.
Proof.
  split_and!.
  - by apply filter_all.
  - unfold upstream_counters. cbn [sslProtectedCount]. f_equal. apply List.filter_ext. intros u. unfold is_encrypted, ssl_cell_of.
    by destruct (u_internalSsl u) as [[] [] ? ? []].
  - unfold filtered, load_balancers. f_equal. apply List.filter_ext. intros u. unfold upstream_kept.
    change (jeqb (trim []) []) with true. rewrite !orb_true_l, andb_true_r. by destruct (u_type u).
Qed.

(** A finished load decides what is drawn: while a load runs the table is
    replaced by the loading row, every five seconds; the answer to the
    latest request then draws the filtered rows, the text for an empty list
    or the message of the failure, whatever was drawn before. *)
Theorem load_decides_body (s : page (A := UpstreamItem)) (r : result jsstring (list UpstreamItem)) (t : option UpstreamType)
    (q : jsstring) :
  let s1 := fetch_start true s in
  let s2 := fetch_settle (sequence s1) r s1 in
  body_of (shown s1) t q = Loading /\
  body_of (shown s2) t q =
    match r with
    | Ok l => match filtered t q l with [] => Empty | rows => Rows rows end
    | Throw m => Failed (str_or m (js "Failed to load upstreams from backend"))
    end.
Proof.
  assert (js "Failed to load upstreams from backend" = 70%N :: js "ailed to load upstreams from backend") as E
    by (vm_compute; reflexivity).
  rewrite E. clear E. unfold upstreams_feed. generalize (js "ailed to load upstreams from backend") as fallback. intros fallback.
  split; [done|]. unfold fetch_settle. rewrite Nat.eqb_refl. destruct r as [l|m]; [done|]. by destruct m.
Qed.
End Table.
End UpstreamTable.

(** ** Extensions *)

Module ExtensionBar.
Import ExtensionsApi ExtensionsPage.

(** The pills of [ExtensionFilters]. *)
Definition categories : list (jsstring * jsstring) :=
  map (fun p => (js p.1, js p.2))
    [("all", "All"); ("security_engine", "Security Engine"); ("authentication", "Authentication");
     ("authorization_security", "Authz & Security"); ("traffic_control", "Traffic Control");
     ("request_transformation", "Request Transform"); ("response_transformation", "Response Transform");
     ("observability", "Observability"); ("resilience_upstream", "Resilience"); ("cache_content", "Cache & Content");
     ("integration_runtime", "Integration & Runtime"); ("ai_gateway", "AI Gateway")].

Definition sum_counts (counts : list (jsstring * nat)) : nat := fold_left (fun acc kv => acc + kv.2) counts 0.

Definition pill_count (counts : list (jsstring * nat)) (c : jsstring) : nat :=
  if jeqb c (js "all") then sum_counts counts else default 0 (obj_get c counts).

Inductive bar_event := Search (t : jsstring) | ClearSearch | ChooseCategory (c : jsstring) | ChooseStatus (st : status_filter) | ResetAll.

Definition no_filters : ext_filters := {| searchQuery := []; selectedCategory := js "all"; statusFilter := AnyStatus |}.

Definition bar_enter (f : ext_filters) (e : bar_event) : ext_filters :=
  match e with
  | ResetAll => no_filters
  | _ => {| searchQuery := match e with Search t => t | ClearSearch => [] | _ => searchQuery f end;
            selectedCategory := match e with ChooseCategory c => c | _ => selectedCategory f end;
            statusFilter := match e with ChooseStatus st => st | _ => statusFilter f end |}
  end.

(** The tags of a card: at most three, and how many more there are. *)
Definition card_tags (e : HubExtension) : list jsstring * nat :=
  match tags e with
  | Some (t :: l) => (map (fun t => js "#" ++ t) (take 3 (t :: l)), length (t :: l) - 3)
  | _ => ([], 0)
  end.

(** [Math.min(index * 25, 400)] *)
Definition delayMs (index : nat) : nat := Nat.min (index * 25) 400.

Definition origin_text (e : HubExtension) : jsstring := if is_builtin (hub e) then js "Core" else js "Custom".
Definition status_text (e : HubExtension) : jsstring := if enabled (hub e) then js "Active" else js "Disabled".

Inductive view_mode := Grid | Table.
Inductive body := Loading | NoneMatched | Cards (l : list HubExtension) | TableRows (l : list HubExtension).

Section Bar.
Context `{CaseMapping}.

Definition body_of (s : ExtensionsState) (f : ext_filters) (mode : view_mode) : body :=
  if loading s then Loading
  else match filteredExtensions f (extensions s), mode with
       | [], _ => NoneMatched
       | l, Grid => Cards l
       | l, Table => TableRows l
       end.

Definition known_category (e : HubExtension) : bool := existsb (jeqb (category_key (category (hub e)))) CATEGORIES.

Lemma sum_counts_app l l' : sum_counts (l ++ l') = sum_counts l + sum_counts l'.
Proof.
  unfold sum_counts. rewrite fold_left_app. generalize (fold_left (fun acc kv => acc + kv.2) l 0) as n.
  assert (forall a, fold_left (fun acc (kv : jsstring * nat) => acc + kv.2) l' a = a + fold_left (fun acc kv => acc + kv.2) l' 0) as E.
  { induction l' as [|x l' IH]; intros a; cbn [fold_left]; [lia|]. rewrite IH, (IH (0 + x.2)). lia. }
  intros n. apply E.
Qed.

Lemma put_existing k v (o : list (jsstring * nat)) n : obj_wf o -> obj_get k o = Some n ->
  map fst (obj_put k v o) = map fst o /\ sum_counts (obj_put k v o) + n = sum_counts o + v.
Proof.
  intros Hw Hg. induction o as [|[k' v'] o IH]; [done|]. cbn [obj_get] in Hg. cbn [obj_put].
  destruct (jeqb k k') eqn:E.
  - injection Hg as ->. apply jeqb_true in E as ->. split; [done|].
    change ((k', v) :: o) with ([(k', v)] ++ o). change ((k', n) :: o) with ([(k', n)] ++ o). rewrite !sum_counts_app. cbn. lia.
  - unfold obj_wf in Hw. apply StronglySorted_inv in Hw as [Hw Hk].
    rewrite Forall_forall in Hk. destruct (Hk (k, n)) as [_ Hb]; [by apply obj_get_in|]. cbn [fst] in Hb.
    destruct (IH Hw Hg) as [H1 H2]. replace (key_before k k') with false by done. cbn [map fst]. split; [by rewrite H1|].
    change ((k', v') :: obj_put k v o) with ([(k', v')] ++ obj_put k v o). change ((k', v') :: o) with ([(k', v')] ++ o).
    rewrite !sum_counts_app. lia.
Qed.

Lemma get_in_keys k (o : list (jsstring * nat)) : (exists n, obj_get k o = Some n) <-> existsb (jeqb k) (map fst o) = true.
Proof.
  induction o as [|[k' v] o IH]; cbn [obj_get map fst existsb]; [split; [by intros [n [=]]|done]|].
  destruct (jeqb k k'); cbn [orb]; [split; [done|by exists v]|exact IH].
Qed.

(** Every known extension adds one to the counters, an unknown one nothing. *)
Lemma counts_known l acc :
  obj_wf acc.2 -> map fst acc.2 = CATEGORIES ->
  sum_counts (fold_left count_extension l acc).2 = sum_counts acc.2 + length (List.filter known_category l).
Proof.
  revert acc. induction l as [|e l IH]; intros acc Hw Hk; cbn [fold_left List.filter]; [cbn; lia|].
  pose proof (get_in_keys (category_key (category (hub e))) acc.2) as HG. rewrite Hk in HG.
  unfold known_category at 1. destruct (obj_get (category_key (category (hub e))) acc.2) as [n|] eqn:E.
  - destruct (put_existing _ (S n) _ _ Hw E) as [H1 H2].
    rewrite (proj1 HG) by (by exists n). rewrite IH; unfold count_extension; cbn [snd]; rewrite E.
    + cbn [length]. lia.
    + by apply obj_put_wf.
    + by rewrite H1.
  - destruct (existsb _ CATEGORIES) eqn:Ex; [by destruct (proj2 HG eq_refl)|].
    rewrite IH; unfold count_extension; cbn [snd]; by rewrite E.
Qed.

(** The pills count what they show: choosing the pill of a category lists
    as many extensions as it says. The pill "All" says how many extensions
    have a category of the bar, which is at most what it lists, and all of
    it when every extension has such a category. *)
Theorem pills_count_shown (l : list HubExtension) (f : ext_filters) :
  let counts := byCategory (extension_stats l) in
  let listed c := length (filteredExtensions (bar_enter (bar_enter f ResetAll) (ChooseCategory c)) l) in
  Forall (fun c => pill_count counts c = listed c) CATEGORIES /\
  pill_count counts (js "all") = length (List.filter known_category l) /\
  pill_count counts (js "all") <= listed (js "all") /\
  (Forall (fun e => known_category e = true) l -> pill_count counts (js "all") = listed (js "all")).
Proof.
  intros counts listed. destruct (ext_counts_match_filters l) as (HF & Hall & _). fold counts in HF.
  assert (pill_count counts (js "all") = length (List.filter known_category l)) as Hp.
  { unfold pill_count. rewrite jeqb_refl. unfold counts, extension_stats.
    pose proof (counts_known l (0, map (fun k => (k, 0)) CATEGORIES)) as HC.
    destruct (fold_left count_extension l _) as [on cs]. cbn [snd byCategory] in *. rewrite HC.
    - reflexivity.
    - apply obj_wfb_sound. vm_compute. reflexivity.
    - rewrite map_map. cbn [fst]. apply map_id. }
  assert (listed (js "all") = length l) as Hl.
  { transitivity (total (extension_stats l)); [exact Hall|]. unfold extension_stats. by destruct (fold_left _ _ _). }
  split_and!; [|done| |].
  - rewrite Forall_forall in HF |- *. intros c Hc. unfold pill_count. rewrite (HF c Hc).
    enough (jeqb c (js "all") = false) as -> by done.
    assert (forallb (fun c => negb (jeqb c (js "all"))) CATEGORIES = true) as Hn by (vm_compute; reflexivity).
    rewrite forallb_forall in Hn. apply negb_true_iff, Hn. by apply list_elem_of_In.
  - rewrite Hp, Hl. apply List.filter_length_le.
  - intros HK. rewrite Hp, Hl. f_equal. clear -HK.
    induction HK as [|e l' He _ IH]; [done|]. cbn [List.filter]. rewrite He. f_equal. exact IH.
Qed.
End Bar.

(** An extension of another category is listed under "All" and not counted. *)
Lemma all_pill_misses (e : HubExtension) :
  category (hub e) = js "experimental" -> pill_count (byCategory (extension_stats [e])) (js "all") = 0.
Proof. intros E. unfold extension_stats. cbn [fold_left]. unfold count_extension. rewrite E. by destruct (enabled (hub e)). Qed.

End ExtensionBar.
