(* ===== verification/ExtensionViews.v ===== *)
(** * How extensions look

    [pages/extensions/data/catalog.ts] and
    [components/ExtensionIcon.tsx] as tables, the header
    ([components/config/ExtensionConfigHeader.tsx]) and the body of
    [components/ExtensionConfigModal.tsx] with its tabs, and the cards of
    [pages/routes/sections/RouteExtensionSwitches.tsx], on top of the dialog
    of [ExtensionConfig] and the assignments of [RouteExtensions]. *)

From Stdlib Require Import ZArith NArith Lia String.
From S2P Require Import Prelude JsString JsValue Json Fetcher Api DefaultConfigs Profiles RouteExtensions ExtensionConfig ListViews.
Local Open Scope string_scope.
Local Open Scope list_scope.

(** ** Icons and categories *)

Module Icons.

Definition icon_table (l : list (string * string)) : list (jsstring * jsstring) := map (fun kv => (js kv.1, js kv.2)) l.

Definition security_engine_icons : list (jsstring * jsstring) :=
  icon_table
    [("waf-core", "Shield"); ("sqli-protection", "DatabaseZap"); ("xss-protection", "CodeXml");
     ("command-injection-protection", "Terminal"); ("path-traversal-protection", "FolderSearch");
     ("ssrf-protection", "GlobeLock"); ("rce-protection", "Bug"); ("protocol-anomaly", "Network");
     ("bot-detection", "Bot"); ("ip-reputation", "Radar"); ("credential-stuffing", "KeyRound");
     ("scanner-detection", "ScanSearch"); ("sensitive-data-detection", "EyeOff");
     ("custom-waf-rules", "SlidersHorizontal"); ("owasp-crs", "ShieldCheck")].

Definition authentication_icons : list (jsstring * jsstring) :=
  icon_table
    [("basic-auth", "Lock"); ("key-auth", "Key"); ("api_key_auth", "Key"); ("jwt-authentication", "Ticket");
     ("hmac-auth", "Hash"); ("oauth2-auth", "ShieldUser"); ("openid-connect", "UserCheck"); ("mtls-auth", "FileKey2");
     ("ldap-auth", "Contact"); ("saml-auth", "Building2"); ("forward-auth", "ExternalLink"); ("session-auth", "Cookie");
     ("multi-auth", "Layers")].

Definition authorization_security_icons : list (jsstring * jsstring) :=
  icon_table
    [("acl", "ListChecks"); ("rbac", "Users"); ("opa-authz", "Scale"); ("ip-restriction", "LocateFixed");
     ("geo-restriction", "MapPinOff"); ("geoip", "MapPinOff"); ("user-agent-restriction", "Globe");
     ("referer-restriction", "Compass"); ("cors", "Share2"); ("csrf-protection", "ShieldX");
     ("api-schema-validator", "FileCheck"); ("request-signature", "FileSignature"); ("consumer-restriction", "BadgeCheck")].

Definition traffic_control_icons : list (jsstring * jsstring) :=
  icon_table
    [("rate-limit", "Gauge"); ("connection-limit", "Split"); ("traffic-shaper", "Wifi"); ("resource-limit", "Shrink");
     ("traffic-split", "GitFork"); ("canary-release", "GitBranch"); ("blue-green", "Shuffle"); ("request-mirror", "Copy");
     ("request-termination", "OctagonX")].

Definition request_transformation_icons : list (jsstring * jsstring) :=
  icon_table
    [("request-header-transform", "Heading"); ("request_transformer", "Heading"); ("request-query-transform", "Search");
     ("request-body-transform", "FileJson"); ("uri-rewrite", "Route"); ("host-rewrite", "Server");
     ("method-rewrite", "Repeat2"); ("json-transform", "Brackets"); ("xml-json-transform", "FileCode2");
     ("grpc-transcode", "Binary"); ("graphql-rest-transform", "Hexagon")].

Definition response_transformation_icons : list (jsstring * jsstring) :=
  icon_table
    [("response-header-transform", "Sliders"); ("header_masking", "Sliders"); ("response-body-transform", "FileEdit");
     ("response-rewrite", "Replace"); ("response-mask", "VenetianMask"); ("json-filter", "Filter");
     ("response-compression", "Archive"); ("compression-gzip", "Archive"); ("response-cache", "DatabaseZap");
     ("compression-brotli", "FileArchive"); ("brotli_compress", "FileArchive"); ("error-transform", "AlertOctagon")].

Definition observability_icons : list (jsstring * jsstring) :=
  icon_table
    [("prometheus", "Activity"); ("opentelemetry-metrics", "Waypoints"); ("opentelemetry-logs", "Waypoints");
     ("opentelemetry-tracing", "Waypoints"); ("distributed_tracing", "Waypoints"); ("zipkin", "GitCommit");
     ("datadog", "LineChart"); ("datadog_apm", "LineChart"); ("std-log", "Terminal"); ("access-log", "FileText");
     ("access_logger", "FileText"); ("http-logger", "Radio"); ("syslog-logger", "Scroll"); ("kafka-logger", "Boxes");
     ("loki-logger", "Flame"); ("elasticsearch-logger", "SearchCode"); ("correlation-id", "Fingerprint");
     ("request-id", "Fingerprint"); ("audit-log", "History")].

Definition resilience_upstream_icons : list (jsstring * jsstring) :=
  icon_table
    [("circuit-breaker", "ZapOff"); ("retry-policy", "RotateCw"); ("timeout-policy", "Hourglass");
     ("outlier-detection", "Crosshair"); ("active-health-check", "HeartPulse"); ("passive-health-check", "Stethoscope");
     ("fallback-upstream", "LifeBuoy"); ("hedged-request", "FastForward"); ("upstream-affinity", "Magnet");
     ("adaptive-concurrency", "TrendingUp")].

Definition cache_content_icons : list (jsstring * jsstring) :=
  icon_table
    [("proxy-cache", "HardDrive"); ("cache_accelerator", "HardDrive"); ("redis-cache", "Zap"); ("cache-purge", "Trash2");
     ("etag", "Barcode"); ("conditional-request", "GitPullRequest"); ("static-response", "File");
     ("mock-response", "FileQuestion"); ("response-buffering", "Disc")].

Definition integration_runtime_icons : list (jsstring * jsstring) :=
  icon_table
    [("aws-lambda", "CloudLightning"); ("azure-functions", "Cloud"); ("webhook", "Webhook");
     ("serverless-pre-function", "PlayCircle"); ("serverless-post-function", "CheckCircle2"); ("external-plugin", "Plug");
     ("wasm_filter", "Plug"); ("kafka-proxy", "Workflow"); ("mqtt-proxy", "Antenna"); ("websocket_guard", "Antenna")].

Definition ai_gateway_icons : list (jsstring * jsstring) :=
  icon_table
    [("ai-proxy", "Brain"); ("ai-multi-provider", "Orbit"); ("ai-token-rate-limit", "Coins");
     ("ai-prompt-guard", "ScanEye"); ("ai-semantic-cache", "BrainCircuit");
     ("ai-content-moderation", "MessageSquareWarning")].

Definition icons : list (jsstring * jsstring) :=
  security_engine_icons ++ authentication_icons ++ authorization_security_icons ++ traffic_control_icons ++ request_transformation_icons ++ response_transformation_icons ++ observability_icons ++ resilience_upstream_icons ++ cache_content_icons ++ integration_runtime_icons ++ ai_gateway_icons.

(** The icon of a category, for an id that has none. *)
Definition category_icons : list (jsstring * jsstring) :=
  icon_table
    [("security_engine", "ShieldAlert"); ("security", "ShieldAlert"); ("authentication", "Lock"); ("auth", "Lock");
     ("authorization_security", "ShieldCheck"); ("traffic_control", "Gauge"); ("traffic", "Gauge");
     ("request_transformation", "Heading"); ("response_transformation", "Sliders"); ("observability", "Activity");
     ("resilience_upstream", "HeartPulse"); ("cache_content", "HardDrive"); ("integration_runtime", "Plug");
     ("runtime", "Plug"); ("ai_gateway", "Brain")].

(** [ExtensionIcon]: the name of the icon that is drawn. *)
Definition ExtensionIcon (id : jsstring) (category : option jsstring) : jsstring :=
  match obj_get id icons with
  | Some i => i
  | None => default (js "Blocks") (category ≫= fun c => obj_get c category_icons)
  end.

(** [CategoryMeta] and [CATEGORIES_META] *)
Record CategoryMeta := {
  cm_id : jsstring; cm_label : jsstring; cm_shortLabel : jsstring; cm_description : jsstring; cm_badgeClass : jsstring;
  cm_iconBgClass : jsstring; cm_borderClass : jsstring; cm_colorHex : jsstring
}.

Definition CATEGORIES_META : list (jsstring * CategoryMeta) :=
  map (fun kv => (js kv.1, kv.2))
  [("all", {| cm_id := js "all"; cm_label := js "All Extensions"; cm_shortLabel := js "All"; cm_description := js "Installed extension manifests";
      cm_badgeClass := js "bg-primary/10 text-primary border-primary/20";
      cm_iconBgClass := js "bg-primary/10 text-primary"; cm_borderClass := js "border-border"; cm_colorHex := js "#6366f1" |});
   ("security_engine", {| cm_id := js "security_engine"; cm_label := js "Security Engine"; cm_shortLabel := js "WAF / Security"; cm_description := js "Request inspection and policy enforcement";
      cm_badgeClass := js "bg-rose-500/10 text-rose-600 dark:text-rose-400 border-rose-500/20";
      cm_iconBgClass := js "bg-rose-500/10 text-rose-600 dark:text-rose-400"; cm_borderClass := js "border-rose-500/30"; cm_colorHex := js "#f43f5e" |});
   ("authentication", {| cm_id := js "authentication"; cm_label := js "Authentication"; cm_shortLabel := js "Auth"; cm_description := js "Identity and session verification";
      cm_badgeClass := js "bg-indigo-500/10 text-indigo-600 dark:text-indigo-400 border-indigo-500/20";
      cm_iconBgClass := js "bg-indigo-500/10 text-indigo-600 dark:text-indigo-400"; cm_borderClass := js "border-indigo-500/30"; cm_colorHex := js "#6366f1" |});
   ("authorization_security", {| cm_id := js "authorization_security"; cm_label := js "Authorization & Security"; cm_shortLabel := js "Authz & Access"; cm_description := js "Access controls and browser security";
      cm_badgeClass := js "bg-emerald-500/10 text-emerald-600 dark:text-emerald-400 border-emerald-500/20";
      cm_iconBgClass := js "bg-emerald-500/10 text-emerald-600 dark:text-emerald-400"; cm_borderClass := js "border-emerald-500/30"; cm_colorHex := js "#10b981" |});
   ("traffic_control", {| cm_id := js "traffic_control"; cm_label := js "Traffic Control"; cm_shortLabel := js "Traffic"; cm_description := js "Limits, traffic policy and maintenance";
      cm_badgeClass := js "bg-amber-500/10 text-amber-600 dark:text-amber-400 border-amber-500/20";
      cm_iconBgClass := js "bg-amber-500/10 text-amber-600 dark:text-amber-400"; cm_borderClass := js "border-amber-500/30"; cm_colorHex := js "#f59e0b" |});
   ("request_transformation", {| cm_id := js "request_transformation"; cm_label := js "Request Transformation"; cm_shortLabel := js "Req Transform"; cm_description := js "Request headers and URI transforms";
      cm_badgeClass := js "bg-violet-500/10 text-violet-600 dark:text-violet-400 border-violet-500/20";
      cm_iconBgClass := js "bg-violet-500/10 text-violet-600 dark:text-violet-400"; cm_borderClass := js "border-violet-500/30"; cm_colorHex := js "#8b5cf6" |});
   ("response_transformation", {| cm_id := js "response_transformation"; cm_label := js "Response Transformation"; cm_shortLabel := js "Resp Transform"; cm_description := js "Response headers, buffering and compression";
      cm_badgeClass := js "bg-fuchsia-500/10 text-fuchsia-600 dark:text-fuchsia-400 border-fuchsia-500/20";
      cm_iconBgClass := js "bg-fuchsia-500/10 text-fuchsia-600 dark:text-fuchsia-400"; cm_borderClass := js "border-fuchsia-500/30"; cm_colorHex := js "#d946ef" |});
   ("observability", {| cm_id := js "observability"; cm_label := js "Observability"; cm_shortLabel := js "Telemetry"; cm_description := js "Metrics and telemetry exports";
      cm_badgeClass := js "bg-cyan-500/10 text-cyan-600 dark:text-cyan-400 border-cyan-500/20";
      cm_iconBgClass := js "bg-cyan-500/10 text-cyan-600 dark:text-cyan-400"; cm_borderClass := js "border-cyan-500/30"; cm_colorHex := js "#06b6d4" |});
   ("resilience_upstream", {| cm_id := js "resilience_upstream"; cm_label := js "Resilience & Upstream"; cm_shortLabel := js "Resilience"; cm_description := js "Upstream timeout and recovery policy";
      cm_badgeClass := js "bg-yellow-500/10 text-yellow-600 dark:text-yellow-400 border-yellow-500/20";
      cm_iconBgClass := js "bg-yellow-500/10 text-yellow-600 dark:text-yellow-400"; cm_borderClass := js "border-yellow-500/30"; cm_colorHex := js "#eab308" |});
   ("cache_content", {| cm_id := js "cache_content"; cm_label := js "Cache & Content"; cm_shortLabel := js "Caching"; cm_description := js "Caching and content policy";
      cm_badgeClass := js "bg-sky-500/10 text-sky-600 dark:text-sky-400 border-sky-500/20";
      cm_iconBgClass := js "bg-sky-500/10 text-sky-600 dark:text-sky-400"; cm_borderClass := js "border-sky-500/30"; cm_colorHex := js "#0284c7" |});
   ("integration_runtime", {| cm_id := js "integration_runtime"; cm_label := js "Integration & Runtime"; cm_shortLabel := js "Runtime"; cm_description := js "Integration and runtime policy";
      cm_badgeClass := js "bg-purple-500/10 text-purple-600 dark:text-purple-400 border-purple-500/20";
      cm_iconBgClass := js "bg-purple-500/10 text-purple-600 dark:text-purple-400"; cm_borderClass := js "border-purple-500/30"; cm_colorHex := js "#a855f7" |});
   ("ai_gateway", {| cm_id := js "ai_gateway"; cm_label := js "AI Gateway"; cm_shortLabel := js "LLM & AI"; cm_description := js "AI gateway policy";
      cm_badgeClass := js "bg-teal-500/10 text-teal-600 dark:text-teal-400 border-teal-500/20";
      cm_iconBgClass := js "bg-teal-500/10 text-teal-600 dark:text-teal-400"; cm_borderClass := js "border-teal-500/30"; cm_colorHex := js "#14b8a6" |})].

(** No duplicates, decided on the keys. *)
Fixpoint distinct (l : list jsstring) : bool :=
  match l with [] => true | x :: l' => negb (existsb (jeqb x) l') && distinct l' end.

Lemma distinct_NoDup l : distinct l = true -> NoDup l.
Proof.
  induction l as [|x l IH]; cbn; [constructor|]. rewrite andb_true_iff, negb_true_iff. intros [Hx Hl].
  apply NoDup_cons. split; [|auto]. intros Hin. apply not_true_iff_false in Hx. apply Hx, existsb_exists.
  exists x. split; [by apply list_elem_of_In|apply jeqb_refl].
Qed.

(** The ids that have default values and no icon of their own. *)
Definition iconless : list jsstring :=
  List.filter (fun k => match obj_get k icons with Some _ => false | None => true end) (map fst EXTENSION_DEFAULT_CONFIGS).

Definition catalogue_icons : list jsstring := map (fun m => ExtensionIcon (key m) None) DATAPLANE_EXTENSION_CATALOG.

Definition icons_ok : bool :=
  distinct (map fst icons) && distinct catalogue_icons && negb (existsb (jeqb (js "Blocks")) catalogue_icons)
  && forallb (fun c => match obj_get c.1 CATEGORIES_META with Some m => jeqb (cm_id m) c.1 | None => false end) ExtensionBar.categories
  && distinct (map fst CATEGORIES_META) && Nat.eqb (length CATEGORIES_META) (length ExtensionBar.categories)
  && forallb (fun c => jeqb c.1 (js "all") || match obj_get c.1 category_icons with Some _ => true | None => false end) CATEGORIES_META.

Lemma icons_checked : icons_ok = true.
Proof. vm_compute. reflexivity. Qed.

#[local] Opaque icons CATEGORIES_META category_icons catalogue_icons DATAPLANE_EXTENSION_CATALOG ExtensionBar.categories.

(** The extensions can be told apart. No id has two icons; the
    extensions that can be assigned to a route have an icon each, all
    different, none of them the generic one; the filter bar offers exactly
    the categories that have a description, each under its own id; and every
    category but the one for all has an icon to fall back to. *)
Theorem extension_icons_sound :
  NoDup (map fst icons) /\ NoDup catalogue_icons /\ js "Blocks" ∉ catalogue_icons /\
  (forall c, c ∈ ExtensionBar.categories -> exists m, obj_get c.1 CATEGORIES_META = Some m /\ cm_id m = c.1) /\
  NoDup (map fst CATEGORIES_META) /\ length CATEGORIES_META = length ExtensionBar.categories /\
  (forall c, c ∈ CATEGORIES_META -> c.1 <> js "all" -> exists i, obj_get c.1 category_icons = Some i).
Proof.
  pose proof icons_checked as H. unfold icons_ok in H. repeat (apply andb_true_iff in H as [H ?]).
  split_and!; try (by apply distinct_NoDup).
  - intros Hin. apply negb_true_iff, not_true_iff_false in H4. apply H4, existsb_exists. exists (js "Blocks").
    split; [by apply list_elem_of_In|apply jeqb_refl].
  - intros c Hc. rewrite forallb_forall in H3. specialize (H3 c ltac:(by apply list_elem_of_In)).
    destruct (obj_get c.1 CATEGORIES_META) as [m|]; [|done]. exists m. split; [done|by apply jeqb_true].
  - by apply Nat.eqb_eq.
  - intros c Hc Hn. rewrite forallb_forall in H0. specialize (H0 c ltac:(by apply list_elem_of_In)).
    apply orb_true_iff in H0 as [E|E]; [destruct (Hn (proj1 (jeqb_true _ _) E))|]. destruct (obj_get c.1 category_icons); [eauto|done].
Qed.

(** Five extensions have default values and no icon. *)
Lemma iconless_extensions :
  iconless = map js ["jwt-auth"; "rate-limit-local"; "rate-limit-distributed"; "bandwidth-limit"; "traffic-shadow"].
Proof. vm_compute. reflexivity. Qed.

(** The icons of a group are not all unique, as its comment says. *)
Lemma observability_icons_shared :
  map (fun k => ExtensionIcon (js k) None) ["opentelemetry-metrics"; "opentelemetry-logs"; "opentelemetry-tracing"]
  = map js ["Waypoints"; "Waypoints"; "Waypoints"] /\ distinct (map snd observability_icons) = false.
Proof. split; vm_compute; reflexivity. Qed.
End Icons.

(** ** The workspace of an extension *)

Module Workspace.
Import Icons ExtensionsApi.

Inductive visual_tab := RulesTab | ParametersTab | ProfilesTab.

#[export] Instance visual_tab_eq_dec : EqDecision visual_tab.
Proof. solve_decision. Defined.

(** The dialog with the tab of its visual form. *)
Record workspace := { dialog : modal; visualTab : visual_tab }.

Definition hasTable (c : ExtensionRenderContext) (s : modal) : bool :=
  table_layout c || negb (match table_columns c with [] => true | _ => false end) || negb (match rules s with [] => true | _ => false end).
Definition hasFields (c : ExtensionRenderContext) : bool := match fields c with [] => false | _ => true end.

(** Opening the dialog shows the profiles. *)
Definition open_workspace (s : modal) (config_json : jsstring) : workspace :=
  {| dialog := open_modal s config_json; visualTab := ProfilesTab |}.

(** The buttons of the tabs, with the number each shows. *)
Definition tab_buttons (profiles : nat) (c : ExtensionRenderContext) (s : modal) : list (visual_tab * nat) :=
  (ProfilesTab, profiles) ::
  (if hasFields c then [(ParametersTab, length (fields c))] else []) ++
  (if hasTable c s && negb (match rules s with [] => true | _ => false end) then [(RulesTab, length (rules s))] else []).

(** [resolveExtensionProfiles(extension.id, parsedConfig).length] *)
Definition availableProfilesCount (ext : jsstring) (s : modal) : nat :=
  length (resolveExtensionProfiles ext (CfgObj (match parsedConfig s with VObj o => o | _ => [] end))).

(** What the body shows. *)
Inductive workspace_body := RuleEditForm | RulesPanel | ParametersPanel | ProfilesPanel | NoPanel | RawJson.

Definition body_of (c : ExtensionRenderContext) (w : workspace) : workspace_body :=
  match workspaceMode (dialog w) with
  | JsonMode => RawJson
  | Visual =>
      if isEditingRule (dialog w) then RuleEditForm
      else match visualTab w with
           | RulesTab => if hasTable c (dialog w) then RulesPanel else NoPanel
           | ParametersTab => if hasFields c then ParametersPanel else NoPanel
           | ProfilesTab => ProfilesPanel
           end
  end.

(** The header: the badge and icon of the category, the switch and the
    button that saves. *)
Record header_view := { hv_icon : jsstring; hv_category : option jsstring; hv_switch : jsstring * bool; hv_save : jsstring * bool }.

Definition header_of (e : ExtensionItem) (s : modal) : header_view :=
  {| hv_icon := ExtensionIcon (ExtensionsApi.id e) (Some (ExtensionsApi.category e));
     hv_category := cm_label <$> obj_get (ExtensionsApi.category e) CATEGORIES_META;
     hv_switch := (if enabled e then js "Active" else js "Disabled", negb (supported e));
     hv_save := (if isSaving s then js "Saving..." else if saveSuccess s then js "Saved!" else js "Save Configuration",
                 isSaving s || saveSuccess s) |}.

(** Clicking the switch asks for the opposite state, of a supported
    extension only. *)
Definition switch_click (e : ExtensionItem) : option (jsstring * bool) :=
  if supported e then Some (ExtensionsApi.id e, negb (enabled e)) else None.

(** A tab that is offered shows its panel. *)
Lemma offered_tab_shown profiles c w t n : workspaceMode (dialog w) = Visual -> isEditingRule (dialog w) = false ->
  (t, n) ∈ tab_buttons profiles c (dialog w) ->
  body_of c {| dialog := dialog w; visualTab := t |} <> NoPanel.
Proof.
  intros Hm He. unfold tab_buttons, body_of. cbn [dialog visualTab]. rewrite Hm, He.
  destruct (hasFields c), (hasTable c (dialog w)); cbn [andb]; destruct t; try done;
    destruct (rules (dialog w)); cbn [negb]; rewrite ?app_nil_r; set_solver.
Qed.

(** Without rules there is no tab of rules: where the schema has a table,
    the first rule cannot be added from the visual form. *)
Lemma first_rule_unreachable profiles c s config_json n : rules (open_modal s config_json) = [] ->
  visualTab (open_workspace s config_json) = ProfilesTab /\
  (RulesTab, n) ∉ tab_buttons profiles c (dialog (open_workspace s config_json)).
Proof.
  intros Hr. split; [done|]. unfold tab_buttons, open_workspace. cbn [dialog]. rewrite Hr, andb_false_r, app_nil_r.
  destruct (hasFields c); set_solver.
Qed.
End Workspace.

(** ** The switches of a route *)

Module Switches.
(** The card of an extension: whether it is on, its badge, the value of the
    select with its options, and the summary of the profile selected. *)
Record switch_card := { sc_key : jsstring; sc_on : bool; sc_badge : jsstring; sc_value : jsstring;
                        sc_options : list (jsstring * jsstring); sc_summary : option jsstring }.

Definition option_text (p : ExtensionProfileOption) : jsstring := js "Profile [" ++ id p ++ js "] — " ++ label p.

Definition card_of (live : list (jsstring * jsstring)) (o : obj) (m : DataplaneExtensionMeta) : switch_card :=
  let profiles := resolveExtensionProfiles (key m) (live_config live (key m)) in
  let defaultProfId := match profiles with p :: _ => str_or (id p) (js "default") | [] => js "default" end in
  let selected := getRouteExtensionSelectedProfile o (key m) defaultProfId in
  let on := negb (jeqb selected (js "off")) in
  {| sc_key := key m; sc_on := on; sc_badge := if on then js "Profile: " ++ selected else js "OFF"; sc_value := selected;
     sc_options := (js "off", js "Off — Không chạy Extension này trên Route") :: map (fun p => (id p, option_text p)) profiles;
     sc_summary := if on then summary <$> List.find (fun p => jeqb (id p) selected) profiles else None |}.

Definition cards (live : list (jsstring * jsstring)) (pluginsJson : jsstring) : list switch_card :=
  map (card_of live (parsePluginsObj pluginsJson)) DATAPLANE_EXTENSION_CATALOG.

(** [{activeCount} / {DATAPLANE_EXTENSION_CATALOG.length} đang bật] *)
Definition active_text (pluginsJson : jsstring) : jsstring :=
  int_string (Z.of_nat (activeCount pluginsJson)) ++ js " / " ++ int_string (Z.of_nat (length DATAPLANE_EXTENSION_CATALOG)) ++ js " đang bật".

(** The profiles that are known live extend the built-in ones: the first is
    the same. *)
Lemma first_live_profile live m : findDataplaneExtensionMeta (key m) = Some m -> defaultProfiles m <> [] ->
  match resolveExtensionProfiles (key m) (live_config live (key m)) with p :: _ => str_or (id p) (js "default") | [] => js "default" end
  = first_profile m.
Proof.
  intros Hm Hne. assert (map id (builtin_profiles (key m)) `prefix_of` map id (resolveExtensionProfiles (key m) (live_config live (key m)))) as [k Hk].
  { unfold resolveExtensionProfiles. destruct (parsed_config _) as [| | | | | |o]; try done.
    destruct (entries_of _); [apply merge_entries_extend|done]. }
  unfold builtin_profiles in Hk. rewrite Hm in Hk. unfold first_profile. destruct (defaultProfiles m) as [|p l]; [done|].
  destruct (resolveExtensionProfiles _ _) as [|q l']; [done|]. cbn in Hk. injection Hk as E _. by rewrite E.
Qed.

Definition catalogue_ok (m : DataplaneExtensionMeta) : Prop := findDataplaneExtensionMeta (key m) = Some m /\ defaultProfiles m <> [].

Lemma cards_counted_in (l : list DataplaneExtensionMeta) live o : Forall catalogue_ok l ->
  length (List.filter sc_on (map (card_of live o) l))
  = length (List.filter (fun m => negb (jeqb (getRouteExtensionSelectedProfile o (key m) (first_profile m)) (js "off"))) l).
Proof.
  induction 1 as [|m l [H1 H2] _ IH]; [done|]. cbn [map List.filter]. unfold card_of at 1. cbv zeta. cbn [sc_on].
  rewrite (first_live_profile live m H1 H2). destruct (negb _); cbn [length]; by rewrite IH.
Qed.

Lemma catalogue_all_ok : Forall catalogue_ok DATAPLANE_EXTENSION_CATALOG.
Proof. unfold DATAPLANE_EXTENSION_CATALOG. repeat apply Forall_cons_2; [..|apply Forall_nil_2]; split; (vm_compute; done). Qed.

(** The catalogue's entry of a key, for the cards that follow its order. *)
Lemma cards_keys live o l : map sc_key (map (card_of live o) l) = map key l.
Proof. rewrite map_map. by apply map_ext. Qed.

(** The cards of a route's switches follow the catalogue, one card per
    extension, and the number of extensions the summary counts as active is
    the number of cards that show a profile, although the summary reads the
    built-in profiles and the cards the profiles of the live
    configurations; a card that is off shows no summary. *)
Theorem switches_agree live pluginsJson :
  map sc_key (cards live pluginsJson) = map key DATAPLANE_EXTENSION_CATALOG /\
  length (List.filter sc_on (cards live pluginsJson)) = activeCount pluginsJson /\
  Forall (fun c => sc_on c = false -> sc_value c = js "off" /\ sc_summary c = None) (cards live pluginsJson).
Proof.
  split; [apply cards_keys|]. split; [by apply cards_counted_in, catalogue_all_ok|].
  apply Forall_map, Forall_true. intros m. unfold card_of. cbv zeta. cbn [sc_on sc_value sc_summary].
  intros E. rewrite E. split; [|done]. apply negb_false_iff, jeqb_true in E. done.
Qed.

(** A profile that was deleted stays selected: the badge names it, the card
    is on, and no option of the select has its value. *)
Lemma deleted_profile_selected :
  exists c, c ∈ cards [] (handleSelectProfile [] (js "{}") (js "rate-limit") (js "gone")) /\ sc_on c = true /\
    sc_badge c = js "Profile: gone" /\ ~ In (sc_value c) (map fst (sc_options c)) /\ sc_summary c = None.
Proof.
  pose (raw := handleSelectProfile [] (js "{}") (js "rate-limit") (js "gone")).
  exists (card_of [] (parsePluginsObj raw) meta_rate_limit). split; [|].
  - apply list_elem_of_fmap. exists meta_rate_limit. split; [done|].
    apply list_elem_of_In. unfold DATAPLANE_EXTENSION_CATALOG. repeat (left; reflexivity) || right.
  - vm_compute. repeat split; try done. intros Hin. repeat destruct Hin as [Hin|Hin]; done.
Qed.
End Switches.
