(* ===== verification/UiKit.v ===== *)
(** * The kit of widgets

    The widgets of [components/ui/] that keep a state or compute what they
    show: the side bar of [sidebar.tsx] with [hooks/use-mobile.ts], the
    style, tooltip and legend of [chart.tsx], the carousel of
    [carousel.tsx] around an engine that is not part of the sources, and the
    errors of [field.tsx]. The other widgets of the directory only add class
    names to the elements of a library. *)

From Stdlib Require Import ZArith NArith Lia String.
From S2P Require Import Prelude JsString JsValue.
Local Open Scope string_scope.
Local Open Scope list_scope.

(** ** The side bar *)

Module SidebarKit.

Definition MOBILE_BREAKPOINT : Z := 768.
Definition SIDEBAR_COOKIE_MAX_AGE : Z := 60 * 60 * 24 * 7.

(** The provider: the prop [open] of the parent when it controls the side
    bar, the state of its own, the width of the window, and the cookie last
    written. *)
Record SidebarProvider := {
  openProp : option bool;
  _open : bool;
  openMobile : bool;
  innerWidth : Z;
  mobile : bool;
  cookie : option jsstring
}.

(** [(max-width: 767px)] *)
Definition media_matches (w : Z) : bool := (w <=? MOBILE_BREAKPOINT - 1)%Z.

(** The first rendering, with the effect of [useIsMobile]. *)
Definition mounted (prop : option bool) (defaultOpen : bool) (w : Z) : SidebarProvider :=
  {| openProp := prop; _open := defaultOpen; openMobile := false; innerWidth := w;
     mobile := (w <? MOBILE_BREAKPOINT)%Z; cookie := None |}.

Definition is_open (s : SidebarProvider) : bool := default (_open s) (openProp s).
Definition bool_text (b : bool) : jsstring := if b then js "true" else js "false".

Definition cookie_text (b : bool) : jsstring :=
  js "sidebar_state=" ++ bool_text b ++ js "; path=/; max-age=" ++ int_string SIDEBAR_COOKIE_MAX_AGE.

Section Provider.
(** [onOpenChange], as what it makes of the prop [open]. *)
Variable onOpenChange : option (bool -> option bool).

(** [setOpen(openState)] *)
Definition setOpen (openState : bool) (s : SidebarProvider) : SidebarProvider :=
  match onOpenChange with
  | Some handler => {| openProp := handler openState; _open := _open s; openMobile := openMobile s; innerWidth := innerWidth s;
                       mobile := mobile s; cookie := Some (cookie_text openState) |}
  | None => {| openProp := openProp s; _open := openState; openMobile := openMobile s; innerWidth := innerWidth s;
               mobile := mobile s; cookie := Some (cookie_text openState) |}
  end.

Definition setOpenMobile (b : bool) (s : SidebarProvider) : SidebarProvider :=
  {| openProp := openProp s; _open := _open s; openMobile := b; innerWidth := innerWidth s; mobile := mobile s; cookie := cookie s |}.

(** [toggleSidebar] of the rendering [r]: on a desktop the new state is
    computed from what was rendered, on a phone from the state. *)
Definition toggleSidebar (r s : SidebarProvider) : SidebarProvider :=
  if mobile r then setOpenMobile (negb (openMobile s)) s else setOpen (negb (is_open r)) s.

(** A resize: the media query reports a change only when its answer
    changes. *)
Definition resize (w : Z) (s : SidebarProvider) : SidebarProvider :=
  {| openProp := openProp s; _open := _open s; openMobile := openMobile s; innerWidth := w;
     mobile := if Bool.eqb (media_matches w) (media_matches (innerWidth s)) then mobile s else (w <? MOBILE_BREAKPOINT)%Z;
     cookie := cookie s |}.

(** [handleKeyDown] with the modifiers of the event. *)
Record KeyboardEvent := { ke_key : jsstring; metaKey : bool; ctrlKey : bool }.

Definition handleKeyDown (e : KeyboardEvent) (s : SidebarProvider) : SidebarProvider :=
  if jeqb (ke_key e) (js "b") && (metaKey e || ctrlKey e) then toggleSidebar s s else s.

Inductive sidebar_event :=
  | Trigger | Rail | Key (e : KeyboardEvent) | SetOpen (b : bool) | SheetOpenChange (b : bool) | Resize (w : Z).

(** Each event is handled by the rendering that follows the one before. *)
Definition sidebar_step (s : SidebarProvider) (e : sidebar_event) : SidebarProvider :=
  match e with
  | Trigger | Rail => toggleSidebar s s
  | Key e => handleKeyDown e s
  | SetOpen b => setOpen b s
  | SheetOpenChange b => setOpenMobile b s
  | Resize w => resize w s
  end.

Definition sidebar_run (s : SidebarProvider) (es : list sidebar_event) : SidebarProvider := fold_left sidebar_step es s.
End Provider.

(** What [Sidebar] renders. *)
Inductive sidebar_view :=
  | Plain
  | Sheet (open : bool)
  | Desktop (data_state data_collapsible : jsstring).

Inductive collapsible := Offcanvas | IconOnly | NotCollapsible.

Definition collapsible_name (c : collapsible) : jsstring :=
  match c with Offcanvas => js "offcanvas" | IconOnly => js "icon" | NotCollapsible => js "none" end.

Definition state_name (s : SidebarProvider) : jsstring := if is_open s then js "expanded" else js "collapsed".

Definition Sidebar (c : collapsible) (s : SidebarProvider) : sidebar_view :=
  match c with
  | NotCollapsible => Plain
  | _ => if mobile s then Sheet (openMobile s)
         else Desktop (state_name s) (if jeqb (state_name s) (js "collapsed") then collapsible_name c else [])
  end.

(** [hidden] of the tooltip of [SidebarMenuButton]. *)
Definition tooltip_hidden (s : SidebarProvider) : bool := negb (jeqb (state_name s) (js "collapsed")) || mobile s.

(** The width of [SidebarMenuSkeleton], for the random number [p / q]. *)
Definition skeleton_width (p q : Z) : Z := (p * 40) / q + 50.

(** The parent either leaves the side bar alone or keeps the state it is
    given. *)
Definition parent_keeps (onOpenChange : option (bool -> option bool)) (prop : option bool) : Prop :=
  match onOpenChange with Some h => forall b, h b = Some b | None => prop = None end.

Definition provider_inv (onOpenChange : option (bool -> option bool)) (s : SidebarProvider) : Prop :=
  mobile s = (innerWidth s <? MOBILE_BREAKPOINT)%Z /\ parent_keeps onOpenChange (openProp s) /\
  (cookie s = None \/ cookie s = Some (cookie_text (is_open s))).

Lemma setOpen_inv h b s : provider_inv h s -> provider_inv h (setOpen h b s) /\ is_open (setOpen h b s) = b.
Proof.
  intros (Hm & Hp & _). unfold provider_inv, setOpen, is_open. destruct h as [h|]; cbn in *.
  - rewrite (Hp b). cbn. split_and!; try done. by right.
  - rewrite Hp. cbn. split_and!; try done. by right.
Qed.

Lemma toggle_inv h s : provider_inv h s -> provider_inv h (toggleSidebar h s s).
Proof. intros H. unfold toggleSidebar. destruct (mobile s) eqn:E; [by destruct H|by apply setOpen_inv]. Qed.

Lemma resize_inv h w s : provider_inv h s -> provider_inv h (resize w s).
Proof.
  intros (Hm & Hp & Hc). unfold provider_inv, resize. cbn. split; [|done].
  destruct (Bool.eqb _ _) eqn:E; [|done]. apply Bool.eqb_prop in E. rewrite Hm. unfold media_matches, MOBILE_BREAKPOINT in *.
  destruct (Z.leb_spec w (768 - 1)), (Z.leb_spec (innerWidth s) (768 - 1)), (Z.ltb_spec w 768), (Z.ltb_spec (innerWidth s) 768); lia || done.
Qed.

Lemma sidebar_step_inv h s e : provider_inv h s -> provider_inv h (sidebar_step h s e).
Proof.
  intros H. destruct e as [| |k|b|b|w]; cbn [sidebar_step].
  - by apply toggle_inv.
  - by apply toggle_inv.
  - unfold handleKeyDown. case_if; [by apply toggle_inv|done].
  - by apply setOpen_inv.
  - by destruct H.
  - by apply resize_inv.
Qed.

(** Whatever is pressed and however the window is resized, the side bar
    knows whether it is on a phone, the cookie that was written names the
    state that is shown, and one more toggle on a desktop shows the
    opposite state; on a phone it changes the sheet and neither the state nor
    the cookie. *)
Theorem sidebar_provider_consistent h p d w es : parent_keeps h p ->
  let s := sidebar_run h (mounted p d w) es in
  mobile s = (innerWidth s <? MOBILE_BREAKPOINT)%Z /\
  (cookie s = None \/ cookie s = Some (cookie_text (is_open s))) /\
  if mobile s
  then Sidebar Offcanvas (toggleSidebar h s s) = Sheet (negb (openMobile s)) /\
       is_open (toggleSidebar h s s) = is_open s /\ cookie (toggleSidebar h s s) = cookie s
  else is_open (toggleSidebar h s s) = negb (is_open s) /\
       cookie (toggleSidebar h s s) = Some (cookie_text (negb (is_open s))).
Proof.
  intros Hp s. assert (provider_inv h s) as H.
  { unfold s, sidebar_run. clear s. assert (provider_inv h (mounted p d w)) as H0 by (split_and!; try done; by left).
    revert H0. generalize (mounted p d w). induction es as [|e es IH]; intros s Hs; [done|]. cbn. by apply IH, sidebar_step_inv. }
  pose proof H as (Hm & Hk & Hc). split; [done|]. split; [done|]. unfold toggleSidebar. destruct (mobile s) eqn:E.
  - unfold Sidebar, setOpenMobile. cbn. by rewrite E.
  - split; [exact (proj2 (setOpen_inv h _ s H))|]. unfold setOpen. by destruct h.
Qed.

Lemma sidebar_provider_consistent_witness :
  is_open (sidebar_run None (mounted None true 1280) [Trigger; Resize 500; Trigger; Resize 900]) = false /\
  cookie (sidebar_run None (mounted None true 1280) [Trigger; Resize 500; Trigger; Resize 900]) = Some (cookie_text false).
Proof.
  destruct (sidebar_provider_consistent None None true 1280 [Trigger; Resize 500; Trigger; Resize 900] eq_refl) as (_ & [H|H] & _);
    [discriminate H|split; [reflexivity|exact H]].
Defined.

(** Two toggles of one rendering: on a desktop the second repeats the first,
    on a phone it takes it back. *)
Lemma double_toggle h r : provider_inv h r ->
  if mobile r then openMobile (toggleSidebar h r (toggleSidebar h r r)) = openMobile r
  else is_open (toggleSidebar h r (toggleSidebar h r r)) = negb (is_open r).
Proof.
  intros Hi. unfold toggleSidebar. destruct (mobile r) eqn:E; [cbn; by rewrite negb_involutive|].
  exact (proj2 (setOpen_inv h _ _ (proj1 (setOpen_inv h _ r Hi)))).
Qed.

Lemma skeleton_width_bounds p q : (0 <= p < q)%Z -> (50 <= skeleton_width p q <= 89)%Z.
Proof.
  intros H. unfold skeleton_width. assert (0 <= p * 40 / q)%Z by (apply Z.div_pos; lia).
  assert (p * 40 / q < 40)%Z by (apply Z.div_lt_upper_bound; lia). lia.
Qed.
End SidebarKit.

(** ** The chart *)

Module ChartKit.

(** An entry of [ChartConfig]: a label, the name of an icon, and a colour or
    a colour per theme. *)
Record item_config := { label : option jsstring; icon : option jsstring; color : option jsstring; theme : option (jsstring * jsstring) }.
Definition ChartConfig := list (jsstring * item_config).

Definition chart_id (id : option jsstring) (uniqueId : jsstring) : jsstring :=
  js "chart-" ++ match id with Some i => i | None => List.filter (fun c => negb (c =? 58)%N) uniqueId end.

(** *** The style *)

Definition nonempty (t : jsstring) : bool := match t with [] => false | _ => true end.

(** [config.theme ?? config.color], as a condition. *)
Definition coloured (c : item_config) : bool :=
  match theme c, color c with Some _, _ => true | None, Some t => nonempty t | None, None => false end.

(** The colour of an entry in a theme: [true] is the dark one. *)
Definition color_in (dark : bool) (c : item_config) : option jsstring :=
  match theme c with Some (l, d) => Some (if dark then d else l) | None => color c end.

Definition style_line (dark : bool) (kc : jsstring * item_config) : jsstring :=
  match color_in dark kc.2 with
  | Some t => if nonempty t then js "  --color-" ++ kc.1 ++ js ": " ++ t ++ js ";" else []
  | None => []
  end.

Definition newline : jsstring := [10%N].

Definition style_block (id : jsstring) (colorConfig : ChartConfig) (dark : bool) : jsstring :=
  newline ++ (if dark then js ".dark" else []) ++ js " [data-chart=" ++ id ++ js "] {" ++ newline ++
  join newline (map (style_line dark) colorConfig) ++ newline ++ js "}" ++ newline.

Definition ChartStyle (id : jsstring) (config : ChartConfig) : option jsstring :=
  match List.filter (fun kc => coloured kc.2) config with
  | [] => None
  | colorConfig => Some (join newline (map (style_block id colorConfig) [false; true]))
  end.

(** *** The entry of an item *)

(** The names every object inherits: [in] finds them, and what they hold has
    neither a label nor an icon. *)
Definition inherited : list jsstring :=
  map js ["constructor"; "hasOwnProperty"; "isPrototypeOf"; "propertyIsEnumerable"; "toLocaleString"; "toString"; "valueOf";
          "__proto__"; "__defineGetter__"; "__defineSetter__"; "__lookupGetter__"; "__lookupSetter__"].

Definition config_at (config : ChartConfig) (k : jsstring) : option item_config :=
  match obj_get k config with
  | Some c => Some c
  | None => if existsb (jeqb k) inherited then Some {| label := None; icon := None; color := None; theme := None |} else None
  end.

Definition string_at (k : jsstring) (v : val) : option jsstring :=
  match entries_of v with Some o => match prop k o with VStr s => Some s | _ => None end | None => None end.

Definition configLabelKey (item : obj) (key : jsstring) : jsstring :=
  match string_at key (VObj item) with
  | Some s => s
  | None => default key (string_at key (prop (js "payload") item))
  end.

Definition getPayloadConfigFromPayload (config : ChartConfig) (item : obj) (key : jsstring) : option item_config :=
  match config_at config (configLabelKey item key) with Some c => Some c | None => config_at config key end.

(** *** The tooltip *)

Inductive indicator := Line | Dot | Dashed.

#[export] Instance indicator_eq_dec : EqDecision indicator.
Proof. solve_decision. Defined.

(** The props of the tooltip; the formatters are those of the caller. *)
Record tooltip_props := {
  active : bool; payload : list obj; tt_indicator : indicator; hideLabel : bool; hideIndicator : bool;
  tt_label : val; labelFormatter : option (option jsstring -> list obj -> jsstring);
  formatter : option (val -> val -> obj -> nat -> jsstring);
  tt_color : option jsstring; nameKey : option jsstring; labelKey : option jsstring
}.

Definition key_text (k : option jsstring) (a b : val) : jsstring :=
  match k with Some s => s | None => to_string (val_nullish a (val_nullish b (vstr "value"))) end.

(** [config[label]?.label ?? label] *)
Definition own_label (config : ChartConfig) (t : jsstring) : jsstring :=
  match config_at config t with Some c => default t (label c) | None => t end.

Definition label_value (config : ChartConfig) (p : tooltip_props) (item : obj) : option jsstring :=
  let key := key_text (labelKey p) (prop (js "dataKey") item) (prop (js "name") item) in
  match labelKey p, tt_label p with
  | (None | Some []), VStr t => Some (own_label config t)
  | _, _ => getPayloadConfigFromPayload config item key ≫= label
  end.

Definition tooltipLabel (config : ChartConfig) (p : tooltip_props) : option jsstring :=
  match payload p with
  | [] => None
  | item :: _ =>
      if hideLabel p then None
      else match labelFormatter p with
           | Some f => Some (f (label_value config p item) (payload p))
           | None => match label_value config p item with Some ((_ :: _) as t) => Some t | _ => None end
           end
  end.

Definition nestLabel (p : tooltip_props) : bool :=
  (length (payload p) =? 1)%nat && negb (bool_decide (tt_indicator p = Dot)).

Inductive row_mark := RowIcon (name : jsstring) | RowIndicator (color : val) | NoMark.

Inductive tooltip_row :=
  | FormattedRow (text : jsstring)
  | ItemRow (mark : row_mark) (nested : option jsstring) (name : val) (value : option jsstring).

(** [toLocaleString()] depends on the locale of the browser. *)
Section Tooltip.
Variable toLocaleString : num -> jsstring.

Definition value_text (v : val) : option jsstring :=
  match v with VUndef | VNull => None | VNum n => Some (toLocaleString n) | _ => Some (to_string v) end.

Definition defined (v : val) : bool := match v with VUndef => false | _ => true end.

Definition item_row (config : ChartConfig) (p : tooltip_props) (index : nat) (item : obj) : tooltip_row :=
  let name := prop (js "name") item in
  let itemConfig := getPayloadConfigFromPayload config item (key_text (nameKey p) name (prop (js "dataKey") item)) in
  let indicatorColor := match tt_color p with
                        | Some c => VStr c
                        | None => val_nullish (opt_prop (js "fill") (prop (js "payload") item)) (prop (js "color") item)
                        end in
  let plain := ItemRow (match itemConfig ≫= icon with
                        | Some i => RowIcon i
                        | None => if hideIndicator p then NoMark else RowIndicator indicatorColor
                        end)
                 (if nestLabel p then tooltipLabel config p else None)
                 (match itemConfig ≫= label with Some l => VStr l | None => name end)
                 (value_text (prop (js "value") item)) in
  match formatter p with
  | Some f => if defined (prop (js "value") item) && truthy name
              then FormattedRow (f (prop (js "value") item) name item index) else plain
  | None => plain
  end.

(** [item.type !== 'none'] *)
Definition visible (item : obj) : bool := match prop (js "type") item with VStr t => negb (jeqb t (js "none")) | _ => true end.

Definition ChartTooltipContent (config : ChartConfig) (p : tooltip_props) : option (option jsstring * list tooltip_row) :=
  if negb (active p) || (length (payload p) =? 0)%nat then None
  else Some (if nestLabel p then None else tooltipLabel config p, imap (item_row config p) (List.filter visible (payload p))).
End Tooltip.

(** *** The legend *)

Definition legend_entry (config : ChartConfig) (hideIcon : bool) (nameKey : option jsstring) (item : obj) : row_mark * option jsstring :=
  let itemConfig := getPayloadConfigFromPayload config item (key_text nameKey (prop (js "dataKey") item) VUndef) in
  (match itemConfig ≫= icon with
   | Some i => if hideIcon then RowIndicator (prop (js "color") item) else RowIcon i
   | None => RowIndicator (prop (js "color") item)
   end, itemConfig ≫= label).

Definition ChartLegendContent (config : ChartConfig) (hideIcon : bool) (nameKey : option jsstring) (l : list obj) :
  option (list (row_mark * option jsstring)) :=
  match l with [] => None | _ => Some (map (legend_entry config hideIcon nameKey) (List.filter visible l)) end.

(** *** What is shown *)

(** The rows that show the label, and the places that do. *)
Definition nested (r : tooltip_row) : bool := match r with ItemRow _ (Some _) _ _ => true | _ => false end.

Definition label_places (t : option jsstring * list tooltip_row) : nat :=
  (if t.1 then 1 else 0) + length (List.filter nested t.2).

Lemma no_nested_label loc config p l : nestLabel p = false -> List.filter nested (imap (item_row loc config p) l) = [].
Proof.
  intros Hn. assert (forall k x, nested (item_row loc config p k x) = false) as E.
  { intros k x. unfold item_row. rewrite Hn. destruct (formatter p); [case_if|]; done. }
  revert E. generalize (item_row loc config p). induction l as [|x l IH]; intros f E; [done|].
  cbn [imap List.filter]. rewrite E. apply IH. intros k y. apply E.
Qed.

(** A tooltip lists one row for each item of the point that is not
    hidden, and shows its label in one place at most; without a caller's
    formatter a point that has a visible first item shows it in exactly
    one. *)
Theorem tooltip_label_once loc config p t : ChartTooltipContent loc config p = Some t ->
  length t.2 = length (List.filter visible (payload p)) /\ label_places t <= 1 /\
  (is_Some (tooltipLabel config p) -> formatter p = None -> Forall (fun i => visible i = true) (payload p) -> label_places t = 1).
Proof.
  unfold ChartTooltipContent. destruct (negb (active p)); [done|]. destruct (length (payload p) =? 0)%nat eqn:E0; [done|]. intros [= <-].
  split; [apply length_imap|]. unfold label_places. cbn [fst snd]. destruct (nestLabel p) eqn:En.
  - unfold nestLabel in En. apply andb_true_iff in En as [E1%Nat.eqb_eq E2].
    destruct (payload p) as [|x [|y l]] eqn:Ep; try done. cbn [List.filter].
    assert (nestLabel p = true) as En by (unfold nestLabel; rewrite Ep; by rewrite E2).
    split.
    + destruct (visible x); cbn; [destruct (nested _); cbn; lia|lia].
    + intros [u Hu] Hf [Hx _]%Forall_cons. rewrite Hx. cbn. unfold item_row. by rewrite Hf, En, Hu.
  - rewrite no_nested_label by done.
    cbn. split; [case_match; lia|]. intros [u ->]. done.
Qed.

Definition sample_point (ind : indicator) (f : option (val -> val -> obj -> nat -> jsstring)) : tooltip_props :=
  {| active := true; payload := [obj_lit [("name", vstr "rps"); ("dataKey", vstr "rps"); ("value", VInt 12)]]; tt_indicator := ind;
     hideLabel := false; hideIndicator := false; tt_label := vstr "10:00"; labelFormatter := None; formatter := f;
     tt_color := None; nameKey := None; labelKey := None |}.

Lemma tooltip_label_once_witness :
  label_places (None, [ItemRow (RowIndicator VUndef) (Some (js "10:00")) (vstr "rps") (Some (js "12"))]) <= 1.
Proof.
  refine (proj1 (proj2 (tooltip_label_once num_string [] (sample_point Line None)
    (None, [ItemRow (RowIndicator VUndef) (Some (js "10:00")) (vstr "rps") (Some (js "12"))]) _))).
  vm_compute. reflexivity.
Defined.

(** With a caller's formatter and a line as indicator, a point with one item
    does not show its label. *)
Lemma formatted_label_lost : tooltipLabel [] (sample_point Line (Some (fun v _ _ _ => to_string v))) = Some (js "10:00") /\
  ChartTooltipContent num_string [] (sample_point Line (Some (fun v _ _ _ => to_string v))) = Some (None, [FormattedRow (js "12")]).
Proof. split; vm_compute; reflexivity. Qed.

(** There is a style exactly when an entry has a colour. *)
Lemma no_style_iff id config : ChartStyle id config = None <-> Forall (fun kc => coloured kc.2 = false) config.
Proof.
  unfold ChartStyle. split.
  - intros H. induction config as [|kc l IH]; [done|]. cbn [List.filter] in H. destruct (coloured kc.2) eqn:E; [done|].
    constructor; auto.
  - induction 1 as [|kc l E _ IH]; [done|]. cbn [List.filter]. by rewrite E.
Qed.
End ChartKit.

(** ** The errors of a field *)

Module FieldErrors.

(** An error, [undefined] or an object whose message may be missing: only
    the message counts, for both. *)
Definition error := option (option jsstring).
Definition message (e : error) : option jsstring := e ≫= fun m => m.

(** [new Map(entries)]: a key keeps its first position. *)
Definition map_set (k : option jsstring) (v : error) (m : list (option jsstring * error)) : list (option jsstring * error) :=
  if existsb (fun kv => bool_decide (kv.1 = k)) m
  then map (fun kv => if bool_decide (kv.1 = k) then (k, v) else kv) m else m ++ [(k, v)].

Definition uniqueErrors (errors : list error) : list error :=
  map snd (fold_left (fun m e => map_set (message e) e m) errors []).

Inductive content := NoContent | OneMessage (m : jsstring) | MessageList (l : list jsstring).

Definition truthy_message (e : error) : option jsstring := match message e with Some ((_ :: _) as m) => Some m | _ => None end.

(** [FieldError] without children. *)
Definition FieldError (errors : list error) : content :=
  match errors with
  | [] => NoContent
  | _ => match uniqueErrors errors with
         | [e] => match truthy_message e with Some m => OneMessage m | None => NoContent end
         | l => MessageList (omap truthy_message l)
         end
  end.

Definition messages (c : content) : list jsstring := match c with NoContent => [] | OneMessage m => [m] | MessageList l => l end.

(** The map after some errors: its keys are the distinct messages, and each
    entry is an error with that message. *)
Definition map_inv (errors : list error) (m : list (option jsstring * error)) : Prop :=
  NoDup (map fst m) /\ (forall k, k ∈ map fst m <-> k ∈ map message errors) /\ Forall (fun kv => message kv.2 = kv.1) m.

Lemma map_set_inv errors e m : map_inv errors m -> map_inv (errors ++ [e]) (map_set (message e) e m).
Proof.
  intros (Hn & Hk & Hf). unfold map_set. destruct (existsb _ m) eqn:E.
  - assert (map fst (map (fun kv => if bool_decide (kv.1 = message e) then (message e, e) else kv) m) = map fst m) as Ek.
    { rewrite map_map. apply map_ext. intros kv. case_bool_decide; done. }
    apply existsb_exists in E as ([k v] & Hin & Hb%bool_decide_eq_true). cbn in Hb. subst k. apply list_elem_of_In in Hin.
    unfold map_inv. rewrite Ek. split_and!; [done| |].
    + intros k. rewrite Hk, map_app. cbn [map]. rewrite elem_of_app, list_elem_of_singleton. split; [tauto|]. intros [?| ->]; [done|].
      apply Hk, (list_elem_of_fmap_2 fst m (message e, v) Hin).
    + apply Forall_map. eapply Forall_impl; [exact Hf|]. intros kv Hkv. cbn. by case_bool_decide.
  - unfold map_inv. rewrite !map_app. cbn [map fst]. split_and!.
    + apply NoDup_app. split_and!; [done| |apply NoDup_singleton]. intros k Hin ->%list_elem_of_singleton.
      apply list_elem_of_fmap in Hin as (kv & Ekv & Hin). apply not_true_iff_false in E. apply E, existsb_exists.
      exists kv. split; [by apply list_elem_of_In|]. by apply bool_decide_eq_true.
    + intros k. rewrite !elem_of_app, Hk, !list_elem_of_singleton. done.
    + apply Forall_app. split; [done|]. by constructor.
Qed.

Lemma fold_map_inv done m es : map_inv done m -> map_inv (done ++ es) (fold_left (fun m e => map_set (message e) e m) es m).
Proof.
  revert done m. induction es as [|e es IH]; intros d m H; [by rewrite app_nil_r|]. cbn [fold_left].
  replace (d ++ e :: es) with ((d ++ [e]) ++ es) by by rewrite <- app_assoc. by apply IH, map_set_inv.
Qed.

Lemma shown_messages errors : messages (FieldError errors) = omap truthy_message (uniqueErrors errors).
Proof.
  unfold FieldError. destruct errors as [|e0 es]; [done|]. destruct (uniqueErrors _) as [|e [|e' l]]; [done| |done].
  cbn. by destruct (truthy_message e).
Qed.

Lemma truthy_spec e m : truthy_message e = Some m <-> message e = Some m /\ m <> [].
Proof. unfold truthy_message. destruct (message e) as [[|c t]|]; split; naive_solver. Qed.

(** A field shows each non-empty message of its errors, once. *)
Theorem field_errors_distinct errors :
  NoDup (messages (FieldError errors)) /\
  forall m, m ∈ messages (FieldError errors) <-> m <> [] /\ Some m ∈ map message errors.
Proof.
  rewrite shown_messages. unfold uniqueErrors.
  destruct (fold_map_inv [] [] errors) as (Hn & Hk & Hf); [split_and!; [constructor| |constructor]; done|].
  cbn [app] in *. revert Hn Hk Hf. generalize (fold_left (fun m e => map_set (message e) e m) errors []). intros l Hn Hk Hf.
  assert (omap truthy_message (map snd l) = omap (fun k => match k with Some ((_ :: _) as m) => Some m | _ => None end) (map fst l)) as ->.
  { clear Hn Hk. induction Hf as [|kv l E _ IH]; [done|]. cbn [map]. csimpl. unfold truthy_message at 1. rewrite E, IH. done. }
  split.
  - clear Hk Hf. induction (map fst l) as [|k ks IH]; [constructor|]. apply NoDup_cons in Hn as [Hn1 Hn2]. csimpl.
    destruct k as [[|c t]|]; [auto| |auto]. constructor; [|auto]. rewrite list_elem_of_omap. intros (x & Hx & Ex).
    destruct x as [[|]|]; naive_solver.
  - intros m. rewrite list_elem_of_omap. split.
    + intros (k & Hin & Ek). destruct k as [[|c t]|]; [done| |done]. injection Ek as <-. split; [done|]. by apply Hk.
    + intros [Hm Hin]. exists (Some m). split; [by apply Hk|]. by destruct m.
Qed.

(** Two errors without a message, of different kinds, show an empty list. *)
Lemma empty_error_list : FieldError [None; Some (Some [])] = MessageList [].
Proof. reflexivity. Qed.
End FieldErrors.

(** ** The carousel *)

Module Carousel.

(** What the carousel asks of its engine, a library: where it can scroll,
    how a scroll moves it and when a change is announced. An engine
    announces every move after which it can scroll in other directions. *)
Class Engine (E : Type) := {
  engine_prev : E -> bool;
  engine_next : E -> bool;
  engine_scroll_prev : E -> E;
  engine_scroll_next : E -> E;
  announced : E -> E -> bool;
  engine_announces e e' : announced e e' = false -> engine_prev e' = engine_prev e /\ engine_next e' = engine_next e
}.

(** The state of [Carousel]: its engine once it is mounted, what the buttons
    know, and how many listeners each event of the engine has. *)
Record carousel (E : Type) := {
  api : option E; canScrollPrev : bool; canScrollNext : bool; on_select : nat; on_reInit : nat
}.
Arguments api {E}. Arguments canScrollPrev {E}. Arguments canScrollNext {E}. Arguments on_select {E}. Arguments on_reInit {E}.

Section Carousel.
Context {E : Type} `{Engine E}.

Definition initial : carousel E := {| api := None; canScrollPrev := false; canScrollNext := false; on_select := 0; on_reInit := 0 |}.

(** [onSelect(api)] *)
Definition onSelect (e : E) (s : carousel E) : carousel E :=
  {| api := api s; canScrollPrev := engine_prev e; canScrollNext := engine_next e; on_select := on_select s; on_reInit := on_reInit s |}.

(** The effect that runs once the engine is there, and its cleanup. *)
Definition attach (e : E) (s : carousel E) : carousel E :=
  onSelect e {| api := Some e; canScrollPrev := canScrollPrev s; canScrollNext := canScrollNext s;
                on_select := S (on_select s); on_reInit := S (on_reInit s) |}.

Definition detach (s : carousel E) : carousel E :=
  {| api := api s; canScrollPrev := canScrollPrev s; canScrollNext := canScrollNext s; on_select := on_select s - 1; on_reInit := on_reInit s |}.

(** The engine moves to [e'] and announces it to its listeners. *)
Definition move (e' : E) (s : carousel E) : carousel E :=
  match api s with
  | None => s
  | Some e =>
      let s' := {| api := Some e'; canScrollPrev := canScrollPrev s; canScrollNext := canScrollNext s;
                   on_select := on_select s; on_reInit := on_reInit s |} in
      if announced e e' && (0 <? on_select s)%nat then onSelect e' s' else s'
  end.

(** [scrollPrev], [scrollNext]: [api?.scrollPrev()] *)
Definition scrollPrev (s : carousel E) : carousel E := match api s with Some e => move (engine_scroll_prev e) s | None => s end.
Definition scrollNext (s : carousel E) : carousel E := match api s with Some e => move (engine_scroll_next e) s | None => s end.

(** [handleKeyDown] *)
Definition handleKeyDown (key : jsstring) (s : carousel E) : carousel E :=
  if jeqb key (js "ArrowLeft") then scrollPrev s else if jeqb key (js "ArrowRight") then scrollNext s else s.

(** The engine is built again with other slides, which it announces. *)
Definition reInit (e' : E) (s : carousel E) : carousel E :=
  match api s with
  | None => s
  | Some _ =>
      let s' := {| api := Some e'; canScrollPrev := canScrollPrev s; canScrollNext := canScrollNext s;
                   on_select := on_select s; on_reInit := on_reInit s |} in
      if (0 <? on_reInit s)%nat then onSelect e' s' else s'
  end.

(** The buttons are disabled where the carousel cannot scroll; a drag moves
    the engine anywhere. *)
Inductive carousel_event := ClickPrevious | ClickNext | KeyDown (key : jsstring) | Drag (e : E) | ReInit (e : E).

Definition carousel_step (s : carousel E) (ev : carousel_event) : carousel E :=
  match ev with
  | ClickPrevious => if canScrollPrev s then scrollPrev s else s
  | ClickNext => if canScrollNext s then scrollNext s else s
  | KeyDown key => handleKeyDown key s
  | Drag e => move e s
  | ReInit e => reInit e s
  end.

Definition carousel_run (s : carousel E) (evs : list carousel_event) : carousel E := fold_left carousel_step evs s.

Definition buttons_agree (s : carousel E) : Prop :=
  0 < on_select s /\ 0 < on_reInit s /\
  exists e, api s = Some e /\ canScrollPrev s = engine_prev e /\ canScrollNext s = engine_next e.

Lemma move_agree e' s : buttons_agree s -> buttons_agree (move e' s).
Proof.
  intros (H1 & H2 & e & Ha & Hp & Hn). unfold move. rewrite Ha, (proj2 (Nat.ltb_lt _ _) H1), andb_true_r.
  destruct (announced e e') eqn:Ea; cbv zeta; (split; [done|]; split; [done|]); exists e'; [done|].
  cbn. rewrite Hp, Hn. by destruct (engine_announces e e' Ea) as [-> ->].
Qed.

Lemma scroll_agree s : buttons_agree s -> buttons_agree (scrollPrev s) /\ buttons_agree (scrollNext s).
Proof.
  intros Hs. assert (exists e, api s = Some e) as [e He] by (destruct Hs as (_ & _ & e & ? & _); eauto).
  unfold scrollPrev, scrollNext. rewrite He. split; by apply move_agree.
Qed.

Lemma carousel_step_agree s ev : buttons_agree s -> buttons_agree (carousel_step s ev).
Proof.
  intros Hs. destruct (scroll_agree s Hs) as [Hp Hn]. destruct ev as [| |k|e|e]; cbn [carousel_step]; [by case_if..| | |].
  - unfold handleKeyDown. by repeat case_if.
  - by apply move_agree.
  - destruct Hs as (H1 & H2 & e0 & Ha & _). unfold reInit. rewrite Ha, (proj2 (Nat.ltb_lt _ _) H2). cbv zeta.
    split; [done|]. split; [done|]. by exists e.
Qed.

(** Once it has its engine, the carousel enables the buttons of exactly
    the directions in which the engine can scroll, whatever is clicked,
    pressed, dragged or built again. *)
Theorem carousel_buttons_agree e evs :
  exists e', api (carousel_run (attach e initial) evs) = Some e' /\
    canScrollPrev (carousel_run (attach e initial) evs) = engine_prev e' /\
    canScrollNext (carousel_run (attach e initial) evs) = engine_next e'.
Proof.
  assert (buttons_agree (carousel_run (attach e initial) evs)) as (_ & _ & H0); [|exact H0].
  unfold carousel_run. assert (buttons_agree (attach e initial)) as Hi by (split; [cbn; lia|]; split; [cbn; lia|]; by exists e).
  revert Hi. generalize (attach e initial). induction evs as [|ev evs IH]; intros s Hs; [done|]. cbn. by apply IH, carousel_step_agree.
Qed.

(** The cleanup takes back one of the two listeners: after an unmount the
    engine still calls the other. *)
Lemma reInit_listener_left e : on_select (detach (attach e initial)) = 0 /\ on_reInit (detach (attach e initial)) = 1.
Proof. done. Qed.
End Carousel.

(** An engine with [n] slides, by the slide selected. *)
Definition slides (n : nat) : Engine nat.
Proof.
  refine {| engine_prev i := (0 <? i)%nat; engine_next i := (S i <? n)%nat; engine_scroll_prev i := i - 1;
            engine_scroll_next i := if (S i <? n)%nat then S i else i; announced i j := negb (i =? j)%nat |}.
  intros i j Hij%negb_false_iff%Nat.eqb_eq. by subst.
Defined.

Lemma carousel_buttons_agree_witness :
  let s := @carousel_run nat (slides 3) (@attach nat (slides 3) 0 initial) [ClickNext; ClickNext; ClickNext; KeyDown (js "ArrowLeft")] in
  api s = Some 1 /\ canScrollPrev s = true /\ canScrollNext s = true.
Proof.
  destruct (@carousel_buttons_agree nat (slides 3) 0 [ClickNext; ClickNext; ClickNext; KeyDown (js "ArrowLeft")]) as (e & He & Hp & Hn).
  cbv zeta. vm_compute in He. injection He as <-. split; [vm_compute; reflexivity|]. split; [exact Hp|exact Hn].
Defined.
End Carousel.
