(* ===== verification/Views.v ===== *)
(** * What the tables and the side bar show

    [pages/l4/sections/L4ServiceTable.tsx],
    [pages/certificates/sections/CertificateTable.tsx],
    [pages/extensions/components/config/ExtensionRulesTable.tsx] and
    [components/ConsoleSidebar.tsx]: the cells computed from an item and the
    entry of the side bar that is marked. The theorems say that a table
    agrees with the editor, filter or handler that works on the same data. *)

From Stdlib Require Import ZArith NArith Lia String.
From S2P Require Import Prelude JsString JsValue Json JsonFacts Fetcher Api L4Acl L4Forms L4Page CertificatesPage ExtensionConfig.
Local Open Scope string_scope.
Local Open Scope list_scope.

(** ** Layer-4 services *)

Module L4Table.
Import L4Api.

Definition isEndpoint (svc : L4ServiceItem) : bool :=
  jeqb (forward_target_type svc) (js "endpoint")
  || (jeqb (upstream_name svc) [] && negb (jeqb (direct_endpoint svc) [])).

Definition deny_endpoint : jsstring := js "127.0.0.1:0".

Inductive target_cell := DenyCell | DirectCell (endpoint : jsstring) | PoolCell (upstream : jsstring).

Definition target_of (svc : L4ServiceItem) : target_cell :=
  if jeqb (direct_endpoint svc) deny_endpoint then DenyCell
  else if isEndpoint svc then DirectCell (direct_endpoint svc) else PoolCell (upstream_name svc).

(** [acls.length] of whatever the text holds: an array and a string have a
    length, other values have none, and [null] throws. *)
Inductive acl_cell := AllAllowed | RuleCount (n : nat) | NoLength | Throws.

Definition cell_of_count (n : nat) : acl_cell := match n with 0 => AllAllowed | _ => RuleCount n end.

Definition acls_of (svc : L4ServiceItem) : acl_cell :=
  match parse (str_or (acl_rules_json svc) (js "[]")) with
  | None => AllAllowed
  | Some (VArr l) => cell_of_count (length l)
  | Some (VStr s) => cell_of_count (length s)
  | Some VNull => Throws
  | Some _ => NoLength
  end.

Definition rule_word (n : nat) : jsstring := if Nat.eqb n 1 then js "Rule" else js "Rules".

(** [description], or the date of creation, which the locale formats. *)
Definition subtitle (locale_date : jsstring -> jsstring) (svc : L4ServiceItem) : jsstring :=
  match description svc with [] => js "Created " ++ locale_date (created_at svc) | d => d end.

Definition timeouts (svc : L4ServiceItem) : jsstring * jsstring :=
  (str_or (proxy_timeout svc) (js "1h"), str_or (proxy_connect_timeout svc) (js "5s")).

Definition status_text (svc : L4ServiceItem) : jsstring := if enabled svc then js "Active" else js "Inactive".

(** The body of the table. *)
Inductive body := Loading | NoMatch | NoServices | Rows (l : list L4ServiceItem).

Definition filters_active (f : l4_filters) : bool :=
  negb (jeqb (L4Page.searchQuery f) []) || match protoFilter f with AllProtocols => false | _ => true end
  || match L4Page.statFilter f with Some (_ :: _) => true | _ => false end.

Definition body_of (loading : bool) (f : l4_filters) (services : list L4ServiceItem) : body :=
  if loading then Loading
  else match services with
       | [] => if filters_active f then NoMatch else NoServices
       | _ => Rows services
       end.

(** The table and the edit page agree. For a service whose rules the
    edit page can read and that is not the drop target, the target cell
    names the kind and the text of the target that the edit page loads, the
    rule cell counts the rules that it loads, and the row counts as
    protected in the filter exactly when it shows a count. *)
Theorem l4_row_matches_editor (s : L4Form) (svc : L4ServiceItem) (l : list L4ACLRule) :
  parse_acl (acl_rules_json svc) = Some (AclRules l) -> direct_endpoint svc <> deny_endpoint ->
  let f := detect_target s svc in
  target_of svc = match f_targetType f with TEndpoint => DirectCell (f_endpoint f) | TUpstream => PoolCell (f_upstream f) end /\
  acls_of svc = cell_of_count (length l) /\
  (has_acl svc = true <-> exists n, acls_of svc = RuleCount n).
Proof.
  intros Hp Hd f. split; [|].
  - apply jeqb_false in Hd. unfold target_of, f, detect_target, isEndpoint. rewrite Hd.
    destruct (jeqb (forward_target_type svc) (js "endpoint") || _).
    + cbn [with_target f_targetType f_endpoint]. by destruct (direct_endpoint svc).
    + cbn [with_target f_targetType f_upstream]. by destruct (upstream_name svc).
  - unfold parse_acl in Hp. unfold acls_of, has_acl.
    destruct (parse (str_or (acl_rules_json svc) (js "[]"))) as [v|]; [|injection Hp as <-; split; [done|naive_solver]].
    destruct v as [| | | | |vs|]; try discriminate Hp.
    destruct (mapM rule_of_val vs) as [rs|] eqn:E; [|done]. injection Hp as <-.
    apply length_mapM in E. split; [by rewrite E|]. destruct vs as [|x vs]; split; try done; [by intros [n [=]]|].
    intros _. by exists (S (length vs)).
Qed.

(** After clearing the filters an empty table says that there are no
    services, whatever the filters were. *)
Lemma cleared_empty_body (f : l4_filters) : body_of false (handleClearFilters f) [] = NoServices.
Proof. reflexivity. Qed.

(** Text that is JSON but no list of rules: [null] brings the table down,
    and an object counts "undefined" rules. *)
Lemma odd_acl_text (svc : L4ServiceItem) :
  (acl_rules_json svc = js "null" -> acls_of svc = Throws) /\ (acl_rules_json svc = js "{}" -> acls_of svc = NoLength).
Proof. split; intros E; unfold acls_of; rewrite E; reflexivity. Qed.

Definition row_example : L4ServiceItem :=
  {| id := js "l1"; name := js "redis"; protocol := js "tcp"; listen_port := 6379; forward_target_type := js "upstream";
     upstream_name := js "pool"; direct_endpoint := []; acl_rules_json := []; proxy_timeout := []; proxy_connect_timeout := [];
     enabled := true; description := []; created_at := []; updated_at := [] |}.

Lemma l4_row_matches_editor_witness :
  target_of row_example = PoolCell (js "pool") /\ acls_of row_example = AllAllowed.
Proof.
  destruct (l4_row_matches_editor (initial_form None) row_example []) as (H1 & H2 & _).
  - reflexivity.
  - discriminate.
  - split; [reflexivity|exact H2].
Defined.
End L4Table.

(** ** Certificates *)

Module CertTable.
Import CertificatesApi.

(** The badges of the host names, each with its highlighting; [None] is a
    value without [map] or a member without [includes], which throw. *)
Definition sni_badge (v : val) : option (val * bool) := b ← includes_star v; Some (v, b).

Definition badges_of (c : CertificateItem) : option (list (val * bool)) :=
  match parse (str_or (snis_json c) (js "[]")) with
  | None => Some []
  | Some (VArr l) => mapM sni_badge l
  | Some _ => None
  end.

Definition subtitle (locale_date : jsstring -> jsstring) (c : CertificateItem) : jsstring :=
  match description c with [] => js "Installed " ++ locale_date (created_at c) | d => d end.

(** The switch of a row: the argument of [onToggle], unless it is disabled
    while the row is toggling. *)
Definition switch_click (toggling : bool) (c : CertificateItem) : option bool :=
  if toggling then None else Some (negb (enabled c)).

Lemma badges_star l bs : mapM sni_badge l = Some bs -> some_star l = existsb snd bs.
Proof.
  revert bs. induction l as [|v l IH]; intros bs H; [by injection H as <-|].
  apply mapM_Some in H. apply Forall2_cons_inv_l in H as (b & bs' & Hb & Hbs & ->). apply mapM_Some in Hbs.
  unfold sni_badge in Hb. cbn [some_star existsb]. destruct (includes_star v) as [[]|]; try done; injection Hb as <-; [done|].
  by apply IH.
Qed.

(** The wildcard filter shows what the table highlights: for a
    certificate whose row can be drawn, it counts as a wildcard certificate
    exactly when one of the badges of its row is highlighted. *)
Theorem wildcard_rows_highlighted (c : CertificateItem) (bs : list (val * bool)) :
  badges_of c = Some bs -> has_wildcard c = existsb snd bs.
Proof.
  unfold badges_of, has_wildcard. destruct (parse _) as [v|]; [|by intros [= <-]].
  destruct v; try done. apply badges_star.
Qed.

Definition wildcard_cert : CertificateItem :=
  {| id := js "c1"; name := js "edge"; snis_json := ser [] [] (VArr [vstr "a.io"; vstr "*.a.io"]); cert_pem := [];
     key_configured := true; mtls_enabled := false; client_ca_pem := []; verify_depth := 1; enabled := true;
     description := []; created_at := []; updated_at := [] |}.

Lemma wildcard_rows_highlighted_witness : has_wildcard wildcard_cert = true.
Proof.
  rewrite (wildcard_rows_highlighted wildcard_cert [(vstr "a.io", false); (vstr "*.a.io", true)]); [reflexivity|].
  vm_compute. reflexivity.
Defined.
End CertTable.

(** ** The rules of an extension *)

Module RulesTable.

Definition default_columns : list (jsstring * jsstring) := [(js "match_type", js "Match"); (js "action", js "Action")].

(** [(tableColumns || default).filter(...)]: an empty array is kept. *)
Definition columns (table_columns : option (list (jsstring * jsstring))) : list (jsstring * jsstring) :=
  List.filter (fun c => negb (jeqb c.1 (js "name")) && negb (jeqb c.1 (js "enabled"))) (default default_columns table_columns).

(** [rule.enabled !== false] *)
Definition rule_on (r : val) : bool := match opt_prop (js "enabled") r with VBool false => false | _ => true end.

(** [rule.name || rule.pattern || `Rule #${idx + 1}`] *)
Definition rule_label (r : val) (idx : nat) : val :=
  val_or (opt_prop (js "name") r)
    (val_or (opt_prop (js "pattern") r) (VStr (js "Rule #" ++ int_string (Z.of_nat idx + 1)))).

(** The text of a cell. *)
Definition cell_text (v : val) : jsstring :=
  match v with
  | VBool b => if b then js "Yes" else js "No"
  | VArr [] => js "—"
  | VArr l => join (js ", ") (map (fun v => match v with VUndef | VNull => [] | _ => to_string v end) l)
  | VUndef | VNull => js "—"
  | _ => to_string v
  end.

Definition row_cells (table_columns : option (list (jsstring * jsstring))) (r : val) : list jsstring :=
  map (fun c => cell_text (opt_prop c.1 r)) (columns table_columns).

(** Clicking the mark of a rule that says whether it is enabled turns the
    mark, changes no other rule and no cell of the row. *)
Theorem toggle_turns_mark (s : modal) (i : nat) (o : obj) (b : bool) (cols : option (list (jsstring * jsstring))) :
  rules s !! i = Some (VObj o) -> prop (js "enabled") o = VBool b ->
  exists r, rules (handleToggleRule s i) !! i = Some r /\ rule_on r = negb (rule_on (VObj o)) /\
    row_cells cols r = row_cells cols (VObj o) /\
    forall j, j <> i -> rules (handleToggleRule s i) !! j = rules s !! j.
Proof.
  intros Hi Hb. unfold handleToggleRule. rewrite Hi. cbn [syncToJSON set_copies rules].
  exists (toggle_rule (VObj o)). split; [apply list_lookup_insert_eq; by eapply lookup_lt_Some|].
  unfold toggle_rule, rule_on, row_cells. cbn [opt_prop spread]. rewrite prop_put_eq, Hb. split; [by destruct b|]. split.
  - apply map_ext_in. intros c Hc. unfold columns in Hc. apply filter_In in Hc as [_ Hc].
    apply andb_true_iff in Hc as [_ Hc%negb_true_iff%jeqb_false]. cbn [opt_prop]. by rewrite prop_put_ne by congruence.
  - intros j Hj. by apply list_lookup_insert_ne.
Qed.

(** A rule that says nothing is shown as enabled, and the first click leaves
    it so. *)
Lemma unset_rule_first_click (o : obj) : prop (js "enabled") o = VUndef ->
  rule_on (VObj o) = true /\ rule_on (toggle_rule (VObj o)) = true.
Proof.
  intros E. unfold rule_on, toggle_rule. cbn [opt_prop spread]. by rewrite prop_put_eq, E.
Qed.

Definition one_rule : obj := obj_lit [("name", vstr "r"); ("enabled", VBool true)].
Definition one_rule_dialog : modal :=
  {| workspaceMode := Visual; configText := []; parsedConfig := VObj []; rules := [VObj one_rule]; isEditingRule := false;
     editingIndex := None; ruleForm := []; jsonError := None; isSaving := false; saveSuccess := false |}.

Lemma toggle_turns_mark_witness :
  exists r, rules (handleToggleRule one_rule_dialog 0) !! 0 = Some r /\ rule_on r = false.
Proof.
  destruct (toggle_turns_mark one_rule_dialog 0 one_rule true None eq_refl eq_refl) as (r & H1 & H2 & _).
  exists r. split; [exact H1|]. rewrite H2. reflexivity.
Defined.
End RulesTable.

(** ** The side bar *)

Module Navigation.

Record nav_item := { label : jsstring; path : jsstring; aliases : list jsstring }.

Definition item (l p : string) (a : list string) : nav_item := {| label := js l; path := js p; aliases := map js a |}.

Definition navItems : list nav_item :=
  [item "Dashboard" "/dashboard" ["/"]; item "Routes" "/routes" ["/domains"]; item "Certificates" "/certificates" [];
   item "Upstreams" "/upstreams" ["/upstreams/create"; "/upstreams/add"];
   item "L4 Gateway" "/l4" ["/l4/create"; "/l4/add"; "/l4/services"; "/l4/upstreams"];
   item "Analytics" "/analytics" ["/metrics"; "/telemetry"]; item "Extensions" "/extensions" ["/extensions/"];
   item "Settings" "/settings" []].

Definition isNavActive (currentPath path : jsstring) (aliases : list jsstring) : bool :=
  if jeqb path (js "/dashboard") then jeqb currentPath (js "/") || jeqb currentPath (js "/dashboard")
  else startsWith path currentPath || existsb (fun a => startsWith a currentPath) aliases.

Definition active_items (currentPath : jsstring) : list nav_item :=
  List.filter (fun i => isNavActive currentPath (path i) (aliases i)) navItems.

(** The user shown at the foot. *)
Definition shown_user (user : val) : val * val :=
  (val_or (opt_prop (js "username") user) (vstr "admin"), val_or (opt_prop (js "role") user) (vstr "Administrator")).

(** The path an active item was recognised by. *)
Definition nav_keys (i : nav_item) : list jsstring :=
  if jeqb (path i) (js "/dashboard") then [js "/dashboard"] else path i :: aliases i.

(** Two texts, neither of which starts with the other. *)
Definition apart (a b : jsstring) : bool := negb (startsWith a b) && negb (startsWith b a).

Lemma apart_prefixes a b p : apart a b = true -> startsWith a p = true -> startsWith b p = true -> False.
Proof.
  unfold apart. rewrite andb_true_iff, !negb_true_iff, <- !not_true_iff_false, !startsWith_spec.
  intros [H1 H2] Ha Hb. destruct (prefix_weak_total a b p Ha Hb) as [?|?]; contradiction.
Qed.

(** Different items are recognised by paths that lie apart. *)
Lemma items_apart i j :
  i ∈ navItems -> j ∈ navItems -> label i <> label j ->
  Forall (fun a => Forall (fun b => apart a b = true) (nav_keys j)) (nav_keys i).
Proof.
  intros Hi Hj Hne.
  assert (forallb (fun i => forallb (fun j => jeqb (label i) (label j)
    || forallb (fun a => forallb (apart a) (nav_keys j)) (nav_keys i)) navItems) navItems = true) as H by (vm_compute; reflexivity).
  rewrite forallb_forall in H. specialize (H i ltac:(by apply list_elem_of_In)).
  rewrite forallb_forall in H. specialize (H j ltac:(by apply list_elem_of_In)).
  apply jeqb_false in Hne. rewrite Hne in H. cbn [orb] in H. rewrite forallb_forall in H.
  apply List.Forall_forall. intros a Ha. apply List.Forall_forall. intros b Hb. specialize (H a Ha).
  rewrite forallb_forall in H. by apply H.
Qed.

Lemma active_key p i : isNavActive p (path i) (aliases i) = true -> p <> js "/" ->
  exists k, k ∈ nav_keys i /\ startsWith k p = true.
Proof.
  unfold isNavActive, nav_keys. destruct (jeqb (path i) (js "/dashboard")).
  - intros H Hp. apply orb_true_iff in H as [H%jeqb_true|H%jeqb_true]; [done|]. exists (js "/dashboard").
    split; [left|by rewrite H].
  - intros H _. apply orb_true_iff in H as [H|H]; [exists (path i); split; [left|done]|].
    apply existsb_exists in H as (a & Ha & H). exists a. split; [right; by apply list_elem_of_In|done].
Qed.

Lemma root_is_dashboard i : i ∈ navItems -> isNavActive (js "/") (path i) (aliases i) = true -> label i = js "Dashboard".
Proof.
  intros Hi. unfold navItems in Hi.
  repeat (apply elem_of_cons in Hi as [->|Hi]; [try (intros; reflexivity); intros A; vm_compute in A; discriminate A|]).
  by apply elem_of_nil in Hi.
Qed.

Lemma active_elem p i : i ∈ active_items p <-> i ∈ navItems /\ isNavActive p (path i) (aliases i) = true.
Proof. unfold active_items. by rewrite !list_elem_of_In, filter_In. Qed.

Lemma active_label p i j : i ∈ active_items p -> j ∈ active_items p -> label i = label j.
Proof.
  intros [Hi Ai]%active_elem [Hj Aj]%active_elem. destruct (decide (label i = label j)) as [|Hne]; [done|exfalso].
  destruct (decide (p = js "/")) as [->|Hp]; [by rewrite !root_is_dashboard in Hne|].
  destruct (active_key p i Ai Hp) as (a & Ha & Sa), (active_key p j Aj Hp) as (b & Hb & Sb).
  pose proof (items_apart i j Hi Hj Hne) as H.
  rewrite Forall_forall in H. specialize (H a Ha). rewrite Forall_forall in H. specialize (H b Hb).
  by eapply apart_prefixes.
Qed.

Lemma active_NoDup p : NoDup (label <$> active_items p).
Proof.
  apply (sublist_NoDup _ (label <$> navItems)); [apply (bool_decide_unpack _); vm_compute; exact I|].
  apply fmap_sublist. unfold active_items. induction navItems as [|i l IH]; cbn; [constructor|].
  destruct (isNavActive _ _ _); by constructor.
Qed.

(** The side bar marks one place: for every address at most one entry is
    marked, and an address that begins with the path of an entry other than
    the dashboard marks that entry. *)
Theorem one_nav_item (p : jsstring) (i : nav_item) :
  length (active_items p) <= 1 /\
  (i ∈ navItems -> path i <> js "/dashboard" -> startsWith (path i) p = true -> active_items p = [i]).
Proof.
  assert (length (active_items p) <= 1) as Hlen.
  { pose proof (active_NoDup p) as Hnd. pose proof (active_label p) as Hu.
    destruct (active_items p) as [|x [|y l]]; cbn in *; try lia. exfalso.
    apply NoDup_cons in Hnd as [Hx _]. apply Hx. rewrite (Hu x y); [left|left|right; left]. }
  split; [done|]. intros Hi Hd Hs.
  assert (i ∈ active_items p) as Hin.
  { apply active_elem. split; [done|]. unfold isNavActive. apply jeqb_false in Hd. by rewrite Hd, Hs. }
  destruct (active_items p) as [|x [|y l]]; cbn in Hlen; [by apply elem_of_nil in Hin| |lia].
  by apply list_elem_of_singleton in Hin as ->.
Qed.
End Navigation.
