(* ===== verification/LivePages.v ===== *)
(** * List pages against the control plane

    The routes and certificates pages poll their list ([Polling]) and switch
    rows before the answer has come ([Optimistic]). Here both run together
    with the control plane on the other side of the network: a request is
    served or refused some time after it was sent, and its answer delivered
    some time after that, in any order. What the composition needs of a page
    is the class [SwitchPage], which both pages instantiate with their own
    handlers. The lists are asked for with [limit: 200]: what is shown are
    the first 200 rows. *)

From Stdlib Require Import ZArith NArith Lia String.
From stdpp Require Import gmap.
From S2P Require Import Prelude JsString JsValue Fetcher Api Polling Optimistic RoutesPage CertificatesPage.
Local Open Scope string_scope.
Local Open Scope list_scope.

(** ** What a page promises *)

(** [handleToggle] of a page, up to its [await] and from it, as changes of
    the polled list and of the marks. *)
Class SwitchPage (S A : Type) `{ListPage A} `{Toggleable A} := {
  feed_of : S -> page (A := A);
  with_feed : page (A := A) -> S -> S;
  marks_of : S -> gset jsstring;
  has_canvas : bool;
  switch_start : S -> A -> bool -> S;
  switch_finish : S -> A -> bool -> result ApiError val -> S;
  feed_with_feed p s : feed_of (with_feed p s) = p;
  marks_with_feed p s : marks_of (with_feed p s) = marks_of s;
  start_feed s x b : feed_of (switch_start s x b) = edit (switch_rows (item_id x) b) (feed_of s);
  start_marks s x b : marks_of (switch_start s x b) = mark (item_id x) (marks_of s);
  finish_feed s x b r : feed_of (switch_finish s x b r) =
    match r with Ok _ => feed_of s | Throw _ => edit (switch_rows (item_id x) (negb b)) (feed_of s) end;
  finish_marks s x b r : marks_of (switch_finish s x b r) = unmark (item_id x) (marks_of s)
}.

Section Live.
Context {S A : Type} `{SwitchPage S A}.

(** ** The machine *)

(** What travels: a request, or the answer the control plane gave. *)
Inductive message :=
| ListReq (n : nat)
| ListAns (n : nat) (r : result jsstring (list A))
| SwitchReq (x : A) (b : bool)
| SwitchAns (x : A) (b : bool) (r : result ApiError val).

Record live := { server : list A; console : S; wire : list message }.

Definition shown_rows (s : live) : list A := items (shown (feed_of (console s))).

(** [list({ limit: 200 })] *)
Definition page_size : nat := 200.

(** A click on the switch of the table, and one on the switch of the canvas,
    which says whether a switch of that row is under way [again]. *)
Inductive live_event :=
| Poll (showSpin : bool)
| Click (x : A)
| CanvasClick (x : A) (again : bool)
| Serve
| Refuse
| Deliver
| Lose
| Outside.

(** The fetch function, sent. *)
Definition poll (showSpin : bool) (s : live) : live :=
  {| server := server s; console := with_feed (fetch_start showSpin (feed_of (console s))) (console s);
     wire := ListReq (Datatypes.S (sequence (feed_of (console s)))) :: wire s |}.

(** The switch of a row, sent. *)
Definition click (x : A) (s : live) : live :=
  let b := negb (item_enabled x) in
  {| server := server s; console := switch_start (console s) x b; wire := SwitchReq x b :: wire s |}.

(** The control plane changes the row it is asked to change; what it answers
    to a list are the first rows of its list, as many as were asked for. A
    switch may also be carried out although its answer is lost, which the
    console sees as a failure, and other clients change the list. The switch
    of a marked row is disabled in the tables; the canvas of the routes page
    does not disable it. *)
Inductive live_step : live -> live_event -> live -> Prop :=
| DoPoll s spin : live_step s (Poll spin) (poll spin s)
| DoClick s x : x ∈ shown_rows s -> item_id x ∉ marks_of (console s) -> live_step s (Click x) (click x s)
| DoCanvas s x again : has_canvas = true -> x ∈ shown_rows s ->
    again = bool_decide (item_id x ∈ marks_of (console s)) -> live_step s (CanvasClick x again) (click x s)
| ServeList R c w1 n w2 :
    live_step {| server := R; console := c; wire := w1 ++ ListReq n :: w2 |} Serve
      {| server := R; console := c; wire := w1 ++ ListAns n (Ok (take page_size R)) :: w2 |}
| RefuseList R c w1 n m w2 :
    live_step {| server := R; console := c; wire := w1 ++ ListReq n :: w2 |} Refuse
      {| server := R; console := c; wire := w1 ++ ListAns n (Throw m) :: w2 |}
| ServeSwitch R c w1 x b v w2 :
    live_step {| server := R; console := c; wire := w1 ++ SwitchReq x b :: w2 |} Serve
      {| server := switch_rows (item_id x) b R; console := c; wire := w1 ++ SwitchAns x b (Ok v) :: w2 |}
| RefuseSwitch R c w1 x b e w2 :
    live_step {| server := R; console := c; wire := w1 ++ SwitchReq x b :: w2 |} Refuse
      {| server := R; console := c; wire := w1 ++ SwitchAns x b (Throw e) :: w2 |}
| LoseSwitch R c w1 x b e w2 :
    live_step {| server := R; console := c; wire := w1 ++ SwitchReq x b :: w2 |} Lose
      {| server := switch_rows (item_id x) b R; console := c; wire := w1 ++ SwitchAns x b (Throw e) :: w2 |}
| DeliverList R c w1 n r w2 :
    live_step {| server := R; console := c; wire := w1 ++ ListAns n r :: w2 |} Deliver
      {| server := R; console := with_feed (fetch_settle n r (feed_of c)) c; wire := w1 ++ w2 |}
| DeliverSwitch R c w1 x b r w2 :
    live_step {| server := R; console := c; wire := w1 ++ SwitchAns x b r :: w2 |} Deliver
      {| server := R; console := switch_finish c x b r; wire := w1 ++ w2 |}
| DoOutside s R : live_step s Outside {| server := R; console := console s; wire := wire s |}.

(** ** What is on the wire *)

Definition switching (m : message) : option jsstring :=
  match m with SwitchReq x _ | SwitchAns x _ _ => Some (item_id x) | _ => None end.
Definition numbered (m : message) : option nat :=
  match m with ListReq n | ListAns n _ => Some n | _ => None end.

Definition switched_ids (w : list message) : list jsstring := omap switching w.
Definition list_numbers (w : list message) : list nat := omap numbered w.

(** A row is marked only where a switch is on the wire, and no list request
    has a number that was not given out. *)
Definition wire_ok (s : live) : Prop :=
  (forall i, i ∈ marks_of (console s) -> i ∈ switched_ids (wire s)) /\
  Forall (fun n => n <= sequence (feed_of (console s))) (list_numbers (wire s)).

(** While no row is clicked again under way: there is one switch at most per
    row on the wire, and its row is marked. *)
Definition wire_inv (s : live) : Prop :=
  NoDup (switched_ids (wire s)) /\ (forall i, i ∈ switched_ids (wire s) -> i ∈ marks_of (console s)) /\ wire_ok s.

Definition once (e : live_event) : Prop := match e with CanvasClick _ true => False | _ => True end.

Definition opt_list {B} (o : option B) : list B := match o with Some x => [x] | None => [] end.

(** The wire with one message replaced, or taken out. *)
Lemma switched_ids_mid w1 m w2 :
  switched_ids (w1 ++ m :: w2) = switched_ids w1 ++ opt_list (switching m) ++ switched_ids w2.
Proof. unfold switched_ids. rewrite omap_app. cbn. by destruct (switching m). Qed.

Lemma list_numbers_mid w1 m w2 :
  list_numbers (w1 ++ m :: w2) = list_numbers w1 ++ opt_list (numbered m) ++ list_numbers w2.
Proof. unfold list_numbers. rewrite omap_app. cbn. by destruct (numbered m). Qed.

Lemma switched_ids_app w1 w2 : switched_ids (w1 ++ w2) = switched_ids w1 ++ switched_ids w2.
Proof. apply omap_app. Qed.

Lemma list_numbers_app w1 w2 : list_numbers (w1 ++ w2) = list_numbers w1 ++ list_numbers w2.
Proof. apply omap_app. Qed.

Lemma settle_sequence n r (p : page (A := A)) : sequence (fetch_settle n r p) = sequence p.
Proof. done. Qed.

Lemma finish_sequence c x b r : sequence (feed_of (switch_finish c x b r)) = sequence (feed_of c).
Proof. rewrite finish_feed. by destruct r. Qed.

Lemma click_ok s x : wire_ok s -> wire_ok (click x s).
Proof.
  intros [Hm Hl]. split; [|by cbn; rewrite start_feed]. intros i. cbn [click console]. rewrite start_marks. unfold mark.
  rewrite elem_of_union, elem_of_singleton. cbn. rewrite elem_of_cons. naive_solver.
Qed.

Lemma live_step_ok s e s' : wire_ok s -> live_step s e s' -> wire_ok s'.
Proof.
  intros (Hm & Hl) Hs. unfold wire_ok in *.
  destruct Hs as [s spin|s x Hx Hi|s x again Hc Hx Ha|R c w1 n w2|R c w1 n m w2|R c w1 x b v w2|R c w1 x b er w2|R c w1 x b er w2|R c w1 n r w2|R c w1 x b r w2|s R];
    cbn [server console wire poll click] in *;
    rewrite ?switched_ids_mid, ?list_numbers_mid in *; cbn [switching numbered opt_list app] in *; try done.
  - rewrite feed_with_feed, marks_with_feed. split; [done|]. cbn. constructor; [lia|].
    eapply Forall_impl; [exact Hl|]. intros k Hk. cbn in Hk. lia.
  - by apply click_ok.
  - by apply click_ok.
  - rewrite feed_with_feed, marks_with_feed, settle_sequence, switched_ids_app, list_numbers_app.
    split; [done|]. apply Forall_app in Hl as [Hl1 [_ Hl2]%Forall_cons]. by apply Forall_app.
  - rewrite finish_sequence, finish_marks, switched_ids_app, list_numbers_app. split; [|done].
    intros i. unfold unmark. rewrite elem_of_difference, elem_of_singleton, elem_of_app. intros [Hi Hne].
    apply Hm in Hi. rewrite elem_of_app, elem_of_cons in Hi. naive_solver.
Qed.

Lemma click_wire s x : wire_inv s -> item_id x ∉ marks_of (console s) -> wire_inv (click x s).
Proof.
  intros (Hn & Hw & Ho) Hi. split; [|split; [|apply click_ok, Ho]]; cbn [click wire console].
  - constructor; [|done]. intros Hx. by apply Hi, Hw.
  - intros i. rewrite start_marks. unfold mark. rewrite elem_of_union, elem_of_singleton. cbn. rewrite elem_of_cons. naive_solver.
Qed.

Lemma live_step_wire s e s' : once e -> wire_inv s -> live_step s e s' -> wire_inv s'.
Proof.
  intros He (Hn & Hw & Ho) Hs. pose proof (live_step_ok _ _ _ Ho Hs) as Ho'.
  destruct Hs as [s spin|s x Hx Hi|s x again Hc Hx Ha|R c w1 n w2|R c w1 n m w2|R c w1 x b v w2|R c w1 x b er w2|R c w1 x b er w2|R c w1 n r w2|R c w1 x b r w2|s R];
    try (by apply click_wire).
  2: { subst again. cbn [once] in He. case_bool_decide as Hi; [done|]. by apply click_wire. }
  all: unfold wire_inv; split; [|split; [|done]]; clear Ho Ho'; cbn [server console wire poll] in *;
    rewrite ?switched_ids_mid in *; cbn [switching opt_list app] in *;
    rewrite ?marks_with_feed, ?finish_marks, ?switched_ids_app; try done.
  - apply NoDup_app in Hn as (N1 & N2 & N3). apply NoDup_cons in N3 as [N3 N4]. apply NoDup_app. split_and!; [done| |done].
    intros i Hi1 Hi2. apply (N2 i Hi1). by right.
  - intros i Hi. unfold unmark. rewrite elem_of_difference, elem_of_singleton.
    apply NoDup_app in Hn as (N1 & N2 & N3). apply NoDup_cons in N3 as [N3 _]. apply elem_of_app in Hi. split.
    + apply Hw. rewrite elem_of_app, elem_of_cons. tauto.
    + intros ->. destruct Hi as [Hi|Hi]; [|done]. apply (N2 _ Hi). left.
Qed.

Lemma wire_marks s i : wire_inv s -> i ∈ marks_of (console s) <-> i ∈ switched_ids (wire s).
Proof. intros (_ & Hw & Ho & _). split; [apply Ho|apply Hw]. Qed.

(** ** Switches without polling *)

(** The switches whose outcome the list shows already and the control plane
    does not have: not served yet, or refused and not yet taken back. *)
Definition unsettled (m : message) : option (jsstring * bool) :=
  match m with SwitchReq x b | SwitchAns x b (Throw _) => Some (item_id x, b) | _ => None end.

Definition pending_flag (w : list message) (i : jsstring) : option bool :=
  snd <$> List.find (fun ib => jeqb ib.1 i) (omap unsettled w).

Definition overlay (w : list message) (r : A) : A :=
  match pending_flag w (item_id r) with Some b => with_enabled b r | None => r end.

Lemma overlay_id w r : item_id (overlay w r) = item_id r.
Proof. unfold overlay. destruct (pending_flag w (item_id r)); [apply with_enabled_id|done]. Qed.

Lemma unsettled_switching m i b : unsettled m = Some (i, b) -> switching m = Some i.
Proof. destruct m as [| | |x c [v|er]]; cbn; naive_solver. Qed.

Lemma pending_flag_none w i : i ∉ switched_ids w -> pending_flag w i = None.
Proof.
  induction w as [|m w IH]; intros Hi; [done|]. unfold pending_flag, switched_ids in *. csimpl in *.
  destruct (unsettled m) as [[k c]|] eqn:E; csimpl.
  - rewrite (unsettled_switching _ _ _ E) in Hi. destruct (jeqb k i) eqn:Ek; [apply jeqb_true in Ek as ->; set_solver|].
    apply IH. set_solver.
  - apply IH. destruct (switching m); set_solver.
Qed.

Lemma pending_flag_mid w1 m w2 i j : switching m = Some i -> NoDup (switched_ids (w1 ++ m :: w2)) ->
  pending_flag (w1 ++ m :: w2) j =
  (if jeqb i j then snd <$> unsettled m else pending_flag (w1 ++ w2) j) /\ pending_flag (w1 ++ w2) i = None.
Proof.
  intros Hm Hn. assert (i ∉ switched_ids (w1 ++ w2)) as Hi.
  { rewrite switched_ids_mid, Hm in Hn. rewrite switched_ids_app. cbn in Hn.
    apply NoDup_app in Hn as (N1 & N2 & N3). apply NoDup_cons in N3 as [N3 _]. intros [Hx|Hx]%elem_of_app; [|done].
    apply (N2 _ Hx). left. }
  split; [|by apply pending_flag_none]. clear Hn. induction w1 as [|a w1 IH].
  - unfold pending_flag. csimpl. destruct (unsettled m) as [[k c]|] eqn:E; csimpl.
    + apply unsettled_switching in E. rewrite Hm in E. injection E as <-. by destruct (jeqb i j).
    + destruct (jeqb i j) eqn:Ej; [|done]. apply jeqb_true in Ej as ->. by apply pending_flag_none.
  - assert (i ∉ switched_ids (w1 ++ w2)) as Hi'.
    { unfold switched_ids in *. csimpl in Hi. destruct (switching a); set_solver. }
    specialize (IH Hi'). unfold pending_flag in *. csimpl. destruct (unsettled a) as [[k c]|] eqn:E; [|exact IH].
    csimpl. destruct (jeqb k j) eqn:Ek; [|exact IH]. apply jeqb_true in Ek as ->. destruct (jeqb i j) eqn:Ej; [|done].
    apply jeqb_true in Ej as ->. apply unsettled_switching in E. unfold switched_ids in Hi. csimpl in Hi. rewrite E in Hi. set_solver.
Qed.

(** Along switches alone: what is shown are the first rows of the control
    plane with the unsettled switches on top. *)
Definition agree_inv (s : live) : Prop :=
  wire_inv s /\ NoDup (map item_id (server s)) /\ list_numbers (wire s) = [] /\
  shown_rows s = map (overlay (wire s)) (take page_size (server s)) /\
  forall r b, r ∈ server s -> pending_flag (wire s) (item_id r) = Some b -> item_enabled r = negb b.

Definition about_switches (e : live_event) : Prop := match e with Poll _ | CanvasClick _ true | Lose | Outside => False | _ => True end.

Lemma edit_rows f (p : page (A := A)) : items (shown (edit f p)) = f (items (shown p)).
Proof. done. Qed.

Lemma map_id_inj (l : list A) x y : NoDup (map item_id l) -> x ∈ l -> y ∈ l -> item_id x = item_id y -> x = y.
Proof.
  induction l as [|z l IH]; [intros _ Hx; by apply elem_of_nil in Hx|]. intros [Hn1 Hn2]%NoDup_cons Hx Hy E.
  apply elem_of_cons in Hx as [->|Hx]; apply elem_of_cons in Hy as [->|Hy]; auto.
  - destruct Hn1. rewrite E. by apply list_elem_of_fmap_2.
  - destruct Hn1. rewrite <- E. by apply list_elem_of_fmap_2.
Qed.

Lemma switch_rows_take i b n (l : list A) : take n (switch_rows i b l) = switch_rows i b (take n l).
Proof. symmetry. apply fmap_take. Qed.

Lemma elem_of_take_server n (x : A) l : x ∈ take n l -> x ∈ l.
Proof. intros (k & Hk & _)%elem_of_take. by eapply list_elem_of_lookup_2. Qed.

Lemma click_agree s x : agree_inv s -> x ∈ shown_rows s -> item_id x ∉ marks_of (console s) -> agree_inv (click x s).
Proof.
  intros (Hw & Hd & Hl & Hs & Hf) Hx Hi. pose proof (click_wire _ _ Hw Hi) as Hw'.
  assert (pending_flag (wire s) (item_id x) = None) as Hp.
  { apply pending_flag_none. by rewrite <- (wire_marks s). }
  assert (x ∈ server s) as Hin.
  { rewrite Hs in Hx. apply list_elem_of_fmap in Hx as (r & -> & Hr). rewrite overlay_id in Hp. unfold overlay. rewrite Hp. by eapply elem_of_take_server. }
  set (b := negb (item_enabled x)). assert (forall j, pending_flag (SwitchReq x b :: wire s) j =
    if jeqb (item_id x) j then Some b else pending_flag (wire s) j) as Hc.
  { intros j. apply (pending_flag_mid [] (SwitchReq x b) (wire s) (item_id x) j); [done|]. apply Hw'. }
  split; [done|]. split; [done|]. split; [done|]. split.
  - unfold shown_rows in *. cbn [click console]. rewrite start_feed, edit_rows, Hs. fold b. unfold switch_rows, update_id. cbn [wire server].
    rewrite map_map. apply map_ext. intros r. rewrite overlay_id. unfold overlay at 3. rewrite Hc.
    destruct (jeqb (item_id r) (item_id x)) eqn:E.
    + apply jeqb_true in E. rewrite E, jeqb_refl. unfold overlay. by rewrite E, Hp.
    + destruct (jeqb (item_id x) (item_id r)) eqn:E'; [apply jeqb_true in E'; by rewrite E', jeqb_refl in E|done].
  - intros r c Hr. cbn [click wire]. fold b. rewrite Hc. destruct (jeqb (item_id x) (item_id r)) eqn:E; [|by apply Hf].
    apply jeqb_true in E. intros [= <-]. rewrite (map_id_inj (server s) r x) by done. unfold b. by rewrite negb_involutive.
Qed.

(** An overlay depends on the flags only. *)
Lemma overlay_ext w w' r : pending_flag w (item_id r) = pending_flag w' (item_id r) -> overlay w r = overlay w' r.
Proof. intros E. unfold overlay. by rewrite E. Qed.

Lemma jeqb_sym (i j : jsstring) : jeqb i j = jeqb j i.
Proof. unfold jeqb. by apply bool_decide_ext. Qed.

Lemma switch_flags c R w1 m w2 i : switching m = Some i -> wire_inv {| server := R; console := c; wire := w1 ++ m :: w2 |} ->
  (forall j, pending_flag (w1 ++ m :: w2) j = if jeqb i j then snd <$> unsettled m else pending_flag (w1 ++ w2) j) /\
  pending_flag (w1 ++ w2) i = None.
Proof.
  intros Hm (Hn & _). split; [intros j|]; by apply (pending_flag_mid w1 m w2 i i) || apply (pending_flag_mid w1 m w2 i j).
Qed.

Lemma serve_agree R c w1 x b v w2 :
  agree_inv {| server := R; console := c; wire := w1 ++ SwitchReq x b :: w2 |} ->
  agree_inv {| server := switch_rows (item_id x) b R; console := c; wire := w1 ++ SwitchAns x b (Ok v) :: w2 |}.
Proof.
  intros (Hw & Hd & Hl & Hs & Hf). pose proof (live_step_wire _ Serve _ I Hw (ServeSwitch R c w1 x b v w2)) as Hw'.
  destruct (switch_flags _ _ w1 (SwitchReq x b) w2 (item_id x) eq_refl Hw) as [F _]. destruct (switch_flags _ _ w1 (SwitchAns x b (Ok v)) w2 (item_id x) eq_refl Hw') as [F' _].
  cbn [server console wire unsettled fmap option_fmap option_map snd] in *. unfold agree_inv; cbn [server console wire]. split; [done|].
  split; [cbn [server]; unfold switch_rows; rewrite update_id_ids by apply with_enabled_id; done|].
  split; [rewrite list_numbers_mid in *; exact Hl|]. split.
  - unfold shown_rows in *. cbn [console server wire] in *. rewrite Hs, switch_rows_take. unfold switch_rows, update_id. rewrite map_map. apply map_ext. intros r.
    destruct (jeqb (item_id r) (item_id x)) eqn:E.
    + unfold overlay. rewrite with_enabled_id, F, F'. rewrite jeqb_sym, E. done.
    + apply overlay_ext. by rewrite F, F', jeqb_sym, E.
  - intros r c0 Hr. unfold switch_rows, update_id in Hr. apply list_elem_of_fmap in Hr as (r0 & -> & Hr).
    destruct (jeqb (item_id r0) (item_id x)) eqn:E.
    + rewrite with_enabled_id, F', jeqb_sym, E. done.
    + intros Hp. apply (Hf r0 c0 Hr). rewrite F, jeqb_sym, E. by rewrite F', jeqb_sym, E in Hp.
Qed.

Lemma refuse_agree R c w1 x b e w2 :
  agree_inv {| server := R; console := c; wire := w1 ++ SwitchReq x b :: w2 |} ->
  agree_inv {| server := R; console := c; wire := w1 ++ SwitchAns x b (Throw e) :: w2 |}.
Proof.
  intros (Hw & Hd & Hl & Hs & Hf). pose proof (live_step_wire _ Refuse _ I Hw (RefuseSwitch R c w1 x b e w2)) as Hw'.
  destruct (switch_flags _ _ w1 (SwitchReq x b) w2 (item_id x) eq_refl Hw) as [F _]. destruct (switch_flags _ _ w1 (SwitchAns x b (Throw e)) w2 (item_id x) eq_refl Hw') as [F' _].
  assert (forall j, pending_flag (w1 ++ SwitchReq x b :: w2) j = pending_flag (w1 ++ SwitchAns x b (Throw e) :: w2) j) as E
    by (intros j; by rewrite F, F').
  unfold agree_inv; cbn [server console wire unsettled fmap option_fmap option_map snd] in *. split; [done|]. split; [done|]. split; [cbn [wire] in *; rewrite list_numbers_mid in *; exact Hl|]. split.
  - unfold shown_rows in *. cbn [console server wire] in *. rewrite Hs. apply map_ext. intros r. by apply overlay_ext.
  - intros r c0 Hr Hp. apply (Hf r c0 Hr). cbn [wire] in *. by rewrite E.
Qed.

Lemma deliver_agree R c w1 x b r w2 :
  agree_inv {| server := R; console := c; wire := w1 ++ SwitchAns x b r :: w2 |} ->
  agree_inv {| server := R; console := switch_finish c x b r; wire := w1 ++ w2 |}.
Proof.
  intros (Hw & Hd & Hl & Hs & Hf). pose proof (live_step_wire _ Deliver _ I Hw (DeliverSwitch R c w1 x b r w2)) as Hw'.
  destruct (switch_flags _ _ w1 (SwitchAns x b r) w2 (item_id x) eq_refl Hw) as [F F0]. cbn [server console wire] in *.
  unfold agree_inv; cbn [server console wire unsettled fmap option_fmap option_map snd] in *. split; [done|]. split; [done|]. split; [cbn [wire]; rewrite list_numbers_mid in Hl; by rewrite list_numbers_app|].
  cbn [server wire]. split.
  - unfold shown_rows in *. cbn [console] in *. rewrite finish_feed. destruct r as [v|e].
    + rewrite Hs. apply map_ext. intros y. apply overlay_ext. rewrite F. destruct (jeqb _ _) eqn:E; [|done].
      apply jeqb_true in E. by rewrite <- E, F0.
    + rewrite edit_rows, Hs. unfold switch_rows, update_id. rewrite map_map. apply map_ext_in. intros y Hy. rewrite overlay_id.
      destruct (jeqb (item_id y) (item_id x)) eqn:E.
      * unfold overlay. rewrite F, jeqb_sym, E. apply jeqb_true in E. rewrite E, F0. cbn. rewrite with_enabled_twice.
        rewrite <- (Hf y b); [apply with_enabled_same|apply list_elem_of_In in Hy; by eapply elem_of_take_server|]. by rewrite F, E, jeqb_refl.
      * apply overlay_ext. by rewrite F, jeqb_sym, E.
  - intros y c0 Hy Hp. apply (Hf y c0 Hy). rewrite F. destruct (jeqb _ _) eqn:E; [|done].
    apply jeqb_true in E. by rewrite <- E, F0 in Hp.
Qed.

Lemma no_list_message w1 n w2 m : numbered m = Some n -> list_numbers (w1 ++ m :: w2) <> [].
Proof. intros Hm. rewrite list_numbers_mid, Hm. cbn. by destruct (list_numbers w1). Qed.

Lemma live_step_agree s e s' : about_switches e -> agree_inv s -> live_step s e s' -> agree_inv s'.
Proof.
  intros He Hi Hs. destruct Hs as [s spin|s x Hx Hm|s x again Hc Hx Ha|R c w1 n w2|R c w1 n m w2|R c w1 x b v w2|R c w1 x b er w2|R c w1 x b er w2|R c w1 n r w2|R c w1 x b r w2|s R];
    try done.
  - by apply click_agree.
  - subst again. cbn in He. case_bool_decide as Hm; [done|]. by apply click_agree.
  - destruct Hi as (_ & _ & Hl & _). by apply no_list_message with (n := n) in Hl.
  - destruct Hi as (_ & _ & Hl & _). by apply no_list_message with (n := n) in Hl.
  - by apply serve_agree.
  - by eapply refuse_agree.
  - destruct Hi as (_ & _ & Hl & _). by apply no_list_message with (n := n) in Hl.
  - by apply deliver_agree.
Qed.

(** ** Coming to rest *)

(** What is still to be done for a message: to be served, to be delivered. *)
Definition work_of (m : message) : nat := match m with ListReq _ | SwitchReq _ _ => 2 | _ => 1 end.
Fixpoint work (w : list message) : nat := match w with [] => 0 | m :: w' => work_of m + work w' end.

Definition moves (e : live_event) : Prop := match e with Serve | Refuse | Deliver | Lose => True | _ => False end.
Definition answers (e : live_event) : Prop := match e with Serve | Deliver => True | _ => False end.

Lemma work_app w1 w2 : work (w1 ++ w2) = work w1 + work w2.
Proof. induction w1 as [|m w1 IH]; cbn; [done|]. rewrite IH. lia. Qed.

Lemma move_works s e s' : moves e -> live_step s e s' -> work (wire s) = Datatypes.S (work (wire s')).
Proof. intros He Hs. destruct Hs; try done; cbn [wire]; rewrite !work_app; cbn; lia. Qed.

Lemma moves_bounded s es s' : Forall moves es -> star live_step s es s' -> length es + work (wire s') = work (wire s).
Proof.
  intros He Hs. induction Hs as [s|s e s1 es s2 Hstep _ IH]; [done|]. inversion_clear He as [|? ? He1 He2].
  rewrite (move_works _ _ _ He1 Hstep), <- (IH He2). cbn. lia.
Qed.

Lemma answers_moves es : Forall answers es -> Forall moves es.
Proof. intros He. eapply Forall_impl; [exact He|]. by intros [| | | | | | |]. Qed.

(** Everything on the wire can be served and delivered. *)
Lemma drains (s : live) : exists es s', star live_step s es s' /\ Forall answers es /\ wire s' = [].
Proof.
  remember (work (wire s)) as k eqn:Ek. revert s Ek. induction k as [k IH] using (well_founded_induction Nat.lt_wf_0). intros s Ek.
  destruct s as [R c w]. destruct w as [|m w]; [exists [], {| server := R; console := c; wire := [] |}; split; [constructor|done]|].
  assert (exists e s1, answers e /\ live_step {| server := R; console := c; wire := m :: w |} e s1) as (e & s1 & He & Hs).
  { destruct m as [n|n r|x b|x b r].
    - exists Serve. eexists. split; [done|apply (ServeList R c [] n w)].
    - exists Deliver. eexists. split; [done|apply (DeliverList R c [] n r w)].
    - exists Serve. eexists. split; [done|apply (ServeSwitch R c [] x b VNull w)].
    - exists Deliver. eexists. split; [done|apply (DeliverSwitch R c [] x b r w)]. }
  assert (moves e) as Hme by (by destruct e). pose proof (move_works _ _ _ Hme Hs) as Hw.
  destruct (IH (work (wire s1)) ltac:(lia) s1 eq_refl) as (es & s' & Hr & Hes & Hd).
  exists (e :: es), s'. split; [by eapply star_cons|]. split; [by constructor|done].
Qed.

(** After a poll without switches on the wire: the answers to it are the
    first rows of the control plane, and they are shown once one has come. *)
Definition caught (k : nat) (R : list A) (s : live) : Prop :=
  sequence (feed_of (console s)) = k /\ server s = R /\ switched_ids (wire s) = [] /\ marks_of (console s) ≡ ∅ /\
  (forall r, ListAns k r ∈ wire s -> r = Ok (take page_size R)) /\
  (k ∈ list_numbers (wire s) \/ (shown_rows s = take page_size R /\ loading (shown (feed_of (console s))) = false)).

Lemma no_switch_message w1 m w2 i : switching m = Some i -> switched_ids (w1 ++ m :: w2) <> [].
Proof. intros Hm. rewrite switched_ids_mid, Hm. cbn. by destruct (switched_ids w1). Qed.

Lemma settle_current R (p : page (A := A)) :
  items (shown (fetch_settle (sequence p) (Ok R) p)) = R /\ loading (shown (fetch_settle (sequence p) (Ok R) p)) = false.
Proof. cbn. rewrite Nat.eqb_refl. by rewrite on_finally_items, on_data_items, on_finally_loading. Qed.

Lemma settle_other n r (p : page (A := A)) : n <> sequence p -> shown (fetch_settle n r p) = shown p.
Proof. intros Hn. cbn. by rewrite (proj2 (Nat.eqb_neq _ _) Hn). Qed.

Lemma caught_step k R s e s' : answers e -> caught k R s -> live_step s e s' -> caught k R s'.
Proof.
  intros He (Hk & HR & Hw & Hm & Hr & Hd) Hs.
  destruct Hs as [s spin|s x Hx Hi|s x again Hc Hx Ha|R0 c w1 n w2|R0 c w1 n m w2|R0 c w1 x b v w2|R0 c w1 x b er w2|R0 c w1 x b er w2|R0 c w1 n r w2|R0 c w1 x b r w2|s R0];
    try done; cbn [server console wire] in *; subst R0; unfold caught; cbn [server console wire].
  - rewrite switched_ids_mid, list_numbers_mid in *. split_and!; try done. intros r [Hin|[Hin|Hin]%elem_of_cons]%elem_of_app.
    + apply Hr, elem_of_app. by left.
    + by injection Hin as <- ->.
    + apply Hr, elem_of_app. right. by right.
  - by apply no_switch_message with (i := item_id x) in Hw.
  - unfold shown_rows in *. cbn [console] in *. rewrite feed_with_feed, marks_with_feed, settle_sequence.
    rewrite switched_ids_app. rewrite switched_ids_mid in Hw. split_and!; try done.
    + intros r' Hin. apply Hr. rewrite elem_of_app, elem_of_cons. apply elem_of_app in Hin. tauto.
    + destruct (decide (n = k)) as [->|Hne].
      * right. rewrite (Hr r); [rewrite <- Hk; apply settle_current|]. apply elem_of_app. right. left.
      * rewrite settle_other by (by rewrite Hk). rewrite list_numbers_mid in Hd. rewrite list_numbers_app.
        destruct Hd as [Hd|Hd]; [left|by right]. cbn in Hd. rewrite elem_of_app, elem_of_cons in Hd. apply elem_of_app. naive_solver.
  - by apply no_switch_message with (i := item_id x) in Hw.
Qed.

Lemma caught_run k R s es s' : Forall answers es -> caught k R s -> star live_step s es s' -> caught k R s'.
Proof.
  intros He Hc Hs. induction Hs as [s|s e s1 es s2 Hstep _ IH]; [done|]. inversion_clear He as [|? ? He1 He2].
  apply (IH He2). by eapply caught_step.
Qed.

Lemma poll_caught s spin : wire_ok s -> switched_ids (wire s) = [] -> caught (Datatypes.S (sequence (feed_of (console s)))) (server s) (poll spin s).
Proof.
  intros (Hm & Hl) Hw. unfold caught, poll. cbn [server console wire]. rewrite feed_with_feed, marks_with_feed. split_and!; try done.
  - intros i. split; [|set_solver]. intros Hi. apply Hm in Hi. rewrite Hw in Hi. by apply elem_of_nil in Hi.
  - intros r [Hr|Hr]%elem_of_cons; [done|]. rewrite Forall_forall in Hl.
    assert (Datatypes.S (sequence (feed_of (console s))) ∈ list_numbers (wire s)) as Hin by (apply list_elem_of_omap; by exists (ListAns (Datatypes.S (sequence (feed_of (console s)))) r)).
    specialize (Hl _ Hin). lia.
  - left. cbn. left.
Qed.

(** ** Theorems *)

(** The page and the control plane agree and nothing is on its way. *)
Definition in_step (R : list A) (c : S) : live := {| server := R; console := c; wire := [] |}.

Lemma in_step_wire R c : marks_of c = ∅ -> wire_inv (in_step R c).
Proof.
  intros Hm. split; [constructor|]. split; [intros i Hi; by apply elem_of_nil in Hi|]. split; [|constructor].
  intros i. cbn. rewrite Hm. set_solver.
Qed.


(** C3: a poll brings the page up to date, whatever happened before: requests
    refused, answers lost, lists overtaken, a row clicked again on the canvas
    while its switch was under way, changes by others. If no switch is on
    the wire when the page polls, the answers still on their way can all be
    served and delivered, in as many steps as they need and in any order,
    and then the page shows the first 200 rows of the control plane, marks
    no row and is not loading. *)
Theorem page_catches_up (R : list A) (c : S) (past : list live_event) (s : live) (showSpin : bool) :
  marks_of c = ∅ -> star live_step (in_step R c) past s -> switched_ids (wire s) = [] ->
  (exists es s', star live_step (poll showSpin s) es s' /\ Forall answers es /\ wire s' = []) /\
  forall es s', star live_step (poll showSpin s) es s' -> Forall answers es ->
    length es + work (wire s') = work (wire s) + 2 /\
    (wire s' = [] -> server s' = server s /\ shown_rows s' = take page_size (server s) /\ marks_of (console s') ≡ ∅ /\
                     loading (shown (feed_of (console s'))) = false).
Proof.
  intros Hm Hp Hn. assert (wire_ok s) as Hw.
  { eapply (star_invariant live_step wire_ok); [|by apply in_step_wire|exact Hp]. intros ???. apply live_step_ok. }
  split; [apply drains|]. intros es s' Hs He. split.
  - rewrite (moves_bounded _ _ _ (answers_moves _ He) Hs). cbn. lia.
  - intros E. destruct (caught_run _ _ _ _ _ He (poll_caught s showSpin Hw Hn) Hs) as (_ & H2 & _ & H3 & _ & [H4|[H4 H5]]).
    + by rewrite E in H4; apply elem_of_nil in H4.
    + split_and!; done.
Qed.
End Live.
Arguments message : clear implicits.
Arguments live : clear implicits.

(** ** The pages *)

#[local] Existing Instance routes_feed.
#[local] Existing Instance route_toggleable.
#[local] Existing Instance certificates_feed.
#[local] Existing Instance cert_toggleable.

#[export] Instance routes_switch : @SwitchPage RoutesState RoutesApi.RouteItem routes_feed route_toggleable.
Proof.
  refine {| feed_of := RoutesPage.feed; marks_of := RoutesPage.togglingIds; has_canvas := true;
            with_feed p s := {| RoutesPage.feed := p; RoutesPage.togglingIds := RoutesPage.togglingIds s; savingRouteIds := savingRouteIds s |};
            switch_start s x b := (toggle_start s x b).1; switch_finish := toggle_finish |}; done.
Defined.

#[export] Instance certificates_switch : @SwitchPage CertificatesState CertificatesApi.CertificateItem certificates_feed cert_toggleable.
Proof.
  refine {| feed_of := CertificatesPage.feed; marks_of := CertificatesPage.togglingIds; has_canvas := false;
            with_feed p s := {| CertificatesPage.feed := p; CertificatesPage.togglingIds := CertificatesPage.togglingIds s |};
            switch_start s x b := (cert_toggle_start s x b).1; switch_finish := cert_toggle_finish |}; done.
Defined.

(** ** Instances *)

Definition first_route : RoutesApi.RouteItem := sample_route "1" "b.example" "/" 5 true.

Lemma first_route_click : live_step (in_step sample_routes sample_state) (Click first_route) (click first_route (in_step sample_routes sample_state)).
Proof. apply DoClick; [left|]. cbn. set_solver. Qed.

Lemma one_switch_run : exists s, star live_step (in_step sample_routes sample_state) [Click first_route; Serve; Deliver] s /\ wire s = [].
Proof.
  eexists. split; [eapply star_cons; [apply first_route_click|]; eapply star_cons; [apply (ServeSwitch _ _ [] first_route false VNull [])|];
    eapply star_cons; [apply (DeliverSwitch _ _ [] first_route false (Ok VNull) [])|apply star_nil]|done].
Qed.

Lemma sample_ids : NoDup (map (fun r => RoutesApi.id r) sample_routes).
Proof. apply (bool_decide_unpack _). vm_compute. exact I. Qed.


Lemma page_catches_up_witness :
  exists es s', star live_step (poll false (in_step sample_routes sample_state)) es s' /\ Forall answers es /\ wire s' = [].
Proof.
  refine (proj1 (page_catches_up sample_routes sample_state [] (in_step sample_routes sample_state) false eq_refl _ eq_refl)).
  constructor.
Defined.

(** ** What the composition does not promise *)

Lemma first_route_switched : switch_rows (A := RoutesApi.RouteItem) (RoutesApi.id first_route) false sample_routes <> sample_routes.
Proof. vm_compute. discriminate. Qed.

(** A list that was read before a switch and arrives after it shows the row
    as it was, without a mark, until the next poll: the switch is not
    numbered with the lists. *)
Lemma stale_list_reverts_switch : exists s,
  star live_step (in_step sample_routes sample_state) [Poll false; Serve; Click first_route; Serve; Deliver; Deliver] s /\
  wire s = [] /\ marks_of (console s) = ∅ /\ shown_rows s = sample_routes /\ shown_rows s <> server s.
Proof.
  eexists. split; [|split; [|split; [|split]]].
  - eapply star_cons; [apply DoPoll|]. eapply star_cons; [apply (ServeList _ _ [] 2 [])|].
    eapply star_cons; [apply DoClick with (x := first_route); [left|cbn; set_solver]|].
    eapply star_cons; [apply (ServeSwitch _ _ [] first_route false VNull [ListAns 2 (Ok sample_routes)])|].
    eapply star_cons; [apply (DeliverSwitch _ _ [] first_route false (Ok VNull) [ListAns 2 (Ok sample_routes)])|].
    eapply star_cons; [apply (DeliverList _ _ [] 2 (Ok sample_routes) [])|apply star_nil].
  - done.
  - cbn. unfold unmark, mark. set_solver.
  - done.
  - intros E. by apply first_route_switched.
Qed.

Section Overlaps.
Import RoutesApi.

Lemma switched_rows_flag (i : jsstring) (b : bool) (l : list RouteItem) x : x ∈ switch_rows i b l -> id x = i -> enabled x = b.
Proof. intros Hx <-. pose proof (switch_rows_frame _ _ _ _ Hx) as Hf. cbn in Hf. by rewrite jeqb_refl in Hf. Qed.

(** The canvas does not disable the switch of a route while it is being
    switched: when both of two clicks are refused, the route is shown with
    the opposite of the state it has kept. The second lemma is such a run. *)
Lemma overlapping_refusals_disagree (s : RoutesState) (r : RouteItem) (e e' : ApiError) :
  let s2 := (toggle_start (toggle_start s r (negb (enabled r))).1 r (enabled r)).1 in
  forall x, x ∈ items (shown (RoutesPage.feed (toggle_finish (toggle_finish s2 r (negb (enabled r)) (Throw e)) r (enabled r) (Throw e')))) ->
    id x = id r -> enabled x = negb (enabled r).
Proof. intros s2 x Hx Hi. cbn in Hx. by eapply switched_rows_flag. Qed.

Definition sample_refusal : ApiError :=
  {| err_status := 409; err_statusText := js "Conflict"; err_data := VNull; err_message := js "route is locked" |}.

Lemma canvas_refusals_disagree : exists s,
  star live_step (in_step sample_routes sample_state)
    [CanvasClick first_route false; CanvasClick (RoutesPage.set_enabled false first_route) true; Refuse; Refuse; Deliver; Deliver] s /\
  wire s = [] /\ server s = sample_routes /\ shown_rows s <> take page_size (server s).
Proof.
  eexists. split; [|split; [|split]].
  - eapply star_cons; [apply DoCanvas; [done|left|symmetry; apply bool_decide_eq_false; cbn; set_solver]|].
    eapply star_cons; [apply DoCanvas; [done|left|symmetry; apply bool_decide_eq_true; cbn; unfold mark; set_solver]|].
    eapply star_cons; [apply (RefuseSwitch _ _ [] _ true sample_refusal [SwitchReq first_route false])|].
    eapply star_cons; [apply (RefuseSwitch _ _ [SwitchAns _ true (Throw sample_refusal)] first_route false sample_refusal [])|].
    eapply star_cons; [apply (DeliverSwitch _ _ [SwitchAns _ true (Throw sample_refusal)] first_route false (Throw sample_refusal) [])|].
    eapply star_cons; [apply (DeliverSwitch _ _ [] _ true (Throw sample_refusal) [])|apply star_nil].
  - done.
  - done.
  - vm_compute. discriminate.
Qed.

(** An assignment made on the canvas while a switch is on its way sends the
    switched flag along: when the switch is refused the page shows the old
    flag, and the update still writes the new one. *)
Lemma update_carries_refused_switch (s : RoutesState) (r : RouteItem) (next : jsstring) (e : ApiError) :
  let b := negb (enabled r) in
  let s1 := (toggle_start s r b).1 in
  let '(s2, c) := plugins_start s1 (RoutesPage.set_enabled b r) next in
  (r ∈ items (shown (RoutesPage.feed s)) -> RoutesPage.set_enabled b r ∈ items (shown (RoutesPage.feed s1))) /\
  p_enabled (plugins_payload (RoutesPage.set_enabled b r) next) = Some b /\
  c = routes_update (id r) (plugins_payload (RoutesPage.set_enabled b r) next) /\
  forall x, x ∈ items (shown (RoutesPage.feed (toggle_finish s2 r b (Throw e)))) -> id x = id r -> enabled x = enabled r.
Proof.
  cbn. split_and!; try done.
  - intros Hr. apply list_elem_of_fmap. exists r. split; [|done]. cbn. by rewrite jeqb_refl.
  - intros x Hx Hi. rewrite <- (negb_involutive (enabled r)). by eapply switched_rows_flag.
Qed.
End Overlaps.
