(* ===== verification/ListParts.v ===== *)
(** * The parts the list pages share

    The routes, certificates and L4 pages are built alike: a row of cards
    that count the list and filter it ([RouteStats.tsx],
    [CertificateStats.tsx], [L4Stats.tsx]) and a dialog that confirms a
    deletion ([DeleteRouteDialog.tsx], [DeleteCertificateDialog.tsx],
    [DeleteL4ServiceDialog.tsx]). Each part is a class that the pages
    instantiate, with its theorem proved once; the upstreams page, which
    writes its own dialog, is beside them. *)

From Stdlib Require Import ZArith NArith Lia String.
From stdpp Require Import gmap.
From S2P Require Import Prelude JsString JsValue Fetcher Api Polling Optimistic.
From S2P Require Import RoutesPage CertificatesPage L4Page UpstreamForms UpstreamsPage.
Local Open Scope string_scope.
Local Open Scope list_scope.

(** ** The cards *)

Module StatCards.
Record stat_card := {
  card_id : jsstring;
  card_label : jsstring;
  card_value : nat;
  card_sub : option jsstring;
  filterKey : option jsstring
}.

(** [selectedFilter === card.filterKey] *)
Definition isSelected (selectedFilter : option jsstring) (c : stat_card) : bool :=
  bool_decide (selectedFilter = filterKey c).

(** What [onSelectFilter] is given. *)
Definition choose (selectedFilter : option jsstring) (c : stat_card) : option jsstring :=
  if isSelected selectedFilter c then None else filterKey c.

Inductive card_event := ClickCard (i : nat) | KeyCard (i : nat) (key : jsstring).

Definition handleKeyDown (key : jsstring) (selectedFilter : option jsstring) (c : stat_card) : option jsstring :=
  if jeqb key (js "Enter") || jeqb key (js " ") then choose selectedFilter c else selectedFilter.

(** What the cards need of a page: the cards of a list, the selection as a
    part of its filters, and the rows it shows. *)
Class StatPage (A F : Type) := {
  statCards : list A -> list stat_card;
  noFilters : F;
  selectedFilter : F -> option jsstring;
  setStatFilter : option jsstring -> F -> F;
  rows : F -> list A -> list A;
  selected_none : selectedFilter noFilters = None;
  selected_set k f : selectedFilter (setStatFilter k f) = k;
  set_set k k' f : setStatFilter k (setStatFilter k' f) = setStatFilter k f;
  set_selected f : setStatFilter (selectedFilter f) f = f;
  keys_fixed l l' : map filterKey (statCards l) = map filterKey (statCards l');
  keys_distinct l : NoDup (map filterKey (statCards l));
  keys_total l : None ∈ map filterKey (statCards l);
  card_counts l c : c ∈ statCards l -> length (rows (setStatFilter (filterKey c) noFilters) l) = card_value c
}.

Section Cards.
Context {A F : Type} `{StatPage A F}.

Definition on_card (i : nat) (l : list A) (f : F) (g : option jsstring -> stat_card -> option jsstring) : F :=
  match nth_error (statCards l) i with
  | Some c => setStatFilter (g (selectedFilter f) c) f
  | None => f
  end.

Definition card_step (l : list A) (f : F) (e : card_event) : F :=
  match e with
  | ClickCard i => on_card i l f choose
  | KeyCard i key => on_card i l f (handleKeyDown key)
  end.

(** The list may be another at each event: it is polled. *)
Definition card_run (es : list (list A * card_event)) (f : F) : F :=
  fold_left (fun f le => card_step le.1 f le.2) es f.

Definition ringed (f : F) (l : list A) : list stat_card := List.filter (isSelected (selectedFilter f)) (statCards l).

(** The filters reached by the cards alone. *)
Definition card_reached (f : F) : Prop :=
  exists k, f = setStatFilter k noFilters /\ forall l, k ∈ map filterKey (statCards l).

Lemma choose_key (k : option jsstring) (c : stat_card) : choose k c = None \/ choose k c = filterKey c.
Proof. unfold choose. destruct (isSelected k c); auto. Qed.

Lemma reached_start : card_reached noFilters.
Proof. exists None. split; [by rewrite <- selected_none, set_selected|apply keys_total]. Qed.

Lemma key_of_card l l' i c : nth_error (statCards l) i = Some c -> filterKey c ∈ map filterKey (statCards l').
Proof.
  intros Hi. rewrite (keys_fixed l' l). apply list_elem_of_In, in_map, (nth_error_In _ _ Hi).
Qed.

Lemma reached_step l f e : card_reached f -> card_reached (card_step l f e).
Proof.
  intros (k & -> & Hk).
  assert (forall i g, (forall j c, g j c = None \/ g j c = filterKey c \/ g j c = j) ->
            card_reached (on_card i l (setStatFilter k noFilters) g)) as Hon.
  { intros i g Hg. unfold on_card. destruct (nth_error _ i) as [c|] eqn:Ei; [|by exists k].
    rewrite selected_set, set_set. exists (g k c). split; [done|]. intros l'.
    destruct (Hg k c) as [->|[->| ->]]; [apply keys_total|by eapply key_of_card|done]. }
  destruct e as [i|i key]; apply Hon; intros j c; unfold handleKeyDown;
    [|destruct (_ || _); [|auto]]; destruct (choose_key j c); auto.
Qed.

Lemma filter_one (k : option jsstring) (cs : list stat_card) :
  NoDup (map filterKey cs) -> k ∈ map filterKey cs ->
  exists c, List.filter (isSelected k) cs = [c] /\ c ∈ cs /\ filterKey c = k.
Proof.
  induction cs as [|c cs IH]; simpl; [by rewrite elem_of_nil|].
  intros [Hn Hd]%NoDup_cons Hk. unfold isSelected at 1. case_bool_decide as E.
  - exists c. subst k. split; [|split; [constructor|done]]. f_equal.
    assert (forall ds, filterKey c ∉ map filterKey ds -> List.filter (isSelected (filterKey c)) ds = []) as Hnone.
    { induction ds as [|d ds IHd]; simpl; [done|]. intros [Hne Hds]%not_elem_of_cons.
      unfold isSelected at 1. rewrite bool_decide_eq_false_2 by done. auto. }
    by apply Hnone.
  - apply elem_of_cons in Hk as [Hk|Hk]; [done|]. destruct (IH Hd Hk) as (d & Hf & Hin & Hkey).
    exists d. split; [done|]. split; [by constructor|done].
Qed.

Lemma reached_run es f : card_reached f -> card_reached (card_run es f).
Proof. revert f. induction es as [|[l e] es IH]; simpl; intros f Hf; [done|]. apply IH. by apply reached_step. Qed.

(** One card is ringed, and its number is the number of rows. *)
Definition cards_agree : Prop := forall (es : list (list A * card_event)) (l : list A),
  exists c, ringed (card_run es noFilters) l = [c] /\ length (rows (card_run es noFilters) l) = card_value c.

Lemma page_cards_agree : cards_agree.
Proof.
  intros es l. destruct (reached_run es _ reached_start) as (k & -> & Hk).
  destruct (filter_one k _ (keys_distinct l) (Hk l)) as (c & Hf & Hin & Hkey).
  exists c. unfold ringed. rewrite selected_set. split; [done|]. rewrite <- Hkey. by apply card_counts.
Qed.
End Cards.
Arguments cards_agree A F {_}.

(** *** The cards of the three pages *)

Definition card (id label : string) (value : nat) (sub : option jsstring) (key : option jsstring) : stat_card :=
  {| card_id := js id; card_label := js label; card_value := value; card_sub := sub; filterKey := key |}.

Definition RouteStats (routes : list RoutesApi.RouteItem) : list stat_card :=
  let s := route_stats routes in
  [card "total" "Total Routes" (RoutesPage.total s) None None;
   card "active" "Active Serving" (RoutesPage.active s) None (Some (js "active"));
   card "websocket" "WebSocket Upgraded" (wsCount s) None (Some (js "websocket"));
   card "strip_path" "Path Stripping" (stripCount s) None (Some (js "strip_path"))].

Definition CertificateStats (certificates : list CertificatesApi.CertificateItem) : list stat_card :=
  let s := certificate_stats certificates in
  [card "total" "Total Certificates" (CertificatesPage.total s) None None;
   card "active" "Active & Bound" (CertificatesPage.active s) None (Some (js "active"));
   card "wildcard" "Wildcard SNIs" (wildcardCount s) None (Some (js "wildcard"));
   card "mtls" "mTLS Enabled" (mtlsCount s) None (Some (js "mtls"))].

Definition L4Stats `{CaseMapping} (services : list L4Api.L4ServiceItem) : list stat_card :=
  let s := service_stats services in
  [card "total" "Total L4 Services" (L4Page.total s) (Some (js "Active stream listeners")) None;
   card "tcp" "TCP Listeners" (tcpCount s) (Some (js "Databases, Redis, SSH")) (Some (js "tcp"));
   card "udp" "UDP Listeners" (udpCount s) (Some (js "DNS, VoIP, Syslog")) (Some (js "udp"));
   card "acl" "ACL Protected" (aclCount s) (Some (js "Allow / Deny CIDR active")) (Some (js "acl"))].

Definition set_route_stat (k : option jsstring) (f : filters) : filters :=
  {| RoutesPage.searchQuery := RoutesPage.searchQuery f; hostFilter := hostFilter f;
     upstreamFilter := upstreamFilter f; RoutesPage.statFilter := k |}.
Definition set_cert_stat (k : option jsstring) (f : cert_filters) : cert_filters :=
  {| CertificatesPage.searchQuery := CertificatesPage.searchQuery f; CertificatesPage.statFilter := k |}.
Definition set_l4_stat (k : option jsstring) (f : l4_filters) : l4_filters :=
  {| L4Page.searchQuery := L4Page.searchQuery f; protoFilter := protoFilter f; L4Page.statFilter := k |}.

Ltac distinct_keys := apply (bool_decide_unpack _); vm_compute; exact I.
Ltac each_card Hc :=
  unfold RouteStats, CertificateStats, L4Stats in Hc; rewrite !elem_of_cons in Hc; destruct Hc as [->|[->|[->|[->|Hc%elem_of_nil]]]]; [..|done].

Section Pages.
Context `{CaseMapping} `{Collation}.

#[export] Instance route_cards : StatPage RoutesApi.RouteItem filters.
Proof.
  refine {| statCards := RouteStats;
            noFilters := {| RoutesPage.searchQuery := []; hostFilter := js "ALL"; upstreamFilter := js "ALL";
                            RoutesPage.statFilter := None |};
            selectedFilter := RoutesPage.statFilter; setStatFilter := set_route_stat; rows := filteredRoutes |};
    try done; [by intros []|intros l; distinct_keys|by intros; constructor|].
  intros l c Hc. destruct (stats_match_filters l) as (H1' & H2' & H3' & H4'). each_card Hc; assumption.
Defined.

#[export] Instance certificate_cards : StatPage CertificatesApi.CertificateItem cert_filters.
Proof.
  refine {| statCards := CertificateStats;
            noFilters := {| CertificatesPage.searchQuery := []; CertificatesPage.statFilter := None |};
            selectedFilter := CertificatesPage.statFilter; setStatFilter := set_cert_stat;
            rows := filteredCertificates |};
    try done; [by intros []|intros l; distinct_keys|by intros; constructor|].
  intros l c Hc. destruct (cert_stats_match_filters l) as (H1' & H2' & H3' & H4'). each_card Hc; assumption.
Defined.

#[export] Instance l4_cards : StatPage L4Api.L4ServiceItem l4_filters.
Proof.
  refine {| statCards := L4Stats;
            noFilters := {| L4Page.searchQuery := []; protoFilter := AllProtocols; L4Page.statFilter := None |};
            selectedFilter := L4Page.statFilter; setStatFilter := set_l4_stat; rows := filteredServices |};
    try done; [by intros []|intros l; distinct_keys|by intros; constructor|].
  intros l c Hc.
  destruct (l4_stats_match_filters l (handleClearFilters {| L4Page.searchQuery := []; protoFilter := AllProtocols; L4Page.statFilter := None |}))
    as (_ & H1' & H2' & H3' & H4').
  each_card Hc; assumption.
Defined.

(** The cards above the lists of routes, certificates and L4 services
    tell what is shown: from a page without filters, whatever cards are
    clicked or chosen with the keyboard, in whatever order and while the
    list is polled, exactly one card is ringed, and as many rows are shown
    as that card says. *)
Theorem stat_cards_agree :
  cards_agree RoutesApi.RouteItem filters /\
  cards_agree CertificatesApi.CertificateItem cert_filters /\
  cards_agree L4Api.L4ServiceItem l4_filters.
Proof. split_and!; apply page_cards_agree. Qed.
End Pages.
End StatCards.

(** ** The dialogs that confirm a deletion *)

Module DeleteDialogs.
Definition deleting_text : jsstring := js "Deleting...".

(** What an open dialog shows: its title, the texts that name the item, the
    message of the last failure, whether its buttons are disabled and the
    label of the one that deletes. *)
Record dialog_view := {
  v_title : jsstring;
  v_subject : list jsstring;
  v_error : option jsstring;
  v_disabled : bool;
  v_confirm : jsstring
}.

(** A page with such a dialog: [start_delete] is the handler up to its
    [await], [settle_delete] continues it for the item it was started with,
    and [reloaded] is what follows when the page awaits the list too. *)
Class DeletePage (S A : Type) := {
  target : S -> option A;
  set_target : option A -> S -> S;
  busy : S -> bool;
  last_error : S -> option jsstring;
  title : jsstring;
  confirm_label : jsstring;
  subject : A -> list jsstring;
  delete_call : A -> call;
  awaits_list : bool;
  start_delete : A -> S -> S * option call;
  settle_delete : A -> result ApiError val -> S -> S;
  reloaded : S -> S
}.

Class DeletePageLaws (S A : Type) `{DeletePage S A} := {
  target_set o s : target (set_target o s) = o;
  busy_set o s : busy (set_target o s) = busy s;
  start_call x s : target s = Some x -> (start_delete x s).2 = Some (delete_call x);
  start_target x s : target (start_delete x s).1 = target s;
  start_busy x s : target s = Some x -> busy (start_delete x s).1 = true;
  settle_ok x v s : target (settle_delete x (Ok v) s) = None;
  settle_throw x e s : target (settle_delete x (Throw e) s) = target s;
  settle_busy x r s : busy s = true ->
    busy (settle_delete x r s) = match r with Ok _ => awaits_list | Throw _ => false end;
  reloaded_target s : target (reloaded s) = target s;
  reloaded_busy s : awaits_list = true -> busy (reloaded s) = false
}.

Inductive dialog_event {A : Type} := Open (x : A) | Cancel | Confirm | Answer (r : result ApiError val) | Reloaded.
Arguments dialog_event : clear implicits.

Section Machine.
Context {S A : Type} `{DeletePage S A}.

(** [flight] is the item of the request under way and [listing] tells that
    the list is awaited after it; both are continuations of the handler. *)
Record machine := { at_page : S; flight : option A; listing : bool; sent : list call }.

Definition set_page (f : S -> S) (m : machine) : machine :=
  {| at_page := f (at_page m); flight := flight m; listing := listing m; sent := sent m |}.

(** An open dialog covers the page, and its buttons are disabled while it
    is busy. *)
Definition dialog_step (m : machine) (e : dialog_event A) : machine :=
  match e, target (at_page m) with
  | Open x, None => set_page (set_target (Some x)) m
  | Open _, Some _ => m
  | Cancel, Some _ => if busy (at_page m) then m else set_page (set_target None) m
  | Cancel, None => m
  | Confirm, Some x =>
      if busy (at_page m) then m else
      match start_delete x (at_page m) with
      | (s', Some c) => {| at_page := s'; flight := Some x; listing := listing m; sent := sent m ++ [c] |}
      | (s', None) => set_page (fun _ => s') m
      end
  | Confirm, None => m
  | Answer r, _ =>
      match flight m with
      | Some x => {| at_page := settle_delete x r (at_page m); flight := None;
                     listing := match r with Ok _ => awaits_list | Throw _ => false end; sent := sent m |}
      | None => m
      end
  | Reloaded, _ =>
      if listing m then {| at_page := reloaded (at_page m); flight := flight m; listing := false; sent := sent m |} else m
  end.

Definition dialog_run (m : machine) (es : list (dialog_event A)) : machine := fold_left dialog_step es m.

Definition view_of (s : S) : option dialog_view :=
  match target s with
  | None => None
  | Some x => Some {| v_title := title; v_subject := subject x; v_error := last_error s; v_disabled := busy s;
                      v_confirm := if busy s then deleting_text else confirm_label |}
  end.
End Machine.
Arguments machine : clear implicits.

(** *** The contract *)

(** What a user may rely on: one question at a time, the item asked about is
    the item deleted, and nothing changes the question while its answer is
    awaited. *)
Inductive phase {A : Type} := Idle | Asking (x : A) | Deleting (x : A).
Arguments phase : clear implicits.

Section Contract.
Context {A : Type} (call_of : A -> call) (waits : bool).

Record contract := { at_phase : phase A; settling : bool; requested : list call }.

Definition move_to (p : phase A) (c : contract) : contract :=
  {| at_phase := p; settling := settling c; requested := requested c |}.

Definition contract_step (c : contract) (e : dialog_event A) : contract :=
  match at_phase c, e with
  | Idle, Open x => move_to (Asking x) c
  | Asking x, Cancel => if settling c then c else move_to Idle c
  | Asking x, Confirm =>
      if settling c then c else
      {| at_phase := Deleting x; settling := false; requested := requested c ++ [call_of x] |}
  | Deleting x, Answer (Ok _) => {| at_phase := Idle; settling := waits; requested := requested c |}
  | Deleting x, Answer (Throw _) => move_to (Asking x) c
  | Idle, Reloaded | Asking _, Reloaded => {| at_phase := at_phase c; settling := false; requested := requested c |}
  | _, _ => c
  end.

Definition contract_run (es : list (dialog_event A)) : contract :=
  fold_left contract_step es {| at_phase := Idle; settling := false; requested := [] |}.

Definition item_of (c : contract) : option A := match at_phase c with Idle => None | Asking x | Deleting x => Some x end.
Definition locked (c : contract) : bool := settling c || match at_phase c with Deleting _ => true | _ => false end.
End Contract.

(** *** The dialogs keep the contract *)

Section Refinement.
Context {S A : Type} `{DeletePageLaws S A}.

Definition initially (s : S) : machine S A := {| at_page := s; flight := None; listing := false; sent := [] |}.

Record simulates (m : machine S A) (c : contract) : Prop := {
  sim_target : target (at_page m) = item_of c;
  sim_flight : flight m = match at_phase c with Deleting x => Some x | _ => None end;
  sim_listing : listing m = settling c;
  sim_busy : busy (at_page m) = locked c;
  sim_sent : sent m = requested c;
  sim_settled : match at_phase c with Deleting _ => settling c = false | _ => True end;
  sim_awaits : settling c = true -> awaits_list = true
}.

Definition obeys : Prop := forall (s : S) (es : list (dialog_event A)),
  target s = None -> busy s = false ->
  let m := dialog_run (initially s) es in
  let c := contract_run delete_call awaits_list es in
  target (at_page m) = item_of c /\ busy (at_page m) = locked c /\ sent m = requested c.

Lemma simulates_step m c e : simulates m c -> simulates (dialog_step m e) (contract_step delete_call awaits_list c e).
Proof.
  destruct m as [s fl li sn], c as [p st rq]. intros [Ht Hf Hl Hb Hs Hq Hw]. cbn in *. subst fl li sn.
  unfold dialog_step, contract_step, item_of, locked in *. cbn in *.
  destruct e as [x| | |r|], p as [|y|y]; cbn in *; rewrite ?Ht, ?Hb; cbn; try (by constructor; cbn).
  - constructor; cbn; rewrite ?target_set, ?busy_set; auto.
  - destruct st; cbn; [by constructor|]. constructor; cbn; rewrite ?target_set, ?busy_set; auto.
  - rewrite orb_true_r. by constructor.
  - destruct st; cbn; [by constructor|].
    pose proof (start_call _ _ Ht) as Hc. pose proof (start_target y s) as Hst. pose proof (start_busy _ _ Ht) as Hsb.
    destruct (start_delete y s) as [s' o]. cbn in *. subst o.
    constructor; cbn; [by rewrite Hst|done..].
  - rewrite orb_true_r. by constructor.
  - subst st. cbn in Hb. destruct r as [v|er]; constructor; unfold locked; cbn;
      rewrite ?settle_ok, ?settle_throw, ?settle_busy, ?orb_false_r; auto.
  - destruct st; cbn; constructor; cbn; rewrite ?reloaded_target, ?reloaded_busy; auto.
  - destruct st; cbn; constructor; cbn; rewrite ?reloaded_target, ?reloaded_busy; auto.
  - subst st. by constructor.
Qed.

Lemma dialog_obeys : obeys.
Proof.
  intros s es Ht Hb m c.
  assert (simulates m c) as [Hs1 _ _ Hs2 Hs3 _ _]; [|done].
  unfold m, c, dialog_run, contract_run.
  assert (forall m0 c0, simulates m0 c0 ->
            simulates (fold_left dialog_step es m0) (fold_left (contract_step delete_call awaits_list) es c0)) as Hrun.
  { induction es as [|e es IH]; simpl; intros m0 c0 Hm; [done|]. apply IH. by apply simulates_step. }
  apply Hrun. by constructor.
Qed.
End Refinement.
Arguments obeys S A {_}.

(** *** The routes page *)

#[local] Existing Instance routes_feed.
#[local] Existing Instance certificates_feed.

Record RoutesDeletion := { routes_state : RoutesState; deletingRoute : option RoutesApi.RouteItem; route_dialog : dialog }.

Definition fetchRoutes (s : RoutesState) : RoutesState :=
  {| RoutesPage.feed := fetch_start false (RoutesPage.feed s); RoutesPage.togglingIds := RoutesPage.togglingIds s;
     savingRouteIds := savingRouteIds s |}.

#[export] Instance route_deletion : DeletePage RoutesDeletion RoutesApi.RouteItem := {|
  target := deletingRoute;
  set_target o s := {| routes_state := routes_state s; deletingRoute := o; route_dialog := route_dialog s |};
  busy s := dlg_submitting (route_dialog s);
  last_error s := dlg_error (route_dialog s);
  title := js "Delete Route";
  confirm_label := js "Delete Route";
  subject r := [RoutesApi.name r; RoutesApi.path r; RoutesApi.host r; RoutesApi.upstream_name r];
  delete_call r := RoutesApi.routes_delete (RoutesApi.id r);
  awaits_list := false;
  start_delete r s :=
    let '(d, c) := RoutesPage.delete_start (route_dialog s) r in
    ({| routes_state := routes_state s; deletingRoute := deletingRoute s; route_dialog := d |}, Some c);
  settle_delete r res s :=
    match RoutesPage.delete_finish (route_dialog s) res with
    | (d, true) => {| routes_state := fetchRoutes (routes_state s); deletingRoute := None; route_dialog := d |}
    | (d, false) => {| routes_state := routes_state s; deletingRoute := deletingRoute s; route_dialog := d |}
    end;
  reloaded s := s
|}.

(** *** The certificates page *)

Record CertificatesDeletion := {
  certificates_state : CertificatesState;
  deletingCert : option CertificatesApi.CertificateItem;
  certificate_dialog : cert_dialog
}.

Definition fetchCertificates (s : CertificatesState) : CertificatesState :=
  {| CertificatesPage.feed := fetch_start false (CertificatesPage.feed s);
     CertificatesPage.togglingIds := CertificatesPage.togglingIds s |}.

#[export] Instance certificate_deletion : DeletePage CertificatesDeletion CertificatesApi.CertificateItem := {|
  target := deletingCert;
  set_target o s :=
    {| certificates_state := certificates_state s; deletingCert := o; certificate_dialog := certificate_dialog s |};
  busy s := d_submitting (certificate_dialog s);
  last_error s := d_error (certificate_dialog s);
  title := js "Delete SSL Certificate";
  confirm_label := js "Delete Certificate";
  subject c := [CertificatesApi.name c; CertificatesApi.id c];
  delete_call c := CertificatesApi.certificates_delete (CertificatesApi.id c);
  awaits_list := false;
  start_delete c s :=
    let '(d, k) := cert_delete_start (certificate_dialog s) c in
    ({| certificates_state := certificates_state s; deletingCert := deletingCert s; certificate_dialog := d |}, Some k);
  settle_delete c res s :=
    match cert_delete_finish (certificate_dialog s) res with
    | (d, true) => {| certificates_state := fetchCertificates (certificates_state s); deletingCert := None;
                      certificate_dialog := d |}
    | (d, false) => {| certificates_state := certificates_state s; deletingCert := deletingCert s;
                       certificate_dialog := d |}
    end;
  reloaded s := s
|}.

(** *** The L4 page *)

(** The page shows failures with [alert], so that its dialog has none, and
    awaits the list before its buttons are enabled again. *)
#[export] Instance l4_deletion : DeletePage L4State L4Api.L4ServiceItem := {|
  target := deletingService;
  set_target o s :=
    {| L4Page.feed := L4Page.feed s; L4Page.availableUpstreams := L4Page.availableUpstreams s;
       deletingService := o; isDeleting := isDeleting s; alerts := alerts s |};
  busy := isDeleting;
  last_error s := None;
  title := js "Delete L4 Service";
  confirm_label := js "Delete Service";
  subject x := [L4Api.name x];
  delete_call x := L4Api.l4_deleteService (L4Api.id x);
  awaits_list := true;
  start_delete x s := handleConfirmDelete s;
  settle_delete x r s := delete_settled s r;
  reloaded := delete_reloaded
|}.

#[export] Instance route_deletion_laws : DeletePageLaws RoutesDeletion RoutesApi.RouteItem.
Proof. constructor; try done. by intros ? [] ?. Qed.

#[export] Instance certificate_deletion_laws : DeletePageLaws CertificatesDeletion CertificatesApi.CertificateItem.
Proof. constructor; try done. by intros ? [] ?. Qed.

#[export] Instance l4_deletion_laws : DeletePageLaws L4State L4Api.L4ServiceItem.
Proof.
  constructor; try done.
  - intros x s Hx. cbn in *. unfold handleConfirmDelete. by rewrite Hx.
  - intros x s. cbn. unfold handleConfirmDelete. by destruct (deletingService s) eqn:E.
  - intros x s Hx. cbn in *. unfold handleConfirmDelete. by rewrite Hx.
  - by intros x [] s.
Qed.

(** C4: the dialogs that confirm a deletion keep one contract on the
    routes, certificates and L4 pages: whatever is clicked and however the
    requests end, the dialog shows the item asked about, a request names the
    item shown when it was confirmed, its buttons are disabled exactly while
    an answer (or, on the L4 page, the list after it) is awaited, and only
    a success or a cancel closes it. *)
Theorem dialogs_keep_contract :
  obeys RoutesDeletion RoutesApi.RouteItem /\
  obeys CertificatesDeletion CertificatesApi.CertificateItem /\
  obeys L4State L4Api.L4ServiceItem.
Proof. split_and!; apply dialog_obeys. Qed.

Definition asked_route : RoutesApi.RouteItem :=
  {| RoutesApi.id := js "r1"; RoutesApi.name := js "orders"; RoutesApi.host := js "*"; RoutesApi.path := js "/";
     RoutesApi.upstream_name := js "pool"; RoutesApi.enabled := true; RoutesApi.strip_path := false;
     RoutesApi.websocket := false; RoutesApi.priority := 0; RoutesApi.plugins_json := js "{}";
     RoutesApi.description := []; RoutesApi.created_at := []; RoutesApi.updated_at := [] |}.

Definition routes_idle : RoutesDeletion :=
  {| routes_state := {| RoutesPage.feed := initial_page; RoutesPage.togglingIds := ∅; savingRouteIds := ∅ |};
     deletingRoute := None; route_dialog := {| dlg_submitting := false; dlg_error := None |} |}.

Lemma dialogs_keep_contract_witness :
  let m := dialog_run (initially routes_idle) [Open asked_route; Confirm; Cancel; Confirm] in
  target (at_page m) = Some asked_route /\ busy (at_page m) = true /\
  sent m = [RoutesApi.routes_delete (js "r1")].
Proof.
  exact (proj1 dialogs_keep_contract routes_idle [Open asked_route; Confirm; Cancel; Confirm] eq_refl eq_refl).
Defined.

(** *** Where the dialogs differ from what they mean to do *)

(** The dialogs of routes and certificates stay mounted: after a failed
    deletion that is cancelled, the dialog of the next item opens with the
    failure of the one before. *)
Lemma old_failure_shown (s : RoutesDeletion) (x y : RoutesApi.RouteItem) (e : ApiError) :
  deletingRoute s = None -> dlg_submitting (route_dialog s) = false -> err_message e <> [] ->
  let m := dialog_run (initially s) [Open x; Confirm; Answer (Throw e); Cancel; Open y] in
  target (at_page m) = Some y /\ last_error (at_page m) = Some (err_message e).
Proof.
  destruct s as [st t [b er]]. cbn. intros -> -> He. unfold str_or.
  destruct (err_message e) eqn:Em; [done|]. done.
Qed.

Lemma old_certificate_failure_shown (s : CertificatesDeletion) (x y : CertificatesApi.CertificateItem) (e : ApiError) :
  deletingCert s = None -> d_submitting (certificate_dialog s) = false -> err_message e <> [] ->
  let m := dialog_run (initially s) [Open x; Confirm; Answer (Throw e); Cancel; Open y] in
  target (at_page m) = Some y /\ last_error (at_page m) = Some (err_message e).
Proof.
  destruct s as [st t [b er]]. cbn. intros -> -> He. unfold str_or.
  destruct (err_message e) eqn:Em; [done|]. done.
Qed.

(** The upstreams page: the button that closes its dialog and Cancel are
    not disabled while a deletion is under way. *)
Record upstream_machine := { u_page : delete_state; u_flight : option UpstreamItem; u_sent : list call }.

Definition u_set_target (o : option UpstreamItem) (d : delete_state) : delete_state :=
  {| deleteTarget := o; deleting := deleting d; page_error := page_error d |}.

Definition upstream_dialog_step (m : upstream_machine) (e : dialog_event UpstreamItem) : upstream_machine :=
  match e, deleteTarget (u_page m) with
  | Open x, None => {| u_page := u_set_target (Some x) (u_page m); u_flight := u_flight m; u_sent := u_sent m |}
  | Cancel, Some _ => {| u_page := u_set_target None (u_page m); u_flight := u_flight m; u_sent := u_sent m |}
  | Confirm, Some x =>
      if deleting (u_page m) then m else
      match UpstreamsPage.delete_start (u_page m) with
      | (d, Some c) => {| u_page := d; u_flight := Some x; u_sent := u_sent m ++ [c] |}
      | (d, None) => {| u_page := d; u_flight := u_flight m; u_sent := u_sent m |}
      end
  | Answer r, _ =>
      match u_flight m with
      | Some _ => {| u_page := (UpstreamsPage.delete_finish (u_page m) r).1; u_flight := None; u_sent := u_sent m |}
      | None => m
      end
  | _, _ => m
  end.

(** What its dialog shows: the name, the warning about bound domains, the
    label of the button and whether it is disabled. *)
Record upstream_dialog := { ud_name : jsstring; ud_bound : option Z; ud_confirm : jsstring; ud_disabled : bool }.

Definition upstream_dialog_of (d : delete_state) : option upstream_dialog :=
  match deleteTarget d with
  | None => None
  | Some u => Some {| ud_name := u_name u;
                      ud_bound := if (0 <? u_boundDomainsCount u)%Z then Some (u_boundDomainsCount u) else None;
                      ud_confirm := if deleting d then deleting_text else js "Delete Upstream";
                      ud_disabled := deleting d |}
  end.

(** So the answer to a deletion closes the dialog that was opened since for
    another upstream. *)
Lemma upstream_answer_closes_other (x y : UpstreamItem) (r : result ApiError val) (er : option jsstring) :
  let m0 := {| u_page := {| deleteTarget := None; deleting := false; page_error := er |}; u_flight := None; u_sent := [] |} in
  let m := fold_left upstream_dialog_step [Open x; Confirm; Cancel; Open y] m0 in
  deleteTarget (u_page m) = Some y /\ deleting (u_page m) = true /\
  deleteTarget (u_page (upstream_dialog_step m (Answer r))) = None /\
  item_of (contract_run (fun u => UpstreamsApi.upstreams_delete (u_id u)) true [Open x; Confirm; Cancel; Open y]) = Some x.
Proof. done. Qed.
End DeleteDialogs.
