(* ===== verification/Screens.v ===== *)
(** * The screens of the list pages

    What [pages/routes/page.tsx], [pages/certificates/page.tsx] and
    [pages/l4/page.tsx] render from the state that [Polling] and the filters
    keep: the button that refreshes, the message of a failure, the cards of
    [ListParts] and the table below them. A page says how it draws its rows
    in the class [ListScreen]; the theorems follow an answer of the control
    plane from its arrival to the screen. *)

From Stdlib Require Import ZArith NArith Lia String.
From stdpp Require Import gmap.
From S2P Require Import Prelude JsString JsValue Fetcher Api Polling RoutesPage CertificatesPage L4Page.
From S2P Require Import UpstreamForms UpstreamsPage ListViews Views ListParts.
Import Polling StatCards.
Local Open Scope string_scope.
Local Open Scope list_scope.

(** [Crashed]: drawing a row throws, and React draws nothing at all. *)
Inductive table_body (R : Type) := Spinner (m : jsstring) | NoRows (m : list jsstring) | TableRows (l : list R) | Crashed.
Arguments Spinner {R}.
Arguments NoRows {R}.
Arguments TableRows {R}.
Arguments Crashed {R}.

Record screen (R : Type) := {
  refresh_disabled : bool;
  banner : option jsstring;
  shown_cards : list (stat_card * bool);
  table : table_body R
}.
Arguments refresh_disabled {R}.
Arguments banner {R}.
Arguments shown_cards {R}.
Arguments table {R}.

(** [marks] are the rows whose switch is under way. *)
Class ListScreen (A F R : Type) `{StatPage A F} := {
  spinner_shown : view A -> bool;
  spinner_text : jsstring;
  empty_text : F -> list jsstring;
  row_view : gset jsstring -> A -> option R;
  spinner_ends v : loading v = false -> spinner_shown v = false
}.

Section Screen.
Context {A F R : Type} `{ListScreen A F R}.

Definition table_of (marks : gset jsstring) (f : F) (l : list A) : table_body R :=
  match rows f l with
  | [] => NoRows (empty_text f)
  | kept => match mapM (row_view marks) kept with Some rs => TableRows rs | None => Crashed end
  end.

Definition cards_of (f : F) (l : list A) : list (stat_card * bool) :=
  map (fun c => (c, isSelected (selectedFilter f) c)) (statCards l).

(** [{error && ...}]: an empty message is not shown. *)
Definition banner_of (e : option jsstring) : option jsstring := match e with Some (_ :: _) => e | _ => None end.

Definition screen_of (marks : gset jsstring) (f : F) (v : view A) : screen R :=
  {| refresh_disabled := isRefreshing v; banner := banner_of (error v); shown_cards := cards_of f (items v);
     table := if spinner_shown v then Spinner spinner_text else table_of marks f (items v) |}.

(** What the answer to the latest request puts on the screen; [fallback] is
    the message of the page for a failure that has none. *)
Definition answered_screen (fallback : jsstring) (marks : gset jsstring) (f : F) (before : list A)
    (r : result jsstring (list A)) : screen R :=
  let l := match r with Ok l => l | Throw _ => before end in
  {| refresh_disabled := false; banner := match r with Ok _ => None | Throw m => Some (str_or m fallback) end;
     shown_cards := cards_of f l; table := table_of marks f l |}.

(** The latest answer decides the screen, whatever else arrives. *)
Definition answer_decides (feed : ListPage A) (fallback : jsstring) : Prop :=
  forall (marks : gset jsstring) (f : F) (s s' : page (A := A)) (es : list event) (spin : bool) (r : result jsstring (list A)),
  star page_step (fetch_start spin s) es s' -> Forall is_settle es -> Settle (S (sequence s)) r ∈ es ->
  screen_of marks f (shown s') = answered_screen fallback marks f (items (shown s)) r.

(** After the first answer the spinner does not come back. *)
Definition spinner_gone (feed : ListPage A) : Prop :=
  forall (marks : gset jsstring) (f : F) (s s' : page (A := A)) (es : list event) (m : jsstring),
  loading (shown s) = false -> star page_step s es s' -> table (screen_of marks f (shown s')) <> Spinner m.

Section Polled.
Context (c : N) (fallback : jsstring).
#[local] Instance this_page : ListPage A := polled_page c fallback.

Lemma settled_screen marks f r (v : view A) :
  screen_of marks f (settled_view r v) = answered_screen (c :: fallback) marks f (items v) r.
Proof.
  unfold screen_of, answered_screen, settled_view. rewrite spinner_ends by apply on_finally_loading.
  destruct r as [l|m]; [done|]. cbn. by destruct m.
Qed.

Lemma latest_answer_decides : answer_decides this_page (c :: fallback).
Proof.
  intros marks f s s' es spin r Hs Hes Hin. rewrite (latest_outcome _ _ _ _ Hs Hes Hin).
  etrans; [apply settled_screen|done].
Qed.

Lemma loading_stays_off (s s' : page (A := A)) es :
  loading (shown s) = false -> star page_step s es s' -> loading (shown s') = false.
Proof.
  intros Hl Hs. revert Hl. induction Hs as [|s e s1 es s2 Hstep _ IH]; [done|]. intros Hl. apply IH.
  destruct Hstep as [|s n r _| |]; [done| |done|done]. cbn. destruct (Nat.eqb n (sequence s)); [by destruct r|done].
Qed.

Lemma spinner_gone_for_good : spinner_gone this_page.
Proof.
  intros marks f s s' es m Hl Hs. pose proof (loading_stays_off _ _ _ Hl Hs) as Hl'. cbn. rewrite spinner_ends by done.
  unfold table_of. destruct (rows f _); [done|]. by destruct (mapM _ _).
Qed.
End Polled.

Lemma polled_answers c rest (feed : ListPage A) (fallback : jsstring) :
  feed = polled_page c rest -> fallback = c :: rest -> answer_decides feed fallback.
Proof. intros -> ->. apply latest_answer_decides. Qed.

Lemma polled_spinner c rest (feed : ListPage A) : feed = polled_page c rest -> spinner_gone feed.
Proof. intros ->. apply spinner_gone_for_good. Qed.
End Screen.

(** ** The pages *)

Definition nothing_shown {A} (l : list A) : bool := match l with [] => true | _ => false end.

(** A row of the table of certificates; the badges of its host names throw
    for a text that is JSON but not a list of strings. *)
Record cert_row := {
  cr_name : jsstring;
  cr_id : jsstring;
  cr_subtitle : jsstring;
  cr_badges : list (val * bool);
  cr_no_snis : bool;
  cr_tls : jsstring;
  cr_on : bool;
  cr_switch : option bool
}.

Definition tls_text (c : CertificatesApi.CertificateItem) : jsstring :=
  if CertificatesApi.mtls_enabled c
  then js "mTLS Active (Depth: " ++ int_string (CertificatesApi.verify_depth c) ++ js ")"
  else js "Standard TLS".

Definition cert_row_of (locale_date : jsstring -> jsstring) (marks : gset jsstring) (c : CertificatesApi.CertificateItem) :
    option cert_row :=
  bs ← CertTable.badges_of c;
  Some {| cr_name := CertificatesApi.name c; cr_id := CertificatesApi.id c; cr_subtitle := CertTable.subtitle locale_date c;
          cr_badges := bs; cr_no_snis := nothing_shown bs; cr_tls := tls_text c; cr_on := CertificatesApi.enabled c;
          cr_switch := CertTable.switch_click (bool_decide (CertificatesApi.id c ∈ marks)) c |}.

(** [Clear Filter], beside the search box of the certificates. *)
Definition clear_filter_text (f : cert_filters) : option jsstring :=
  match CertificatesPage.statFilter f with
  | Some ((_ :: _) as k) => Some (js "Clear Filter (" ++ k ++ js ")")
  | _ => None
  end.

(** A row of the table of L4 services. *)
Record l4_row := {
  lr_name : jsstring;
  lr_id : jsstring;
  lr_subtitle : jsstring;
  lr_listener : jsstring * Z;
  lr_target : L4Table.target_cell;
  lr_acl : L4Table.acl_cell;
  lr_timeouts : jsstring * jsstring;
  lr_status : jsstring;
  lr_hint : jsstring
}.

Definition l4_row_of (locale_date : jsstring -> jsstring) (marks : gset jsstring) (s : L4Api.L4ServiceItem) : option l4_row :=
  match L4Table.acls_of s with
  | L4Table.Throws => None
  | acl =>
      Some {| lr_name := L4Api.name s; lr_id := L4Api.id s; lr_subtitle := L4Table.subtitle locale_date s;
              lr_listener := (L4Api.protocol s, L4Api.listen_port s); lr_target := L4Table.target_of s; lr_acl := acl;
              lr_timeouts := L4Table.timeouts s; lr_status := L4Table.status_text s;
              lr_hint := if L4Api.enabled s then js "Click to disable" else js "Click to enable" |}
  end.

Section Pages.
Context `{CaseMapping} `{Collation} (locale_date : jsstring -> jsstring).

(** The table of the routes; the canvas is in [CanvasViews]. *)
#[export] Instance routes_screen : ListScreen RoutesApi.RouteItem filters RoutesBar.route_row.
Proof.
  refine {| spinner_shown v := loading v && nothing_shown (items v);
            spinner_text := js "Loading routing table...";
            empty_text _ := [js "No routes found";
              js "No routing rules match your search or filter criteria. Create a new route to direct traffic to your upstreams."];
            row_view marks r := Some (RoutesBar.row_of locale_date (bool_decide (RoutesApi.id r ∈ marks)) r) |}.
  by intros v ->.
Defined.

#[export] Instance certificates_screen : ListScreen CertificatesApi.CertificateItem cert_filters cert_row.
Proof.
  refine {| spinner_shown v := loading v && nothing_shown (items v);
            spinner_text := js "Loading certificate store...";
            empty_text _ := [js "No SSL certificates found";
              js "No certificates match your query. Install a certificate with SNI bindings to enable HTTPS and HTTP/2 on your domains."];
            row_view := cert_row_of locale_date |}.
  by intros v ->.
Defined.

#[export] Instance l4_screen : ListScreen L4Api.L4ServiceItem l4_filters l4_row.
Proof.
  refine {| spinner_shown := loading;
            spinner_text := js "Loading L4 stream services...";
            empty_text f := [js "No L4 Services found";
              if L4Table.filters_active f then js "No Layer 4 stream services match your search or filter criteria."
              else js "Create your first L4 TCP/UDP service to proxy raw transport traffic with CIDR access control."];
            row_view := l4_row_of locale_date |}.
  done.
Defined.

(** C5: from the answer to the screen. After a page makes a request, in
    whatever order it and older ones are answered, the screens of the
    routes, certificates and L4 pages are decided by its answer alone: a
    list clears the message, fills the cards and the table with that list;
    a failure shows its message (or the one of the page) above the cards
    and the table of the list that was there; both enable the refresh
    button and end the spinner, which never comes back after the first
    answer whatever happens. *)
Theorem screens_follow_answers :
  answer_decides (F := filters) (R := RoutesBar.route_row) routes_feed (js "Failed to load routes from backend") /\
  answer_decides (F := cert_filters) (R := cert_row) certificates_feed (js "Failed to load certificates from backend") /\
  answer_decides (F := l4_filters) (R := l4_row) l4_feed (js "Failed to load L4 Gateway configurations") /\
  spinner_gone (F := filters) (R := RoutesBar.route_row) routes_feed /\
  spinner_gone (F := cert_filters) (R := cert_row) certificates_feed /\
  spinner_gone (F := l4_filters) (R := l4_row) l4_feed.
Proof.
  split; [|split; [|split; [|split; [|split]]]].
  - apply (polled_answers 70 (js "ailed to load routes from backend")); [reflexivity|vm_compute; reflexivity].
  - apply (polled_answers 70 (js "ailed to load certificates from backend")); [reflexivity|vm_compute; reflexivity].
  - apply (polled_answers 70 (js "ailed to load L4 Gateway configurations")); [reflexivity|vm_compute; reflexivity].
  - apply (polled_spinner 70 (js "ailed to load routes from backend")). reflexivity.
  - apply (polled_spinner 70 (js "ailed to load certificates from backend")). reflexivity.
  - apply (polled_spinner 70 (js "ailed to load L4 Gateway configurations")). reflexivity.
Qed.

(** Host names stored as JSON that is not a list of strings are not guarded
    as they are in the counters: one such certificate among the rows, and
    the page draws nothing. *)
Lemma odd_snis_crash (f : cert_filters) (marks : gset jsstring) (v : view CertificatesApi.CertificateItem)
    (c : CertificatesApi.CertificateItem) :
  loading v = false -> c ∈ filteredCertificates f (items v) ->
  CertificatesApi.snis_json c = js "null" ->
  table (screen_of marks f v) = Crashed /\ has_wildcard c = false.
Proof.
  intros Hl Hin Hc.
  assert (CertTable.badges_of c = None) as Hb by (unfold CertTable.badges_of; rewrite Hc; vm_compute; reflexivity).
  split; [|unfold has_wildcard; rewrite Hc; vm_compute; reflexivity].
  unfold screen_of. cbn [table]. rewrite spinner_ends by done. unfold table_of. change (rows f (items v)) with (filteredCertificates f (items v)).
  destruct (filteredCertificates f (items v)) as [|x l] eqn:El; [by apply elem_of_nil in Hin|].
  destruct (mapM _ _) as [rs|] eqn:Em; [|done]. apply mapM_Some in Em.
  apply list_elem_of_lookup in Hin as [i Hi]. destruct (Forall2_lookup_l _ _ _ _ _ Em Hi) as (r & _ & Hr).
  cbn in Hr. unfold cert_row_of in Hr. by rewrite Hb in Hr.
Qed.
End Pages.

(** A failed answer overtaken by nothing, an older list arriving after it. *)
Definition crt (i : string) : CertificatesApi.CertificateItem :=
  {| CertificatesApi.id := js i; CertificatesApi.name := js i; CertificatesApi.snis_json := js "[]";
     CertificatesApi.cert_pem := []; CertificatesApi.key_configured := true; CertificatesApi.mtls_enabled := false;
     CertificatesApi.client_ca_pem := []; CertificatesApi.verify_depth := 1; CertificatesApi.enabled := true;
     CertificatesApi.description := js "edge"; CertificatesApi.created_at := []; CertificatesApi.updated_at := [] |}.

Definition all_certificates : cert_filters := {| CertificatesPage.searchQuery := []; CertificatesPage.statFilter := None |}.

Lemma screens_follow_answers_witness :
  let s := fetch_start (H := certificates_feed) true (initial_page (A := CertificatesApi.CertificateItem)) in
  let answered := fetch_settle (H := certificates_feed) 1 (Ok [crt "old"])
                    (fetch_settle (H := certificates_feed) 2 (Ok [crt "new"]) (fetch_start (H := certificates_feed) false s)) in
  match table (screen_of (H0 := certificates_screen (fun d => d)) ∅ all_certificates (shown answered)) with
  | TableRows [r] => cr_name r = js "new"
  | _ => False
  end.
Proof.
  cbv zeta.
  rewrite (proj1 (proj2 (screens_follow_answers (fun d => d))) ∅ all_certificates
             (fetch_start (H := certificates_feed) true initial_page) _
             [Settle 2 (Ok [crt "new"]); Settle 1 (Ok [crt "old"])] false (Ok [crt "new"])).
  - vm_compute. reflexivity.
  - eapply star_cons; [apply StepSettle; by constructor|]. eapply star_cons; [apply StepSettle; by constructor|apply star_nil].
  - by repeat constructor.
  - by constructor.
Defined.

(** ** The upstreams page *)

Module UpstreamsScreen.
#[local] Existing Instance upstreams_feed.

(** The counters above the table: label, number and text. *)
Definition upstream_cards (l : list UpstreamItem) : list (jsstring * nat * jsstring) :=
  let c := upstream_counters l in
  [(js "TOTAL UPSTREAMS", totalUpstreams c, js "Configured origin clusters");
   (js "CONFIGURED BACKENDS", totalNodes c, js "Passive failure detection · active probes unavailable");
   (js "INTERNAL SSL / MTLS", sslProtectedCount c, js "Upstreams encrypted to BE");
   (js "LOAD BALANCERS", UpstreamTable.load_balancers l, js "Multi-node cluster pools")].

Record upstream_row := {
  ur_name : jsstring;
  ur_description : option jsstring;
  ur_type : jsstring;
  ur_algorithm : option jsstring;
  ur_nodes : list (jsstring * option Z);
  ur_ssl : UpstreamTable.ssl_cell;
  ur_probes : list jsstring;
  ur_bound : jsstring;
  ur_edit : jsstring
}.

Definition upstream_row_of (u : UpstreamItem) : upstream_row :=
  {| ur_name := u_name u;
     ur_description := match u_description u with Some (_ :: _) => u_description u | _ => None end;
     ur_type := type_string (u_type u); ur_algorithm := UpstreamTable.algorithm_line u;
     ur_nodes := map UpstreamTable.node_chip (u_servers u); ur_ssl := UpstreamTable.ssl_cell_of u;
     ur_probes := map UpstreamTable.probe_chip (u_probes u);
     ur_bound := int_string (u_boundDomainsCount u) ++ js " domains";
     ur_edit := js "/upstreams/" ++ u_id u ++ js "/edit" |}.

(** The list, the controls above it and the dialog; [error] of the list is
    also where a failed deletion leaves its message. *)
Record UpstreamsView := {
  uv_feed : page (A := UpstreamItem);
  uv_search : jsstring;
  uv_type : option UpstreamType;
  uv_target : option UpstreamItem;
  uv_deleting : bool
}.

Definition type_options : list (jsstring * jsstring) :=
  [(js "ALL", js "All Types"); (js "Single Server", js "Single Server"); (js "Load Balancer", js "Load Balancer");
   (js "External (FQDN)", js "External (FQDN)")].

Inductive upstreams_event :=
| SearchFor (q : jsstring)
| ChooseType (t : option UpstreamType)
| AskDelete (u : UpstreamItem)
| CloseDialog
| PollUpstreams
| UpstreamsAnswer (n : nat) (r : result jsstring (list UpstreamItem))
| DeletionAnswer (r : result ApiError val)
| DeletionReloaded.

Definition set_feed (p : page) (s : UpstreamsView) : UpstreamsView :=
  {| uv_feed := p; uv_search := uv_search s; uv_type := uv_type s; uv_target := uv_target s; uv_deleting := uv_deleting s |}.
Definition set_target (o : option UpstreamItem) (deleting : bool) (s : UpstreamsView) : UpstreamsView :=
  {| uv_feed := uv_feed s; uv_search := uv_search s; uv_type := uv_type s; uv_target := o; uv_deleting := deleting |}.
Definition set_filters (q : jsstring) (t : option UpstreamType) (s : UpstreamsView) : UpstreamsView :=
  {| uv_feed := uv_feed s; uv_search := q; uv_type := t; uv_target := uv_target s; uv_deleting := uv_deleting s |}.

Definition set_error (m : jsstring) (p : page (A := UpstreamItem)) : page :=
  {| shown := set_view_error (shown p) (Some m); sequence := sequence p; pending := pending p; applied := applied p |}.

Definition upstreams_handle (s : UpstreamsView) (e : upstreams_event) : UpstreamsView :=
  match e with
  | SearchFor q => set_filters q (uv_type s) s
  | ChooseType t => set_filters (uv_search s) t s
  | AskDelete u => set_target (Some u) (uv_deleting s) s
  | CloseDialog => set_target None (uv_deleting s) s
  | PollUpstreams => set_feed (fetch_start false (uv_feed s)) s
  | UpstreamsAnswer n r => set_feed (fetch_settle n r (uv_feed s)) s
  | DeletionAnswer (Ok _) => set_feed (fetch_start false (uv_feed s)) s
  | DeletionAnswer (Throw err) =>
      set_target None false (set_feed (set_error (str_or (err_message err) (js "Failed to delete upstream")) (uv_feed s)) s)
  | DeletionReloaded => set_target None false s
  end.

Inductive upstreams_table := LoadingPools | Failure (m : jsstring) | NoUpstreams | UpstreamRows (l : list upstream_row).

Section View.
Context `{CaseMapping}.

Definition upstreams_table_of (s : UpstreamsView) : upstreams_table :=
  match UpstreamTable.body_of (shown (uv_feed s)) (uv_type s) (uv_search s) with
  | UpstreamTable.Loading => LoadingPools
  | UpstreamTable.Failed m => Failure m
  | UpstreamTable.Empty => NoUpstreams
  | UpstreamTable.Rows l => UpstreamRows (map upstream_row_of l)
  end.

(** A failed deletion takes the table away: although the list is loaded,
    its message stands in place of the rows; the next poll, within five
    seconds, removes the message and loads again. *)
Lemma failed_deletion_hides_table (s : UpstreamsView) (err : ApiError) :
  loading (shown (uv_feed s)) = false -> err_message err <> [] ->
  let s1 := upstreams_handle s (DeletionAnswer (Throw err)) in
  upstreams_table_of s1 = Failure (err_message err) /\ items (shown (uv_feed s1)) = items (shown (uv_feed s)) /\
  error (shown (uv_feed (upstreams_handle s1 PollUpstreams))) = None.
Proof.
  intros Hl He s1. unfold s1, upstreams_table_of, UpstreamTable.body_of. cbn. rewrite Hl.
  destruct (err_message err); [done|]. done.
Qed.

(** When the filters hide every upstream, the table says that none is
    configured and offers to create the first. *)
Lemma hidden_upstreams_unconfigured (s : UpstreamsView) :
  loading (shown (uv_feed s)) = false -> error (shown (uv_feed s)) = None ->
  Forall (fun u => upstream_kept (uv_type s) (uv_search s) u = false) (items (shown (uv_feed s))) ->
  upstreams_table_of s = NoUpstreams.
Proof.
  intros Hl He Hf. unfold upstreams_table_of, UpstreamTable.body_of. rewrite Hl, He. unfold filtered.
  induction (items (shown (uv_feed s))) as [|u l IH]; [done|]. inversion Hf as [|? ? Hu Hl']; subst.
  cbn [List.filter]. rewrite Hu. by apply IH.
Qed.
End View.
End UpstreamsScreen.
