(* ===== verification/ExtensionHub.v ===== *)
(** * The extensions page with its dialog

    [pages/extensions/page.tsx] around
    [components/ExtensionConfigModal.tsx]: the list, the dialog of the
    extension that is being configured, the configurations and switches on
    their way to the control plane, and the timers that close the dialog
    after a save. The handlers are those of [ExtensionsPage] and
    [ExtensionConfig]; here they run together, with answers and timers in
    any order. The cards and the table of the page are at the end. *)

From Stdlib Require Import ZArith NArith Lia String.
From stdpp Require Import gmap.
From S2P Require Import Prelude JsString JsValue Json Fetcher Api Optimistic ExtensionConfig ExtensionsPage ListViews ExtensionViews.
Import ExtensionsApi.
Local Open Scope string_scope.
Local Open Scope list_scope.

(** A configuration under way: the dialog it was saved from (dialogs are
    numbered as they are opened), its extension and the text. *)
Record save := { save_from : nat; save_ext : jsstring; save_text : jsstring }.

(** [dialog] is the state of the open dialog, [openings] its number;
    [timers] counts the calls of [onClose] that are scheduled. *)
Record hub_state := {
  hub_page : ExtensionsState;
  dialog : option modal;
  openings : nat;
  saves : list save;
  switches : list (jsstring * bool);
  timers : nat
}.

Definition set_open (o : option HubExtension) (s : ExtensionsState) : ExtensionsState :=
  {| extensions := extensions s; loading := loading s; isRefreshing := isRefreshing s; error := error s;
     togglingIds := togglingIds s; configuringExt := o |}.

(** What [useState] and the effect make of a dialog that is opened. *)
Definition fresh_dialog (e : HubExtension) : modal :=
  open_modal
    {| workspaceMode := Visual; configText := []; parsedConfig := VObj []; rules := []; isEditingRule := false;
       editingIndex := None; ruleForm := []; jsonError := None; isSaving := false; saveSuccess := false |}
    (config_json (hub e)).

Definition open_hub (e : HubExtension) (h : hub_state) : hub_state :=
  {| hub_page := set_open (Some e) (hub_page h); dialog := Some (fresh_dialog e); openings := S (openings h);
     saves := saves h; switches := switches h; timers := timers h |}.

Definition close_hub (h : hub_state) : hub_state :=
  {| hub_page := set_open None (hub_page h); dialog := None; openings := openings h; saves := saves h;
     switches := switches h; timers := timers h |}.

Definition set_dialog (m : option modal) (h : hub_state) : hub_state :=
  {| hub_page := hub_page h; dialog := m; openings := openings h; saves := saves h; switches := switches h;
     timers := timers h |}.

Section Hub.
Variable syntax_message : jsstring -> jsstring.
Variable null_message : jsstring.

(** The button of the dialog that saves. *)
Definition apply_hub (e : HubExtension) (m : modal) (h : hub_state) : hub_state :=
  match apply_start syntax_message m with
  | (m', Some text) =>
      {| hub_page := hub_page h; dialog := Some m'; openings := openings h;
         saves := {| save_from := openings h; save_ext := id (hub e); save_text := text |} :: saves h;
         switches := switches h; timers := timers h |}
  | (m', None) => set_dialog (Some m') h
  end.

(** The answer to a save: the page changes its list, the dialog it came
    from, if it is still open, is told, and a success schedules a close. *)
Definition saved_hub (sv : save) (rest : list save) (r : result jsstring val) (h : hub_state) : hub_state :=
  let '(p, ok) := save_finish (hub_page h) (save_ext sv) (save_text sv) r in
  {| hub_page := p;
     dialog := if Nat.eqb (save_from sv) (openings h) then (fun m => (apply_finish m ok).1) <$> dialog h else dialog h;
     openings := openings h; saves := rest; switches := switches h;
     timers := if ok then S (timers h) else timers h |}.

(** The switch of the header, and its answer. *)
Definition switch_hub (i : jsstring) (b : bool) (h : hub_state) : hub_state :=
  {| hub_page := (ext_toggle_start (hub_page h) i b).1;
     dialog := dialog_after_switch (hub_page h) i <$> dialog h; openings := openings h; saves := saves h;
     switches := (i, b) :: switches h; timers := timers h |}.

Definition switched_hub (i : jsstring) (b : bool) (rest : list (jsstring * bool)) (r : result jsstring val) (h : hub_state) : hub_state :=
  {| hub_page := ext_toggle_finish (hub_page h) i b r;
     dialog := match r with Ok _ => dialog h | Throw _ => dialog_after_switch (hub_page h) i <$> dialog h end;
     openings := openings h; saves := saves h; switches := rest; timers := timers h |}.

Definition fire_hub (n : nat) (h : hub_state) : hub_state :=
  let c := close_hub h in
  {| hub_page := hub_page c; dialog := dialog c; openings := openings c; saves := saves c; switches := switches c; timers := n |}.

Inductive hub_event := OpenExt (e : HubExtension) | CloseExt | EditExt | Apply | SaveAnswered | Switch | SwitchAnswered | TimerFired.

(** An open dialog covers the page. [EditExt] is any handler of the dialog
    but the one that saves. *)
Inductive hub_step : hub_state -> hub_event -> hub_state -> Prop :=
| HubOpen h e : configuringExt (hub_page h) = None -> hub_step h (OpenExt e) (open_hub e h)
| HubClose h : hub_step h CloseExt (close_hub h)
| HubEdit h m e m' : dialog h = Some m -> modal_step syntax_message null_message m e m' ->
    isSaving m' = isSaving m -> hub_step h EditExt (set_dialog (Some m') h)
| HubApply h e m : configuringExt (hub_page h) = Some e -> dialog h = Some m ->
    snd (Workspace.hv_save (Workspace.header_of (hub e) m)) = false -> hub_step h Apply (apply_hub e m h)
| HubSaved h w1 sv w2 r : saves h = w1 ++ sv :: w2 -> hub_step h SaveAnswered (saved_hub sv (w1 ++ w2) r h)
| HubSwitch h e i b : configuringExt (hub_page h) = Some e -> Workspace.switch_click (hub e) = Some (i, b) ->
    hub_step h Switch (switch_hub i b h)
| HubSwitched h w1 i b w2 r : switches h = w1 ++ (i, b) :: w2 ->
    hub_step h SwitchAnswered (switched_hub i b (w1 ++ w2) r h)
| HubTimer h n : timers h = S n -> hub_step h TimerFired (fire_hub n h).

(** *** The invariant *)

Record hub_inv (h : hub_state) : Prop := {
  hub_open : dialog h = None <-> configuringExt (hub_page h) = None;
  hub_once : NoDup (map save_from (saves h));
  hub_past : Forall (fun sv => save_from sv <= openings h) (saves h);
  hub_saving m : dialog h = Some m -> (isSaving m = true <-> openings h ∈ map save_from (saves h));
  hub_own e : configuringExt (hub_page h) = Some e ->
    Forall (fun sv => save_from sv = openings h -> save_ext sv = id (hub e)) (saves h)
}.

Definition hub_start (s : ExtensionsState) : hub_state :=
  {| hub_page := set_open None s; dialog := None; openings := 0; saves := []; switches := []; timers := 0 |}.

Lemma hub_start_inv s : hub_inv (hub_start s).
Proof. constructor; cbn; try done; constructor. Qed.

Lemma open_modal_saving m t : isSaving (open_modal m t) = isSaving m.
Proof. unfold open_modal. by destruct (parse _) as [[]|]. Qed.

Lemma after_switch_saving s i m : isSaving (dialog_after_switch s i m) = isSaving m.
Proof.
  unfold dialog_after_switch. destruct (configuringExt s); [|done]. destruct (jeqb _ _); [apply open_modal_saving|done].
Qed.

Lemma switch_open_id i b o e : switch_open i b o = Some e -> exists e0, o = Some e0 /\ id (hub e0) = id (hub e).
Proof.
  destruct o as [e0|]; [|done]. intros [= <-]. exists e0. split; [done|]. by destruct (jeqb _ _).
Qed.

Lemma apply_start_saving m text m' : apply_start syntax_message m = (m', Some text) -> isSaving m' = true.
Proof. unfold apply_start. destruct (parse _); [|done]. by intros [= <- _]. Qed.

Lemma apply_start_refused m m' : apply_start syntax_message m = (m', None) -> isSaving m' = false.
Proof. unfold apply_start. destruct (parse _); [done|]. by intros [= <-]. Qed.

(** Replacing the page and the dialog, when the dialog keeps its mark. *)
Lemma hub_inv_switch (h h' : hub_state) f i b (p' := hub_page h') :
  hub_inv h -> dialog h' = f <$> dialog h -> (forall m, isSaving (f m) = isSaving m) ->
  configuringExt p' = switch_open i b (configuringExt (hub_page h)) \/ configuringExt p' = configuringExt (hub_page h) ->
  openings h' = openings h -> saves h' = saves h -> hub_inv h'.
Proof.
  intros [Ho Hn Hp Hs Hw] Hd Hf Hc Eo Es. constructor; rewrite ?Eo, ?Es; try done.
  - rewrite Hd, fmap_None, Ho. fold p'. destruct Hc as [->| ->]; [|done]. by destruct (configuringExt (hub_page h)).
  - intros m. rewrite Hd. intros (m0 & Hm & ->)%fmap_Some. rewrite Hf. by apply Hs.
  - intros e He. fold p' in He. destruct Hc as [Hc|Hc]; rewrite Hc in He; [|by apply Hw].
    apply switch_open_id in He as (e0 & He & <-). by apply Hw.
Qed.

Lemma hub_step_inv h ev h' : hub_inv h -> hub_step h ev h' -> hub_inv h'.
Proof.
  intros Hi Hstep. pose proof Hi as [Ho Hn Hp Hs Hw].
  destruct Hstep as [h e Hc|h|h m me m' Hd _ Hm|h e m Hc Hd Hb|h w1 sv w2 r Hsv|h e i b Hc Hb|h w1 i b w2 r Hsw|h n Ht].
  - constructor; cbn; try done.
    + eapply Forall_impl; [exact Hp|]. cbn. lia.
    + intros m [= <-]. unfold fresh_dialog. rewrite open_modal_saving. cbn. split; [done|].
      intros (sv & E & Hin)%list_elem_of_fmap. rewrite Forall_forall in Hp. specialize (Hp _ Hin). lia.
    + intros e' [= <-]. eapply Forall_impl; [exact Hp|]. cbn. lia.
  - constructor; cbn; try done.
  - constructor; cbn; try done.
    + rewrite <- Ho. by rewrite Hd.
    + intros m0 [= <-]. rewrite Hm. by apply Hs.
  - cbn in Hb. apply orb_false_iff in Hb as [Hb _].
    assert (openings h ∉ map save_from (saves h)) as Hnew by (intros Hin; apply (Hs _ Hd) in Hin; congruence).
    unfold apply_hub. destruct (apply_start _ m) as [m' [text|]] eqn:Ea.
    + constructor; cbn.
      * rewrite Hc. done.
      * by constructor.
      * by constructor.
      * intros m0 [= <-]. rewrite (apply_start_saving _ _ _ Ea). split; [by left|done].
      * intros e' He'. rewrite Hc in He'. injection He' as <-. constructor; [done|]. by apply Hw.
    + constructor; cbn; try done.
      * rewrite Hc. done.
      * intros m0 [= <-]. rewrite (apply_start_refused _ _ Ea). split; [done|]. by intros.
  - rewrite Hsv in *. rewrite map_app in Hn. cbn in Hn.
    assert (map save_from (w1 ++ sv :: w2) ≡ₚ save_from sv :: map save_from (w1 ++ w2)) as Hperm.
    { rewrite !map_app. cbn. by rewrite Permutation_middle. }
    assert (NoDup (save_from sv :: map save_from (w1 ++ w2))) as Hn' by (rewrite <- Hperm, map_app; done).
    apply NoDup_cons in Hn' as [Hout Hn'].
    assert (forall P, Forall P (w1 ++ sv :: w2) -> Forall P (w1 ++ w2)) as Hsub.
    { intros P. rewrite !Forall_app, Forall_cons. tauto. }
    unfold saved_hub. destruct (save_finish _ _ _ r) as [p ok] eqn:Ef.
    assert (configuringExt p = configuringExt (hub_page h)) as Ec by (destruct r; by injection Ef as <- _).
    constructor; cbn; rewrite ?Ec; auto.
    + destruct (Nat.eqb _ _); [rewrite fmap_None|]; done.
    + intros m. destruct (Nat.eqb (save_from sv) (openings h)) eqn:E.
      * apply Nat.eqb_eq in E. intros (m0 & Hm & ->)%fmap_Some. cbn. rewrite <- E. done.
      * apply Nat.eqb_neq in E. intros Hm. rewrite (Hs _ Hm), Hperm, elem_of_cons. naive_solver.
  - eapply (hub_inv_switch h _ (dialog_after_switch (hub_page h) i) i b Hi); try done; [apply after_switch_saving|by left].
  - destruct r as [v|msg].
    + eapply (hub_inv_switch h _ (fun m => m) i b Hi); try done; [cbn; by destruct (dialog h)|by right].
    + eapply (hub_inv_switch h _ (dialog_after_switch (hub_page h) i) i (negb b) Hi); try done; [apply after_switch_saving|by left].
  - constructor; cbn; try done.
Qed.

(** The dialog tells the truth about its save. Whatever is opened,
    closed, edited, saved and switched on the extensions page, with answers
    and timers in any order: the button of the open dialog says that it is
    saving exactly while one save of this dialog is under way, that save
    names the extension of the dialog, no dialog has two under way, and a
    dialog is drawn exactly while an extension is being configured. *)
Theorem hub_saves_own (s : ExtensionsState) (es : list hub_event) (h : hub_state) :
  star hub_step (hub_start s) es h ->
  NoDup (map save_from (saves h)) /\
  match configuringExt (hub_page h), dialog h with
  | Some e, Some m =>
      (isSaving m = true <-> exists sv, sv ∈ saves h /\ save_from sv = openings h) /\
      (forall sv, sv ∈ saves h -> save_from sv = openings h -> save_ext sv = id (hub e))
  | None, None => True
  | _, _ => False
  end.
Proof.
  intros Hs. assert (hub_inv h) as [Ho Hn _ Hsv Hw].
  { eapply star_invariant; [apply hub_step_inv|apply hub_start_inv|exact Hs]. }
  split; [done|]. destruct (configuringExt (hub_page h)) as [e|] eqn:Ec, (dialog h) as [m|] eqn:Ed; try done.
  - rewrite (Hsv m eq_refl). setoid_rewrite list_elem_of_fmap. specialize (Hw e eq_refl). rewrite Forall_forall in Hw.
    split; [naive_solver|]. intros sv Hin. by apply Hw.
  - by pose proof (proj1 Ho eq_refl).
  - by pose proof (proj2 Ho eq_refl).
Qed.

(** The timer of a save does not know its dialog: when the dialog was closed
    and another extension opened within the 600 milliseconds, it closes that
    one, with what was entered. *)
Lemma timer_closes_other_dialog (h : hub_state) (e : HubExtension) :
  timers h = 1 -> configuringExt (hub_page h) = None ->
  let h1 := open_hub e h in
  configuringExt (hub_page h1) = Some e /\
  hub_step h1 TimerFired (fire_hub 0 h1) /\ configuringExt (hub_page (fire_hub 0 h1)) = None.
Proof. intros Ht Hc h1. split; [done|]. split; [|done]. by apply HubTimer. Qed.

(** The switch of the header is not disabled while it is under way: of two
    clicks that are both refused, the second roll-back undoes the first, and
    the dialog shows the state that the control plane does not have. *)
Lemma refused_switches_disagree (h : hub_state) (e : HubExtension) (m1 m2 : jsstring) :
  configuringExt (hub_page h) = Some e -> enabled (hub e) = true ->
  let h1 := switch_hub (id (hub e)) true (switch_hub (id (hub e)) false h) in
  let h2 := switched_hub (id (hub e)) true (switches h) (Throw m2)
              (switched_hub (id (hub e)) false ((id (hub e), true) :: switches h) (Throw m1) h1) in
  exists e', configuringExt (hub_page h2) = Some e' /\ id (hub e') = id (hub e) /\ enabled (hub e') = false.
Proof.
  intros He _ h1 h2. unfold h2, h1. cbn. rewrite He. cbn. unfold switch_open.
  repeat (cbn; rewrite jeqb_refl). eexists. split; [reflexivity|]. done.
Qed.
End Hub.

(** *** A run *)

Definition hub_with (e : HubExtension) : hub_state := open_hub e (hub_start example_hub).
Definition waf_extension : HubExtension := example_extension "waf" false.

Lemma hub_saves_own_witness :
  let h := apply_hub no_message waf_extension (fresh_dialog waf_extension) (hub_with waf_extension) in
  map save_ext (saves h) = [js "waf"] /\ NoDup (map save_from (saves h)).
Proof.
  set (h := apply_hub no_message waf_extension (fresh_dialog waf_extension) (hub_with waf_extension)).
  split; [vm_compute; reflexivity|].
  apply (hub_saves_own no_message [] example_hub [OpenExt waf_extension; Apply] h).
  eapply star_cons; [by apply HubOpen|]. eapply star_cons; [|apply star_nil].
  apply HubApply; [reflexivity|reflexivity|vm_compute; reflexivity].
Defined.

(** ** The cards and the table *)

(** [CATEGORIES_META[category] || { label: category, ... }] *)
Definition category_label (c : jsstring) : jsstring :=
  match obj_get c Icons.CATEGORIES_META with Some m => Icons.cm_label m | None => c end.

(** [v{manifest_version ?? version}] *)
Definition version_text (e : HubExtension) : jsstring := js "v" ++ int_string (manifest_version (hub e)).

(** What a card and a row of the table say of an extension; a click
    anywhere on a card, or on a row but its status cell, opens the dialog. *)
Record card_view := {
  cv_icon : jsstring;
  cv_name : jsstring;
  cv_id : jsstring;
  cv_version : jsstring;
  cv_active : bool;
  cv_description : jsstring;
  cv_tags : list jsstring * nat;
  cv_category : jsstring;
  cv_origin : jsstring;
  cv_delay : nat
}.

Definition ExtensionCard (index : nat) (e : HubExtension) : card_view :=
  {| cv_icon := Icons.ExtensionIcon (id (hub e)) (Some (category (hub e))); cv_name := name (hub e); cv_id := id (hub e);
     cv_version := version_text e; cv_active := enabled (hub e); cv_description := description (hub e);
     cv_tags := ExtensionBar.card_tags e; cv_category := category_label (category (hub e));
     cv_origin := ExtensionBar.origin_text e; cv_delay := ExtensionBar.delayMs index |}.

Record row_view := {
  rv_icon : jsstring;
  rv_name : jsstring;
  rv_id : jsstring;
  rv_active : bool;
  rv_description : jsstring;
  rv_category : jsstring;
  rv_version : jsstring;
  rv_origin : jsstring;
  rv_status : jsstring
}.

Definition ExtensionTable (e : HubExtension) : row_view :=
  {| rv_icon := Icons.ExtensionIcon (id (hub e)) (Some (category (hub e))); rv_name := name (hub e); rv_id := id (hub e);
     rv_active := enabled (hub e); rv_description := description (hub e);
     rv_category := category_label (category (hub e)); rv_version := version_text e;
     rv_origin := ExtensionBar.origin_text e; rv_status := ExtensionBar.status_text e |}.

Inductive row_cell := NameCell | CategoryCell | VersionCell | StatusCell | ActionCell.

(** [stopPropagation] in the status cell. *)
Definition click_row (c : row_cell) (e : HubExtension) (h : hub_state) : hub_state :=
  match c with StatusCell => h | _ => open_hub e h end.

(** The banner above the list: the label and description of the chosen
    category, with a button that shows all groups. *)
Definition category_banner (f : ext_filters) : option (jsstring * jsstring) :=
  if jeqb (selectedCategory f) (js "all") then None
  else (fun m => (Icons.cm_label m, Icons.cm_description m)) <$> obj_get (selectedCategory f) Icons.CATEGORIES_META.

Definition show_all_groups (f : ext_filters) : ext_filters :=
  {| searchQuery := searchQuery f; selectedCategory := js "all"; statusFilter := statusFilter f |}.

(** Every category that the bar offers but All has its banner, and the
    button of the banner takes it away and shows at least what was shown. *)
Lemma banner_of_category `{CaseMapping} (f : ext_filters) (l : list HubExtension) (e : HubExtension) :
  (forall k, k ∈ CATEGORIES -> obj_get k Icons.CATEGORIES_META <> None) /\
  category_banner (show_all_groups f) = None /\
  (e ∈ filteredExtensions f l -> e ∈ filteredExtensions (show_all_groups f) l).
Proof.
  split; [|split].
  - assert (Forall (fun k => is_Some (obj_get k Icons.CATEGORIES_META)) CATEGORIES) as Hall.
    { apply (bool_decide_unpack _). vm_compute. exact I. }
    intros k Hk Hn. rewrite Forall_forall in Hall. specialize (Hall _ Hk). rewrite Hn in Hall. by apply is_Some_None in Hall.
  - unfold category_banner. cbn [selectedCategory show_all_groups]. by rewrite jeqb_refl.
  - unfold filteredExtensions. rewrite !list_elem_of_In, !filter_In. intros [Hin Hk]. split; [done|].
    unfold ext_kept in *. cbn [selectedCategory show_all_groups statusFilter searchQuery]. rewrite jeqb_refl. cbn [negb andb].
    by destruct (negb (jeqb (selectedCategory f) _) && _).
Qed.
