(* ===== verification/BackupViews.v ===== *)
(** * The screen of the backup tab

    [pages/settings/tabs/backup-restore/BackupRestoreTab.tsx] and
    [sections/ImmediateBackupSection.tsx]: what the tab draws from the state
    of [BackupSettings], and its banner of success, which a timer of the
    browser takes away. *)

From Stdlib Require Import ZArith NArith Lia String.
From S2P Require Import Prelude JsString JsValue Fetcher Api BackupSettings.
Local Open Scope string_scope.
Local Open Scope list_scope.
Local Open Scope Z_scope.

(** ** What is drawn *)

(** A button with its label, and whether it is disabled. *)
Record immediate_view := {
  iv_download : jsstring * bool;
  iv_badge : jsstring;
  iv_target : jsstring;
  iv_push : jsstring * bool
}.

Definition ImmediateBackupSection (c : BackupConfig) (downloadingLocal pushingS3 : bool) : immediate_view :=
  {| iv_download := (if downloadingLocal then js "Exporting Snapshot..." else js "Download File (.db)", downloadingLocal);
     iv_badge := if s3_enabled c then js "Configured" else js "Optional";
     iv_target := s3_target c;
     iv_push := (if pushingS3 then js "Uploading to S3..." else js "Backup to S3 Now", pushingS3) |}.

Definition banner_text (m : jsstring) : option jsstring := match m with [] => None | _ => Some m end.

Inductive tab_view :=
| LoadingTab
| TabView (error success : option jsstring) (cron s3 : jsstring) (immediate : immediate_view).

Definition view_of (t : BackupRestoreTab) : tab_view :=
  if loading t then LoadingTab
  else TabView (banner_text (errorBanner t)) (banner_text (successBanner t)) (js "Cron: " ++ cron_expression (config t))
         (if s3_enabled (config t) then js "S3 Sync Active" else js "S3 Disabled")
         (ImmediateBackupSection (config t) (downloadingLocal t) (pushingS3 t)).

(** ** The banner of success *)

(** [fires] are the times of the pending [setSuccessBanner('')]. *)
Record timed := { at_tab : BackupRestoreTab; clock : Z; fires : list Z }.

Inductive banner_event :=
| SaveAnswered (r : result ApiError val)
| PushAnswered (r : result ApiError BackupHistoryItem)
| Downloaded (range_error : jsstring) (now : Z) (o : download_outcome)
| RestoreSucceeded (m : jsstring)
| DismissError
| DismissSuccess
| OverviewAnswered (r : result ApiError BackupOverview)
| Wait (ms : Z).

(** [setTimeout(() => setSuccessBanner(''), ms)] after a success. *)
Definition arm (ok : bool) (ms : Z) (s : timed) (t : BackupRestoreTab) : timed :=
  {| at_tab := t; clock := clock s; fires := if ok then (clock s + ms) :: fires s else fires s |}.

Definition is_ok {A E} (r : result E A) : bool := match r with Ok _ => true | Throw _ => false end.

Definition banner_step (s : timed) (e : banner_event) : timed :=
  match e with
  | SaveAnswered r => arm (is_ok r) 3000 s (save_settled (at_tab s) r)
  | PushAnswered r => arm (is_ok r) 4000 s (push_settled (at_tab s) r)
  | Downloaded rerr now o =>
      let '(t, f) := download_settled rerr now (at_tab s) o in
      arm (match f with Some _ => true | None => false end) 4000 s t
  | RestoreSucceeded m => arm true 4000 s (set_success m (at_tab s))
  | DismissError => arm false 0 s (set_error [] (at_tab s))
  | DismissSuccess => arm false 0 s (set_success [] (at_tab s))
  | OverviewAnswered r => arm false 0 s (loadOverview_finish (at_tab s) r)
  | Wait ms =>
      let now := clock s + Z.max 0 ms in
      let due := existsb (fun d => d <=? now) (fires s) in
      {| at_tab := if due then set_success [] (at_tab s) else at_tab s; clock := now;
         fires := List.filter (fun d => now <? d) (fires s) |}
  end.

Definition banner_run (es : list banner_event) : timed :=
  fold_left banner_step es {| at_tab := initial_tab; clock := 0; fires := [] |}.

(** A banner that is shown has a timer within four seconds. *)
Definition banner_inv (s : timed) : Prop :=
  successBanner (at_tab s) <> [] -> exists d, d ∈ fires s /\ d <= clock s + 4000.

Lemma arm_inv ok ms s t : banner_inv s -> 0 <= ms <= 4000 ->
  (ok = false -> successBanner t = successBanner (at_tab s) \/ successBanner t = []) -> banner_inv (arm ok ms s t).
Proof.
  intros Hi Hms Ht Hb. cbn in *. destruct ok.
  - exists (clock s + ms). split; [left|lia].
  - destruct (Ht eq_refl) as [E|E]; rewrite E in Hb; [by apply Hi|done].
Qed.

Lemma banner_step_inv s e : banner_inv s -> banner_inv (banner_step s e).
Proof.
  intros Hi. destruct e as [r|r|rerr now o|m| | |r|ms]; cbn [banner_step].
  - apply arm_inv; [done|lia|]. destruct r; [done|by left].
  - apply arm_inv; [done|lia|]. destruct r; [done|by left].
  - destruct (download_settled rerr now (at_tab s) o) as [t f] eqn:Ed. apply arm_inv; [done|lia|].
    destruct f; [done|]. intros _. left. unfold download_settled, download_failed in Ed.
    repeat case_match; by simplify_eq.
  - by apply arm_inv; [done|lia|].
  - apply arm_inv; [done|lia|by left].
  - apply arm_inv; [done|lia|by right].
  - apply arm_inv; [done|lia|]. intros _. left. destruct r as [[oc oh]|]; [by destruct oc|done].
  - unfold banner_inv. cbn. destruct (existsb _ _) eqn:Ex; [done|]. intros Hb. destruct (Hi Hb) as (d & Hd & Hle).
    assert (clock s + Z.max 0 ms < d) as Hlt.
    { destruct (Z.le_gt_cases d (clock s + Z.max 0 ms)) as [Hc|]; [|done].
      assert (existsb (fun d => d <=? clock s + Z.max 0 ms) (fires s) = true); [|congruence].
      apply existsb_exists. exists d. split; [by apply list_elem_of_In|]. by apply Z.leb_le. }
    exists d. split; [|lia]. apply list_elem_of_In, filter_In. split; [by apply list_elem_of_In|]. by apply Z.ltb_lt.
Qed.

(** A message of success does not stay: whatever was answered, restored and
    dismissed, after four seconds in which nothing else happens the banner
    is gone, and the banner of errors is as it was. *)
Theorem success_banner_expires (es : list banner_event) :
  let s := banner_run es in
  let s' := banner_step s (Wait 4000) in
  successBanner (at_tab s') = [] /\ errorBanner (at_tab s') = errorBanner (at_tab s).
Proof.
  intros s s'.
  assert (banner_inv s) as Hi.
  { unfold s, banner_run.
    assert (forall s0, banner_inv s0 -> banner_inv (fold_left banner_step es s0)) as Hrun; [|apply Hrun; intros Hc; by destruct Hc].
    induction es as [|e l IH]; cbn; [done|]. intros s0 H0. apply IH. by apply banner_step_inv. }
  unfold s'. cbn. destruct (existsb _ _) eqn:Ex; [done|]. split; [|done].
  destruct (successBanner (at_tab s)) eqn:Eb; [done|].
  destruct Hi as (d & Hd & Hle); [by rewrite Eb|].
  exfalso. apply not_true_iff_false in Ex. apply Ex, existsb_exists. exists d.
  split; [by apply list_elem_of_In|]. apply Z.leb_le. lia.
Qed.

(** The timer of an earlier success is not cancelled: a message that comes
    shortly before it fires is taken away with the old one. *)
Lemma second_banner_cut_short (v : val) (m : jsstring) : m <> [] ->
  let s := banner_run [SaveAnswered (Ok v); Wait 2900; RestoreSucceeded m] in
  successBanner (at_tab s) = m /\ successBanner (at_tab (banner_step s (Wait 100))) = [].
Proof. intros _. done. Qed.
