(* ===== verification/ConnectionViews.v ===== *)
(** * The metrics connection with its requests

    [pages/analytics/components/ConnectionsTab.tsx] as a machine: the form of
    [Connections] with the tests and saves under way, each with the
    configuration it was made for, and what the tab draws of them: the
    banner of the extension, the panel of the runtime, the outcome of a test,
    the message of a save and the two buttons. *)

From Stdlib Require Import ZArith NArith Lia String.
From S2P Require Import Prelude JsString JsValue Json Fetcher Api Connections ConnectionInputs.
Local Open Scope string_scope.
Local Open Scope list_scope.

(** ** What is drawn *)

(** The outcome of a test: success, message and latency, which is shown when
    it is positive. *)
Record tab_screen := {
  ts_extension : bool;
  ts_runtime : option (num * num * num);
  ts_test : option (bool * val * option num);
  ts_save : option jsstring;
  ts_test_button : jsstring * bool;
  ts_save_button : jsstring * bool
}.

(** [n > 0] *)
Definition num_positive (n : num) : bool :=
  match n with NNaN => false | NInf neg => negb neg | NDec m _ => (0 <? m)%Z end.

Definition screen_of (s : ConnectionsTab) : option tab_screen :=
  if isLoading s then None
  else Some {|
    ts_extension := extensionEnabled s;
    ts_runtime := runtime_panel s;
    ts_test := (fun t => (success t, message t, if num_positive (t_latency_ms t) then Some (t_latency_ms t) else None)) <$> testStatus s;
    ts_save := match saveMessage s with Some (_ :: _) => saveMessage s | _ => None end;
    ts_test_button := (if isTesting s then js "Đang kiểm tra..." else js "Kiểm tra Kết nối (Test Connection)", isTesting s);
    ts_save_button := (if isSaving s then js "Đang lưu..." else js "Lưu Cấu Hình", isSaving s) |}.

(** ** The requests *)

(** [tests] and [saves] hold the configurations of the requests in flight;
    [forms] every configuration the form has had, latest first. *)
Record connection := { tab : ConnectionsTab; tests : list obj; saves : list obj; forms : list obj }.

Inductive connection_event :=
| EditForm (c : obj)
| TestClick
| SaveClick
| TestAnswer (r : result ApiError TestConnectionResult)
| SaveAnswer (r : result ApiError val)
| MessageTimeout.

Definition set_tab (t : ConnectionsTab) (p : connection) : connection :=
  {| tab := t; tests := tests p; saves := saves p; forms := forms p |}.

Inductive connection_step : connection -> connection_event -> connection -> Prop :=
| DoEdit p c : connection_step p (EditForm c)
    {| tab := set_config (tab p) c; tests := tests p; saves := saves p; forms := c :: forms p |}
| DoTest p : isTesting (tab p) = false ->
    connection_step p TestClick
      {| tab := (handleTestConnection (tab p) (config (tab p))).1; tests := config (tab p) :: tests p;
         saves := saves p; forms := forms p |}
| DoSave p : isSaving (tab p) = false ->
    connection_step p SaveClick
      {| tab := (handleSaveConfig (tab p)).1; tests := tests p; saves := config (tab p) :: saves p; forms := forms p |}
| DoTested p w1 c w2 r : tests p = w1 ++ c :: w2 ->
    connection_step p (TestAnswer r)
      {| tab := test_settled (tab p) r; tests := w1 ++ w2; saves := saves p; forms := forms p |}
| DoSaved p w1 c w2 r : saves p = w1 ++ c :: w2 ->
    connection_step p (SaveAnswer r)
      {| tab := (save_settled (tab p) c r).1;
         tests := match (save_settled (tab p) c r).2 with Some _ => c :: tests p | None => tests p end;
         saves := w1 ++ w2; forms := forms p |}
| DoTimeout p : connection_step p MessageTimeout (set_tab (set_save (tab p) (isSaving (tab p)) None) p).

Record connection_inv (p : connection) : Prop := {
  inv_form : config (tab p) ∈ forms p;
  inv_saves : saves p = [] /\ isSaving (tab p) = false \/ (exists c, saves p = [c]) /\ isSaving (tab p) = true;
  inv_tests : isTesting (tab p) = true -> tests p <> [];
  inv_sent : Forall (fun c => c ∈ forms p) (tests p ++ saves p)
}.

Definition at_rest (s : ConnectionsTab) : connection := {| tab := s; tests := []; saves := []; forms := [config s] |}.

Lemma at_rest_inv s : isSaving s = false -> isTesting s = false -> connection_inv (at_rest s).
Proof. intros Hs Ht. constructor; cbn; [left|by left|by rewrite Ht|constructor]. Qed.

Lemma connection_step_inv p e p' : connection_inv p -> connection_step p e p' -> connection_inv p'.
Proof.
  intros [Hf Hs Ht Hn] Hstep.
  destruct Hstep as [p c|p Hi|p Hi|p w1 c w2 r Hw|p w1 c w2 r Hw|p]; rewrite Forall_app in Hn; destruct Hn as [Hn1 Hn2].
  - constructor; cbn; [left|done|done|]. rewrite Forall_app.
    split; (eapply Forall_impl; [eassumption|]); intros x; by right.
  - constructor; cbn; [done|done|done|]. constructor; [done|]. by rewrite Forall_app.
  - destruct Hs as [[Hs _]|[_ Hs]]; [|congruence].
    constructor; cbn; [done|right; split; [rewrite Hs; eauto|done]|done|]. rewrite Forall_app. split; [done|by constructor].
  - assert (config (test_settled (tab p) r) = config (tab p) /\ isSaving (test_settled (tab p) r) = isSaving (tab p) /\
            isTesting (test_settled (tab p) r) = false) as (E1 & E2 & E3) by (by destruct r).
    constructor; cbn; rewrite ?E1, ?E2, ?E3; [done|done|done|].
    rewrite Hw in Hn1. rewrite Forall_app, Forall_cons in Hn1. rewrite !Forall_app. naive_solver.
  - assert (w1 = [] /\ w2 = []) as [-> ->].
    { destruct Hs as [[Hs _]|[[c' Hs] _]]; rewrite Hs in Hw; [by destruct w1|]. destruct w1 as [|? [|]]; by destruct w2. }
    rewrite Hw in Hn2. cbn in Hn2. apply Forall_cons in Hn2 as [Hc _].
    destruct r as [v|er]; cbn; constructor; cbn; try done; try (by left); rewrite ?app_nil_r; [by constructor|done].
  - constructor; cbn; [done|done|done|by rewrite Forall_app].
Qed.

(** The buttons of the connection form: whatever is entered, clicked and
    answered, at most one save is in flight, exactly while its button is
    disabled; when no test is in flight the button that tests is enabled; and
    what is tested or saved is a configuration that the form has shown. *)
Theorem connection_requests_sound (s : ConnectionsTab) (es : list connection_event) (p : connection) :
  isSaving s = false -> isTesting s = false -> star connection_step (at_rest s) es p ->
  length (saves p) <= 1 /\ (isSaving (tab p) = true <-> saves p <> []) /\
  (tests p = [] -> isTesting (tab p) = false) /\ Forall (fun c => c ∈ forms p) (tests p ++ saves p).
Proof.
  intros Hs Ht Hp. assert (connection_inv p) as [_ Hv Htt Hn].
  { eapply star_invariant; [apply connection_step_inv|by apply at_rest_inv|exact Hp]. }
  split_and!; [..|done].
  - destruct Hv as [[-> _]|[[c ->] _]]; cbn; lia.
  - destruct Hv as [[-> ->]|[[c ->] ->]]; naive_solver.
  - intros E. destruct (isTesting (tab p)); [|done]. by destruct (Htt eq_refl).
Qed.

Lemma connection_requests_sound_witness :
  let s := connection_loaded initial_connections (Throw (network_error [])) in
  let p := {| tab := (handleSaveConfig s).1; tests := []; saves := [config s]; forms := [config s] |} in
  isSaving (tab p) = true <-> saves p <> [].
Proof.
  intros s p. apply (connection_requests_sound s [SaveClick] p); [reflexivity|reflexivity|].
  eapply star_cons; [by apply (DoSave (at_rest s))|apply star_nil].
Defined.

(** A save starts a test whether or not one is in flight: the answer to
    either enables the button, and the older answer, arriving last, is the
    one that stays. *)
Lemma overlapping_tests (s : ConnectionsTab) (v : val) (old new : TestConnectionResult) :
  isSaving s = false -> isTesting s = false ->
  let p1 := (handleSaveConfig (handleTestConnection s (config s)).1).1 in
  let p2 := (save_settled p1 (config s) (Ok v)).1 in
  isTesting p2 = true /\ isTesting (test_settled p2 (Ok new)) = false /\
  testStatus (test_settled (test_settled p2 (Ok new)) (Ok old)) = Some old.
Proof. done. Qed.

(** A test that fails leaves the panel of the last connection, which says
    that the server is online, above the message of the failure. *)
Lemma failed_test_keeps_panel (s : ConnectionsTab) (e : ApiError) :
  runtime_panel (test_settled s (Throw e)) = runtime_panel s /\
  exists t, testStatus (test_settled s (Throw e)) = Some t /\ success t = false.
Proof. split; [done|]. eexists. split; [reflexivity|done]. Qed.
